(* ===== verification/_CoqProject ===== *)
-Q . S2P
Prelude.v
Modular.v
GoStd.v
Json.v
Sha256.v
KVStore.v
Tables.v
Types.v
TxData.v
Merkle.v
Nonce.v
TxValidate.v
Identity.v
Keys.v
VotingState.v
VoteQuery.v
Polls.v
Tallies.v
Ballots.v
BatchFlush.v
Reseal.v
Authority.v
Confirms.v
Persist.v
App.v
Invariants.v
Determinism.v
CountMatch.v
TwoListBase.v
ChatTx.v
StoreTx.v
Domain.v
Chat.v
Store.v
DomainTheorems.v
ChatTheorems.v
StoreTheorems.v
Demo.v
Witnesses.v
ServiceWitnesses.v
BaseWitnesses.v
DomainDemo.v
Governance.v
GovernanceTally.v
WireTypes.v
WireTx.v
WireState.v
WireSupply.v
WireAccounts.v
WireContracts.v
WireCustody.v
WireAdverse.v
WirePersist.v
WireApp.v
WireFrames.v
WireLedger.v
WireInventory.v
WireTheorems.v
WireRefine.v
WireDemo.v
Shares.v
SharesTheorems.v
Config.v
ConfigTheorems.v
Persona.v
Http.v
Relay.v
RelayTheorems.v
GovServer.v
GovTheorems.v
GovDemo.v
Reconcile.v
Router.v
RouterTheorems.v
RouterDemo.v
Fabric.v
FabricTheorems.v
Cam.v
CamTheorems.v
WireApi.v
