(* ===== verification/Prelude.v ===== *)
(** * The two-list protocol: a model of the state machines and their guarantees

    The repository implements replicated state machines that keep two lists per
    context: List 1 holds anonymous submissions (a ballot, a transfer), List 2 holds
    who took part, and no record links the two.  The canonical machine is a voting
    chain (domain/state, app); protocol/submission is the same idea as a reusable
    base, on which a message domain and a secret store are built; embodiments/shywire
    is a transfer ledger with custody; embodiments/shyshares composes the voting chain
    and the ledger behind one envelope and adds a weighted governance service.  In
    front of the chains stand an ingress relay, which shuffles ballots before they are
    delivered, and the manifests a deployment is configured with.  All paths below are
    relative to src/.

    ** The files and the code they model

    Foundations.
    - [Prelude]: record update, 64-bit integers, the error monad [M] over an explicit
      state ([Ok], [Fail], [Panic]), its automation ([mrun] runs a handler, [minv]
      inverts one that returned, [keeps_auto] carries a relation through one), generic
      lemmas on maps, lists and sums.  [Modular]: congruence of 64-bit sums as a setoid
      and weighted sums over a table.
    - [GoStd], [Json], [Sha256]: the parts of Go's standard library the program uses:
      strings, hex, base64, sorting, big-endian integers; encoding/json on JSON values
      (decoding into structs by member name, the text written for a record); SHA-256,
      executable, as one instance of the class [Crypto] (digest and Ed25519 check).
    - [KVStore]: cometbft-db as the class [KVStore] with its laws [KVLaws], an in-memory
      instance, and [loadPrefix]/[prefixEnd].  [Tables]: what persistence and queries
      share, a table under a key prefix, its reload, records marshalled.  [Keys]: composite keys ["poll:record"].

    The voting chain.
    - [Types] (protocol/types/poll.go), [TxData] and [TxValidate] (protocol/tx/tx.go),
      [Nonce] (protocol/submission/nonce.go), [Identity] (services/identity,
      services/signer): data, payloads, stateless validation, interfaces.
    - [VotingState] (the struct [State] and its setters), [Polls], [Ballots], [Tallies],
      [BatchFlush], [Reseal], [Authority], [Confirms]: one file per file of
      domain/state, a [validate...] and an [execute...] per transaction type.
    - [Merkle]: [computeMerkleRoot] and [BuildSigningPayload] (verify/verify.go).
    - [Persist]: [Commit], [loadState], [NewState], [computeAppHash] of
      domain/state/state.go.  [App]: [ValidateTx], [ExecuteTx] and app/app.go.

    - [VoteQuery]: [Query] of the voting chain.

    The two-list base: [TwoListBase] (protocol/submission/types.go, base.go).  The two
    domains on it: [ChatTx] and [StoreTx] (protocol/tx/chat.go, store.go), [Domain] (the
    checks both domains repeat), [Chat] (domain/state/shychat/state.go) and [Store]
    (domain/state/shystore/state.go).

    The transfer ledger (embodiments/shywire): [WireTypes] (types/), [WireTx] (tx/tx.go),
    [WireState] and [WireSupply] (state/supply.go, transfers.go), [WireAccounts]
    (account_auth.go), [WireContracts] (financing.go), [WireCustody] (custody.go),
    [WireAdverse] (adverse_action.go), [WirePersist] (state.go),
    [WireApp] (state.go, app/app.go).

    Governance (embodiments/shyshares): [Governance] (types.go, tally.go, identity.go,
    actions.go), [GovServer] (api/server.go: the store and its handlers), [Shares]
    (tx/tx.go, app/app.go: one state per chain, one database per chain; handlers of a
    chain are lifted to the pair).

    In front of the transfer ledger: [WireApi] (api/rpc/client.go, the client of a node,
    also behind the voting API; embodiments/shywire/api/server/router.go).  Beside it:
    [Cam] (embodiments/shycam: liveness proofs of warehouse cameras, feeds, the summary of
    reserves over the lots of the ledger).

    In front of the voting chain: [Http] (responses, and handlers as sequences of steps
    that may answer early), [Router] (api/server/router.go and the interface of api/rpc:
    the queue of ballots, attestation, flush, update, receipts; [step], the interleavings
    of running requests: the queue's lock is held in the three queue operations only, so
    a request is a thread that makes one call at a time) and [Reconcile]
    (services/reconcile: the receipt store as a class with laws, and memory.go).

    The two-list write as a Hyperledger chaincode: [Fabric] (domain/state/fabric: the
    stub of the peer as a class with laws, the five operations, and [invoked], what an
    invocation does to the ledger).

    Admission of entities: [Persona] (services/identity/kyb.go, persona.go: a provider's
    webhook, its HMAC and its age, and what acceptance means).

    Around the chains: [Config] (protocol/config: the protocol manifest, the posture
    read from it, the governance manifest and its environment; the key handling of
    shyware-abci) and [Relay] (api/relay/server.go: the handlers, and [step], the
    interleavings of submissions and flushes the relay's mutex leaves open).

    The part of each state that is a Go map is a [gmap] from strings; a Go struct is a
    record whose fields carry the struct's name; a handler [func (s *State) f(tx) error]
    is [f : Tx → M State unit], where a run is [f tx s = (r, s')]: [r] is the value, an
    error or a panic, and [s'] is the state also when [r] is an error.  A map of pointers
    is a map of records, because a record is only ever reached through its one key.

    ** What is proved

    - Voting chain: [CountMatch] (both lists of every poll without a colon in its
      identifier have one size along every run of validated transactions with fresh
      identifiers, a verifier being configured), the theorems on each handler in
      the handler's file, [Invariants] (tables keyed by their own records along all
      chains, append-only logs, what the mempool check may change, panics of unvalidated
      blocks), [Persist] (commit and restart), [Determinism] (what replicas agree on).
    - Two-list base: closing an open period succeeds in every state reached by callers
      that bring fresh identifiers ([fresh_step]; the base checks none, and
      [BaseWitnesses.reused_identifier_blocks_close] shows what a reused one does);
      commit and restart.
    - Domains: [DomainTheorems], [ChatTheorems] and [StoreTheorems] (mailboxes agree with
      the periods of the base, what was validated executes, suppressions are signed,
      logged and effective, what a restart loses).  Where a theorem needs equal lists its
      states are those reached with fresh identifiers ([dreach]).
    - Transfer ledger: [WireFrames] (what any execution keeps, failing or not),
      [WireLedger] (value is conserved by validated transactions that are
      [admissible]: no colon in an asset identifier, a counterparty in every value
      execution, no forced redemption; none of them fails),
      [WireInventory] (the allocation loop is first in first out and takes what was asked
      for or all there is),
      [WireRefine] (the ledger refines an abstract book of balances), [WireTheorems]
      (the guarantees as stated to a reader).
    - Governance: [GovernanceTally] (the tally does not depend on the order of the
      ballots, is exact while no sum leaves 64 bits, and what happens when one does),
      [GovTheorems] (by induction over all sequences of requests: one ballot per member,
      a closed proposal is final, a queued action presupposes a passed proposal),
      [SharesTheorems] (the composed application refines the voting chain and the
      ledger, each on its own, along the blocks that succeed; what the composition leaves
      unchecked).
    - In front of the voting chain: [RouterTheorems] (by induction over all interleavings
      of requests: what a flush broadcasts is well formed, a ballot the chain refuses
      comes back to its queue, write-only deployments keep no link; a handler run alone is
      a sequence of steps; how the server's identifiers relate to the chain's; server and
      chain together: one forged ballot and the batch is refused).
    - Around the ledger: [WireApi] (the API answers what the ledger's [Query] says, and
      where it cannot), [CamTheorems] (a proof verifies under the key that made it, feeds
      are newest first, what the summary of reserves means and what it does not look at).
    - Chaincode: [FabricTheorems] (what each operation answers and writes; the counter of
      a scope is the size of both lists along orderly invocations, which the chaincode does
      not enforce; and what happens along others, on a peer in memory).
    - Around the chains: [ConfigTheorems] (acceptance of a manifest is a list of
      rules), [RelayTheorems] (no ballot is lost or doubled under any interleaving).
    - [Demo], [Witnesses], [ServiceWitnesses], [BaseWitnesses], [DomainDemo], [WireDemo],
      [GovDemo], [RouterDemo]: concrete deployments that every theorem with a hypothesis is
      instantiated on, evaluated by the kernel.

    ** Bounds and fuel

    Integers are [Z] with [wrap64] after every addition and subtraction the code does on
    int64, and reduced modulo 2^64 after every operation on uint64 ([u64_add],
    [u64_mul]).  [Validate] recurses with fuel 2 ([Validate_fuel]): the only nested
    transactions are the submissions of a batch, which must be ballot casts, and two
    levels decide every transaction.  The Merkle loop has as fuel the number of leaves,
    which halve each turn; [itoa] has 20 digits; the attestation loops have the counter
    they count down as fuel.

    ** What is assumed

    A verifier of identities, a signer, Ed25519, SHA-256 where no theorem needs its
    definition, Keccak-256 and public-key recovery are parameters (classes [Crypto] and
    [Wallet], records [IdentityVerifier] and [Signer]); statements about binding carry the
    absence of collisions on the strings at hand as a hypothesis. The clock is an argument
    of the handlers that read it, and so are the environment, the parser of RFC 3339
    times, the relay's upstream server and its random source, the API's node and its
    attestation service, the client's HTTP transport, the signing key of a camera and what
    sort.Slice does with equals. A receipt store is whatever keeps the laws of
    [Reconcile], a peer whatever keeps those of [Fabric]. Iterating a map is
    [map_to_list]; where the code's result could depend on the order, a theorem says it
    does not or the finding says it does.

    ** What is not modelled

    The syntax of JSON text (a document is a JSON value or fails to parse) and invalid
    UTF-8; errors of [json.Marshal] and of filling a write batch, which the databases in
    use never return; logging, tracing and metrics; routing and CORS of the HTTP servers,
    the analytics server, which moves telemetry; the cloud signers, the enclave
    attestation (X.509 and CBOR), the circuits of protocol/zkp (gnark), whose answers are
    decided by code outside src/; verifying ECDSA certificates in
    verify/verify.go, which is library code. loadState of the ledger names a field that
    does not exist; what it would read there is a parameter ([MissingField] of
    [WirePersist]), and what a restart restores is stated in terms of it. *)
From Stdlib Require Export ZArith Ascii Lia.
From stdpp Require Export base gmap strings pretty sorting fin_maps numbers.
From stdpp Require Export list.

Declare Scope go_scope.
Delimit Scope go_scope with go.
#[global] Open Scope Z_scope.

(** * Functional record update

    [r <| f := v |>] is [r] with field [f] replaced.  A record type opts in by
    an [Eta] instance that rebuilds a value from its own projections. *)
Class Eta (R : Type) := eta_expand : R → R.

Class FieldSetter {R T : Type} (proj : R → T) := field_set : (T → T) → R → R.
#[global] Hint Mode FieldSetter + + + : typeclass_instances.
#[global] Typeclasses Transparent field_set.

Ltac derive_setter :=
  lazymatch goal with
  | |- @FieldSetter ?R ?T ?proj =>
      let body := constr:(fun (f : T → T) (r : R) =>
        ltac:(let t := eval hnf in (eta_expand r) in
              let g := eval pattern (proj r) in t in
              lazymatch g with
              | ?h _ => let u := eval cbv beta in (h (f (proj r))) in exact u
              end)) in
      exact body
  end.
#[global] Hint Extern 0 (FieldSetter _) => derive_setter : typeclass_instances.

Notation "r '<|' f ':=' v '|>'" := (field_set (proj := f) (λ _, v) r)
  (at level 1, f at level 200, left associativity, format "r  <| f  :=  v |>") : go_scope.
Notation "r '<|' f '::=' g '|>'" := (field_set (proj := f) g r)
  (at level 1, f at level 200, left associativity, format "r  <| f  ::=  g |>") : go_scope.
#[global] Open Scope go_scope.

(** Reads a field of an updated record: [f (r <| f ::= g |>)] is [g (f r)] and any
    other field is that of [r].  Each step is proved for a variable record, so
    nested updates are never expanded. *)
Ltac fields_step p R T g i f r :=
  first
    [ constr_eq p g;
      rewrite ((λ (r0 : R) (f0 : T → T), eq_refl) :
        ∀ (r0 : R) (f0 : T → T), p (@field_set R T g i f0 r0) = f0 (p r0))
    | rewrite ((λ (r0 : R) (f0 : T → T), eq_refl) :
        ∀ (r0 : R) (f0 : T → T), p (@field_set R T g i f0 r0) = p r0) ].
Ltac fields :=
  repeat (match goal with
          | |- context [?p (@field_set ?R ?T ?g ?i ?f ?r)] => fields_step p R T g i f r
          end; cbv beta).

(** * Machine integers: Go's [int64] and [int] on a 64-bit platform *)
Definition wrap64 (z : Z) : Z := (z + 2 ^ 63) `mod` 2 ^ 64 - 2 ^ 63.
Definition int64_ok (z : Z) : Prop := - 2 ^ 63 ≤ z < 2 ^ 63.
Definition int64_add (a b : Z) : Z := wrap64 (a + b).
Definition int64_sub (a b : Z) : Z := wrap64 (a - b).
Definition int64_inc (a : Z) : Z := int64_add a 1.
Definition int64_dec (a : Z) : Z := int64_sub a 1.

#[global] Instance int64_ok_dec z : Decision (int64_ok z).
Proof. unfold int64_ok. apply _. Defined.

Lemma wrap64_id z : int64_ok z → wrap64 z = z.
Proof. unfold int64_ok, wrap64. intros H. rewrite Z.mod_small; lia. Qed.

Lemma wrap64_ok z : int64_ok (wrap64 z).
Proof.
  unfold int64_ok, wrap64.
  pose proof (Z.mod_pos_bound (z + 2 ^ 63) (2 ^ 64) ltac:(lia)). lia.
Qed.

(** Wrapping is arithmetic modulo 2^64. *)
Lemma wrap64_mod z : (wrap64 z) `mod` 2 ^ 64 = z `mod` 2 ^ 64.
Proof.
  unfold wrap64. rewrite Zminus_mod_idemp_l. f_equal. lia.
Qed.

Lemma wrap64_congr a b : a `mod` 2 ^ 64 = b `mod` 2 ^ 64 → wrap64 a = wrap64 b.
Proof.
  intros H. unfold wrap64. f_equal.
  rewrite <- (Zplus_mod_idemp_l a), <- (Zplus_mod_idemp_l b), H. done.
Qed.

Lemma wrap64_add_l a b : wrap64 (wrap64 a + b) = wrap64 (a + b).
Proof.
  apply wrap64_congr. rewrite Zplus_mod, wrap64_mod, <- Zplus_mod. done.
Qed.

Lemma int64_mod_inj a b :
  int64_ok a → int64_ok b → a `mod` 2 ^ 64 = b `mod` 2 ^ 64 → a = b.
Proof.
  intros Ha Hb H. rewrite <- (wrap64_id a), <- (wrap64_id b) by done. by apply wrap64_congr.
Qed.

(** * Errors

    A Go error built by [fmt.Errorf] or [fmt.Sprintf] is kept as its format
    string with the arguments, so two failures are equal exactly when the
    format and the values are. *)
Inductive error : Type :=
  | ErrorInvalidPoll (Message : string) (args : list farg)
  | ErrorDuplicateVote (PollID IdentityHash : string)
  | ErrCountMismatch (PeriodID : string) (L1Count L2Count : Z)
  | ErrDuplicateParticipant (PeriodID IdentityHash : string)
  | ErrPeriodNotFound (PeriodID : string)
  | ErrWriteOnlyPosture
  | ErrorInsufficientBalance (AccountCommitment AssetID : string) (Have Need : Z)
  | ErrorUnknownAsset (AssetID : string)
  | ErrorDuplicateTransfer (IdentityHash : string)
  | ErrorAccountDisabled (AccountCommitment : string)
  | ErrorAccountFrozen (AccountCommitment : string)
  | ErrorDuplicateContract (ContractID : string)
  | ErrorUnknownContract (ContractID : string)
  | ErrorContractNotActive (ContractID : string)
  | ErrorContractExpired (ContractID : string)
  | Errorf (format : string) (args : list farg)
with farg : Type :=
  | FStr (s : string)
  | FInt (z : Z)
  | FErr (e : error).

(** * The effect of a Go method on a receiver

    A method reads and writes the receiver state and either returns a value,
    returns an error, or panics.  An error return keeps the writes made before
    it: Go does not roll back. *)
Inductive res (A : Type) : Type :=
  | Ok (a : A)
  | Fail (e : error)
  | Panic.
Arguments Ok {A} a.
Arguments Fail {A} e.
Arguments Panic {A}.

Definition res_ok {A} (r : res A) : bool := match r with Ok _ => true | _ => false end.

Definition M (S A : Type) : Type := S → res A * S.

#[global] Instance M_ret S : MRet (M S) := λ A a s, (Ok a, s).
#[global] Instance M_bind S : MBind (M S) := λ A B k m s,
  match m s with
  | (Ok a, s') => k a s'
  | (Fail e, s') => (Fail e, s')
  | (Panic, s') => (Panic, s')
  end.

Definition gets {S A} (f : S → A) : M S A := λ s, (Ok (f s), s).
Definition modify {S} (f : S → S) : M S unit := λ s, (Ok tt, f s).
Definition failM {S A} (e : error) : M S A := λ s, (Fail e, s).
Definition panicM {S A} : M S A := λ s, (Panic, s).

(** [if c { return e }] *)
Definition fail_if {S} (c : bool) (e : error) : M S unit :=
  if c then failM e else mret tt.
(** [v, err := o; if err != nil { return e }] *)
Definition or_fail {S A} (o : option A) (e : error) : M S A :=
  match o with Some a => mret a | None => failM e end.
(** A nil dereference: the value must be present, or the program panics. *)
Definition or_panic {S A} (o : option A) : M S A :=
  match o with Some a => mret a | None => panicM end.
(** Run a method for its effect and hand its result to the caller. *)
Definition try {S A} (m : M S A) : M S (res A) := λ s,
  match m s with
  | (Panic, s') => (Panic, s')
  | (r, s') => (Ok r, s')
  end.
(** [if err := m; err != nil { return wrap(err) }] *)
Definition wrap_err {S A} (f : error → error) (m : M S A) : M S A := λ s,
  match m s with
  | (Fail e, s') => (Fail (f e), s')
  | r => r
  end.

(** [for i, x := range l { body }] with early return. *)
Fixpoint range_from {S A} (i : nat) (l : list A) (body : nat → A → M S unit) : M S unit :=
  match l with
  | [] => mret tt
  | x :: l' => body i x ;; range_from (Datatypes.S i) l' body
  end.
Definition range {S A} (l : list A) (body : nat → A → M S unit) : M S unit :=
  range_from 0 l body.

(** ** Inversion of successful runs *)
Section inversion.
Context {St A B : Type}.
Implicit Types (s : St).

Lemma bind_ok (m : M St A) (k : A → M St B) s s' b :
  (m ≫= k) s = (Ok b, s') → ∃ a s1, m s = (Ok a, s1) ∧ k a s1 = (Ok b, s').
Proof.
  unfold mbind, M_bind. destruct (m s) as [[a| |] s1]; [|done..]. eauto.
Qed.

Lemma fail_if_ok c e s s' (u : unit) :
  fail_if c e s = (Ok u, s') → c = false ∧ s' = s.
Proof. unfold fail_if. destruct c; [done|]. by intros [= _ <-]. Qed.

Lemma or_fail_ok (o : option A) e s s' a :
  or_fail o e s = (Ok a, s') → o = Some a ∧ s' = s.
Proof. unfold or_fail. destruct o; [|done]. by intros [= <- <-]. Qed.

Lemma or_panic_ok (o : option A) s s' a :
  or_panic o s = (Ok a, s') → o = Some a ∧ s' = s.
Proof. unfold or_panic. destruct o; [|done]. by intros [= <- <-]. Qed.

Lemma gets_ok (f : St → A) s s' a : gets f s = (Ok a, s') → a = f s ∧ s' = s.
Proof. by intros [= <- <-]. Qed.

Lemma modify_ok (f : St → St) s s' u : modify f s = (Ok u, s') → s' = f s.
Proof. by intros [= _ <-]. Qed.

Lemma mret_ok (a b : A) s s' : (mret a : M St A) s = (Ok b, s') → b = a ∧ s' = s.
Proof. by intros [= <- <-]. Qed.

Lemma wrap_err_ok f (m : M St A) s s' a :
  wrap_err f m s = (Ok a, s') → m s = (Ok a, s').
Proof. unfold wrap_err. by destruct (m s) as [[| |] ?]. Qed.
End inversion.

Lemma fail_if_run {S} c e (s : S) :
  fail_if c e s = if c then (Fail e, s) else (Ok tt, s).
Proof. by destruct c. Qed.
Lemma bind_run {S A B} (m : M S A) (k : A → M S B) s :
  (m ≫= k) s = match m s with
               | (Ok a, s') => k a s' | (Fail e, s') => (Fail e, s') | (Panic, s') => (Panic, s')
               end.
Proof. done. Qed.

Lemma bind_ext {S A B} (m : M S A) (k1 k2 : A → M S B) s :
  (∀ a s', m s = (Ok a, s') → k1 a s' = k2 a s') → (m ≫= k1) s = (m ≫= k2) s.
Proof. intros H. rewrite !bind_run. destruct (m s) as [[a| |] s']; auto. Qed.
Lemma modify_run {S} (f : S → S) s : modify f s = (Ok tt, f s).
Proof. done. Qed.
Lemma gets_run {S A} (f : S → A) s : gets f s = (Ok (f s), s).
Proof. done. Qed.
Lemma mret_run {S A} (a : A) (s : S) : (mret a : M S A) s = (Ok a, s).
Proof. done. Qed.
Lemma or_fail_run {S A} (o : option A) e (s : S) :
  or_fail o e s = match o with Some a => (Ok a, s) | None => (Fail e, s) end.
Proof. by destruct o. Qed.
Lemma or_panic_run {S A} (o : option A) (s : S) :
  or_panic o s = match o with Some a => (Ok a, s) | None => (Panic, s) end.
Proof. by destruct o. Qed.

(** Runs a method step by step as far as its guards are decided. *)
Ltac mrun :=
  repeat ((rewrite bind_run || rewrite modify_run || rewrite gets_run || rewrite mret_run ||
           rewrite fail_if_run || rewrite or_fail_run || rewrite or_panic_run); cbn beta iota).

(** [minv H] turns a successful run of a composed method into the facts that
    each of its steps succeeded. *)
Ltac minv1 H :=
  lazymatch type of H with
  | (_ ≫= _) _ = (Ok _, _) =>
      let a := fresh "a" in let s1 := fresh "s" in
      let H1 := fresh "H" in let H2 := fresh "H" in
      apply bind_ok in H; destruct H as (a & s1 & H1 & H2); minv1 H1; minv1 H2
  | fail_if _ _ _ = (Ok _, _) => apply fail_if_ok in H; destruct H as [H ?]
  | or_fail _ _ _ = (Ok _, _) => apply or_fail_ok in H; destruct H as [H ?]
  | or_panic _ _ = (Ok _, _) => apply or_panic_ok in H; destruct H as [H ?]
  | gets _ _ = (Ok _, _) => apply gets_ok in H; destruct H as [H ?]
  | modify _ _ = (Ok _, _) => apply modify_ok in H
  | mret _ _ = (Ok _, _) => apply mret_ok in H; destruct H as [H ?]
  | wrap_err _ _ _ = (Ok _, _) => apply wrap_err_ok in H; minv1 H
  | failM _ _ = (Ok _, _) => discriminate H
  | panicM _ = (Ok _, _) => discriminate H
  | _ => idtac
  end.
Ltac minv H := minv1 H; subst; cbn in *.

(** ** Frames
    [keeps R m]: every run of [m], whether it returns, fails or panics, relates
    its final state to its initial one. *)
Definition keeps {S A} (R : S → S → Prop) (m : M S A) : Prop := ∀ s, R s (m s).2.

Section keeps.
Context {St : Type} (R : St → St → Prop) `{!Reflexive R, !Transitive R}.

Lemma keeps_bind {A B} (m : M St A) (k : A → M St B) :
  keeps R m → (∀ a, keeps R (k a)) → keeps R (m ≫= k).
Proof.
  intros Hm Hk s. rewrite bind_run. specialize (Hm s). destruct (m s) as [[a| |] s']; cbn in *; [|done..].
  etrans; [done|apply Hk].
Qed.
Lemma keeps_ret {A} (a : A) : keeps R (mret a : M St A).
Proof. by intros s. Qed.
Lemma keeps_gets {A} (f : St → A) : keeps R (gets f).
Proof. by intros s. Qed.
Lemma keeps_fail_if c e : keeps R (fail_if (S := St) c e).
Proof. intros s. by destruct c. Qed.
Lemma keeps_or_fail {A} (o : option A) e : keeps R (or_fail (S := St) o e).
Proof. intros s. by destruct o. Qed.
Lemma keeps_or_panic {A} (o : option A) : keeps R (or_panic (S := St) o).
Proof. intros s. by destruct o. Qed.
Lemma keeps_fail {A} e : keeps R (failM (S := St) (A := A) e).
Proof. by intros s. Qed.
Lemma keeps_panic {A} : keeps R (panicM (S := St) (A := A)).
Proof. by intros s. Qed.
Lemma keeps_modify f : (∀ s, R s (f s)) → keeps R (modify (S := St) f).
Proof. intros H s. apply H. Qed.
Lemma keeps_wrap {A} f (m : M St A) : keeps R m → keeps R (wrap_err f m).
Proof. intros H s. specialize (H s). unfold wrap_err. by destruct (m s) as [[| |] ?]. Qed.
Lemma keeps_try {A} (m : M St A) : keeps R m → keeps R (try m).
Proof. intros H s. specialize (H s). unfold try. by destruct (m s) as [[| |] ?]. Qed.
Lemma keeps_if {A} (b : bool) (m1 m2 : M St A) : keeps R m1 → keeps R m2 → keeps R (if b then m1 else m2).
Proof. by destruct b. Qed.
Lemma keeps_option {A B} (o : option A) (f : A → M St B) (m : M St B) :
  (∀ a, keeps R (f a)) → keeps R m → keeps R (match o with Some a => f a | None => m end).
Proof. intros. by destruct o. Qed.
Lemma keeps_weaken {A} (Q : St → St → Prop) (m : M St A) :
  (∀ s s', Q s s' → R s s') → keeps Q m → keeps R m.
Proof. intros H Hm s. apply H, Hm. Qed.
Lemma keeps_range {A} (l : list A) (body : nat → A → M St unit) :
  (∀ i a, keeps R (body i a)) → keeps R (range l body).
Proof.
  intros H. unfold range. generalize 0%nat. induction l as [|a l IH]; intros i; cbn; [by apply keeps_ret|].
  apply keeps_bind; [apply H|intros _; apply IH].
Qed.
End keeps.
(** Decomposes a method; what is left are the obligations of its writes. *)
Ltac keeps_auto :=
  repeat lazymatch goal with
  | |- keeps _ (_ ≫= _) => apply keeps_bind; [apply _| |]
  | |- keeps _ (mret _) => apply keeps_ret; apply _
  | |- keeps _ (gets _) => apply keeps_gets; apply _
  | |- keeps _ (fail_if _ _) => apply keeps_fail_if; apply _
  | |- keeps _ (or_fail _ _) => apply keeps_or_fail; apply _
  | |- keeps _ (or_panic _) => apply keeps_or_panic; apply _
  | |- keeps _ (failM _) => apply keeps_fail; apply _
  | |- keeps _ panicM => apply keeps_panic; apply _
  | |- keeps _ (wrap_err _ _) => apply keeps_wrap
  | |- keeps _ (try _) => apply keeps_try
  | |- keeps _ (range _ _) => apply keeps_range; [apply _..|]
  | |- keeps _ (modify _) => apply keeps_modify
  | |- keeps _ (if _ then _ else _) => apply keeps_if
  | |- keeps _ (match _ with Some _ => _ | None => _ end) => apply keeps_option
  | |- keeps _ (let x := _ in _) => cbv zeta
  | |- ∀ _, _ => intros ?
  end.

(** Splits boolean guards into propositions. *)
Ltac bools :=
  repeat match goal with
  | H : _ && _ = true |- _ => apply andb_true_iff in H; destruct H
  | H : _ || _ = false |- _ => apply orb_false_iff in H; destruct H
  | H : negb _ = false |- _ => apply negb_false_iff in H
  | H : negb _ = true |- _ => apply negb_true_iff in H
  | H : bool_decide _ = true |- _ => apply bool_decide_eq_true in H
  | H : bool_decide _ = false |- _ => apply bool_decide_eq_false in H
  | H : (_ <? _) = true |- _ => apply Z.ltb_lt in H
  | H : (_ <? _) = false |- _ => apply Z.ltb_ge in H
  | H : (_ <=? _) = true |- _ => apply Z.leb_le in H
  | H : (_ <=? _) = false |- _ => apply Z.leb_gt in H
  | H : (_ =? _) = true |- _ => apply Z.eqb_eq in H
  | H : (_ =? _) = false |- _ => apply Z.eqb_neq in H
  end.

(** Membership in a Go map: [_, exists := m[k]]. *)
Definition has {V} (m : gmap string V) (k : string) : bool := bool_decide (is_Some (m !! k)).

Lemma has_true {V} (m : gmap string V) k : has m k = true ↔ is_Some (m !! k).
Proof. unfold has. by rewrite bool_decide_eq_true. Qed.
Lemma has_false {V} (m : gmap string V) k : has m k = false ↔ m !! k = None.
Proof. unfold has. by rewrite bool_decide_eq_false, eq_None_not_Some. Qed.

(** * Slices

    A Go slice is nil ([None]) or has elements; [len] and [range] do not tell
    nil from empty, the JSON encoder does. *)
Abbreviation slice A := (option (list A)).
Definition elems {A} (s : slice A) : list A := default [] s.
Definition len {A} (s : slice A) : Z := Z.of_nat (length (elems s)).
(** A [[]byte] is a slice whose elements are the bytes of a string. *)
Abbreviation gobytes := (option string).
Definition bytes_of (b : gobytes) : string := default "" b.
Definition slen (s : string) : Z := Z.of_nat (String.length s).
Definition blen (b : gobytes) : Z := slen (bytes_of b).

Create Rewrite HintDb count.

(** * Lists and maps *)
Lemma map_to_list_insert_perm {V} (m : gmap string V) k v :
  m !! k = None → map_to_list (<[k:=v]> m) ≡ₚ (k, v) :: map_to_list m.
Proof. apply map_to_list_insert. Qed.

(** Updating an entry through its pointer. *)
Lemma alter_as_insert {V} (f : V → V) (m : gmap string V) k v :
  m !! k = Some v → alter f k m = <[k := f v]> m.
Proof.
  intros H. apply map_eq. intros k'. rewrite lookup_alter, lookup_insert.
  case_decide; subst; [by rewrite H|done].
Qed.

(** The number of map entries a predicate on (key, value) selects. *)
Definition count_where {V} (P : string → V → bool) (m : gmap string V) : nat :=
  length (List.filter (λ kv, P kv.1 kv.2) (map_to_list m)).

#[global] Instance count_perm {A} (P : A → bool) :
  Proper ((≡ₚ) ==> (≡ₚ)) (List.filter P).
Proof.
  intros l1 l2 H. induction H; cbn; repeat case_match; eauto using Permutation; try done.
Qed.

Section count_where.
Context {V : Type} (P : string → V → bool).
Implicit Types (m : gmap string V).

Lemma count_where_empty : count_where P ∅ = 0%nat.
Proof. done. Qed.

Lemma count_where_mono (Q : string → V → bool) m :
  (∀ k v, P k v = true → Q k v = true) → (count_where P m ≤ count_where Q m)%nat.
Proof.
  intros HPQ. unfold count_where. induction (map_to_list m) as [|[k v] l IH]; [done|].
  cbn. destruct (P k v) eqn:E; [rewrite (HPQ _ _ E)|destruct (Q k v)]; cbn; unfold fst, snd in *; lia.
Qed.

Lemma count_where_insert_None m k v :
  m !! k = None →
  count_where P (<[k:=v]> m) = ((if P k v then 1 else 0) + count_where P m)%nat.
Proof.
  intros H. unfold count_where. rewrite map_to_list_insert_perm by done.
  cbn. by destruct (P k v).
Qed.

Lemma count_where_delete m k v :
  m !! k = Some v →
  count_where P m = ((if P k v then 1 else 0) + count_where P (delete k m))%nat.
Proof.
  intros H. rewrite <- (insert_id _ _ _ H) at 1. rewrite <- insert_delete_eq.
  apply count_where_insert_None. apply lookup_delete_eq.
Qed.

Lemma count_where_insert_Some m k v w :
  m !! k = Some w →
  ((if P k w then 1 else 0) + count_where P (<[k:=v]> m))%nat =
  ((if P k v then 1 else 0) + count_where P m)%nat.
Proof.
  intros H. rewrite <- insert_delete_eq.
  rewrite count_where_insert_None by apply lookup_delete_eq.
  rewrite (count_where_delete m k w H). lia.
Qed.

Lemma count_where_delete_le m k : (count_where P (delete k m) ≤ count_where P m)%nat.
Proof.
  destruct (m !! k) eqn:E.
  - rewrite (count_where_delete _ _ _ E). lia.
  - by rewrite delete_id.
Qed.
End count_where.
#[export] Hint Rewrite @count_where_empty : count.
