(* ===== verification/Modular.v ===== *)
(** Congruence of 64-bit sums as a setoid, and weighted sums over a table. *)
From S2P Require Import Prelude.

(** Equal as 64-bit words: what Go's additions and subtractions compute. *)
Definition eq64 (a b : Z) : Prop := a `mod` 2 ^ 64 = b `mod` 2 ^ 64.
#[export] Instance eq64_equiv : Equivalence eq64.
Proof. split; unfold eq64; [by intros a|by intros a b|intros a b c; congruence]. Qed.
#[export] Instance add_eq64 : Proper (eq64 ==> eq64 ==> eq64) Z.add.
Proof. intros a b H c d H'. unfold eq64 in *. by rewrite Zplus_mod, H, H', <- Zplus_mod. Qed.
#[export] Instance sub_eq64 : Proper (eq64 ==> eq64 ==> eq64) Z.sub.
Proof. intros a b H c d H'. unfold eq64 in *. by rewrite Zminus_mod, H, H', <- Zminus_mod. Qed.
Lemma wrap64_eq64 z : eq64 (wrap64 z) z.
Proof. apply wrap64_mod. Qed.
Lemma int64_add_eq64 a b : eq64 (int64_add a b) (a + b).
Proof. apply wrap64_eq64. Qed.
Lemma int64_sub_eq64 a b : eq64 (int64_sub a b) (a - b).
Proof. apply wrap64_eq64. Qed.
(** Reduces a congruence of machine sums to an equation of integers. *)
Ltac eq64_solve := repeat first [rewrite int64_add_eq64 | rewrite int64_sub_eq64]; unfold eq64; f_equal; lia.
Lemma eq64_exact a b : int64_ok a → int64_ok b → eq64 a b → a = b.
Proof. apply int64_mod_inj. Qed.

(** ** Weighted sums *)
Definition weigh {V} (w : V → Z) (m : gmap string V) : Z :=
  foldr (λ kv acc, w kv.2 + acc) 0 (map_to_list m).

Section weigh.
Context {V : Type} (w : V → Z).
Implicit Types (m : gmap string V).

Lemma weigh_perm (l1 l2 : list (string * V)) :
  l1 ≡ₚ l2 → foldr (λ kv acc, w kv.2 + acc) 0 l1 = foldr (λ kv acc, w kv.2 + acc) 0 l2.
Proof. induction 1; cbn; lia. Qed.
Lemma weigh_empty : weigh w ∅ = 0.
Proof. done. Qed.
Lemma weigh_insert_None m k v : m !! k = None → weigh w (<[k:=v]> m) = w v + weigh w m.
Proof. intros H. unfold weigh. by rewrite (weigh_perm _ _ (map_to_list_insert_perm m k v H)). Qed.
Lemma weigh_insert_Some m k v v0 : m !! k = Some v0 → weigh w (<[k:=v]> m) = weigh w m + (w v - w v0).
Proof.
  intros H. rewrite <- (insert_delete_id m k v0) at 2 by done. rewrite <- insert_delete_eq.
  rewrite !weigh_insert_None by apply lookup_delete_eq. lia.
Qed.
Lemma weigh_alter f m k v : m !! k = Some v → weigh w (alter f k m) = weigh w m + (w (f v) - w v).
Proof. intros H. rewrite (alter_as_insert f m k v H). by apply weigh_insert_Some. Qed.
Lemma weigh_fmap f m : (∀ k v, m !! k = Some v → w (f v) = w v) → weigh w (f <$> m) = weigh w m.
Proof.
  intros H. unfold weigh. rewrite map_to_list_fmap.
  assert (∀ kv, kv ∈ map_to_list m → w (f kv.2) = w kv.2) as Hl by (intros [k v]; rewrite elem_of_map_to_list; apply H).
  induction (map_to_list m) as [|[k v] l IH]; cbn; [done|].
  rewrite IH by (intros; apply Hl; by right). pose proof (Hl (k, v) ltac:(by left)) as E. cbn in E. by rewrite E.
Qed.
Lemma weigh_nonneg m : (∀ k v, m !! k = Some v → 0 ≤ w v) → 0 ≤ weigh w m.
Proof.
  intros H. unfold weigh.
  assert (∀ kv, kv ∈ map_to_list m → 0 ≤ w kv.2) as Hl by (intros [k v]; rewrite elem_of_map_to_list; apply H).
  induction (map_to_list m) as [|kv l IH]; cbn; [done|].
  pose proof (Hl kv ltac:(by left)). specialize (IH (λ x Hx, Hl x ltac:(by right))). lia.
Qed.
End weigh.
