(* ===== verification/GoStd.v ===== *)
(** The part of Go's standard library the program relies on: byte-wise string
    operations ([strings]), [encoding/hex], [encoding/base64], [sort.Strings],
    big-endian integers ([encoding/binary]) and the two cryptographic
    primitives, [crypto/sha256] and [crypto/ed25519], as an interface.

    A Go string and a byte slice are both byte sequences and are both modelled
    by [string]; conversions between the two are the identity. *)
From S2P Require Import Prelude.

#[local] Arguments String.append !_ _ / : simpl nomatch.

(** * Cryptographic primitives *)

(** [sha256.Sum256] and [ed25519.Verify publicKey message sig].  Theorems hold for
    every implementation; [Sha256] gives the concrete hash. *)
Class Crypto : Type := {
  sha256 : string → string;
  ed25519_Verify : string → string → string → bool;
}.
(** What the code relies on: a digest has 32 bytes. *)
Class CryptoLaws `(C : Crypto) : Prop := {
  sha256_length s : String.length (sha256 s) = 32%nat;
}.
(** The digest separates the strings [Q1] from the strings [Q2]. *)
Definition collision_free `{Crypto} (Q1 Q2 : list string) : Prop :=
  ∀ x y, x ∈ Q1 → y ∈ Q2 → sha256 x = sha256 y → x = y.
Lemma collision_free1 `{Crypto} x y : collision_free [x] [y] → sha256 x = sha256 y → x = y.
Proof. intros Hf. by apply Hf; left. Qed.

Definition PublicKeySize : Z := 32.
(** A call of [ed25519.Verify] with a key whose length nobody has checked: it panics
    on a key of another length. *)
Definition ed25519_try `{Crypto} (key msg sig : string) : option bool :=
  if Z.of_nat (String.length key) =? PublicKeySize then Some (ed25519_Verify key msg sig) else None.
Lemma ed25519_try_Some `{Crypto} key msg sig b : ed25519_try key msg sig = Some b → b = ed25519_Verify key msg sig.
Proof. unfold ed25519_try. destruct (_ =? _); congruence. Qed.

(** * Strings *)
Fixpoint has_prefix (s p : string) : bool :=
  match p, s with
  | EmptyString, _ => true
  | String a p', String b s' => if decide (a = b) then has_prefix s' p' else false
  | _, EmptyString => false
  end.
Fixpoint str_drop (n : nat) (s : string) : string :=
  match n, s with
  | O, _ => s
  | _, EmptyString => EmptyString
  | Datatypes.S n', String _ s' => str_drop n' s'
  end.
Fixpoint str_take (n : nat) (s : string) : string :=
  match n, s with
  | O, _ => EmptyString
  | _, EmptyString => EmptyString
  | Datatypes.S n', String a s' => String a (str_take n' s')
  end.
Definition trim_prefix (s p : string) : string :=
  if has_prefix s p then str_drop (String.length p) s else s.
Definition has_suffix (s p : string) : bool :=
  bool_decide (String.length p ≤ String.length s)%nat &&
  bool_decide (str_drop (String.length s - String.length p) s = p).
(** [strings.Index s c] for a one-byte separator. *)
Fixpoint str_index (s : string) (c : ascii) : option nat :=
  match s with
  | EmptyString => None
  | String a s' => if decide (a = c) then Some 0%nat else Datatypes.S <$> str_index s' c
  end.
Fixpoint str_join (l : list string) (sep : string) : string :=
  match l with
  | [] => ""
  | [x] => x
  | x :: l' => x +:+ sep +:+ str_join l' sep
  end.

(** [strings.ToLower] and [strings.TrimSpace] on ASCII text. *)
Definition lower_ascii (c : ascii) : ascii :=
  let n := N_of_ascii c in if (65 <=? n)%N && (n <=? 90)%N then ascii_of_N (n + 32) else c.
Fixpoint to_lower (s : string) : string :=
  match s with EmptyString => EmptyString | String a s' => String (lower_ascii a) (to_lower s') end.
Definition is_space (c : ascii) : bool :=
  let n := N_of_ascii c in (n =? 32)%N || ((9 <=? n)%N && (n <=? 13)%N).
Fixpoint trim_left (s : string) : string :=
  match s with String a s' => if is_space a then trim_left s' else s | EmptyString => EmptyString end.
Fixpoint trim_right (s : string) : string :=
  match s with
  | EmptyString => EmptyString
  | String a s' => match trim_right s' with
                   | EmptyString => if is_space a then EmptyString else String a EmptyString
                   | t => String a t
                   end
  end.
Definition trim_space (s : string) : string := trim_right (trim_left s).

Lemma str_app_nil_r s : s +:+ "" = s.
Proof. induction s; cbn; congruence. Qed.
Lemma str_app_assoc s t u : (s +:+ t) +:+ u = s +:+ t +:+ u.
Proof. induction s; cbn; congruence. Qed.
Lemma str_app_length s t : String.length (s +:+ t) = (String.length s + String.length t)%nat.
Proof. induction s; cbn; congruence. Qed.

(** Concatenations split at a known length. *)
Lemma str_app_inj_len s1 s2 t1 t2 :
  String.length s1 = String.length s2 → s1 +:+ t1 = s2 +:+ t2 → s1 = s2 ∧ t1 = t2.
Proof.
  revert s2. induction s1 as [|a s1 IH]; intros [|b s2] Hl H; cbn in *; try done.
  injection Hl as Hl. injection H as -> H. by destruct (IH _ Hl H) as [-> ->].
Qed.

Lemma has_prefix_spec s p : has_prefix s p = true ↔ ∃ t, s = p +:+ t.
Proof.
  revert s. induction p as [|a p IH]; intros s.
  { split; [by exists s|by destruct s]. }
  destruct s as [|b s]; cbn; [split; [done|by intros [? ?]]|].
  case_decide as E.
  - subst. rewrite IH. split; intros [t H]; exists t; congruence.
  - split; [done|]. intros [t [= ? _]]. congruence.
Qed.
Lemma has_prefix_app p t : has_prefix (p +:+ t) p = true.
Proof. apply has_prefix_spec. by exists t. Qed.
Lemma str_drop_app p t : str_drop (String.length p) (p +:+ t) = t.
Proof. induction p; cbn; [by destruct t|done]. Qed.
Lemma trim_prefix_app p t : trim_prefix (p +:+ t) p = t.
Proof. unfold trim_prefix. by rewrite has_prefix_app, str_drop_app. Qed.

Lemma str_take_drop n s : str_take n s +:+ str_drop n s = s.
Proof. revert s. induction n; intros [|a s]; cbn; try done. by rewrite IHn. Qed.
Lemma str_drop_length n s : String.length (str_drop n s) = (String.length s - n)%nat.
Proof. revert s. induction n; intros [|a s]; cbn; auto. Qed.
Lemma has_suffix_app p t : has_suffix (p +:+ t) t = true.
Proof.
  unfold has_suffix. rewrite str_app_length, !andb_true_iff, !bool_decide_eq_true.
  split; [lia|]. replace (_ + _ - _)%nat with (String.length p) by lia. apply str_drop_app.
Qed.
Lemma has_suffix_spec s t : has_suffix s t = true ↔ ∃ p, s = p +:+ t.
Proof.
  split; [|intros [p ->]; apply has_suffix_app].
  unfold has_suffix. rewrite andb_true_iff, !bool_decide_eq_true. intros [_ H].
  exists (str_take (String.length s - String.length t) s). rewrite <- H at 2.
  by rewrite str_take_drop.
Qed.

(** * Byte-wise order *)
Fixpoint str_leb (s t : string) : bool :=
  match s, t with
  | EmptyString, _ => true
  | String _ _, EmptyString => false
  | String a s', String b t' =>
      match N.compare (N_of_ascii a) (N_of_ascii b) with
      | Lt => true | Eq => str_leb s' t' | Gt => false
      end
  end.
Definition str_le (s t : string) : Prop := str_leb s t = true.
(** Go's [s < t]. *)
Definition str_ltb (s t : string) : bool := negb (str_leb t s).
#[global] Instance str_le_dec : RelDecision str_le.
Proof. intros s t. unfold str_le. apply _. Defined.

Lemma N_of_ascii_inj a b : N_of_ascii a = N_of_ascii b → a = b.
Proof. intros H. by rewrite <- (ascii_N_embedding a), H, ascii_N_embedding. Qed.

#[global] Instance str_le_total : Total str_le.
Proof.
  unfold str_le. intros s. induction s as [|a s IH]; intros [|b t]; cbn; auto.
  rewrite (N.compare_antisym (N_of_ascii a) (N_of_ascii b)).
  destruct (N.compare _ _); cbn; auto.
Qed.
#[global] Instance str_le_refl : Reflexive str_le.
Proof. intros s. by destruct (total str_le s s). Qed.
#[global] Instance str_le_antisymm : AntiSymm (=) str_le.
Proof.
  unfold str_le. intros s. induction s as [|a s IH]; intros [|b t]; cbn; try done.
  rewrite (N.compare_antisym (N_of_ascii a) (N_of_ascii b)).
  destruct (N.compare _ _) eqn:E; cbn; try done.
  apply N.compare_eq, N_of_ascii_inj in E as ->. intros. f_equal. auto.
Qed.
#[global] Instance str_le_trans : Transitive str_le.
Proof.
  unfold str_le. intros s. induction s as [|a s IH]; intros [|b t] [|c u]; cbn; try done.
  destruct (N.compare_spec (N_of_ascii a) (N_of_ascii b)) as [E|E|E]; try done;
  destruct (N.compare_spec (N_of_ascii b) (N_of_ascii c)) as [F|F|F]; try done;
  intros H1 H2;
  destruct (N.compare_spec (N_of_ascii a) (N_of_ascii c)); try done; try lia.
  eauto.
Qed.

Lemma str_ltb_irrefl s : str_ltb s s = false.
Proof. unfold str_ltb. rewrite negb_false_iff. apply (reflexivity (R := str_le)). Qed.

(** [sort.Strings]. *)
Definition sort_Strings (l : list string) : list string := merge_sort str_le l.
Lemma sort_Strings_perm l : sort_Strings l ≡ₚ l.
Proof. apply merge_sort_Permutation. Qed.
Lemma sort_Strings_sorted l : Sorted str_le (sort_Strings l).
Proof. apply Sorted_merge_sort, _. Qed.
Lemma sort_Strings_unique l1 l2 : l1 ≡ₚ l2 → sort_Strings l1 = sort_Strings l2.
Proof.
  intros H. apply (Sorted_unique str_le); try apply sort_Strings_sorted.
  by rewrite !sort_Strings_perm.
Qed.
Lemma sort_Strings_length l : length (sort_Strings l) = length l.
Proof. by rewrite sort_Strings_perm. Qed.

(** [sortedKeys m]: the keys of a map in increasing order. *)
Definition map_keys {V} (m : gmap string V) : list string := (map_to_list m).*1.

(** * encoding/hex *)
Definition hex_digit (n : N) : ascii :=
  if (n <? 10)%N then ascii_of_N (48 + n) else ascii_of_N (87 + n).
Definition hex_value (c : ascii) : option N :=
  let n := N_of_ascii c in
  if (48 <=? n)%N && (n <=? 57)%N then Some (n - 48)%N
  else if (97 <=? n)%N && (n <=? 102)%N then Some (n - 87)%N
  else if (65 <=? n)%N && (n <=? 70)%N then Some (n - 55)%N
  else None.
Fixpoint hex_EncodeToString (s : string) : string :=
  match s with
  | EmptyString => EmptyString
  | String c s' =>
      let n := N_of_ascii c in
      String (hex_digit (n / 16)) (String (hex_digit (n mod 16)) (hex_EncodeToString s'))
  end.
Fixpoint hex_DecodeString (s : string) : option string :=
  match s with
  | EmptyString => Some EmptyString
  | String _ EmptyString => None
  | String a (String b s') =>
      x ← hex_value a; y ← hex_value b; r ← hex_DecodeString s';
      Some (String (ascii_of_N (16 * x + y)) r)
  end.

Lemma hex_digits_byte c :
  hex_value (hex_digit (N_of_ascii c / 16)) = Some (N_of_ascii c / 16)%N ∧
  hex_value (hex_digit (N_of_ascii c mod 16)) = Some (N_of_ascii c mod 16)%N.
Proof. by destruct c as [[] [] [] [] [] [] [] []]. Qed.
Lemma hex_decode_encode s : hex_DecodeString (hex_EncodeToString s) = Some s.
Proof.
  induction s as [|c s IH]; [done|]. cbn -[N.div N.modulo N.mul].
  destruct (hex_digits_byte c) as [-> ->]. cbn -[N.div N.modulo N.mul]. rewrite IH.
  cbn -[N.div N.modulo N.mul]. by rewrite <- N.div_mod', ascii_N_embedding.
Qed.
#[global] Instance hex_EncodeToString_inj : Inj (=) (=) hex_EncodeToString.
Proof. intros s t H. apply (f_equal hex_DecodeString) in H. rewrite !hex_decode_encode in H. congruence. Qed.
Lemma hex_encode_length s :
  String.length (hex_EncodeToString s) = (2 * String.length s)%nat.
Proof. induction s as [|c s IH]; cbn -[Nat.mul]; [done|]. rewrite IH. lia. Qed.

(** Strong induction two bytes at a time, for the hex decoder. *)
Lemma string_ind2 (P : string → Prop) :
  P EmptyString → (∀ a, P (String a EmptyString)) →
  (∀ a b s, P s → P (String a (String b s))) → ∀ s, P s.
Proof.
  intros H0 H1 H2. fix IH 1. intros [|a [|b s]]; [done|done|]. apply H2, IH.
Qed.
Lemma hex_decode_length s b :
  hex_DecodeString s = Some b → String.length s = (2 * String.length b)%nat.
Proof.
  revert b. induction s as [|a|a a' s IH] using string_ind2; intros b; cbn.
  - by intros [= <-].
  - done.
  - destruct (hex_value a), (hex_value a'); try done. cbn.
    destruct (hex_DecodeString s) as [r|]; [|done]. intros [= <-].
    rewrite (IH r eq_refl). cbn. lia.
Qed.

(** * encoding/base64 (StdEncoding) *)
Definition b64_digit (n : N) : ascii :=
  if (n <? 26)%N then ascii_of_N (65 + n)
  else if (n <? 52)%N then ascii_of_N (71 + n)
  else if (n <? 62)%N then ascii_of_N (n - 4)
  else if (n =? 62)%N then "+"%char else "/"%char.
Definition b64_value (c : ascii) : option N :=
  let n := N_of_ascii c in
  if (65 <=? n)%N && (n <=? 90)%N then Some (n - 65)%N
  else if (97 <=? n)%N && (n <=? 122)%N then Some (n - 71)%N
  else if (48 <=? n)%N && (n <=? 57)%N then Some (n + 4)%N
  else if (n =? 43)%N then Some 62%N
  else if (n =? 47)%N then Some 63%N
  else None.
Fixpoint b64_encode (s : string) : string :=
  match s with
  | EmptyString => EmptyString
  | String a EmptyString =>
      let x := N_of_ascii a in
      String (b64_digit (x / 4)) (String (b64_digit (x mod 4 * 16)) "==")
  | String a (String b EmptyString) =>
      let x := N_of_ascii a in let y := N_of_ascii b in
      String (b64_digit (x / 4)) (String (b64_digit (x mod 4 * 16 + y / 16))
        (String (b64_digit (y mod 16 * 4)) "="))
  | String a (String b (String c s')) =>
      let x := N_of_ascii a in let y := N_of_ascii b in let z := N_of_ascii c in
      String (b64_digit (x / 4)) (String (b64_digit (x mod 4 * 16 + y / 16))
        (String (b64_digit (y mod 16 * 4 + z / 64)) (String (b64_digit (z mod 64))
          (b64_encode s'))))
  end.
(** Newlines are skipped wherever they occur. *)
Fixpoint b64_strip (s : string) : string :=
  match s with
  | EmptyString => EmptyString
  | String a s' =>
      if (N_of_ascii a =? 10)%N || (N_of_ascii a =? 13)%N then b64_strip s'
      else String a (b64_strip s')
  end.
Fixpoint b64_quads (s : string) : option string :=
  match s with
  | EmptyString => Some EmptyString
  | String a (String b (String c (String d s'))) =>
      x ← b64_value a; y ← b64_value b;
      let o1 := ascii_of_N (x * 4 + y / 16) in
      if Ascii.eqb c "="%char then
        if Ascii.eqb d "="%char && String.eqb s' "" then Some (String o1 EmptyString) else None
      else
        z ← b64_value c;
        let o2 := ascii_of_N (y mod 16 * 16 + z / 4) in
        if Ascii.eqb d "="%char then
          if String.eqb s' "" then Some (String o1 (String o2 EmptyString)) else None
        else
          w ← b64_value d; r ← b64_quads s';
          Some (String o1 (String o2 (String (ascii_of_N (z mod 4 * 64 + w)) r)))
  | _ => None
  end.
Definition base64_DecodeString (s : string) : option string := b64_quads (b64_strip s).

(** * Integers as bytes and digits *)
(** [binary.BigEndian.PutUint64 buf (uint64 z)]. *)
Fixpoint be_bytes (n : nat) (z : Z) : string :=
  match n with
  | O => EmptyString
  | Datatypes.S n' => be_bytes n' (z / 256) +:+ String (ascii_of_N (Z.to_N (z mod 256))) EmptyString
  end.
Definition be64 (z : Z) : string := be_bytes 8 z.

Lemma be_bytes_length n z : String.length (be_bytes n z) = n.
Proof. revert z. induction n; intros z; cbn; [done|]. rewrite str_app_length, IHn. cbn. lia. Qed.

Lemma be64_length z : String.length (be64 z) = 8%nat.
Proof. apply be_bytes_length. Qed.

Lemma ascii_of_N_inj_small a b :
  (a < 256)%N → (b < 256)%N → ascii_of_N a = ascii_of_N b → a = b.
Proof.
  intros Ha Hb H. apply (f_equal N_of_ascii) in H.
  by rewrite !N_ascii_embedding in H by done.
Qed.

Lemma be_bytes_inj n a b :
  be_bytes n a = be_bytes n b → a mod 256 ^ Z.of_nat n = b mod 256 ^ Z.of_nat n.
Proof.
  revert a b. induction n as [|n IH]; intros a b H.
  { by rewrite !Z.mod_1_r. }
  cbn in H. apply str_app_inj_len in H as [H1 H2]; [|by rewrite !be_bytes_length].
  apply IH in H1. injection H2 as H2.
  apply ascii_of_N_inj_small in H2;
    [|pose proof (Z.mod_pos_bound a 256 ltac:(lia)); lia
     |pose proof (Z.mod_pos_bound b 256 ltac:(lia)); lia].
  rewrite Nat2Z.inj_succ, Z.pow_succ_r by lia.
  assert (0 < 256 ^ Z.of_nat n) as Hp by (apply Z.pow_pos_nonneg; lia).
  rewrite !Z.rem_mul_r by lia. rewrite H1.
  pose proof (Z.mod_pos_bound a 256 ltac:(lia)). pose proof (Z.mod_pos_bound b 256 ltac:(lia)).
  lia.
Qed.

Lemma be64_inj a b : be64 a = be64 b → a mod 2 ^ 64 = b mod 2 ^ 64.
Proof. apply (be_bytes_inj 8). Qed.

(** [fmt.Sprintf("%d", z)]. *)
Definition fmt_d (z : Z) : string := pretty z.
(** [fmt.Sprintf("%x", b)]. *)
Definition fmt_x (b : string) : string := hex_EncodeToString b.

(** Errors of the standard library's decoders are opaque to the program: it only
    wraps them. *)
Definition hex_error : error := Errorf "encoding/hex" [].
Definition base64_error : error := Errorf "encoding/base64" [].
Definition json_error : error := Errorf "encoding/json" [].
Definition err_if {S} (o : option error) : M S unit :=
  match o with Some e => failM e | None => mret tt end.

(** * ABCI values *)
(** An ABCI event: its attributes are (key, value, index) triples. *)
Record Event := mkEvent { Event_Type : string; Event_Attributes : list (string * string * bool) }.

Record ValidatorUpdate := mkValidatorUpdate { ValidatorUpdate_PubKey : string; ValidatorUpdate_Power : Z }.
