(* ===== verification/Json.v ===== *)
(** The part of [encoding/json] the program relies on, at the level of JSON
    values: the values themselves, the text [json.Marshal] writes for one (the
    input of the app hash), and decoding into a Go struct: exact then
    case-folded key match, unknown keys ignored, [null] a no-op, type mismatches
    an error, later duplicates overwriting earlier ones.

    The syntax of JSON text is not modelled: a document that does not parse is
    the absence of a value. *)
From S2P Require Import Prelude GoStd.

#[local] Set Warnings "-register-all".
Inductive json : Type :=
  | JNull
  | JBool (b : bool)
  | JInt (z : Z)                  (* a literal strconv.ParseInt accepts *)
  | JFrac (literal : string)      (* any other number literal *)
  | JStr (s : string)
  | JArr (l : list json)
  | JObj (m : list (string * json)).

(** * json.Marshal *)
Definition dquote : ascii := ascii_of_N 34.
Definition esc (c : ascii) (rest : string) : string := String "\"%char (String c rest).
Definition byte_in (lo hi : N) (c : ascii) : bool :=
  (lo <=? N_of_ascii c)%N && (N_of_ascii c <=? hi)%N.

(** The size of the rune at the head of [s], or 0 when its bytes are not valid
    UTF-8 ([utf8.DecodeRuneInString] reports [RuneError] with size 1). *)
Definition rune_size (s : string) : nat :=
  let cont := byte_in 128 191 in
  match s with
  | EmptyString => 0%nat
  | String a s1 =>
      let n := N_of_ascii a in
      if (n <? 128)%N then 1%nat else
      match s1 with
      | EmptyString => 0%nat
      | String b s2 =>
          if byte_in 194 223 a then (if cont b then 2%nat else 0%nat) else
          match s2 with
          | EmptyString => 0%nat
          | String c s3 =>
              let second lo hi := byte_in lo hi b && cont c in
              if (n =? 224)%N then (if second 160%N 191%N then 3%nat else 0%nat)
              else if (n =? 237)%N then (if second 128%N 159%N then 3%nat else 0%nat)
              else if byte_in 225 239 a then (if second 128%N 191%N then 3%nat else 0%nat)
              else match s3 with
              | EmptyString => 0%nat
              | String d _ =>
                  let four lo hi := byte_in lo hi b && cont c && cont d in
                  if (n =? 240)%N then (if four 144%N 191%N then 4%nat else 0%nat)
                  else if byte_in 241 243 a then (if four 128%N 191%N then 4%nat else 0%nat)
                  else if (n =? 244)%N then (if four 128%N 143%N then 4%nat else 0%nat)
                  else 0%nat
              end
          end
      end
  end.

(** U+2028 or U+2029 at the head: the last hex digit of its escape. *)
Definition line_separator (s : string) : option ascii :=
  match s with
  | String a (String b (String c _)) =>
      if (N_of_ascii a =? 226)%N && (N_of_ascii b =? 128)%N && byte_in 168 169 c
      then Some (hex_digit (N_of_ascii c - 160)) else None
  | _ => None
  end.

Definition escape_ascii (c : ascii) (rest : string) : string :=
  let n := N_of_ascii c in
  if (n =? 34)%N || (n =? 92)%N then esc c rest
  else if (n =? 8)%N then esc "b"%char rest
  else if (n =? 12)%N then esc "f"%char rest
  else if (n =? 10)%N then esc "n"%char rest
  else if (n =? 13)%N then esc "r"%char rest
  else if (n =? 9)%N then esc "t"%char rest
  else if (n <? 32)%N || (n =? 60)%N || (n =? 62)%N || (n =? 38)%N
  then esc "u"%char ("00" +:+ String (hex_digit (n / 16)) (String (hex_digit (n mod 16)) rest))
  else String c rest.

(** [pending] bytes of the current rune are still to be copied ([Some true]) or
    dropped ([Some false]). *)
Fixpoint escape_string (copy : bool) (pending : nat) (s : string) : string :=
  match s with
  | EmptyString => EmptyString
  | String a s' =>
      match pending with
      | Datatypes.S p =>
          if copy then String a (escape_string copy p s') else escape_string copy p s'
      | O =>
          if (N_of_ascii a <? 128)%N then escape_ascii a (escape_string true 0 s')
          else match line_separator s with
          | Some d => esc "u"%char ("202" +:+ String d (escape_string false 2 s'))
          | None =>
              match rune_size s with
              | O => esc "u"%char ("fffd" +:+ escape_string true 0 s')
              | Datatypes.S p => String a (escape_string true p s')
              end
          end
      end
  end.
Definition quote (s : string) : string :=
  String dquote (escape_string true 0 s +:+ String dquote EmptyString).

Fixpoint json_text (j : json) : string :=
  match j with
  | JNull => "null"
  | JBool b => if b then "true" else "false"
  | JInt z => fmt_d z
  | JFrac lit => lit
  | JStr s => quote s
  | JArr l => "[" +:+ str_join (json_text <$> l) "," +:+ "]"
  | JObj m => "{" +:+ str_join ((λ kv, quote kv.1 +:+ ":" +:+ json_text kv.2) <$> m) "," +:+ "}"
  end.

(** * Decoding *)
(** Case folding of field names: ASCII letters, and the two non-ASCII letters
    that fold to one (U+017F and U+212A). *)
Fixpoint fold_name (s : string) : string :=
  match s with
  | String a s' =>
      let n := N_of_ascii a in
      if (97 <=? n)%N && (n <=? 122)%N then String (ascii_of_N (n - 32)) (fold_name s')
      else match s' with
      | String b s2 =>
          if (n =? 197)%N && (N_of_ascii b =? 191)%N then String "S"%char (fold_name s2)
          else match s2 with
          | String c s3 =>
              if (n =? 226)%N && (N_of_ascii b =? 132)%N && (N_of_ascii c =? 170)%N
              then String "K"%char (fold_name s3) else String a (fold_name s')
          | _ => String a (fold_name s')
          end
      | _ => String a (fold_name s')
      end
  | EmptyString => EmptyString
  end.
(** The struct field a key selects. *)
Definition resolve (names : list string) (key : string) : option string :=
  if decide (key ∈ names) then Some key
  else List.find (λ n, bool_decide (fold_name n = fold_name key)) names.

(** A Go type with its zero value, what [json.Marshal] makes of a value and what
    [json.Unmarshal] makes of a JSON value given the previous one. *)
Class Json (A : Type) := {
  jzero : A;
  to_json : A → json;
  of_json : A → json → option A;
}.
Definition unmarshal {A} `{Json A} (j : json) : option A := of_json jzero j.
(** [json.Marshal v] as text. *)
Definition marshal {A} `{Json A} (a : A) : string := json_text (to_json a).

(** Decoding inverts encoding on the values that satisfy [P]. *)
Class JsonRoundTrip (A : Type) `{Json A} (P : A → Prop) : Prop :=
  of_to_json : ∀ a, P a → of_json jzero (to_json a) = Some a.

#[export] Instance Json_string : Json string := {
  jzero := ""; to_json := JStr;
  of_json prev j := match j with JStr s => Some s | JNull => Some prev | _ => None end;
}.
#[export] Instance Json_bool : Json bool := {
  jzero := false; to_json := JBool;
  of_json prev j := match j with JBool b => Some b | JNull => Some prev | _ => None end;
}.
#[export] Instance Json_int64 : Json Z := {
  jzero := 0; to_json := JInt;
  of_json prev j := match j with
    | JInt z => if decide (int64_ok z) then Some z else None
    | JNull => Some prev | _ => None end;
}.
Definition of_json_uint8 (prev : Z) (j : json) : option Z :=
  match j with
  | JInt z => if decide (0 ≤ z < 256) then Some z else None
  | JNull => Some prev | _ => None
  end.
Definition of_json_uint32 (prev : Z) (j : json) : option Z :=
  match j with
  | JInt z => if decide (0 ≤ z < 2 ^ 32) then Some z else None
  | JNull => Some prev | _ => None
  end.
(** The values of a [w]-bit unsigned integer. *)
Definition uint_ok (w z : Z) : Prop := 0 ≤ z < 2 ^ w.
#[export] Instance uint_ok_dec w z : Decision (uint_ok w z).
Proof. unfold uint_ok. apply _. Defined.
(** [[]byte]: base64 text, or an array of numbers. *)
Definition of_json_bytes (prev : gobytes) (j : json) : option gobytes :=
  match j with
  | JNull => Some None
  | JStr s => Some <$> base64_DecodeString s
  | JArr l =>
      bs ← mapM (of_json_uint8 0) l;
      Some (Some (foldr (λ b s, String (ascii_of_N (Z.to_N b)) s) EmptyString bs))
  | _ => None
  end.
#[export] Instance Json_bytes : Json gobytes := {
  jzero := None;
  to_json b := match b with None => JNull | Some s => JStr (b64_encode s) end;
  of_json := of_json_bytes;
}.
#[export] Instance Json_slice {A} `{Json A} : Json (slice A) := {
  jzero := None;
  to_json l := match l with None => JNull | Some l => JArr (to_json <$> l) end;
  of_json prev j := match j with
    | JNull => Some None
    | JArr l => Some <$> mapM (of_json jzero) l
    | _ => None end;
}.
(** [json.RawMessage]: the value itself; a missing message marshals as [null]. *)
#[export] Instance Json_raw : Json (option json) := {
  jzero := None;
  to_json r := default JNull r;
  of_json _ j := Some (Some j);
}.
(** [map[string]V]: keys sorted when marshalled. *)
#[export] Instance Json_map {V} `{Json V} : Json (gmap string V) := {
  jzero := ∅;
  to_json m := JObj ((λ k, (k, default JNull (to_json <$> m !! k))) <$> sort_Strings (map_keys m));
  of_json prev j := match j with
    | JNull => Some prev
    | JObj kvs =>
        foldl (λ acc kv, m ← acc; v ← of_json jzero kv.2; Some (<[kv.1:=v]> m)) (Some prev) kvs
    | _ => None end;
}.

(** A struct: [null] leaves it alone, an object is decoded field by field. *)
Definition of_object {A} (fields : list (string * json) → option A) (prev : A) (j : json) : option A :=
  match j with
  | JNull => Some prev
  | JObj ms => fields ms
  | _ => None
  end.
Definition jstep {A} (dec : A → json → option A) (names : list string) (name : string)
    (acc : option A) (kv : string * json) : option A :=
  if decide (resolve names kv.1 = Some name) then acc ≫= (λ prev, dec prev kv.2) else acc.
Definition jfield_with {A} (dec : A → json → option A) (z : A)
    (names : list string) (ms : list (string * json)) (name : string) : option A :=
  foldl (jstep dec names name) (Some z) ms.
Definition jfield {A} `{Json A} : list string → list (string * json) → string → option A :=
  jfield_with of_json jzero.
(** [json:",omitempty"]. *)
Definition omitempty {A} `{Json A} (name : string) (a : A) (empty : bool) : list (string * json) :=
  if empty then [] else [(name, to_json a)].
Definition required {A} `{Json A} (name : string) (a : A) : list (string * json) :=
  [(name, to_json a)].

Definition str_empty (s : string) : bool := bool_decide (s = "").
Definition omit_str (name s : string) := omitempty name s (str_empty s).
Definition omit_int (name : string) (z : Z) := omitempty name z (z =? 0).
Definition omit_bool (name : string) (b : bool) := omitempty name b (negb b).
Definition omit_raw (name : string) (r : option json) :=
  omitempty name r (match r with None => true | Some _ => false end).
Definition omit_bytes (name : string) (b : gobytes) := omitempty name b (blen b =? 0).

(** ** Round trips *)
#[export] Instance roundtrip_string : JsonRoundTrip string (λ _, True).
Proof. by intros s _. Qed.
#[export] Instance roundtrip_bool : JsonRoundTrip bool (λ _, True).
Proof. by intros s _. Qed.
#[export] Instance roundtrip_int64 : JsonRoundTrip Z int64_ok.
Proof. intros z Hz. cbn. by rewrite decide_True. Qed.

Lemma b64_value_digit n : (n < 64)%N → b64_value (b64_digit n) = Some n.
Proof.
  intros H. unfold b64_value, b64_digit.
  assert (Hall : forallb (λ k, bool_decide (b64_value (b64_digit k) = Some k))
    (N.of_nat <$> seq 0 64) = true) by (vm_compute; done).
  rewrite forallb_forall in Hall. specialize (Hall n).
  rewrite bool_decide_eq_true in Hall. apply Hall.
  apply list_elem_of_In, list_elem_of_fmap. exists (N.to_nat n).
  split; [by rewrite N2Nat.id|]. apply elem_of_seq. lia.
Qed.
Lemma b64_digit_ne n :
  (n < 64)%N → Ascii.eqb (b64_digit n) "="%char = false ∧
  ((N_of_ascii (b64_digit n) =? 10)%N || (N_of_ascii (b64_digit n) =? 13)%N) = false.
Proof.
  intros H. pose proof (b64_value_digit n H) as Hv. split.
  - apply Ascii.eqb_neq. intros E. by rewrite E in Hv.
  - apply orb_false_iff; split; apply N.eqb_neq; intros E;
      unfold b64_value in Hv; rewrite E in Hv; done.
Qed.
Lemma byte_bound c : (N_of_ascii c < 256)%N.
Proof. apply N_ascii_bounded. Qed.

Lemma b64_ind3 (P : string → Prop) :
  P EmptyString → (∀ a, P (String a EmptyString)) → (∀ a b, P (String a (String b EmptyString))) →
  (∀ a b c s, P s → P (String a (String b (String c s)))) → ∀ s, P s.
Proof.
  intros H0 H1 H2 H3. fix IH 1. intros [|a [|b [|c s]]]; [done|done|done|]. apply H3, IH.
Qed.

Lemma b64_strip_encode s : b64_strip (b64_encode s) = b64_encode s.
Proof.
  induction s as [|a|a b|a b c s IH] using b64_ind3;
    cbn -[b64_digit N.div N.modulo N.mul N.add Ascii.eqb]; try done;
    repeat match goal with |- context [b64_digit ?n] =>
      let H := fresh in
      assert (n < 64)%N as H by
        (try pose proof (byte_bound a); try pose proof (byte_bound b); try pose proof (byte_bound c);
         zify; Z.to_euclidean_division_equations; lia);
      destruct (b64_digit_ne n H) as [_ ->]; generalize (b64_digit n); intros ?; clear H
    end; cbn; by rewrite ?IH.
Qed.

Ltac b64_step a b c :=
  rewrite b64_value_digit by
    (try pose proof (byte_bound a); try pose proof (byte_bound b); try pose proof (byte_bound c);
     zify; Z.to_euclidean_division_equations; lia); cbn -[b64_digit N.div N.modulo N.mul N.add Ascii.eqb].
Ltac b64_not_pad a b c :=
  match goal with |- context [Ascii.eqb (b64_digit ?n) _] =>
    rewrite (proj1 (b64_digit_ne n ltac:(pose proof (byte_bound a); pose proof (byte_bound b);
      pose proof (byte_bound c); zify; Z.to_euclidean_division_equations; lia)))
  end; cbn -[b64_digit N.div N.modulo N.mul N.add Ascii.eqb].
Ltac b64_byte x :=
  rewrite <- (ascii_N_embedding x) at 1; f_equal; 
  repeat match goal with |- context [N_of_ascii ?c] =>
    pose proof (byte_bound c); generalize dependent (N_of_ascii c); intros ? end;
  zify; Z.to_euclidean_division_equations; lia.

Lemma b64_quads_encode s : b64_quads (b64_encode s) = Some s.
Proof.
  induction s as [|a|a b|a b c s IH] using b64_ind3.
  - done.
  - cbn -[b64_digit N.div N.modulo N.mul N.add Ascii.eqb]. do 2 b64_step a a a.
    repeat (f_equal; []). symmetry. b64_byte a.
  - cbn -[b64_digit N.div N.modulo N.mul N.add Ascii.eqb]. do 2 b64_step a b b.
    b64_not_pad a b b.
    b64_step a b b. do 2 f_equal; symmetry; [b64_byte a|f_equal; b64_byte b].
  - cbn -[b64_digit N.div N.modulo N.mul N.add Ascii.eqb]. do 2 b64_step a b c.
    b64_not_pad a b c.
    b64_step a b c.
    b64_not_pad a b c.
    b64_step a b c. rewrite IH. cbn -[N.div N.modulo N.mul N.add].
    do 2 f_equal; symmetry; [b64_byte a|f_equal; [b64_byte b|f_equal; b64_byte c]].
Qed.

Lemma base64_decode_encode s : base64_DecodeString (b64_encode s) = Some s.
Proof. unfold base64_DecodeString. by rewrite b64_strip_encode, b64_quads_encode. Qed.

#[export] Instance roundtrip_bytes : JsonRoundTrip gobytes (λ _, True).
Proof. intros [s|] _; cbn; [|done]. by rewrite base64_decode_encode. Qed.
#[export] Instance roundtrip_slice `{JsonRoundTrip A P} :
  JsonRoundTrip (slice A) (λ l, Forall P (elems l)).
Proof.
  intros [l|]; cbn; [|done]. intros Hl.
  assert (mapM (of_json jzero) (to_json <$> l) = Some l) as ->; [|done].
  induction Hl as [|x l Hx Hl IH]; cbn; [done|].
  by rewrite of_to_json, IH.
Qed.
#[export] Instance roundtrip_raw : JsonRoundTrip (option json) is_Some.
Proof. by intros r [j ->]. Qed.
#[export] Instance roundtrip_strings : JsonRoundTrip (slice string) (λ _, True).
Proof. intros l _. apply (of_to_json (P := λ l, Forall (λ _, True) (elems l))), Forall_true. done. Qed.

Lemma map_keys_elem {V} (m : gmap string V) k : k ∈ map_keys m ↔ is_Some (m !! k).
Proof.
  unfold map_keys. rewrite list_elem_of_fmap. split.
  - intros ([k' v] & -> & ?%elem_of_map_to_list). by exists v.
  - intros [v ?]. exists (k, v). by rewrite elem_of_map_to_list.
Qed.

#[export] Instance roundtrip_map `{JsonRoundTrip V P} :
  JsonRoundTrip (gmap string V) (map_Forall (λ _, P)).
Proof.
  intros m Hm. cbn.
  set (step := λ (acc : option (gmap string V)) (kv : string * json), _).
  assert (Hstep : ∀ ks (acc : gmap string V), (∀ k, k ∈ ks → is_Some (m !! k)) →
    ∃ m', foldl step (Some acc) ((λ k, (k, default JNull (to_json <$> m !! k))) <$> ks) = Some m' ∧
      ∀ k, m' !! k = if decide (k ∈ ks) then m !! k else acc !! k).
  { induction ks as [|k ks IH]; intros acc Hks; cbn -[step].
    - exists acc. split; [done|]. intros k. by rewrite decide_False by (by intros ?%elem_of_nil).
    - destruct (Hks k) as [v Hv]; [by left|]. rewrite Hv. cbn.
      rewrite of_to_json by (by eapply Hm). cbn.
      destruct (IH (<[k:=v]> acc)) as (m' & -> & Hm'); [intros; apply Hks; by right|].
      exists m'. split; [done|]. intros k'. rewrite Hm'.
      destruct (decide (k' = k)) as [->|].
      + rewrite (decide_True (P := k ∈ k :: ks)) by (by left).
        case_decide; [done|]. by simplify_map_eq.
      + rewrite lookup_insert_ne by done.
        destruct (decide (k' ∈ ks)); [rewrite decide_True by (by right)|rewrite decide_False by (by intros [|]%elem_of_cons)]; done. }
  destruct (Hstep (sort_Strings (map_keys m)) ∅) as (m' & Heq & Hm').
  { intros k. rewrite sort_Strings_perm. apply map_keys_elem. }
  rewrite Heq. f_equal. apply map_eq. intros k. rewrite Hm', lookup_empty.
  case_decide as Hk; [done|]. rewrite sort_Strings_perm, map_keys_elem, <- eq_None_not_Some in Hk. done.
Qed.

(** Simplification of a field lookup in the object the encoder wrote. *)
Section field_lookup.
Context {A B : Type} `{Json B} (dec : A → json → option A) (names : list string) (name : string).

Lemma jstep_required acc n (b : B) rest :
  resolve names n = Some n →
  foldl (jstep dec names name) acc (required n b ++ rest) =
  foldl (jstep dec names name)
    (if String.eqb n name then acc ≫= (λ prev, dec prev (to_json b)) else acc) rest.
Proof.
  intros Hr. cbn. unfold jstep at 2. cbn. rewrite Hr.
  destruct (String.eqb_spec n name) as [->|]; [by rewrite decide_True|].
  rewrite decide_False by congruence. done.
Qed.
Lemma jstep_omitempty acc n (b : B) e rest :
  resolve names n = Some n →
  foldl (jstep dec names name) acc (omitempty n b e ++ rest) =
  foldl (jstep dec names name)
    (if String.eqb n name then if e then acc else acc ≫= (λ prev, dec prev (to_json b)) else acc) rest.
Proof.
  intros Hr. destruct e; cbn; [by destruct (String.eqb n name)|]. by apply jstep_required.
Qed.
End field_lookup.

Lemma omit_roundtrip `{JsonRoundTrip A P} (a : A) (e : bool) :
  P a → (e = true → a = jzero) →
  (if e then Some jzero else of_json jzero (to_json a)) = Some a.
Proof. intros Ha He. destruct e; [by rewrite He|]. by apply of_to_json. Qed.
Lemma str_empty_zero s : str_empty s = true → s = jzero.
Proof. intros H%bool_decide_eq_true. done. Qed.
Lemma int_empty_zero (z : Z) : (z =? 0) = true → z = jzero.
Proof. by intros ->%Z.eqb_eq. Qed.
Lemma bool_empty_zero (b : bool) : negb b = true → b = jzero.
Proof. by destruct b. Qed.

Lemma bytes_empty_zero (b : gobytes) : b ≠ Some "" → (blen b =? 0) = true → b = jzero.
Proof. destruct b as [[|c s]|]; [done|done|done]. Qed.

Lemma uint8_roundtrip z : uint_ok 8 z → of_json_uint8 0 (to_json z) = Some z.
Proof. intros Hz. cbn. by rewrite decide_True. Qed.
Lemma uint32_roundtrip z : uint_ok 32 z → of_json_uint32 0 (to_json z) = Some z.
Proof. intros Hz. cbn [to_json Json_int64 of_json_uint32]. by rewrite decide_True. Qed.
Lemma omit_raw_roundtrip (r : option json) :
  (if match r with None => true | Some _ => false end then Some jzero else of_json jzero (to_json r)) = Some r.
Proof. by destruct r. Qed.

Lemma bind_step {A B} (o : option A) (k : A → option B) a r :
  o = Some a → k a = r → o ≫= k = r.
Proof. by intros ->. Qed.

(** Proves that a struct decodes from its own encoding: each field is looked up
    in the encoded object, where exactly one member carries its name. *)
Ltac field_roundtrip :=
  unfold jfield, jfield_with, omit_str, omit_int, omit_bool, omit_bytes, omit_raw;
  repeat first
    [ rewrite jstep_required by (vm_compute; reflexivity); cbn [String.eqb Ascii.eqb Bool.eqb]
    | rewrite jstep_omitempty by (vm_compute; reflexivity); cbn [String.eqb Ascii.eqb Bool.eqb] ];
  cbn [foldl mbind option_bind];
  first
    [ apply omit_raw_roundtrip
    | apply uint8_roundtrip; assumption
    | apply uint32_roundtrip; assumption
    | apply omit_roundtrip;
      [ done || assumption
      | apply str_empty_zero || apply int_empty_zero || apply bool_empty_zero
      || (apply bytes_empty_zero; assumption) ]
    | apply of_to_json; done || assumption ].
Ltac struct_roundtrip J :=
  let r := fresh "r" in let Hr := fresh "Hr" in
  intros r Hr;
  try (match type of Hr with ?P r => unfold P in Hr end; destruct_and?);
  cbn [of_json to_json jzero J of_object];
  repeat (eapply bind_step; [field_roundtrip|]);
  by destruct r.
