(* ===== verification/Sha256.v ===== *)
(** [crypto/sha256], executable (FIPS 180-4), and the concrete [Crypto] instances
    the witnesses compute with. *)
From S2P Require Import Prelude GoStd.
#[local] Open Scope N_scope.

Definition w32 (n : N) : N := n mod 2 ^ 32.
Definition add32 (a b : N) : N := w32 (a + b).
Definition rotr (k n : N) : N := N.lor (N.shiftr n k) (w32 (N.shiftl n (32 - k))).
Definition not32 (n : N) : N := N.lxor n (2 ^ 32 - 1).

(** The first 32 bits of the fractional parts of the roots of the first primes. *)
Definition round_constants : list N :=
  [ 1116352408; 1899447441; 3049323471; 3921009573; 961987163; 1508970993; 2453635748; 2870763221;
    3624381080; 310598401; 607225278; 1426881987; 1925078388; 2162078206; 2614888103; 3248222580;
    3835390401; 4022224774; 264347078; 604807628; 770255983; 1249150122; 1555081692; 1996064986;
    2554220882; 2821834349; 2952996808; 3210313671; 3336571891; 3584528711; 113926993; 338241895;
    666307205; 773529912; 1294757372; 1396182291; 1695183700; 1986661051; 2177026350; 2456956037;
    2730485921; 2820302411; 3259730800; 3345764771; 3516065817; 3600352804; 4094571909; 275423344;
    430227734; 506948616; 659060556; 883997877; 958139571; 1322822218; 1537002063; 1747873779;
    1955562222; 2024104815; 2227730452; 2361852424; 2428436474; 2756734187; 3204031479; 3329325298 ].
Definition initial_hash : list N :=
  [ 1779033703; 3144134277; 1013904242; 2773480762; 1359893119; 2600822924; 528734635; 1541459225 ].

Definition bytes (s : string) : list N := N_of_ascii <$> String.list_ascii_of_string s.
Definition unbytes (l : list N) : string := String.string_of_list_ascii (ascii_of_N <$> l).

Definition pad_message (m : list N) : list N :=
  let l := length m in
  let zeros := ((119 - l mod 64) mod 64)%nat in
  m ++ [128] ++ replicate zeros 0 ++ bytes (be64 (8 * Z.of_nat l)).

Fixpoint words_of (m : list N) : list N :=
  match m with
  | a :: b :: c :: d :: m' => (((a * 256 + b) * 256 + c) * 256 + d) :: words_of m'
  | _ => []
  end.

(** The message schedule, kept in reverse: w_t from w_(t-2), w_(t-7), w_(t-15), w_(t-16). *)
Fixpoint schedule (n : nat) (rw : list N) : list N :=
  match n with
  | O => rw
  | S n' =>
      let w i := nth i rw 0 in
      let s0 x := N.lxor (rotr 7 x) (N.lxor (rotr 18 x) (N.shiftr x 3)) in
      let s1 x := N.lxor (rotr 17 x) (N.lxor (rotr 19 x) (N.shiftr x 10)) in
      schedule n' (add32 (add32 (s1 (w 1%nat)) (w 6%nat)) (add32 (s0 (w 14%nat)) (w 15%nat)) :: rw)
  end.

Definition sha_round (h : list N) (kw : N * N) : list N :=
  match h with
  | [a; b; c; d; e; f; g; hh] =>
      let S1 := N.lxor (rotr 6 e) (N.lxor (rotr 11 e) (rotr 25 e)) in
      let ch := N.lxor (N.land e f) (N.land (not32 e) g) in
      let t1 := add32 (add32 hh S1) (add32 ch (add32 kw.1 kw.2)) in
      let S0 := N.lxor (rotr 2 a) (N.lxor (rotr 13 a) (rotr 22 a)) in
      let maj := N.lxor (N.land a b) (N.lxor (N.land a c) (N.land b c)) in
      [add32 t1 (add32 S0 maj); a; b; c; add32 d t1; e; f; g]
  | _ => h
  end.
Definition compress (h block : list N) : list N :=
  zip_with add32 h (foldl sha_round h (zip round_constants (rev (schedule 48 (rev block))))).

Fixpoint blocks (fuel : nat) (ws h : list N) : list N :=
  match fuel with
  | O => h
  | S f => match ws with [] => h | _ => blocks f (drop 16 ws) (compress h (take 16 ws)) end
  end.

Definition word_bytes (w : N) : list N :=
  [w / 2 ^ 24 mod 256; w / 2 ^ 16 mod 256; w / 2 ^ 8 mod 256; w mod 256].
Definition Sum256 (s : string) : string :=
  let ws := words_of (pad_message (bytes s)) in
  unbytes (mjoin (word_bytes <$> blocks (length ws) ws initial_hash)).

(** FIPS 180-4 test vectors: one block, empty message, two blocks. *)
Example sha256_abc : hex_EncodeToString (Sum256 "abc") =
  "ba7816bf8f01cfea414140de5dae2223b00361a396177a9cb410ff61f20015ad".
Proof. vm_compute. reflexivity. Qed.
Example sha256_nil : hex_EncodeToString (Sum256 "") =
  "e3b0c44298fc1c149afbf4c8996fb92427ae41e4649b934ca495991b7852b855".
Proof. vm_compute. reflexivity. Qed.
Example sha256_two_blocks :
  hex_EncodeToString (Sum256 "abcdbcdecdefdefgefghfghighijhijkijkljklmklmnlmnomnopnopq") =
  "248d6a61d20638b8e5c026930c3e6039a33ce45964ff2167f6ecedd419db06c1".
Proof. vm_compute. reflexivity. Qed.

(** A digest always has 32 bytes. *)
Lemma sha_round_length h kw : length h = 8%nat → length (sha_round h kw) = 8%nat.
Proof. do 9 (destruct h as [|? h]; try done). Qed.
Lemma sha_rounds_length l h : length h = 8%nat → length (foldl sha_round h l) = 8%nat.
Proof. revert h. induction l; intros h H; cbn -[sha_round]; auto using sha_round_length. Qed.
Lemma blocks_length fuel ws h : length h = 8%nat → length (blocks fuel ws h) = 8%nat.
Proof.
  revert ws h. induction fuel as [|fuel IH]; intros ws h H; cbn -[compress]; [done|].
  destruct ws; [done|]. apply IH. unfold compress. rewrite length_zip_with.
  rewrite sha_rounds_length by done. rewrite H. lia.
Qed.
Lemma unbytes_length l : String.length (unbytes l) = length l.
Proof. unfold unbytes. induction l; cbn; auto. Qed.
Lemma Sum256_length s : String.length (Sum256 s) = 32%nat.
Proof.
  unfold Sum256. rewrite unbytes_length.
  set (l := blocks _ _ _).
  assert (length l = 8%nat) as H by (apply blocks_length; done).
  do 9 (destruct l as [|? l]; try done).
Qed.

(** The concrete hash with an arbitrary signature check. *)
Definition go_crypto (verify : string → string → string → bool) : Crypto :=
  {| sha256 := Sum256; ed25519_Verify := verify |}.
#[export] Instance go_crypto_laws verify : CryptoLaws (go_crypto verify).
Proof. constructor. apply Sum256_length. Qed.

(** Stand-ins for concrete runs, cheap to evaluate: a digest that shifts every byte
    of the input into 32 bytes of feedback, and as signature of a message under a
    key the two of them. *)
Definition feed (st : list N) (a : ascii) : list N :=
  match st with
  | x :: y :: st' => y :: st' ++ [(5 * x + 11 * y + 3 * N_of_ascii a + 1) mod 251]%N
  | _ => st
  end.
Fixpoint feed_all (st : list N) (s : string) : list N :=
  match s with EmptyString => st | String a s' => feed_all (feed st a) s' end.
Definition demo_digest (s : string) : string := unbytes (feed_all (repeat 7%N 32) s).
Definition demo_sign (pub msg : string) : string := pub +:+ msg.
Definition demo_crypto : Crypto :=
  {| sha256 := demo_digest; ed25519_Verify pub msg sig := bool_decide (sig = demo_sign pub msg) |}.
#[export] Instance demo_crypto_laws : CryptoLaws demo_crypto.
Proof.
  constructor. intros s. unfold sha256, demo_crypto, demo_digest. rewrite unbytes_length.
  assert (∀ st, length st = 32%nat → length (feed_all st s) = 32%nat) as H; [|by apply H].
  induction s as [|a s IH]; intros st Hst; cbn [feed_all]; [done|]. apply IH.
  destruct st as [|x [|y st]]; try done. cbn in *. rewrite length_app. cbn. lia.
Qed.
