(* ===== verification/KVStore.v ===== *)
(** The key-value database of [cometbft-db] as an interface, and the two helpers
    that drive its iterator: [prefixEnd] and [loadPrefix]
    (domain/state/state.go, protocol/submission/base.go).

    A stored value is either what [json.Marshal] made of a record or raw bytes. *)
From S2P Require Import Prelude GoStd Json.

Inductive dbval : Type :=
  | VJson (j : json)
  | VBytes (s : string).

(** [Get], an atomic [Batch.WriteSync] of a sequence of [Set]s (which may fail)
    and [Iterator start end] (end excluded, [None] is unbounded) in key order. *)
Class KVStore (DB : Type) := {
  db_get : DB → string → option dbval;
  db_write : DB → list (string * dbval) → option DB;
  db_iterate : DB → string → option string → list (string * dbval);
}.
Definition in_range (lo : string) (hi : option string) (k : string) : Prop :=
  str_le lo k ∧ match hi with Some h => ¬ str_le h k | None => True end.
#[export] Instance in_range_dec lo hi k : Decision (in_range lo hi k).
Proof. unfold in_range. destruct hi; apply _. Defined.

(** What the [cometbft-db] documentation promises. *)
Class KVLaws (DB : Type) `{KVStore DB} : Prop := {
  db_get_write db db' batch k :
    db_write db batch = Some db' →
    db_get db' k = match (list_to_map (rev batch) : gmap string dbval) !! k with
                   | Some v => Some v | None => db_get db k end;
  db_iterate_spec db lo hi k v :
    (k, v) ∈ db_iterate db lo hi ↔ db_get db k = Some v ∧ in_range lo hi k;
  db_iterate_NoDup db lo hi : NoDup (db_iterate db lo hi).*1;
}.

(** [prefixEnd]: increment the last byte that is not 0xff and cut there. *)
Fixpoint prefixEnd (prefix : string) : option string :=
  match prefix with
  | EmptyString => None
  | String a p =>
      match prefixEnd p with
      | Some q => Some (String a q)
      | None =>
          if (N_of_ascii a <? 255)%N
          then Some (String (ascii_of_N (N_of_ascii a + 1)) EmptyString) else None
      end
  end.

(** [loadPrefix prefix fn]: [fn] is applied to the suffix of each key in range
    and its value; the first error stops the scan. *)
Definition loadPrefix {DB A} `{KVStore DB} (db : DB) (prefix : string)
    (fn : string → dbval → A → option A) (a : A) : option A :=
  foldl (λ acc kv, acc ≫= fn (trim_prefix kv.1 prefix) kv.2) (Some a)
    (db_iterate db prefix (prefixEnd prefix)).

(** * The iterator range is the prefix *)
Lemma N_of_ascii_succ a :
  (N_of_ascii a < 255)%N → N_of_ascii (ascii_of_N (N_of_ascii a + 1)) = (N_of_ascii a + 1)%N.
Proof. intros H. apply N_ascii_embedding. lia. Qed.

Lemma str_leb_cons a b s t :
  str_leb (String a s) (String b t) = true ↔
  (N_of_ascii a < N_of_ascii b)%N ∨ a = b ∧ str_leb s t = true.
Proof.
  cbn. destruct (N.compare_spec (N_of_ascii a) (N_of_ascii b)) as [E|E|E].
  - apply N_of_ascii_inj in E as ->. split; [auto|intros [|[_ ?]]; [lia|done]].
  - split; auto.
  - split; [done|]. intros [|[-> _]]; lia.
Qed.

Lemma prefixEnd_range p k : in_range p (prefixEnd p) k ↔ has_prefix k p = true.
Proof.
  unfold in_range, str_le. revert k. induction p as [|a p IH]; intros k.
  { split; [by destruct k|done]. }
  destruct k as [|b k]; [by split; [intros [? _]|]|].
  assert (has_prefix (String b k) (String a p) = true ↔ a = b ∧ has_prefix k p = true) as ->.
  { cbn. case_decide; split; [done|by intros [_ ?]|done|by intros [? _]]. }
  rewrite <- IH, str_leb_cons. pose proof (byte_bound b). cbn [prefixEnd].
  destruct (prefixEnd p) as [q|] eqn:Eq.
  - rewrite str_leb_cons. split.
    + intros [[?|[-> ?]] Hn]; [exfalso; apply Hn; by left|]. split; [done|].
      split; [done|]. intros ?. apply Hn. by right.
    + intros [-> [? Hn]]. split; [by right|]. intros [?|[_ ?]]; [lia|done].
  - destruct (N.ltb_spec (N_of_ascii a) 255) as [Ha|Ha].
    + rewrite str_leb_cons, N_of_ascii_succ by done. split.
      * intros [H1 H2]. assert (a = b) as ->; [|split; [done|]].
        { destruct H1 as [H1|[? _]]; [|done]. destruct H2. destruct (decide (N_of_ascii b = N_of_ascii a + 1)%N) as [E|E].
          - right. split; [by rewrite <- E, ascii_N_embedding|by destruct k].
          - left. lia. }
        destruct H1 as [|[_ ?]]; [lia|done].
      * intros [-> [? _]]. split; [by right|]. intros [?|[E ?]]; [lia|].
        apply (f_equal N_of_ascii) in E. rewrite N_of_ascii_succ in E by done. lia.
    + split.
      * intros [[?|[-> ?]] _]; [lia|done].
      * intros [-> [? _]]. split; [by right|done].
Qed.

(** * The in-memory instance used by concrete runs *)
Definition memdb : Type := gmap string dbval.
Definition kv_le (x y : string * dbval) : Prop := str_le x.1 y.1.
#[export] Instance kv_le_dec : RelDecision kv_le.
Proof. intros x y. unfold kv_le. apply _. Defined.
#[export] Instance memdb_store : KVStore memdb := {
  db_get db k := (db : gmap string dbval) !! k;
  db_write db batch := Some (foldl (λ (m : gmap string dbval) kv, <[kv.1:=kv.2]> m) (db : gmap string dbval) batch);
  db_iterate db lo hi :=
    merge_sort kv_le (List.filter (λ kv, bool_decide (in_range lo hi kv.1)) (map_to_list (db : gmap string dbval)));
}.

Lemma foldl_insert_lookup (batch : list (string * dbval)) (m : gmap string dbval) k :
  foldl (λ (m : gmap string dbval) kv, <[kv.1:=kv.2]> m) m batch !! k =
  match (list_to_map (rev batch) : gmap string dbval) !! k with Some v => Some v | None => m !! k end.
Proof.
  revert m. induction batch as [|[k' v] batch IH]; intros m; cbn; [done|].
  rewrite IH, list_to_map_app, lookup_union. cbn.
  destruct (list_to_map (rev batch) !! k) as [w|]; cbn.
  - by destruct ((<[k':=v]> ∅ : gmap string dbval) !! k).
  - destruct (decide (k' = k)) as [->|]; simplify_map_eq; done.
Qed.

#[export] Instance memdb_laws : KVLaws memdb.
Proof.
  constructor.
  - intros db db' batch k [= <-]. apply foldl_insert_lookup.
  - intros db lo hi k v. cbn. rewrite merge_sort_Permutation.
    rewrite list_elem_of_In, filter_In, <- list_elem_of_In, elem_of_map_to_list.
    by rewrite bool_decide_eq_true.
  - intros db lo hi. cbn. rewrite merge_sort_Permutation.
    pose proof (NoDup_fst_map_to_list (db : gmap string dbval)) as HN. revert HN.
    generalize (map_to_list (db : gmap string dbval)). intros l.
    induction l as [|[k v] l IH]; cbn; [done|]. intros [Hk Hl]%NoDup_cons.
    destruct (bool_decide _); cbn; [|auto]. apply NoDup_cons. split; [|auto].
    intros ([k' v'] & -> & Hin)%list_elem_of_fmap. apply Hk. cbn.
    apply list_elem_of_fmap. exists (k', v'). split; [done|].
    apply list_elem_of_In, filter_In in Hin as [Hin _]. by apply list_elem_of_In.
Qed.
