(* ===== verification/Tables.v ===== *)
(** What the state machines' persistence and queries share: a table of records written
    under a key prefix, its reload, the digest of a table, and the decimal height; paths
    split at a separator, records and lists of records marshalled, and errors. *)
From S2P Require Import Prelude GoStd Json KVStore.

(** [for k, r := range m { batch.Set(prefix + k, json.Marshal(r)) }]. *)
Definition table {V} `{Json V} (prefix : string) (m : gmap string V) : list (string * dbval) :=
  (λ kv, (prefix +:+ kv.1, VJson (to_json kv.2))) <$> map_to_list m.
(** [fmt.Sscanf(s, "%d", &x)]: spaces, a sign, then digits; what follows is left. *)
Definition digit_value (c : ascii) : option Z :=
  let n := Z.of_N (N_of_ascii c) in if (48 <=? n) && (n <=? 57) then Some (n - 48) else None.
Fixpoint scan_digits (acc : Z) (s : string) : Z :=
  match s with
  | String c s' => match digit_value c with Some d => scan_digits (10 * acc + d) s' | None => acc end
  | EmptyString => acc
  end.
Definition scan_unsigned (s : string) : option Z :=
  match s with
  | String c _ => match digit_value c with Some _ => Some (scan_digits 0 s) | None => None end
  | EmptyString => None
  end.
Fixpoint scan_d (s : string) : option Z :=
  z ← match s with
      | String c s' =>
          let n := N_of_ascii c in
          if (n =? 32)%N then scan_d s'
          else if (n =? 45)%N then Z.opp <$> scan_unsigned s'
          else if (n =? 43)%N then scan_unsigned s'
          else scan_unsigned s
      | EmptyString => None
      end;
  if decide (int64_ok z) then Some z else None.

(** The marshalled records of a table in key order. *)
Definition hash_table {V} `{Json V} (m : gmap string V) : string :=
  foldr (λ k s, default "" (marshal <$> m !! k) +:+ s) "" (sort_Strings (map_keys m)).
Definition decode_val {V} `{Json V} (v : dbval) : option V :=
  match v with VJson j => unmarshal j | VBytes _ => None end.
(** The bytes of a value. *)
Definition db_bytes (v : dbval) : string := match v with VBytes s => s | VJson j => json_text j end.
Definition raw_val (v : dbval) : option string :=
  match v with VBytes s => Some s | VJson _ => None end.
(** One [loadPrefix] call filling a map, keyed by [keyof suffix record]. *)
Definition load_table {DB} `{KVStore DB} {V} `{Json V} (db : DB) (prefix : string)
    (keyof : string → V → string) : option (gmap string V) :=
  loadPrefix db prefix (λ k v m, r ← decode_val v; Some (<[keyof k r := r]> m)) ∅.

Definition load_height {DB} `{KVStore DB} (db : DB) (h : Z) : option Z :=
  match db_get db "height" with
  | Some v => raw_val v ≫= scan_d
  | None => Some h
  end.
Definition load_app_hash {DB} `{KVStore DB} (db : DB) (h : gobytes) : option gobytes :=
  match db_get db "app_hash" with
  | Some v => Some <$> raw_val v
  | None => Some h
  end.
(** ** Decimal round trip *)
Lemma digit_char (x : N) : digit_value (pretty_N_char (x mod 10)) = Some (Z.of_N (x mod 10)).
Proof.
  assert (x mod 10 < 10)%N as Hlt by (apply N.mod_lt; lia).
  destruct (x mod 10)%N as [|p]; [done|]. do 4 (destruct p as [p|p|]; try done; try lia).
Qed.
Lemma scan_digits_go (x : N) (s : string) :
  (0 < x)%N → scan_digits 0 (pretty_N_go x s) = scan_digits (Z.of_N x) s.
Proof.
  revert s. induction (N.lt_wf_0 x) as [x _ IH]. intros s Hx.
  rewrite pretty_N_go_step by done. pose proof (N.div_mod' x 10) as Hdm.
  destruct (decide (x / 10 = 0)%N) as [E|E].
  - rewrite E, pretty_N_go_0. cbn [scan_digits]. rewrite digit_char. f_equal. lia.
  - assert (x / 10 < x)%N as Hlt by (apply N.div_lt; lia).
    rewrite (IH _ Hlt) by (by apply N.neq_0_lt_0). cbn [scan_digits]. rewrite digit_char. f_equal. lia.
Qed.
Lemma go_head (x : N) (s : string) :
  (0 < x)%N → ∃ c r d, pretty_N_go x s = String c r ∧ digit_value c = Some d.
Proof.
  revert s. induction (N.lt_wf_0 x) as [x _ IH]. intros s Hx.
  rewrite pretty_N_go_step by done.
  destruct (decide (x / 10 = 0)%N) as [E|E].
  - rewrite E, pretty_N_go_0. eauto using digit_char.
  - apply IH; [apply N.div_lt; lia|by apply N.neq_0_lt_0].
Qed.
Lemma scan_unsigned_pretty (p : positive) : scan_unsigned (pretty (N.pos p)) = Some (Z.pos p).
Proof.
  unfold pretty, pretty_N. rewrite decide_False by done.
  destruct (go_head (N.pos p) "") as (c & r & d & Hgo & Hd); [lia|].
  pose proof (scan_digits_go (N.pos p) "" ltac:(lia)) as Hs. rewrite Hgo in Hs |- *.
  unfold scan_unsigned. by rewrite Hd, Hs.
Qed.
Lemma scan_fmt_d z : int64_ok z → scan_d (fmt_d z) = Some z.
Proof.
  intros Hz. destruct z as [|p|p]; [done| |].
  - unfold fmt_d. change (pretty (Z.pos p)) with (pretty (N.pos p)).
    pose proof (scan_unsigned_pretty p) as Hs.
    unfold pretty, pretty_N in *. rewrite decide_False in * by done.
    destruct (go_head (N.pos p) "") as (c & r & d & Hgo & Hd); [lia|]. rewrite Hgo in *.
    cbn [scan_d]. unfold digit_value in Hd.
    repeat match goal with |- context [(N_of_ascii c =? ?k)%N] =>
      destruct (N.eqb_spec (N_of_ascii c) k) as [E|_]; [rewrite E in Hd; done|] end.
    rewrite Hs. cbn. by rewrite decide_True.
  - change (fmt_d (Z.neg p)) with ("-" +:+ pretty (N.pos p)).
    change (("-" +:+ pretty (N.pos p))) with (String "-"%char (pretty (N.pos p))).
    cbn [scan_d]. change (N_of_ascii "-") with 45%N. cbn [N.eqb Pos.eqb].
    rewrite scan_unsigned_pretty. cbn. by rewrite decide_True.
Qed.

(** ** What a database holds *)
Definition stored_table {DB} `{KVStore DB} {V} `{Json V} (db : DB) (prefix : string) (m : gmap string V) : Prop :=
  ∀ k, db_get db (prefix +:+ k) = VJson ∘ to_json <$> m !! k.
(** ** The batch a commit writes *)
Definition batch_get (batch : list (string * dbval)) (k : string) : option dbval :=
  (list_to_map (rev batch) : gmap string dbval) !! k.
Lemma batch_get_app l1 l2 k :
  batch_get (l1 ++ l2) k = match batch_get l2 k with Some v => Some v | None => batch_get l1 k end.
Proof.
  unfold batch_get. rewrite rev_app_distr, list_to_map_app, lookup_union.
  destruct (list_to_map (rev l2) !! k), (list_to_map (rev l1) !! k); done.
Qed.
Lemma batch_get_table `{Json V} p (m : gmap string V) k :
  batch_get (table p m) (p +:+ k) = VJson ∘ to_json <$> m !! k.
Proof.
  unfold batch_get. assert (NoDup (rev (table p m)).*1) as Hnd.
  { rewrite <- Permutation_rev. unfold table.
    assert ((table p m).*1 = String.append p <$> (map_to_list m).*1) as Hk.
    { unfold table. by rewrite <- !list_fmap_compose. }
    unfold table in Hk. rewrite Hk. apply NoDup_fmap_2; [apply _|].
    apply NoDup_fst_map_to_list. }
  apply option_eq. intros v. rewrite <- elem_of_list_to_map by done.
  rewrite <- Permutation_rev. unfold table. rewrite list_elem_of_fmap, fmap_Some. split.
  - intros ([k' r] & [= Hk ->] & Hin%elem_of_map_to_list).
    apply (inj (String.append p)) in Hk as ->. eauto.
  - intros (r & Hr & ->). exists (k, r). by rewrite elem_of_map_to_list.
Qed.
Lemma batch_get_other `{Json V} p (m : gmap string V) key :
  has_prefix key p = false → batch_get (table p m) key = None.
Proof.
  intros Hp. unfold batch_get. apply not_elem_of_list_to_map.
  rewrite <- Permutation_rev. unfold table. rewrite <- list_fmap_compose.
  intros ([k r] & -> & _)%list_elem_of_fmap. cbn in Hp. by rewrite has_prefix_app in Hp.
Qed.
Lemma batch_get_meta a b key :
  has_prefix key "height" = false → has_prefix key "app_hash" = false →
  batch_get [("height", a); ("app_hash", b)] key = None.
Proof.
  intros H1 H2. unfold batch_get. apply not_elem_of_list_to_map. cbn.
  intros [->|[->|[]%elem_of_nil]%elem_of_cons]%elem_of_cons; [done|]. by vm_compute in H1.
Qed.

(** ** Loading *)
Section load.
Context {DB : Type} `{KVLaws DB}.

Lemma batch_table_get {V} `{Json V} (db db' : DB) (batch : list (string * dbval)) prefix (m old : gmap string V) :
  db_write db batch = Some db' →
  (∀ k, batch_get batch (prefix +:+ k) = VJson ∘ to_json <$> m !! k) →
  stored_table db prefix old → stored_table db' prefix (m ∪ old).
Proof.
  intros Hw Hb Ho k. rewrite (db_get_write _ _ _ _ Hw). fold (batch_get batch (prefix +:+ k)).
  rewrite Hb, Ho, lookup_union. by destruct (m !! k), (old !! k).
Qed.
Lemma load_table_spec {V} `{Json V} (db : DB) prefix (keyof : string → V → string) (m : gmap string V) :
  stored_table db prefix m →
  (∀ k r, m !! k = Some r → unmarshal (to_json r) = Some r ∧ keyof k r = k) →
  load_table db prefix keyof = Some m.
Proof.
  intros Hst Hm. unfold load_table, loadPrefix.
  assert (∀ kv, kv ∈ db_iterate db prefix (prefixEnd prefix) →
    ∃ k r, kv = (prefix +:+ k, VJson (to_json r)) ∧ m !! k = Some r) as Hit.
  { intros [key v] [Hg Hr]%db_iterate_spec. apply prefixEnd_range, has_prefix_spec in Hr as [k ->].
    rewrite Hst in Hg. apply fmap_Some in Hg as (r & ? & ->). eauto. }
  set (step := λ (acc : option (gmap string V)) (kv : string * dbval), _).
  assert (∀ (l : list (string * dbval)) (acc : gmap string V),
    (∀ kv, kv ∈ l → ∃ k r, kv = (prefix +:+ k, VJson (to_json r)) ∧ m !! k = Some r) →
    ∃ m' : gmap string V, foldl step (Some acc) l = Some m' ∧ ∀ k, m' !! k = if decide (prefix +:+ k ∈ l.*1) then m !! k else acc !! k) as Hfold.
  { induction l as [|kv l IH]; intros acc Hl.
    { exists acc. split; [done|]. intros k. by rewrite decide_False by (by intros ?%elem_of_nil). }
    destruct (Hl kv) as (k & r & -> & Hk); [by left|]. destruct (Hm _ _ Hk) as [Hdec Hkey].
    cbn [foldl]. unfold step at 2. cbn [fst snd mbind option_bind decode_val]. rewrite trim_prefix_app, Hdec.
    cbn [mbind option_bind]. rewrite Hkey. destruct (IH (<[k:=r]> acc)) as (m' & -> & Hm'); [intros; apply Hl; by right|].
    exists m'. split; [done|]. intros k'. rewrite Hm'. cbn.
    destruct (decide (k' = k)) as [->|Hne].
    - rewrite lookup_insert_eq, (decide_True (P := prefix +:+ k ∈ _ :: _)) by (by left). by case_decide.
    - rewrite lookup_insert_ne by done. destruct (decide (prefix +:+ k' ∈ l.*1)) as [Hin|Hin].
      + rewrite decide_True by (by right). done.
      + rewrite decide_False; [done|]. intros [Heq|]%elem_of_cons; [|done]. by apply (inj (String.append prefix)) in Heq. }
  destruct (Hfold (db_iterate db prefix (prefixEnd prefix)) ∅ Hit) as (m' & -> & Hm').
  f_equal. apply map_eq. intros k. rewrite Hm', lookup_empty. case_decide as Hin; [done|].
  destruct (m !! k) as [r|] eqn:Hk; [|done]. destruct Hin. apply list_elem_of_fmap.
  exists (prefix +:+ k, VJson (to_json r)). split; [done|].
  apply db_iterate_spec. rewrite Hst, Hk. split; [done|]. apply prefixEnd_range, has_prefix_app.
Qed.
(** A table reloaded under another key of its records: what is there comes from the table
    and sits under its key, and no key of a record is missing. *)
Definition rekeyed {V} (keyof : V → string) (m m' : gmap string V) : Prop := ∀ k,
  match m' !! k with
  | Some r => keyof r = k ∧ ∃ k0, m !! k0 = Some r
  | None => map_Forall (λ _ r, keyof r ≠ k) m
  end.
Lemma rekeyed_id {V} (keyof : V → string) (m m' : gmap string V) :
  map_Forall (λ k r, keyof r = k) m → rekeyed keyof m m' → m' = m.
Proof.
  intros Hk Hm. apply map_eq. intros k. specialize (Hm k). destruct (m' !! k) as [r|].
  - destruct Hm as [E [k0 Hk0]]. by rewrite <- E, (Hk _ _ Hk0).
  - destruct (m !! k) as [r|] eqn:E; [|done]. by destruct (Hm _ _ E); apply Hk.
Qed.
Lemma load_table_rekeyed {V} `{Json V} (db : DB) prefix (keyof : V → string) (m : gmap string V) :
  stored_table db prefix m → (∀ k r, m !! k = Some r → unmarshal (to_json r) = Some r) →
  ∃ m', load_table db prefix (λ _, keyof) = Some m' ∧ rekeyed keyof m m'.
Proof.
  intros Hst Hm. unfold load_table, loadPrefix.
  assert (∀ kv, kv ∈ db_iterate db prefix (prefixEnd prefix) →
    ∃ k r, kv = (prefix +:+ k, VJson (to_json r)) ∧ m !! k = Some r) as Hit.
  { intros [key v] [Hg Hr]%db_iterate_spec. apply prefixEnd_range, has_prefix_spec in Hr as [k ->].
    rewrite Hst in Hg. apply fmap_Some in Hg as (r & ? & ->). eauto. }
  set (step := λ (acc : option (gmap string V)) (kv : string * dbval), _).
  assert (∀ (l : list (string * dbval)) (acc : gmap string V),
    (∀ kv, kv ∈ l → ∃ k r, kv = (prefix +:+ k, VJson (to_json r)) ∧ m !! k = Some r) →
    ∃ m' : gmap string V, foldl step (Some acc) l = Some m' ∧ ∀ k,
      match m' !! k with
      | Some r => acc !! k = Some r ∨ keyof r = k ∧ ∃ k0, m !! k0 = Some r
      | None => acc !! k = None ∧ ∀ k0 r, prefix +:+ k0 ∈ l.*1 → m !! k0 = Some r → keyof r ≠ k
      end) as Hfold.
  { induction l as [|kv l IH]; intros acc Hl.
    { exists acc. split; [done|]. intros k. destruct (acc !! k); [by left|]. split; [done|]. by intros k0 r ?%elem_of_nil. }
    destruct (Hl kv) as (k & r & -> & Hk); [by left|].
    cbn [foldl]. unfold step at 2. cbn [fst snd mbind option_bind decode_val]. rewrite (Hm _ _ Hk).
    cbn [mbind option_bind]. destruct (IH (<[keyof r:=r]> acc)) as (m' & -> & Hm'); [intros; apply Hl; by right|].
    exists m'. split; [done|]. intros k'. specialize (Hm' k'). rewrite lookup_insert in Hm'. destruct (m' !! k') as [r'|].
    - destruct Hm' as [E|?]; [|by right]. case_decide; [|by left]. injection E as <-. right. eauto.
    - destruct Hm' as [E Hn]. case_decide; [done|]. split; [done|]. intros k0 r0 [E0|Hin]%elem_of_cons Hk0; [|by eapply Hn].
      apply (inj (String.append prefix)) in E0. subst k0. congruence. }
  destruct (Hfold (db_iterate db prefix (prefixEnd prefix)) ∅ Hit) as (m' & -> & Hm').
  exists m'. split; [done|]. intros k. specialize (Hm' k). destruct (m' !! k) as [r|]; [destruct Hm' as [E|?]; [by rewrite lookup_empty in E|done]|].
  intros k0 r Hk0. apply (proj2 Hm' k0 r); [|done]. apply list_elem_of_fmap. exists (prefix +:+ k0, VJson (to_json r)). split; [done|].
  apply db_iterate_spec. rewrite Hst, Hk0. split; [done|]. apply prefixEnd_range, has_prefix_app.
Qed.
End load.

(** [strings.SplitN(s, sep, 2)] for a one-byte separator. *)
Definition split2 (s : string) (sep : ascii) : string * option string :=
  match str_index s sep with
  | Some i => (str_take i s, Some (str_drop (S i) s))
  | None => (s, None)
  end.
Definition marshal_record {V} `{Json V} (r : V) : error + json := inr (to_json r).
Definition marshal_records {V} `{Json V} (l : list V) : error + json := inr (JArr (to_json <$> l)).
Definition query_error (format : string) (args : list farg) : error + json := inl (Errorf format args).
(** [rec, ok := m[id]; if !ok { return nil, fmt.Errorf(...) }; return json.Marshal(rec)]. *)
Definition query_record {V} `{Json V} (m : gmap string V) (id format : string) : error + json :=
  match m !! id with Some r => marshal_record r | None => query_error format [FStr id] end.
