(* ===== verification/Types.v ===== *)
(** The canonical data model: protocol/types/poll.go and the validator record of
    domain/state/validators.go, one record per struct with its JSON form. *)
From S2P Require Import Prelude GoStd Json.

Definition VotingMethodPlurality : string := "plurality".
Definition VotingMethodApproval : string := "approval".
Definition VotingMethodRanked : string := "ranked".

(** A poll in canonical state. *)
Record Poll := mkPoll {
  Poll_PollID : string;
  Poll_PollHash : string;
  Poll_Question : string;
  Poll_Options : slice string;
  Poll_VotingMethod : string;
  Poll_StartTime : Z;
  Poll_EndTime : Z;
  Poll_Status : string;
  Poll_CreatedAt : Z;
  Poll_EligibilityAuthorityPubKey : string;
  Poll_ReconcilingAuthorityPubKey : string;
  Poll_SealedCount : Z;
  Poll_ReattestationCount : Z;
  Poll_IDVCastCount : Z;
}.
#[export] Instance Eta_Poll : Eta Poll := λ r,
  mkPoll (Poll_PollID r) (Poll_PollHash r) (Poll_Question r) (Poll_Options r) (Poll_VotingMethod r) (Poll_StartTime r) (Poll_EndTime r) (Poll_Status r) (Poll_CreatedAt r) (Poll_EligibilityAuthorityPubKey r) (Poll_ReconcilingAuthorityPubKey r) (Poll_SealedCount r) (Poll_ReattestationCount r) (Poll_IDVCastCount r).
Definition Poll_tags : list string :=
  ["poll_id"; "poll_hash"; "question"; "options"; "voting_method"; "start_time"; "end_time"; "status"; "created_at"; "eligibility_authority_pub_key"; "reconciling_authority_pub_key"; "sealed_count"; "reattestation_count"; "idv_cast_count"].
#[export] Instance Json_Poll : Json Poll := {
  jzero := mkPoll "" "" "" None "" 0 0 "" 0 "" "" 0 0 0;
  to_json r := JObj (
    required "poll_id" (Poll_PollID r) ++
    required "poll_hash" (Poll_PollHash r) ++
    required "question" (Poll_Question r) ++
    required "options" (Poll_Options r) ++
    required "voting_method" (Poll_VotingMethod r) ++
    required "start_time" (Poll_StartTime r) ++
    required "end_time" (Poll_EndTime r) ++
    required "status" (Poll_Status r) ++
    required "created_at" (Poll_CreatedAt r) ++
    omit_str "eligibility_authority_pub_key" (Poll_EligibilityAuthorityPubKey r) ++
    omit_str "reconciling_authority_pub_key" (Poll_ReconcilingAuthorityPubKey r) ++
    omit_int "sealed_count" (Poll_SealedCount r) ++
    omit_int "reattestation_count" (Poll_ReattestationCount r) ++
    omit_int "idv_cast_count" (Poll_IDVCastCount r) ++ []);
  of_json := of_object (λ ms,
    x0 ← jfield Poll_tags ms "poll_id";
    x1 ← jfield Poll_tags ms "poll_hash";
    x2 ← jfield Poll_tags ms "question";
    x3 ← jfield Poll_tags ms "options";
    x4 ← jfield Poll_tags ms "voting_method";
    x5 ← jfield Poll_tags ms "start_time";
    x6 ← jfield Poll_tags ms "end_time";
    x7 ← jfield Poll_tags ms "status";
    x8 ← jfield Poll_tags ms "created_at";
    x9 ← jfield Poll_tags ms "eligibility_authority_pub_key";
    x10 ← jfield Poll_tags ms "reconciling_authority_pub_key";
    x11 ← jfield Poll_tags ms "sealed_count";
    x12 ← jfield Poll_tags ms "reattestation_count";
    x13 ← jfield Poll_tags ms "idv_cast_count";
    Some (mkPoll x0 x1 x2 x3 x4 x5 x6 x7 x8 x9 x10 x11 x12 x13));
}.
(** Its integers are in range. *)
Definition Poll_ok (r : Poll) : Prop :=
  int64_ok (Poll_StartTime r) ∧ int64_ok (Poll_EndTime r) ∧ int64_ok (Poll_CreatedAt r) ∧ int64_ok (Poll_SealedCount r) ∧ int64_ok (Poll_ReattestationCount r) ∧ int64_ok (Poll_IDVCastCount r).
#[export] Instance roundtrip_Poll : JsonRoundTrip Poll Poll_ok.
Proof. struct_roundtrip Json_Poll. Qed.

(** List 1: an anonymous vote direction; no identity field. *)
Record VoteRecord := mkVoteRecord {
  VoteRecord_BallotID : string;
  VoteRecord_Choices : slice string;
  VoteRecord_PartitionID : string;
  VoteRecord_Superseded : bool;
  VoteRecord_VoterPubKeyHash : string;
}.
#[export] Instance Eta_VoteRecord : Eta VoteRecord := λ r,
  mkVoteRecord (VoteRecord_BallotID r) (VoteRecord_Choices r) (VoteRecord_PartitionID r) (VoteRecord_Superseded r) (VoteRecord_VoterPubKeyHash r).
Definition VoteRecord_tags : list string :=
  ["ballot_id"; "choices"; "partition_id"; "superseded"; "voter_pub_key_hash"].
#[export] Instance Json_VoteRecord : Json VoteRecord := {
  jzero := mkVoteRecord "" None "" false "";
  to_json r := JObj (
    required "ballot_id" (VoteRecord_BallotID r) ++
    required "choices" (VoteRecord_Choices r) ++
    omit_str "partition_id" (VoteRecord_PartitionID r) ++
    omit_bool "superseded" (VoteRecord_Superseded r) ++
    omit_str "voter_pub_key_hash" (VoteRecord_VoterPubKeyHash r) ++ []);
  of_json := of_object (λ ms,
    x0 ← jfield VoteRecord_tags ms "ballot_id";
    x1 ← jfield VoteRecord_tags ms "choices";
    x2 ← jfield VoteRecord_tags ms "partition_id";
    x3 ← jfield VoteRecord_tags ms "superseded";
    x4 ← jfield VoteRecord_tags ms "voter_pub_key_hash";
    Some (mkVoteRecord x0 x1 x2 x3 x4));
}.
#[export] Instance roundtrip_VoteRecord : JsonRoundTrip VoteRecord (λ _, True).
Proof. struct_roundtrip Json_VoteRecord. Qed.

(** List 2: a participation record; no choice field. *)
Record VoterRecord := mkVoterRecord {
  VoterRecord_IdentityHash : string;
}.
#[export] Instance Eta_VoterRecord : Eta VoterRecord := λ r,
  mkVoterRecord (VoterRecord_IdentityHash r).
Definition VoterRecord_tags : list string :=
  ["identity_hash"].
#[export] Instance Json_VoterRecord : Json VoterRecord := {
  jzero := mkVoterRecord "";
  to_json r := JObj (
    required "identity_hash" (VoterRecord_IdentityHash r) ++ []);
  of_json := of_object (λ ms,
    x0 ← jfield VoterRecord_tags ms "identity_hash";
    Some (mkVoterRecord x0));
}.
#[export] Instance roundtrip_VoterRecord : JsonRoundTrip VoterRecord (λ _, True).
Proof. struct_roundtrip Json_VoterRecord. Qed.

(** The final tally of a poll. *)
Record Tally := mkTally {
  Tally_PollID : string;
  Tally_VotingMethod : string;
  Tally_Counts : gmap string Z;
  Tally_TotalVotes : Z;
  Tally_ConfirmedCount : Z;
  Tally_VoteMerkleRoot : gobytes;
  Tally_VoterMerkleRoot : gobytes;
  Tally_Signature : gobytes;
  Tally_PublicKey : gobytes;
  Tally_FinalizedAt : Z;
  Tally_Height : Z;
  Tally_AttestationDegraded : bool;
  Tally_RescissionCount : Z;
}.
#[export] Instance Eta_Tally : Eta Tally := λ r,
  mkTally (Tally_PollID r) (Tally_VotingMethod r) (Tally_Counts r) (Tally_TotalVotes r) (Tally_ConfirmedCount r) (Tally_VoteMerkleRoot r) (Tally_VoterMerkleRoot r) (Tally_Signature r) (Tally_PublicKey r) (Tally_FinalizedAt r) (Tally_Height r) (Tally_AttestationDegraded r) (Tally_RescissionCount r).
Definition Tally_tags : list string :=
  ["poll_id"; "voting_method"; "counts"; "total_votes"; "confirmed_count"; "vote_merkle_root"; "voter_merkle_root"; "signature"; "public_key"; "finalized_at"; "height"; "attestation_degraded"; "rescission_count"].
#[export] Instance Json_Tally : Json Tally := {
  jzero := mkTally "" "" ∅ 0 0 None None None None 0 0 false 0;
  to_json r := JObj (
    required "poll_id" (Tally_PollID r) ++
    required "voting_method" (Tally_VotingMethod r) ++
    required "counts" (Tally_Counts r) ++
    required "total_votes" (Tally_TotalVotes r) ++
    required "confirmed_count" (Tally_ConfirmedCount r) ++
    required "vote_merkle_root" (Tally_VoteMerkleRoot r) ++
    required "voter_merkle_root" (Tally_VoterMerkleRoot r) ++
    required "signature" (Tally_Signature r) ++
    required "public_key" (Tally_PublicKey r) ++
    required "finalized_at" (Tally_FinalizedAt r) ++
    required "height" (Tally_Height r) ++
    omit_bool "attestation_degraded" (Tally_AttestationDegraded r) ++
    omit_int "rescission_count" (Tally_RescissionCount r) ++ []);
  of_json := of_object (λ ms,
    x0 ← jfield Tally_tags ms "poll_id";
    x1 ← jfield Tally_tags ms "voting_method";
    x2 ← jfield Tally_tags ms "counts";
    x3 ← jfield Tally_tags ms "total_votes";
    x4 ← jfield Tally_tags ms "confirmed_count";
    x5 ← jfield Tally_tags ms "vote_merkle_root";
    x6 ← jfield Tally_tags ms "voter_merkle_root";
    x7 ← jfield Tally_tags ms "signature";
    x8 ← jfield Tally_tags ms "public_key";
    x9 ← jfield Tally_tags ms "finalized_at";
    x10 ← jfield Tally_tags ms "height";
    x11 ← jfield Tally_tags ms "attestation_degraded";
    x12 ← jfield Tally_tags ms "rescission_count";
    Some (mkTally x0 x1 x2 x3 x4 x5 x6 x7 x8 x9 x10 x11 x12));
}.
(** Its integers are in range. *)
Definition Tally_ok (r : Tally) : Prop :=
  int64_ok (Tally_TotalVotes r) ∧ int64_ok (Tally_ConfirmedCount r) ∧ int64_ok (Tally_FinalizedAt r) ∧ int64_ok (Tally_Height r) ∧ int64_ok (Tally_RescissionCount r) ∧ map_Forall (λ _, int64_ok) (Tally_Counts r).
#[export] Instance roundtrip_Tally : JsonRoundTrip Tally Tally_ok.
Proof. struct_roundtrip Json_Tally. Qed.

(** A rolling attestation; held in memory only. *)
Record AttestationCheckpoint := mkAttestationCheckpoint {
  AttestationCheckpoint_PollID : string;
  AttestationCheckpoint_SequenceNumber : Z;
  AttestationCheckpoint_TotalSubmissions : Z;
  AttestationCheckpoint_L1Commitment : string;
  AttestationCheckpoint_L2Commitment : string;
  AttestationCheckpoint_Signature : gobytes;
  AttestationCheckpoint_PublicKey : gobytes;
  AttestationCheckpoint_AttestationDegraded : bool;
  AttestationCheckpoint_CommittedAt : Z;
  AttestationCheckpoint_Height : Z;
}.
#[export] Instance Eta_AttestationCheckpoint : Eta AttestationCheckpoint := λ r,
  mkAttestationCheckpoint (AttestationCheckpoint_PollID r) (AttestationCheckpoint_SequenceNumber r) (AttestationCheckpoint_TotalSubmissions r) (AttestationCheckpoint_L1Commitment r) (AttestationCheckpoint_L2Commitment r) (AttestationCheckpoint_Signature r) (AttestationCheckpoint_PublicKey r) (AttestationCheckpoint_AttestationDegraded r) (AttestationCheckpoint_CommittedAt r) (AttestationCheckpoint_Height r).

(** The audit record of a rescission. *)
Record RescindRecord := mkRescindRecord {
  RescindRecord_PollID : string;
  RescindRecord_BallotID : string;
  RescindRecord_IdentityHash : string;
  RescindRecord_RevocationRef : string;
  RescindRecord_Height : Z;
}.
#[export] Instance Eta_RescindRecord : Eta RescindRecord := λ r,
  mkRescindRecord (RescindRecord_PollID r) (RescindRecord_BallotID r) (RescindRecord_IdentityHash r) (RescindRecord_RevocationRef r) (RescindRecord_Height r).
Definition RescindRecord_tags : list string :=
  ["poll_id"; "ballot_id"; "identity_hash"; "revocation_ref"; "height"].
#[export] Instance Json_RescindRecord : Json RescindRecord := {
  jzero := mkRescindRecord "" "" "" "" 0;
  to_json r := JObj (
    required "poll_id" (RescindRecord_PollID r) ++
    required "ballot_id" (RescindRecord_BallotID r) ++
    required "identity_hash" (RescindRecord_IdentityHash r) ++
    required "revocation_ref" (RescindRecord_RevocationRef r) ++
    required "height" (RescindRecord_Height r) ++ []);
  of_json := of_object (λ ms,
    x0 ← jfield RescindRecord_tags ms "poll_id";
    x1 ← jfield RescindRecord_tags ms "ballot_id";
    x2 ← jfield RescindRecord_tags ms "identity_hash";
    x3 ← jfield RescindRecord_tags ms "revocation_ref";
    x4 ← jfield RescindRecord_tags ms "height";
    Some (mkRescindRecord x0 x1 x2 x3 x4));
}.
(** Its integers are in range. *)
Definition RescindRecord_ok (r : RescindRecord) : Prop :=
  int64_ok (RescindRecord_Height r).
#[export] Instance roundtrip_RescindRecord : JsonRoundTrip RescindRecord RescindRecord_ok.
Proof. struct_roundtrip Json_RescindRecord. Qed.

(** A confirmed receipt. *)
Record ConfirmRecord := mkConfirmRecord {
  ConfirmRecord_PollID : string;
  ConfirmRecord_IdentityHash : string;
  ConfirmRecord_Height : Z;
}.
#[export] Instance Eta_ConfirmRecord : Eta ConfirmRecord := λ r,
  mkConfirmRecord (ConfirmRecord_PollID r) (ConfirmRecord_IdentityHash r) (ConfirmRecord_Height r).
Definition ConfirmRecord_tags : list string :=
  ["poll_id"; "identity_hash"; "height"].
#[export] Instance Json_ConfirmRecord : Json ConfirmRecord := {
  jzero := mkConfirmRecord "" "" 0;
  to_json r := JObj (
    required "poll_id" (ConfirmRecord_PollID r) ++
    required "identity_hash" (ConfirmRecord_IdentityHash r) ++
    required "height" (ConfirmRecord_Height r) ++ []);
  of_json := of_object (λ ms,
    x0 ← jfield ConfirmRecord_tags ms "poll_id";
    x1 ← jfield ConfirmRecord_tags ms "identity_hash";
    x2 ← jfield ConfirmRecord_tags ms "height";
    Some (mkConfirmRecord x0 x1 x2));
}.
(** Its integers are in range. *)
Definition ConfirmRecord_ok (r : ConfirmRecord) : Prop :=
  int64_ok (ConfirmRecord_Height r).
#[export] Instance roundtrip_ConfirmRecord : JsonRoundTrip ConfirmRecord ConfirmRecord_ok.
Proof. struct_roundtrip Json_ConfirmRecord. Qed.

(** The audit record of a restoration grant. *)
Record RestoreRecord := mkRestoreRecord {
  RestoreRecord_PollID : string;
  RestoreRecord_BallotID : string;
  RestoreRecord_IdentityHash : string;
  RestoreRecord_RevocationRef : string;
  RestoreRecord_EligibilitySig : gobytes;
  RestoreRecord_ReconcilingSig : gobytes;
  RestoreRecord_Height : Z;
}.
#[export] Instance Eta_RestoreRecord : Eta RestoreRecord := λ r,
  mkRestoreRecord (RestoreRecord_PollID r) (RestoreRecord_BallotID r) (RestoreRecord_IdentityHash r) (RestoreRecord_RevocationRef r) (RestoreRecord_EligibilitySig r) (RestoreRecord_ReconcilingSig r) (RestoreRecord_Height r).
Definition RestoreRecord_tags : list string :=
  ["poll_id"; "ballot_id"; "identity_hash"; "revocation_ref"; "eligibility_sig"; "reconciling_sig"; "height"].
#[export] Instance Json_RestoreRecord : Json RestoreRecord := {
  jzero := mkRestoreRecord "" "" "" "" None None 0;
  to_json r := JObj (
    required "poll_id" (RestoreRecord_PollID r) ++
    required "ballot_id" (RestoreRecord_BallotID r) ++
    required "identity_hash" (RestoreRecord_IdentityHash r) ++
    required "revocation_ref" (RestoreRecord_RevocationRef r) ++
    required "eligibility_sig" (RestoreRecord_EligibilitySig r) ++
    required "reconciling_sig" (RestoreRecord_ReconcilingSig r) ++
    required "height" (RestoreRecord_Height r) ++ []);
  of_json := of_object (λ ms,
    x0 ← jfield RestoreRecord_tags ms "poll_id";
    x1 ← jfield RestoreRecord_tags ms "ballot_id";
    x2 ← jfield RestoreRecord_tags ms "identity_hash";
    x3 ← jfield RestoreRecord_tags ms "revocation_ref";
    x4 ← jfield RestoreRecord_tags ms "eligibility_sig";
    x5 ← jfield RestoreRecord_tags ms "reconciling_sig";
    x6 ← jfield RestoreRecord_tags ms "height";
    Some (mkRestoreRecord x0 x1 x2 x3 x4 x5 x6));
}.
(** Its integers are in range. *)
Definition RestoreRecord_ok (r : RestoreRecord) : Prop :=
  int64_ok (RestoreRecord_Height r).
#[export] Instance roundtrip_RestoreRecord : JsonRoundTrip RestoreRecord RestoreRecord_ok.
Proof. struct_roundtrip Json_RestoreRecord. Qed.

(** A registered consensus validator. *)
Record ValidatorRecord := mkValidatorRecord {
  ValidatorRecord_PubKeyBase64 : string;
  ValidatorRecord_Power : Z;
  ValidatorRecord_Name : string;
  ValidatorRecord_Height : Z;
}.
#[export] Instance Eta_ValidatorRecord : Eta ValidatorRecord := λ r,
  mkValidatorRecord (ValidatorRecord_PubKeyBase64 r) (ValidatorRecord_Power r) (ValidatorRecord_Name r) (ValidatorRecord_Height r).
Definition ValidatorRecord_tags : list string :=
  ["pub_key_base64"; "power"; "name"; "height"].
#[export] Instance Json_ValidatorRecord : Json ValidatorRecord := {
  jzero := mkValidatorRecord "" 0 "" 0;
  to_json r := JObj (
    required "pub_key_base64" (ValidatorRecord_PubKeyBase64 r) ++
    required "power" (ValidatorRecord_Power r) ++
    required "name" (ValidatorRecord_Name r) ++
    required "height" (ValidatorRecord_Height r) ++ []);
  of_json := of_object (λ ms,
    x0 ← jfield ValidatorRecord_tags ms "pub_key_base64";
    x1 ← jfield ValidatorRecord_tags ms "power";
    x2 ← jfield ValidatorRecord_tags ms "name";
    x3 ← jfield ValidatorRecord_tags ms "height";
    Some (mkValidatorRecord x0 x1 x2 x3));
}.
(** Its integers are in range. *)
Definition ValidatorRecord_ok (r : ValidatorRecord) : Prop :=
  int64_ok (ValidatorRecord_Power r) ∧ int64_ok (ValidatorRecord_Height r).
#[export] Instance roundtrip_ValidatorRecord : JsonRoundTrip ValidatorRecord ValidatorRecord_ok.
Proof. struct_roundtrip Json_ValidatorRecord. Qed.
