(* ===== verification/TxData.v ===== *)
(** The transaction payloads of protocol/tx/tx.go, one record per struct, decoded
    from the JSON members its tags name. *)
From S2P Require Import Prelude GoStd Json.

(** Wire-format discriminators. *)
Definition TxTypePollCreate : Z := 1.
Definition TxTypeBallotCast : Z := 2.
Definition TxTypePollClose : Z := 3.
Definition TxTypeRegisterValidator : Z := 4.
Definition TxTypeConfirmReceipt : Z := 5.
Definition TxTypeUpdateBallot : Z := 6.
Definition TxTypeBatchFlush : Z := 7.
Definition TxTypeResealVote : Z := 8.
Definition TxTypeAuthorityRescind : Z := 9.
Definition TxTypeAuthorityRestore : Z := 10.

Definition SubmissionIdentifierDerivationNonceOnly : string := "nonce_only".
Definition SubmissionIdentifierDerivationNoncePlusPayload : string := "nonce_plus_payload".

(** The transaction envelope. *)
Record Tx := mkTx {
  Tx_Type : Z;
  Tx_Signature : gobytes;
  Tx_Data : option json;
}.
#[export] Instance Eta_Tx : Eta Tx := λ r,
  mkTx (Tx_Type r) (Tx_Signature r) (Tx_Data r).
Definition Tx_tags : list string :=
  ["type"; "signature"; "data"].
#[export] Instance Json_Tx : Json Tx := {
  jzero := mkTx 0 None None;
  to_json r := JObj (
    required "type" (Tx_Type r) ++
    required "signature" (Tx_Signature r) ++
    required "data" (Tx_Data r) ++ []);
  of_json := of_object (λ ms,
    x0 ← jfield_with of_json_uint8 0 Tx_tags ms "type";
    x1 ← jfield Tx_tags ms "signature";
    x2 ← jfield Tx_tags ms "data";
    Some (mkTx x0 x1 x2));
}.

(** Create a poll. *)
Record PollCreateData := mkPollCreateData {
  PollCreateData_PollID : string;
  PollCreateData_Question : string;
  PollCreateData_Options : slice string;
  PollCreateData_VotingMethod : string;
  PollCreateData_StartTime : Z;
  PollCreateData_EndTime : Z;
  PollCreateData_EligibilityAuthorityPubKeyBase64 : string;
  PollCreateData_ReconcilingAuthorityPubKeyBase64 : string;
}.
#[export] Instance Eta_PollCreateData : Eta PollCreateData := λ r,
  mkPollCreateData (PollCreateData_PollID r) (PollCreateData_Question r) (PollCreateData_Options r) (PollCreateData_VotingMethod r) (PollCreateData_StartTime r) (PollCreateData_EndTime r) (PollCreateData_EligibilityAuthorityPubKeyBase64 r) (PollCreateData_ReconcilingAuthorityPubKeyBase64 r).
Definition PollCreateData_tags : list string :=
  ["scoping_id"; "question"; "options"; "voting_method"; "start_time"; "end_time"; "eligibility_authority_pub_key_base64"; "reconciling_authority_pub_key_base64"].
#[export] Instance Json_PollCreateData : Json PollCreateData := {
  jzero := mkPollCreateData "" "" None "" 0 0 "" "";
  to_json r := JObj (
    required "scoping_id" (PollCreateData_PollID r) ++
    required "question" (PollCreateData_Question r) ++
    required "options" (PollCreateData_Options r) ++
    required "voting_method" (PollCreateData_VotingMethod r) ++
    required "start_time" (PollCreateData_StartTime r) ++
    required "end_time" (PollCreateData_EndTime r) ++
    omit_str "eligibility_authority_pub_key_base64" (PollCreateData_EligibilityAuthorityPubKeyBase64 r) ++
    omit_str "reconciling_authority_pub_key_base64" (PollCreateData_ReconcilingAuthorityPubKeyBase64 r) ++ []);
  of_json := of_object (λ ms,
    x0 ← jfield PollCreateData_tags ms "scoping_id";
    x1 ← jfield PollCreateData_tags ms "question";
    x2 ← jfield PollCreateData_tags ms "options";
    x3 ← jfield PollCreateData_tags ms "voting_method";
    x4 ← jfield PollCreateData_tags ms "start_time";
    x5 ← jfield PollCreateData_tags ms "end_time";
    x6 ← jfield PollCreateData_tags ms "eligibility_authority_pub_key_base64";
    x7 ← jfield PollCreateData_tags ms "reconciling_authority_pub_key_base64";
    Some (mkPollCreateData x0 x1 x2 x3 x4 x5 x6 x7));
}.

(** Cast a ballot. *)
Record BallotCastData := mkBallotCastData {
  BallotCastData_PollID : string;
  BallotCastData_Choices : slice string;
  BallotCastData_BallotNonce : string;
  BallotCastData_BeaconBlockHash : string;
  BallotCastData_BeaconBlockHeight : Z;
  BallotCastData_SubmissionIdentifierDerivation : string;
  BallotCastData_Timestamp : Z;
  BallotCastData_PartitionID : string;
  BallotCastData_VoterPubKey : string;
  BallotCastData_VoterSig : gobytes;
  BallotCastData_IdvAttestationSig : gobytes;
  BallotCastData_ZKNullifier : string;
  BallotCastData_ZKNullifierProof : gobytes;
  BallotCastData_ZKCommitment : string;
  BallotCastData_DiditCommitmentSig : gobytes;
  BallotCastData_WalletAddress : string;
}.
#[export] Instance Eta_BallotCastData : Eta BallotCastData := λ r,
  mkBallotCastData (BallotCastData_PollID r) (BallotCastData_Choices r) (BallotCastData_BallotNonce r) (BallotCastData_BeaconBlockHash r) (BallotCastData_BeaconBlockHeight r) (BallotCastData_SubmissionIdentifierDerivation r) (BallotCastData_Timestamp r) (BallotCastData_PartitionID r) (BallotCastData_VoterPubKey r) (BallotCastData_VoterSig r) (BallotCastData_IdvAttestationSig r) (BallotCastData_ZKNullifier r) (BallotCastData_ZKNullifierProof r) (BallotCastData_ZKCommitment r) (BallotCastData_DiditCommitmentSig r) (BallotCastData_WalletAddress r).
Definition BallotCastData_tags : list string :=
  ["scoping_id"; "choices"; "submission_nonce"; "beacon_block_hash"; "beacon_block_height"; "submission_identifier_derivation"; "timestamp"; "partition_id"; "voter_pub_key"; "voter_sig"; "idv_attestation_sig"; "zk_nullifier"; "zk_nullifier_proof"; "zk_commitment"; "didit_commitment_sig"; "wallet_address"].
#[export] Instance Json_BallotCastData : Json BallotCastData := {
  jzero := mkBallotCastData "" None "" "" 0 "" 0 "" "" None None "" None "" None "";
  to_json r := JObj (
    required "scoping_id" (BallotCastData_PollID r) ++
    required "choices" (BallotCastData_Choices r) ++
    required "submission_nonce" (BallotCastData_BallotNonce r) ++
    required "beacon_block_hash" (BallotCastData_BeaconBlockHash r) ++
    required "beacon_block_height" (BallotCastData_BeaconBlockHeight r) ++
    omit_str "submission_identifier_derivation" (BallotCastData_SubmissionIdentifierDerivation r) ++
    required "timestamp" (BallotCastData_Timestamp r) ++
    omit_str "partition_id" (BallotCastData_PartitionID r) ++
    required "voter_pub_key" (BallotCastData_VoterPubKey r) ++
    required "voter_sig" (BallotCastData_VoterSig r) ++
    omit_bytes "idv_attestation_sig" (BallotCastData_IdvAttestationSig r) ++
    omit_str "zk_nullifier" (BallotCastData_ZKNullifier r) ++
    omit_bytes "zk_nullifier_proof" (BallotCastData_ZKNullifierProof r) ++
    omit_str "zk_commitment" (BallotCastData_ZKCommitment r) ++
    omit_bytes "didit_commitment_sig" (BallotCastData_DiditCommitmentSig r) ++
    omit_str "wallet_address" (BallotCastData_WalletAddress r) ++ []);
  of_json := of_object (λ ms,
    x0 ← jfield BallotCastData_tags ms "scoping_id";
    x1 ← jfield BallotCastData_tags ms "choices";
    x2 ← jfield BallotCastData_tags ms "submission_nonce";
    x3 ← jfield BallotCastData_tags ms "beacon_block_hash";
    x4 ← jfield BallotCastData_tags ms "beacon_block_height";
    x5 ← jfield BallotCastData_tags ms "submission_identifier_derivation";
    x6 ← jfield BallotCastData_tags ms "timestamp";
    x7 ← jfield BallotCastData_tags ms "partition_id";
    x8 ← jfield BallotCastData_tags ms "voter_pub_key";
    x9 ← jfield BallotCastData_tags ms "voter_sig";
    x10 ← jfield BallotCastData_tags ms "idv_attestation_sig";
    x11 ← jfield BallotCastData_tags ms "zk_nullifier";
    x12 ← jfield BallotCastData_tags ms "zk_nullifier_proof";
    x13 ← jfield BallotCastData_tags ms "zk_commitment";
    x14 ← jfield BallotCastData_tags ms "didit_commitment_sig";
    x15 ← jfield BallotCastData_tags ms "wallet_address";
    Some (mkBallotCastData x0 x1 x2 x3 x4 x5 x6 x7 x8 x9 x10 x11 x12 x13 x14 x15));
}.

(** Close a poll. *)
Record PollCloseData := mkPollCloseData {
  PollCloseData_PollID : string;
  PollCloseData_ClosingHeight : Z;
}.
#[export] Instance Eta_PollCloseData : Eta PollCloseData := λ r,
  mkPollCloseData (PollCloseData_PollID r) (PollCloseData_ClosingHeight r).
Definition PollCloseData_tags : list string :=
  ["scoping_id"; "closing_height"].
#[export] Instance Json_PollCloseData : Json PollCloseData := {
  jzero := mkPollCloseData "" 0;
  to_json r := JObj (
    required "scoping_id" (PollCloseData_PollID r) ++
    required "closing_height" (PollCloseData_ClosingHeight r) ++ []);
  of_json := of_object (λ ms,
    x0 ← jfield PollCloseData_tags ms "scoping_id";
    x1 ← jfield PollCloseData_tags ms "closing_height";
    Some (mkPollCloseData x0 x1));
}.

(** Materialize queued ballots. *)
Record BatchFlushData := mkBatchFlushData {
  BatchFlushData_PollID : string;
  BatchFlushData_Submissions : slice Tx;
}.
#[export] Instance Eta_BatchFlushData : Eta BatchFlushData := λ r,
  mkBatchFlushData (BatchFlushData_PollID r) (BatchFlushData_Submissions r).
Definition BatchFlushData_tags : list string :=
  ["scoping_id"; "submissions"].
#[export] Instance Json_BatchFlushData : Json BatchFlushData := {
  jzero := mkBatchFlushData "" None;
  to_json r := JObj (
    required "scoping_id" (BatchFlushData_PollID r) ++
    required "submissions" (BatchFlushData_Submissions r) ++ []);
  of_json := of_object (λ ms,
    x0 ← jfield BatchFlushData_tags ms "scoping_id";
    x1 ← jfield BatchFlushData_tags ms "submissions";
    Some (mkBatchFlushData x0 x1));
}.

(** Replace or withdraw a ballot. *)
Record BallotUpdateData := mkBallotUpdateData {
  BallotUpdateData_PollID : string;
  BallotUpdateData_OldBallotID : string;
  BallotUpdateData_NewBallotNonce : string;
  BallotUpdateData_BeaconBlockHash : string;
  BallotUpdateData_BeaconBlockHeight : Z;
  BallotUpdateData_SubmissionIdentifierDerivation : string;
  BallotUpdateData_NewChoices : slice string;
  BallotUpdateData_Timestamp : Z;
  BallotUpdateData_VoterPubKey : string;
  BallotUpdateData_VoterSig : gobytes;
  BallotUpdateData_IdvAttestationSig : gobytes;
  BallotUpdateData_ZKNullifier : string;
  BallotUpdateData_ZKNullifierProof : gobytes;
  BallotUpdateData_ZKCommitment : string;
  BallotUpdateData_DiditCommitmentSig : gobytes;
  BallotUpdateData_WalletAddress : string;
}.
#[export] Instance Eta_BallotUpdateData : Eta BallotUpdateData := λ r,
  mkBallotUpdateData (BallotUpdateData_PollID r) (BallotUpdateData_OldBallotID r) (BallotUpdateData_NewBallotNonce r) (BallotUpdateData_BeaconBlockHash r) (BallotUpdateData_BeaconBlockHeight r) (BallotUpdateData_SubmissionIdentifierDerivation r) (BallotUpdateData_NewChoices r) (BallotUpdateData_Timestamp r) (BallotUpdateData_VoterPubKey r) (BallotUpdateData_VoterSig r) (BallotUpdateData_IdvAttestationSig r) (BallotUpdateData_ZKNullifier r) (BallotUpdateData_ZKNullifierProof r) (BallotUpdateData_ZKCommitment r) (BallotUpdateData_DiditCommitmentSig r) (BallotUpdateData_WalletAddress r).
Definition BallotUpdateData_tags : list string :=
  ["scoping_id"; "old_submission_id"; "new_submission_nonce"; "beacon_block_hash"; "beacon_block_height"; "submission_identifier_derivation"; "new_choices"; "timestamp"; "voter_pub_key"; "voter_sig"; "idv_attestation_sig"; "zk_nullifier"; "zk_nullifier_proof"; "zk_commitment"; "didit_commitment_sig"; "wallet_address"].
#[export] Instance Json_BallotUpdateData : Json BallotUpdateData := {
  jzero := mkBallotUpdateData "" "" "" "" 0 "" None 0 "" None None "" None "" None "";
  to_json r := JObj (
    required "scoping_id" (BallotUpdateData_PollID r) ++
    required "old_submission_id" (BallotUpdateData_OldBallotID r) ++
    required "new_submission_nonce" (BallotUpdateData_NewBallotNonce r) ++
    required "beacon_block_hash" (BallotUpdateData_BeaconBlockHash r) ++
    required "beacon_block_height" (BallotUpdateData_BeaconBlockHeight r) ++
    omit_str "submission_identifier_derivation" (BallotUpdateData_SubmissionIdentifierDerivation r) ++
    required "new_choices" (BallotUpdateData_NewChoices r) ++
    required "timestamp" (BallotUpdateData_Timestamp r) ++
    required "voter_pub_key" (BallotUpdateData_VoterPubKey r) ++
    required "voter_sig" (BallotUpdateData_VoterSig r) ++
    omit_bytes "idv_attestation_sig" (BallotUpdateData_IdvAttestationSig r) ++
    omit_str "zk_nullifier" (BallotUpdateData_ZKNullifier r) ++
    omit_bytes "zk_nullifier_proof" (BallotUpdateData_ZKNullifierProof r) ++
    omit_str "zk_commitment" (BallotUpdateData_ZKCommitment r) ++
    omit_bytes "didit_commitment_sig" (BallotUpdateData_DiditCommitmentSig r) ++
    omit_str "wallet_address" (BallotUpdateData_WalletAddress r) ++ []);
  of_json := of_object (λ ms,
    x0 ← jfield BallotUpdateData_tags ms "scoping_id";
    x1 ← jfield BallotUpdateData_tags ms "old_submission_id";
    x2 ← jfield BallotUpdateData_tags ms "new_submission_nonce";
    x3 ← jfield BallotUpdateData_tags ms "beacon_block_hash";
    x4 ← jfield BallotUpdateData_tags ms "beacon_block_height";
    x5 ← jfield BallotUpdateData_tags ms "submission_identifier_derivation";
    x6 ← jfield BallotUpdateData_tags ms "new_choices";
    x7 ← jfield BallotUpdateData_tags ms "timestamp";
    x8 ← jfield BallotUpdateData_tags ms "voter_pub_key";
    x9 ← jfield BallotUpdateData_tags ms "voter_sig";
    x10 ← jfield BallotUpdateData_tags ms "idv_attestation_sig";
    x11 ← jfield BallotUpdateData_tags ms "zk_nullifier";
    x12 ← jfield BallotUpdateData_tags ms "zk_nullifier_proof";
    x13 ← jfield BallotUpdateData_tags ms "zk_commitment";
    x14 ← jfield BallotUpdateData_tags ms "didit_commitment_sig";
    x15 ← jfield BallotUpdateData_tags ms "wallet_address";
    Some (mkBallotUpdateData x0 x1 x2 x3 x4 x5 x6 x7 x8 x9 x10 x11 x12 x13 x14 x15));
}.

(** Confirm a receipt. *)
Record ConfirmReceiptData := mkConfirmReceiptData {
  ConfirmReceiptData_PollID : string;
  ConfirmReceiptData_IdentityHash : string;
  ConfirmReceiptData_VoterPubKey : string;
  ConfirmReceiptData_IdvAttestationSig : gobytes;
  ConfirmReceiptData_ZKNullifier : string;
  ConfirmReceiptData_ZKNullifierProof : gobytes;
  ConfirmReceiptData_ZKCommitment : string;
  ConfirmReceiptData_DiditCommitmentSig : gobytes;
  ConfirmReceiptData_WalletAddress : string;
}.
#[export] Instance Eta_ConfirmReceiptData : Eta ConfirmReceiptData := λ r,
  mkConfirmReceiptData (ConfirmReceiptData_PollID r) (ConfirmReceiptData_IdentityHash r) (ConfirmReceiptData_VoterPubKey r) (ConfirmReceiptData_IdvAttestationSig r) (ConfirmReceiptData_ZKNullifier r) (ConfirmReceiptData_ZKNullifierProof r) (ConfirmReceiptData_ZKCommitment r) (ConfirmReceiptData_DiditCommitmentSig r) (ConfirmReceiptData_WalletAddress r).
Definition ConfirmReceiptData_tags : list string :=
  ["scoping_id"; "identity_hash"; "voter_pub_key"; "idv_attestation_sig"; "zk_nullifier"; "zk_nullifier_proof"; "zk_commitment"; "didit_commitment_sig"; "wallet_address"].
#[export] Instance Json_ConfirmReceiptData : Json ConfirmReceiptData := {
  jzero := mkConfirmReceiptData "" "" "" None "" None "" None "";
  to_json r := JObj (
    required "scoping_id" (ConfirmReceiptData_PollID r) ++
    required "identity_hash" (ConfirmReceiptData_IdentityHash r) ++
    required "voter_pub_key" (ConfirmReceiptData_VoterPubKey r) ++
    omit_bytes "idv_attestation_sig" (ConfirmReceiptData_IdvAttestationSig r) ++
    omit_str "zk_nullifier" (ConfirmReceiptData_ZKNullifier r) ++
    omit_bytes "zk_nullifier_proof" (ConfirmReceiptData_ZKNullifierProof r) ++
    omit_str "zk_commitment" (ConfirmReceiptData_ZKCommitment r) ++
    omit_bytes "didit_commitment_sig" (ConfirmReceiptData_DiditCommitmentSig r) ++
    omit_str "wallet_address" (ConfirmReceiptData_WalletAddress r) ++ []);
  of_json := of_object (λ ms,
    x0 ← jfield ConfirmReceiptData_tags ms "scoping_id";
    x1 ← jfield ConfirmReceiptData_tags ms "identity_hash";
    x2 ← jfield ConfirmReceiptData_tags ms "voter_pub_key";
    x3 ← jfield ConfirmReceiptData_tags ms "idv_attestation_sig";
    x4 ← jfield ConfirmReceiptData_tags ms "zk_nullifier";
    x5 ← jfield ConfirmReceiptData_tags ms "zk_nullifier_proof";
    x6 ← jfield ConfirmReceiptData_tags ms "zk_commitment";
    x7 ← jfield ConfirmReceiptData_tags ms "didit_commitment_sig";
    x8 ← jfield ConfirmReceiptData_tags ms "wallet_address";
    Some (mkConfirmReceiptData x0 x1 x2 x3 x4 x5 x6 x7 x8));
}.

(** Add or remove a validator. *)
Record ValidatorRegistrationData := mkValidatorRegistrationData {
  ValidatorRegistrationData_PubKeyBase64 : string;
  ValidatorRegistrationData_Power : Z;
  ValidatorRegistrationData_Name : string;
}.
#[export] Instance Eta_ValidatorRegistrationData : Eta ValidatorRegistrationData := λ r,
  mkValidatorRegistrationData (ValidatorRegistrationData_PubKeyBase64 r) (ValidatorRegistrationData_Power r) (ValidatorRegistrationData_Name r).
Definition ValidatorRegistrationData_tags : list string :=
  ["pub_key_base64"; "power"; "name"].
#[export] Instance Json_ValidatorRegistrationData : Json ValidatorRegistrationData := {
  jzero := mkValidatorRegistrationData "" 0 "";
  to_json r := JObj (
    required "pub_key_base64" (ValidatorRegistrationData_PubKeyBase64 r) ++
    required "power" (ValidatorRegistrationData_Power r) ++
    required "name" (ValidatorRegistrationData_Name r) ++ []);
  of_json := of_object (λ ms,
    x0 ← jfield ValidatorRegistrationData_tags ms "pub_key_base64";
    x1 ← jfield ValidatorRegistrationData_tags ms "power";
    x2 ← jfield ValidatorRegistrationData_tags ms "name";
    Some (mkValidatorRegistrationData x0 x1 x2));
}.

(** Two-party rescission. *)
Record AuthorityRescindData := mkAuthorityRescindData {
  AuthorityRescindData_PollID : string;
  AuthorityRescindData_BallotID : string;
  AuthorityRescindData_IdentityHash : string;
  AuthorityRescindData_RevocationRef : string;
  AuthorityRescindData_EligibilitySig : gobytes;
  AuthorityRescindData_ReconcilingSig : gobytes;
}.
#[export] Instance Eta_AuthorityRescindData : Eta AuthorityRescindData := λ r,
  mkAuthorityRescindData (AuthorityRescindData_PollID r) (AuthorityRescindData_BallotID r) (AuthorityRescindData_IdentityHash r) (AuthorityRescindData_RevocationRef r) (AuthorityRescindData_EligibilitySig r) (AuthorityRescindData_ReconcilingSig r).
Definition AuthorityRescindData_tags : list string :=
  ["scoping_id"; "submission_id"; "identity_hash"; "revocation_ref"; "eligibility_sig"; "reconciling_sig"].
#[export] Instance Json_AuthorityRescindData : Json AuthorityRescindData := {
  jzero := mkAuthorityRescindData "" "" "" "" None None;
  to_json r := JObj (
    required "scoping_id" (AuthorityRescindData_PollID r) ++
    required "submission_id" (AuthorityRescindData_BallotID r) ++
    required "identity_hash" (AuthorityRescindData_IdentityHash r) ++
    required "revocation_ref" (AuthorityRescindData_RevocationRef r) ++
    required "eligibility_sig" (AuthorityRescindData_EligibilitySig r) ++
    required "reconciling_sig" (AuthorityRescindData_ReconcilingSig r) ++ []);
  of_json := of_object (λ ms,
    x0 ← jfield AuthorityRescindData_tags ms "scoping_id";
    x1 ← jfield AuthorityRescindData_tags ms "submission_id";
    x2 ← jfield AuthorityRescindData_tags ms "identity_hash";
    x3 ← jfield AuthorityRescindData_tags ms "revocation_ref";
    x4 ← jfield AuthorityRescindData_tags ms "eligibility_sig";
    x5 ← jfield AuthorityRescindData_tags ms "reconciling_sig";
    Some (mkAuthorityRescindData x0 x1 x2 x3 x4 x5));
}.

(** Partition migration. *)
Record ResealVoteData := mkResealVoteData {
  ResealVoteData_PollID : string;
  ResealVoteData_BallotID : string;
  ResealVoteData_VoterPubKey : string;
  ResealVoteData_MigrationSig : gobytes;
  ResealVoteData_Timestamp : Z;
}.
#[export] Instance Eta_ResealVoteData : Eta ResealVoteData := λ r,
  mkResealVoteData (ResealVoteData_PollID r) (ResealVoteData_BallotID r) (ResealVoteData_VoterPubKey r) (ResealVoteData_MigrationSig r) (ResealVoteData_Timestamp r).
Definition ResealVoteData_tags : list string :=
  ["scoping_id"; "submission_id"; "voter_pub_key"; "migration_sig"; "timestamp"].
#[export] Instance Json_ResealVoteData : Json ResealVoteData := {
  jzero := mkResealVoteData "" "" "" None 0;
  to_json r := JObj (
    required "scoping_id" (ResealVoteData_PollID r) ++
    required "submission_id" (ResealVoteData_BallotID r) ++
    required "voter_pub_key" (ResealVoteData_VoterPubKey r) ++
    required "migration_sig" (ResealVoteData_MigrationSig r) ++
    required "timestamp" (ResealVoteData_Timestamp r) ++ []);
  of_json := of_object (λ ms,
    x0 ← jfield ResealVoteData_tags ms "scoping_id";
    x1 ← jfield ResealVoteData_tags ms "submission_id";
    x2 ← jfield ResealVoteData_tags ms "voter_pub_key";
    x3 ← jfield ResealVoteData_tags ms "migration_sig";
    x4 ← jfield ResealVoteData_tags ms "timestamp";
    Some (mkResealVoteData x0 x1 x2 x3 x4));
}.

(** Two-party restoration grant. *)
Record AuthorityRestoreData := mkAuthorityRestoreData {
  AuthorityRestoreData_PollID : string;
  AuthorityRestoreData_BallotID : string;
  AuthorityRestoreData_IdentityHash : string;
  AuthorityRestoreData_RevocationRef : string;
  AuthorityRestoreData_EligibilitySig : gobytes;
  AuthorityRestoreData_ReconcilingSig : gobytes;
}.
#[export] Instance Eta_AuthorityRestoreData : Eta AuthorityRestoreData := λ r,
  mkAuthorityRestoreData (AuthorityRestoreData_PollID r) (AuthorityRestoreData_BallotID r) (AuthorityRestoreData_IdentityHash r) (AuthorityRestoreData_RevocationRef r) (AuthorityRestoreData_EligibilitySig r) (AuthorityRestoreData_ReconcilingSig r).
Definition AuthorityRestoreData_tags : list string :=
  ["scoping_id"; "submission_id"; "identity_hash"; "revocation_ref"; "eligibility_sig"; "reconciling_sig"].
#[export] Instance Json_AuthorityRestoreData : Json AuthorityRestoreData := {
  jzero := mkAuthorityRestoreData "" "" "" "" None None;
  to_json r := JObj (
    required "scoping_id" (AuthorityRestoreData_PollID r) ++
    required "submission_id" (AuthorityRestoreData_BallotID r) ++
    required "identity_hash" (AuthorityRestoreData_IdentityHash r) ++
    required "revocation_ref" (AuthorityRestoreData_RevocationRef r) ++
    required "eligibility_sig" (AuthorityRestoreData_EligibilitySig r) ++
    required "reconciling_sig" (AuthorityRestoreData_ReconcilingSig r) ++ []);
  of_json := of_object (λ ms,
    x0 ← jfield AuthorityRestoreData_tags ms "scoping_id";
    x1 ← jfield AuthorityRestoreData_tags ms "submission_id";
    x2 ← jfield AuthorityRestoreData_tags ms "identity_hash";
    x3 ← jfield AuthorityRestoreData_tags ms "revocation_ref";
    x4 ← jfield AuthorityRestoreData_tags ms "eligibility_sig";
    x5 ← jfield AuthorityRestoreData_tags ms "reconciling_sig";
    Some (mkAuthorityRestoreData x0 x1 x2 x3 x4 x5));
}.

(** [DecodeTx]: the envelope of a transaction document. *)
Definition DecodeTx (doc : option json) : option Tx := doc ≫= unmarshal.
(** [EncodeTx]. *)
Definition EncodeTx (t : Tx) : json := to_json t.
(** [(tx *Tx) UnmarshalData]: the payload; an absent message does not parse. *)
Definition UnmarshalData {A} `{Json A} (t : Tx) : option A := Tx_Data t ≫= unmarshal.
(** [len(tx.Data) == 0] and [len(tx.Signature) == 0]. *)
Definition no_data (t : Tx) : bool := match Tx_Data t with None => true | Some _ => false end.
