(* ===== verification/Merkle.v ===== *)
(** The commitments of an attestation: [computeMerkleRoot]
    (domain/state/tallies.go, protocol/submission/base.go) and
    [BuildSigningPayload] (verify/verify.go). *)
From S2P Require Import Prelude GoStd Json.

Section merkle.
  Context `{C : Crypto}.

(** One pass of the loop: adjacent nodes are hashed together, an odd last node
    is carried up unchanged. *)
Fixpoint merkle_level (leaves : list string) : list string :=
  match leaves with
  | a :: b :: rest => sha256 (a +:+ b) :: merkle_level rest
  | _ => leaves
  end.
(** [for len(leaves) > 1]; [None] is running out of fuel. *)
Fixpoint merkle_loop (fuel : nat) (leaves : list string) : option string :=
  match leaves with
  | [] => None
  | [r] => Some r
  | _ => match fuel with
         | O => None
         | S f => merkle_loop f (merkle_level leaves)
         end
  end.
Definition zero_root : string := String.string_of_list_ascii (replicate 32 (ascii_of_N 0)).
Definition computeMerkleRoot (items : list string) : string :=
  if decide (items = []) then zero_root
  else default "" (merkle_loop (length items) (sha256 <$> sort_Strings items)).

(** [BuildSigningPayload]. *)
Definition encode_counts (counts : gmap string Z) : string :=
  foldr (λ k s, k +:+ be64 (default 0 (counts !! k)) +:+ s) ""
    (sort_Strings (map_keys counts)).
Definition signing_input (voteMerkleRoot voterMerkleRoot : string) (totalVotes : Z)
    (counts : gmap string Z) : string :=
  voteMerkleRoot +:+ voterMerkleRoot +:+ be64 totalVotes +:+ encode_counts counts.
Definition BuildSigningPayload (voteMerkleRoot voterMerkleRoot : string) (totalVotes : Z)
    (counts : gmap string Z) : string :=
  sha256 (signing_input voteMerkleRoot voterMerkleRoot totalVotes counts).

(** The strings hashed while the root of [items] is computed. *)
Fixpoint level_queries (leaves : list string) : list string :=
  match leaves with
  | a :: b :: rest => (a +:+ b) :: level_queries rest
  | _ => []
  end.
Fixpoint loop_queries (fuel : nat) (leaves : list string) : list string :=
  match fuel with
  | O => []
  | S f => level_queries leaves ++ loop_queries f (merkle_level leaves)
  end.
Definition merkle_queries (items : list string) : list string :=
  items ++ loop_queries (length items) (sha256 <$> sort_Strings items).

(** ** Termination *)
Lemma list_ind2 {A} (P : list A → Prop) :
  P [] → (∀ a, P [a]) → (∀ a b l, P l → P (a :: b :: l)) → ∀ l, P l.
Proof.
  intros H0 H1 H2. fix IH 1. intros [|a [|b l]]; [done|done|]. apply H2, IH.
Qed.

Lemma merkle_level_length l :
  (length (merkle_level l) = (length l + 1) / 2)%nat.
Proof.
  induction l as [|a|a b l IH] using list_ind2; [done|done|].
  cbn [merkle_level length]. rewrite IH.
  replace (S (S (length l)) + 1)%nat with (length l + 1 + 1 * 2)%nat by lia.
  rewrite Nat.div_add by lia. lia.
Qed.
Lemma merkle_level_shrinks a b l :
  (length (merkle_level (a :: b :: l)) < length (a :: b :: l))%nat.
Proof.
  rewrite merkle_level_length. cbn [length]. apply Nat.Div0.div_lt_upper_bound; lia.
Qed.

Lemma merkle_loop_total fuel l :
  l ≠ [] → (length l ≤ fuel)%nat → is_Some (merkle_loop fuel l).
Proof.
  revert l. induction fuel as [|fuel IH]; intros [|a [|b l]] Hl Hf; try done; cbn in Hf; [lia|].
  cbn [merkle_loop]. apply IH; [done|].
  pose proof (merkle_level_shrinks a b l). cbn [length] in *. lia.
Qed.

(** More fuel does not change the root. *)
Lemma merkle_loop_fuel fuel fuel' l r :
  merkle_loop fuel l = Some r → (fuel ≤ fuel')%nat → merkle_loop fuel' l = Some r.
Proof.
  revert fuel' l. induction fuel as [|fuel IH]; intros fuel' [|a [|b l]] H Hf; try done;
    destruct fuel' as [|fuel']; try done; [lia|].
  cbn [merkle_loop] in *. apply IH; [done|lia].
Qed.

Lemma merkle_root_some items :
  items ≠ [] →
  merkle_loop (length items) (sha256 <$> sort_Strings items) = Some (computeMerkleRoot items).
Proof.
  intros H. unfold computeMerkleRoot. rewrite decide_False by done.
  destruct (merkle_loop_total (length items) (sha256 <$> sort_Strings items)) as [r ->]; [| |done].
  - intros E%fmap_nil_inv. apply (f_equal length) in E. rewrite sort_Strings_length in E.
    by destruct items.
  - by rewrite length_fmap, sort_Strings_length.
Qed.

(** ** The root has 32 bytes *)
Section digests.
Context `{!CryptoLaws C}.

Definition digests (l : list string) : Prop := Forall (λ s, String.length s = 32%nat) l.
Lemma digests_hashes l : digests (sha256 <$> l).
Proof. apply Forall_fmap, Forall_true. intros. apply sha256_length. Qed.
Lemma digests_level l : digests l → digests (merkle_level l).
Proof.
  induction l as [|a|a b l IH] using list_ind2; cbn; [done|done|].
  intros H.
  apply Forall_cons in H as [_ [_ H]%Forall_cons]. apply Forall_cons. split; [apply sha256_length|by apply IH].
Qed.
Lemma merkle_loop_digest fuel l r :
  digests l → merkle_loop fuel l = Some r → String.length r = 32%nat.
Proof.
  revert l. induction fuel as [|fuel IH]; intros [|a [|b l]] Hl H; try done; cbn [merkle_loop] in H.
  - apply Forall_cons in Hl as [Hl _]. by injection H as <-.
  - apply Forall_cons in Hl as [Hl _]. by injection H as <-.
  - eapply IH; [|done]. by apply digests_level.
Qed.
Lemma computeMerkleRoot_length items : String.length (computeMerkleRoot items) = 32%nat.
Proof.
  destruct (decide (items = [])) as [->|H]; [done|].
  eapply merkle_loop_digest; [apply digests_hashes|]. by apply merkle_root_some.
Qed.

(** ** Binding *)
Lemma hashes_inj l1 l2 :
  collision_free l1 l2 → sha256 <$> l1 = sha256 <$> l2 → l1 = l2.
Proof.
  revert l2. induction l1 as [|x l1 IH]; intros [|y l2] Hc H; try done. cbn in H.
  injection H as Hx Hl. f_equal.
  - apply Hc; [by left|by left|done].
  - apply IH; [|done]. intros ????. apply Hc; by right.
Qed.

Lemma level_inj l1 l2 :
  digests l1 → digests l2 → length l1 = length l2 →
  collision_free (level_queries l1) (level_queries l2) →
  merkle_level l1 = merkle_level l2 → l1 = l2.
Proof.
  revert l2. induction l1 as [|a|a b l1 IH] using list_ind2;
    intros [|a' [|b' l2]] D1 D2 Hl Hc H; cbn [length merkle_level] in *; try done.
  injection H as Hab H.
  apply Forall_cons in D1 as [Da [Db D1]%Forall_cons].
  apply Forall_cons in D2 as [Da' [Db' D2]%Forall_cons].
  apply Hc in Hab; [|by left|by left].
  apply str_app_inj_len in Hab as [-> ->]; [|congruence]. do 2 f_equal.
  apply IH; try done; [lia|]. intros ????. apply Hc; cbn; by right.
Qed.

Lemma loop_inj fuel l1 l2 r :
  digests l1 → digests l2 → length l1 = length l2 →
  collision_free (loop_queries fuel l1) (loop_queries fuel l2) →
  merkle_loop fuel l1 = Some r → merkle_loop fuel l2 = Some r → l1 = l2.
Proof.
  revert l1 l2. induction fuel as [|fuel IH];
    intros [|a [|b l1]] [|a' [|b' l2]] D1 D2 Hl Hc H1 H2; cbn [length] in Hl; try done;
    cbn [merkle_loop] in H1, H2; try congruence.
  apply level_inj; try done.
  - intros ????. apply Hc; apply elem_of_app; by left.
  - apply IH; try done.
    + by apply digests_level.
    + by apply digests_level.
    + rewrite !merkle_level_length. cbn [length]. congruence.
    + intros ????. apply Hc; apply elem_of_app; by right.
Qed.
End digests.

End merkle.

Section properties.
  Context `{C : Crypto}.

(** Termination: the root of a non-empty list is what the loop returns within as
    many iterations as there are leaves, and it is a 32-byte digest; the empty
    list has the all-zero root. *)
Theorem computeMerkleRoot_terminates `{!CryptoLaws C} (items : list string) :
  String.length (computeMerkleRoot items) = 32%nat ∧
  (items = [] → computeMerkleRoot items = zero_root) ∧
  (∀ fuel, items ≠ [] → (length items ≤ fuel)%nat →
     merkle_loop fuel (sha256 <$> sort_Strings items) = Some (computeMerkleRoot items)).
Proof.
  split_and!.
  - apply computeMerkleRoot_length.
  - by intros ->.
  - intros fuel H Hf. eapply merkle_loop_fuel; [by apply merkle_root_some|done].
Qed.

Lemma computeMerkleRoot_perm (l1 l2 : list string) :
  l1 ≡ₚ l2 → computeMerkleRoot l1 = computeMerkleRoot l2.
Proof.
  intros H. unfold computeMerkleRoot.
  rewrite (sort_Strings_unique _ _ H), (Permutation_length H).
  repeat case_decide; subst; try done.
  - by apply Permutation_nil_l in H.
  - by apply Permutation_nil_r in H.
Qed.

(** Binding: when the hash does not collide on the strings hashed along the way,
    two lists of one length with one root hold the same items. *)
Theorem computeMerkleRoot_binding `{!CryptoLaws C} (l1 l2 : list string) :
  length l1 = length l2 →
  collision_free (merkle_queries l1) (merkle_queries l2) →
  computeMerkleRoot l1 = computeMerkleRoot l2 → l1 ≡ₚ l2.
Proof.
  intros Hl Hc H. destruct (decide (l1 = [])) as [->|H1]; [by destruct l2|].
  assert (l2 ≠ []) as H2 by (by destruct l1, l2).
  pose proof (merkle_root_some l1 H1) as R1. pose proof (merkle_root_some l2 H2) as R2.
  rewrite <- H, <- Hl in R2.
  assert (sha256 <$> sort_Strings l1 = sha256 <$> sort_Strings l2) as Hs.
  { eapply loop_inj; [apply digests_hashes..| | |exact R1|exact R2].
    - by rewrite !length_fmap, !sort_Strings_length.
    - intros x y Hx Hy. apply Hc; apply elem_of_app; right; [done|by rewrite <- Hl]. }
  rewrite <- (sort_Strings_perm l1), <- (sort_Strings_perm l2).
  apply reflexive_eq, hashes_inj; [|done].
  intros x y Hx Hy. rewrite sort_Strings_perm in Hx, Hy.
  apply Hc; apply elem_of_app; by left.
Qed.

Lemma encode_counts_inj ks (c1 c2 : gmap string Z) :
  foldr (λ k s, k +:+ be64 (default 0 (c1 !! k)) +:+ s) "" ks =
  foldr (λ k s, k +:+ be64 (default 0 (c2 !! k)) +:+ s) "" ks →
  ∀ k, k ∈ ks → be64 (default 0 (c1 !! k)) = be64 (default 0 (c2 !! k)).
Proof.
  induction ks as [|k ks IH]; cbn [foldr]; intros H k' Hk; [by apply elem_of_nil in Hk|].
  apply (inj (String.append k)) in H. apply str_app_inj_len in H as [H1 H2];
    [|by rewrite !be64_length].
  apply elem_of_cons in Hk as [->|Hk]; auto.
Qed.

(** Binding of the signature: the signed digest determines both roots, the total
    and, for the options of one poll, every count, unless the hash collides on
    the two signing inputs themselves. *)
Theorem BuildSigningPayload_binding (v1 v2 r1 r2 : string) (t1 t2 : Z) (c1 c2 : gmap string Z) :
  String.length v1 = 32%nat → String.length v2 = 32%nat →
  String.length r1 = 32%nat → String.length r2 = 32%nat →
  int64_ok t1 → int64_ok t2 →
  map_Forall (λ _, int64_ok) c1 → map_Forall (λ _, int64_ok) c2 →
  sort_Strings (map_keys c1) = sort_Strings (map_keys c2) →
  collision_free [signing_input v1 r1 t1 c1] [signing_input v2 r2 t2 c2] →
  BuildSigningPayload v1 r1 t1 c1 = BuildSigningPayload v2 r2 t2 c2 →
  v1 = v2 ∧ r1 = r2 ∧ t1 = t2 ∧ c1 = c2.
Proof.
  intros Lv1 Lv2 Lr1 Lr2 Ot1 Ot2 Oc1 Oc2 Hk Hc H.
  apply Hc in H; [|by left|by left]. unfold signing_input in H.
  apply str_app_inj_len in H as [-> H]; [|congruence].
  apply str_app_inj_len in H as [-> H]; [|congruence].
  apply str_app_inj_len in H as [Ht H]; [|by rewrite !be64_length].
  split_and!; [done|done|by apply int64_mod_inj, be64_inj|].
  unfold encode_counts in H. rewrite <- Hk in H.
  pose proof (encode_counts_inj _ _ _ H) as Hcnt. apply map_eq. intros k.
  assert (is_Some (c1 !! k) ↔ is_Some (c2 !! k)) as Hdom.
  { by rewrite <- !map_keys_elem, <- (sort_Strings_perm (map_keys c1)), Hk, sort_Strings_perm. }
  destruct (c1 !! k) as [x|] eqn:E1, (c2 !! k) as [y|] eqn:E2; try done.
  - specialize (Hcnt k). rewrite E1, E2 in Hcnt. f_equal.
    eapply int64_mod_inj; [by eapply Oc1|by eapply Oc2|]. apply be64_inj, Hcnt.
    rewrite sort_Strings_perm. apply map_keys_elem. by rewrite E1.
  - destruct (proj1 Hdom) as [? [=]]. eauto.
  - destruct (proj2 Hdom) as [? [=]]. eauto.
Qed.
End properties.
