(* ===== verification/Nonce.v ===== *)
(** protocol/submission/nonce.go: nonce and beacon validation, the submission
    identifier, and the beacon window both state machines keep. *)
From S2P Require Import Prelude GoStd Json Merkle.

Definition BeaconWindowSize : Z := 20.

(** The loops over the nonce bytes. *)
Definition all_zero (b : list ascii) : bool :=
  forallb (λ v, bool_decide (v = ascii_of_N 0)) b.
Definition all_same (b : list ascii) : bool :=
  match b with
  | [] => true
  | b0 :: rest => forallb (λ v, bool_decide (v = b0)) rest
  end.

Definition ValidateNonce {S} (nonce : string) : M S unit :=
  fail_if (negb (slen nonce =? 64))
    (Errorf "submission nonce must be exactly 64 hex chars (32 bytes), got %d" [FInt (slen nonce)]) ;;
  b ← or_fail (hex_DecodeString nonce)
    (Errorf "submission nonce must be valid lowercase hex: %w" [FErr hex_error]);
  let bs := String.list_ascii_of_string b in
  fail_if (all_zero bs) (Errorf "submission nonce is all-zero: RNG failure" []) ;;
  fail_if (all_same bs) (Errorf "submission nonce is constant-byte (%02x): RNG failure" [FStr b]).

Definition ValidateBeacon {S} (beaconBlockHash : string) (beaconBlockHeight : Z)
    (window : gmap Z string) : M S unit :=
  fail_if (negb (slen beaconBlockHash =? 64))
    (Errorf "beacon_block_hash must be exactly 64 hex chars (32 bytes), got %d" [FInt (slen beaconBlockHash)]) ;;
  _ ← or_fail (hex_DecodeString beaconBlockHash)
    (Errorf "beacon_block_hash must be valid hex: %w" [FErr hex_error]);
  fail_if (beaconBlockHeight <=? 0)
    (Errorf "beacon_block_height must be positive, got %d" [FInt beaconBlockHeight]) ;;
  canonical ← or_fail (window !! beaconBlockHeight)
    (Errorf "beacon_block_height %d not in recent block window (window covers %d blocks)"
       [FInt beaconBlockHeight; FInt BeaconWindowSize]);
  fail_if (negb (bool_decide (canonical = beaconBlockHash)))
    (Errorf "beacon_block_hash mismatch at height %d: canonical %s, submitted %s"
       [FInt beaconBlockHeight; FStr canonical; FStr beaconBlockHash]).

Definition DeriveSubmissionID `{Crypto} (beaconBlockHash nonce : string) : option string :=
  beaconBytes ← hex_DecodeString beaconBlockHash;
  nonceBytes ← hex_DecodeString nonce;
  Some (hex_EncodeToString (sha256 (beaconBytes +:+ nonceBytes))).

(** [RecordBeacon] on the window map: store, then prune what is too old. *)
Definition record_beacon (height : Z) (blockHashHex : string) (window : gmap Z string) : gmap Z string :=
  filter (λ kv, ¬ kv.1 < int64_sub height BeaconWindowSize) (<[height := blockHashHex]> window).

(** * Specifications *)
Lemma all_same_false b : all_same b = false ↔ ∃ x y, x ∈ b ∧ y ∈ b ∧ x ≠ y.
Proof.
  destruct b as [|b0 b]; cbn.
  { split; [done|]. by intros (x & y & ?%elem_of_nil & _). }
  rewrite <- not_true_iff_false, forallb_forall. split.
  - intros H. assert (¬ Forall (λ v, v = b0) b) as Hf.
    { intros Hf. apply H. intros v Hv%list_elem_of_In.
      apply bool_decide_eq_true. rewrite Forall_forall in Hf. auto. }
    apply not_Forall_Exists in Hf; [|apply _]. apply Exists_exists in Hf as (x & Hx & Hne).
    exists x, b0. split_and!; [by right|by left|done].
  - intros (x & y & Hx & Hy & Hne) H. apply Hne.
    assert (∀ v, v ∈ b0 :: b → v = b0) as Hall.
    { intros v [->|Hv]%elem_of_cons; [done|].
      by apply list_elem_of_In, H, bool_decide_eq_true in Hv. }
    by rewrite (Hall x), (Hall y).
Qed.
Lemma all_zero_same b : all_zero b = true → all_same b = true.
Proof.
  destruct b as [|b0 b]; [done|]. cbn. rewrite andb_true_iff, bool_decide_eq_true. by intros [-> ?].
Qed.

(** A validator that succeeds leaves the state alone. *)
Lemma ValidateNonce_pure {S} nonce (s s' : S) u : ValidateNonce nonce s = (Ok u, s') → s' = s.
Proof. intros H. unfold ValidateNonce in H. minv H. done. Qed.
Lemma ValidateBeacon_pure {S} h n w (s s' : S) u : ValidateBeacon h n w s = (Ok u, s') → s' = s.
Proof. intros H. unfold ValidateBeacon in H. minv H. done. Qed.

(** Whether they accept does not depend on the state they run in. *)
Lemma ValidateNonce_any {S} nonce (s s' : S) :
  ValidateNonce nonce s = (Ok tt, s) → ValidateNonce nonce s' = (Ok tt, s').
Proof. unfold ValidateNonce. mrun. destruct (negb _); [done|]. destruct (hex_DecodeString _); mrun; [|done].
  destruct (all_zero _); [done|]. by destruct (all_same _). Qed.
Lemma ValidateBeacon_any {S} h n w (s s' : S) :
  ValidateBeacon h n w s = (Ok tt, s) → ValidateBeacon h n w s' = (Ok tt, s').
Proof. unfold ValidateBeacon. mrun. destruct (negb _); [done|]. destruct (hex_DecodeString _); mrun; [|done].
  destruct (n <=? 0); [done|]. destruct (w !! n); mrun; [|done]. by destruct (negb _). Qed.

Lemma slen_is s n : negb (slen s =? Z.of_nat n) = false ↔ String.length s = n.
Proof. unfold slen. rewrite negb_false_iff, Z.eqb_eq. lia. Qed.

Section properties.
  Context `{C : Crypto}.

(** Functional correctness of nonce validation: a nonce passes exactly when it is
    64 hex characters whose 32 bytes are not all equal. *)
Theorem ValidateNonce_spec {S} (nonce : string) (s : S) :
  ValidateNonce nonce s = (Ok tt, s) ↔
  String.length nonce = 64%nat ∧
  ∃ b x y, hex_DecodeString nonce = Some b ∧
    x ∈ String.list_ascii_of_string b ∧ y ∈ String.list_ascii_of_string b ∧ x ≠ y.
Proof.
  unfold ValidateNonce. split.
  - intros H. minv H.
    select (negb _ = false) (fun H => apply (slen_is _ 64) in H).
    select (all_same _ = false) (fun H => apply all_same_false in H; destruct H as (x & y & ? & ? & ?)).
    eauto 10.
  - intros (Hl & b & x & y & Hb & Hx & Hy & Hne).
    rewrite bind_run, fail_if_run.
    assert (negb (slen nonce =? 64) = false) as -> by (by apply (slen_is nonce 64)).
    rewrite bind_run, Hb. cbn [or_fail mret M_ret].
    assert (all_same (String.list_ascii_of_string b) = false) as Hs
      by (apply all_same_false; eauto).
    rewrite bind_run, !fail_if_run.
    destruct (all_zero _) eqn:E; [by rewrite (all_zero_same _ E) in Hs|]. by rewrite Hs.
Qed.

(** A beacon passes exactly when it is the hex hash the window holds at its
    (positive) height: stale and forged beacons are rejected. *)
Theorem ValidateBeacon_spec {S} (hash : string) (height : Z) (window : gmap Z string) (s : S) :
  ValidateBeacon hash height window s = (Ok tt, s) ↔
  String.length hash = 64%nat ∧ is_Some (hex_DecodeString hash) ∧
  0 < height ∧ window !! height = Some hash.
Proof.
  unfold ValidateBeacon. split.
  - intros H. minv H.
    select (negb (slen _ =? 64) = false) (fun H => apply (slen_is _ 64) in H).
    bools. subst. eauto.
  - intros (Hl & [b Hb] & Hh & Hw).
    rewrite bind_run, fail_if_run.
    assert (negb (slen hash =? 64) = false) as -> by (by apply (slen_is hash 64)).
    rewrite bind_run, Hb. cbn [or_fail mret M_ret]. rewrite bind_run, fail_if_run.
    destruct (Z.leb_spec height 0); [lia|]. rewrite bind_run, Hw. cbn [or_fail mret M_ret].
    by rewrite fail_if_run, bool_decide_true.
Qed.

(** Binding of the submission identifier: when both inputs are 64 hex characters
    and the hash separates the two preimages, equal identifiers come from the
    same beacon bytes and the same nonce bytes. *)
Theorem DeriveSubmissionID_binding (b1 n1 b2 n2 id : string) (B1 N1 B2 N2 : string) :
  hex_DecodeString b1 = Some B1 → hex_DecodeString n1 = Some N1 →
  hex_DecodeString b2 = Some B2 → hex_DecodeString n2 = Some N2 →
  String.length b1 = String.length b2 →
  collision_free [B1 +:+ N1] [B2 +:+ N2] →
  DeriveSubmissionID b1 n1 = Some id → DeriveSubmissionID b2 n2 = Some id →
  B1 = B2 ∧ N1 = N2.
Proof.
  intros Hb1 Hn1 Hb2 Hn2 Hl Hc. unfold DeriveSubmissionID.
  rewrite Hb1, Hn1, Hb2, Hn2. cbn. intros [= <-] [= H].
  apply (inj hex_EncodeToString) in H. symmetry in H.
  apply Hc in H; [|by left|by left].
  apply str_app_inj_len in H; [done|].
  apply hex_decode_length in Hb1, Hb2. lia.
Qed.
End properties.

(** ** The beacon window over consecutive blocks *)
Fixpoint record_blocks (height : Z) (hashes : list string) (window : gmap Z string) : gmap Z string :=
  match hashes with
  | [] => window
  | h :: hs => record_blocks (height + 1) hs (record_beacon height h window)
  end.

Lemma record_beacon_lookup height hash window h :
  record_beacon height hash window !! h =
  if decide (h < int64_sub height BeaconWindowSize) then None
  else if decide (h = height) then Some hash else window !! h.
Proof.
  unfold record_beacon. rewrite map_lookup_filter, lookup_insert.
  repeat case_decide; subst; cbn; repeat (case_guard || case_decide); try done; try lia;
    destruct (window !! h); cbn; try done; case_guard; done || lia.
Qed.

(** After consecutive blocks up to [last] the window holds exactly the hashes of
    the last [BeaconWindowSize + 1] heights recorded, each under its own height. *)
Theorem record_blocks_window (first : Z) (hashes : list string) (h : Z) :
  let last := first + Z.of_nat (length hashes) - 1 in
  0 ≤ first → last < 2 ^ 63 → hashes ≠ [] →
  record_blocks first hashes ∅ !! h =
  if decide (Z.max first (last - BeaconWindowSize) ≤ h ≤ last)
  then hashes !! Z.to_nat (h - first) else None.
Proof.
  intros last Hf Hl Hne.
  assert (Hgen : ∀ hs done_ (w : gmap Z string), hashes = done_ ++ hs →
    (∀ h, w !! h = if decide (Z.max first (first + Z.of_nat (length done_) - 1 - BeaconWindowSize) ≤ h
                       ≤ first + Z.of_nat (length done_) - 1)
                   then hashes !! Z.to_nat (h - first) else None) →
    ∀ h, record_blocks (first + Z.of_nat (length done_)) hs w !! h =
      if decide (Z.max first (last - BeaconWindowSize) ≤ h ≤ last)
      then hashes !! Z.to_nat (h - first) else None).
  { induction hs as [|x hs IH]; intros dn w Happ Hw h'; cbn [record_blocks].
    - rewrite app_nil_r in Happ. rewrite Hw. unfold last. by rewrite Happ.
    - replace (first + Z.of_nat (length dn) + 1)
        with (first + Z.of_nat (length (dn ++ [x]))) by (rewrite length_app; cbn; lia).
      apply IH; [by rewrite <- app_assoc|]. intros h''.
      assert (Z.of_nat (length dn) ≤ last - first) as Hlt.
      { unfold last. rewrite Happ, length_app. cbn. lia. }
      rewrite record_beacon_lookup. unfold int64_sub.
      rewrite wrap64_id by (unfold int64_ok, BeaconWindowSize; lia).
      rewrite Hw, length_app. cbn [length].
      assert (hashes !! length dn = Some x) as Hx by (rewrite Happ; by apply list_lookup_middle).
      unfold BeaconWindowSize.
      repeat case_decide; try done; try lia; subst.
      by replace (Z.to_nat (first + Z.of_nat (length dn) - first)) with (length dn) by lia. }
  specialize (Hgen hashes [] ∅). cbn [length] in Hgen. rewrite Z.add_0_r in Hgen.
  apply Hgen; [done|]. intros h'. rewrite lookup_empty. unfold BeaconWindowSize.
  case_decide; [lia|done].
Qed.
