(* ===== verification/TxValidate.v ===== *)
(** protocol/tx/tx.go: the stateless validation of a transaction.

    One definition per case of the switch in [Validate]; the recursion into the
    submissions of a batch takes fuel, and two levels are always enough because a
    submission must be a ballot cast. *)
From S2P Require Import Prelude GoStd Json TxData Nonce.

Section validate.
Context {St : Type}.
Abbreviation V := (M St unit).

Definition bad_json (what : string) : error := Errorf what [FErr json_error].

(** [for label, val := range map[string]string{...}]: an absent key is skipped, a
    present one must decode to 32 bytes. *)
Definition check_key (label val : string) (mkerr : string → list farg → error) : V :=
  if str_empty val then mret tt else
  raw ← or_fail (base64_DecodeString val)
          (mkerr "%s is not valid base64: %w" [FStr label; FErr base64_error]);
  fail_if (negb (slen raw =? 32))
    (mkerr "%s must decode to 32 bytes (Ed25519), got %d" [FStr label; FInt (slen raw)]).

Definition Validate_PollCreate (t : Tx) : V :=
  data ← or_fail (UnmarshalData (A := PollCreateData) t) (bad_json "invalid poll create data: %w");
  fail_if (str_empty (PollCreateData_PollID data)) (Errorf "missing scoping_id" []) ;;
  fail_if (str_empty (PollCreateData_Question data)) (Errorf "missing question" []) ;;
  fail_if (len (PollCreateData_Options data) <? 2) (Errorf "must have at least 2 options" []) ;;
  let hasElig := negb (str_empty (PollCreateData_EligibilityAuthorityPubKeyBase64 data)) in
  let hasReconcile := negb (str_empty (PollCreateData_ReconcilingAuthorityPubKeyBase64 data)) in
  fail_if (xorb hasElig hasReconcile)
    (Errorf "eligibility_authority_pub_key_base64 and reconciling_authority_pub_key_base64 must both be provided or both omitted" []) ;;
  check_key "eligibility_authority_pub_key_base64"
    (PollCreateData_EligibilityAuthorityPubKeyBase64 data) Errorf ;;
  check_key "reconciling_authority_pub_key_base64"
    (PollCreateData_ReconcilingAuthorityPubKeyBase64 data) Errorf.

(** The two ways an identity attestation can be carried. *)
Definition has_zk (nullifier : string) (proof : gobytes) (commitment : string) (sig : gobytes) : bool :=
  negb (str_empty nullifier) && (0 <? blen proof) && negb (str_empty commitment) && (0 <? blen sig).
Definition derivation_ok (mode : string) : bool :=
  str_empty mode || bool_decide (mode = SubmissionIdentifierDerivationNonceOnly) ||
  bool_decide (mode = SubmissionIdentifierDerivationNoncePlusPayload).

Definition Validate_BallotCast (t : Tx) : V :=
  data ← or_fail (UnmarshalData (A := BallotCastData) t) (bad_json "invalid ballot cast data: %w");
  fail_if (str_empty (BallotCastData_PollID data)) (Errorf "missing scoping_id" []) ;;
  fail_if (len (BallotCastData_Choices data) =? 0) (Errorf "missing choices" []) ;;
  fail_if (str_empty (BallotCastData_BallotNonce data)) (Errorf "missing submission_nonce" []) ;;
  fail_if (negb (derivation_ok (BallotCastData_SubmissionIdentifierDerivation data)))
    (Errorf "invalid submission_identifier_derivation" []) ;;
  fail_if (str_empty (BallotCastData_VoterPubKey data)) (Errorf "missing voter_pub_key" []) ;;
  fail_if (blen (BallotCastData_VoterSig data) =? 0) (Errorf "missing voter_sig" []) ;;
  let hasZK := has_zk (BallotCastData_ZKNullifier data) (BallotCastData_ZKNullifierProof data)
                 (BallotCastData_ZKCommitment data) (BallotCastData_DiditCommitmentSig data) in
  let hasAttestationSig := 0 <? blen (BallotCastData_IdvAttestationSig data) in
  fail_if (negb hasZK && negb hasAttestationSig)
    (Errorf "ballot must carry idv_attestation_sig or full ZK fields (high-assurance)" []).

Definition Validate_ConfirmReceipt (t : Tx) : V :=
  data ← or_fail (UnmarshalData (A := ConfirmReceiptData) t) (bad_json "invalid confirm receipt data: %w");
  fail_if (str_empty (ConfirmReceiptData_PollID data)) (Errorf "missing scoping_id" []) ;;
  fail_if (str_empty (ConfirmReceiptData_IdentityHash data)) (Errorf "missing identity hash" []).

Definition Validate_PollClose (t : Tx) : V :=
  data ← or_fail (UnmarshalData (A := PollCloseData) t) (bad_json "invalid poll close data: %w");
  fail_if (str_empty (PollCloseData_PollID data)) (Errorf "missing scoping_id" []).

Definition Validate_RegisterValidator (t : Tx) : V :=
  data ← or_fail (UnmarshalData (A := ValidatorRegistrationData) t)
    (bad_json "invalid validator registration data: %w");
  raw ← or_fail (base64_DecodeString (ValidatorRegistrationData_PubKeyBase64 data))
    (Errorf "pub_key_base64 is not valid base64: %w" [FErr base64_error]);
  fail_if (negb (slen raw =? 32))
    (Errorf "pub_key_base64 must decode to 32 bytes (Ed25519), got %d" [FInt (slen raw)]) ;;
  fail_if (str_empty (ValidatorRegistrationData_Name data)) (Errorf "missing validator name" []) ;;
  fail_if (ValidatorRegistrationData_Power data <? 0) (Errorf "power must be >= 0" []).

Definition Validate_UpdateBallot (t : Tx) : V :=
  data ← or_fail (UnmarshalData (A := BallotUpdateData) t) (bad_json "invalid ballot update data: %w");
  fail_if (str_empty (BallotUpdateData_PollID data)) (Errorf "missing scoping_id" []) ;;
  fail_if (str_empty (BallotUpdateData_OldBallotID data)) (Errorf "missing old_submission_id" []) ;;
  fail_if (str_empty (BallotUpdateData_NewBallotNonce data)) (Errorf "missing new_submission_nonce" []) ;;
  fail_if (negb (derivation_ok (BallotUpdateData_SubmissionIdentifierDerivation data)))
    (Errorf "invalid submission_identifier_derivation" []) ;;
  fail_if (str_empty (BallotUpdateData_VoterPubKey data)) (Errorf "missing voter_pub_key" []) ;;
  fail_if (blen (BallotUpdateData_VoterSig data) =? 0) (Errorf "missing voter_sig" []) ;;
  let hasZK := has_zk (BallotUpdateData_ZKNullifier data) (BallotUpdateData_ZKNullifierProof data)
                 (BallotUpdateData_ZKCommitment data) (BallotUpdateData_DiditCommitmentSig data) in
  let hasAttestationSig := 0 <? blen (BallotUpdateData_IdvAttestationSig data) in
  fail_if (negb hasZK && negb hasAttestationSig)
    (Errorf "ballot update must carry idv_attestation_sig or full ZK fields (high-assurance)" []).

Definition Validate_ResealVote (t : Tx) : V :=
  data ← or_fail (UnmarshalData (A := ResealVoteData) t) (bad_json "invalid reseal vote data: %w");
  fail_if (str_empty (ResealVoteData_PollID data)) (Errorf "reseal vote: missing scoping_id" []) ;;
  fail_if (str_empty (ResealVoteData_BallotID data)) (Errorf "reseal vote: missing submission_id" []) ;;
  fail_if (str_empty (ResealVoteData_VoterPubKey data)) (Errorf "reseal vote: missing voter_pub_key" []) ;;
  fail_if (blen (ResealVoteData_MigrationSig data) =? 0) (Errorf "reseal vote: missing migration_sig" []) ;;
  let key_error := Errorf "reseal vote: voter_pub_key must be a 64-char hex-encoded Ed25519 public key" [] in
  rawPub ← or_fail (hex_DecodeString (ResealVoteData_VoterPubKey data)) key_error;
  fail_if (negb (slen rawPub =? 32)) key_error.

Definition Validate_AuthorityRescind (t : Tx) : V :=
  data ← or_fail (UnmarshalData (A := AuthorityRescindData) t) (bad_json "invalid authority rescind data: %w");
  fail_if (str_empty (AuthorityRescindData_PollID data)) (Errorf "missing scoping_id" []) ;;
  fail_if (str_empty (AuthorityRescindData_BallotID data)) (Errorf "missing submission_id" []) ;;
  fail_if (str_empty (AuthorityRescindData_IdentityHash data)) (Errorf "missing identity_hash" []) ;;
  fail_if (str_empty (AuthorityRescindData_RevocationRef data)) (Errorf "missing revocation_ref" []) ;;
  fail_if (blen (AuthorityRescindData_EligibilitySig data) =? 0) (Errorf "missing eligibility_sig" []) ;;
  fail_if (blen (AuthorityRescindData_ReconcilingSig data) =? 0) (Errorf "missing reconciling_sig" []).

Definition Validate_AuthorityRestore (t : Tx) : V :=
  data ← or_fail (UnmarshalData (A := AuthorityRestoreData) t) (bad_json "invalid authority restore data: %w");
  fail_if (str_empty (AuthorityRestoreData_PollID data)) (Errorf "authority restore: missing scoping_id" []) ;;
  fail_if (str_empty (AuthorityRestoreData_BallotID data)) (Errorf "authority restore: missing submission_id" []) ;;
  fail_if (str_empty (AuthorityRestoreData_IdentityHash data)) (Errorf "authority restore: missing identity_hash" []) ;;
  fail_if (str_empty (AuthorityRestoreData_RevocationRef data)) (Errorf "authority restore: missing revocation_ref" []) ;;
  fail_if (blen (AuthorityRestoreData_EligibilitySig data) =? 0) (Errorf "authority restore: missing eligibility_sig" []) ;;
  fail_if (blen (AuthorityRestoreData_ReconcilingSig data) =? 0) (Errorf "authority restore: missing reconciling_sig" []).

(** The loop over the submissions of a batch, given the recursive call. *)
Definition Validate_BatchFlush (rec : Tx → V) (t : Tx) : V :=
  data ← or_fail (UnmarshalData (A := BatchFlushData) t) (bad_json "invalid batch flush data: %w");
  fail_if (str_empty (BatchFlushData_PollID data)) (Errorf "missing scoping_id" []) ;;
  fail_if (len (BatchFlushData_Submissions data) =? 0) (Errorf "missing submissions" []) ;;
  range (elems (BatchFlushData_Submissions data)) (λ i sub,
    fail_if (negb (Tx_Type sub =? TxTypeBallotCast))
      (Errorf "batch flush submission %d must be TxTypeBallotCast" [FInt (Z.of_nat i)]) ;;
    wrap_err (λ e, Errorf "invalid batch flush submission %d: %w" [FInt (Z.of_nat i); FErr e]) (rec sub)).

Definition known_type (ty : Z) : bool := (1 <=? ty) && (ty <=? 10).

(** The switch on the type. *)
Definition Validate_payload (rec : Tx → V) (t : Tx) : V :=
  if Tx_Type t =? TxTypePollCreate then Validate_PollCreate t
  else if Tx_Type t =? TxTypeBallotCast then Validate_BallotCast t
  else if Tx_Type t =? TxTypeConfirmReceipt then Validate_ConfirmReceipt t
  else if Tx_Type t =? TxTypePollClose then Validate_PollClose t
  else if Tx_Type t =? TxTypeRegisterValidator then Validate_RegisterValidator t
  else if Tx_Type t =? TxTypeUpdateBallot then Validate_UpdateBallot t
  else if Tx_Type t =? TxTypeBatchFlush then Validate_BatchFlush rec t
  else if Tx_Type t =? TxTypeResealVote then Validate_ResealVote t
  else if Tx_Type t =? TxTypeAuthorityRescind then Validate_AuthorityRescind t
  else if Tx_Type t =? TxTypeAuthorityRestore then Validate_AuthorityRestore t
  else mret tt.

Fixpoint Validate_fuel (fuel : nat) (t : Tx) : V :=
  match fuel with
  | O => panicM
  | S f =>
      fail_if (negb (known_type (Tx_Type t))) (Errorf "invalid transaction type: %d" [FInt (Tx_Type t)]) ;;
      fail_if (blen (Tx_Signature t) =? 0) (Errorf "missing transaction signature" []) ;;
      fail_if (no_data t) (Errorf "missing transaction data" []) ;;
      Validate_payload (Validate_fuel f) t
  end.
Definition Validate (t : Tx) : V := Validate_fuel 2 t.

(** A method that neither panics nor writes the state. *)
Definition benign {A} (m : M St A) : Prop :=
  ∀ s, (m s).2 = s ∧ (m s).1 ≠ Panic.
End validate.

Section benign.
Context {St : Type}.
Implicit Types (s : St).

Lemma benign_bind {A B} (m : M St A) (k : A → M St B) :
  benign m → (∀ a, benign (k a)) → benign (m ≫= k).
Proof.
  intros Hm Hk s. specialize (Hm s). unfold mbind, M_bind.
  destruct (m s) as [[a|e|] s']; cbn in *; destruct Hm as [-> ?]; [apply Hk|done|done].
Qed.
Lemma benign_ret {A} (a : A) : benign (mret a : M St A).
Proof. by intros s. Qed.
Lemma benign_fail_if c e : benign (fail_if (S := St) c e).
Proof. intros s. by destruct c. Qed.
Lemma benign_or_fail {A} (o : option A) e : benign (or_fail (S := St) o e).
Proof. intros s. by destruct o. Qed.
Lemma benign_wrap {A} f (m : M St A) : benign m → benign (wrap_err f m).
Proof.
  intros Hm s. specialize (Hm s). unfold wrap_err.
  destruct (m s) as [[a|e|] s']; cbn in *; destruct Hm; by subst.
Qed.
Lemma benign_range {A} (l : list A) body :
  (∀ i x, x ∈ l → benign (body i x)) → benign (range (S := St) l body).
Proof.
  unfold range. generalize 0%nat. induction l as [|x l IH]; intros i H; cbn; [apply benign_ret|].
  apply benign_bind; [apply H; by left|]. intros _. apply IH. intros j y Hy. apply H. by right.
Qed.
Lemma benign_key l v mk : benign (check_key (St := St) l v mk).
Proof.
  unfold check_key. destruct (str_empty v); [apply benign_ret|].
  apply benign_bind; [apply benign_or_fail|]. intros. apply benign_fail_if.
Qed.
End benign.
(** Decomposes a composed validator into its guards. *)
Ltac benign_auto :=
  repeat lazymatch goal with
  | |- benign (_ ≫= _) => apply benign_bind
  | |- benign (fail_if _ _) => apply benign_fail_if
  | |- benign (or_fail _ _) => apply benign_or_fail
  | |- benign (wrap_err _ _) => apply benign_wrap
  | |- benign (check_key _ _ _) => apply benign_key
  | |- benign (mret _) => apply benign_ret
  | |- benign (let x := _ in _) => cbv zeta
  | |- ∀ _, _ => intros ?
  end.

Section properties.
Context {St : Type}.
Implicit Types (s : St).

(** A batch whose recursive call is only made on ballot casts. *)
Lemma batch_benign (rec : Tx → M St unit) t :
  (∀ sub, Tx_Type sub = TxTypeBallotCast → benign (rec sub)) → benign (Validate_BatchFlush rec t).
Proof.
  intros Hrec. unfold Validate_BatchFlush.
  benign_auto. apply benign_range. intros i sub _.
  intros s. unfold fail_if. destruct (Tx_Type sub =? TxTypeBallotCast) eqn:E; cbn; [|done].
  apply benign_wrap, Hrec. by apply Z.eqb_eq.
Qed.

Lemma cast_benign f t :
  Tx_Type t = TxTypeBallotCast → benign (Validate_fuel (St := St) (S f) t).
Proof.
  intros Ht. cbn [Validate_fuel]. unfold Validate_payload. rewrite Ht.
  change (benign (fail_if false (Errorf "invalid transaction type: %d" [FInt TxTypeBallotCast]) ;;
    fail_if (S := St) (blen (Tx_Signature t) =? 0) (Errorf "missing transaction signature" []) ;;
    fail_if (no_data t) (Errorf "missing transaction data" []) ;; Validate_BallotCast t)).
  unfold Validate_BallotCast. benign_auto.
Qed.

(** Only the recursive calls on ballot casts matter, and those ignore the fuel. *)
Lemma range_ext {A} (l : list A) (b1 b2 : nat → A → M St unit) s :
  (∀ i x s, b1 i x s = b2 i x s) → range l b1 s = range l b2 s.
Proof.
  intros H. unfold range. generalize 0%nat. revert s.
  induction l as [|x l IH]; intros s i; cbn [range_from]; [done|].
  rewrite !bind_run, H. destruct (b2 i x s) as [[] ?]; auto.
Qed.
Lemma cast_payload rec t :
  Tx_Type t = TxTypeBallotCast → Validate_payload (St := St) rec t = Validate_BallotCast t.
Proof. intros Ht. unfold Validate_payload. by rewrite Ht. Qed.
Lemma cast_fuel f t s :
  Tx_Type t = TxTypeBallotCast → Validate_fuel (S f) t s = Validate_fuel 1 t s.
Proof. intros Ht. cbn [Validate_fuel]. by rewrite !cast_payload. Qed.
Lemma batch_fuel f f' t s :
  Validate_BatchFlush (Validate_fuel (S f)) t s = Validate_BatchFlush (Validate_fuel (S f')) t s.
Proof.
  unfold Validate_BatchFlush. rewrite !bind_run. destruct (or_fail _ _ s) as [[data| |] s1]; try done.
  rewrite !bind_run. destruct (fail_if _ _ s1) as [[[]| |] s2]; try done.
  rewrite !bind_run. destruct (fail_if _ _ s2) as [[[]| |] s3]; try done.
  apply range_ext. intros i x s'. rewrite !bind_run, fail_if_run.
  destruct (Tx_Type x =? TxTypeBallotCast) eqn:E; cbn [negb]; [|done].
  unfold wrap_err. apply Z.eqb_eq in E. by rewrite (cast_fuel f), (cast_fuel f').
Qed.

Lemma guard_ext {A} c e (k1 k2 : M St A) s :
  (c = false → k1 s = k2 s) → (fail_if c e ;; k1) s = (fail_if c e ;; k2) s.
Proof. intros H. rewrite !bind_run, fail_if_run. destruct c; auto. Qed.
Ltac benign_payload :=
  unfold Validate_PollCreate, Validate_BallotCast, Validate_ConfirmReceipt, Validate_PollClose,
    Validate_RegisterValidator, Validate_UpdateBallot, Validate_ResealVote,
    Validate_AuthorityRescind, Validate_AuthorityRestore;
  benign_auto.

Lemma step_benign f t :
  (∀ sub, Tx_Type sub = TxTypeBallotCast → benign (Validate_fuel (St := St) f sub)) →
  benign (Validate_fuel (St := St) (S f) t).
Proof.
  intros Hrec. cbn [Validate_fuel].
  do 3 (apply benign_bind; [apply benign_fail_if|intros _]). unfold Validate_payload.
  do 6 (destruct (_ =? _); [benign_payload|]).
  destruct (_ =? _); [by apply batch_benign|].
  do 3 (destruct (_ =? _); [benign_payload|]). apply benign_ret.
Qed.

Lemma Validate_benign t : benign (Validate (St := St) t).
Proof. apply (step_benign 1). intros. by apply cast_benign. Qed.

(** C35. Totality: stateless validation never panics, never writes, and two levels of
    recursion decide every transaction, however deeply its JSON nests. *)
Theorem Validate_total (t : Tx) (fuel : nat) (s : St) :
  (2 ≤ fuel)%nat →
  Validate_fuel fuel t s = Validate t s ∧ (Validate t s).2 = s ∧ (Validate t s).1 ≠ Panic.
Proof.
  intros Hf. split.
  - destruct fuel as [|[|fuel]]; [lia..|]. unfold Validate. cbn [Validate_fuel].
    do 3 (apply guard_ext; intros _). unfold Validate_payload.
    do 6 (destruct (_ =? _); [reflexivity|]).
    destruct (_ =? _); [apply (batch_fuel fuel 0)|reflexivity].
  - apply Validate_benign.
Qed.

Lemma range_ok {A} (l : list A) (body : nat → A → M St unit) s s' u :
  (∀ i x, benign (body i x)) → range l body s = (Ok u, s') →
  ∀ x, x ∈ l → ∃ i, body i x s = (Ok tt, s).
Proof.
  intros Hb. unfold range. generalize 0%nat.
  induction l as [|y l IH]; intros i H x Hx; [by apply elem_of_nil in Hx|].
  cbn [range_from] in H. apply bind_ok in H as ([] & s1 & H1 & H2).
  pose proof (Hb i y s) as [Hs _]. rewrite H1 in Hs. cbn in Hs. subst s1.
  apply elem_of_cons in Hx as [->|Hx]; eauto.
Qed.

Lemma Validate_ok_payload t s s' u :
  Validate t s = (Ok u, s') → Validate_payload (Validate_fuel 1) t s = (Ok u, s').
Proof.
  unfold Validate. generalize 1%nat. intros f H. cbn [Validate_fuel] in H.
  do 3 (apply bind_ok in H as ([] & s1 & H1 & H); apply fail_if_ok in H1 as [_ ->]). done.
Qed.

(** A batch accepted by stateless validation is not empty, and each of its
    submissions is a ballot cast that is itself accepted: no batch nests another
    and no other transaction type rides in a batch. *)
Theorem Validate_batch_submissions (t : Tx) (data : BatchFlushData) (s : St) :
  Tx_Type t = TxTypeBatchFlush → UnmarshalData t = Some data →
  Validate t s = (Ok tt, s) →
  elems (BatchFlushData_Submissions data) ≠ [] ∧
  ∀ sub, sub ∈ elems (BatchFlushData_Submissions data) →
    Tx_Type sub = TxTypeBallotCast ∧ Validate sub s = (Ok tt, s).
Proof.
  intros Ht Hd H. apply Validate_ok_payload in H. unfold Validate_payload in H. rewrite Ht in H.
  change (Validate_BatchFlush (Validate_fuel 1) t s = (Ok tt, s)) in H.
  unfold Validate_BatchFlush in H. rewrite Hd in H.
  apply bind_ok in H as (? & s1 & H1 & H). apply mret_ok in H1 as [-> ->].
  apply bind_ok in H as ([] & s1 & H1 & H). apply fail_if_ok in H1 as [_ ->].
  apply bind_ok in H as ([] & s1 & H1 & H). apply fail_if_ok in H1 as [Hne ->].
  split.
  { intros E. unfold len in Hne. by rewrite E in Hne. }
  intros sub Hsub.
  match type of H with range _ ?body _ = _ => assert (∀ i x, benign (body i x)) as Hb end.
  { intros i x s'. rewrite bind_run, fail_if_run.
    destruct (Tx_Type x =? TxTypeBallotCast) eqn:E; cbn [negb]; [|done].
    apply benign_wrap. intros s''. apply cast_benign. by apply Z.eqb_eq. }
  destruct (range_ok _ _ _ _ _ Hb H sub Hsub) as [i Hi].
  apply bind_ok in Hi as ([] & s1 & H1 & H2). apply fail_if_ok in H1 as [Hty ->].
  apply negb_false_iff, Z.eqb_eq in Hty. split; [done|].
  apply wrap_err_ok in H2. unfold Validate. by rewrite (cast_fuel 1).
Qed.

(** Two-party and attestation requirements of stateless validation: an accepted
    rescission carries both signatures and all four bound fields, an accepted
    ballot cast a device key, a device signature and an identity attestation. *)
Theorem Validate_required_fields (t : Tx) (s : St) :
  Validate t s = (Ok tt, s) →
  (Tx_Type t = TxTypeAuthorityRescind →
     ∃ data : AuthorityRescindData, UnmarshalData t = Some data ∧
       AuthorityRescindData_PollID data ≠ "" ∧ AuthorityRescindData_BallotID data ≠ "" ∧
       AuthorityRescindData_IdentityHash data ≠ "" ∧ AuthorityRescindData_RevocationRef data ≠ "" ∧
       bytes_of (AuthorityRescindData_EligibilitySig data) ≠ "" ∧
       bytes_of (AuthorityRescindData_ReconcilingSig data) ≠ "") ∧
  (Tx_Type t = TxTypeBallotCast →
     ∃ data : BallotCastData, UnmarshalData t = Some data ∧
       elems (BallotCastData_Choices data) ≠ [] ∧ BallotCastData_VoterPubKey data ≠ "" ∧
       bytes_of (BallotCastData_VoterSig data) ≠ "" ∧
       (bytes_of (BallotCastData_IdvAttestationSig data) ≠ "" ∨
        BallotCastData_ZKNullifier data ≠ "" ∧ BallotCastData_ZKCommitment data ≠ "")).
Proof.
  intros H. apply Validate_ok_payload in H. unfold Validate_payload in H.
  assert (Hstr : ∀ x, str_empty x = false → x ≠ "") by (by intros x ?%bool_decide_eq_false).
  assert (Hblen : ∀ b, (blen b =? 0) = false → bytes_of b ≠ "").
  { intros b Hb E. unfold blen in Hb. by rewrite E in Hb. }
  split; intros Ht; rewrite Ht in H.
  - change (Validate_AuthorityRescind t s = (Ok tt, s)) in H.
    unfold Validate_AuthorityRescind in H. minv H. eexists. split; [done|].
    split_and!; first [by apply Hstr | by apply Hblen].
  - change (Validate_BallotCast t s = (Ok tt, s)) in H.
    unfold Validate_BallotCast in H. minv H. eexists. split; [done|].
    split_and!; [|by apply Hstr|by apply Hblen|].
    + intros E. select ((len _ =? 0) = false) (fun H => unfold len in H; by rewrite E in H).
    + select (negb _ && negb _ = false) (fun H => apply andb_false_iff in H; destruct H as [H|H]).
      * right. unfold has_zk in *. bools. split; by apply Hstr.
      * left. bools. intros E.
        select (0 < blen _) (fun H => unfold blen, slen in H; rewrite E in H; cbn in H; lia).
Qed.
End properties.

(** ** The verdict is a function of the transaction
    Two methods on two types of state that answer alike and write nothing. *)
Definition same_verdict {S1 S2 A} (m1 : M S1 A) (m2 : M S2 A) : Prop :=
  ∀ s1 s2, (m1 s1).1 = (m2 s2).1 ∧ (m1 s1).2 = s1 ∧ (m2 s2).2 = s2.
Section verdict.
Context {S1 S2 : Type}.
Lemma verdict_bind {A B} (m1 : M S1 A) (m2 : M S2 A) (k1 : A → M S1 B) (k2 : A → M S2 B) :
  same_verdict m1 m2 → (∀ a, same_verdict (k1 a) (k2 a)) → same_verdict (m1 ≫= k1) (m2 ≫= k2).
Proof.
  intros Hm Hk s1 s2. destruct (Hm s1 s2) as (E & E1 & E2). rewrite !bind_run.
  destruct (m1 s1) as [[a|e|] ?], (m2 s2) as [[a'|e'|] ?]; cbn in *; try discriminate; subst; try done.
  - injection E as ->. apply Hk.
  - by injection E as ->.
Qed.
Lemma verdict_ret {A} (a : A) : same_verdict (mret a : M S1 A) (mret a : M S2 A).
Proof. done. Qed.
Lemma verdict_fail_if c e : same_verdict (fail_if (S := S1) c e) (fail_if (S := S2) c e).
Proof. by destruct c. Qed.
Lemma verdict_or_fail {A} (o : option A) e : same_verdict (or_fail (S := S1) o e) (or_fail (S := S2) o e).
Proof. by destruct o. Qed.
Lemma verdict_wrap {A} f (m1 : M S1 A) (m2 : M S2 A) :
  same_verdict m1 m2 → same_verdict (wrap_err f m1) (wrap_err f m2).
Proof.
  intros Hm s1 s2. destruct (Hm s1 s2) as (E & E1 & E2). unfold wrap_err.
  destruct (m1 s1) as [[a|e|] ?], (m2 s2) as [[a'|e'|] ?]; cbn in *; try discriminate; subst; try done.
  by injection E as ->.
Qed.
Lemma verdict_range {A} (l : list A) b1 b2 :
  (∀ i x, same_verdict (b1 i x) (b2 i x)) → same_verdict (range (S := S1) l b1) (range (S := S2) l b2).
Proof.
  unfold range. generalize 0%nat. induction l as [|x l IH]; intros i H; cbn; [apply verdict_ret|].
  apply verdict_bind; [apply H|]. intros _. by apply IH.
Qed.
Lemma verdict_key l v mk : same_verdict (check_key (St := S1) l v mk) (check_key (St := S2) l v mk).
Proof.
  unfold check_key. destruct (str_empty v); [apply verdict_ret|].
  apply verdict_bind; [apply verdict_or_fail|]. intros. apply verdict_fail_if.
Qed.
Lemma verdict_if {A} (b : bool) (m1 n1 : M S1 A) (m2 n2 : M S2 A) :
  same_verdict m1 m2 → same_verdict n1 n2 → same_verdict (if b then m1 else n1) (if b then m2 else n2).
Proof. by destruct b. Qed.
End verdict.
Ltac verdict_auto :=
  repeat lazymatch goal with
  | |- same_verdict (_ ≫= _) _ => apply verdict_bind
  | |- same_verdict (fail_if _ _) _ => apply verdict_fail_if
  | |- same_verdict (or_fail _ _) _ => apply verdict_or_fail
  | |- same_verdict (wrap_err _ _) _ => apply verdict_wrap
  | |- same_verdict (check_key _ _ _) _ => apply verdict_key
  | |- same_verdict (range _ _) _ => apply verdict_range
  | |- same_verdict (mret _) _ => apply verdict_ret
  | |- same_verdict (if _ then _ else _) _ => apply verdict_if
  | |- same_verdict (let x := _ in _) _ => cbv zeta
  | |- ∀ _, _ => intros ?
  | H : ∀ _, same_verdict _ _ |- same_verdict _ _ => apply H
  end.
(** Stateless validation answers alike on every state and leaves it alone. *)
Lemma Validate_stateless {S1 S2} (t : Tx) : same_verdict (Validate (St := S1) t) (Validate (St := S2) t).
Proof.
  assert (∀ f t, same_verdict (Validate_fuel (St := S1) f t) (Validate_fuel (St := S2) f t)) as H; [|apply H].
  induction f as [|f IH]; intros t'; [done|]. cbn [Validate_fuel].
  do 3 (apply verdict_bind; [apply verdict_fail_if|intros _]). unfold Validate_payload.
  repeat (apply verdict_if);
    unfold Validate_PollCreate, Validate_BallotCast, Validate_ConfirmReceipt, Validate_PollClose,
      Validate_RegisterValidator, Validate_UpdateBallot, Validate_BatchFlush, Validate_ResealVote,
      Validate_AuthorityRescind, Validate_AuthorityRestore; verdict_auto.
Qed.
Lemma Validate_any {S1 S2} (t : Tx) (s1 s1' : S1) (s2 : S2) (u : unit) :
  Validate t s1 = (Ok u, s1') → Validate t s2 = (Ok tt, s2).
Proof.
  intros H. destruct (Validate_stateless (S1 := S1) (S2 := S2) t s1 s2) as (E & _ & E2). rewrite H in E. destruct u.
  destruct (Validate t s2) as [r s2']. cbn in *. by subst.
Qed.
