(* ===== verification/Identity.v ===== *)
(** services/identity: the [IdentityVerifier] interface, its implementations
    ([NoopVerifier], [WalletVerifier], [DiditVerifier], [IdentusVerifier], [ZKVerifier])
    and the [Signer] interface of services/signer/signer.go.

    A verifier either derives an identity hash or fails (the message is dropped); a
    signer either signs or is unavailable.  The keys of the verifiers have been decoded
    by [decodeEd25519Key], so checking a signature cannot panic. *)
From S2P Require Import Prelude GoStd Json TxData.

Record IdentityVerifier := {
  VerifyAndIdentify : BallotCastData → option string;
  VerifyAndIdentifyUpdate : BallotUpdateData → option string;
  VerifyAndIdentifyConfirm : ConfirmReceiptData → option string;
}.
Definition verifier_error : error := Errorf "identity verifier" [].

Record Signer := {
  Sign : string → option string;
  PublicKeyDER : string;
}.

(** [NoopVerifier]: sha256 of "voter_pub_key:poll_id". *)
Definition noop_identity `{Crypto} (voterPubKey pollID : string) : string :=
  hex_EncodeToString (sha256 (voterPubKey +:+ ":" +:+ pollID)).
Definition NoopVerifier `{Crypto} : IdentityVerifier := {|
  VerifyAndIdentify d := Some (noop_identity (BallotCastData_VoterPubKey d) (BallotCastData_PollID d));
  VerifyAndIdentifyUpdate d :=
    Some (noop_identity (BallotUpdateData_VoterPubKey d) (BallotUpdateData_PollID d));
  VerifyAndIdentifyConfirm d :=
    Some (noop_identity (ConfirmReceiptData_VoterPubKey d) (ConfirmReceiptData_PollID d));
|}.

(** ** Attested identities: services/identity/didit.go and identus.go *)
Section attested.
Context `{C : Crypto}.

Definition diditDeviceAttestMessage (voterPubKey pollID : string) : string := sha256 (voterPubKey +:+ pollID).
Definition diditConfirmAttestMessage (voterPubKey pollID : string) : string :=
  sha256 ("confirm:" +:+ voterPubKey +:+ pollID).
Definition diditCommitmentSigMessage (zkCommitment pollID : string) : string := sha256 (zkCommitment +:+ pollID).
Definition diditConfirmCommitmentSigMessage (zkCommitment pollID : string) : string :=
  sha256 ("confirm:" +:+ zkCommitment +:+ pollID).
Definition diditIdentityHash (voterPubKey pollID : string) : string :=
  hex_EncodeToString (sha256 (voterPubKey +:+ pollID)).

(** An attestation under [key]: required, and a signature of [msg]. *)
Definition attest (key msg : string) (sig : gobytes) (identityHash : string) : option string :=
  if blen sig =? 0 then None
  else if ed25519_Verify key msg (bytes_of sig) then Some identityHash else None.
Definition DiditVerifier (PubKey : string) : IdentityVerifier := {|
  VerifyAndIdentify d := attest PubKey
    (diditDeviceAttestMessage (BallotCastData_VoterPubKey d) (BallotCastData_PollID d)) (BallotCastData_IdvAttestationSig d)
    (diditIdentityHash (BallotCastData_VoterPubKey d) (BallotCastData_PollID d));
  VerifyAndIdentifyUpdate d := attest PubKey
    (diditDeviceAttestMessage (BallotUpdateData_VoterPubKey d) (BallotUpdateData_PollID d)) (BallotUpdateData_IdvAttestationSig d)
    (diditIdentityHash (BallotUpdateData_VoterPubKey d) (BallotUpdateData_PollID d));
  VerifyAndIdentifyConfirm d := attest PubKey
    (diditConfirmAttestMessage (ConfirmReceiptData_VoterPubKey d) (ConfirmReceiptData_PollID d)) (ConfirmReceiptData_IdvAttestationSig d)
    (diditIdentityHash (ConfirmReceiptData_VoterPubKey d) (ConfirmReceiptData_PollID d));
|}.
(** [IdentusVerifier]: the same checks against the issuer's key. *)
Definition IdentusVerifier (IssuerPubKey : string) : IdentityVerifier := {|
  VerifyAndIdentify d := attest IssuerPubKey
    (diditDeviceAttestMessage (BallotCastData_VoterPubKey d) (BallotCastData_PollID d)) (BallotCastData_IdvAttestationSig d)
    (diditIdentityHash (BallotCastData_VoterPubKey d) (BallotCastData_PollID d));
  VerifyAndIdentifyUpdate d := attest IssuerPubKey
    (diditDeviceAttestMessage (BallotUpdateData_VoterPubKey d) (BallotUpdateData_PollID d)) (BallotUpdateData_IdvAttestationSig d)
    (diditIdentityHash (BallotUpdateData_VoterPubKey d) (BallotUpdateData_PollID d));
  VerifyAndIdentifyConfirm d := attest IssuerPubKey
    (diditConfirmAttestMessage (ConfirmReceiptData_VoterPubKey d) (ConfirmReceiptData_PollID d)) (ConfirmReceiptData_IdvAttestationSig d)
    (diditIdentityHash (ConfirmReceiptData_VoterPubKey d) (ConfirmReceiptData_PollID d));
|}.

(** [ZKVerifier]: [zk proof nullifier commitment pollID] is the Groth16 check of
    protocol/zkp, which stays an argument. *)
Definition zk_attest (DiditPubKey : string) (zk : string → string → string → string → bool)
    (nullifier : string) (proof : gobytes) (commitment : string) (sig : gobytes) (msg pollID : string) : option string :=
  if str_empty nullifier || (blen proof =? 0) || str_empty commitment || (blen sig =? 0) then None
  else if negb (ed25519_Verify DiditPubKey msg (bytes_of sig)) then None
  else if zk (bytes_of proof) nullifier commitment pollID then Some nullifier else None.
Definition ZKVerifier (DiditPubKey : string) (zk : string → string → string → string → bool) : IdentityVerifier := {|
  VerifyAndIdentify d := zk_attest DiditPubKey zk (BallotCastData_ZKNullifier d) (BallotCastData_ZKNullifierProof d)
    (BallotCastData_ZKCommitment d) (BallotCastData_DiditCommitmentSig d)
    (diditCommitmentSigMessage (BallotCastData_ZKCommitment d) (BallotCastData_PollID d)) (BallotCastData_PollID d);
  VerifyAndIdentifyUpdate d := zk_attest DiditPubKey zk (BallotUpdateData_ZKNullifier d) (BallotUpdateData_ZKNullifierProof d)
    (BallotUpdateData_ZKCommitment d) (BallotUpdateData_DiditCommitmentSig d)
    (diditCommitmentSigMessage (BallotUpdateData_ZKCommitment d) (BallotUpdateData_PollID d)) (BallotUpdateData_PollID d);
  VerifyAndIdentifyConfirm d := zk_attest DiditPubKey zk (ConfirmReceiptData_ZKNullifier d) (ConfirmReceiptData_ZKNullifierProof d)
    (ConfirmReceiptData_ZKCommitment d) (ConfirmReceiptData_DiditCommitmentSig d)
    (diditConfirmCommitmentSigMessage (ConfirmReceiptData_ZKCommitment d) (ConfirmReceiptData_PollID d)) (ConfirmReceiptData_PollID d);
|}.

(** ** Wallet identities: services/identity/wallet.go *)
Definition isValidEVMAddress (s : string) : bool :=
  let s := trim_prefix s "0x" in
  if negb (slen s =? 40) then false else match hex_DecodeString s with Some _ => true | None => false end.
Definition walletIdentityHash (walletAddress pollID : string) : option string :=
  let addr := to_lower (trim_space walletAddress) in
  if negb (isValidEVMAddress addr) then None
  else if str_empty pollID then None
  else Some (hex_EncodeToString (sha256 (addr +:+ ":" +:+ pollID))).
Definition wallet_identity (walletAddress pollID : string) : option string :=
  if str_empty walletAddress then None else walletIdentityHash walletAddress pollID.
Definition WalletVerifier : IdentityVerifier := {|
  VerifyAndIdentify d := wallet_identity (BallotCastData_WalletAddress d) (BallotCastData_PollID d);
  VerifyAndIdentifyUpdate d := wallet_identity (BallotUpdateData_WalletAddress d) (BallotUpdateData_PollID d);
  VerifyAndIdentifyConfirm d := wallet_identity (ConfirmReceiptData_WalletAddress d) (ConfirmReceiptData_PollID d);
|}.
Definition AccountCommitment (walletAddress : string) : string :=
  hex_EncodeToString (sha256 (to_lower (trim_space walletAddress))).

(** ** Choosing a verifier: embodiments/shyvoting/cmd/shyvoting-abci/main.go
    [open_vk path] stands for opening and parsing the verifying key. *)
Definition decodeEd25519Key (hexStr flagName : string) : error + string :=
  if str_empty hexStr then inl (Errorf "%s is required for this identity mode" [FStr flagName]) else
  match hex_DecodeString hexStr with
  | None => inl (Errorf "%s is not valid hex: %w" [FStr flagName; FErr hex_error])
  | Some b =>
      if negb (slen b =? PublicKeySize) then
        inl (Errorf "%s must decode to %d bytes (Ed25519), got %d" [FStr flagName; FInt PublicKeySize; FInt (slen b)])
      else inr b
  end.
Definition buildVerifier (open_vk : string → error + (string → string → string → string → bool))
    (mode diditPubKeyHex zkVKPath identusPubKeyHex : string) : error + IdentityVerifier :=
  if bool_decide (mode = "didit") then
    match decodeEd25519Key diditPubKeyHex "--didit-pubkey" with inl e => inl e | inr pub => inr (DiditVerifier pub) end
  else if bool_decide (mode = "zk") then
    match decodeEd25519Key diditPubKeyHex "--didit-pubkey" with
    | inl e => inl e
    | inr pub =>
        if str_empty zkVKPath then inl (Errorf "--zk-vk-path is required for zk identity mode" []) else
        match open_vk zkVKPath with inl e => inl e | inr zkv => inr (ZKVerifier pub zkv) end
    end
  else if bool_decide (mode = "identus") then
    match decodeEd25519Key identusPubKeyHex "--identus-issuer-pubkey" with
    | inl e => inl e | inr pub => inr (IdentusVerifier pub) end
  else if bool_decide (mode = "wallet") then inr WalletVerifier
  else inl (Errorf "unknown --identity-mode %q: must be didit | zk | identus | wallet" [FStr mode]).
End attested.

(** ** What the state machines rely on *)
Section facts.
Context `{C : Crypto}.

(** The identity a verifier derives depends only on who submits and for which poll:
    the public key, the nullifier and the wallet. *)
Class IdentityStable (v : IdentityVerifier) : Prop := {
  stable_update d u h h' :
    BallotCastData_PollID d = BallotUpdateData_PollID u → BallotCastData_VoterPubKey d = BallotUpdateData_VoterPubKey u →
    BallotCastData_ZKNullifier d = BallotUpdateData_ZKNullifier u →
    BallotCastData_WalletAddress d = BallotUpdateData_WalletAddress u →
    VerifyAndIdentify v d = Some h → VerifyAndIdentifyUpdate v u = Some h' → h' = h;
  stable_confirm d c h h' :
    BallotCastData_PollID d = ConfirmReceiptData_PollID c → BallotCastData_VoterPubKey d = ConfirmReceiptData_VoterPubKey c →
    BallotCastData_ZKNullifier d = ConfirmReceiptData_ZKNullifier c →
    BallotCastData_WalletAddress d = ConfirmReceiptData_WalletAddress c →
    VerifyAndIdentify v d = Some h → VerifyAndIdentifyConfirm v c = Some h' → h' = h;
}.
Lemma attest_Some key msg sig id h : attest key msg sig id = Some h →
  h = id ∧ blen sig ≠ 0 ∧ ed25519_Verify key msg (bytes_of sig) = true.
Proof.
  unfold attest. destruct (blen sig =? 0) eqn:E; [done|]. apply Z.eqb_neq in E.
  destruct (ed25519_Verify _ _ _) eqn:E2; [|done]. intros [= <-]. done.
Qed.
Lemma zk_attest_Some key zk n p c sig msg poll h : zk_attest key zk n p c sig msg poll = Some h →
  h = n ∧ n ≠ "" ∧ ed25519_Verify key msg (bytes_of sig) = true ∧ zk (bytes_of p) n c poll = true.
Proof.
  unfold zk_attest. destruct (str_empty n) eqn:E0; cbn [orb]; [done|].
  apply bool_decide_eq_false in E0. destruct (_ || _); [done|].
  destruct (ed25519_Verify _ _ _) eqn:E2; cbn [negb]; [|done]. destruct (zk _ _ _ _) eqn:E3; [|done].
  intros [= <-]. done.
Qed.
(** Reads what an accepting verifier established. *)
Ltac accepts := repeat match goal with
  | H : attest _ _ _ _ = Some _ |- _ => apply attest_Some in H as (-> & _ & _)
  | H : zk_attest _ _ _ _ _ _ _ _ = Some _ |- _ => apply zk_attest_Some in H as (-> & _ & _ & _)
  end; congruence.
#[export] Instance noop_stable : IdentityStable NoopVerifier.
Proof. split; intros ???? E1 E2 _ _; cbn; rewrite E1, E2; congruence. Qed.
#[export] Instance didit_stable key : IdentityStable (DiditVerifier key).
Proof. split; intros ???? E1 E2 _ _; cbn; rewrite E1, E2; intros; accepts. Qed.
#[export] Instance identus_stable key : IdentityStable (IdentusVerifier key).
Proof. split; intros ???? E1 E2 _ _; cbn; rewrite E1, E2; intros; accepts. Qed.
#[export] Instance zk_stable key zk : IdentityStable (ZKVerifier key zk).
Proof. split; intros ???? _ _ E3 _; cbn; intros; accepts. Qed.
#[export] Instance wallet_stable : IdentityStable WalletVerifier.
Proof. split; intros ???? E1 _ _ E4; cbn; rewrite E1, E4; congruence. Qed.

(** Whatever the operator configures, a participant who updates a submission or
    confirms a receipt is recognised as the one who cast it. *)
Theorem buildVerifier_stable open_vk (mode didit_key vk_path identus_key : string) (v : IdentityVerifier) :
  buildVerifier open_vk mode didit_key vk_path identus_key = inr v → IdentityStable v.
Proof.
  unfold buildVerifier. intros H.
  repeat lazymatch type of H with
  | (if ?b then _ else _) = _ => destruct b
  | (match ?x with inl _ => _ | inr _ => _ end) = _ => destruct x
  end; injection H as <- || discriminate H; apply _.
Qed.

(** An attested identity is bound to a poll and a key: for keys of one length, equal
    identities mean equal keys and polls. *)
Theorem diditIdentityHash_binding (pub pub' pollID pollID' : string) :
  String.length pub = String.length pub' → collision_free [pub +:+ pollID] [pub' +:+ pollID'] →
  diditIdentityHash pub pollID = diditIdentityHash pub' pollID' → pub = pub' ∧ pollID = pollID'.
Proof.
  intros Hl Hf H%(inj hex_EncodeToString)%(collision_free1 _ _ Hf). by apply str_app_inj_len.
Qed.

(** One wallet, two identities: an address is accepted with and without its "0x", and
    the two spellings have distinct identities in every poll. *)
Theorem wallet_two_identities (addr pollID : string) :
  to_lower addr = addr → trim_space addr = addr → trim_space ("0x" +:+ addr) = "0x" +:+ addr →
  has_prefix addr "0x" = false → isValidEVMAddress addr = true → pollID ≠ "" →
  ∃ h h', walletIdentityHash addr pollID = Some h ∧ walletIdentityHash ("0x" +:+ addr) pollID = Some h' ∧
    (collision_free [addr +:+ ":" +:+ pollID] [("0x" +:+ addr) +:+ ":" +:+ pollID] → h ≠ h').
Proof.
  intros Hl Ht Ht' Hp Hv Hne. unfold walletIdentityHash.
  assert (to_lower ("0x" +:+ addr) = "0x" +:+ addr) as Hl' by (transitivity ("0x" +:+ to_lower addr); [done|by rewrite Hl]).
  assert (isValidEVMAddress ("0x" +:+ addr) = true) as Hv'.
  { revert Hv. unfold isValidEVMAddress. rewrite trim_prefix_app. unfold trim_prefix at 1 2. by rewrite Hp. }
  rewrite Ht, Ht', Hl, Hl', Hv, Hv'. cbn [negb]. unfold str_empty. rewrite bool_decide_eq_false_2 by done.
  eexists _, _. split; [done|]. split; [done|]. intros Hf H%(inj hex_EncodeToString)%(collision_free1 _ _ Hf).
  revert H. intros E%(f_equal String.length). rewrite !str_app_length in E. cbn in E. lia.
Qed.
End facts.
