(* ===== verification/Keys.v ===== *)
(** Composite keys ["poll:record"], as every state machine forms them, and how many
    entries of a table belong to one poll. *)
From S2P Require Import Prelude GoStd.

(** Composite keys. *)
Definition voteStoreKey (pollID ballotID : string) : string := pollID +:+ ":" +:+ ballotID.
Definition registry_key (pollID identityHash : string) : string := pollID +:+ ":" +:+ identityHash.
Definition poll_prefix (pollID : string) : string := pollID +:+ ":".
Definition in_poll {V} (pollID : string) (key : string) (_ : V) : bool := has_prefix key (poll_prefix pollID).

(** ** Key lemmas *)
Lemma in_poll_voteStoreKey {V} pollID b (v : V) : in_poll pollID (voteStoreKey pollID b) v = true.
Proof. unfold in_poll, voteStoreKey, poll_prefix. rewrite <- str_app_assoc. apply has_prefix_app. Qed.
Lemma in_poll_registry_key {V} pollID b (v : V) : in_poll pollID (registry_key pollID b) v = true.
Proof. apply in_poll_voteStoreKey. Qed.

#[export] Instance voteStoreKey_inj pollID : Inj (=) (=) (voteStoreKey pollID).
Proof.
  intros a b H. unfold voteStoreKey in H. apply (inj (String.append pollID)) in H.
  by apply (inj (String.append ":")) in H.
Qed.

(** ** Counting the entries under a prefix *)
(** One more entry exactly when the key is new. *)
Lemma count_prefix_insert {V} p (m : gmap string V) k v :
  count_where (λ k _, has_prefix k p) (<[k:=v]> m) =
  (count_where (λ k _, has_prefix k p) m + if has_prefix k p && negb (has m k) then 1 else 0)%nat.
Proof.
  destruct (m !! k) as [w|] eqn:E.
  - assert (has m k = true) as -> by (apply has_true; eauto).
    pose proof (count_where_insert_Some (λ k _, has_prefix k p) m k v w E) as H.
    destruct (has_prefix k p); cbn in *; lia.
  - apply has_false in E as Ef. rewrite Ef, count_where_insert_None by done.
    destruct (has_prefix k p); cbn; lia.
Qed.
(** One less exactly when the key was there. *)
Lemma count_prefix_delete {V} p (m : gmap string V) k :
  (count_where (λ k _, has_prefix k p) (delete k m) + if has_prefix k p && has m k then 1 else 0)%nat =
  count_where (λ k _, has_prefix k p) m.
Proof.
  destruct (m !! k) as [w|] eqn:E.
  - assert (has m k = true) as -> by (apply has_true; eauto).
    rewrite (count_where_delete _ _ _ _ E). destruct (has_prefix k p); cbn; lia.
  - apply has_false in E as Ef. rewrite Ef, delete_id, andb_false_r by done. lia.
Qed.
Lemma count_in_poll_insert {V} q (m : gmap string V) k v :
  count_where (in_poll q) (<[k:=v]> m) =
  (count_where (in_poll q) m + if in_poll q k v && negb (has m k) then 1 else 0)%nat.
Proof. exact (count_prefix_insert (poll_prefix q) m k v). Qed.
Lemma count_in_poll_delete {V} q (m : gmap string V) k :
  (count_where (in_poll q) (delete k m) + if has_prefix k (poll_prefix q) && has m k then 1 else 0)%nat =
  count_where (in_poll q) m.
Proof. exact (count_prefix_delete (poll_prefix q) m k). Qed.
Lemma has_insert {V} (m : gmap string V) k k' v : has (<[k:=v]> m) k' = bool_decide (k = k') || has m k'.
Proof.
  apply eq_true_iff_eq. rewrite orb_true_iff, bool_decide_eq_true, !has_true, lookup_insert.
  case_decide; naive_solver.
Qed.
Lemma has_delete {V} (m : gmap string V) k k' : has (delete k m) k' = negb (bool_decide (k = k')) && has m k'.
Proof.
  apply eq_true_iff_eq. rewrite andb_true_iff, negb_true_iff, bool_decide_eq_false, !has_true, lookup_delete.
  case_decide; [split; [by intros [? ?]|naive_solver]|naive_solver].
Qed.
Lemma prefix_voteStoreKey q b : has_prefix (voteStoreKey q b) (poll_prefix q) = true.
Proof. unfold voteStoreKey, poll_prefix. rewrite <- str_app_assoc. apply has_prefix_app. Qed.
Lemma prefix_registry_key q b : has_prefix (registry_key q b) (poll_prefix q) = true.
Proof. apply prefix_voteStoreKey. Qed.
#[export] Hint Rewrite @count_in_poll_insert @in_poll_voteStoreKey @in_poll_registry_key
  prefix_voteStoreKey prefix_registry_key : count.

(** ** Two lists of one size *)
Fixpoint no_colon (s : string) : bool :=
  match s with EmptyString => true | String a s' => negb (Ascii.eqb a ":"%char) && no_colon s' end.
(** Whether a composite key belongs to a poll without a colon depends on its first
    component only. *)
Lemma prefix_of_key q p b1 b2 :
  no_colon q = true →
  has_prefix (p +:+ ":" +:+ b1) (poll_prefix q) = has_prefix (p +:+ ":" +:+ b2) (poll_prefix q).
Proof.
  unfold poll_prefix. revert p. induction q as [|c q IH]; intros p Hq.
  { destruct p as [|a p]; [by destruct b1, b2|].
    change (has_prefix (String a (p +:+ ":" +:+ b1)) ":" = has_prefix (String a (p +:+ ":" +:+ b2)) ":").
    cbn [has_prefix]. case_decide; [|done]. by destruct (p +:+ _), (p +:+ _). }
  cbn in Hq. apply andb_true_iff in Hq as [Hc%negb_true_iff%Ascii.eqb_neq Hq].
  destruct p as [|a p].
  - change (has_prefix (String ":" b1) (String c (q +:+ ":")) = has_prefix (String ":" b2) (String c (q +:+ ":"))).
    cbn [has_prefix]. case_decide; [congruence|done].
  - change (has_prefix (String a (p +:+ ":" +:+ b1)) (String c (q +:+ ":")) =
      has_prefix (String a (p +:+ ":" +:+ b2)) (String c (q +:+ ":"))).
    cbn [has_prefix]. case_decide; [by apply IH|done].
Qed.

(** A colon in the identifier of a poll: its participants are keyed like participants of
    another poll. *)
Lemma colon_polls_share_keys p q h : registry_key (p +:+ ":" +:+ q) h = registry_key p (q +:+ ":" +:+ h).
Proof. unfold registry_key. induction p as [|c p IH]; [done|]. exact (f_equal (String c) IH). Qed.
(** The two maps have as many entries in every poll whose identifier has no colon. *)
Definition sizes_match {V W} (m1 : gmap string V) (m2 : gmap string W) : Prop :=
  ∀ q, no_colon q = true → count_where (in_poll q) m1 = count_where (in_poll q) m2.

Section sizes.
Context {V W : Type}.
Lemma sizes_insert (m1 : gmap string V) (m2 : gmap string W) p b h v w :
  sizes_match m1 m2 → m1 !! voteStoreKey p b = None → m2 !! registry_key p h = None →
  sizes_match (<[voteStoreKey p b := v]> m1) (<[registry_key p h := w]> m2).
Proof.
  intros Hs H1%has_false H2%has_false q Hq. rewrite !count_in_poll_insert, H1, H2, (Hs q Hq).
  cbn [negb]. rewrite !andb_true_r. unfold in_poll, voteStoreKey, registry_key. by rewrite (prefix_of_key q p b h).
Qed.
Lemma sizes_delete (m1 : gmap string V) (m2 : gmap string W) p b h :
  sizes_match m1 m2 → is_Some (m1 !! voteStoreKey p b) → is_Some (m2 !! registry_key p h) →
  sizes_match (delete (voteStoreKey p b) m1) (delete (registry_key p h) m2).
Proof.
  intros Hs H1%has_true H2%has_true q Hq. specialize (Hs q Hq).
  pose proof (count_in_poll_delete q m1 (voteStoreKey p b)) as C1.
  pose proof (count_in_poll_delete q m2 (registry_key p h)) as C2.
  rewrite H1, andb_true_r in C1. rewrite H2, andb_true_r in C2. unfold voteStoreKey, registry_key in *.
  rewrite (prefix_of_key q p b h Hq) in C1. destruct (has_prefix _ _) in C1, C2; lia.
Qed.
(** A record moves to another identifier of the same poll. *)
Lemma sizes_replace (m1 : gmap string V) (m2 : gmap string W) p b b' v :
  sizes_match m1 m2 → is_Some (m1 !! voteStoreKey p b) → b' = b ∨ m1 !! voteStoreKey p b' = None →
  sizes_match (<[voteStoreKey p b' := v]> (delete (voteStoreKey p b) m1)) m2.
Proof.
  intros Hs H1%has_true Hb q Hq. rewrite <- (Hs q Hq).
  assert (has (delete (voteStoreKey p b) m1) (voteStoreKey p b') = false) as Hn.
  { rewrite has_delete. destruct Hb as [->|Hb%has_false]; [by rewrite bool_decide_true|by rewrite Hb, andb_false_r]. }
  pose proof (count_in_poll_delete q m1 (voteStoreKey p b)) as C1. rewrite H1, andb_true_r in C1.
  rewrite count_in_poll_insert, Hn, andb_true_r. unfold in_poll, voteStoreKey in *.
  rewrite (prefix_of_key q p b' b Hq). exact C1.
Qed.
Lemma sizes_overwrite (m1 : gmap string V) (m2 : gmap string W) k v :
  sizes_match m1 m2 → is_Some (m1 !! k) → sizes_match (<[k := v]> m1) m2.
Proof.
  intros Hs H1%has_true q Hq. rewrite count_in_poll_insert, H1, andb_false_r, <- (Hs q Hq). lia.
Qed.
End sizes.
