(* ===== verification/VotingState.v ===== *)
(** The canonical voting state (domain/state/state.go): the receiver every
    transaction handler works on, its setters, and the helpers shared by the
    handlers. *)
From S2P Require Import Prelude GoStd Json Types TxData Nonce Identity Keys.

(** [type State struct]; the database handle is a separate argument of the
    operations that use it, and the logger is left out. *)
Record State := mkState {
  signer : option Signer;
  verifier : option IdentityVerifier;
  polls : gmap string Poll;
  voteDirections : gmap string VoteRecord;     (* List 1, "pollID:ballotID" *)
  voterRegistry : gmap string VoterRecord;     (* List 2, "pollID:identityHash" *)
  tallies : gmap string Tally;
  validators : gmap string ValidatorRecord;
  confirms : gmap string ConfirmRecord;        (* "pollID:identityHash" *)
  rescissions : gmap string RescindRecord;     (* "pollID:ballotID" *)
  restores : gmap string RestoreRecord;        (* "pollID:identityHash" *)
  pendingValidatorUpdates : list ValidatorUpdate;
  writeOnly : bool;
  attestationMode : string;
  rollingThreshold : Z;
  submissionCounts : gmap string Z;
  checkpoints : gmap string (list AttestationCheckpoint);
  beaconWindow : gmap Z string;
  height : Z;
  appHash : gobytes;
  dirty : bool;
}.
#[export] Instance Eta_State : Eta State := λ r,
  mkState (signer r) (verifier r) (polls r) (voteDirections r) (voterRegistry r) (tallies r)
    (validators r) (confirms r) (rescissions r) (restores r) (pendingValidatorUpdates r) (writeOnly r)
    (attestationMode r) (rollingThreshold r) (submissionCounts r) (checkpoints r) (beaconWindow r)
    (height r) (appHash r) (dirty r).

(** The state [NewState] builds before it loads the database. *)
Definition initialState (sg : option Signer) : State :=
  mkState sg None ∅ ∅ ∅ ∅ ∅ ∅ ∅ ∅ [] false "rolling" 100 ∅ ∅ ∅ 0 None false.

(** Readings of [time.Now().Unix()], one per call within a handler. *)
Abbreviation clock := (nat → Z).

(** [RecordBeacon], [SetIdentityVerifier], [SetAttestationMode], [SetWriteOnly]. *)
Definition RecordBeacon (h : Z) (blockHashHex : string) : M State unit :=
  modify (λ s, s <| beaconWindow ::= record_beacon h blockHashHex |>).
Definition SetIdentityVerifier (v : IdentityVerifier) : M State unit :=
  modify (λ s, s <| verifier := Some v |>).
Definition SetAttestationMode (mode : string) (threshold : Z) : M State unit :=
  modify (λ s, s <| attestationMode := mode |>) ;;
  if bool_decide (mode = "rolling") && (0 <? threshold)
  then modify (λ s, s <| rollingThreshold := threshold |>) else mret tt.
Definition SetWriteOnly (v : bool) : M State unit := modify (λ s, s <| writeOnly := v |>).
Definition GetInfo (s : State) : Z * gobytes := (height s, appHash s).
Definition set_dirty : M State unit := modify (λ s, s <| dirty := true |>).

(** [voterCountForPoll], [confirmedCountForPoll]: an [int64] counter incremented
    once per matching key. *)
Definition voterCountForPoll (s : State) (pollID : string) : Z :=
  Z.of_nat (count_where (in_poll pollID) (voterRegistry s)).
Definition confirmedCountForPoll (s : State) (pollID : string) : Z :=
  Z.of_nat (count_where (in_poll pollID) (confirms s)).

Definition poll_missing (pollID : string) : error :=
  ErrorInvalidPoll "poll %s does not exist" [FStr pollID].

(** [if method == "" { method = plurality }]. *)
Definition effective_method (m : string) : string :=
  if str_empty m then VotingMethodPlurality else m.

(** Update a poll through its pointer. *)
Definition update_poll (pollID : string) (f : Poll → Poll) : M State unit :=
  modify (λ s, s <| polls ::= alter f pollID |>).

(** An update that keeps every map and the configuration has the same lists. *)
Lemma update_poll_lookup s pollID f k :
  polls (s <| polls ::= alter f pollID |>) !! k =
  if decide (pollID = k) then f <$> polls s !! k else polls s !! k.
Proof. cbn. rewrite lookup_alter. by case_decide; subst. Qed.
