(* ===== verification/VoteQuery.v ===== *)
(** The read surface of domain/state/state.go: [Query] and [findVoteByBallotID]. *)
From S2P Require Import Prelude GoStd Json Tables Types TxData Identity Keys VotingState.

(** [findVoteByBallotID]: the first key, in the order of the map iteration, that ends in
    the identifier. *)
Definition findVoteByBallotID (s : State) (ballotID : string) : option VoteRecord :=
  snd <$> List.find (λ kv, has_suffix kv.1 (":" +:+ ballotID)) (map_to_list (voteDirections s)).

(** [type authorityActionEntry struct]. *)
Record authorityActionEntry := mkActionEntry {
  entry_Type : string; entry_BallotID : string; entry_RevocationRef : string; entry_Height : Z }.
Definition entry_json (e : authorityActionEntry) : json := JObj (
  required "type" (entry_Type e) ++ omit_str "ballot_id" (entry_BallotID e) ++
  omit_str "revocation_ref" (entry_RevocationRef e) ++ required "height" (entry_Height e)).
(** The rescissions and restorations of one participant in one poll. *)
Definition authority_entries (s : State) (pollID identityHash : string) : list authorityActionEntry :=
  ((λ kv, mkActionEntry "rescission" (RescindRecord_BallotID kv.2) (RescindRecord_RevocationRef kv.2) (RescindRecord_Height kv.2)) <$>
     List.filter (λ kv, bool_decide (RescindRecord_PollID kv.2 = pollID) && bool_decide (RescindRecord_IdentityHash kv.2 = identityHash))
       (map_to_list (rescissions s))) ++
  ((λ kv, mkActionEntry "restore" (RestoreRecord_BallotID kv.2) (RestoreRecord_RevocationRef kv.2) (RestoreRecord_Height kv.2)) <$>
     List.filter (λ kv, bool_decide (RestoreRecord_PollID kv.2 = pollID) && bool_decide (RestoreRecord_IdentityHash kv.2 = identityHash))
       (map_to_list (restores s))).

Definition query_votes (s : State) (pollID : string) : json :=
  to_json (foldl (λ m kv, <[VoteRecord_BallotID kv.2 := kv.2]> m) (∅ : gmap string VoteRecord)
    (List.filter (λ kv, has_prefix kv.1 (pollID +:+ ":")) (map_to_list (voteDirections s)))).
Definition query_reattestation (s : State) (pollID : string) : error + json :=
  match polls s !! pollID with
  | None => query_error "poll not found: %s" [FStr pollID]
  | Some poll =>
      let voterCount := voterCountForPoll s pollID in
      let reattestCount := Poll_ReattestationCount poll in
      let deficit := int64_sub voterCount reattestCount in
      inr (JObj [("deficit", JInt (if deficit <? 0 then 0 else deficit));
                 ("deficit_is_fabrication_signal", JBool (voterCount <? reattestCount));
                 ("reattestation_count", JInt reattestCount); ("voter_count", JInt voterCount)])
  end.
Definition query_idv_audit (s : State) (pollID : string) : error + json :=
  match polls s !! pollID with
  | None => query_error "poll not found: %s" [FStr pollID]
  | Some poll =>
      let voterCount := voterCountForPoll s pollID in
      let mismatch := negb (Poll_IDVCastCount poll =? voterCount) in
      inr (JObj [("idv_cast_count", JInt (Poll_IDVCastCount poll)); ("mismatch", JBool mismatch);
                 ("mismatch_signal", JBool mismatch); ("voter_count", JInt voterCount)])
  end.

(** [Query]: the cases in the order of the switch. *)
Definition Query (s : State) (path : string) : error + json :=
  let under p := has_prefix path p in
  let id p := trim_prefix path p in
  if bool_decide (path = "/polls") then marshal_records (map_to_list (polls s)).*2
  else if under "/poll/" then query_record (polls s) (id "/poll/") "poll not found: %s"
  else if under "/tally/" then query_record (tallies s) (id "/tally/") "tally not found: %s"
  else if under "/vote_exists/" then
    inr (JObj [("exists", JBool (bool_decide (is_Some (findVoteByBallotID s (id "/vote_exists/")))))])
  else if under "/vote/" then
    match findVoteByBallotID s (id "/vote/") with
    | Some vote => marshal_record vote
    | None => query_error "vote not found: %s" [FStr (id "/vote/")]
    end
  else if under "/votes/" then inr (query_votes s (id "/votes/"))
  else if under "/voter_count/" then
    inr (JObj [("count", JInt (Z.of_nat (count_where (in_poll (id "/voter_count/")) (voterRegistry s))))])
  else if under "/confirms/" then
    if has (polls s) (id "/confirms/")
    then inr (JObj [("confirmed_count", JInt (confirmedCountForPoll s (id "/confirms/")))])
    else query_error "poll not found: %s" [FStr (id "/confirms/")]
  else if under "/reattestation_audit/" then query_reattestation s (id "/reattestation_audit/")
  else if under "/idv_audit/" then query_idv_audit s (id "/idv_audit/")
  else if under "/authority_actions/" then
    match split2 (id "/authority_actions/") "/" with
    | (_, None) => query_error "authority_actions requires /poll_id/identity_hash" []
    | (pollID, Some identityHash) => inr (JArr (entry_json <$> authority_entries s pollID identityHash))
    end
  else if under "/voter_registered/" then
    match split2 (id "/voter_registered/") "/" with
    | (_, None) => query_error "voter_registered requires /poll_id/identity_hash" []
    | (pollID, Some identityHash) =>
        inr (JObj [("registered", JBool (has (voterRegistry s) (pollID +:+ ":" +:+ identityHash)))])
    end
  else query_error "unknown query path: %s" [FStr path].

(** ** What the public presence query tells *)
Lemma find_exists {A} (f : A → bool) l : is_Some (List.find f l) ↔ ∃ x, x ∈ l ∧ f x = true.
Proof.
  split.
  - intros [x [Hx%list_elem_of_In Hf]%find_some]. by exists x.
  - intros (x & Hx%list_elem_of_In & Hf). destruct (List.find f l) eqn:E; [by eexists|].
    pose proof (find_none _ _ E x Hx). congruence.
Qed.
Lemma findVote_exists s ballotID :
  is_Some (findVoteByBallotID s ballotID) ↔ ∃ k, is_Some (voteDirections s !! k) ∧ has_suffix k (":" +:+ ballotID) = true.
Proof.
  unfold findVoteByBallotID. rewrite fmap_is_Some, find_exists. split.
  - intros ([k v] & Hin%elem_of_map_to_list & Hs). exists k. split; [by eexists|done].
  - intros (k & [v Hv] & Hs). exists (k, v). split; [by apply elem_of_map_to_list|done].
Qed.
(** The presence query shows neither the content of a ballot nor who cast it: it depends
    on the keys of List 1 alone, and says whether one of them ends in the identifier. *)
Theorem vote_exists_blind (s1 s2 : State) (ballotID : string) :
  (∀ k, is_Some (voteDirections s1 !! k) ↔ is_Some (voteDirections s2 !! k)) →
  Query s1 ("/vote_exists/" +:+ ballotID) = Query s2 ("/vote_exists/" +:+ ballotID) ∧
  (Query s1 ("/vote_exists/" +:+ ballotID) = inr (JObj [("exists", JBool true)]) ↔
   ∃ pollID, is_Some (voteDirections s1 !! (pollID +:+ ":" +:+ ballotID))).
Proof.
  intros Hk.
  assert (∀ s, Query s ("/vote_exists/" +:+ ballotID) =
    inr (JObj [("exists", JBool (bool_decide (is_Some (findVoteByBallotID s ballotID))))])) as Hq.
  { intros s. unfold Query. rewrite trim_prefix_app, has_prefix_app.
    change (has_prefix ("/vote_exists/" +:+ ballotID) "/poll/") with false.
    change (has_prefix ("/vote_exists/" +:+ ballotID) "/tally/") with false.
    rewrite bool_decide_eq_false_2 by done. done. }
  rewrite !Hq. split.
  - do 5 f_equal. apply bool_decide_ext. rewrite !findVote_exists. split; intros (k & H & Hs); exists k; split; try done; by apply Hk.
  - split.
    + intros [= H%bool_decide_eq_true]. apply findVote_exists in H as (k & H & [p ->]%has_suffix_spec). by exists p.
    + intros (p & H). rewrite bool_decide_eq_true_2; [done|]. apply findVote_exists. eexists. split; [exact H|].
      apply has_suffix_app.
Qed.
