(* ===== verification/Polls.v ===== *)
(** domain/state/polls.go: creating a poll. *)
From S2P Require Import Prelude GoStd Json Types TxData Nonce Identity Keys VotingState TxValidate Sha256.

Section polls.
Context `{C : Crypto}.

Definition known_method (m : string) : bool :=
  str_empty m || bool_decide (m = VotingMethodPlurality) ||
  bool_decide (m = VotingMethodApproval) || bool_decide (m = VotingMethodRanked).

(** The loop over the options with its [optionSet]. *)
Fixpoint check_options (optionSet : gset string) (options : list string) : M State unit :=
  match options with
  | [] => mret tt
  | option :: rest =>
      fail_if (str_empty option) (ErrorInvalidPoll "option cannot be empty" []) ;;
      fail_if (bool_decide (option ∈ optionSet)) (ErrorInvalidPoll "duplicate option: %s" [FStr option]) ;;
      check_options ({[option]} ∪ optionSet) rest
  end.

Definition validatePollCreate (now : Z) (transaction : Tx) : M State unit :=
  data ← or_fail (UnmarshalData (A := PollCreateData) transaction) (bad_json "invalid poll create data: %w");
  ps ← gets polls;
  fail_if (has ps (PollCreateData_PollID data))
    (ErrorInvalidPoll "poll %s already exists" [FStr (PollCreateData_PollID data)]) ;;
  fail_if (PollCreateData_StartTime data <? now) (ErrorInvalidPoll "start time must be in the future" []) ;;
  fail_if (PollCreateData_EndTime data <=? PollCreateData_StartTime data)
    (ErrorInvalidPoll "end time must be after start time" []) ;;
  fail_if (negb (known_method (PollCreateData_VotingMethod data)))
    (ErrorInvalidPoll "unknown voting_method: %q" [FStr (PollCreateData_VotingMethod data)]) ;;
  fail_if (len (PollCreateData_Options data) <? 2) (ErrorInvalidPoll "poll must have at least 2 options" []) ;;
  fail_if (10 <? len (PollCreateData_Options data))
    (ErrorInvalidPoll "poll cannot have more than 10 options" []) ;;
  check_options ∅ (elems (PollCreateData_Options data)) ;;
  let hasElig := negb (str_empty (PollCreateData_EligibilityAuthorityPubKeyBase64 data)) in
  let hasReconcile := negb (str_empty (PollCreateData_ReconcilingAuthorityPubKeyBase64 data)) in
  fail_if (xorb hasElig hasReconcile)
    (ErrorInvalidPoll "eligibility_authority_pub_key_base64 and reconciling_authority_pub_key_base64 must both be provided or both omitted" []) ;;
  fail_if (hasElig && bool_decide (PollCreateData_EligibilityAuthorityPubKeyBase64 data =
                                   PollCreateData_ReconcilingAuthorityPubKeyBase64 data))
    (ErrorInvalidPoll "eligibility_authority_pub_key_base64 and reconciling_authority_pub_key_base64 must be distinct keys; identical keys collapse the two-party threshold to a single-party threshold" []) ;;
  check_key "eligibility_authority_pub_key_base64"
    (PollCreateData_EligibilityAuthorityPubKeyBase64 data) ErrorInvalidPoll ;;
  check_key "reconciling_authority_pub_key_base64"
    (PollCreateData_ReconcilingAuthorityPubKeyBase64 data) ErrorInvalidPoll.

(** [computePollHash]: the parameters are written to the hash one after another. *)
Definition poll_hash_input (data : PollCreateData) : string :=
  PollCreateData_PollID data +:+ PollCreateData_Question data +:+
  foldr (λ o s, o +:+ s) "" (elems (PollCreateData_Options data)) +:+
  PollCreateData_VotingMethod data +:+ fmt_d (PollCreateData_StartTime data) +:+
  fmt_d (PollCreateData_EndTime data).
Definition computePollHash (data : PollCreateData) : string :=
  hex_EncodeToString (sha256 (poll_hash_input data)).

Definition new_poll (now : Z) (data : PollCreateData) : Poll :=
  mkPoll (PollCreateData_PollID data) (computePollHash data) (PollCreateData_Question data)
    (PollCreateData_Options data) (effective_method (PollCreateData_VotingMethod data))
    (PollCreateData_StartTime data) (PollCreateData_EndTime data) "pending" now
    (PollCreateData_EligibilityAuthorityPubKeyBase64 data)
    (PollCreateData_ReconcilingAuthorityPubKeyBase64 data) 0 0 0.

Definition executePollCreate (now : Z) (transaction : Tx) : M State (list Event) :=
  data ← or_fail (UnmarshalData (A := PollCreateData) transaction) (bad_json "invalid poll create data: %w");
  modify (λ s, s <| polls ::= <[PollCreateData_PollID data := new_poll now data]> |>) ;;
  set_dirty ;;
  mret [mkEvent "poll_created"
    [("scoping_id", PollCreateData_PollID data, true);
     ("poll_hash", computePollHash data, true);
     ("question", PollCreateData_Question data, false);
     ("start_time", fmt_d (PollCreateData_StartTime data), false);
     ("end_time", fmt_d (PollCreateData_EndTime data), false)]].

(** ** The guards *)
Lemma check_options_ok seen l s s' u :
  check_options seen l s = (Ok u, s') →
  s' = s ∧ NoDup l ∧ (∀ o, o ∈ l → o ≠ "" ∧ o ∉ seen).
Proof.
  revert seen. induction l as [|o l IH]; intros seen H; cbn in H.
  { injection H as _ <-. split_and!; [done|constructor|]. intros o Ho. by apply elem_of_nil in Ho. }
  minv H. bools. select (str_empty o = false) (fun H => apply bool_decide_eq_false in H).
  select (check_options _ _ _ = _) (fun H => apply IH in H as (-> & Hnd & Hall)).
  split_and!; [done| |].
  - apply NoDup_cons. split; [|done]. intros Hin. destruct (Hall _ Hin) as [_ Hn]. clear -Hn. set_solver.
  - intros o' [->|Ho']%elem_of_cons; [done|]. destruct (Hall _ Ho') as [? Hn]. split; [done|]. clear -Hn. set_solver.
Qed.

Lemma check_key_ok {St} label val mk (s s' : St) u :
  check_key label val mk s = (Ok u, s') →
  s' = s ∧ (val = "" ∨ ∃ raw, base64_DecodeString val = Some raw ∧ String.length raw = 32%nat).
Proof.
  unfold check_key, str_empty. case_bool_decide; intros H'; minv H'; [by auto|].
  split; [done|]. right. eexists. split; [done|].
  by select (negb _ = false) (fun H => apply (slen_is _ 32) in H).
Qed.

End polls.

Section properties.
Context `{C : Crypto}.

(** What an accepted poll creation guarantees; acceptance leaves the state alone. *)
Theorem validatePollCreate_sound (now : Z) (t : Tx) (s s' : State) :
  validatePollCreate now t s = (Ok tt, s') →
  s' = s ∧ ∃ data : PollCreateData, UnmarshalData t = Some data ∧
    polls s !! PollCreateData_PollID data = None ∧
    now ≤ PollCreateData_StartTime data < PollCreateData_EndTime data ∧
    NoDup (elems (PollCreateData_Options data)) ∧ "" ∉ elems (PollCreateData_Options data) ∧
    2 ≤ len (PollCreateData_Options data) ≤ 10 ∧
    (let e := PollCreateData_EligibilityAuthorityPubKeyBase64 data in
     let r := PollCreateData_ReconcilingAuthorityPubKeyBase64 data in
     (e = "" ∧ r = "") ∨
     (e ≠ r ∧ ∃ pe pr, base64_DecodeString e = Some pe ∧ base64_DecodeString r = Some pr ∧
        String.length pe = 32%nat ∧ String.length pr = 32%nat)).
Proof.
  intros H. unfold validatePollCreate in H. minv H.
  repeat select (check_key _ _ _ _ = _) (fun H => apply check_key_ok in H as [-> ?]).
  select (check_options _ _ _ = _) (fun H => apply check_options_ok in H as (-> & ? & Hopt)).
  split; [done|]. eexists. split; [done|]. bools.
  select (has _ _ = _) (fun H => apply has_false in H).
  split_and!; try done; try lia.
  { intros Hin. by destruct (Hopt _ Hin). }
  unfold str_empty in *. repeat case_bool_decide; cbn in *; try done; first [by left|right].
  destruct_or!; try done. clear Hopt; naive_solver.
Qed.

(** The state after a poll creation: one pending poll under its identifier, with
    the data's parameters, the plurality default and no counters; nothing else
    moves. *)
Theorem executePollCreate_effect (now : Z) (t : Tx) (data : PollCreateData) (s : State) :
  UnmarshalData t = Some data →
  ∃ evs, executePollCreate now t s =
    (Ok evs, s <| polls ::= <[PollCreateData_PollID data := new_poll now data]> |> <| dirty := true |>) ∧
    Poll_Status (new_poll now data) = "pending" ∧
    Poll_VotingMethod (new_poll now data) ≠ "" ∧
    Poll_SealedCount (new_poll now data) = 0 ∧ Poll_ReattestationCount (new_poll now data) = 0 ∧
    Poll_IDVCastCount (new_poll now data) = 0.
Proof.
  intros Hd. eexists. split.
  - unfold executePollCreate. rewrite Hd. reflexivity.
  - split_and!; try done. cbn. unfold effective_method, str_empty. by case_bool_decide.
Qed.

(** The poll hash does not bind the poll parameters: moving the boundary between
    two options keeps the hash. *)
Theorem computePollHash_ambiguous (pollID question a b c : string) (rest : list string)
    (method : string) (start stop : Z) (ka kb : string) :
  computePollHash (mkPollCreateData pollID question (Some ((a +:+ b) :: c :: rest)) method start stop ka kb) =
  computePollHash (mkPollCreateData pollID question (Some (a :: (b +:+ c) :: rest)) method start stop ka kb).
Proof.
  unfold computePollHash, poll_hash_input. cbn. by rewrite !str_app_assoc.
Qed.
End properties.
