(* ===== verification/Tallies.v ===== *)
(** domain/state/tallies.go: collecting the two lists of a poll, rolling
    attestations and closing a poll. *)
From S2P Require Import Prelude GoStd Json Types TxData Nonce Identity Keys VotingState Merkle TxValidate.

(** The cardinalities the count-match invariant compares. *)
Definition counted (v : VoteRecord) : bool :=
  negb (bool_decide (VoteRecord_PartitionID v = "sealed") || VoteRecord_Superseded v).
Definition L1_counted (s : State) (pollID : string) : nat :=
  count_where (λ k v, in_poll pollID k v && counted v) (voteDirections s).
Definition L1_total (s : State) (pollID : string) : nat :=
  count_where (in_poll pollID) (voteDirections s).
Definition L2_total (s : State) (pollID : string) : nat :=
  count_where (in_poll pollID) (voterRegistry s).

Section tallies.
Context `{C : Crypto}.

Definition validatePollClose (now : Z) (transaction : Tx) : M State unit :=
  data ← or_fail (UnmarshalData (A := PollCloseData) transaction) (bad_json "invalid poll close data: %w");
  ps ← gets polls;
  poll ← or_fail (ps !! PollCloseData_PollID data) (poll_missing (PollCloseData_PollID data));
  fail_if (bool_decide (Poll_Status poll = "closed")) (ErrorInvalidPoll "poll is already closed" []) ;;
  fail_if (now <? Poll_EndTime poll) (ErrorInvalidPoll "poll end time has not been reached" []) ;;
  ts ← gets tallies;
  fail_if (has ts (PollCloseData_PollID data)) (ErrorInvalidPoll "tally already exists for this poll" []).

(** [counts[c]++]. *)
Definition count_inc (counts : gmap string Z) (c : string) : gmap string Z :=
  <[c := int64_inc (default 0 (counts !! c))]> counts.
(** The choices of one vote that are counted. *)
Definition counted_choices (method : string) (v : VoteRecord) : list string :=
  if bool_decide (method = VotingMethodApproval) then elems (VoteRecord_Choices v)
  else take 1 (elems (VoteRecord_Choices v)).

(** [collectPollLists] on the entries of the two maps in the order the iteration
    visits them; Go leaves that order open. *)
Definition counted_votes (pollID : string) (votes : list (string * VoteRecord)) : list VoteRecord :=
  (List.filter (λ kv, in_poll pollID kv.1 kv.2 && counted kv.2) votes).*2.
Definition collect_on (votes : list (string * VoteRecord)) (voters : list (string * VoterRecord))
    (pollID method : string) (options : list string) : list string * list string * gmap string Z :=
  let zero := foldl (λ m o, <[o := 0]> m) (∅ : gmap string Z) options in
  let vs := counted_votes pollID votes in
  (VoteRecord_BallotID <$> vs,
   (λ kv, VoterRecord_IdentityHash kv.2) <$> List.filter (λ kv, in_poll pollID kv.1 kv.2) voters,
   foldl (λ m v, foldl count_inc m (counted_choices method v)) zero vs).
Definition collectPollLists (s : State) (pollID method : string) (options : list string) :
    list string * list string * gmap string Z :=
  collect_on (map_to_list (voteDirections s)) (map_to_list (voterRegistry s)) pollID method options.

(** [signTallyPayload]: the signature and whether it is the degraded stub; it
    never returns an error. *)
Definition signTallyPayload (s : State) (counts : gmap string Z) (voteRoot voterRoot : string)
    (totalVotes : Z) : string * bool :=
  let payload := BuildSigningPayload voteRoot voterRoot totalVotes counts in
  match signer s with
  | Some sg => match Sign sg payload with
               | Some sig => (sig, false)
               | None => (payload, true)
               end
  | None => (payload, false)
  end.
(** [if s.signer != nil && !degraded { pubKeyDER = s.signer.PublicKeyDER() }]. *)
Definition attested_key (s : State) (degraded : bool) : gobytes :=
  match signer s with
  | Some sg => if degraded then None else Some (PublicKeyDER sg)
  | None => None
  end.

Definition commitRollingAttestation (now : Z) (pollID : string) : M State (list Event) :=
  s ← gets id;
  poll ← or_panic (polls s !! pollID);
  let method := effective_method (Poll_VotingMethod poll) in
  let '(ballotIDs, identityHashes, _) := collectPollLists s pollID method (elems (Poll_Options poll)) in
  let total := Z.of_nat (length ballotIDs) in
  fail_if (negb (Z.of_nat (length identityHashes) =? total))
    (Errorf "count-match invariant violated at rolling attestation for poll %s: l1=%d l2=%d"
      [FStr pollID; FInt total; FInt (Z.of_nat (length identityHashes))]) ;;
  let l1Commitment := computeMerkleRoot ballotIDs in
  let l2Commitment := computeMerkleRoot identityHashes in
  let '(signature, degraded) := signTallyPayload s ∅ l1Commitment l2Commitment total in
  let seq := length (default [] (checkpoints s !! pollID)) in
  let cp := mkAttestationCheckpoint pollID (Z.of_nat seq) total l1Commitment l2Commitment
              (Some signature) (attested_key s degraded) degraded now (int64_inc (height s)) in
  modify (λ s, s <| checkpoints ::= λ m, <[pollID := default [] (m !! pollID) ++ [cp]]> m |>) ;;
  set_dirty ;;
  mret [mkEvent "rolling_attestation"
    [("scoping_id", pollID, true);
     ("sequence", fmt_d (Z.of_nat seq), false);
     ("total_submissions", fmt_d total, false);
     ("l1_commitment", fmt_x l1Commitment, false);
     ("l2_commitment", fmt_x l2Commitment, false)]].

(** The tally [executePollClose] writes. *)
Definition close_tally (now : Z) (s : State) (poll : Poll) (pollID : string) : Tally :=
  let method := effective_method (Poll_VotingMethod poll) in
  let '(ballotIDs, identityHashes, counts) := collectPollLists s pollID method (elems (Poll_Options poll)) in
  let totalVotes := Z.of_nat (length ballotIDs) in
  let l1Commitment := computeMerkleRoot ballotIDs in
  let l2Commitment := computeMerkleRoot identityHashes in
  let '(signature, degraded) := signTallyPayload s counts l1Commitment l2Commitment totalVotes in
  let attested := negb (bool_decide (attestationMode s = "none")) in
  mkTally pollID method counts totalVotes (confirmedCountForPoll s pollID)
    (Some l1Commitment) (Some l2Commitment)
    (if attested then Some signature else None)
    (if attested then attested_key s degraded else None)
    now (int64_inc (height s))
    (if attested then degraded else false) 0.

Definition executePollClose (now : Z) (transaction : Tx) : M State (list Event) :=
  data ← or_fail (UnmarshalData (A := PollCloseData) transaction) (bad_json "invalid poll close data: %w");
  let pollID := PollCloseData_PollID data in
  s ← gets id;
  poll ← or_panic (polls s !! pollID);
  let '(ballotIDs, identityHashes, _) :=
    collectPollLists s pollID (effective_method (Poll_VotingMethod poll)) (elems (Poll_Options poll)) in
  let totalVotes := Z.of_nat (length ballotIDs) in
  fail_if (negb (Z.of_nat (length identityHashes) =? totalVotes))
    (Errorf "count-match invariant violated for poll %s: vote_directions=%d voter_registry=%d"
      [FStr pollID; FInt totalVotes; FInt (Z.of_nat (length identityHashes))]) ;;
  let tally := close_tally now s poll pollID in
  update_poll pollID (λ p, p <| Poll_Status := "closed" |>) ;;
  modify (λ s, s <| tallies ::= <[pollID := tally]> |>) ;;
  set_dirty ;;
  mret [mkEvent "poll_closed"
    [("scoping_id", pollID, true);
     ("total_votes", fmt_d totalVotes, false);
     ("l1_commitment", fmt_x (computeMerkleRoot ballotIDs), false);
     ("l2_commitment", fmt_x (computeMerkleRoot identityHashes), false);
     ("finalized_at", fmt_d (Tally_FinalizedAt tally), false)]].

(** ** Sizes of the collected lists *)
Lemma collect_ballots_length s pollID method options :
  length (collectPollLists s pollID method options).1.1 = L1_counted s pollID.
Proof. cbn. unfold counted_votes. by rewrite !length_fmap. Qed.
Lemma collect_voters_length s pollID method options :
  length (collectPollLists s pollID method options).1.2 = L2_total s pollID.
Proof. cbn. by rewrite length_fmap. Qed.

(** ** What the counts are *)
Definition occurrences (c : string) (l : list string) : nat :=
  length (List.filter (λ x, bool_decide (x = c)) l).
(** The number of counted mentions of [c] among the counted votes of a poll. *)
Definition mentions (s : State) (pollID method c : string) : nat :=
  occurrences c (mjoin (counted_choices method <$> counted_votes pollID (map_to_list (voteDirections s)))).

Lemma fold_counts_join method vs m :
  foldl (λ m v, foldl count_inc m (counted_choices method v)) m vs =
  foldl count_inc m (mjoin (counted_choices method <$> vs)).
Proof. revert m. induction vs as [|v vs IH]; intros m; cbn; [done|]. by rewrite IH, foldl_app. Qed.

Lemma foldl_count_inc_lookup l m c :
  (∀ z, m !! c = Some z → 0 ≤ z) →
  default 0 (m !! c) + Z.of_nat (length l) < 2 ^ 63 →
  default 0 (foldl count_inc m l !! c) = default 0 (m !! c) + Z.of_nat (occurrences c l).
Proof.
  revert m. induction l as [|x l IH]; intros m Hm Hl; cbn [foldl]; [cbn; lia|].
  assert (0 ≤ default 0 (m !! c)) as H0 by (destruct (m !! c) eqn:E; cbn; [by apply Hm|lia]).
  cbn [length] in Hl. unfold occurrences. cbn [List.filter].
  assert (default 0 (count_inc m x !! c) =
    default 0 (m !! c) + (if bool_decide (x = c) then 1 else 0)) as Hc.
  { unfold count_inc. case_bool_decide as E; [subst|by rewrite lookup_insert_ne, Z.add_0_r].
    rewrite lookup_insert_eq. cbn. unfold int64_inc, int64_add. apply wrap64_id.
    unfold int64_ok. lia. }
  rewrite IH; rewrite ?Hc.
  - unfold occurrences. case_bool_decide; cbn [length]; lia.
  - intros z Hz. rewrite Hz in Hc. cbn in Hc. case_bool_decide; lia.
  - case_bool_decide; lia.
Qed.

Lemma zero_counts_lookup options (m : gmap string Z) c :
  (∀ z, m !! c = Some z → z = 0) →
  ∀ z, foldl (λ m o, <[o := 0]> m) m options !! c = Some z → z = 0.
Proof.
  revert m. induction options as [|o options IH]; intros m Hm z; cbn; [apply Hm|].
  apply IH. intros z'. rewrite lookup_insert. case_decide; [by intros [= <-]|apply Hm].
Qed.

Lemma collect_counts s pollID method options c :
  Z.of_nat (length (mjoin (counted_choices method <$>
    counted_votes pollID (map_to_list (voteDirections s))))) < 2 ^ 63 →
  default 0 ((collectPollLists s pollID method options).2 !! c) = Z.of_nat (mentions s pollID method c).
Proof.
  intros Hl. cbn. rewrite fold_counts_join.
  assert (∀ z, foldl (λ m o, <[o := 0]> m) (∅ : gmap string Z) options !! c = Some z → z = 0) as Hz.
  { apply zero_counts_lookup. intros z. by rewrite lookup_empty. }
  assert (default 0 (foldl (λ m o, <[o := 0]> m) (∅ : gmap string Z) options !! c) = 0) as Hz0.
  { destruct (_ !! c) eqn:E; [|done]. cbn. by apply Hz. }
  rewrite foldl_count_inc_lookup; rewrite ?Hz0; [unfold mentions; lia| |lia].
  intros z ->%Hz. lia.
Qed.

(** ** Order independence *)
Lemma count_inc_comm m a b : count_inc (count_inc m a) b = count_inc (count_inc m b) a.
Proof.
  destruct (decide (a = b)) as [->|Hab]; [done|]. unfold count_inc.
  rewrite !lookup_insert_ne by done. by rewrite insert_insert_ne.
Qed.
Lemma foldl_count_inc_perm l1 l2 m :
  l1 ≡ₚ l2 → foldl count_inc m l1 = foldl count_inc m l2.
Proof.
  intros H. revert m. induction H; intros m; cbn; auto.
  - by rewrite count_inc_comm.
  - etrans; eauto.
Qed.
#[local] Instance counted_votes_perm pollID : Proper ((≡ₚ) ==> (≡ₚ)) (counted_votes pollID).
Proof. intros l1 l2 H. unfold counted_votes. by rewrite H. Qed.

(** Determinism of a close: whatever order the iteration visits the two maps in,
    the counts are the same and so are both commitments. *)
Theorem collect_order_independent (s : State) (pollID method : string) (options : list string)
    (votes : list (string * VoteRecord)) (voters : list (string * VoterRecord)) :
  votes ≡ₚ map_to_list (voteDirections s) → voters ≡ₚ map_to_list (voterRegistry s) →
  let '(ids, hashes, counts) := collect_on votes voters pollID method options in
  let '(ids', hashes', counts') := collectPollLists s pollID method options in
  computeMerkleRoot ids = computeMerkleRoot ids' ∧
  computeMerkleRoot hashes = computeMerkleRoot hashes' ∧ counts = counts'.
Proof.
  intros Hv Hr. unfold collectPollLists, collect_on. split_and!.
  - apply computeMerkleRoot_perm. by rewrite Hv.
  - apply computeMerkleRoot_perm. by rewrite Hr.
  - rewrite !fold_counts_join. apply foldl_count_inc_perm. by rewrite Hv.
Qed.
End tallies.

Section properties.
Context `{C : Crypto}.

Lemma close_tally_total now s poll pollID :
  Tally_TotalVotes (close_tally now s poll pollID) = Z.of_nat (L1_counted s pollID).
Proof.
  pose proof (collect_ballots_length s pollID (effective_method (Poll_VotingMethod poll)) (elems (Poll_Options poll))) as HL1.
  unfold close_tally. destruct (collectPollLists _ _ _ _) as [[ids hs] cs].
  destruct (signTallyPayload _ _ _ _ _). cbn in *. by rewrite HL1.
Qed.
Lemma executePollClose_run (now : Z) (t : Tx) (data : PollCloseData) (s : State) (poll : Poll) :
  UnmarshalData t = Some data → polls s !! PollCloseData_PollID data = Some poll →
  let pollID := PollCloseData_PollID data in
  if decide (L1_counted s pollID = L2_total s pollID)
  then ∃ evs, executePollClose now t s =
         (Ok evs, s <| polls ::= <[pollID := poll <| Poll_Status := "closed" |>]> |>
                    <| tallies ::= <[pollID := close_tally now s poll pollID]> |> <| dirty := true |>)
  else ∃ e, executePollClose now t s = (Fail e, s).
Proof.
  intros Hd Hp pollID.
  pose proof (collect_ballots_length s pollID (effective_method (Poll_VotingMethod poll)) (elems (Poll_Options poll))) as HL1.
  pose proof (collect_voters_length s pollID (effective_method (Poll_VotingMethod poll)) (elems (Poll_Options poll))) as HL2.
  unfold executePollClose. rewrite Hd. mrun. unfold id. fold pollID in Hp |- *. rewrite Hp. mrun.
  destruct (collectPollLists _ _ _ _) as [[ids hs] cs]. cbn in HL1, HL2.
  rewrite HL1, HL2. mrun. case_decide as E.
  - rewrite E, Z.eqb_refl. cbn [negb]. eexists. unfold update_poll, set_dirty. mrun. unfold field_set.
    cbn [polls]. by rewrite (alter_as_insert _ _ _ _ Hp).
  - rewrite (proj2 (Z.eqb_neq _ _)) by lia. cbn. eauto.
Qed.

(** C2. The count-match gate of a close.  On an existing poll [executePollClose]
    succeeds exactly when the counted part of List 1 and List 2 have the same
    size; it then writes one tally over that size, closes the poll and leaves both
    lists alone.  Otherwise it fails and writes nothing. *)
Theorem executePollClose_spec (now : Z) (t : Tx) (data : PollCloseData) (s : State) (poll : Poll) :
  UnmarshalData t = Some data → polls s !! PollCloseData_PollID data = Some poll →
  let pollID := PollCloseData_PollID data in
  let tally := close_tally now s poll pollID in
  if decide (L1_counted s pollID = L2_total s pollID)
  then Tally_TotalVotes tally = Z.of_nat (L1_counted s pollID) ∧
       Tally_TotalVotes tally = Z.of_nat (L2_total s pollID) ∧
       ∃ evs, executePollClose now t s =
         (Ok evs, s <| polls ::= <[pollID := poll <| Poll_Status := "closed" |>]> |>
                    <| tallies ::= <[pollID := tally]> |> <| dirty := true |>)
  else ∃ e, executePollClose now t s = (Fail e, s).
Proof.
  intros Hd Hp pollID tally. pose proof (executePollClose_run now t data s poll Hd Hp) as H.
  cbn zeta in H. fold pollID in H. unfold tally. rewrite !close_tally_total.
  case_decide as E; [|done]. by rewrite E.
Qed.

Lemma occurrences_cons c x l :
  occurrences c (x :: l) = ((if bool_decide (x = c) then 1 else 0) + occurrences c l)%nat.
Proof. unfold occurrences. cbn. by case_bool_decide. Qed.

Lemma sum_occurrences (options l : list string) :
  NoDup options → (∀ x, x ∈ l → x ∈ options) →
  foldr (λ o z, Z.of_nat (occurrences o l) + z) 0 options = Z.of_nat (length l).
Proof.
  intros Hnd. induction l as [|x l IH]; intros Hin.
  { clear. induction options as [|o os IHo]; cbn [foldr]; [done|]. by rewrite IHo. }
  assert (foldr (λ o z, Z.of_nat (occurrences o (x :: l)) + z) 0 options =
          1 + foldr (λ o z, Z.of_nat (occurrences o l) + z) 0 options) as ->.
  { assert (x ∈ options) as Hx by (apply Hin; by left). clear IH Hin.
    assert (Hskip : ∀ os, x ∉ os → foldr (λ o z, Z.of_nat (occurrences o (x :: l)) + z) 0 os =
      foldr (λ o z, Z.of_nat (occurrences o l) + z) 0 os).
    { induction os as [|o os IHo]; cbn [foldr]; [done|]. intros [? ?]%not_elem_of_cons.
      rewrite IHo, occurrences_cons, bool_decide_false by congruence. lia. }
    induction options as [|o os IHo]; [by apply elem_of_nil in Hx|]. cbn [foldr].
    apply NoDup_cons in Hnd as [Ho Hnd]. rewrite occurrences_cons.
    destruct (decide (x = o)) as [->|Hne].
    - rewrite bool_decide_true, Hskip by done. lia.
    - rewrite bool_decide_false by done. rewrite IHo; [lia|done|].
      by apply elem_of_cons in Hx as [|]. }
  rewrite IH; [cbn [length]; lia|]. intros y Hy. apply Hin. by right.
Qed.

(** Conservation of votes: in a plurality or ranked poll whose counted votes each
    name an option first, the published counts are exactly the first-choice
    counts and add up to the total. *)
Theorem close_tally_conserves (now : Z) (s : State) (poll : Poll) (pollID : string) :
  effective_method (Poll_VotingMethod poll) ≠ VotingMethodApproval →
  NoDup (elems (Poll_Options poll)) →
  Z.of_nat (L1_total s pollID) < 2 ^ 63 →
  (∀ k v, voteDirections s !! k = Some v → in_poll pollID k v = true → counted v = true →
     ∃ c rest, elems (VoteRecord_Choices v) = c :: rest ∧ c ∈ elems (Poll_Options poll)) →
  let tally := close_tally now s poll pollID in
  (∀ c, default 0 (Tally_Counts tally !! c) =
     Z.of_nat (mentions s pollID (effective_method (Poll_VotingMethod poll)) c)) ∧
  foldr (λ o z, default 0 (Tally_Counts tally !! o) + z) 0 (elems (Poll_Options poll)) =
  Tally_TotalVotes tally.
Proof.
  intros Hm Hnd Hsz Hch tally.
  set (method := effective_method (Poll_VotingMethod poll)) in *.
  set (vs := counted_votes pollID (map_to_list (voteDirections s))).
  assert (Hvs : ∀ v, v ∈ vs → ∃ c, counted_choices method v = [c] ∧ c ∈ elems (Poll_Options poll)).
  { intros v Hv. unfold vs, counted_votes in Hv. apply list_elem_of_fmap in Hv as ([k v'] & -> & Hin).
    apply list_elem_of_In, filter_In in Hin as [Hin Hc]. cbn in *. bools.
    apply list_elem_of_In, elem_of_map_to_list in Hin.
    destruct (Hch k v') as (c & rest & He & Hc); try done. exists c. split; [|done].
    unfold counted_choices. rewrite bool_decide_false by done. by rewrite He. }
  assert (Hlen : length (mjoin (counted_choices method <$> vs)) = length vs).
  { clear -Hvs. induction vs as [|v vs IH]; [done|].
    change (length (counted_choices method v ++ mjoin (counted_choices method <$> vs)) = S (length vs)).
    destruct (Hvs v) as (c & -> & _); [by left|]. rewrite length_app, IH; [done|].
    intros. apply Hvs. by right. }
  assert (Hin : ∀ x, x ∈ mjoin (counted_choices method <$> vs) → x ∈ elems (Poll_Options poll)).
  { intros x (l & Hx & Hl)%list_elem_of_join. apply list_elem_of_fmap in Hl as (v & -> & Hv).
    destruct (Hvs v Hv) as (c & Hc & ?). rewrite Hc in Hx. by apply list_elem_of_singleton in Hx as ->. }
  assert (Hvl : length vs = L1_counted s pollID).
  { unfold vs, counted_votes, L1_counted, count_where. by rewrite length_fmap. }
  assert (Hle : (L1_counted s pollID ≤ L1_total s pollID)%nat).
  { apply count_where_mono. intros k v ?. by bools. }
  assert (Hcounts : Tally_Counts tally = (collectPollLists s pollID method (elems (Poll_Options poll))).2).
  { unfold tally, close_tally. fold method. destruct (collectPollLists _ _ _ _) as [[ids hs] cs].
    by destruct (signTallyPayload _ _ _ _ _). }
  assert (Htotal : Tally_TotalVotes tally = Z.of_nat (L1_counted s pollID)).
  { unfold tally, close_tally. fold method.
    pose proof (collect_ballots_length s pollID method (elems (Poll_Options poll))) as HL.
    destruct (collectPollLists _ _ _ _) as [[ids hs] cs].
    destruct (signTallyPayload _ _ _ _ _). cbn in *. by rewrite HL. }
  assert (Hc : ∀ c, default 0 (Tally_Counts tally !! c) = Z.of_nat (mentions s pollID method c)).
  { intros c. rewrite Hcounts. apply collect_counts. fold vs.
    change (Z.of_nat (length (mjoin (counted_choices method <$> vs))) < 2 ^ 63).
    rewrite Hlen, Hvl. lia. }
  split; [done|]. rewrite Htotal, <- Hvl, <- Hlen.
  rewrite <- (sum_occurrences _ _ Hnd Hin). clear -Hc.
  induction (elems (Poll_Options poll)) as [|o os IH]; cbn [foldr]; [done|]. by rewrite IH, Hc.
Qed.

(** A poll with a migrated ballot cannot be closed: while both lists agree in
    full, one sealed record makes the counted part of List 1 the smaller one, and
    the close fails. *)
Theorem sealed_poll_cannot_close (now : Z) (t : Tx) (data : PollCloseData) (s : State) (poll : Poll)
    (k : string) (v : VoteRecord) :
  UnmarshalData t = Some data → polls s !! PollCloseData_PollID data = Some poll →
  L1_total s (PollCloseData_PollID data) = L2_total s (PollCloseData_PollID data) →
  voteDirections s !! k = Some v → in_poll (PollCloseData_PollID data) k v = true →
  VoteRecord_PartitionID v = "sealed" →
  ∃ e, executePollClose now t s = (Fail e, s).
Proof.
  intros Hd Hp Heq Hk Hin Hs.
  pose proof (executePollClose_run now t data s poll Hd Hp) as H. cbn zeta in H.
  rewrite decide_False in H; [done|]. rewrite <- Heq. unfold L1_counted, L1_total.
  rewrite (count_where_delete _ _ _ _ Hk), (count_where_delete (in_poll _) _ _ _ Hk), Hin.
  assert (counted v = false) as -> by (unfold counted; by rewrite bool_decide_true).
  cbn [andb]. enough (∀ m : gmap string VoteRecord,
    (count_where (λ k v, in_poll (PollCloseData_PollID data) k v && counted v) m ≤
     count_where (in_poll (PollCloseData_PollID data)) m)%nat) as Hle.
  { specialize (Hle (delete k (voteDirections s))). lia. }
  intros m. apply count_where_mono. intros k' v' ?. by bools.
Qed.
End properties.
