(* ===== verification/Ballots.v ===== *)
(** domain/state/ballots.go: casting, updating and withdrawing a ballot, and the
    derivation of ballot identifiers. *)
From S2P Require Import Prelude GoStd Json Types TxData Nonce Identity Keys VotingState Merkle TxValidate Tallies.

Section ballots.
Context `{C : Crypto}.

(** ** Identifiers and signed messages *)
Definition voterDeviceSigMessage (ballotNonce pollID : string) : string := ballotNonce +:+ ":" +:+ pollID.
Definition ballotUpdateDeviceSigMessage (newBallotNonce pollID : string) : string :=
  "update:" +:+ newBallotNonce +:+ ":" +:+ pollID.

Definition computeBallotID (ballotNonce : string) : string := hex_EncodeToString (sha256 ballotNonce).
Definition computeBallotIDWithBeacon (beaconBlockHash ballotNonce : string) : string :=
  if str_empty beaconBlockHash then computeBallotID ballotNonce
  else default (computeBallotID ballotNonce) (DeriveSubmissionID beaconBlockHash ballotNonce).
Definition nonce_plus_payload_id (ballotNonce : string) (choices : slice string) : string :=
  hex_EncodeToString (sha256 (ballotNonce +:+ ":" +:+ marshal choices)).
Definition deriveBallotID (ballotNonce : string) (choices : slice string) (mode : string) : string :=
  if bool_decide (mode = SubmissionIdentifierDerivationNoncePlusPayload)
  then nonce_plus_payload_id ballotNonce choices else computeBallotID ballotNonce.
Definition deriveBallotIDWithBeacon (beaconBlockHash ballotNonce : string) (choices : slice string)
    (mode : string) : string :=
  if bool_decide (mode = SubmissionIdentifierDerivationNoncePlusPayload)
  then nonce_plus_payload_id ballotNonce choices
  else computeBallotIDWithBeacon beaconBlockHash ballotNonce.

(** "partition-migration-auth:" key ":" poll, hashed. *)
Definition migrationAuthHash (voterPubKey pollID : string) : string :=
  hex_EncodeToString (sha256 ("partition-migration-auth:" +:+ voterPubKey +:+ ":" +:+ pollID)).

(** ** Choices *)
Fixpoint check_choices (options seen : list string) (choices : list string) : M State unit :=
  match choices with
  | [] => mret tt
  | c :: rest =>
      fail_if (negb (bool_decide (c ∈ options)))
        (ErrorInvalidPoll "invalid choice: %q is not a poll option" [FStr c]) ;;
      fail_if (bool_decide (c ∈ seen)) (ErrorInvalidPoll "duplicate choice: %q" [FStr c]) ;;
      check_choices options (c :: seen) rest
  end.
Definition validateChoices (poll : Poll) (choices : slice string) : M State unit :=
  fail_if (len choices =? 0) (ErrorInvalidPoll "choices must not be empty" []) ;;
  check_choices (elems (Poll_Options poll)) [] (elems choices) ;;
  fail_if (bool_decide (effective_method (Poll_VotingMethod poll) = VotingMethodPlurality) &&
           negb (len choices =? 1))
    (ErrorInvalidPoll "plurality poll requires exactly 1 choice, got %d" [FInt (len choices)]).

(** The window and status guards shared by casts and updates. *)
Definition check_open (now : Z) (poll : Poll) : M State unit :=
  fail_if (now <? Poll_StartTime poll) (ErrorInvalidPoll "poll has not started yet" []) ;;
  fail_if (Poll_EndTime poll <=? now) (ErrorInvalidPoll "poll has ended" []) ;;
  fail_if (bool_decide (Poll_Status poll = "closed")) (ErrorInvalidPoll "poll is closed" []).

Definition device_key_error : error :=
  Errorf "voter_pub_key must be a 64-char hex-encoded Ed25519 public key" [].
(** Hex-decode a public key of [ed25519.PublicKeySize] bytes. *)
Definition decode_pubkey (e : error) (hexkey : string) : M State string :=
  pub ← or_fail (hex_DecodeString hexkey) e;
  fail_if (negb (slen pub =? PublicKeySize)) e ;;
  mret pub.

Definition HasRestoreGrant (s : State) (pollID identityHash : string) : bool :=
  has (restores s) (registry_key pollID identityHash).

(** [validateBallotCast].  It opens a pending poll whose start time has passed. *)
Definition validateBallotCast (now : Z) (transaction : Tx) : M State unit :=
  data ← or_fail (UnmarshalData (A := BallotCastData) transaction) (bad_json "invalid ballot cast data: %w");
  let pollID := BallotCastData_PollID data in
  wrap_err (λ e, Errorf "ballot_nonce: %w" [FErr e]) (ValidateNonce (BallotCastData_BallotNonce data)) ;;
  window ← gets beaconWindow;
  wrap_err (λ e, Errorf "beacon: %w" [FErr e])
    (ValidateBeacon (BallotCastData_BeaconBlockHash data) (BallotCastData_BeaconBlockHeight data) window) ;;
  pub ← decode_pubkey device_key_error (BallotCastData_VoterPubKey data);
  fail_if (negb (ed25519_Verify pub (voterDeviceSigMessage (BallotCastData_BallotNonce data) pollID)
                   (bytes_of (BallotCastData_VoterSig data))))
    (Errorf "voter device signature invalid for poll %s" [FStr pollID]) ;;
  v ← gets verifier;
  idv ← or_fail v (Errorf "no identity verifier configured for this deployment" []);
  ps ← gets polls;
  poll ← or_fail (ps !! pollID) (poll_missing pollID);
  check_open now poll ;;
  (if bool_decide (Poll_Status poll = "pending") && (Poll_StartTime poll <=? now)
   then update_poll pollID (λ p, p <| Poll_Status := "open" |>) else mret tt) ;;
  validateChoices poll (BallotCastData_Choices data) ;;
  identityHash ← or_fail (VerifyAndIdentify idv data)
    (Errorf "identity verification failed: %w" [FErr verifier_error]);
  s ← gets id;
  fail_if (has (voterRegistry s) (registry_key pollID identityHash) &&
           negb (HasRestoreGrant s pollID identityHash))
    (ErrorDuplicateVote pollID identityHash).

Definition cast_ballotID (data : BallotCastData) : string :=
  deriveBallotIDWithBeacon (BallotCastData_BeaconBlockHash data) (BallotCastData_BallotNonce data)
    (BallotCastData_Choices data) (BallotCastData_SubmissionIdentifierDerivation data).

(** [executeBallotCast]; a failed rolling attestation is only logged. *)
Definition executeBallotCast (now : Z) (transaction : Tx) : M State (list Event) :=
  data ← or_fail (UnmarshalData (A := BallotCastData) transaction) (bad_json "invalid ballot cast data: %w");
  let pollID := BallotCastData_PollID data in
  v ← gets verifier;
  idv ← or_panic v;
  identityHash ← or_fail (VerifyAndIdentify idv data)
    (Errorf "identity re-derivation failed: %w" [FErr verifier_error]);
  let ballotID := cast_ballotID data in
  let record := mkVoteRecord ballotID (BallotCastData_Choices data) (BallotCastData_PartitionID data) false
                  (migrationAuthHash (BallotCastData_VoterPubKey data) pollID) in
  modify (λ s, s <| voteDirections ::= <[voteStoreKey pollID ballotID := record]> |>) ;;
  modify (λ s, s <| voterRegistry ::= <[registry_key pollID identityHash := mkVoterRecord identityHash]> |>) ;;
  update_poll pollID (λ p, p <| Poll_IDVCastCount ::= int64_inc |>) ;;
  set_dirty ;;
  let accepted := mkEvent "submission_accepted" [("scoping_id", pollID, true); ("status", "accepted", false)] in
  s ← gets id;
  if bool_decide (attestationMode s = "rolling") && (0 <? rollingThreshold s) then
    let count := int64_inc (default 0 (submissionCounts s !! pollID)) in
    modify (λ s, s <| submissionCounts ::= <[pollID := count]> |>) ;;
    if rollingThreshold s <=? count then
      modify (λ s, s <| submissionCounts ::= <[pollID := 0]> |>) ;;
      r ← try (commitRollingAttestation now pollID);
      match r with
      | Ok cpEvents => mret (accepted :: cpEvents)
      | _ => mret [accepted]
      end
    else mret [accepted]
  else mret [accepted].

(** [validateBallotUpdate]. *)
Definition validateBallotUpdate (now : Z) (transaction : Tx) : M State unit :=
  data ← or_fail (UnmarshalData (A := BallotUpdateData) transaction) (bad_json "invalid ballot update data: %w");
  let pollID := BallotUpdateData_PollID data in
  wrap_err (λ e, Errorf "new_ballot_nonce: %w" [FErr e]) (ValidateNonce (BallotUpdateData_NewBallotNonce data)) ;;
  window ← gets beaconWindow;
  wrap_err (λ e, Errorf "beacon: %w" [FErr e])
    (ValidateBeacon (BallotUpdateData_BeaconBlockHash data) (BallotUpdateData_BeaconBlockHeight data) window) ;;
  pub ← decode_pubkey device_key_error (BallotUpdateData_VoterPubKey data);
  fail_if (negb (ed25519_Verify pub
                   (ballotUpdateDeviceSigMessage (BallotUpdateData_NewBallotNonce data) pollID)
                   (bytes_of (BallotUpdateData_VoterSig data))))
    (Errorf "voter device signature invalid for ballot update on poll %s" [FStr pollID]) ;;
  v ← gets verifier;
  idv ← or_fail v (Errorf "no identity verifier configured for this deployment" []);
  identityHash ← or_fail (VerifyAndIdentifyUpdate idv data)
    (Errorf "identity verification failed for ballot update: %w" [FErr verifier_error]);
  s ← gets id;
  poll ← or_fail (polls s !! pollID) (poll_missing pollID);
  check_open now poll ;;
  fail_if (negb (has (voteDirections s) (voteStoreKey pollID (BallotUpdateData_OldBallotID data))))
    (Errorf "old_ballot_id %s not found — cannot update a ballot that was not cast"
       [FStr (BallotUpdateData_OldBallotID data)]) ;;
  fail_if (negb (has (voterRegistry s) (registry_key pollID identityHash)))
    (Errorf "voter is not registered for poll %s — cannot update an uncast ballot" [FStr pollID]) ;;
  if 0 <? len (BallotUpdateData_NewChoices data)
  then validateChoices poll (BallotUpdateData_NewChoices data) else mret tt.

(** [executeBallotUpdate]: no new choices is a bilateral withdrawal, otherwise the
    List 1 entry is replaced. *)
Definition executeBallotUpdate (transaction : Tx) : M State (list Event) :=
  data ← or_fail (UnmarshalData (A := BallotUpdateData) transaction) (bad_json "invalid ballot update data: %w");
  let pollID := BallotUpdateData_PollID data in
  let oldKey := voteStoreKey pollID (BallotUpdateData_OldBallotID data) in
  v ← gets verifier;
  idv ← or_panic v;
  identityHash ← or_fail (VerifyAndIdentifyUpdate idv data)
    (Errorf "identity re-derivation failed: %w" [FErr verifier_error]);
  set_dirty ;;
  if len (BallotUpdateData_NewChoices data) =? 0 then
    let registryKey := registry_key pollID identityHash in
    modify (λ s, s <| voteDirections ::= delete oldKey |>) ;;
    modify (λ s, s <| voterRegistry ::= delete registryKey |>) ;;
    modify (λ s, s <| confirms ::= delete registryKey |>) ;;
    modify (λ s, s <| tallies ::= alter (λ t, t <| Tally_ConfirmedCount := confirmedCountForPoll s pollID |>) pollID |>) ;;
    mret [mkEvent "ballot_withdrawn"
      [("scoping_id", pollID, true);
       ("old_ballot_id", BallotUpdateData_OldBallotID data, true);
       ("timestamp", fmt_d (BallotUpdateData_Timestamp data), false)]]
  else
    let newBallotID := deriveBallotIDWithBeacon (BallotUpdateData_BeaconBlockHash data)
      (BallotUpdateData_NewBallotNonce data) (BallotUpdateData_NewChoices data)
      (BallotUpdateData_SubmissionIdentifierDerivation data) in
    modify (λ s, s <| voteDirections ::= delete oldKey |>) ;;
    modify (λ s, s <| voteDirections ::= <[voteStoreKey pollID newBallotID :=
      mkVoteRecord newBallotID (BallotUpdateData_NewChoices data) "" false ""]> |>) ;;
    mret [mkEvent "ballot_updated"
      [("scoping_id", pollID, true);
       ("old_ballot_id", BallotUpdateData_OldBallotID data, true);
       ("new_ballot_id", newBallotID, true);
       ("choices", str_join (elems (BallotUpdateData_NewChoices data)) ",", false);
       ("timestamp", fmt_d (BallotUpdateData_Timestamp data), false)]].
End ballots.

(** [s'] differs from [s] at most in the attestation bookkeeping. *)
Definition same_but_attestation (s s' : State) : Prop :=
  ∃ counts cps d, s' = s <| submissionCounts := counts |> <| checkpoints := cps |> <| dirty := d |>.
Lemma sba_refl s : same_but_attestation s s.
Proof. exists (submissionCounts s), (checkpoints s), (dirty s). by destruct s. Qed.
Lemma sba_trans s1 s2 s3 :
  same_but_attestation s1 s2 → same_but_attestation s2 s3 → same_but_attestation s1 s3.
Proof. intros (?&?&?&->) (c&k&d&->). by exists c, k, d. Qed.
Lemma sba_counts s f : same_but_attestation s (s <| submissionCounts ::= f |>).
Proof. exists (f (submissionCounts s)), (checkpoints s), (dirty s). by destruct s. Qed.
Lemma sba_checkpoints s cps : same_but_attestation s (s <| checkpoints := cps |>).
Proof. exists (submissionCounts s), cps, (dirty s). by destruct s. Qed.
Lemma sba_dirty s d : same_but_attestation s (s <| dirty := d |>).
Proof. exists (submissionCounts s), (checkpoints s), d. by destruct s. Qed.

Section facts.
Context `{C : Crypto}.

(** A rolling attestation moves only the checkpoints and the dirty flag. *)
Lemma commitRollingAttestation_frame now pollID s r s' :
  commitRollingAttestation now pollID s = (r, s') →
  same_but_attestation s s' ∧ (dirty s = true → dirty s' = true) ∧
  (is_Some (polls s !! pollID) → r ≠ Panic).
Proof.
  unfold commitRollingAttestation. mrun. unfold id. destruct (polls s !! pollID) as [poll|] eqn:Hp; mrun.
  2: { intros [= <- <-]. split_and!; [apply sba_refl|done|by intros [? [=]]]. }
  destruct (collectPollLists _ _ _ _) as [[ids hs] cs]. mrun.
  destruct (negb _).
  { intros [= <- <-]. split_and!; [apply sba_refl|done|done]. }
  destruct (signTallyPayload _ _ _ _ _) as [sig deg]. unfold set_dirty. mrun.
  intros [= <- <-]. split_and!; [|done|done].
  eapply sba_trans; [apply sba_checkpoints|apply sba_dirty].
Qed.

Lemma commitRollingAttestation_counts now pollID s r s' :
  commitRollingAttestation now pollID s = (r, s') → submissionCounts s' = submissionCounts s.
Proof.
  unfold commitRollingAttestation. mrun. unfold id. destruct (polls s !! pollID) as [poll|]; mrun; [|congruence].
  destruct (collectPollLists _ _ _ _) as [[ids hs] cs]. mrun. destruct (negb _); [congruence|].
  destruct (signTallyPayload _ _ _ _ _). unfold set_dirty. mrun. by intros [= <- <-].
Qed.
(** It succeeds exactly when the counted part of List 1 is as large as List 2. *)
Lemma commitRollingAttestation_ok now pollID s :
  is_Some (polls s !! pollID) → L1_counted s pollID = L2_total s pollID →
  res_ok (commitRollingAttestation now pollID s).1 = true.
Proof.
  intros [poll Hp] Heq. unfold commitRollingAttestation. mrun. unfold id. rewrite Hp. mrun.
  pose proof (collect_ballots_length s pollID (effective_method (Poll_VotingMethod poll)) (elems (Poll_Options poll))) as HL1.
  pose proof (collect_voters_length s pollID (effective_method (Poll_VotingMethod poll)) (elems (Poll_Options poll))) as HL2.
  destruct (collectPollLists _ _ _ _) as [[ids hs] cs]. cbn in HL1, HL2. rewrite HL1, HL2, Heq. mrun.
  rewrite Z.eqb_refl. cbn. destruct (signTallyPayload _ _ _ _ _). done.
Qed.

Lemma check_open_ok now poll (s s' : State) u :
  check_open now poll s = (Ok u, s') →
  s' = s ∧ Poll_StartTime poll ≤ now < Poll_EndTime poll ∧ Poll_Status poll ≠ "closed".
Proof. unfold check_open. intros H. minv H. bools. split_and!; [done|lia|lia|done]. Qed.

Lemma check_choices_ok options seen l (s s' : State) u :
  check_choices options seen l s = (Ok u, s') →
  s' = s ∧ NoDup l ∧ ∀ c, c ∈ l → c ∈ options ∧ c ∉ seen.
Proof.
  revert seen. induction l as [|c l IH]; intros seen H; cbn in H.
  { injection H as _ <-. split_and!; [done|constructor|]. by intros ? ?%elem_of_nil. }
  minv H. bools. select (check_choices _ _ _ _ = _) (fun H => apply IH in H as (-> & Hnd & Hall)).
  split_and!; [done| |].
  - apply NoDup_cons. split; [|done]. intros Hin. destruct (Hall _ Hin) as [_ []]. by left.
  - intros c' [->|Hc']%elem_of_cons; [done|]. destruct (Hall _ Hc') as [? Hn].
    split; [done|]. intros ?. apply Hn. by right.
Qed.
(** What accepted choices are. *)
Definition choices_valid (poll : Poll) (choices : slice string) : Prop :=
  elems choices ≠ [] ∧ NoDup (elems choices) ∧ (∀ c, c ∈ elems choices → c ∈ elems (Poll_Options poll)) ∧
  (effective_method (Poll_VotingMethod poll) = VotingMethodPlurality → length (elems choices) = 1%nat).
Lemma validateChoices_ok poll choices (s s' : State) u :
  validateChoices poll choices s = (Ok u, s') → s' = s ∧ choices_valid poll choices.
Proof.
  unfold validateChoices, len. intros H. minv H. bools.
  select (check_choices _ _ _ _ = _) (fun H => apply check_choices_ok in H; destruct H as (-> & ? & ?)).
  split; [done|]. split_and!; [|done|naive_solver|].
  - intros E. rewrite E in *. done.
  - intros Hm. rewrite (bool_decide_true _ Hm) in *. cbn in *. bools. lia.
Qed.
Lemma decode_pubkey_ok e hexkey (s s' : State) pub :
  decode_pubkey e hexkey s = (Ok pub, s') →
  s' = s ∧ hex_DecodeString hexkey = Some pub ∧ String.length pub = 32%nat.
Proof.
  unfold decode_pubkey. intros H. minv H. split_and!; [done|done|].
  bools. unfold slen, PublicKeySize in *. lia.
Qed.
End facts.

(** The state a cast leaves behind, apart from attestation bookkeeping. *)
Definition cast_state `{Crypto} (data : BallotCastData) (identityHash : string) (s : State) : State :=
  let pollID := BallotCastData_PollID data in
  s <| voteDirections ::= <[voteStoreKey pollID (cast_ballotID data) :=
         mkVoteRecord (cast_ballotID data) (BallotCastData_Choices data) (BallotCastData_PartitionID data) false
           (migrationAuthHash (BallotCastData_VoterPubKey data) pollID)]> |>
    <| voterRegistry ::= <[registry_key pollID identityHash := mkVoterRecord identityHash]> |>
    <| polls ::= alter (λ p, p <| Poll_IDVCastCount ::= int64_inc |>) pollID |>.

Section cast_facts.
Context `{C : Crypto}.

Lemma executeBallotCast_run (now : Z) (t : Tx) (data : BallotCastData) (s : State) idv identityHash :
  UnmarshalData t = Some data → verifier s = Some idv →
  VerifyAndIdentify idv data = Some identityHash → is_Some (polls s !! BallotCastData_PollID data) →
  ∃ evs s', executeBallotCast now t s = (Ok evs, s') ∧
    same_but_attestation (cast_state data identityHash s) s' ∧ dirty s' = true.
Proof.
  intros Hd Hv Hi [poll Hp]. unfold executeBallotCast. rewrite Hd. mrun. rewrite Hv. mrun.
  rewrite Hi. mrun. unfold update_poll, set_dirty. mrun. unfold id. cbv zeta.
  set (s1 := field_set _ (field_set _ (field_set _ (field_set _ s)))).
  assert (is_Some (polls s1 !! BallotCastData_PollID data)) as Hp1.
  { subst s1. unfold field_set. cbn [polls]. rewrite lookup_alter_eq, Hp. eauto. }
  assert (same_but_attestation (cast_state data identityHash s) s1) as Hs by apply sba_dirty.
  assert (dirty s1 = true) as Hd1 by done.
  clearbody s1. destruct (bool_decide _ && _); mrun; [|by eauto].
  destruct (_ <=? _); mrun.
  2: { eexists _, _. split; [done|]. split; [|done]. eapply sba_trans, sba_counts. done. }
  unfold try. mrun. set (s2 := field_set _ (field_set _ s1)).
  assert (same_but_attestation s1 s2) as Hs2 by (eapply sba_trans; apply sba_counts).
  assert (polls s2 = polls s1 ∧ dirty s2 = true) as [Hp2 Hd2] by done. clearbody s2.
  destruct (commitRollingAttestation now (BallotCastData_PollID data) s2) as [r s3] eqn:Hc.
  apply commitRollingAttestation_frame in Hc as (Hs3 & Hd3 & Hnp). rewrite Hp2 in Hnp.
  specialize (Hd3 Hd2). assert (same_but_attestation (cast_state data identityHash s) s3) as Hs'.
  { eapply sba_trans, Hs3. by eapply sba_trans. }
  destruct r; mrun; [by eauto..|by destruct Hnp].
Qed.
End cast_facts.

(** The poll of the state with the given one opened. *)
Definition opened (pollID : string) (s : State) : State :=
  s <| polls ::= alter (λ p, p <| Poll_Status := "open" |>) pollID |>.

Section cast_properties.
Context `{C : Crypto}.

Lemma open_poll_ok poll pollID (s s' : State) u :
  (if bool_decide (Poll_Status poll = "pending")
   then update_poll pollID (λ p, p <| Poll_Status := "open" |>) else mret tt) s = (Ok u, s') →
  s' = if decide (Poll_Status poll = "pending") then opened pollID s else s.
Proof. rewrite bool_decide_decide. case_decide; by intros [= _ <-]. Qed.

Lemma cast_counts data h s s' :
  same_but_attestation (cast_state data h s) s' →
  let pollID := BallotCastData_PollID data in
  L1_total s' pollID = (L1_total s pollID +
    if has (voteDirections s) (voteStoreKey pollID (cast_ballotID data)) then 0 else 1)%nat ∧
  L2_total s' pollID = (L2_total s pollID +
    if has (voterRegistry s) (registry_key pollID h) then 0 else 1)%nat.
Proof.
  intros (c & k & d & ->) pollID. unfold L1_total, L2_total, cast_state. fields. fold pollID. autorewrite with count. by destruct (has _ _), (has _ _).
Qed.

(** The facts the guards of a cast establish. *)
Lemma validateBallotCast_facts (now : Z) (t : Tx) (s s' : State) :
  validateBallotCast now t s = (Ok tt, s') →
  ∃ (data : BallotCastData) (poll : Poll) (pub : string) (idv : IdentityVerifier) (h : string),
    UnmarshalData t = Some data ∧
    let pollID := BallotCastData_PollID data in
    ValidateNonce (BallotCastData_BallotNonce data) s = (Ok tt, s) ∧
    ValidateBeacon (BallotCastData_BeaconBlockHash data) (BallotCastData_BeaconBlockHeight data)
      (beaconWindow s) s = (Ok tt, s) ∧
    hex_DecodeString (BallotCastData_VoterPubKey data) = Some pub ∧ String.length pub = 32%nat ∧
    ed25519_Verify pub (BallotCastData_BallotNonce data +:+ ":" +:+ pollID)
      (bytes_of (BallotCastData_VoterSig data)) = true ∧
    polls s !! pollID = Some poll ∧ Poll_StartTime poll ≤ now < Poll_EndTime poll ∧
    Poll_Status poll ≠ "closed" ∧ choices_valid poll (BallotCastData_Choices data) ∧
    verifier s = Some idv ∧ VerifyAndIdentify idv data = Some h ∧
    (voterRegistry s !! registry_key pollID h = None ∨ is_Some (restores s !! registry_key pollID h)) ∧
    s' = if decide (Poll_Status poll = "pending") then opened pollID s else s.
Proof.
  unfold validateBallotCast. intros H. minv H.
  select (ValidateNonce _ _ = _) (fun H => pose proof (ValidateNonce_pure _ _ _ _ H); subst).
  select (ValidateBeacon _ _ _ _ = _) (fun H => pose proof (ValidateBeacon_pure _ _ _ _ _ _ H); subst).
  select (decode_pubkey _ _ _ = _) (fun H => apply decode_pubkey_ok in H as (-> & ? & ?)).
  select (check_open _ _ _ = _) (fun H => apply check_open_ok in H as (-> & ? & ?)).
  select (validateChoices _ _ _ = _) (fun H => apply validateChoices_ok in H as [-> ?]).
  select unit (fun u => destruct u).
  eexists _, _, _, _, _. split; [done|]. cbn zeta. unfold id in *.
  match goal with H : (if _ then update_poll _ _ else mret tt) _ = _, H' : Poll_StartTime ?p ≤ _ < _ |- _ =>
    rewrite (proj2 (Z.leb_le (Poll_StartTime p) now)), andb_true_r in H by lia;
    apply open_poll_ok in H; subst s11 end.
  repeat select unit (fun u => destruct u).
  split_and!; try (done || lia).
  - by select (negb (ed25519_Verify _ _ _) = false) (fun H => apply negb_false_iff in H).
  - select (has _ _ && _ = false) (fun H => rename H into Hdup).
    apply andb_false_iff in Hdup as [Hdup|Hdup]; [left|right].
    + apply has_false in Hdup. by case_decide.
    + apply negb_false_iff, has_true in Hdup. by case_decide.
Qed.

(** C8. What an accepted ballot cast guarantees: a well-formed fresh nonce and beacon,
    the device's signature over "nonce:poll", an open poll inside its window,
    valid choices, a verified identity that has no ballot in the poll or holds a
    restore grant.  The only write is opening a pending poll. *)
Theorem validateBallotCast_sound (now : Z) (t : Tx) (s s' : State) :
  validateBallotCast now t s = (Ok tt, s') →
  ∃ (data : BallotCastData) (poll : Poll) (pub : string) (idv : IdentityVerifier) (h : string),
    UnmarshalData t = Some data ∧
    let pollID := BallotCastData_PollID data in
    ValidateNonce (BallotCastData_BallotNonce data) s = (Ok tt, s) ∧
    ValidateBeacon (BallotCastData_BeaconBlockHash data) (BallotCastData_BeaconBlockHeight data)
      (beaconWindow s) s = (Ok tt, s) ∧
    hex_DecodeString (BallotCastData_VoterPubKey data) = Some pub ∧ String.length pub = 32%nat ∧
    ed25519_Verify pub (BallotCastData_BallotNonce data +:+ ":" +:+ pollID)
      (bytes_of (BallotCastData_VoterSig data)) = true ∧
    polls s !! pollID = Some poll ∧ Poll_StartTime poll ≤ now < Poll_EndTime poll ∧
    Poll_Status poll ≠ "closed" ∧ choices_valid poll (BallotCastData_Choices data) ∧
    verifier s = Some idv ∧ VerifyAndIdentify idv data = Some h ∧
    (voterRegistry s !! registry_key pollID h = None ∨ is_Some (restores s !! registry_key pollID h)) ∧
    s' = if decide (Poll_Status poll = "pending") then opened pollID s else s.
Proof. apply validateBallotCast_facts. Qed.

(** C7. The effect of a cast: one anonymous record in List 1 under the derived
    identifier, without the identity, and one identity record in List 2, without
    the choices.  List 1 grows exactly when the identifier is new in the poll and
    List 2 exactly when the participant is, so the two stay equal in size when
    both are. *)
Theorem executeBallotCast_spec (now : Z) (t : Tx) (data : BallotCastData) (s : State)
    (idv : IdentityVerifier) (h : string) :
  UnmarshalData t = Some data → verifier s = Some idv → VerifyAndIdentify idv data = Some h →
  is_Some (polls s !! BallotCastData_PollID data) →
  let pollID := BallotCastData_PollID data in
  let ballotID := cast_ballotID data in
  ∃ evs s', executeBallotCast now t s = (Ok evs, s') ∧ dirty s' = true ∧
    voteDirections s' = <[voteStoreKey pollID ballotID :=
      mkVoteRecord ballotID (BallotCastData_Choices data) (BallotCastData_PartitionID data) false
        (migrationAuthHash (BallotCastData_VoterPubKey data) pollID)]> (voteDirections s) ∧
    voterRegistry s' = <[registry_key pollID h := mkVoterRecord h]> (voterRegistry s) ∧
    L1_total s' pollID =
      (L1_total s pollID + if has (voteDirections s) (voteStoreKey pollID ballotID) then 0 else 1)%nat ∧
    L2_total s' pollID =
      (L2_total s pollID + if has (voterRegistry s) (registry_key pollID h) then 0 else 1)%nat.
Proof.
  intros Hd Hv Hi Hp pollID ballotID.
  destruct (executeBallotCast_run now t data s idv h Hd Hv Hi Hp) as (evs & s' & Hr & Hs & Hdirty).
  pose proof (cast_counts _ _ _ _ Hs) as [H1 H2]. exists evs, s'.
  destruct Hs as (c & k & d & ->). split_and!; try done; unfold cast_state; by fields.
Qed.

(** Reuse of a ballot identifier: a validated cast of a new participant whose
    identifier is already in List 1 replaces the record of the other participant,
    and List 2 becomes one larger than List 1. *)
Theorem cast_identifier_reuse (now : Z) (t : Tx) (data : BallotCastData) (s : State)
    (idv : IdentityVerifier) (h : string) (v : VoteRecord) :
  UnmarshalData t = Some data → verifier s = Some idv → VerifyAndIdentify idv data = Some h →
  is_Some (polls s !! BallotCastData_PollID data) →
  let pollID := BallotCastData_PollID data in
  let key := voteStoreKey pollID (cast_ballotID data) in
  voteDirections s !! key = Some v → voterRegistry s !! registry_key pollID h = None →
  L1_total s pollID = L2_total s pollID →
  ∃ evs s', executeBallotCast now t s = (Ok evs, s') ∧
    VoteRecord_Choices <$> voteDirections s' !! key = Some (BallotCastData_Choices data) ∧
    L2_total s' pollID = S (L1_total s' pollID).
Proof.
  intros Hd Hv Hi Hp pollID key Hk Hr Heq.
  destruct (executeBallotCast_run now t data s idv h Hd Hv Hi Hp) as (evs & s' & Hrun & Hs & _).
  pose proof (cast_counts _ _ _ _ Hs) as [H1 H2]. exists evs, s'. split_and!; [done| |].
  - destruct Hs as (c & k & d & ->). unfold cast_state. fields. fold pollID key. by rewrite lookup_insert_eq.
  - fold pollID in H1, H2. fold key in H1. apply has_false in Hr. rewrite Hr in H2.
    assert (has (voteDirections s) key = true) as E by (apply has_true; eauto). rewrite E in H1. lia.
Qed.
End cast_properties.

Section update_properties.
Context `{C : Crypto}.

(** What the guards of an update establish. *)
Lemma validateBallotUpdate_ok now t (s s' : State) u :
  validateBallotUpdate now t s = (Ok u, s') →
  s' = s ∧ ∃ data idv h poll, UnmarshalData t = Some data ∧ verifier s = Some idv ∧
    VerifyAndIdentifyUpdate idv data = Some h ∧ polls s !! BallotUpdateData_PollID data = Some poll ∧
    Poll_StartTime poll ≤ now < Poll_EndTime poll ∧ Poll_Status poll ≠ "closed" ∧
    has (voteDirections s) (voteStoreKey (BallotUpdateData_PollID data) (BallotUpdateData_OldBallotID data)) = true ∧
    has (voterRegistry s) (registry_key (BallotUpdateData_PollID data) h) = true ∧
    (0 < len (BallotUpdateData_NewChoices data) → choices_valid poll (BallotUpdateData_NewChoices data)).
Proof.
  unfold validateBallotUpdate. intros H. minv H.
  select (ValidateNonce _ _ = _) (fun H => pose proof (ValidateNonce_pure _ _ _ _ H); subst).
  select (ValidateBeacon _ _ _ _ = _) (fun H => pose proof (ValidateBeacon_pure _ _ _ _ _ _ H); subst).
  select (decode_pubkey _ _ _ = _) (fun H => apply decode_pubkey_ok in H as (-> & ? & ?)).
  select (check_open _ _ _ = _) (fun H => apply check_open_ok in H as (-> & ? & ?)).
  unfold id in *. bools.
  match goal with H : (if _ then validateChoices _ _ else _) _ = _ |- _ => rename H into Hc end.
  destruct (Z.ltb_spec 0 (len (BallotUpdateData_NewChoices a))) as [Hl|Hl].
  - apply validateChoices_ok in Hc as [-> ?]. split; [done|]. eexists _, _, _, _. split_and!; try (done || lia).
  - injection Hc as _ <-. split; [done|]. eexists _, _, _, _. split_and!; try (done || lia).
Qed.

(** The identifier a direction change writes. *)
Definition update_ballotID (data : BallotUpdateData) : string :=
  deriveBallotIDWithBeacon (BallotUpdateData_BeaconBlockHash data) (BallotUpdateData_NewBallotNonce data)
    (BallotUpdateData_NewChoices data) (BallotUpdateData_SubmissionIdentifierDerivation data).
Lemma executeBallotUpdate_run t (s : State) data idv h :
  UnmarshalData t = Some data → verifier s = Some idv → VerifyAndIdentifyUpdate idv data = Some h →
  let pollID := BallotUpdateData_PollID data in
  let oldKey := voteStoreKey pollID (BallotUpdateData_OldBallotID data) in
  ∃ evs s', executeBallotUpdate t s = (Ok evs, s') ∧
    if decide (elems (BallotUpdateData_NewChoices data) = []) then
      voteDirections s' = delete oldKey (voteDirections s) ∧
      voterRegistry s' = delete (registry_key pollID h) (voterRegistry s) ∧
      confirms s' = delete (registry_key pollID h) (confirms s)
    else
      voteDirections s' = <[voteStoreKey pollID (update_ballotID data) :=
        mkVoteRecord (update_ballotID data) (BallotUpdateData_NewChoices data) "" false ""]>
          (delete oldKey (voteDirections s)) ∧
      voterRegistry s' = voterRegistry s.
Proof.
  intros Hd Hv Hi pollID oldKey. unfold executeBallotUpdate. rewrite Hd. mrun. rewrite Hv. mrun.
  rewrite Hi. mrun. unfold set_dirty. mrun. unfold len.
  destruct (elems (BallotUpdateData_NewChoices data)) as [|c l] eqn:E; cbn [length Z.of_nat Z.eqb]; mrun.
  - eexists _, _. split; [done|]. rewrite decide_True by done. by fields.
  - eexists _, _. split; [done|]. rewrite decide_False by done. by fields.
Qed.

(** C11. An accepted update always executes.  A withdrawal takes one record off each
    list, so it keeps them equal in size; a direction change leaves List 2 alone
    and replaces one record of List 1, which keeps its size unless the new
    identifier already belongs to another ballot. *)
Theorem accepted_update_counts (now : Z) (t : Tx) (s s1 : State) :
  validateBallotUpdate now t s = (Ok tt, s1) →
  s1 = s ∧ ∃ (data : BallotUpdateData) (h : string) (evs : list Event) (s' : State), UnmarshalData t = Some data ∧
    let pollID := BallotUpdateData_PollID data in
    let oldKey := voteStoreKey pollID (BallotUpdateData_OldBallotID data) in
    let newID := update_ballotID data in
    executeBallotUpdate t s = (Ok evs, s') ∧
    if decide (elems (BallotUpdateData_NewChoices data) = []) then
      voteDirections s' = delete oldKey (voteDirections s) ∧
      voterRegistry s' = delete (registry_key pollID h) (voterRegistry s) ∧
      confirms s' = delete (registry_key pollID h) (confirms s) ∧
      (L1_total s' pollID + 1 = L1_total s pollID)%nat ∧ (L2_total s' pollID + 1 = L2_total s pollID)%nat
    else
      voteDirections s' = <[voteStoreKey pollID newID :=
        mkVoteRecord newID (BallotUpdateData_NewChoices data) "" false ""]> (delete oldKey (voteDirections s)) ∧
      voterRegistry s' = voterRegistry s ∧
      (L1_total s' pollID + (if has (delete oldKey (voteDirections s)) (voteStoreKey pollID newID)
                             then 1 else 0) = L1_total s pollID)%nat ∧
      L2_total s' pollID = L2_total s pollID.
Proof.
  intros H. apply validateBallotUpdate_ok in H as (-> & data & idv & h & poll & Hd & Hv & Hi & Hp & _ & _ & Ho & Hr & _).
  split; [done|].
  destruct (executeBallotUpdate_run t s data idv h Hd Hv Hi) as (evs & s' & Hrun & Hl).
  exists data, h, evs, s'. split; [done|]. cbv zeta. split; [done|]. unfold L1_total, L2_total.
  pose proof (count_in_poll_delete (BallotUpdateData_PollID data) (voteDirections s)
    (voteStoreKey (BallotUpdateData_PollID data) (BallotUpdateData_OldBallotID data))) as C1.
  pose proof (count_in_poll_delete (BallotUpdateData_PollID data) (voterRegistry s)
    (registry_key (BallotUpdateData_PollID data) h)) as C2.
  rewrite prefix_voteStoreKey, Ho in C1. rewrite prefix_registry_key, Hr in C2.
  case_decide; [destruct Hl as (E1 & E2 & E3)|destruct Hl as (E1 & E2)]; rewrite E1, E2; split_and!; try done.
  rewrite count_in_poll_insert, in_poll_voteStoreKey.
  by destruct (has (delete _ _) _); cbn [andb negb] in *; lia.
Qed.

(** An update is not bound to the ballot's owner: two update transactions that
    differ only in the List 1 record they name, both records existing, are
    accepted alike. *)
Theorem update_ignores_ballot_owner (now : Z) (t t' : Tx) (data : BallotUpdateData) (b : string)
    (s : State) (idv : IdentityVerifier) :
  UnmarshalData t = Some data → UnmarshalData t' = Some (data <| BallotUpdateData_OldBallotID := b |>) →
  verifier s = Some idv →
  VerifyAndIdentifyUpdate idv (data <| BallotUpdateData_OldBallotID := b |>) = VerifyAndIdentifyUpdate idv data →
  is_Some (voteDirections s !! voteStoreKey (BallotUpdateData_PollID data) (BallotUpdateData_OldBallotID data)) →
  is_Some (voteDirections s !! voteStoreKey (BallotUpdateData_PollID data) b) →
  validateBallotUpdate now t s = validateBallotUpdate now t' s.
Proof.
  intros Hd Hd' Hv Hi Ho%has_true Hb%has_true. unfold validateBallotUpdate. rewrite Hd, Hd'. mrun.
  set (d2 := data <| BallotUpdateData_OldBallotID := b |>) in *.
  change (BallotUpdateData_PollID d2) with (BallotUpdateData_PollID data).
  change (BallotUpdateData_NewBallotNonce d2) with (BallotUpdateData_NewBallotNonce data).
  change (BallotUpdateData_BeaconBlockHash d2) with (BallotUpdateData_BeaconBlockHash data).
  change (BallotUpdateData_BeaconBlockHeight d2) with (BallotUpdateData_BeaconBlockHeight data).
  change (BallotUpdateData_VoterPubKey d2) with (BallotUpdateData_VoterPubKey data).
  change (BallotUpdateData_VoterSig d2) with (BallotUpdateData_VoterSig data).
  change (BallotUpdateData_NewChoices d2) with (BallotUpdateData_NewChoices data).
  change (BallotUpdateData_OldBallotID d2) with b. clearbody d2.
  apply bind_ext. intros ? ? ->%wrap_err_ok%ValidateNonce_pure. mrun.
  apply bind_ext. intros ? ? ->%wrap_err_ok%ValidateBeacon_pure.
  apply bind_ext. intros pub ? (-> & _ & _)%decode_pubkey_ok.
  apply bind_ext. intros ? ? [_ ->]%fail_if_ok. mrun. rewrite Hv. mrun. rewrite Hi.
  destruct (VerifyAndIdentifyUpdate idv data) as [h|]; mrun; [|done]. unfold id.
  destruct (polls s !! BallotUpdateData_PollID data) as [poll|]; mrun; [|done].
  apply bind_ext. intros ? ? (-> & _)%check_open_ok. by rewrite Ho, Hb.
Qed.
End update_properties.

Section acceptance.
Context `{C : Crypto}.

Lemma check_choices_run options seen l (s : State) :
  NoDup l → (∀ c, c ∈ l → c ∈ options ∧ c ∉ seen) → check_choices options seen l s = (Ok tt, s).
Proof.
  revert seen. induction l as [|c l IH]; intros seen Hnd Hall; cbn [check_choices]; [done|].
  apply NoDup_cons in Hnd as [Hc Hnd]. destruct (Hall c) as [Ho Hs]; [by left|].
  rewrite (bool_decide_true _ Ho), (bool_decide_false _ Hs). cbn [negb]. mrun. apply IH; [done|].
  intros c' Hc'. destruct (Hall c') as [? ?]; [by right|]. split; [done|].
  intros [->|]%elem_of_cons; done.
Qed.
Lemma validateChoices_run poll choices (s : State) :
  choices_valid poll choices → validateChoices poll choices s = (Ok tt, s).
Proof.
  intros (Hne & Hnd & Hin & Hpl). unfold validateChoices, len. mrun.
  destruct (Z.eqb_spec (Z.of_nat (length (elems choices))) 0) as [E|E]; [by destruct (elems choices)|].
  cbn beta iota. mrun. rewrite check_choices_run; [|done|intros c Hc; split; [auto|by apply not_elem_of_nil]]. mrun.
  case_bool_decide as Hm; [|done]. by rewrite (Hpl Hm).
Qed.

(** The guards are complete: these conditions are enough to be accepted. *)
Lemma validateBallotCast_accepts now t (s : State) data poll pub idv h :
  UnmarshalData t = Some data →
  let pollID := BallotCastData_PollID data in
  ValidateNonce (BallotCastData_BallotNonce data) s = (Ok tt, s) →
  ValidateBeacon (BallotCastData_BeaconBlockHash data) (BallotCastData_BeaconBlockHeight data)
    (beaconWindow s) s = (Ok tt, s) →
  hex_DecodeString (BallotCastData_VoterPubKey data) = Some pub → String.length pub = 32%nat →
  ed25519_Verify pub (BallotCastData_BallotNonce data +:+ ":" +:+ pollID)
    (bytes_of (BallotCastData_VoterSig data)) = true →
  polls s !! pollID = Some poll → Poll_StartTime poll ≤ now < Poll_EndTime poll →
  Poll_Status poll ≠ "closed" → choices_valid poll (BallotCastData_Choices data) →
  verifier s = Some idv → VerifyAndIdentify idv data = Some h →
  (voterRegistry s !! registry_key pollID h = None ∨ is_Some (restores s !! registry_key pollID h)) →
  validateBallotCast now t s =
    (Ok tt, if decide (Poll_Status poll = "pending") then opened pollID s else s).
Proof.
  intros Hd pollID Hn Hb Hk Hl Hsig Hp Hw Hst Hc Hv Hi Hr. unfold validateBallotCast. rewrite Hd. mrun.
  fold pollID. unfold wrap_err. rewrite Hn. mrun. rewrite Hb. mrun. unfold decode_pubkey. rewrite Hk. mrun.
  assert ((slen pub =? PublicKeySize) = true) as -> by (apply Z.eqb_eq; unfold slen, PublicKeySize; lia). cbn [negb].
  mrun. unfold voterDeviceSigMessage. rewrite Hsig. cbn [negb]. mrun. rewrite Hv. mrun. rewrite Hp. mrun.
  unfold check_open. mrun.
  rewrite (proj2 (Z.ltb_ge now (Poll_StartTime poll))), (proj2 (Z.leb_gt (Poll_EndTime poll) now)) by lia.
  rewrite (bool_decide_false _ Hst). mrun. rewrite (proj2 (Z.leb_le (Poll_StartTime poll) now)), andb_true_r by lia.
  set (s1 := if decide (Poll_Status poll = "pending") then opened pollID s else s).
  assert ((if bool_decide (Poll_Status poll = "pending")
    then update_poll pollID (λ p, p <| Poll_Status := "open" |>) else mret tt) s = (Ok tt, s1)) as ->.
  { subst s1. rewrite bool_decide_decide. by case_decide. }
  mrun. rewrite validateChoices_run by done. mrun. rewrite Hi. mrun. unfold id.
  assert (voterRegistry s1 = voterRegistry s ∧ restores s1 = restores s) as [E1 E2]
    by (subst s1; by case_decide).
  unfold HasRestoreGrant. rewrite E1, E2.
  destruct Hr as [->%has_false|Hg%has_true]; [done|]. by rewrite Hg, andb_false_r.
Qed.

(** A restore grant is not consumed: a participant who holds one and has a ballot
    in the poll is accepted exactly as if they had none, and the cast then makes
    List 1 one larger than List 2. *)
Theorem restore_grant_reusable (now now' : Z) (t : Tx) (data : BallotCastData) (s s1 : State)
    (idv : IdentityVerifier) (h : string) (g : RestoreRecord) (r : VoterRecord) :
  UnmarshalData t = Some data → verifier s = Some idv → VerifyAndIdentify idv data = Some h →
  let pollID := BallotCastData_PollID data in
  let key := registry_key pollID h in
  restores s !! key = Some g → voterRegistry s !! key = Some r →
  voteDirections s !! voteStoreKey pollID (cast_ballotID data) = None →
  L1_total s pollID = L2_total s pollID →
  validateBallotCast now t (s <| voterRegistry ::= delete key |>) = (Ok tt, s1) →
  ∃ s2 evs s3, validateBallotCast now t s = (Ok tt, s2) ∧
    executeBallotCast now' t s2 = (Ok evs, s3) ∧
    L1_total s3 pollID = S (L2_total s3 pollID).
Proof.
  intros Hd Hv Hi pollID key Hg Hr Hfresh Heq
    (data' & poll & pub & idv' & h' & Hd' & Hn & Hb & Hk & Hl & Hsig & Hp & Hw & Hst & Hc & Hv' & Hi' & _ & _)%validateBallotCast_facts.
  rewrite Hd in Hd'. injection Hd' as <-. fold pollID in Hsig, Hp.
  rewrite (validateBallotCast_accepts now t s data poll pub idv h); try done;
    [|by eapply ValidateNonce_any|by eapply ValidateBeacon_any|right; by exists g].
  set (s2 := if decide _ then _ else _).
  assert (is_Some (polls s2 !! pollID) ∧ verifier s2 = Some idv ∧ voteDirections s2 = voteDirections s ∧
    voterRegistry s2 = voterRegistry s) as (Hp2 & Hv2 & HV & HR).
  { subst s2. case_decide; [|by eauto]. unfold opened. fields. split_and!; try done.
    fold pollID. rewrite lookup_alter_eq. change (polls s !! pollID = Some poll) in Hp. rewrite Hp. eauto. }
  clearbody s2. destruct (executeBallotCast_run now' t data s2 idv h Hd Hv2 Hi Hp2) as (evs & s3 & Hrun & Hs & _).
  exists s2, evs, s3. split_and!; [done..|].
  apply cast_counts in Hs as [H1 H2]. fold pollID in H1, H2. rewrite H1, H2, HV, HR.
  rewrite (proj2 (has_false _ _) Hfresh), (proj2 (has_true _ _)) by (fold key; eauto).
  unfold L1_total, L2_total in *. rewrite HV, HR. lia.
Qed.
End acceptance.
