(* ===== verification/BatchFlush.v ===== *)
(** domain/state/batch_flush.go: materializing a batch of queued ballots. *)
From S2P Require Import Prelude GoStd Json Types TxData Nonce Identity Keys VotingState Merkle TxValidate Tallies.
From S2P Require Import Ballots.

Record batchCandidate := mkCandidate {
  cand_data : BallotCastData;
  cand_ballotID : string;
  cand_identityHash : string;
}.
(** [sort.Slice] by ballot identifier. *)
Definition cand_le (a b : batchCandidate) : Prop := str_le (cand_ballotID a) (cand_ballotID b).
#[export] Instance cand_le_dec : RelDecision cand_le.
Proof. intros a b. unfold cand_le. apply _. Defined.
Definition sort_candidates (l : list batchCandidate) : list batchCandidate := merge_sort cand_le l.

Section batch.
Context `{C : Crypto}.

(** The loop of [validateBatchFlush], with the identifiers and registry keys seen
    so far; each submission reads the clock once. *)
Fixpoint check_submissions (now : clock) (pollID : string) (i : nat)
    (seenBallotIDs seenRegistryKeys : list string) (subs : list Tx) : M State unit :=
  match subs with
  | [] => mret tt
  | sub :: rest =>
      let at_i format args := Errorf format (FInt (Z.of_nat i) :: args) in
      fail_if (negb (Tx_Type sub =? TxTypeBallotCast)) (at_i "batch flush submission %d must be ballot cast" []) ;;
      wrap_err (λ e, at_i "batch flush submission %d invalid: %w" [FErr e]) (validateBallotCast (now i) sub) ;;
      castData ← or_fail (UnmarshalData (A := BallotCastData) sub)
        (at_i "batch flush submission %d data invalid: %w" [FErr json_error]);
      fail_if (negb (bool_decide (BallotCastData_PollID castData = pollID)))
        (at_i "batch flush submission %d poll mismatch: %s != %s"
          [FStr (BallotCastData_PollID castData); FStr pollID]) ;;
      let ballotID := cast_ballotID castData in
      fail_if (bool_decide (ballotID ∈ seenBallotIDs))
        (Errorf "duplicate ballot nonce in batch for poll %s" [FStr pollID]) ;;
      v ← gets verifier;
      idv ← or_panic v;
      identityHash ← or_fail (VerifyAndIdentify idv castData)
        (at_i "batch flush submission %d identity verification failed: %w" [FErr verifier_error]);
      let registryKey := registry_key pollID identityHash in
      fail_if (bool_decide (registryKey ∈ seenRegistryKeys))
        (Errorf "duplicate participant identity in batch for poll %s" [FStr pollID]) ;;
      check_submissions now pollID (S i) (ballotID :: seenBallotIDs) (registryKey :: seenRegistryKeys) rest
  end.

Definition validateBatchFlush (now : clock) (transaction : Tx) : M State unit :=
  data ← or_fail (UnmarshalData (A := BatchFlushData) transaction) (bad_json "invalid batch flush data: %w");
  ps ← gets polls;
  poll ← or_fail (ps !! BatchFlushData_PollID data) (poll_missing (BatchFlushData_PollID data));
  fail_if (bool_decide (Poll_Status poll = "closed")) (ErrorInvalidPoll "poll is closed" []) ;;
  check_submissions now (BatchFlushData_PollID data) 0 [] [] (elems (BatchFlushData_Submissions data)).

(** Decoding the candidates. *)
Fixpoint collect_candidates (i : nat) (subs : list Tx) : M State (list batchCandidate) :=
  match subs with
  | [] => mret []
  | sub :: rest =>
      castData ← or_fail (UnmarshalData (A := BallotCastData) sub)
        (Errorf "batch flush submission %d data invalid: %w" [FInt (Z.of_nat i); FErr json_error]);
      v ← gets verifier;
      idv ← or_panic v;
      identityHash ← or_fail (VerifyAndIdentify idv castData)
        (Errorf "batch flush submission %d identity verification failed: %w" [FInt (Z.of_nat i); FErr verifier_error]);
      cs ← collect_candidates (S i) rest;
      mret (mkCandidate castData (cast_ballotID castData) identityHash :: cs)
  end.

(** One iteration of the materializing loop: both lists are written. *)
Definition candidate_record (c : batchCandidate) : VoteRecord :=
  mkVoteRecord (cand_ballotID c) (BallotCastData_Choices (cand_data c)) "" false
    (migrationAuthHash (BallotCastData_VoterPubKey (cand_data c)) (BallotCastData_PollID (cand_data c))).
Definition materialize (s : State) (c : batchCandidate) : State :=
  let pollID := BallotCastData_PollID (cand_data c) in
  s <| voteDirections ::= <[voteStoreKey pollID (cand_ballotID c) := candidate_record c]> |>
    <| voterRegistry ::= <[registry_key pollID (cand_identityHash c) := mkVoterRecord (cand_identityHash c)]> |>.

(** [for s.submissionCounts[id] >= s.rollingThreshold]: every round takes one
    threshold off the counter and commits a checkpoint; its first error returns.
    [None] of events is running out of fuel. *)
Fixpoint rolling_loop (fuel : nat) (now : clock) (pollID : string) : M State (list Event) :=
  s ← gets id;
  let count := default 0 (submissionCounts s !! pollID) in
  if rollingThreshold s <=? count then
    match fuel with
    | O => panicM
    | S f =>
        modify (λ s, s <| submissionCounts ::= <[pollID := int64_sub count (rollingThreshold s)]> |>) ;;
        cpEvents ← wrap_err (λ e, Errorf "rolling attestation failed for flushed batch: %w" [FErr e])
          (commitRollingAttestation (now fuel) pollID);
        rest ← rolling_loop f now pollID;
        mret (cpEvents ++ rest)
    end
  else mret [].

Definition computeBatchID (pollID : string) (ballotIDs : list string) : string :=
  hex_EncodeToString (sha256 (pollID +:+
    foldr (λ b s, String (ascii_of_N 0) b +:+ s) "" ballotIDs)).
Definition candidateBallotIDs (cs : list batchCandidate) : list string := cand_ballotID <$> cs.

(** The counter phase of [executeBatchFlush], after the candidates are written. *)
Definition flush_attest (now : clock) (pollID : string) (n : Z) : M State (list Event) :=
  s ← gets id;
  if bool_decide (attestationMode s = "rolling") && (0 <? rollingThreshold s) then
    modify (λ s, s <| submissionCounts ::=
      λ m, <[pollID := int64_add (default 0 (m !! pollID)) n]> m |>) ;;
    s ← gets id;
    rolling_loop (Z.to_nat (default 0 (submissionCounts s !! pollID))) now pollID
  else mret [].

Definition executeBatchFlush (now : clock) (transaction : Tx) : M State (list Event) :=
  data ← or_fail (UnmarshalData (A := BatchFlushData) transaction) (bad_json "invalid batch flush data: %w");
  let pollID := BatchFlushData_PollID data in
  unsorted ← collect_candidates 0 (elems (BatchFlushData_Submissions data));
  let candidates := sort_candidates unsorted in
  let n := Z.of_nat (length candidates) in
  modify (λ s, foldl materialize s candidates) ;;
  (if 0 <? n then update_poll pollID (λ p, p <| Poll_IDVCastCount ::= λ c, int64_add c n |>) else mret tt) ;;
  set_dirty ;;
  checkpointEvents ← flush_attest now pollID n;
  mret (mkEvent "submission_batch_flushed"
    [("scoping_id", pollID, true);
     ("batch_id", computeBatchID pollID (candidateBallotIDs candidates), true);
     ("submission_count", fmt_d n, false)] :: checkpointEvents).
End batch.

(** A submission and the candidate it decodes to. *)
Definition is_candidate `{Crypto} (idv : IdentityVerifier) (sub : Tx) (c : batchCandidate) : Prop :=
  UnmarshalData sub = Some (cand_data c) ∧ cand_ballotID c = cast_ballotID (cand_data c) ∧
  VerifyAndIdentify idv (cand_data c) = Some (cand_identityHash c).
(** The keys of a candidate in the two lists. *)
Definition cand_key1 (c : batchCandidate) : string := voteStoreKey (BallotCastData_PollID (cand_data c)) (cand_ballotID c).
Definition cand_key2 (c : batchCandidate) : string := registry_key (BallotCastData_PollID (cand_data c)) (cand_identityHash c).

Section facts.
Context `{C : Crypto}.

Lemma opened_idem pollID s : opened pollID (opened pollID s) = opened pollID s.
Proof.
  assert (∀ ps : gmap string Poll, let f := alter (λ p : Poll, p <| Poll_Status := "open" |>) pollID in f (f ps) = f ps) as H.
  { intros ps f. subst f. apply map_eq. intros k. rewrite !lookup_alter. repeat case_decide; subst; [|done..]. by destruct (ps !! k). }
  unfold opened. transitivity (s <| polls := alter (λ p : Poll, p <| Poll_Status := "open" |>) pollID
    (alter (λ p : Poll, p <| Poll_Status := "open" |>) pollID (polls s)) |>); [done|]. by rewrite H.
Qed.

(** What the submission loop establishes. *)
Lemma check_submissions_ok now pollID idv subs i sb sr s s' u :
  verifier s = Some idv → check_submissions now pollID i sb sr subs s = (Ok u, s') →
  (s' = s ∨ s' = opened pollID s) ∧
  ∃ cs, Forall2 (is_candidate idv) subs cs ∧
    Forall (λ c, BallotCastData_PollID (cand_data c) = pollID) cs ∧
    NoDup (cand_ballotID <$> cs) ∧ (∀ c, c ∈ cs → cand_ballotID c ∉ sb) ∧
    NoDup (cand_key2 <$> cs) ∧ (∀ c, c ∈ cs → cand_key2 c ∉ sr) ∧
    Forall (λ c, voterRegistry s !! cand_key2 c = None ∨ is_Some (restores s !! cand_key2 c)) cs.
Proof.
  revert i sb sr s. induction subs as [|sub subs IH]; intros i sb sr s Hv H; cbn in H.
  { injection H as _ <-. split; [by left|]. exists []. split_and!; try done; try constructor; by intros ? ?%elem_of_nil. }
  minv H. bools. unfold id in *. repeat select unit (fun u => destruct u).
  match goal with H : validateBallotCast _ _ _ = (Ok tt, ?s2) |- _ => rename H into Hval; rename s2 into s1 end.
  apply validateBallotCast_facts in Hval
    as (data & poll & pub & idv' & h & Hd & _ & _ & _ & _ & _ & Hp & _ & _ & _ & Hv' & Hi & Hreg & Hs1).
  assert ((s1 = s ∨ s1 = opened (BallotCastData_PollID data) s) ∧ verifier s1 = verifier s ∧
    (∀ k, voterRegistry s1 !! k = voterRegistry s !! k) ∧ ∀ k, restores s1 !! k = restores s !! k)
    as (Hor & Hv1 & Hr1 & Hg1) by (rewrite Hs1; case_decide; auto).
  clear Hs1. rewrite Hv in Hv1. simplify_eq.
  match goal with H : UnmarshalData sub = Some ?d |- _ => rename d into data end.
  set (p := BallotCastData_PollID data) in *.
  select (check_submissions _ _ _ _ _ _ _ = _) (fun H => apply IH in H; [|done]; destruct H as
    (Hs' & cs & Hcs & Hps & Hnd1 & Hsb & Hnd2 & Hsr & Hreg')).
  split.
  { destruct Hor as [-> | ->], Hs' as [-> | ->]; auto. right. apply opened_idem. }
  exists (mkCandidate data (cast_ballotID data) h :: cs).
  split_and!; try (constructor; done).
  - apply NoDup_cons. split; [|done]. intros (c & Hc & Hin)%list_elem_of_fmap.
    apply (Hsb _ Hin). cbn in Hc. rewrite <- Hc. by left.
  - intros c [->|Hin]%elem_of_cons; [done|]. intros ?. apply (Hsb _ Hin). by right.
  - apply NoDup_cons. split; [|done]. intros (c & Hc & Hin)%list_elem_of_fmap.
    apply (Hsr _ Hin). rewrite <- Hc. by left.
  - intros c [->|Hin]%elem_of_cons; [done|]. intros ?. apply (Hsr _ Hin). by right.
  - constructor; [done|]. eapply Forall_impl; [exact Hreg'|]. intros c. cbn beta. by rewrite Hr1, Hg1.
Qed.
End facts.

Section flush_facts.
Context `{C : Crypto}.

Lemma sba_polls s s' : same_but_attestation s s' → polls s' = polls s ∧ rollingThreshold s' = rollingThreshold s ∧
  voteDirections s' = voteDirections s ∧ voterRegistry s' = voterRegistry s.
Proof. intros (c & k & d & ->). split_and!; by fields. Qed.

(** The loop stops within its fuel, below the threshold; it fails only when an
    attestation does, which needs the counted lists to differ. *)
Lemma rolling_loop_run fuel now pollID s :
  let count s := default 0 (submissionCounts s !! pollID) in
  0 < rollingThreshold s → int64_ok (rollingThreshold s) → int64_ok (count s) →
  is_Some (polls s !! pollID) → (Z.to_nat (count s) ≤ fuel)%nat →
  let '(r, s') := rolling_loop fuel now pollID s in
  same_but_attestation s s' ∧ (dirty s = true → dirty s' = true) ∧ r ≠ Panic ∧
  (res_ok r = true → count s' < rollingThreshold s) ∧
  (L1_counted s pollID = L2_total s pollID → res_ok r = true).
Proof.
  intros count Ht Hti. revert s Ht Hti. induction fuel as [|f IH]; intros s Ht Hti Hc Hp Hf;
    cbn [rolling_loop]; rewrite bind_run; cbn beta iota; unfold gets, id at 1;
    change (submissionCounts (id s)) with (submissionCounts s); fold (count s);
    (destruct (Z.leb_spec (rollingThreshold s) (count s)) as [Hle|Hlt];
      [|cbn; split_and!; [apply sba_refl|done..]]).
  { lia. }
  rewrite bind_run, modify_run. cbn beta iota.
  set (s1 := s <| submissionCounts ::= _ |>).
  assert (count s1 = count s - rollingThreshold s) as Hc1.
  { subst s1 count. cbn beta. fields. rewrite lookup_insert_eq. cbn. apply wrap64_id. unfold int64_ok in *. lia. }
  assert (same_but_attestation s s1) as Hs1 by apply sba_counts.
  assert (polls s1 = polls s ∧ rollingThreshold s1 = rollingThreshold s ∧ dirty s1 = dirty s ∧
    L1_counted s1 pollID = L1_counted s pollID ∧ L2_total s1 pollID = L2_total s pollID)
    as (Hp1 & Ht1 & Hd1 & HL1 & HL2) by done.
  clearbody s1. rewrite bind_run. unfold wrap_err.
  destruct (commitRollingAttestation (now (S f)) pollID s1) as [r s2] eqn:Hcr.
  pose proof (commitRollingAttestation_counts _ _ _ _ _ Hcr) as Hc2.
  pose proof (commitRollingAttestation_ok (now (S f)) pollID s1) as Hok. rewrite Hcr in Hok.
  apply commitRollingAttestation_frame in Hcr as (Hs2 & Hd2 & Hnp).
  rewrite Hp1 in Hnp, Hok. specialize (Hnp Hp). specialize (Hok Hp). rewrite Hd1 in Hd2.
  assert (same_but_attestation s s2) as Hs02 by by eapply sba_trans.
  destruct r as [evs|e|]; [|cbn in *; split_and!; try done; intros; apply Hok; congruence|done].
  destruct (sba_polls _ _ Hs02) as (Hp2 & Ht2 & Hv2 & Hr2).
  specialize (IH s2). unfold count in IH, Hc1. rewrite Ht2, Hp2, Hc2, Hc1 in IH.
  fold (count s) in IH. specialize (IH Ht Hti). rewrite bind_run.
  destruct (rolling_loop f now pollID s2) as [r s3].
  destruct IH as (Hs3 & Hd3 & Hnp3 & Hlt & Hok3); [unfold int64_ok in *; lia|done|lia|].
  assert (L1_counted s2 pollID = L1_counted s pollID ∧ L2_total s2 pollID = L2_total s pollID) as [E1 E2].
  { unfold L1_counted, L2_total. by rewrite Hv2, Hr2. }
  rewrite E1, E2 in Hok3.
  destruct r; cbn in *; split_and!; try done; try (by eapply sba_trans); auto.
Qed.
End flush_facts.

Section materialize.
Context `{C : Crypto}.

(** Writing the candidates fills both lists key by key and moves nothing else. *)
Definition batch_lists (cs : list batchCandidate) (s : State) : State :=
  s <| voteDirections ::= λ m, foldl (λ m c, <[cand_key1 c := candidate_record c]> m) m cs |>
    <| voterRegistry ::= λ m, foldl (λ m c, <[cand_key2 c := mkVoterRecord (cand_identityHash c)]> m) m cs |>.
Lemma materialize_batch cs s : foldl materialize s cs = batch_lists cs s.
Proof.
  revert s. induction cs as [|c cs IH]; intros s; cbn [foldl]; [by destruct s|].
  rewrite IH. unfold batch_lists, materialize. by destruct s.
Qed.

(** The growth of a list by a batch of distinct keys, none of them there before. *)
Lemma count_batch {V} (key : batchCandidate → string) (val : batchCandidate → V) q cs (m : gmap string V) :
  NoDup (key <$> cs) → (∀ c, c ∈ cs → m !! key c = None ∧ has_prefix (key c) (poll_prefix q) = true) →
  count_where (in_poll q) (foldl (λ m c, <[key c := val c]> m) m cs) =
  (count_where (in_poll q) m + length cs)%nat.
Proof.
  revert m. induction cs as [|c cs IH]; intros m Hnd Hc; cbn [foldl length]; [lia|].
  apply NoDup_cons in Hnd as [Hn Hnd]. destruct (Hc c) as [Hm Hp]; [by left|].
  rewrite IH; [|done|].
  - rewrite count_in_poll_insert. apply has_false in Hm. unfold in_poll. rewrite Hp, Hm. cbn. lia.
  - intros c' Hc'. destruct (Hc c') as [? ?]; [by right|]. split; [|done].
    rewrite lookup_insert_ne; [done|]. intros E. apply Hn. rewrite E. by apply list_elem_of_fmap_2.
Qed.

Lemma collect_candidates_run idv subs cs i s :
  verifier s = Some idv → Forall2 (is_candidate idv) subs cs →
  collect_candidates i subs s = (Ok cs, s).
Proof.
  intros Hv H. revert i. induction H as [|sub c subs cs (Hd & Hb & Hi) _ IH]; intros i; cbn; [done|].
  mrun. rewrite Hd. mrun. rewrite Hv. mrun. rewrite Hi. mrun. rewrite IH. mrun.
  rewrite <- Hb. by destruct c.
Qed.

(** The attestation phase of a flush. *)
Lemma flush_attest_run now pollID n s :
  is_Some (polls s !! pollID) → int64_ok (rollingThreshold s) →
  let '(r, s') := flush_attest now pollID n s in
  same_but_attestation s s' ∧ (dirty s = true → dirty s' = true) ∧ r ≠ Panic ∧
  (L1_counted s pollID = L2_total s pollID → res_ok r = true).
Proof.
  intros Hp Ht. unfold flush_attest. rewrite bind_run, gets_run. cbn beta iota. unfold id.
  destruct (bool_decide _ && (0 <? rollingThreshold s)) eqn:Hroll;
    [|cbn; split_and!; [apply sba_refl|done..]].
  apply andb_true_iff in Hroll as [_ Hpos%Z.ltb_lt].
  rewrite bind_run, modify_run. cbn beta iota. set (s1 := s <| submissionCounts ::= _ |>).
  rewrite bind_run, gets_run. cbn beta iota.
  assert (int64_ok (default 0 (submissionCounts s1 !! pollID))) as Hc1.
  { subst s1. fields. rewrite lookup_insert_eq. apply wrap64_ok. }
  assert (same_but_attestation s s1) as Hs1 by apply sba_counts.
  assert (polls s1 = polls s ∧ rollingThreshold s1 = rollingThreshold s ∧ dirty s1 = dirty s ∧
    L1_counted s1 pollID = L1_counted s pollID ∧ L2_total s1 pollID = L2_total s pollID)
    as (Hp1 & Ht1 & Hd1 & HL1 & HL2) by done.
  clearbody s1.
  pose proof (rolling_loop_run (Z.to_nat (default 0 (submissionCounts s1 !! pollID))) now pollID s1) as Hloop.
  cbn zeta in Hloop. rewrite Ht1, Hp1, HL1, HL2, Hd1 in Hloop.
  specialize (Hloop Hpos Ht Hc1 Hp (le_n _)).
  destruct (rolling_loop _ now pollID s1) as [r s2]. destruct Hloop as (Hs2 & Hd2 & Hnp & _ & Hok).
  split_and!; try done. by eapply sba_trans.
Qed.

(** The flush of a decoded batch: never a panic, both lists extended by the sorted
    candidates, an error only from an attestation whose lists differ. *)
Lemma executeBatchFlush_run now t data s idv cs :
  UnmarshalData t = Some data → verifier s = Some idv →
  Forall2 (is_candidate idv) (elems (BatchFlushData_Submissions data)) cs →
  is_Some (polls s !! BatchFlushData_PollID data) → int64_ok (rollingThreshold s) →
  let '(r, s') := executeBatchFlush now t s in
  r ≠ Panic ∧ dirty s' = true ∧
  voteDirections s' = voteDirections (batch_lists (sort_candidates cs) s) ∧
  voterRegistry s' = voterRegistry (batch_lists (sort_candidates cs) s) ∧
  (L1_counted (batch_lists (sort_candidates cs) s) (BatchFlushData_PollID data) =
   L2_total (batch_lists (sort_candidates cs) s) (BatchFlushData_PollID data) → res_ok r = true).
Proof.
  intros Hd Hv Hcs [poll Hp] Ht. unfold executeBatchFlush. rewrite Hd. mrun.
  rewrite (collect_candidates_run idv _ cs) by done. cbn beta iota zeta.
  rewrite bind_run, modify_run. cbn beta iota. rewrite materialize_batch.
  set (sorted := sort_candidates cs). set (n := Z.of_nat (length sorted)).
  set (s1 := batch_lists sorted s). rewrite bind_run.
  set (s2 := if 0 <? n then s1 <| polls ::= alter (λ p, p <| Poll_IDVCastCount ::= λ c, int64_add c n |>)
    (BatchFlushData_PollID data) |> else s1).
  assert ((if 0 <? n then update_poll (BatchFlushData_PollID data) (λ p, p <| Poll_IDVCastCount ::= λ c, int64_add c n |>)
    else mret tt) s1 = (Ok tt, s2)) as -> by (subst s2; by destruct (0 <? n)).
  cbn beta iota. unfold set_dirty. rewrite bind_run, modify_run. cbn beta iota.
  set (s3 := s2 <| dirty := true |>).
  assert (is_Some (polls s3 !! BatchFlushData_PollID data) ∧ rollingThreshold s3 = rollingThreshold s ∧
    voteDirections s3 = voteDirections s1 ∧ voterRegistry s3 = voterRegistry s1) as (Hp3 & Ht3 & Hv3 & Hr3).
  { assert (is_Some (polls s1 !! BatchFlushData_PollID data)) as H1 by (subst s1; unfold batch_lists; fields; eauto).
    subst s3 s2. destruct (0 <? n); [|done]. fields. split_and!; try done. rewrite lookup_alter_eq. by apply fmap_is_Some. }
  assert (dirty s3 = true) as Hd3 by done. clearbody s3. rewrite bind_run.
  pose proof (flush_attest_run now (BatchFlushData_PollID data) n s3 Hp3) as Hf. rewrite Ht3 in Hf.
  destruct (flush_attest now (BatchFlushData_PollID data) n s3) as [r s4].
  destruct (Hf Ht) as (Hs4 & Hd4 & Hnp & Hok). destruct (sba_polls _ _ Hs4) as (_ & _ & Hv4 & Hr4).
  assert (L1_counted s3 (BatchFlushData_PollID data) = L1_counted s1 (BatchFlushData_PollID data) ∧
    L2_total s3 (BatchFlushData_PollID data) = L2_total s1 (BatchFlushData_PollID data)) as [E1 E2].
  { unfold L1_counted, L2_total. by rewrite Hv3, Hr3. }
  rewrite E1, E2 in Hok. destruct r; mrun; split_and!; try done; try congruence; auto.
Qed.
End materialize.

Section properties.
Context `{C : Crypto}.

Lemma sort_candidates_perm cs : sort_candidates cs ≡ₚ cs.
Proof. apply merge_sort_Permutation. Qed.
#[local] Instance cand_le_total : Total cand_le.
Proof. intros a b. apply (total str_le). Qed.
#[local] Instance cand_le_trans : Transitive cand_le.
Proof. intros a b c. unfold cand_le. apply (transitivity (R := str_le)). Qed.
(** With distinct identifiers the sort does not depend on the order given. *)
Lemma sort_candidates_unique cs cs' :
  NoDup (cand_ballotID <$> cs) → cs ≡ₚ cs' → sort_candidates cs = sort_candidates cs'.
Proof.
  intros Hnd Hp. apply (Sorted_unique_strong cand_le).
  - intros c1 c2 H1 H2 L1 L2. rewrite sort_candidates_perm in H1. rewrite sort_candidates_perm, <- Hp in H2.
    assert (cand_ballotID c1 = cand_ballotID c2) as E by (by apply (anti_symm str_le)).
    apply list_elem_of_lookup in H1 as [i Hi], H2 as [j Hj].
    assert (i = j) as ->; [|congruence].
    eapply (NoDup_lookup (cand_ballotID <$> cs)); [done|by rewrite list_lookup_fmap, Hi|].
    by rewrite list_lookup_fmap, Hj, E.
  - apply Sorted_merge_sort, _.
  - apply Sorted_merge_sort, _.
  - by rewrite !sort_candidates_perm.
Qed.

Lemma validateBatchFlush_ok now t s s' u :
  validateBatchFlush now t s = (Ok u, s') →
  ∃ data poll, UnmarshalData t = Some data ∧ polls s !! BatchFlushData_PollID data = Some poll ∧
    Poll_Status poll ≠ "closed" ∧
    check_submissions now (BatchFlushData_PollID data) 0 [] [] (elems (BatchFlushData_Submissions data)) s = (Ok u, s').
Proof. unfold validateBatchFlush. intros H. minv H. bools. unfold id in *. eauto 10. Qed.

Lemma candidates_unique idv subs cs cs' :
  Forall2 (is_candidate idv) subs cs → Forall2 (is_candidate idv) subs cs' → cs = cs'.
Proof.
  intros H. revert cs'. induction H as [|sub c subs cs (Hd & Hb & Hi) _ IH]; intros cs' H'; inversion H' as [|? c' ? cs2 (Hd' & Hb' & Hi') H2]; subst; [done|].
  f_equal; [|auto]. destruct c, c'; cbn in *. congruence.
Qed.
Lemma NoDup_key1 pollID cs :
  Forall (λ c, BallotCastData_PollID (cand_data c) = pollID) cs → NoDup (cand_ballotID <$> cs) →
  NoDup (cand_key1 <$> cs).
Proof.
  intros Hps Hnd. assert (cand_key1 <$> cs = voteStoreKey pollID <$> (cand_ballotID <$> cs)) as ->.
  { rewrite <- list_fmap_compose. apply Forall_fmap_ext_1. eapply Forall_impl; [exact Hps|].
    intros c <-. done. }
  apply NoDup_fmap_2; [apply _|done].
Qed.

(** C9. What an accepted batch guarantees: its poll exists and is not closed, every
    submission is a ballot for that poll by a verified participant without a
    ballot there (or with a restore grant), and the batch names no identifier and
    no participant twice. *)
Theorem validateBatchFlush_sound (now : clock) (t : Tx) (s s' : State) (idv : IdentityVerifier) :
  verifier s = Some idv → validateBatchFlush now t s = (Ok tt, s') →
  ∃ (data : BatchFlushData) (poll : Poll) (cs : list batchCandidate),
    UnmarshalData t = Some data ∧ polls s !! BatchFlushData_PollID data = Some poll ∧
    Poll_Status poll ≠ "closed" ∧
    Forall2 (is_candidate idv) (elems (BatchFlushData_Submissions data)) cs ∧
    Forall (λ c, BallotCastData_PollID (cand_data c) = BatchFlushData_PollID data) cs ∧
    NoDup (cand_ballotID <$> cs) ∧ NoDup (cand_key2 <$> cs) ∧
    Forall (λ c, voterRegistry s !! cand_key2 c = None ∨ is_Some (restores s !! cand_key2 c)) cs.
Proof.
  intros Hv (data & poll & Hd & Hp & Hst & H)%validateBatchFlush_ok.
  apply (check_submissions_ok _ _ idv) in H as (_ & cs & ? & ? & ? & _ & ? & _ & ?); [|done].
  by exists data, poll, cs.
Qed.

(** An accepted batch whose identifiers and participants are new makes both lists
    grow by the number of its submissions, whatever the attestation phase
    answers; the flush never panics. *)
Theorem batch_flush_grows_both_lists (now now' : clock) (t : Tx) (data : BatchFlushData) (s s1 : State)
    (idv : IdentityVerifier) (cs : list batchCandidate) :
  verifier s = Some idv → int64_ok (rollingThreshold s) → UnmarshalData t = Some data →
  validateBatchFlush now t s = (Ok tt, s1) →
  Forall2 (is_candidate idv) (elems (BatchFlushData_Submissions data)) cs →
  (∀ c, c ∈ cs → voteDirections s !! cand_key1 c = None ∧ voterRegistry s !! cand_key2 c = None) →
  let pollID := BatchFlushData_PollID data in
  let n := length (elems (BatchFlushData_Submissions data)) in
  let '(r, s') := executeBatchFlush now' t s1 in
  r ≠ Panic ∧ L1_total s' pollID = (L1_total s pollID + n)%nat ∧ L2_total s' pollID = (L2_total s pollID + n)%nat.
Proof.
  intros Hv Ht Hd (data' & poll & Hd' & Hp & _ & H)%validateBatchFlush_ok Hcs Hfresh pollID n.
  rewrite Hd in Hd'. injection Hd' as <-. fold pollID in Hp, H.
  apply (check_submissions_ok _ _ idv) in H as (Hs1 & cs' & Hcs' & Hps & Hnd1 & _ & Hnd2 & _); [|done].
  rewrite (candidates_unique _ _ _ _ Hcs' Hcs) in *. clear Hcs'.
  assert (is_Some (polls s1 !! pollID) ∧ verifier s1 = Some idv ∧ rollingThreshold s1 = rollingThreshold s ∧
    voteDirections s1 = voteDirections s ∧ voterRegistry s1 = voterRegistry s) as (Hp1 & Hv1 & Ht1 & HV & HR).
  { destruct Hs1 as [-> | ->]; [by eauto|]. unfold opened. fields. split_and!; try done.
    rewrite lookup_alter_eq, Hp. eauto. }
  pose proof (executeBatchFlush_run now' t data s1 idv cs Hd Hv1 Hcs Hp1) as Hrun. rewrite Ht1 in Hrun.
  destruct (executeBatchFlush now' t s1) as [r s']. destruct (Hrun Ht) as (Hnp & _ & HV' & HR' & _).
  split; [done|]. unfold L1_total, L2_total. rewrite HV', HR'. unfold batch_lists. fields. rewrite HV, HR.
  assert (length (sort_candidates cs) = n) as Hn.
  { rewrite sort_candidates_perm. unfold n. symmetry. by eapply Forall2_length. }
  assert (∀ c, c ∈ sort_candidates cs → c ∈ cs) as Hin by (intros c; by rewrite sort_candidates_perm).
  split; rewrite count_batch; rewrite ?Hn; try done.
  - rewrite sort_candidates_perm. by eapply NoDup_key1.
  - rewrite Forall_forall in Hps. intros c Hc%Hin. split; [by apply Hfresh|].
    unfold cand_key1. rewrite (Hps _ Hc). apply prefix_voteStoreKey.
  - by rewrite sort_candidates_perm.
  - rewrite Forall_forall in Hps. intros c Hc%Hin. split; [by apply Hfresh|].
    unfold cand_key2. rewrite (Hps _ Hc). apply prefix_registry_key.
Qed.

(** C10. The order of the submissions in a batch does not matter when each of them decodes
    and verifies under the configured verifier and the identifiers they derive are
    distinct: two batches with the same submissions have the same effect, the same
    events and the same batch identifier. *)
Theorem batch_flush_order_independent (now : clock) (t t' : Tx) (pollID : string) (subs subs' : list Tx)
    (s : State) (idv : IdentityVerifier) (cs : list batchCandidate) :
  UnmarshalData t = Some (mkBatchFlushData pollID (Some subs)) →
  UnmarshalData t' = Some (mkBatchFlushData pollID (Some subs')) → subs ≡ₚ subs' →
  verifier s = Some idv → Forall2 (is_candidate idv) subs cs → NoDup (cand_ballotID <$> cs) →
  executeBatchFlush now t s = executeBatchFlush now t' s.
Proof.
  intros Hd Hd' Hperm Hv Hcs Hnd. unfold executeBatchFlush. rewrite Hd, Hd'. mrun.
  destruct (Permutation_Forall2 Hperm Hcs) as (cs' & Hp & Hcs').
  rewrite (collect_candidates_run idv _ cs), (collect_candidates_run idv _ cs') by done. cbn beta iota.
  by rewrite (sort_candidates_unique _ _ Hnd Hp).
Qed.
End properties.
