(* ===== verification/Reseal.v ===== *)
(** domain/state/reseal.go: participant-initiated migration of a ballot to the
    sealed partition. *)
From S2P Require Import Prelude GoStd Json Types TxData Nonce Identity Keys VotingState Merkle TxValidate Tallies.
From S2P Require Import Ballots.

Section reseal.
Context `{C : Crypto}.

Definition migrationSigMessage (ballotID pollID : string) : string := "migrate:" +:+ ballotID +:+ ":" +:+ pollID.

Definition validateResealVote (transaction : Tx) : M State unit :=
  data ← or_fail (UnmarshalData (A := ResealVoteData) transaction) (bad_json "reseal vote: invalid payload: %w");
  let pollID := ResealVoteData_PollID data in
  let ballotID := ResealVoteData_BallotID data in
  s ← gets id;
  poll ← or_fail (polls s !! pollID) (poll_missing pollID);
  fail_if (bool_decide (Poll_Status poll = "closed")) (ErrorInvalidPoll "poll %s is closed" [FStr pollID]) ;;
  vote ← or_fail (voteDirections s !! voteStoreKey pollID ballotID)
    (Errorf "reseal vote: ballot_id %s not found in poll %s" [FStr ballotID; FStr pollID]);
  fail_if (VoteRecord_Superseded vote)
    (Errorf "reseal vote: ballot_id %s has already been superseded" [FStr ballotID]) ;;
  fail_if (bool_decide (VoteRecord_PartitionID vote = "sealed"))
    (Errorf "reseal vote: ballot_id %s is already in the sealed partition" [FStr ballotID]) ;;
  fail_if (str_empty (VoteRecord_VoterPubKeyHash vote))
    (Errorf "reseal vote: no voter_pub_key_hash registered for ballot_id %s (cast before partition-migration support)" [FStr ballotID]) ;;
  fail_if (negb (bool_decide (migrationAuthHash (ResealVoteData_VoterPubKey data) pollID = VoteRecord_VoterPubKeyHash vote)))
    (Errorf "reseal vote: voter_pub_key mismatch for ballot_id %s" [FStr ballotID]) ;;
  pub ← decode_pubkey (Errorf "reseal vote: voter_pub_key must be a 64-char hex-encoded Ed25519 public key" [])
    (ResealVoteData_VoterPubKey data);
  fail_if (negb (ed25519_Verify pub (migrationSigMessage ballotID pollID) (bytes_of (ResealVoteData_MigrationSig data))))
    (Errorf "reseal vote: migration signature invalid for ballot_id %s in poll %s" [FStr ballotID; FStr pollID]).

Definition executeResealVote (transaction : Tx) : M State (list Event) :=
  data ← or_fail (UnmarshalData (A := ResealVoteData) transaction) (bad_json "reseal vote: invalid payload: %w");
  let pollID := ResealVoteData_PollID data in
  let ballotID := ResealVoteData_BallotID data in
  let voteKey := voteStoreKey pollID ballotID in
  let ineligible := Errorf "reseal vote: ballot_id %s is not eligible for migration" [FStr ballotID] in
  s ← gets id;
  vote ← or_fail (voteDirections s !! voteKey) ineligible;
  fail_if (VoteRecord_Superseded vote || bool_decide (VoteRecord_PartitionID vote = "sealed")) ineligible ;;
  modify (λ s, s <| voteDirections ::= <[voteKey := vote <| VoteRecord_PartitionID := "sealed" |>]> |>) ;;
  poll ← or_panic (polls s !! pollID);
  let sealedCount := int64_inc (Poll_SealedCount poll) in
  update_poll pollID (λ p, p <| Poll_SealedCount := sealedCount |>) ;;
  set_dirty ;;
  mret [mkEvent "partition_migrated"
    [("scoping_id", pollID, true); ("submission_id", ballotID, true); ("sealed_count", fmt_d sealedCount, false)]].
End reseal.

Section properties.
Context `{C : Crypto}.

Lemma validateResealVote_ok t (s s' : State) u :
  validateResealVote t s = (Ok u, s') →
  s' = s ∧ ∃ data vote poll pub, UnmarshalData t = Some data ∧
    polls s !! ResealVoteData_PollID data = Some poll ∧ Poll_Status poll ≠ "closed" ∧
    voteDirections s !! voteStoreKey (ResealVoteData_PollID data) (ResealVoteData_BallotID data) = Some vote ∧
    VoteRecord_Superseded vote = false ∧ VoteRecord_PartitionID vote ≠ "sealed" ∧
    VoteRecord_VoterPubKeyHash vote = migrationAuthHash (ResealVoteData_VoterPubKey data) (ResealVoteData_PollID data) ∧
    hex_DecodeString (ResealVoteData_VoterPubKey data) = Some pub ∧ String.length pub = 32%nat ∧
    ed25519_Verify pub ("migrate:" +:+ ResealVoteData_BallotID data +:+ ":" +:+ ResealVoteData_PollID data)
      (bytes_of (ResealVoteData_MigrationSig data)) = true.
Proof.
  unfold validateResealVote. intros H. minv H. unfold id in *. bools.
  select (decode_pubkey _ _ _ = _) (fun H => apply decode_pubkey_ok in H; destruct H as (-> & ? & ?)).
  split; [done|]. eexists _, _, _, _. split_and!; try done.
Qed.

(** C12. Migration to the sealed partition.  An accepted reseal comes from the key the
    ballot was cast with and signed "migrate:ballot:poll"; executing it marks
    exactly that record sealed and counts it, keeps both lists, takes the record
    out of the counted part of List 1, and a second reseal of it is refused. *)
Theorem reseal_migrates_once (t t' : Tx) (s s' : State) :
  validateResealVote t s = (Ok tt, s') →
  s' = s ∧ ∃ (data : ResealVoteData) (vote : VoteRecord) (poll : Poll) (pub : string) (evs : list Event) (s2 : State),
    UnmarshalData t = Some data ∧
    let pollID := ResealVoteData_PollID data in
    let key := voteStoreKey pollID (ResealVoteData_BallotID data) in
    polls s !! pollID = Some poll ∧ voteDirections s !! key = Some vote ∧
    VoteRecord_VoterPubKeyHash vote = migrationAuthHash (ResealVoteData_VoterPubKey data) pollID ∧
    hex_DecodeString (ResealVoteData_VoterPubKey data) = Some pub ∧
    ed25519_Verify pub ("migrate:" +:+ ResealVoteData_BallotID data +:+ ":" +:+ pollID)
      (bytes_of (ResealVoteData_MigrationSig data)) = true ∧
    executeResealVote t s = (Ok evs, s2) ∧
    voteDirections s2 = <[key := vote <| VoteRecord_PartitionID := "sealed" |>]> (voteDirections s) ∧
    voterRegistry s2 = voterRegistry s ∧
    L1_total s2 pollID = L1_total s pollID ∧ S (L1_counted s2 pollID) = L1_counted s pollID ∧
    Poll_SealedCount <$> polls s2 !! pollID = Some (int64_inc (Poll_SealedCount poll)) ∧
    (UnmarshalData t' = Some data → res_ok (validateResealVote t' s2).1 = false).
Proof.
  intros (-> & data & vote & poll & pub & Hd & Hp & Hst & Hv & Hsup & Hpart & Hh & Hk & Hl & Hsig)%validateResealVote_ok.
  split; [done|]. exists data, vote, poll, pub. cbv zeta.
  unfold executeResealVote. rewrite Hd. mrun. unfold id. rewrite Hv. mrun. rewrite Hsup.
  rewrite bool_decide_false by done. cbn [orb]. mrun. fields. rewrite Hp. mrun.
  unfold update_poll, set_dirty. mrun.
  eexists _, _. split_and!; try done; fields.
  - unfold L1_total. fields. rewrite count_in_poll_insert.
    rewrite (proj2 (has_true _ _)) by eauto. rewrite andb_false_r. lia.
  - unfold L1_counted. fields.
    match goal with |- context [count_where ?P (<[?k := ?v]> _)] =>
      pose proof (count_where_insert_Some P _ k v _ Hv) as Hc end.
    cbv beta in Hc. rewrite !in_poll_voteStoreKey in Hc. cbn [andb] in Hc.
    assert (counted vote = true) as E1 by (unfold counted; by rewrite Hsup, bool_decide_false by done).
    assert (counted (vote <| VoteRecord_PartitionID := "sealed" |>) = false) as E2 by (destruct vote; done).
    rewrite E1, E2 in Hc. exact Hc.
  - rewrite lookup_alter_eq, Hp. done.
  - intros Hd'. unfold validateResealVote. rewrite Hd'. mrun. unfold id. fields.
    rewrite lookup_alter_eq, Hp. cbn [fmap option_fmap option_map or_fail]. mrun.
    rewrite bool_decide_false by done. mrun. rewrite lookup_insert_eq. mrun. fields. rewrite Hsup. by mrun.
Qed.
End properties.
