(* ===== verification/Authority.v ===== *)
(** domain/state/authority_rescind.go: two-party rescission of a submission and
    the restoration grant. *)
From S2P Require Import Prelude GoStd Json Types TxData Nonce Identity Keys VotingState Merkle TxValidate Tallies.
From S2P Require Import Ballots.

Section authority.
Context `{C : Crypto}.

Definition rescindMessage (pollID ballotID identityHash revocationRef : string) : string :=
  "authority-rescind:" +:+ pollID +:+ ":" +:+ ballotID +:+ ":" +:+ identityHash +:+ ":" +:+ revocationRef.
Definition restoreMessage (pollID ballotID identityHash revocationRef : string) : string :=
  "authority-restore:" +:+ pollID +:+ ":" +:+ ballotID +:+ ":" +:+ identityHash +:+ ":" +:+ revocationRef.

Definition poll_not_found (pollID : string) : error := Errorf "poll not found: %s" [FStr pollID].

Definition validateAuthorityRescind (transaction : Tx) : M State unit :=
  data ← or_fail (UnmarshalData (A := AuthorityRescindData) transaction) (bad_json "invalid authority rescind data: %w");
  let pollID := AuthorityRescindData_PollID data in
  let ballotID := AuthorityRescindData_BallotID data in
  let identityHash := AuthorityRescindData_IdentityHash data in
  s ← gets id;
  poll ← or_fail (polls s !! pollID) (poll_not_found pollID);
  fail_if (str_empty (Poll_EligibilityAuthorityPubKey poll) || str_empty (Poll_ReconcilingAuthorityPubKey poll))
    (Errorf "poll %s has no rescission keys registered: TxTypeAuthorityRescind is only available for count-match deployments (shyvoting-v1 and equivalents) with both eligibility and reconciling authority keys registered at creation" [FStr pollID]) ;;
  elig ← or_fail (base64_DecodeString (Poll_EligibilityAuthorityPubKey poll))
    (Errorf "stored eligibility_authority_pub_key is not valid base64: %w" [FErr base64_error]);
  fail_if (negb (slen elig =? PublicKeySize))
    (Errorf "stored eligibility_authority_pub_key has wrong length: %d" [FInt (slen elig)]) ;;
  reconcile ← or_fail (base64_DecodeString (Poll_ReconcilingAuthorityPubKey poll))
    (Errorf "stored reconciling_authority_pub_key is not valid base64: %w" [FErr base64_error]);
  fail_if (negb (slen reconcile =? PublicKeySize))
    (Errorf "stored reconciling_authority_pub_key has wrong length: %d" [FInt (slen reconcile)]) ;;
  fail_if (negb (has (voteDirections s) (voteStoreKey pollID ballotID)))
    (Errorf "ballot not found in List 1: poll=%s ballot=%s" [FStr pollID; FStr ballotID]) ;;
  fail_if (negb (has (voterRegistry s) (registry_key pollID identityHash)))
    (Errorf "identity not found in List 2: poll=%s identity=%s" [FStr pollID; FStr identityHash]) ;;
  let msg := rescindMessage pollID ballotID identityHash (AuthorityRescindData_RevocationRef data) in
  fail_if (negb (ed25519_Verify elig msg (bytes_of (AuthorityRescindData_EligibilitySig data))))
    (Errorf "eligibility authority signature verification failed" []) ;;
  fail_if (negb (ed25519_Verify reconcile msg (bytes_of (AuthorityRescindData_ReconcilingSig data))))
    (Errorf "reconciling authority signature verification failed" []) ;;
  fail_if (has (rescissions s) (voteStoreKey pollID ballotID))
    (Errorf "ballot already rescinded: poll=%s ballot=%s" [FStr pollID; FStr ballotID]).

(** The tally adjustment of a rescission; [None] is the nil dereference of a
    missing vote record. *)
Definition count_dec (counts : gmap string Z) (c : string) : gmap string Z :=
  <[c := int64_dec (default 0 (counts !! c))]> counts.
Definition rescinded_choices (poll : option Poll) (vote : VoteRecord) : list string :=
  match poll with
  | Some p => if bool_decide (Poll_VotingMethod p = "ranked")
              then take 1 (elems (VoteRecord_Choices vote)) else elems (VoteRecord_Choices vote)
  | None => elems (VoteRecord_Choices vote)
  end.
Definition rescind_tally (poll : option Poll) (vote : VoteRecord) (t : Tally) : Tally :=
  t <| Tally_TotalVotes ::= int64_dec |>
    <| Tally_Counts ::= λ m, foldl count_dec m (rescinded_choices poll vote) |>
    <| Tally_RescissionCount ::= int64_inc |>
    <| Tally_AttestationDegraded := true |>.

(** [if p, exists := polls[id]; exists && p.F > 0 { p.F-- }]. *)
Definition dec_if_positive (z : Z) : Z := if 0 <? z then int64_dec z else z.

Definition executeAuthorityRescind (transaction : Tx) : M State (list Event) :=
  data ← or_fail (UnmarshalData (A := AuthorityRescindData) transaction) (bad_json "invalid authority rescind data: %w");
  let pollID := AuthorityRescindData_PollID data in
  let ballotID := AuthorityRescindData_BallotID data in
  let identityHash := AuthorityRescindData_IdentityHash data in
  let l1Key := voteStoreKey pollID ballotID in
  let l2Key := registry_key pollID identityHash in
  s0 ← gets id;
  let voteRecord := voteDirections s0 !! l1Key in
  modify (λ s, s <| voteDirections ::= delete l1Key |>) ;;
  modify (λ s, s <| voterRegistry ::= delete l2Key |>) ;;
  (if has (confirms s0) l2Key then
     modify (λ s, s <| confirms ::= delete l2Key |>) ;;
     update_poll pollID (λ p, p <| Poll_ReattestationCount ::= dec_if_positive |>)
   else mret tt) ;;
  (match voteRecord with
   | Some vote => if bool_decide (VoteRecord_PartitionID vote = "sealed")
                  then update_poll pollID (λ p, p <| Poll_SealedCount ::= dec_if_positive |>) else mret tt
   | None => mret tt
   end) ;;
  s1 ← gets id;
  (match tallies s1 !! pollID with
   | Some tally =>
       modify (λ s, s <| tallies ::= <[pollID := tally <| Tally_TotalVotes ::= int64_dec |>]> |>) ;;
       vote ← or_panic voteRecord;
       modify (λ s, s <| tallies ::= <[pollID := rescind_tally (polls s1 !! pollID) vote tally]> |>)
   | None => mret tt
   end) ;;
  modify (λ s, s <| rescissions ::= <[l1Key :=
    mkRescindRecord pollID ballotID identityHash (AuthorityRescindData_RevocationRef data) (height s)]> |>) ;;
  set_dirty ;;
  mret [mkEvent "authority_rescind"
    [("scoping_id", pollID, true); ("submission_id", ballotID, true); ("identity_hash", identityHash, false);
     ("revocation_ref", AuthorityRescindData_RevocationRef data, true); ("height", fmt_d (height s0), false)]].

Definition validateAuthorityRestore (transaction : Tx) : M State unit :=
  data ← or_fail (UnmarshalData (A := AuthorityRestoreData) transaction) (bad_json "invalid authority restore data: %w");
  let pollID := AuthorityRestoreData_PollID data in
  let ballotID := AuthorityRestoreData_BallotID data in
  let identityHash := AuthorityRestoreData_IdentityHash data in
  s ← gets id;
  poll ← or_fail (polls s !! pollID) (poll_not_found pollID);
  fail_if (str_empty (Poll_EligibilityAuthorityPubKey poll) || str_empty (Poll_ReconcilingAuthorityPubKey poll))
    (Errorf "poll %s has no authority keys registered" [FStr pollID]) ;;
  let bad_elig := Errorf "stored eligibility_authority_pub_key is invalid" [] in
  elig ← or_fail (base64_DecodeString (Poll_EligibilityAuthorityPubKey poll)) bad_elig;
  fail_if (negb (slen elig =? PublicKeySize)) bad_elig ;;
  let bad_reconcile := Errorf "stored reconciling_authority_pub_key is invalid" [] in
  reconcile ← or_fail (base64_DecodeString (Poll_ReconcilingAuthorityPubKey poll)) bad_reconcile;
  fail_if (negb (slen reconcile =? PublicKeySize)) bad_reconcile ;;
  fail_if (negb (has (rescissions s) (voteStoreKey pollID ballotID)))
    (Errorf "authority restore: no rescission found for poll=%s ballot=%s; restore presupposes a prior rescission"
      [FStr pollID; FStr ballotID]) ;;
  fail_if (has (restores s) (registry_key pollID identityHash))
    (Errorf "authority restore: restore already granted for identity %s in poll %s" [FStr identityHash; FStr pollID]) ;;
  let msg := restoreMessage pollID ballotID identityHash (AuthorityRestoreData_RevocationRef data) in
  fail_if (negb (ed25519_Verify elig msg (bytes_of (AuthorityRestoreData_EligibilitySig data))))
    (Errorf "authority restore: eligibility authority signature verification failed" []) ;;
  fail_if (negb (ed25519_Verify reconcile msg (bytes_of (AuthorityRestoreData_ReconcilingSig data))))
    (Errorf "authority restore: reconciling authority signature verification failed" []).

Definition executeAuthorityRestore (transaction : Tx) : M State (list Event) :=
  data ← or_fail (UnmarshalData (A := AuthorityRestoreData) transaction) (bad_json "invalid authority restore data: %w");
  let pollID := AuthorityRestoreData_PollID data in
  let ballotID := AuthorityRestoreData_BallotID data in
  let identityHash := AuthorityRestoreData_IdentityHash data in
  s ← gets id;
  modify (λ s, s <| restores ::= <[registry_key pollID identityHash :=
    mkRestoreRecord pollID ballotID identityHash (AuthorityRestoreData_RevocationRef data)
      (AuthorityRestoreData_EligibilitySig data) (AuthorityRestoreData_ReconcilingSig data) (height s)]> |>) ;;
  set_dirty ;;
  mret [mkEvent "authority_restore"
    [("scoping_id", pollID, true); ("submission_id", ballotID, true);
     ("revocation_ref", AuthorityRestoreData_RevocationRef data, true); ("height", fmt_d (height s), false)]].

(** [GetRescissions]: the records whose key extends the poll prefix. *)
Definition GetRescissions (s : State) (pollID : string) : list RescindRecord :=
  (List.filter (λ kv, bool_decide (String.length (poll_prefix pollID) < String.length kv.1)%nat &&
                      in_poll pollID kv.1 kv.2) (map_to_list (rescissions s))).*2.
End authority.

Section properties.
Context `{C : Crypto}.

(** Both registered authorities signed [msg]: their keys are present and decode to
    32 bytes, and each signature verifies under its key. *)
Definition two_party (poll : Poll) (msg : string) (eligSig reconcileSig : gobytes) : Prop :=
  ∃ elig reconcile,
    base64_DecodeString (Poll_EligibilityAuthorityPubKey poll) = Some elig ∧
    base64_DecodeString (Poll_ReconcilingAuthorityPubKey poll) = Some reconcile ∧
    String.length elig = 32%nat ∧ String.length reconcile = 32%nat ∧
    ed25519_Verify elig msg (bytes_of eligSig) = true ∧
    ed25519_Verify reconcile msg (bytes_of reconcileSig) = true.

Lemma pubkey_size raw : negb (slen raw =? PublicKeySize) = false → String.length raw = 32%nat.
Proof. apply (slen_is raw 32). Qed.

Lemma validateAuthorityRescind_ok t (s s' : State) u :
  validateAuthorityRescind t s = (Ok u, s') →
  s' = s ∧ ∃ data poll, UnmarshalData t = Some data ∧
    let pollID := AuthorityRescindData_PollID data in
    let l1Key := voteStoreKey pollID (AuthorityRescindData_BallotID data) in
    polls s !! pollID = Some poll ∧
    two_party poll ("authority-rescind:" +:+ pollID +:+ ":" +:+ AuthorityRescindData_BallotID data +:+ ":" +:+
      AuthorityRescindData_IdentityHash data +:+ ":" +:+ AuthorityRescindData_RevocationRef data)
      (AuthorityRescindData_EligibilitySig data) (AuthorityRescindData_ReconcilingSig data) ∧
    is_Some (voteDirections s !! l1Key) ∧
    is_Some (voterRegistry s !! registry_key pollID (AuthorityRescindData_IdentityHash data)) ∧
    rescissions s !! l1Key = None.
Proof.
  unfold validateAuthorityRescind. intros H. minv H. unfold id in *. split; [done|].
  repeat select (negb (slen _ =? _) = false) (fun H => apply pubkey_size in H). bools.
  repeat select (has _ _ = true) (fun H => apply has_true in H).
  repeat select (has _ _ = false) (fun H => apply has_false in H).
  eexists _, _. split; [done|]. cbv zeta. split_and!; try done. eexists _, _. by split_and!.
Qed.

(** The lists after a rescission of a recorded ballot. *)
Lemma executeAuthorityRescind_run t (s : State) data vote :
  UnmarshalData t = Some data →
  let pollID := AuthorityRescindData_PollID data in
  let l1Key := voteStoreKey pollID (AuthorityRescindData_BallotID data) in
  let l2Key := registry_key pollID (AuthorityRescindData_IdentityHash data) in
  voteDirections s !! l1Key = Some vote →
  ∃ evs s', executeAuthorityRescind t s = (Ok evs, s') ∧ dirty s' = true ∧
    voteDirections s' = delete l1Key (voteDirections s) ∧
    voterRegistry s' = delete l2Key (voterRegistry s) ∧
    confirms s' = delete l2Key (confirms s) ∧ restores s' = restores s ∧
    rescissions s' = <[l1Key := mkRescindRecord pollID (AuthorityRescindData_BallotID data)
      (AuthorityRescindData_IdentityHash data) (AuthorityRescindData_RevocationRef data) (height s)]> (rescissions s).
Proof.
  intros Hd pollID l1Key l2Key Hv. unfold executeAuthorityRescind. rewrite Hd. mrun. unfold id. cbv zeta.
  fold pollID. fold l1Key. fold l2Key. rewrite Hv.
  set (s1 := s <| voteDirections ::= _ |> <| voterRegistry ::= _ |>).
  set (s2 := if has (confirms s) l2Key then s1 <| confirms ::= delete l2Key |>
    <| polls ::= alter (λ p, p <| Poll_ReattestationCount ::= dec_if_positive |>) pollID |> else s1).
  match goal with |- context [if has (confirms s) l2Key then ?m else _] =>
    assert ((if has (confirms s) l2Key then m else mret tt) s1 = (Ok tt, s2)) as ->
      by (subst s2; by destruct (has (confirms s) l2Key)) end. mrun.
  assert (voteDirections s2 = delete l1Key (voteDirections s) ∧ voterRegistry s2 = delete l2Key (voterRegistry s) ∧
    confirms s2 = delete l2Key (confirms s) ∧ restores s2 = restores s ∧ rescissions s2 = rescissions s ∧
    height s2 = height s) as (E1 & E2 & E3 & E4 & E5 & E6).
  { subst s2 s1. destruct (has (confirms s) l2Key) eqn:Hc; fields; split_and!; try done.
    apply has_false in Hc. by rewrite delete_id. }
  clearbody s2. clear s1.
  set (s3 := if bool_decide (VoteRecord_PartitionID vote = "sealed")
    then s2 <| polls ::= alter (λ p, p <| Poll_SealedCount ::= dec_if_positive |>) pollID |> else s2).
  match goal with |- context [if bool_decide ?P then ?m else _] =>
    assert ((if bool_decide P then m else mret tt) s2 = (Ok tt, s3)) as ->
      by (subst s3; by destruct (bool_decide P)) end. mrun.
  assert (voteDirections s3 = voteDirections s2 ∧ voterRegistry s3 = voterRegistry s2 ∧ confirms s3 = confirms s2 ∧
    restores s3 = restores s2 ∧ rescissions s3 = rescissions s2 ∧ height s3 = height s2)
    as (F1 & F2 & F3 & F4 & F5 & F6) by (subst s3; by destruct (bool_decide _)).
  clearbody s3. destruct (tallies s3 !! pollID) as [tally|]; unfold set_dirty; mrun;
    (eexists _, _; split; [done|]; split_and!; fields; congruence).
Qed.

(** C13. Rescission needs both authorities and removes one record from each list.  An
    accepted rescission carries the signatures of both registered keys over the
    poll, ballot, identity and reference; its execution removes exactly that
    ballot, that participant and their confirmation, logs the rescission, and the
    same ballot identifier can never be rescinded again. *)
Theorem rescind_two_party_and_bilateral (t t' : Tx) (s s' : State) :
  validateAuthorityRescind t s = (Ok tt, s') →
  s' = s ∧ ∃ (data : AuthorityRescindData) (poll : Poll) (evs : list Event) (s2 : State),
    UnmarshalData t = Some data ∧
    let pollID := AuthorityRescindData_PollID data in
    let ballotID := AuthorityRescindData_BallotID data in
    let identityHash := AuthorityRescindData_IdentityHash data in
    polls s !! pollID = Some poll ∧
    two_party poll ("authority-rescind:" +:+ pollID +:+ ":" +:+ ballotID +:+ ":" +:+ identityHash +:+ ":" +:+
      AuthorityRescindData_RevocationRef data)
      (AuthorityRescindData_EligibilitySig data) (AuthorityRescindData_ReconcilingSig data) ∧
    executeAuthorityRescind t s = (Ok evs, s2) ∧
    voteDirections s2 = delete (voteStoreKey pollID ballotID) (voteDirections s) ∧
    voterRegistry s2 = delete (registry_key pollID identityHash) (voterRegistry s) ∧
    confirms s2 = delete (registry_key pollID identityHash) (confirms s) ∧
    (L1_total s2 pollID + 1 = L1_total s pollID)%nat ∧ (L2_total s2 pollID + 1 = L2_total s pollID)%nat ∧
    is_Some (rescissions s2 !! voteStoreKey pollID ballotID) ∧
    ∀ data' : AuthorityRescindData, UnmarshalData t' = Some data' → AuthorityRescindData_PollID data' = pollID →
      AuthorityRescindData_BallotID data' = ballotID → res_ok (validateAuthorityRescind t' s2).1 = false.
Proof.
  intros (-> & data & poll & Hd & Hp & Htwo & [vote Hv] & Hr & Hre)%validateAuthorityRescind_ok.
  split; [done|].
  destruct (executeAuthorityRescind_run t s data vote Hd Hv) as (evs & s2 & Hrun & _ & E1 & E2 & E3 & _ & E5).
  exists data, poll, evs, s2. cbv zeta. split_and!; try done.
  - unfold L1_total. rewrite E1. rewrite <- (count_in_poll_delete _ (voteDirections s)
      (voteStoreKey (AuthorityRescindData_PollID data) (AuthorityRescindData_BallotID data))).
    by rewrite prefix_voteStoreKey, (proj2 (has_true _ _)) by eauto.
  - unfold L2_total. rewrite E2. rewrite <- (count_in_poll_delete _ (voterRegistry s)
      (registry_key (AuthorityRescindData_PollID data) (AuthorityRescindData_IdentityHash data))).
    by rewrite prefix_registry_key, (proj2 (has_true _ _)) by done.
  - rewrite E5, lookup_insert_eq. eauto.
  - intros data' Hd' Hpoll Hballot. destruct (validateAuthorityRescind t' s2) as [[u| |] s3] eqn:Hval; [|done..].
    apply validateAuthorityRescind_ok in Hval as (_ & data2 & poll2 & Hd2 & _ & _ & _ & _ & Hnone).
    rewrite Hd' in Hd2. injection Hd2 as <-. by rewrite Hpoll, Hballot, E5, lookup_insert_eq in Hnone.
Qed.

(** C14. Restoration needs both authorities and a prior rescission, and is granted at
    most once per participant; it writes the grant and touches neither list. *)
Theorem restore_presupposes_rescission (t t' : Tx) (s s' : State) :
  validateAuthorityRestore t s = (Ok tt, s') →
  s' = s ∧ ∃ (data : AuthorityRestoreData) (poll : Poll) (evs : list Event) (s2 : State),
    UnmarshalData t = Some data ∧
    let pollID := AuthorityRestoreData_PollID data in
    let identityHash := AuthorityRestoreData_IdentityHash data in
    polls s !! pollID = Some poll ∧
    two_party poll ("authority-restore:" +:+ pollID +:+ ":" +:+ AuthorityRestoreData_BallotID data +:+ ":" +:+
      identityHash +:+ ":" +:+ AuthorityRestoreData_RevocationRef data)
      (AuthorityRestoreData_EligibilitySig data) (AuthorityRestoreData_ReconcilingSig data) ∧
    is_Some (rescissions s !! voteStoreKey pollID (AuthorityRestoreData_BallotID data)) ∧
    HasRestoreGrant s pollID identityHash = false ∧
    executeAuthorityRestore t s = (Ok evs, s2) ∧ HasRestoreGrant s2 pollID identityHash = true ∧
    voteDirections s2 = voteDirections s ∧ voterRegistry s2 = voterRegistry s ∧
    (UnmarshalData t' = Some data → res_ok (validateAuthorityRestore t' s2).1 = false).
Proof.
  intros H. assert (∃ data poll, s' = s ∧ UnmarshalData t = Some data ∧
    polls s !! AuthorityRestoreData_PollID data = Some poll ∧
    two_party poll (restoreMessage (AuthorityRestoreData_PollID data) (AuthorityRestoreData_BallotID data)
      (AuthorityRestoreData_IdentityHash data) (AuthorityRestoreData_RevocationRef data))
      (AuthorityRestoreData_EligibilitySig data) (AuthorityRestoreData_ReconcilingSig data) ∧
    has (rescissions s) (voteStoreKey (AuthorityRestoreData_PollID data) (AuthorityRestoreData_BallotID data)) = true ∧
    has (restores s) (registry_key (AuthorityRestoreData_PollID data) (AuthorityRestoreData_IdentityHash data)) = false)
    as (data & poll & -> & Hd & Hp & Htwo & Hre & Hg).
  { unfold validateAuthorityRestore in H. minv H. unfold id in *.
    repeat select (negb (slen _ =? _) = false) (fun H => apply pubkey_size in H). bools.
    eexists _, _. split_and!; try done. eexists _, _. by split_and!. }
  split; [done|]. exists data, poll. cbv zeta. unfold executeAuthorityRestore. rewrite Hd. mrun.
  unfold set_dirty, id. mrun. eexists _, _. split_and!; try done; fields; try done.
  - by apply has_true.
  - apply has_true. fields. rewrite lookup_insert_eq. eauto.
  - intros Hd'. unfold validateAuthorityRestore. rewrite Hd'. mrun. unfold id. fields. rewrite Hp. mrun.
    destruct (_ || _); [done|]. destruct Htwo as (elig & reconcile & -> & -> & L1 & L2 & _). mrun.
    apply (slen_is elig 32) in L1. apply (slen_is reconcile 32) in L2.
    change PublicKeySize with 32. change (Z.of_nat 32) with 32 in *. rewrite L1. mrun. rewrite L2. mrun. rewrite Hre. mrun.
    by rewrite has_insert, bool_decide_true.
Qed.
End properties.
