(* ===== verification/Confirms.v ===== *)
(** domain/state/confirms.go: confirming a receipt, and domain/state/validators.go:
    the consensus validator set. *)
From S2P Require Import Prelude GoStd Json Types TxData Nonce Identity Keys VotingState Merkle TxValidate.

Section confirms.

Definition validateConfirmReceipt (now : Z) (transaction : Tx) : M State unit :=
  data ← or_fail (UnmarshalData (A := ConfirmReceiptData) transaction) (bad_json "invalid confirm receipt data: %w");
  let pollID := ConfirmReceiptData_PollID data in
  s ← gets id;
  poll ← or_fail (polls s !! pollID) (Errorf "poll not found: %s" [FStr pollID]);
  fail_if (now <? Poll_StartTime poll)
    (Errorf "poll %s has not started; receipts cannot be confirmed yet" [FStr pollID]) ;;
  idv ← or_fail (verifier s) (Errorf "no identity verifier configured for this deployment" []);
  identityHash ← or_fail (VerifyAndIdentifyConfirm idv data)
    (Errorf "confirm-receipt attestation invalid for poll %s: %w" [FStr pollID; FErr verifier_error]);
  let registryKey := registry_key pollID identityHash in
  fail_if (negb (has (voterRegistry s) registryKey))
    (Errorf "identity_hash %s has no ballot in poll %s" [FStr identityHash; FStr pollID]) ;;
  fail_if (has (confirms s) registryKey)
    (Errorf "receipt already confirmed for identity_hash %s in poll %s" [FStr identityHash; FStr pollID]).

Definition executeConfirmReceipt (transaction : Tx) : M State (list Event) :=
  data ← or_fail (UnmarshalData (A := ConfirmReceiptData) transaction) (bad_json "invalid confirm receipt data: %w");
  let pollID := ConfirmReceiptData_PollID data in
  s ← gets id;
  idv ← or_panic (verifier s);
  identityHash ← or_fail (VerifyAndIdentifyConfirm idv data)
    (Errorf "confirm-receipt attestation error during execute: %w" [FErr verifier_error]);
  let nextHeight := int64_inc (height s) in
  modify (λ s, s <| confirms ::= <[registry_key pollID identityHash := mkConfirmRecord pollID identityHash nextHeight]> |>) ;;
  update_poll pollID (λ p, p <| Poll_ReattestationCount ::= int64_inc |>) ;;
  modify (λ s, s <| tallies ::= alter (λ t, t <| Tally_ConfirmedCount := confirmedCountForPoll s pollID |>) pollID |>) ;;
  set_dirty ;;
  mret [mkEvent "confirmation_processed" [("scoping_id", pollID, true)]].
End confirms.

(** [validateValidatorRegister] only decodes the payload. *)
Definition validateValidatorRegister (transaction : Tx) : M State unit :=
  _ ← or_fail (UnmarshalData (A := ValidatorRegistrationData) transaction)
    (bad_json "invalid validator registration data: %w");
  mret tt.

Definition executeValidatorRegister (transaction : Tx) : M State (list Event) :=
  data ← or_fail (UnmarshalData (A := ValidatorRegistrationData) transaction)
    (bad_json "failed to unmarshal validator registration data: %w");
  let key := ValidatorRegistrationData_PubKeyBase64 data in
  let power := ValidatorRegistrationData_Power data in
  raw ← or_fail (base64_DecodeString key) (Errorf "pub_key_base64 decode failed: %w" [FErr base64_error]);
  (if power =? 0 then modify (λ s, s <| validators ::= delete key |>)
   else modify (λ s, s <| validators ::=
          <[key := mkValidatorRecord key power (ValidatorRegistrationData_Name data) (height s)]> |>)) ;;
  modify (λ s, s <| pendingValidatorUpdates ::= λ l, l ++ [mkValidatorUpdate raw power] |>) ;;
  set_dirty ;;
  mret [mkEvent "validator_registered"
    [("pub_key", key, false); ("power", fmt_d power, false); ("name", ValidatorRegistrationData_Name data, false)]].

(** [GetPendingValidatorUpdates] hands the queue out and empties it. *)
Definition GetPendingValidatorUpdates : M State (list ValidatorUpdate) :=
  updates ← gets pendingValidatorUpdates;
  modify (λ s, s <| pendingValidatorUpdates := [] |>) ;;
  mret updates.

(** A receipt is confirmed once, and only by a participant of the poll: an
    accepted confirmation belongs to a verified identity in List 2 without a
    confirmation; executing it records the confirmation at the next height, counts
    it on the poll and leaves both lists alone; the same participant is then
    refused. *)
Theorem confirm_receipt_once (now now' : Z) (t t' : Tx) (s s' : State) :
  validateConfirmReceipt now t s = (Ok tt, s') →
  s' = s ∧ ∃ (data : ConfirmReceiptData) (poll : Poll) (idv : IdentityVerifier) (h : string)
      (evs : list Event) (s2 : State),
    UnmarshalData t = Some data ∧
    let pollID := ConfirmReceiptData_PollID data in
    let key := registry_key pollID h in
    polls s !! pollID = Some poll ∧ Poll_StartTime poll ≤ now ∧ verifier s = Some idv ∧
    VerifyAndIdentifyConfirm idv data = Some h ∧
    is_Some (voterRegistry s !! key) ∧ confirms s !! key = None ∧
    executeConfirmReceipt t s = (Ok evs, s2) ∧
    confirms s2 = <[key := mkConfirmRecord pollID h (int64_inc (height s))]> (confirms s) ∧
    confirmedCountForPoll s2 pollID = confirmedCountForPoll s pollID + 1 ∧
    Poll_ReattestationCount <$> polls s2 !! pollID = Some (int64_inc (Poll_ReattestationCount poll)) ∧
    voteDirections s2 = voteDirections s ∧ voterRegistry s2 = voterRegistry s ∧
    (UnmarshalData t' = Some data → res_ok (validateConfirmReceipt now' t' s2).1 = false).
Proof.
  intros H. unfold validateConfirmReceipt in H. minv H. unfold id in *. bools.
  select (has _ _ = true) (fun H => apply has_true in H; rename H into Hr).
  select (has _ _ = false) (fun H => apply has_false in H; rename H into Hc).
  split; [done|]. eexists _, _, _, _. unfold executeConfirmReceipt.
  match goal with X1 : UnmarshalData t = Some ?d, X2 : polls s !! _ = Some ?p, X3 : verifier s = Some ?v,
    X4 : VerifyAndIdentifyConfirm _ _ = Some ?x |- _ =>
    rename d into data; rename p into poll; rename v into idv; rename x into h;
    rename X1 into Hd; rename X2 into Hp; rename X3 into Hv; rename X4 into Hi end.
  rewrite Hd. mrun. unfold id. rewrite Hv. mrun. rewrite Hi. mrun. unfold update_poll, set_dirty. mrun.
  eexists _, _. split; [done|]. cbv zeta. split_and!; try done; fields; try done.
  - unfold confirmedCountForPoll. fields. rewrite count_in_poll_insert, in_poll_registry_key.
    rewrite (proj2 (has_false _ _) Hc). cbn. lia.
  - by rewrite lookup_alter_eq, Hp.
  - intros Hd'. unfold validateConfirmReceipt. rewrite Hd'. mrun. unfold id. fields.
    rewrite lookup_alter_eq, Hp. cbn [fmap option_fmap option_map]. mrun. fields.
    destruct (now' <? _); [done|]. fields. rewrite Hv. mrun. rewrite Hi. mrun. fields.
    rewrite (proj2 (has_true _ _) Hr). cbn [negb]. mrun. by rewrite has_insert, bool_decide_true.
Qed.

(** The validator set: a registration updates the record of its key (power zero
    removes it) and queues exactly one consensus update; draining the queue hands
    out every queued update in order and empties it. *)
Theorem validator_registration_queued (t : Tx) (s : State) (data : ValidatorRegistrationData) (raw : string) :
  UnmarshalData t = Some data → base64_DecodeString (ValidatorRegistrationData_PubKeyBase64 data) = Some raw →
  let key := ValidatorRegistrationData_PubKeyBase64 data in
  let power := ValidatorRegistrationData_Power data in
  ∃ evs s1, executeValidatorRegister t s = (Ok evs, s1) ∧
    ValidatorRecord_Power <$> validators s1 !! key = (if power =? 0 then None else Some power) ∧
    (∀ k, k ≠ key → validators s1 !! k = validators s !! k) ∧
    ∃ s2, GetPendingValidatorUpdates s1 = (Ok (pendingValidatorUpdates s ++ [mkValidatorUpdate raw power]), s2) ∧
      pendingValidatorUpdates s2 = [] ∧ validators s2 = validators s1.
Proof.
  intros Hd Hraw key power. unfold executeValidatorRegister. rewrite Hd. mrun. rewrite Hraw. mrun.
  fold key power.
  set (s1 := if power =? 0 then s <| validators ::= delete key |>
    else s <| validators ::= <[key := mkValidatorRecord key power (ValidatorRegistrationData_Name data) (height s)]> |>).
  match goal with |- context [if power =? 0 then ?a else ?b] =>
    assert ((if power =? 0 then a else b) s = (Ok tt, s1)) as -> by (subst s1; by destruct (power =? 0)) end.
  unfold set_dirty. mrun. eexists _, _. split; [done|]. fields.
  assert (pendingValidatorUpdates s1 = pendingValidatorUpdates s) as Hpend by (subst s1; by destruct (power =? 0)).
  split_and!.
  - subst s1. destruct (power =? 0); fields; [by rewrite lookup_delete_eq|by rewrite lookup_insert_eq].
  - intros k Hk. subst s1. destruct (power =? 0); fields; [by rewrite lookup_delete_ne|by rewrite lookup_insert_ne].
  - unfold GetPendingValidatorUpdates. mrun. fields. rewrite Hpend. eexists. split; [done|]. by fields.
Qed.
