(* ===== verification/Persist.v ===== *)
(** The persistence half of domain/state/state.go: [computeAppHash], [Commit]
    and [loadState]. *)
From S2P Require Import Prelude GoStd Json Types TxData Nonce Identity Keys VotingState KVStore Tables.

(** ** Table keys *)
Definition p_poll := "poll:".
Definition p_vote := "vote:".
Definition p_voter := "voter:".
Definition p_tally := "tally:".
Definition p_validator := "validator:".
Definition p_confirm := "confirm:".
Definition p_rescind := "rescind:".
Definition p_restore := "restore:".

Definition commit_batch (s : State) : list (string * dbval) :=
  table p_poll (polls s) ++ table p_vote (voteDirections s) ++ table p_voter (voterRegistry s) ++
  table p_tally (tallies s) ++ table p_validator (validators s) ++ table p_confirm (confirms s) ++
  table p_rescind (rescissions s) ++ table p_restore (restores s).

Section persist.
Context `{C : Crypto}.

(** [computeAppHash]: the marshalled records of seven of the tables in key order. *)
Definition app_hash_input (s : State) : string :=
  hash_table (polls s) +:+ hash_table (voteDirections s) +:+ hash_table (voterRegistry s) +:+
  hash_table (tallies s) +:+ hash_table (validators s) +:+ hash_table (confirms s) +:+
  hash_table (rescissions s).
Definition computeAppHash (s : State) : string := sha256 (app_hash_input s).

(** [Commit]: a clean state returns the stored hash; a dirty one advances the hash
    and the height in memory, then writes the batch, which may fail. *)
Definition Commit {DB} `{KVStore DB} (db : DB) (s : State) : res gobytes * (State * DB) :=
  if dirty s then
    let h := computeAppHash s in
    let s1 := s <| appHash := Some h |> <| height ::= int64_inc |> in
    let batch := commit_batch s ++
      [("height", VBytes (fmt_d (height s1))); ("app_hash", VBytes h)] in
    match db_write db batch with
    | Some db' => (Ok (Some h), (s1 <| dirty := false |>, db'))
    | None => (Fail (Errorf "failed to write batch: %w" [FErr (Errorf "db" [])]), (s1, db))
    end
  else (Ok (appHash s), (s, db)).

(** [loadState]. *)
Definition loadState {DB} `{KVStore DB} (db : DB) (s : State) : option State :=
  h ← load_height db (height s);
  ah ← load_app_hash db (appHash s);
  ps ← load_table db p_poll (λ _, Poll_PollID);
  vs ← load_table db p_vote (λ k (_ : VoteRecord), k);
  rs ← load_table db p_voter (λ k (_ : VoterRecord), k);
  ts ← load_table db p_tally (λ _, Tally_PollID);
  va ← load_table db p_validator (λ _, ValidatorRecord_PubKeyBase64);
  cs ← load_table db p_confirm (λ _ r, registry_key (ConfirmRecord_PollID r) (ConfirmRecord_IdentityHash r));
  re ← load_table db p_rescind (λ _ r, voteStoreKey (RescindRecord_PollID r) (RescindRecord_BallotID r));
  st ← load_table db p_restore (λ _ r, registry_key (RestoreRecord_PollID r) (RestoreRecord_IdentityHash r));
  Some (s <| height := h |> <| appHash := ah |> <| polls := ps |> <| voteDirections := vs |>
          <| voterRegistry := rs |> <| tallies := ts |> <| validators := va |> <| confirms := cs |>
          <| rescissions := re |> <| restores := st |>).

(** [NewState]: load over the empty initial state. *)
Definition NewState {DB} `{KVStore DB} (db : DB) (sg : option Signer) : option State :=
  loadState db (initialState sg).
End persist.

(** ** Well-keyed states *)
(** Every record sits under the key it is reloaded under. *)
Definition keyed (s : State) : Prop :=
  map_Forall (λ k p, Poll_PollID p = k) (polls s) ∧
  map_Forall (λ k t, Tally_PollID t = k) (tallies s) ∧
  map_Forall (λ k v, ValidatorRecord_PubKeyBase64 v = k) (validators s) ∧
  map_Forall (λ k r, registry_key (ConfirmRecord_PollID r) (ConfirmRecord_IdentityHash r) = k) (confirms s) ∧
  map_Forall (λ k r, voteStoreKey (RescindRecord_PollID r) (RescindRecord_BallotID r) = k) (rescissions s) ∧
  map_Forall (λ k r, registry_key (RestoreRecord_PollID r) (RestoreRecord_IdentityHash r) = k) (restores s).
(** Every integer of every record is an [int64], as Go's types have it. *)
Definition in_range_records (s : State) : Prop :=
  map_Forall (λ _, Poll_ok) (polls s) ∧ map_Forall (λ _, Tally_ok) (tallies s) ∧
  map_Forall (λ _, ValidatorRecord_ok) (validators s) ∧ map_Forall (λ _, ConfirmRecord_ok) (confirms s) ∧
  map_Forall (λ _, RescindRecord_ok) (rescissions s) ∧ map_Forall (λ _, RestoreRecord_ok) (restores s).

(** The eight tables of [db] are those of [s]. *)
Definition stored {DB} `{KVStore DB} (db : DB) (s : State) : Prop :=
  stored_table db p_poll (polls s) ∧ stored_table db p_vote (voteDirections s) ∧
  stored_table db p_voter (voterRegistry s) ∧ stored_table db p_tally (tallies s) ∧
  stored_table db p_validator (validators s) ∧ stored_table db p_confirm (confirms s) ∧
  stored_table db p_rescind (rescissions s) ∧ stored_table db p_restore (restores s).
(** The tables of [s] over those of [old]. *)
Definition over (s old : State) : State :=
  s <| polls ::= λ m, m ∪ polls old |> <| voteDirections ::= λ m, m ∪ voteDirections old |>
    <| voterRegistry ::= λ m, m ∪ voterRegistry old |> <| tallies ::= λ m, m ∪ tallies old |>
    <| validators ::= λ m, m ∪ validators old |> <| confirms ::= λ m, m ∪ confirms old |>
    <| rescissions ::= λ m, m ∪ rescissions old |> <| restores ::= λ m, m ∪ restores old |>.

Lemma keyed_over s old : keyed s → keyed old → keyed (over s old).
Proof.
  intros (?&?&?&?&?&?) (?&?&?&?&?&?). unfold keyed, over. cbn.
  split_and!; apply map_Forall_union_2; done.
Qed.
Lemma in_range_over s old : in_range_records s → in_range_records old → in_range_records (over s old).
Proof.
  intros (?&?&?&?&?&?) (?&?&?&?&?&?). unfold in_range_records, over. cbn.
  split_and!; apply map_Forall_union_2; done.
Qed.

(** [batch_get] of one table of the whole batch: no table prefix is a prefix of
    another. *)
Ltac batch_lookup :=
  intros ?; unfold commit_batch; rewrite !batch_get_app, batch_get_meta by reflexivity;
  repeat first [rewrite batch_get_other by reflexivity | rewrite batch_get_table];
  cbn beta iota; try done; by destruct (_ !! _).

Section commit.
Context `{C : Crypto} {DB : Type} `{KVLaws DB}.

Definition meta (s : State) : list (string * dbval) :=
  [("height", VBytes (fmt_d (height s))); ("app_hash", VBytes (bytes_of (appHash s)))].
Lemma commit_stored (db db' : DB) (old s s' : State) h :
  stored db old → dirty s = true → Commit db s = (Ok h, (s', db')) →
  stored db' (over s old) ∧
  s' = s <| appHash := h |> <| height ::= int64_inc |> <| dirty := false |> ∧
  h = Some (computeAppHash s) ∧
  db_get db' "height" = Some (VBytes (fmt_d (height s'))) ∧
  db_get db' "app_hash" = Some (VBytes (computeAppHash s)).
Proof.
  intros Hst Hd. unfold Commit. rewrite Hd. cbv zeta.
  set (batch := _ ++ _). destruct (db_write db batch) as [db2|] eqn:Hw; [|done].
  intros [= <- <- <-]. destruct Hst as (?&?&?&?&?&?&?&?).
  split_and!; [|done|done| |].
  - unfold stored, over. cbn.
    split_and!; (eapply batch_table_get; [exact Hw| |done]); subst batch; batch_lookup.
  - rewrite (db_get_write _ _ _ _ Hw). fold (batch_get batch "height"). subst batch. by rewrite batch_get_app.
  - rewrite (db_get_write _ _ _ _ Hw). fold (batch_get batch "app_hash"). subst batch. by rewrite batch_get_app.
Qed.
End commit.

Section restart.
Context `{C : Crypto} {DB : Type} `{KVLaws DB}.

(** Loading a database that holds [s]'s tables, its height and its hash. *)
Lemma loadState_stored (db : DB) (s init : State) h ah :
  stored db s → keyed s → in_range_records s → int64_ok h →
  db_get db "height" = Some (VBytes (fmt_d h)) → db_get db "app_hash" = Some (VBytes ah) →
  loadState db init = Some (init <| height := h |> <| appHash := Some ah |> <| polls := polls s |>
    <| voteDirections := voteDirections s |> <| voterRegistry := voterRegistry s |>
    <| tallies := tallies s |> <| validators := validators s |> <| confirms := confirms s |>
    <| rescissions := rescissions s |> <| restores := restores s |>).
Proof.
  intros (?&?&?&?&?&?&?&?) (?&?&?&?&?&?) (?&?&?&?&?&?) Hh Eh Ea.
  unfold loadState, load_height, load_app_hash. rewrite Eh, Ea. cbn [raw_val mbind option_bind].
  rewrite scan_fmt_d by done. cbn [fmap option_fmap option_map mbind option_bind].
  rewrite (load_table_spec db p_poll _ (polls s)) by (first [done|intros k r Hk; split; [by apply of_to_json; eauto|by eauto]]).
  cbn [mbind option_bind].
  rewrite (load_table_spec db p_vote _ (voteDirections s)) by (first [done|intros k r Hk; split; [by apply of_to_json|done]]).
  cbn [mbind option_bind].
  rewrite (load_table_spec db p_voter _ (voterRegistry s)) by (first [done|intros k r Hk; split; [by apply of_to_json|done]]).
  cbn [mbind option_bind].
  rewrite (load_table_spec db p_tally _ (tallies s)) by (first [done|intros k r Hk; split; [by apply of_to_json; eauto|by eauto]]).
  cbn [mbind option_bind].
  rewrite (load_table_spec db p_validator _ (validators s)) by (first [done|intros k r Hk; split; [by apply of_to_json; eauto|by eauto]]).
  cbn [mbind option_bind].
  rewrite (load_table_spec db p_confirm _ (confirms s)) by (first [done|intros k r Hk; split; [by apply of_to_json; eauto|by eauto]]).
  cbn [mbind option_bind].
  rewrite (load_table_spec db p_rescind _ (rescissions s)) by (first [done|intros k r Hk; split; [by apply of_to_json; eauto|by eauto]]).
  cbn [mbind option_bind].
  rewrite (load_table_spec db p_restore _ (restores s)) by (first [done|intros k r Hk; split; [by apply of_to_json; eauto|by eauto]]).
  done.
Qed.

(** A commit of [s] over a database that holds [old], followed by a restart. *)
Lemma commit_restart (db db' : DB) (old s s' : State) h sg :
  stored db old → keyed old → in_range_records old → keyed s → in_range_records s →
  dirty s = true → Commit db s = (Ok h, (s', db')) →
  NewState db' sg = Some ((initialState sg) <| height := height s' |> <| appHash := appHash s' |>
    <| polls := polls s ∪ polls old |> <| voteDirections := voteDirections s ∪ voteDirections old |>
    <| voterRegistry := voterRegistry s ∪ voterRegistry old |> <| tallies := tallies s ∪ tallies old |>
    <| validators := validators s ∪ validators old |> <| confirms := confirms s ∪ confirms old |>
    <| rescissions := rescissions s ∪ rescissions old |> <| restores := restores s ∪ restores old |>).
Proof.
  intros Hst Ko Ro Ks Rs Hd Hc.
  destruct (commit_stored _ _ _ _ _ _ Hst Hd Hc) as (Hst' & -> & -> & Eh & Ea).
  unfold NewState. rewrite (loadState_stored _ _ _ _ _ Hst' (keyed_over _ _ Ks Ko)
    (in_range_over _ _ Rs Ro) (wrap64_ok _) Eh Ea). done.
Qed.
End restart.

Section properties.
Context `{C : Crypto} {DB : Type} `{KVLaws DB}.

(** C15. A commit on an empty database followed by a restart recovers the height, the
    app hash and every record of the eight tables; what is configuration or held
    in memory only (attestation counters, checkpoints, beacon window, pending
    validator updates) starts afresh. *)
Theorem Commit_NewState_roundtrip (db db' : DB) (s s' : State) (h : gobytes) (sg : option Signer) :
  (∀ k, db_get db k = None) → keyed s → in_range_records s →
  dirty s = true → Commit db s = (Ok h, (s', db')) →
  h = Some (computeAppHash s) ∧ height s' = int64_inc (height s) ∧
  NewState db' sg = Some ((initialState sg) <| height := height s' |> <| appHash := h |>
    <| polls := polls s |> <| voteDirections := voteDirections s |> <| voterRegistry := voterRegistry s |>
    <| tallies := tallies s |> <| validators := validators s |> <| confirms := confirms s |>
    <| rescissions := rescissions s |> <| restores := restores s |>).
Proof.
  intros Hdb Hk Hr Hd Hc.
  assert (stored db (initialState sg)) as Hst by (split_and!; intros k; by rewrite Hdb).
  destruct (commit_stored _ _ _ _ _ _ Hst Hd Hc) as (_ & -> & -> & _).
  split_and!; [done|done|].
  assert (keyed (initialState sg) ∧ in_range_records (initialState sg)) as [Ki Ri].
  { by split; split_and!; apply map_Forall_empty. }
  rewrite (commit_restart _ _ _ _ _ _ sg Hst Ki Ri Hk Hr Hd Hc). cbn. by rewrite !map_union_empty.
Qed.

(** A committed record that the state then deletes comes back: [Commit] writes
    but never deletes keys, so after the next commit and a restart List 1 holds
    the deleted vote again (and List 2 the deleted participant). *)
Theorem deleted_records_resurface (db db' : DB) (old s s' : State) (h : gobytes) (sg : option Signer)
    (k : string) (v : VoteRecord) (k2 : string) (r : VoterRecord) :
  stored db old → keyed old → in_range_records old → keyed s → in_range_records s →
  dirty s = true → Commit db s = (Ok h, (s', db')) →
  voteDirections old !! k = Some v → voteDirections s !! k = None →
  voterRegistry old !! k2 = Some r → voterRegistry s !! k2 = None →
  ∃ s2, NewState db' sg = Some s2 ∧
    voteDirections s2 !! k = Some v ∧ voterRegistry s2 !! k2 = Some r ∧
    voteDirections s' !! k = None ∧ voterRegistry s' !! k2 = None.
Proof.
  intros Hst Ko Ro Ks Rs Hd Hc Ek Es Ek2 Es2.
  eexists. split; [by eapply (commit_restart _ _ _ _ _ _ sg Hst)|].
  destruct (commit_stored _ _ _ _ _ _ Hst Hd Hc) as (_ & -> & _). cbn.
  rewrite !lookup_union, Ek, Es, Ek2, Es2. done.
Qed.

(** The three outcomes of a commit: a clean state returns the stored hash and
    touches nothing; a dirty one whose batch is written advances the height by
    one, stores the hash of the state and becomes clean; when the write fails the
    error is returned but the height and the hash have already advanced. *)
Theorem Commit_spec (db : DB) (s : State) :
  let '(r, (s', db')) := Commit db s in
  if dirty s then
    height s' = int64_inc (height s) ∧ appHash s' = Some (computeAppHash s) ∧
    voteDirections s' = voteDirections s ∧ voterRegistry s' = voterRegistry s ∧
    match r with
    | Ok h => h = appHash s' ∧ dirty s' = false ∧ db_get db' "app_hash" = VBytes <$> h
    | _ => dirty s' = true ∧ db' = db
    end
  else r = Ok (appHash s) ∧ s' = s ∧ db' = db.
Proof.
  unfold Commit. destruct (dirty s) eqn:Hd; [|done]. cbv zeta. set (batch := _ ++ _).
  destruct (db_write db batch) as [db'|] eqn:Hw; cbn; split_and!; try done.
  rewrite (db_get_write _ _ _ _ Hw). fold (batch_get batch "app_hash"). subst batch. by rewrite batch_get_app.
Qed.
End properties.
