(* ===== verification/App.v ===== *)
(** The dispatch of domain/state/state.go ([ValidateTx], [ExecuteTx]) and the ABCI
    application of app/app.go around it. *)
From S2P Require Import Prelude GoStd Json Types TxData Nonce TxValidate Identity Keys VotingState Merkle Polls.
From S2P Require Import Tallies Ballots BatchFlush Reseal Authority Confirms KVStore Tables Persist.

Definition direct_cast_error : error :=
  Errorf "direct ballot materialization disabled: submit ballots through the queued API and flush via batch transaction" [].

Section app.
Context `{C : Crypto}.

(** [ValidateTx]. *)
Definition ValidateTx (now : clock) (transaction : Tx) : M State unit :=
  let ty := Tx_Type transaction in
  if ty =? TxTypePollCreate then validatePollCreate (now 0%nat) transaction
  else if ty =? TxTypeBallotCast then failM direct_cast_error
  else if ty =? TxTypePollClose then validatePollClose (now 0%nat) transaction
  else if ty =? TxTypeRegisterValidator then validateValidatorRegister transaction
  else if ty =? TxTypeConfirmReceipt then validateConfirmReceipt (now 0%nat) transaction
  else if ty =? TxTypeUpdateBallot then validateBallotUpdate (now 0%nat) transaction
  else if ty =? TxTypeBatchFlush then validateBatchFlush now transaction
  else if ty =? TxTypeResealVote then validateResealVote transaction
  else if ty =? TxTypeAuthorityRescind then validateAuthorityRescind transaction
  else if ty =? TxTypeAuthorityRestore then validateAuthorityRestore transaction
  else failM (Errorf "unknown transaction type: %d" [FInt ty]).

(** [ExecuteTx]. *)
Definition ExecuteTx (now : clock) (transaction : Tx) : M State (list Event) :=
  let ty := Tx_Type transaction in
  if ty =? TxTypePollCreate then executePollCreate (now 0%nat) transaction
  else if ty =? TxTypeBallotCast then failM direct_cast_error
  else if ty =? TxTypePollClose then executePollClose (now 0%nat) transaction
  else if ty =? TxTypeRegisterValidator then executeValidatorRegister transaction
  else if ty =? TxTypeConfirmReceipt then executeConfirmReceipt transaction
  else if ty =? TxTypeUpdateBallot then executeBallotUpdate transaction
  else if ty =? TxTypeBatchFlush then executeBatchFlush now transaction
  else if ty =? TxTypeResealVote then executeResealVote transaction
  else if ty =? TxTypeAuthorityRescind then executeAuthorityRescind transaction
  else if ty =? TxTypeAuthorityRestore then executeAuthorityRestore transaction
  else failM (Errorf "unknown transaction type: %d" [FInt ty]).

(** ** app/app.go *)
(** [CheckTx]: a response code with the error it logs. *)
Record ResponseCheckTx := mkResponseCheckTx { CheckTx_Code : Z; CheckTx_Log : option error }.
Definition wrap_log (format : string) (e : error) : option error := Some (Errorf format [FErr e]).
Definition CheckTx (now : clock) (doc : option json) : M State ResponseCheckTx :=
  match DecodeTx doc with
  | None => mret (mkResponseCheckTx 1 (wrap_log "invalid tx encoding: %v" json_error))
  | Some transaction =>
      r ← try (Validate transaction);
      match r with
      | Ok _ =>
          r ← try (ValidateTx now transaction);
          mret (match r with
                | Ok _ => mkResponseCheckTx 0 None
                | Fail e => mkResponseCheckTx 3 (wrap_log "tx validation failed: %v" e)
                | Panic => mkResponseCheckTx 3 None
                end)
      | Fail e => mret (mkResponseCheckTx 2 (wrap_log "invalid tx: %v" e))
      | Panic => panicM
      end
  end.

(** [FinalizeBlock]. *)
Record ExecTxResult := mkExecTxResult { Exec_Code : Z; Exec_Log : option error; Exec_Events : list Event }.
Record RequestFinalizeBlock := mkRequestFinalizeBlock {
  Req_Height : Z; Req_Hash : string; Req_Txs : list (option json) }.
Record ResponseFinalizeBlock := mkResponseFinalizeBlock {
  Res_TxResults : list ExecTxResult; Res_ValidatorUpdates : list ValidatorUpdate; Res_AppHash : gobytes }.

Definition exec_tx (now : clock) (doc : option json) : M State ExecTxResult :=
  match DecodeTx doc with
  | None => mret (mkExecTxResult 1 (wrap_log "invalid tx encoding: %v" json_error) [])
  | Some transaction =>
      r ← try (ExecuteTx now transaction);
      mret (match r with
            | Ok events => mkExecTxResult 0 None events
            | Fail e => mkExecTxResult 4 (wrap_log "tx execution failed: %v" e) []
            | Panic => mkExecTxResult 4 None []
            end)
  end.
(** The loop over the transactions; each has its own clock readings. *)
Fixpoint exec_txs (now : nat → clock) (i : nat) (txs : list (option json)) : M State (list ExecTxResult) :=
  match txs with
  | [] => mret []
  | doc :: rest => r ← exec_tx (now i) doc; rs ← exec_txs now (S i) rest; mret (r :: rs)
  end.
Definition run_block (now : nat → clock) (req : RequestFinalizeBlock) :
    M State (list ExecTxResult * list ValidatorUpdate) :=
  RecordBeacon (Req_Height req) (hex_EncodeToString (Req_Hash req)) ;;
  results ← exec_txs now 0 (Req_Txs req);
  updates ← GetPendingValidatorUpdates;
  mret (results, updates).
Definition FinalizeBlock {DB} `{KVStore DB} (now : nat → clock) (db : DB) (req : RequestFinalizeBlock) (s : State) :
    res ResponseFinalizeBlock * (State * DB) :=
  match run_block now req s with
  | (Ok (results, updates), s1) =>
      match Commit db s1 with
      | (Ok h, sd) => (Ok (mkResponseFinalizeBlock results updates h), sd)
      | (Fail e, sd) => (Fail (Errorf "commit failed: %v" [FErr e]), sd)
      | (Panic, sd) => (Panic, sd)
      end
  | (Fail e, s1) => (Fail e, (s1, db))
  | (Panic, s1) => (Panic, (s1, db))
  end.

(** The chain: blocks finalized one after another, each with its own clocks. *)
Fixpoint run_blocks {DB} `{KVStore DB} (now : nat → nat → clock) (db : DB) (s : State)
    (reqs : list RequestFinalizeBlock) : State * DB :=
  match reqs with
  | [] => (s, db)
  | req :: rest =>
      let '(_, (s', db')) := FinalizeBlock (now (length rest)) db req s in run_blocks now db' s' rest
  end.

(** [Info]: the last block height and hash reported on startup. *)
Definition Info (s : State) : Z * gobytes := GetInfo s.
End app.
