(* ===== verification/Invariants.v ===== *)
(** What every run of the application keeps: tables keyed by their own records, an
    authority log that only grows, and a mempool check that writes nothing but the
    opening of polls. *)
From S2P Require Import Prelude GoStd Json Types TxData Nonce TxValidate Identity Keys VotingState Merkle Polls.
From S2P Require Import Tallies Ballots BatchFlush Reseal Authority Confirms KVStore Tables Persist App.

(** ** The relations *)
Definition keyed_rel (s s' : State) : Prop := keyed s → keyed s'.
(** No rescission and no restoration disappears. *)
Definition log_rel (s s' : State) : Prop :=
  (∀ k, is_Some (rescissions s !! k) → is_Some (rescissions s' !! k)) ∧
  (∀ k, is_Some (restores s !! k) → is_Some (restores s' !! k)).
(** A poll, possibly opened. *)
Definition poll_opened (p p' : Poll) : Prop :=
  p' = p ∨ (Poll_Status p = "pending" ∧ p' = p <| Poll_Status := "open" |>).
(** Same state except that pending polls may be open. *)
Definition only_opened (s s' : State) : Prop :=
  ∃ ps, s' = s <| polls := ps |> ∧ ∀ k, option_Forall2 poll_opened (polls s !! k) (ps !! k).
(** Both lists are untouched. *)
Definition lists_rel (s s' : State) : Prop :=
  voteDirections s' = voteDirections s ∧ voterRegistry s' = voterRegistry s.

#[export] Instance keyed_rel_refl : Reflexive keyed_rel.
Proof. by intros s ?. Qed.
#[export] Instance keyed_rel_trans : Transitive keyed_rel.
Proof. intros s1 s2 s3 H1 H2 H. by apply H2, H1. Qed.
#[export] Instance log_rel_refl : Reflexive log_rel.
Proof. by split. Qed.
#[export] Instance log_rel_trans : Transitive log_rel.
Proof. intros s1 s2 s3 [H1 H2] [H3 H4]. split; auto. Qed.
#[export] Instance lists_rel_refl : Reflexive lists_rel.
Proof. by split. Qed.
#[export] Instance lists_rel_trans : Transitive lists_rel.
Proof. intros s1 s2 s3 [H1 H2] [H3 H4]. split; congruence. Qed.
#[export] Instance poll_opened_refl : Reflexive poll_opened.
Proof. intros p. by left. Qed.
#[export] Instance poll_opened_trans : Transitive poll_opened.
Proof.
  intros p1 p2 p3 [->|[H1 ->]] [->|[H2 ->]]; [by left|by right|by right|]. by destruct p1.
Qed.
#[export] Instance only_opened_refl : Reflexive only_opened.
Proof. intros s. exists (polls s). split; [by destruct s|]. intros k. destruct (polls s !! k); by constructor. Qed.
#[export] Instance only_opened_trans : Transitive only_opened.
Proof.
  intros s1 s2 s3 (p1 & -> & H1) (p2 & -> & H2). exists p2. split; [by destruct s1|].
  intros k. specialize (H1 k). specialize (H2 k). fields. revert H2. fields. intros H2.
  destruct H1 as [p p' H1|]; inversion H2 as [? p'' H3|]; subst; constructor. by etrans.
Qed.

Ltac log_solve :=
  repeat match goal with |- ∀ _, _ => intros ? end; unfold log_rel; fields; split; intros ?;
  first [done|rewrite lookup_insert; case_decide; by eauto].

Section invariants.
Context `{C : Crypto}.

Lemma commitRollingAttestation_keeps R now pollID :
  Reflexive R → (∀ s s', same_but_attestation s s' → R s s') → keeps R (commitRollingAttestation now pollID).
Proof.
  intros Hr HR s. destruct (commitRollingAttestation now pollID s) as [r s'] eqn:E.
  by apply commitRollingAttestation_frame in E as [? _]; auto.
Qed.
Lemma sba_log s s' : same_but_attestation s s' → log_rel s s'.
Proof. intros (c & k & d & ->). unfold log_rel. by fields. Qed.



(** A flush keeps whatever its three kinds of write keep. *)
Lemma executeBatchFlush_keeps R now t :
  Reflexive R → Transitive R → (∀ s s', same_but_attestation s s' → R s s') →
  (∀ s cs, R s (batch_lists cs s)) →
  (∀ s f k, R s (s <| polls ::= alter (λ p, p <| Poll_IDVCastCount ::= f |>) k |>)) →
  keeps R (executeBatchFlush now t).
Proof.
  intros Hr Ht Hsba Hlists Hpolls.
  assert (∀ subs i, keeps R (collect_candidates i subs)) as Hcollect.
  { induction subs as [|sub subs IH]; intros i; cbn [collect_candidates]; keeps_auto. apply IH. }
  assert (∀ fuel pollID, keeps R (rolling_loop fuel now pollID)) as Hloop.
  { induction fuel as [|f IH]; intros pollID; cbn [rolling_loop]; keeps_auto; auto using sba_counts.
    by apply commitRollingAttestation_keeps. }
  unfold executeBatchFlush, flush_attest, update_poll, set_dirty. keeps_auto; auto using sba_counts, sba_dirty.
  rewrite materialize_batch. apply Hlists.
Qed.

Ltac each_case := unfold ExecuteTx; cbv zeta; repeat (apply keeps_if); try (apply keeps_fail; apply _).

Lemma ExecuteTx_log now t : keeps log_rel (ExecuteTx now t).
Proof.
  each_case.
  - unfold executePollCreate, set_dirty. keeps_auto; log_solve.
  - unfold executePollClose, update_poll, set_dirty. keeps_auto.
    destruct (collectPollLists _ _ _ _) as [[ids hs] cs]. keeps_auto; log_solve.
  - unfold executeValidatorRegister, set_dirty. keeps_auto; log_solve.
  - unfold executeConfirmReceipt, update_poll, set_dirty. keeps_auto; log_solve.
  - unfold executeBallotUpdate, set_dirty. keeps_auto; log_solve.
  - apply executeBatchFlush_keeps; [apply _..|apply sba_log| |]; intros; [unfold batch_lists|]; log_solve.
  - unfold executeResealVote, update_poll, set_dirty. keeps_auto; log_solve.
  - unfold executeAuthorityRescind, update_poll, set_dirty. keeps_auto; log_solve.
  - unfold executeAuthorityRestore, set_dirty. keeps_auto; log_solve.
Qed.

(** A block keeps what its transactions and the beacon and queue updates keep. *)
Lemma run_block_keeps R now req :
  Reflexive R → Transitive R → (∀ now t, keeps R (ExecuteTx now t)) →
  (∀ s f, R s (s <| beaconWindow ::= f |>)) → (∀ s, R s (s <| pendingValidatorUpdates := [] |>)) →
  keeps R (run_block now req).
Proof.
  intros Hr Ht Htx Hb Hq. unfold run_block, RecordBeacon, GetPendingValidatorUpdates. keeps_auto; auto.
  generalize 0%nat. induction (Req_Txs req) as [|doc txs IH]; intros i; cbn [exec_txs]; keeps_auto; auto.
  unfold exec_tx. apply keeps_option; intros; keeps_auto. apply Htx.
Qed.
Lemma FinalizeBlock_keeps {DB} `{KVStore DB} R now (db : DB) req s :
  Reflexive R → Transitive R → (∀ now t, keeps R (ExecuteTx now t)) →
  (∀ s f, R s (s <| beaconWindow ::= f |>)) → (∀ s, R s (s <| pendingValidatorUpdates := [] |>)) →
  (∀ s h d, R s (s <| appHash := h |> <| height ::= int64_inc |> <| dirty := d |>)) →
  R s (FinalizeBlock now db req s).2.1.
Proof.
  intros Hr Ht Htx Hb Hq Hc. pose proof (run_block_keeps R now req Hr Ht Htx Hb Hq s) as Hrun.
  unfold FinalizeBlock. destruct (run_block now req s) as [[[rs us]|e|] s1]; cbn in Hrun |- *; [|done..].
  assert (R s1 (Commit db s1).2.1) as Hc1.
  { unfold Commit. destruct (dirty s1) eqn:Hd; [|apply Hr]. destruct (db_write _ _); cbn [fst snd]; [apply Hc|].
    specialize (Hc s1 (Some (computeAppHash s1)) true). destruct s1; cbn in *; by subst. }
  destruct (Commit db s1) as [[h|e|] [s2 db2]]; cbn in *; by etrans.
Qed.
End invariants.

(** ** The mempool check *)
Section check.
Context `{C : Crypto}.

Lemma opened_only pollID s p :
  polls s !! pollID = Some p → Poll_Status p = "pending" → only_opened s (opened pollID s).
Proof.
  intros Hp Hst. exists (alter (λ p, p <| Poll_Status := "open" |>) pollID (polls s)). split; [done|].
  intros k. rewrite lookup_alter. case_decide; subst.
  - rewrite Hp. cbn. constructor. by right.
  - destruct (polls s !! k); by constructor.
Qed.
Lemma benign_keeps {A} (m : M State A) : benign m → keeps only_opened m.
Proof. intros H s. destruct (H s) as [-> _]. reflexivity. Qed.

Lemma ValidateNonce_keeps n : keeps only_opened (ValidateNonce n).
Proof. unfold ValidateNonce. keeps_auto. Qed.
Lemma ValidateBeacon_keeps h n w : keeps only_opened (ValidateBeacon h n w).
Proof. unfold ValidateBeacon. keeps_auto. Qed.
Lemma decode_pubkey_keeps e k : keeps only_opened (decode_pubkey e k).
Proof. unfold decode_pubkey. keeps_auto. Qed.
Lemma check_open_keeps now poll : keeps only_opened (check_open now poll).
Proof. unfold check_open. keeps_auto. Qed.
Lemma validateChoices_keeps poll cs : keeps only_opened (validateChoices poll cs).
Proof.
  unfold validateChoices. keeps_auto. generalize (@nil string).
  induction (elems cs) as [|c l IH]; intros seen; cbn [check_choices]; keeps_auto. apply IH.
Qed.
Ltac keeps_parts :=
  keeps_auto; try first [apply ValidateNonce_keeps|apply ValidateBeacon_keeps|apply decode_pubkey_keeps
    |apply check_open_keeps|apply validateChoices_keeps].

Lemma keeps_gets_polls {A} (k : gmap string Poll → M State A) :
  (∀ ps s, ps = polls s → only_opened s (k ps s).2) → keeps only_opened (gets polls ≫= k).
Proof. intros H s. by apply H. Qed.
(** The one write of a cast's validation: a pending poll is opened. *)
Lemma validateBallotCast_keeps now t : keeps only_opened (validateBallotCast now t).
Proof.
  unfold validateBallotCast. do 8 (apply keeps_bind; [apply _|by keeps_parts|]; intros ?).
  apply keeps_gets_polls. intros ps s Hps. cbn beta.
  rewrite bind_run, or_fail_run. destruct (ps !! _) as [poll|] eqn:Hp; [|reflexivity]. cbn beta iota.
  rewrite bind_run. pose proof (check_open_keeps now poll s) as Ho.
  destruct (check_open now poll s) as [[[]|e|] s1] eqn:E; [|done..]. apply check_open_ok in E as (-> & _).
  rewrite bind_run. destruct (bool_decide (Poll_Status poll = "pending") && _) eqn:Hpend.
  - bools. unfold update_poll. rewrite modify_run. cbn beta iota.
    etrans; [eapply (opened_only (BallotCastData_PollID a)); [by rewrite <- Hps|done]|].
    match goal with |- only_opened _ (?m ?s0).2 => enough (keeps only_opened m) as Hk by apply (Hk s0) end. keeps_parts.
  - rewrite mret_run. cbn beta iota.
    match goal with |- only_opened _ (?m ?s0).2 => enough (keeps only_opened m) as Hk by apply (Hk s0) end. keeps_parts.
Qed.
Lemma validateBatchFlush_keeps now t : keeps only_opened (validateBatchFlush now t).
Proof.
  unfold validateBatchFlush. keeps_auto. generalize (@nil string) at 1 as sb. generalize (@nil string) as sr. generalize 0%nat.
  induction (elems _) as [|sub subs IH]; intros i sr sb; cbn [check_submissions]; keeps_auto.
  - apply validateBallotCast_keeps.
  - apply IH.
Qed.
Lemma ValidateTx_keeps now t : keeps only_opened (ValidateTx now t).
Proof.
  unfold ValidateTx. cbv zeta. repeat (apply keeps_if); try (apply keeps_fail; apply _).
  - unfold validatePollCreate. keeps_auto.
    2-3: unfold check_key; keeps_auto.
    generalize (∅ : gset string). induction (elems _) as [|o l IH]; intros seen; cbn [check_options]; keeps_auto. apply IH.
  - unfold validatePollClose. keeps_auto.
  - unfold validateValidatorRegister. keeps_auto.
  - unfold validateConfirmReceipt. keeps_auto.
  - unfold validateBallotUpdate. keeps_parts.
  - apply validateBatchFlush_keeps.
  - unfold validateResealVote. keeps_parts.
  - unfold validateAuthorityRescind. keeps_auto.
  - unfold validateAuthorityRestore. keeps_auto.
Qed.
End check.

Section properties.
Context `{C : Crypto}.

Lemma run_blocks_keeps {DB} `{KVStore DB} R now (db : DB) reqs s :
  Reflexive R → Transitive R → (∀ now t, keeps R (ExecuteTx now t)) →
  (∀ s f, R s (s <| beaconWindow ::= f |>)) → (∀ s, R s (s <| pendingValidatorUpdates := [] |>)) →
  (∀ s h d, R s (s <| appHash := h |> <| height ::= int64_inc |> <| dirty := d |>)) →
  R s (run_blocks now db s reqs).1.
Proof.
  intros Hr Ht Htx Hb Hq Hc. revert db s. induction reqs as [|req reqs IH]; intros db s; cbn [run_blocks]; [apply Hr|].
  pose proof (FinalizeBlock_keeps R (now (length reqs)) db req s Hr Ht Htx Hb Hq Hc) as H1.
  destruct (FinalizeBlock _ db req s) as [r [s' db']]. cbn in H1. etrans; [exact H1|apply IH].
Qed.

(** A mempool check writes nothing to the state but the opening of pending polls,
    whatever it answers. *)
Theorem CheckTx_only_opens (now : clock) (doc : option json) (s : State) :
  only_opened s (CheckTx now doc s).2.
Proof.
  revert s. change (keeps only_opened (CheckTx now doc)). unfold CheckTx.
  apply keeps_option; [intros t|keeps_auto]. keeps_auto; [apply benign_keeps, Validate_benign|].
  destruct a; keeps_auto. apply ValidateTx_keeps.
Qed.


(** The authority log is append-only: no sequence of blocks removes a rescission
    or a restoration. *)
Theorem authority_log_append_only {DB} `{KVStore DB} (now : nat → nat → clock) (db : DB) (s : State)
    (reqs : list RequestFinalizeBlock) (k : string) :
  (is_Some (rescissions s !! k) → is_Some (rescissions (run_blocks now db s reqs).1 !! k)) ∧
  (is_Some (restores s !! k) → is_Some (restores (run_blocks now db s reqs).1 !! k)).
Proof.
  enough (log_rel s (run_blocks now db s reqs).1) as [H1 H2] by auto.
  apply run_blocks_keeps; [apply _..|apply ExecuteTx_log| | |]; intros ? **; by split.
Qed.

(** A ballot cast cannot reach the lists on its own: outside a batch it is refused
    by validation and by execution, and the state stays as it was. *)
Theorem direct_cast_disabled (now : clock) (t : Tx) (s : State) :
  Tx_Type t = TxTypeBallotCast →
  ValidateTx now t s = (Fail direct_cast_error, s) ∧ ExecuteTx now t s = (Fail direct_cast_error, s).
Proof. intros Ht. unfold ValidateTx, ExecuteTx. by rewrite Ht. Qed.

(** The height reported to consensus counts commits that had something to write,
    not blocks: after an empty block of any height on a clean state, [Info]
    answers what it answered before. *)
Theorem empty_block_keeps_info {DB} `{KVStore DB} (now : nat → clock) (db : DB) (h : Z) (hash : string) (s : State) :
  dirty s = false →
  ∃ s', FinalizeBlock now db (mkRequestFinalizeBlock h hash []) s =
      (Ok (mkResponseFinalizeBlock [] (pendingValidatorUpdates s) (appHash s)), (s', db)) ∧
    Info s' = Info s ∧ beaconWindow s' = record_beacon h (hex_EncodeToString hash) (beaconWindow s).
Proof.
  intros Hd. unfold FinalizeBlock, run_block, RecordBeacon, GetPendingValidatorUpdates. cbn [Req_Txs Req_Height Req_Hash exec_txs].
  mrun. fields. unfold Commit. fields. rewrite Hd. cbn iota. eexists. split; [done|]. unfold Info, GetInfo. by fields.
Qed.

(** A block that closes a poll the state does not know panics instead of failing
    the transaction: execution does not validate, and [executePollClose]
    dereferences the missing poll. *)
Theorem close_unknown_poll_panics {DB} `{KVStore DB} (now : nat → clock) (db : DB) (h : Z) (hash : string)
    (doc : option json) (t : Tx) (data : PollCloseData) (rest : list (option json)) (s : State) :
  DecodeTx doc = Some t → Tx_Type t = TxTypePollClose → UnmarshalData t = Some data →
  polls s !! PollCloseData_PollID data = None →
  (FinalizeBlock now db (mkRequestFinalizeBlock h hash (doc :: rest)) s).1 = Panic.
Proof.
  intros Hdoc Ht Hd Hp. unfold FinalizeBlock, run_block, RecordBeacon. cbn [Req_Txs Req_Height Req_Hash exec_txs].
  mrun. unfold exec_tx. rewrite Hdoc. mrun. unfold try, ExecuteTx. rewrite Ht. cbn -[executePollClose].
  unfold executePollClose. rewrite Hd. mrun. unfold id. fields. rewrite Hp. done.
Qed.
End properties.
