(* ===== verification/Determinism.v ===== *)
(** What replicas agree on: the app hash as a function of the state, and where the
    state itself depends on the replica that computes it. *)
From S2P Require Import Prelude GoStd Json Types TxData Nonce TxValidate Identity Keys VotingState Merkle Polls.
From S2P Require Import Tallies Ballots KVStore Tables Persist.

(** ** A record's place in the hash input *)
Lemma str_join_mid (l1 l2 : list string) sep : ∃ p q, ∀ x, str_join (l1 ++ x :: l2) sep = p +:+ x +:+ q.
Proof.
  induction l1 as [|y l1 (p & q & IH)].
  - destruct l2 as [|z l2]; [exists "", ""|exists "", (sep +:+ str_join (z :: l2) sep)]; intros x; cbn [app str_join];
      [by rewrite str_app_nil_r|done].
  - exists (y +:+ sep +:+ p), q. intros x. cbn [app].
    transitivity (y +:+ sep +:+ str_join (l1 ++ x :: l2) sep); [by destruct l1|]. by rewrite IH, !str_app_assoc.
Qed.
Lemma object_text_mid (l1 l2 : list (string * json)) k :
  ∃ p q, ∀ j, json_text (JObj (l1 ++ (k, j) :: l2)) = p +:+ json_text j +:+ q.
Proof.
  destruct (str_join_mid ((λ kv, quote kv.1 +:+ ":" +:+ json_text kv.2) <$> l1)
    ((λ kv, quote kv.1 +:+ ":" +:+ json_text kv.2) <$> l2) ",") as (p & q & H).
  exists ("{" +:+ p +:+ quote k +:+ ":"), (q +:+ "}"). intros j. cbn [json_text].
  rewrite fmap_app. cbn [fmap list_fmap fst snd].
  replace (list_fmap _ _ (λ kv : string * json, quote kv.1 +:+ ":" +:+ json_text kv.2) l2)
    with ((λ kv : string * json, quote kv.1 +:+ ":" +:+ json_text kv.2) <$> l2) by done.
  rewrite H. by rewrite !str_app_assoc.
Qed.
(** Changing one record of a table changes one segment of its hash input. *)
Lemma hash_table_mid {V} `{Json V} (m : gmap string V) k :
  ∃ p q, ∀ v, hash_table (<[k:=v]> m) = p +:+ marshal v +:+ q.
Proof.
  assert (∀ v, sort_Strings (map_keys (<[k:=v]> m)) = sort_Strings (k :: map_keys (delete k m))) as Hkeys.
  { intros v. apply sort_Strings_unique. rewrite <- insert_delete_eq. unfold map_keys.
    by rewrite map_to_list_insert by apply lookup_delete_eq. }
  assert (NoDup (sort_Strings (k :: map_keys (delete k m)))) as Hnd.
  { rewrite sort_Strings_perm. apply NoDup_cons. split; [|apply NoDup_fst_map_to_list].
    rewrite map_keys_elem, lookup_delete_eq. by intros [? [=]]. }
  assert (k ∈ sort_Strings (k :: map_keys (delete k m))) as Hin by (rewrite sort_Strings_perm; by left).
  unfold hash_table. setoid_rewrite Hkeys.
  destruct (list_elem_of_split _ _ Hin) as (l1 & l2 & E). rewrite E in *. clear E Hkeys Hin.
  apply NoDup_app in Hnd as (_ & Hd1 & [Hd2 _]%NoDup_cons).
  set (g := λ m' : gmap string V, λ k s, default "" (marshal <$> m' !! k) +:+ s).
  exists (foldr (g m) "" l1), (foldr (g m) "" l2). intros v.
  assert (∀ l s, k ∉ l → foldr (g (<[k:=v]> m)) s l = foldr (g m) s l) as Hext.
  { induction l as [|k' l IH]; intros s Hk; cbn [foldr]; [done|]. apply not_elem_of_cons in Hk as [? ?].
    rewrite IH by done. unfold g at 1 3. by rewrite lookup_insert_ne. }
  assert (∀ l s, foldr (g m) s l = foldr (g m) "" l +:+ s) as Hacc.
  { induction l as [|k' l IH]; intros s; cbn [foldr]; [done|]. rewrite IH. unfold g at 1 3. by rewrite str_app_assoc. }
  rewrite foldr_app. cbn [foldr]. rewrite (Hext l1) by (intros ?; eapply Hd1; [done|by left]). rewrite (Hext l2) by done. rewrite Hacc.
  unfold g at 2. by rewrite lookup_insert_eq.
Qed.

Section clock.
Context `{C : Crypto}.

Lemma new_poll_text data : ∃ p q, ∀ now, marshal (new_poll now data) = p +:+ fmt_d now +:+ q.
Proof.
  set (l := match to_json (new_poll 0 data) with JObj l => l | _ => [] end).
  destruct (object_text_mid (take 8 l) (drop 9 l) "created_at") as (p & q & H).
  exists p, q. intros now. exact (H (JInt now)).
Qed.
Lemma str_app_cancel p q x y : p +:+ x +:+ q = p +:+ y +:+ q → x = y.
Proof.
  intros H%(inj (String.append p)). apply (f_equal String.length) in H as Hl. rewrite !str_app_length in Hl.
  by apply str_app_inj_len in H as [-> _]; [|lia].
Qed.

(** The app hash is not a function of the transactions: two replicas that create
    the same poll on the same state at different readings of their own clocks
    hash different inputs, so they agree on the app hash only by a collision. *)
Theorem app_hash_depends_on_clock (now1 now2 : Z) (t : Tx) (data : PollCreateData) (s : State) :
  UnmarshalData t = Some data → now1 ≠ now2 →
  let s1 := (executePollCreate now1 t s).2 in
  let s2 := (executePollCreate now2 t s).2 in
  app_hash_input s1 ≠ app_hash_input s2 ∧
  (collision_free [app_hash_input s1] [app_hash_input s2] → computeAppHash s1 ≠ computeAppHash s2).
Proof.
  intros Hd Hne s1 s2.
  enough (app_hash_input s1 ≠ app_hash_input s2) as H 
    by (split; [done|]; intros Hf Heq; by apply H, collision_free1).
  unfold s1, s2, executePollCreate, set_dirty. rewrite Hd. mrun. cbn [snd]. unfold app_hash_input. fields.
  destruct (hash_table_mid (polls s) (PollCreateData_PollID data)) as (p & q & Ht).
  destruct (new_poll_text data) as (p' & q' & Hp). rewrite !Ht, !Hp, !str_app_assoc.
  intros Heq. apply Hne. apply (inj pretty). apply (inj (String.append p)) in Heq.
  by apply (str_app_cancel p' (q' +:+ q +:+ hash_table (voteDirections s) +:+ hash_table (voterRegistry s) +:+
    hash_table (tallies s) +:+ hash_table (validators s) +:+ hash_table (confirms s) +:+ hash_table (rescissions s))).
Qed.

(** Restore grants are outside the app hash although they decide what is accepted:
    for a participant who already has a ballot, the same cast is accepted by the
    state that holds a grant and refused by the one that does not, and the two
    states have one hash. *)
Theorem same_hash_different_verdict (now : Z) (t : Tx) (data : BallotCastData) (s s1 : State)
    (idv : IdentityVerifier) (h : string) (g : RestoreRecord) (r : VoterRecord) :
  UnmarshalData t = Some data → verifier s = Some idv → VerifyAndIdentify idv data = Some h →
  let key := registry_key (BallotCastData_PollID data) h in
  voterRegistry s !! key = Some r → restores s !! key = None →
  validateBallotCast now t (s <| voterRegistry ::= delete key |>) = (Ok tt, s1) →
  let granted := s <| restores ::= <[key := g]> |> in
  computeAppHash granted = computeAppHash s ∧
  res_ok (validateBallotCast now t granted).1 = true ∧ res_ok (validateBallotCast now t s).1 = false.
Proof.
  intros Hd Hv Hi key Hr Hg H granted. split; [done|]. split.
  - apply validateBallotCast_facts in H
      as (data' & poll & pub & idv' & h' & Hd' & Hn & Hb & Hk & Hl & Hsig & Hp & Hw & Hst & Hc & Hv' & Hi' & _ & _).
    rewrite Hd in Hd'. injection Hd' as <-.
    rewrite (validateBallotCast_accepts now t granted data poll pub idv h); try done;
      [by eapply ValidateNonce_any|by eapply ValidateBeacon_any|].
    right. unfold granted. fields. fold key. rewrite lookup_insert_eq. eauto.
  - destruct (validateBallotCast now t s) as [[[]| |] s2] eqn:E; [|done..].
    apply validateBallotCast_facts in E
      as (data' & _ & _ & idv' & h' & Hd' & _ & _ & _ & _ & _ & _ & _ & _ & _ & Hv' & Hi' & Hreg & _).
    rewrite Hd in Hd'. injection Hd' as <-. rewrite Hv in Hv'. injection Hv' as <-.
    rewrite Hi in Hi'. injection Hi' as <-. fold key in Hreg. rewrite Hr, Hg in Hreg. by destruct Hreg as [|[]].
Qed.
End clock.
