(* ===== verification/CountMatch.v ===== *)
(** The invariant the protocol is named for: both lists of a poll have the same
    size.  A transition system over validated transactions, and the invariant on
    every state it reaches. *)
From S2P Require Import Prelude GoStd Json Types TxData Nonce TxValidate Identity Keys VotingState Merkle Polls.
From S2P Require Import Tallies Ballots BatchFlush Reseal Authority Confirms KVStore Tables Persist App Invariants.

Definition count_match (s : State) : Prop := sizes_match (voteDirections s) (voterRegistry s).

Lemma match_lists s s' : count_match s → lists_rel s s' → count_match s'.
Proof. intros Hs [E1 E2]. unfold count_match. by rewrite E1, E2. Qed.

(** ** Transitions *)
Section steps.
Context `{C : Crypto}.

(** The identifiers a transaction introduces are new: a batch names ballots and
    participants that neither list has, a direction change an identifier List 1
    does not have. *)
Definition fresh (s : State) (t : Tx) : Prop :=
  (Tx_Type t = TxTypeBatchFlush → ∀ (data : BatchFlushData) (idv : IdentityVerifier) (cs : list batchCandidate),
     UnmarshalData t = Some data → verifier s = Some idv →
     Forall2 (is_candidate idv) (elems (BatchFlushData_Submissions data)) cs →
     ∀ c, c ∈ cs → voteDirections s !! cand_key1 c = None ∧ voterRegistry s !! cand_key2 c = None) ∧
  (Tx_Type t = TxTypeUpdateBallot → ∀ data : BallotUpdateData, UnmarshalData t = Some data →
     elems (BallotUpdateData_NewChoices data) ≠ [] →
     voteDirections s !! voteStoreKey (BallotUpdateData_PollID data) (update_ballotID data) = None).

(** A transaction that validation accepts is executed, at other clock readings and
    with whatever outcome; or the state is committed or records a beacon. *)
Inductive vstep : State → State → Prop :=
  | step_tx now now' t s s1 s2 r :
      fresh s t → ValidateTx now t s = (Ok tt, s1) → ExecuteTx now' t s1 = (r, s2) → vstep s s2
  | step_beacon h hash s s' : RecordBeacon h hash s = (Ok tt, s') → vstep s s'
  | step_commit {DB} `{KVStore DB} (db : DB) s r s' db' : Commit db s = (r, (s', db')) → vstep s s'.

Lemma only_opened_lists s s' : only_opened s s' → lists_rel s s' ∧ verifier s' = verifier s ∧ rollingThreshold s' = rollingThreshold s.
Proof. by intros (ps & -> & _). Qed.

Lemma ExecuteTx_lists now t :
  Tx_Type t ≠ TxTypeUpdateBallot → Tx_Type t ≠ TxTypeBatchFlush → Tx_Type t ≠ TxTypeResealVote →
  Tx_Type t ≠ TxTypeAuthorityRescind → keeps lists_rel (ExecuteTx now t).
Proof.
  intros H1 H2 H3 H4. unfold ExecuteTx. cbv zeta.
  rewrite (proj2 (Z.eqb_neq _ TxTypeUpdateBallot) H1), (proj2 (Z.eqb_neq _ TxTypeBatchFlush) H2),
    (proj2 (Z.eqb_neq _ TxTypeResealVote) H3), (proj2 (Z.eqb_neq _ TxTypeAuthorityRescind) H4).
  repeat (apply keeps_if); try (apply keeps_fail; apply _).
  - unfold executePollCreate, set_dirty. keeps_auto; by split.
  - unfold executePollClose, update_poll, set_dirty. keeps_auto.
    destruct (collectPollLists _ _ _ _) as [[ids hs] cs]. keeps_auto; by split.
  - unfold executeValidatorRegister, set_dirty. keeps_auto; by split.
  - unfold executeConfirmReceipt, update_poll, set_dirty. keeps_auto; by split.
  - unfold executeAuthorityRestore, set_dirty. keeps_auto; by split.
Qed.

Lemma match_batch p cs s :
  count_match s → Forall (λ c, BallotCastData_PollID (cand_data c) = p) cs →
  NoDup (cand_key1 <$> cs) → NoDup (cand_key2 <$> cs) →
  (∀ c, c ∈ cs → voteDirections s !! cand_key1 c = None ∧ voterRegistry s !! cand_key2 c = None) →
  count_match (batch_lists cs s).
Proof.
  intros Hs Hps. rewrite <- materialize_batch. revert s Hs.
  induction Hps as [|c cs Hp _ IH]; intros s Hs Hn1 Hn2 Hf; cbn [foldl]; [done|].
  apply NoDup_cons in Hn1 as [Hc1 Hn1], Hn2 as [Hc2 Hn2]. destruct (Hf c) as [F1 F2]; [by left|].
  apply IH; [|done..|].
  - unfold count_match, materialize. fields. by apply sizes_insert.
  - intros c' Hc'. destruct (Hf c') as [G1 G2]; [by right|]. unfold materialize. fields.
    rewrite !lookup_insert_ne; [done|..]; intros E; [apply Hc2|apply Hc1]; apply list_elem_of_fmap; by exists c'.
Qed.

(** One case per transaction that moves the lists. *)
Lemma match_update now t s s1 evs s2 :
  count_match s → fresh s t → Tx_Type t = TxTypeUpdateBallot →
  validateBallotUpdate now t s = (Ok tt, s1) → executeBallotUpdate t s1 = (evs, s2) → count_match s2.
Proof.
  intros Hs [_ Hf] Ht (-> & data & idv & h & poll & Hd & Hv & Hi & Hp & _ & _ & Ho & Hr & _)%validateBallotUpdate_ok Hx.
  destruct (executeBallotUpdate_run t s data idv h Hd Hv Hi) as (evs' & s' & Hrun & Hl).
  rewrite Hx in Hrun. injection Hrun as -> ->. apply has_true in Ho, Hr.
  unfold count_match. case_decide as Hc; [destruct Hl as (E1 & E2 & _)|destruct Hl as (E1 & E2)]; rewrite E1, E2.
  - by apply sizes_delete.
  - apply sizes_replace; [done|done|]. right. by apply (Hf Ht data Hd Hc).
Qed.

Lemma match_reseal t s r s2 : count_match s → executeResealVote t s = (r, s2) → count_match s2.
Proof.
  intros Hs. unfold executeResealVote, update_poll, set_dirty. mrun.
  destruct (UnmarshalData t) as [data|]; mrun; [|by intros [= <- <-]]. unfold id.
  destruct (voteDirections s !! _) as [vote|] eqn:Hv; mrun; [|by intros [= <- <-]].
  destruct (_ || _); [by intros [= <- <-]|]. mrun. fields.
  destruct (polls s !! _); mrun; intros [= <- <-]; unfold count_match; fields; apply sizes_overwrite; eauto.
Qed.

Lemma match_batch_flush now now' t s s1 r s2 :
  count_match s → fresh s t → Tx_Type t = TxTypeBatchFlush → is_Some (verifier s) → int64_ok (rollingThreshold s) →
  validateBatchFlush now t s = (Ok tt, s1) → executeBatchFlush now' t s1 = (r, s2) → count_match s2.
Proof.
  intros Hs [Hf _] Ht [idv Hv] Hroll Hval Hx.
  destruct (only_opened_lists s s1) as ([HV HR] & Hv1 & Ht1).
  { pose proof (validateBatchFlush_keeps now t s) as Hk. by rewrite Hval in Hk. }
  apply validateBatchFlush_ok in Hval as (data & poll & Hd & Hp & _ & H).
  apply (check_submissions_ok _ _ idv) in H as (Hs1 & cs & Hcs & Hps & Hnd1 & _ & Hnd2 & _); [|done].
  assert (is_Some (polls s1 !! BatchFlushData_PollID data)) as Hp1.
  { destruct Hs1 as [-> | ->]; [by eauto|]. unfold opened. fields. rewrite lookup_alter_eq, Hp. eauto. }
  pose proof (executeBatchFlush_run now' t data s1 idv cs Hd) as Hrun. rewrite Hx, Hv1, Ht1 in Hrun.
  destruct (Hrun Hv Hcs Hp1 Hroll) as (_ & _ & E1 & E2 & _).
  apply (match_lists (batch_lists (sort_candidates cs) s)).
  - apply (match_batch (BatchFlushData_PollID data)); [done|..].
    + by rewrite sort_candidates_perm.
    + rewrite sort_candidates_perm. by eapply NoDup_key1.
    + by rewrite sort_candidates_perm.
    + intros c. rewrite sort_candidates_perm. by eapply Hf.
  - split; [rewrite E1|rewrite E2]; unfold batch_lists; fields; by rewrite ?HV, ?HR.
Qed.

Lemma match_rescind t s r s2 :
  count_match s → validateAuthorityRescind t s = (Ok tt, s) → executeAuthorityRescind t s = (r, s2) → count_match s2.
Proof.
  intros Hs (_ & data & poll & Hd & _ & _ & [vote Hv] & Hr & _)%validateAuthorityRescind_ok Hx.
  destruct (executeAuthorityRescind_run t s data vote Hd Hv) as (evs & s' & Hrun & _ & E1 & E2 & _).
  rewrite Hx in Hrun. injection Hrun as -> ->. unfold count_match. rewrite E1, E2. apply sizes_delete; eauto.
Qed.

Lemma vstep_match s s' :
  is_Some (verifier s) → int64_ok (rollingThreshold s) → vstep s s' → count_match s → count_match s'.
Proof.
  intros Hv Hr Hstep Hs. destruct Hstep as [now now' t s s1 s2 r Hf Hval Hx|h hash s s' Hb|DB HDB db s r s' db' Hc].
  - destruct (only_opened_lists s s1) as (Hl & _ & _).
    { pose proof (ValidateTx_keeps now t s) as Hk. by rewrite Hval in Hk. }
    destruct (decide (Tx_Type t = TxTypeUpdateBallot)) as [Ht|N1].
    { unfold ValidateTx in Hval. unfold ExecuteTx in Hx. rewrite Ht in Hval, Hx.
      change (validateBallotUpdate (now 0%nat) t s = (Ok tt, s1)) in Hval. by eapply match_update. }
    destruct (decide (Tx_Type t = TxTypeBatchFlush)) as [Ht|N2].
    { unfold ValidateTx in Hval. unfold ExecuteTx in Hx. rewrite Ht in Hval, Hx.
      change (validateBatchFlush now t s = (Ok tt, s1)) in Hval. eapply match_batch_flush; [done|done|done|done|done|exact Hval|exact Hx]. }
    destruct (decide (Tx_Type t = TxTypeResealVote)) as [Ht|N3].
    { unfold ExecuteTx in Hx. rewrite Ht in Hx. eapply match_reseal; [by eapply match_lists|exact Hx]. }
    destruct (decide (Tx_Type t = TxTypeAuthorityRescind)) as [Ht|N4].
    { unfold ValidateTx in Hval. unfold ExecuteTx in Hx. rewrite Ht in Hval, Hx.
      change (validateAuthorityRescind t s = (Ok tt, s1)) in Hval.
      pose proof (validateAuthorityRescind_ok _ _ _ _ Hval) as [-> _]. by eapply match_rescind. }
    pose proof (ExecuteTx_lists now' t N1 N2 N3 N4 s1) as Hk. rewrite Hx in Hk.
    eapply match_lists; [done|]. by etrans.
  - injection Hb as <-. exact Hs.
  - unfold Commit in Hc. eapply match_lists; [done|].
    destruct (dirty s); [destruct (db_write _ _)|]; injection Hc as _ <- _; by split.
Qed.

(** The configuration a chain runs with does not change. *)
Definition config_rel (s s' : State) : Prop :=
  verifier s' = verifier s ∧ rollingThreshold s' = rollingThreshold s.
#[local] Instance config_rel_refl : Reflexive config_rel.
Proof. by split. Qed.
#[local] Instance config_rel_trans : Transitive config_rel.
Proof. intros s1 s2 s3 [H1 H2] [H3 H4]. split; congruence. Qed.
Lemma ExecuteTx_config now t : keeps config_rel (ExecuteTx now t).
Proof.
  unfold ExecuteTx. cbv zeta. repeat (apply keeps_if); try (apply keeps_fail; apply _).
  - unfold executePollCreate, set_dirty. keeps_auto; by split.
  - unfold executePollClose, update_poll, set_dirty. keeps_auto.
    destruct (collectPollLists _ _ _ _) as [[ids hs] cs]. keeps_auto; by split.
  - unfold executeValidatorRegister, set_dirty. keeps_auto; by split.
  - unfold executeConfirmReceipt, update_poll, set_dirty. keeps_auto; by split.
  - unfold executeBallotUpdate, set_dirty. keeps_auto; by split.
  - apply executeBatchFlush_keeps; [apply _..| | |]; [by intros s s' (c & k & d & ->)|by split..].
  - unfold executeResealVote, update_poll, set_dirty. keeps_auto; by split.
  - unfold executeAuthorityRescind, update_poll, set_dirty. keeps_auto; by split.
  - unfold executeAuthorityRestore, set_dirty. keeps_auto; by split.
Qed.
Lemma vstep_config s s' : vstep s s' → config_rel s s'.
Proof.
  intros [now now' t s0 s1 s2 r Hf Hval Hx|h hash s0 s2 Hb|DB HDB db s0 r s2 db' Hc].
  - pose proof (ValidateTx_keeps now t s0) as Hk. rewrite Hval in Hk. apply only_opened_lists in Hk as (_ & E1 & E2).
    pose proof (ExecuteTx_config now' t s1) as Hk. rewrite Hx in Hk. destruct Hk as [E3 E4]. cbn in E1, E2, E3, E4. split; congruence.
  - injection Hb as <-. by split.
  - unfold Commit in Hc. destruct (dirty s0); [destruct (db_write _ _)|]; injection Hc as _ <- _; by split.
Qed.

(** C1. The count-match invariant.  With a verifier configured, along every run of
    validated transactions with fresh identifiers, of any length and in any order,
    casts in batches, direction changes, withdrawals, migrations, rescissions,
    restorations, confirmations, closes and commits included, List 1 and List 2 of
    every poll without a colon in its identifier have the same number of records.
    (A poll with one shares keys with others: [Keys.colon_polls_share_keys].) *)
Theorem count_match_invariant (s s' : State) :
  is_Some (verifier s) → int64_ok (rollingThreshold s) → count_match s → rtc vstep s s' → count_match s'.
Proof.
  intros Hv Hr Hs Hsteps. induction Hsteps as [s|s s1 s2 Hstep _ IH]; [done|].
  pose proof (vstep_config _ _ Hstep) as [E1 E2].
  apply IH; [by rewrite E1|by rewrite E2|by eapply vstep_match].
Qed.
End steps.
