(* ===== verification/TwoListBase.v ===== *)
(** protocol/submission/{types,base}.go: the generic two-list base the domain state
    machines embed: its records, list operations, attestations and persistence. *)
From S2P Require Import Prelude GoStd Json Types TxData Nonce Identity Keys VotingState Merkle KVStore Tables.

(** List 1: a payload, no identity field. *)
Record SubmissionRecord := mkSubmissionRecord {
  SubmissionRecord_SubmissionID : string;
  SubmissionRecord_Payload : option json;
  SubmissionRecord_PartitionID : string;
  SubmissionRecord_Superseded : bool;
}.
#[export] Instance Eta_SubmissionRecord : Eta SubmissionRecord := λ r,
  mkSubmissionRecord (SubmissionRecord_SubmissionID r) (SubmissionRecord_Payload r) (SubmissionRecord_PartitionID r) (SubmissionRecord_Superseded r).
Definition SubmissionRecord_tags : list string :=
  ["submission_id"; "payload"; "partition_id"; "superseded"].
#[export] Instance Json_SubmissionRecord : Json SubmissionRecord := {
  jzero := mkSubmissionRecord "" None "" false;
  to_json r := JObj (
    required "submission_id" (SubmissionRecord_SubmissionID r) ++
    required "payload" (SubmissionRecord_Payload r) ++
    omit_str "partition_id" (SubmissionRecord_PartitionID r) ++
    omit_bool "superseded" (SubmissionRecord_Superseded r) ++ []);
  of_json := of_object (λ ms,
    x0 ← jfield SubmissionRecord_tags ms "submission_id";
    x1 ← jfield SubmissionRecord_tags ms "payload";
    x2 ← jfield SubmissionRecord_tags ms "partition_id";
    x3 ← jfield SubmissionRecord_tags ms "superseded";
    Some (mkSubmissionRecord x0 x1 x2 x3));
}.
(** A missing payload is stored as [null] and reloads as such; a present one survives. *)
Definition SubmissionRecord_ok (r : SubmissionRecord) : Prop := is_Some (SubmissionRecord_Payload r).
#[export] Instance roundtrip_SubmissionRecord : JsonRoundTrip SubmissionRecord SubmissionRecord_ok.
Proof. struct_roundtrip Json_SubmissionRecord. Qed.

(** List 2: an identity commitment, no payload field. *)
Record ParticipantRecord := mkParticipantRecord {
  ParticipantRecord_IdentityHash : string;
  ParticipantRecord_SealedAttributes : option json;
}.
#[export] Instance Eta_ParticipantRecord : Eta ParticipantRecord := λ r,
  mkParticipantRecord (ParticipantRecord_IdentityHash r) (ParticipantRecord_SealedAttributes r).
Definition ParticipantRecord_tags : list string :=
  ["identity_hash"; "sealed_attributes"].
#[export] Instance Json_ParticipantRecord : Json ParticipantRecord := {
  jzero := mkParticipantRecord "" None;
  to_json r := JObj (
    required "identity_hash" (ParticipantRecord_IdentityHash r) ++
    omit_raw "sealed_attributes" (ParticipantRecord_SealedAttributes r) ++ []);
  of_json := of_object (λ ms,
    x0 ← jfield ParticipantRecord_tags ms "identity_hash";
    x1 ← jfield ParticipantRecord_tags ms "sealed_attributes";
    Some (mkParticipantRecord x0 x1));
}.
#[export] Instance roundtrip_ParticipantRecord : JsonRoundTrip ParticipantRecord (λ _, True).
Proof. by intros [h [a|]] _. Qed.

(** The lifecycle of a period. *)
Record PeriodRecord := mkPeriodRecord {
  PeriodRecord_PeriodID : string;
  PeriodRecord_DomainType : string;
  PeriodRecord_StartTime : Z;
  PeriodRecord_EndTime : Z;
  PeriodRecord_Status : string;
  PeriodRecord_CreatedAt : Z;
}.
#[export] Instance Eta_PeriodRecord : Eta PeriodRecord := λ r,
  mkPeriodRecord (PeriodRecord_PeriodID r) (PeriodRecord_DomainType r) (PeriodRecord_StartTime r) (PeriodRecord_EndTime r) (PeriodRecord_Status r) (PeriodRecord_CreatedAt r).
Definition PeriodRecord_tags : list string :=
  ["period_id"; "domain_type"; "start_time"; "end_time"; "status"; "created_at"].
#[export] Instance Json_PeriodRecord : Json PeriodRecord := {
  jzero := mkPeriodRecord "" "" 0 0 "" 0;
  to_json r := JObj (
    required "period_id" (PeriodRecord_PeriodID r) ++
    required "domain_type" (PeriodRecord_DomainType r) ++
    required "start_time" (PeriodRecord_StartTime r) ++
    omit_int "end_time" (PeriodRecord_EndTime r) ++
    required "status" (PeriodRecord_Status r) ++
    required "created_at" (PeriodRecord_CreatedAt r) ++ []);
  of_json := of_object (λ ms,
    x0 ← jfield PeriodRecord_tags ms "period_id";
    x1 ← jfield PeriodRecord_tags ms "domain_type";
    x2 ← jfield PeriodRecord_tags ms "start_time";
    x3 ← jfield PeriodRecord_tags ms "end_time";
    x4 ← jfield PeriodRecord_tags ms "status";
    x5 ← jfield PeriodRecord_tags ms "created_at";
    Some (mkPeriodRecord x0 x1 x2 x3 x4 x5));
}.
(** Its integers are in range. *)
Definition PeriodRecord_ok (r : PeriodRecord) : Prop :=
  int64_ok (PeriodRecord_StartTime r) ∧ int64_ok (PeriodRecord_EndTime r) ∧ int64_ok (PeriodRecord_CreatedAt r).
#[export] Instance roundtrip_PeriodRecord : JsonRoundTrip PeriodRecord PeriodRecord_ok.
Proof. struct_roundtrip Json_PeriodRecord. Qed.

(** The attestation of a closed period. *)
Record ClosureRecord := mkClosureRecord {
  ClosureRecord_PeriodID : string;
  ClosureRecord_TotalSubmissions : Z;
  ClosureRecord_L1MerkleRoot : gobytes;
  ClosureRecord_L2MerkleRoot : gobytes;
  ClosureRecord_Signature : gobytes;
  ClosureRecord_PublicKey : gobytes;
  ClosureRecord_FinalizedAt : Z;
  ClosureRecord_Height : Z;
  ClosureRecord_AttestationDegraded : bool;
}.
#[export] Instance Eta_ClosureRecord : Eta ClosureRecord := λ r,
  mkClosureRecord (ClosureRecord_PeriodID r) (ClosureRecord_TotalSubmissions r) (ClosureRecord_L1MerkleRoot r) (ClosureRecord_L2MerkleRoot r) (ClosureRecord_Signature r) (ClosureRecord_PublicKey r) (ClosureRecord_FinalizedAt r) (ClosureRecord_Height r) (ClosureRecord_AttestationDegraded r).
Definition ClosureRecord_tags : list string :=
  ["period_id"; "total_submissions"; "l1_merkle_root"; "l2_merkle_root"; "signature"; "public_key"; "finalized_at"; "height"; "attestation_degraded"].
#[export] Instance Json_ClosureRecord : Json ClosureRecord := {
  jzero := mkClosureRecord "" 0 None None None None 0 0 false;
  to_json r := JObj (
    required "period_id" (ClosureRecord_PeriodID r) ++
    required "total_submissions" (ClosureRecord_TotalSubmissions r) ++
    required "l1_merkle_root" (ClosureRecord_L1MerkleRoot r) ++
    required "l2_merkle_root" (ClosureRecord_L2MerkleRoot r) ++
    required "signature" (ClosureRecord_Signature r) ++
    omit_bytes "public_key" (ClosureRecord_PublicKey r) ++
    required "finalized_at" (ClosureRecord_FinalizedAt r) ++
    required "height" (ClosureRecord_Height r) ++
    omit_bool "attestation_degraded" (ClosureRecord_AttestationDegraded r) ++ []);
  of_json := of_object (λ ms,
    x0 ← jfield ClosureRecord_tags ms "period_id";
    x1 ← jfield ClosureRecord_tags ms "total_submissions";
    x2 ← jfield ClosureRecord_tags ms "l1_merkle_root";
    x3 ← jfield ClosureRecord_tags ms "l2_merkle_root";
    x4 ← jfield ClosureRecord_tags ms "signature";
    x5 ← jfield ClosureRecord_tags ms "public_key";
    x6 ← jfield ClosureRecord_tags ms "finalized_at";
    x7 ← jfield ClosureRecord_tags ms "height";
    x8 ← jfield ClosureRecord_tags ms "attestation_degraded";
    Some (mkClosureRecord x0 x1 x2 x3 x4 x5 x6 x7 x8));
}.
(** Its integers are in range; an empty but present key is omitted and reloads as
    absent. *)
Definition ClosureRecord_ok (r : ClosureRecord) : Prop :=
  ClosureRecord_PublicKey r ≠ Some "" ∧
  int64_ok (ClosureRecord_TotalSubmissions r) ∧ int64_ok (ClosureRecord_FinalizedAt r) ∧ int64_ok (ClosureRecord_Height r).
#[export] Instance roundtrip_ClosureRecord : JsonRoundTrip ClosureRecord ClosureRecord_ok.
Proof. struct_roundtrip Json_ClosureRecord. Qed.

(** A rolling attestation of a period. *)
Record PeriodCheckpoint := mkPeriodCheckpoint {
  PeriodCheckpoint_PeriodID : string;
  PeriodCheckpoint_SequenceNumber : Z;
  PeriodCheckpoint_TotalSubmissions : Z;
  PeriodCheckpoint_L1Commitment : string;
  PeriodCheckpoint_L2Commitment : string;
  PeriodCheckpoint_Signature : gobytes;
  PeriodCheckpoint_PublicKey : gobytes;
  PeriodCheckpoint_AttestationDegraded : bool;
  PeriodCheckpoint_CommittedAt : Z;
  PeriodCheckpoint_Height : Z;
}.

(** [itoa] on a 64-bit [int]: [n = -n] wraps, and the loop runs while [n > 0]. *)
Fixpoint itoa_loop (fuel : nat) (n : Z) (buf : string) : string :=
  match fuel with
  | O => buf
  | S f => if 0 <? n then itoa_loop f (n / 10) (String (ascii_of_N (Z.to_N (48 + n mod 10))) buf) else buf
  end.
Definition itoa (n : Z) : string :=
  if n =? 0 then "0"
  else if n <? 0 then String "-"%char (itoa_loop 20 (wrap64 (- n)) "")
  else itoa_loop 20 n "".

Module Base.

(** [type TwoListBase struct]. *)
Record TwoListBase := mkTwoListBase {
  signer : option Signer;
  verifier : option IdentityVerifier;
  submissions : gmap string SubmissionRecord;
  participants : gmap string ParticipantRecord;
  periods : gmap string PeriodRecord;
  closures : gmap string ClosureRecord;
  validators : gmap string ValidatorRecord;
  pendingValidatorUpdates : list ValidatorUpdate;
  beaconWindow : gmap Z string;
  writeOnly : bool;
  attestationMode : string;
  rollingThreshold : Z;
  submissionCounts : gmap string Z;
  checkpoints : gmap string (list PeriodCheckpoint);
  Height : Z;
  appHash : gobytes;
  dirty : bool;
}.
#[export] Instance Eta_TwoListBase : Eta TwoListBase := λ r,
  mkTwoListBase (signer r) (verifier r) (submissions r) (participants r) (periods r) (closures r) (validators r)
    (pendingValidatorUpdates r) (beaconWindow r) (writeOnly r) (attestationMode r) (rollingThreshold r)
    (submissionCounts r) (checkpoints r) (Height r) (appHash r) (dirty r).

(** The base [NewTwoListBase] builds before it loads the database. *)
Definition empty_base (sg : option Signer) : TwoListBase :=
  mkTwoListBase sg None ∅ ∅ ∅ ∅ ∅ [] ∅ false "rolling" 100 ∅ ∅ 0 None false.

Definition set_dirty : M TwoListBase unit := modify (λ b, b <| dirty := true |>).
Definition SetIdentityVerifier (v : IdentityVerifier) : M TwoListBase unit :=
  modify (λ b, b <| verifier := Some v |>).
Definition SetWriteOnly (v : bool) : M TwoListBase unit := modify (λ b, b <| writeOnly := v |>).
Definition IsWriteOnly (b : TwoListBase) : bool := writeOnly b.
Definition SetAttestationMode (mode : string) (threshold : Z) : M TwoListBase unit :=
  modify (λ b, b <| attestationMode := mode |>) ;;
  if bool_decide (mode = "rolling") && (0 <? threshold)
  then modify (λ b, b <| rollingThreshold := threshold |>) else mret tt.
Definition GetInfo (b : TwoListBase) : Z * gobytes := (Height b, appHash b).
Definition GetVerifier (b : TwoListBase) : option IdentityVerifier := verifier b.
Definition RecordBeacon (h : Z) (blockHashHex : string) : M TwoListBase unit :=
  modify (λ b, b <| beaconWindow ::= record_beacon h blockHashHex |>).

Definition submissionKey (periodID submissionID : string) : string := periodID +:+ ":" +:+ submissionID.
Definition participantKey (periodID identityHash : string) : string := periodID +:+ ":" +:+ identityHash.

Definition CreatePeriod (now : Z) (periodID domainType : string) (startTime endTime : Z) : M TwoListBase unit :=
  ps ← gets periods;
  fail_if (has ps periodID) (Errorf "period %s already exists" [FStr periodID]) ;;
  modify (λ b, b <| periods ::= <[periodID :=
    mkPeriodRecord periodID domainType startTime endTime "open" now]> |>) ;;
  set_dirty.
Definition GetPeriod (b : TwoListBase) (periodID : string) : option PeriodRecord := periods b !! periodID.

(** [collectPeriodLists]: superseded submissions are left out. *)
Definition live (r : SubmissionRecord) : bool := negb (SubmissionRecord_Superseded r).
Definition collectPeriodLists (b : TwoListBase) (periodID : string) : list string * list string :=
  ((λ kv, SubmissionRecord_SubmissionID kv.2) <$>
     List.filter (λ kv, in_poll periodID kv.1 kv.2 && live kv.2) (map_to_list (submissions b)),
   (λ kv, ParticipantRecord_IdentityHash kv.2) <$>
     List.filter (λ kv, in_poll periodID kv.1 kv.2) (map_to_list (participants b))).
Definition CountsForPeriod (b : TwoListBase) (periodID : string) : nat * nat :=
  (count_where (in_poll periodID) (submissions b), count_where (in_poll periodID) (participants b)).
Definition HasParticipant (b : TwoListBase) (periodID identityHash : string) : bool :=
  has (participants b) (participantKey periodID identityHash).
Definition HasSubmission (b : TwoListBase) (periodID submissionID : string) : bool :=
  has (submissions b) (submissionKey periodID submissionID).
(** [SubmissionPresence]: {"exists": bool}. *)
Definition SubmissionPresence (b : TwoListBase) (periodID submissionID : string) : json :=
  JObj [("exists", JBool (HasSubmission b periodID submissionID))].

Section base.
Context `{C : Crypto}.

(** [signClosurePayload]: the signature and whether it is the degraded stub. *)
Definition signClosurePayload (b : TwoListBase) (l1Root l2Root : string) (total : Z) : string * bool :=
  let payload := BuildSigningPayload l1Root l2Root total ∅ in
  match signer b with
  | Some sg => match Sign sg payload with Some sig => (sig, false) | None => (payload, true) end
  | None => (payload, false)
  end.
Definition attested_key (b : TwoListBase) (degraded : bool) : gobytes :=
  match signer b with
  | Some sg => if degraded then None else Some (PublicKeyDER sg)
  | None => None
  end.

Definition count_mismatch (periodID : string) (ids hashes : list string) : error :=
  ErrCountMismatch periodID (Z.of_nat (length ids)) (Z.of_nat (length hashes)).

Definition CommitRollingAttestation (now : Z) (periodID : string) : M TwoListBase (list Event) :=
  b ← gets id;
  let '(ids, hashes) := collectPeriodLists b periodID in
  let total := Z.of_nat (length ids) in
  fail_if (negb (Z.of_nat (length hashes) =? total)) (count_mismatch periodID ids hashes) ;;
  let l1Commitment := computeMerkleRoot ids in
  let l2Commitment := computeMerkleRoot hashes in
  let '(sig, degraded) := signClosurePayload b l1Commitment l2Commitment total in
  let seq := Z.of_nat (length (default [] (checkpoints b !! periodID))) in
  let cp := mkPeriodCheckpoint periodID seq total l1Commitment l2Commitment (Some sig)
              (attested_key b degraded) degraded now (int64_inc (Height b)) in
  modify (λ b, b <| checkpoints ::= λ m, <[periodID := default [] (m !! periodID) ++ [cp]]> m |>) ;;
  set_dirty ;;
  mret [mkEvent "rolling_attestation"
    [("period_id", periodID, true); ("sequence", fmt_d seq, false); ("total_submissions", fmt_d total, false);
     ("l1_commitment", fmt_x l1Commitment, false); ("l2_commitment", fmt_x l2Commitment, false)]].

(** The last phase of a submission: every [rollingThreshold] submissions of a period
    a checkpoint is committed; its failure is only logged. *)
Definition rolling_phase (now : Z) (periodID : string) (accepted : Event) : M TwoListBase (list Event) :=
  b ← gets id;
  if bool_decide (attestationMode b = "rolling") && (0 <? rollingThreshold b) then
    let count := int64_inc (default 0 (submissionCounts b !! periodID)) in
    modify (λ b, b <| submissionCounts ::= <[periodID := count]> |>) ;;
    if rollingThreshold b <=? count then
      modify (λ b, b <| submissionCounts ::= <[periodID := 0]> |>) ;;
      r ← try (CommitRollingAttestation now periodID);
      match r with
      | Ok cpEvents => mret (accepted :: cpEvents)
      | _ => mret [accepted]
      end
    else mret [accepted]
  else mret [accepted].

Definition SubmitToListsWithSealedAttrs (now : Z) (periodID submissionID identityHash : string)
    (payload : option json) (partitionID : string) (sealedL2Attrs : option json) : M TwoListBase (list Event) :=
  b ← gets id;
  fail_if (has (participants b) (participantKey periodID identityHash))
    (ErrDuplicateParticipant periodID identityHash) ;;
  modify (λ b, b <| submissions ::= <[submissionKey periodID submissionID :=
    mkSubmissionRecord submissionID payload partitionID false]> |>) ;;
  modify (λ b, b <| participants ::= <[participantKey periodID identityHash :=
    mkParticipantRecord identityHash sealedL2Attrs]> |>) ;;
  set_dirty ;;
  rolling_phase now periodID
    (mkEvent "submission_accepted" [("period_id", periodID, true); ("status", "accepted", false)]).
Definition SubmitToLists (now : Z) (periodID submissionID identityHash : string) (payload : option json)
    (partitionID : string) : M TwoListBase (list Event) :=
  SubmitToListsWithSealedAttrs now periodID submissionID identityHash payload partitionID None.

Definition UpdateSubmission (periodID oldSubmissionID newSubmissionID : string) (newPayload : option json) :
    M TwoListBase (list Event) :=
  b ← gets id;
  fail_if (writeOnly b) ErrWriteOnlyPosture ;;
  let oldKey := submissionKey periodID oldSubmissionID in
  fail_if (negb (has (submissions b) oldKey))
    (Errorf "old_submission_id %s not found in period %s" [FStr oldSubmissionID; FStr periodID]) ;;
  modify (λ b, b <| submissions ::= delete oldKey |>) ;;
  modify (λ b, b <| submissions ::= <[submissionKey periodID newSubmissionID :=
    mkSubmissionRecord newSubmissionID newPayload "" false]> |>) ;;
  set_dirty ;;
  mret [mkEvent "submission_updated"
    [("period_id", periodID, true); ("old_submission_id", oldSubmissionID, true);
     ("new_submission_id", newSubmissionID, true)]].

Definition WithdrawFromLists (periodID submissionID identityHash : string) : M TwoListBase (list Event) :=
  b ← gets id;
  let sKey := submissionKey periodID submissionID in
  let pKey := participantKey periodID identityHash in
  fail_if (negb (has (submissions b) sKey))
    (Errorf "submission_id %s not found in period %s" [FStr submissionID; FStr periodID]) ;;
  fail_if (negb (has (participants b) pKey))
    (Errorf "participant %s not registered in period %s" [FStr identityHash; FStr periodID]) ;;
  modify (λ b, b <| submissions ::= delete sKey |>) ;;
  modify (λ b, b <| participants ::= delete pKey |>) ;;
  set_dirty ;;
  mret [mkEvent "submission_withdrawn" [("period_id", periodID, true); ("submission_id", submissionID, true)]].

(** The closure [ClosePeriod] writes. *)
Definition closure_of (now : Z) (b : TwoListBase) (periodID : string) (closingHeight : Z) : ClosureRecord :=
  let '(ids, hashes) := collectPeriodLists b periodID in
  let total := Z.of_nat (length ids) in
  let l1Root := computeMerkleRoot ids in
  let l2Root := computeMerkleRoot hashes in
  let '(sig, degraded) := signClosurePayload b l1Root l2Root total in
  let attested := negb (bool_decide (attestationMode b = "none")) in
  mkClosureRecord periodID total (Some l1Root) (Some l2Root)
    (if attested then Some sig else None) (if attested then attested_key b degraded else None)
    now closingHeight (if attested then degraded else false).
Definition ClosePeriod (now : Z) (periodID : string) (closingHeight : Z) :
    M TwoListBase (ClosureRecord * list Event) :=
  b ← gets id;
  period ← or_fail (periods b !! periodID) (ErrPeriodNotFound periodID);
  fail_if (bool_decide (PeriodRecord_Status period = "closed"))
    (Errorf "period %s is already closed" [FStr periodID]) ;;
  fail_if (has (closures b) periodID) (Errorf "closure record already exists for period %s" [FStr periodID]) ;;
  let '(ids, hashes) := collectPeriodLists b periodID in
  fail_if (negb (length hashes =? length ids)%nat) (count_mismatch periodID ids hashes) ;;
  let closure := closure_of now b periodID closingHeight in
  modify (λ b, b <| periods ::= alter (λ p, p <| PeriodRecord_Status := "closed" |>) periodID |>) ;;
  modify (λ b, b <| closures ::= <[periodID := closure]> |>) ;;
  set_dirty ;;
  mret (closure, [mkEvent "period_closed"
    [("period_id", periodID, true); ("total_submissions", fmt_d (ClosureRecord_TotalSubmissions closure), false);
     ("l1_commitment", fmt_x (computeMerkleRoot ids), false);
     ("l2_commitment", fmt_x (computeMerkleRoot hashes), false);
     ("finalized_at", fmt_d now, false)]]).

Definition RegisterValidator (pubKeyBase64 : string) (power : Z) (name : string) : M TwoListBase (list Event) :=
  raw ← or_fail (base64_DecodeString pubKeyBase64) (Errorf "pub_key_base64 decode failed: %w" [FErr base64_error]);
  (if power =? 0 then modify (λ b, b <| validators ::= delete pubKeyBase64 |>)
   else modify (λ b, b <| validators ::=
          <[pubKeyBase64 := mkValidatorRecord pubKeyBase64 power name (Height b)]> |>)) ;;
  modify (λ b, b <| pendingValidatorUpdates ::= λ l, l ++ [mkValidatorUpdate raw power] |>) ;;
  set_dirty ;;
  mret [mkEvent "validator_registered"
    [("pub_key", pubKeyBase64, false); ("power", fmt_d power, false); ("name", name, false)]].
Definition GetPendingValidatorUpdates : M TwoListBase (list ValidatorUpdate) :=
  updates ← gets pendingValidatorUpdates;
  modify (λ b, b <| pendingValidatorUpdates := [] |>) ;;
  mret updates.

(** ** Persistence *)
Definition b_period := "period:".
Definition b_submission := "submission:".
Definition b_participant := "participant:".
Definition b_closure := "closure:".
Definition b_validator := "validator:".

Definition computeAppHash (b : TwoListBase) : string :=
  sha256 (hash_table (periods b) +:+ hash_table (submissions b) +:+ hash_table (participants b) +:+
          hash_table (closures b) +:+ hash_table (validators b)).
Definition commit_batch (b : TwoListBase) : list (string * dbval) :=
  table b_period (periods b) ++ table b_submission (submissions b) ++ table b_participant (participants b) ++
  table b_closure (closures b) ++ table b_validator (validators b).
Definition Commit {DB} `{KVStore DB} (db : DB) (b : TwoListBase) : res gobytes * (TwoListBase * DB) :=
  if dirty b then
    let h := computeAppHash b in
    let b1 := b <| appHash := Some h |> <| Height ::= int64_inc |> in
    let batch := commit_batch b ++ [("height", VBytes (fmt_d (Height b1))); ("app_hash", VBytes h)] in
    match db_write db batch with
    | Some db' => (Ok (Some h), (b1 <| dirty := false |>, db'))
    | None => (Fail (Errorf "failed to write batch: %w" [FErr (Errorf "db" [])]), (b1, db))
    end
  else (Ok (appHash b), (b, db)).
Definition loadState {DB} `{KVStore DB} (db : DB) (b : TwoListBase) : option TwoListBase :=
  h ← load_height db (Height b);
  ah ← load_app_hash db (appHash b);
  ps ← load_table db b_period (λ _, PeriodRecord_PeriodID);
  ss ← load_table db b_submission (λ k (_ : SubmissionRecord), k);
  rs ← load_table db b_participant (λ k (_ : ParticipantRecord), k);
  cs ← load_table db b_closure (λ _, ClosureRecord_PeriodID);
  vs ← load_table db b_validator (λ _, ValidatorRecord_PubKeyBase64);
  Some (b <| Height := h |> <| appHash := ah |> <| periods := ps |> <| submissions := ss |>
          <| participants := rs |> <| closures := cs |> <| validators := vs |>).
Definition NewTwoListBase {DB} `{KVStore DB} (db : DB) (sg : option Signer) : option TwoListBase :=
  loadState db (empty_base sg).
End base.

(** ** Frames *)
(** [b'] differs from [b] at most in the attestation bookkeeping. *)
Definition same_but_attestation (b b' : TwoListBase) : Prop :=
  ∃ counts cps d, b' = b <| submissionCounts := counts |> <| checkpoints := cps |> <| dirty := d |>.
Lemma attest_refl b : same_but_attestation b b.
Proof. exists (submissionCounts b), (checkpoints b), (dirty b). by destruct b. Qed.
Lemma attest_trans b1 b2 b3 : same_but_attestation b1 b2 → same_but_attestation b2 b3 → same_but_attestation b1 b3.
Proof. intros (?&?&?&->) (c&k&d&->). by exists c, k, d. Qed.
Lemma attest_counts b f : same_but_attestation b (b <| submissionCounts ::= f |>).
Proof. exists (f (submissionCounts b)), (checkpoints b), (dirty b). by destruct b. Qed.
Lemma attest_attest b cps d : same_but_attestation b (b <| checkpoints := cps |> <| dirty := d |>).
Proof. exists (submissionCounts b), cps, d. by destruct b. Qed.

Section facts.
Context `{C : Crypto}.

Lemma CommitRollingAttestation_frame now periodID b r b' :
  CommitRollingAttestation now periodID b = (r, b') → same_but_attestation b b' ∧ (dirty b = true → dirty b' = true) ∧ r ≠ Panic.
Proof.
  unfold CommitRollingAttestation. mrun. unfold id. destruct (collectPeriodLists b periodID) as [ids hs]. mrun.
  destruct (negb _); [intros [= <- <-]; split_and!; [apply attest_refl|done|done]|].
  destruct (signClosurePayload _ _ _ _) as [sig deg]. unfold set_dirty. mrun.
  intros [= <- <-]. split_and!; [|done|done]. apply (attest_attest b _ true).
Qed.

Lemma rolling_phase_run now periodID accepted b1 :
  dirty b1 = true →
  ∃ evs b', rolling_phase now periodID accepted b1 = (Ok evs, b') ∧ same_but_attestation b1 b' ∧ dirty b' = true.
Proof.
  intros Hd. unfold rolling_phase. mrun. unfold id.
  destruct (bool_decide _ && _); mrun; [|by eauto using attest_refl].
  destruct (_ <=? _); mrun; [|by eauto using attest_counts].
  unfold try. mrun. set (b2 := b1 <| submissionCounts ::= _ |> <| submissionCounts ::= _ |>).
  assert (same_but_attestation b1 b2 ∧ dirty b2 = true) as [H2 Hd2] by (split; [eapply attest_trans; apply attest_counts|done]).
  clearbody b2. destruct (CommitRollingAttestation now periodID b2) as [r b3] eqn:E.
  apply CommitRollingAttestation_frame in E as (H3 & Hd3 & Hnp).
  destruct r; mrun; [| |done]; (eexists _, _; split; [done|]; split; [by eapply attest_trans|auto]).
Qed.

(** Both lists after a submission of a new participant. *)
Lemma submit_run now periodID submissionID h payload partitionID sealed b :
  participants b !! participantKey periodID h = None →
  ∃ evs b', SubmitToListsWithSealedAttrs now periodID submissionID h payload partitionID sealed b = (Ok evs, b') ∧
    dirty b' = true ∧ periods b' = periods b ∧ closures b' = closures b ∧
    submissions b' = <[submissionKey periodID submissionID :=
      mkSubmissionRecord submissionID payload partitionID false]> (submissions b) ∧
    participants b' = <[participantKey periodID h := mkParticipantRecord h sealed]> (participants b).
Proof.
  intros Hp%has_false. unfold SubmitToListsWithSealedAttrs. mrun. unfold id. rewrite Hp. mrun.
  unfold set_dirty. mrun. set (b1 := b <| submissions ::= _ |> <| participants ::= _ |> <| dirty := true |>).
  destruct (rolling_phase_run now periodID
    (mkEvent "submission_accepted" [("period_id", periodID, true); ("status", "accepted", false)]) b1)
    as (evs & b' & Hrun & (c & k & d & ->) & Hd); [done|].
  exists evs, (b1 <| submissionCounts := c |> <| checkpoints := k |> <| dirty := d |>).
  split; [exact Hrun|]. subst b1. by fields.
Qed.
End facts.

(** ** Contracts *)
Section properties.
Context `{C : Crypto}.

(** A submission is one per participant and period: a registered participant is
    refused and nothing is written; a new one gets one record in each list, the
    payload without the identity and the identity without the payload, and List 2
    grows by one while List 1 grows when the identifier is new. *)
Theorem SubmitToLists_spec (now : Z) (periodID submissionID h : string) (payload : option json)
    (partitionID : string) (b : TwoListBase) :
  if HasParticipant b periodID h
  then SubmitToLists now periodID submissionID h payload partitionID b = (Fail (ErrDuplicateParticipant periodID h), b)
  else ∃ evs b', SubmitToLists now periodID submissionID h payload partitionID b = (Ok evs, b') ∧
    HasParticipant b' periodID h = true ∧ HasSubmission b' periodID submissionID = true ∧
    submissions b' = <[submissionKey periodID submissionID :=
      mkSubmissionRecord submissionID payload partitionID false]> (submissions b) ∧
    (CountsForPeriod b' periodID).2 = S (CountsForPeriod b periodID).2 ∧
    (CountsForPeriod b' periodID).1 =
      ((CountsForPeriod b periodID).1 + if HasSubmission b periodID submissionID then 0 else 1)%nat.
Proof.
  destruct (HasParticipant b periodID h) eqn:Hp.
  { unfold SubmitToLists, SubmitToListsWithSealedAttrs. mrun. unfold id, HasParticipant in *. by rewrite Hp. }
  apply has_false in Hp as Hn.
  destruct (submit_run now periodID submissionID h payload partitionID None b Hn) as (evs & b' & Hrun & _ & _ & _ & E1 & E2).
  exists evs, b'. unfold HasParticipant, HasSubmission, CountsForPeriod in *. rewrite E1, E2.
  rewrite !has_insert, !bool_decide_true by done. cbn [fst snd].
  rewrite !count_in_poll_insert, Hp. unfold in_poll.
  change (submissionKey periodID submissionID) with (voteStoreKey periodID submissionID).
  change (participantKey periodID h) with (registry_key periodID h).
  rewrite prefix_voteStoreKey, prefix_registry_key.
  split_and!; try done; cbn; [lia|]. by destruct (has (submissions b) (voteStoreKey periodID submissionID)).
Qed.

(** Write-only posture: no update goes through and nothing is written. *)
Theorem UpdateSubmission_write_only (periodID oldID newID : string) (payload : option json) (b : TwoListBase) :
  IsWriteOnly b = true → UpdateSubmission periodID oldID newID payload b = (Fail ErrWriteOnlyPosture, b).
Proof. intros Hw. unfold UpdateSubmission. mrun. unfold id, IsWriteOnly in *. by rewrite Hw. Qed.

(** ** The invariant *)
Definition base_inv (b : TwoListBase) : Prop :=
  sizes_match (submissions b) (participants b) ∧ map_Forall (λ _ r, live r = true) (submissions b).

(** One operation on the base, with whatever arguments and outcome; with [fresh] set, by
    callers that bring a new identifier with every submission and every update, which no
    operation of the base checks. *)
Inductive base_step {fresh : bool} : TwoListBase → TwoListBase → Prop :=
  | step_create now p d st en b r b' : CreatePeriod now p d st en b = (r, b') → base_step b b'
  | step_submit now p id h pl part sealed b r b' :
      (fresh = true → HasSubmission b p id = false) →
      SubmitToListsWithSealedAttrs now p id h pl part sealed b = (r, b') → base_step b b'
  | step_update p old new pl b r b' :
      (fresh = true → new = old ∨ HasSubmission b p new = false) → UpdateSubmission p old new pl b = (r, b') → base_step b b'
  | step_withdraw p id h b r b' : WithdrawFromLists p id h b = (r, b') → base_step b b'
  | step_close now p height b r b' : ClosePeriod now p height b = (r, b') → base_step b b'
  | step_validator k power name b r b' : RegisterValidator k power name b = (r, b') → base_step b b'
  | step_drain b r b' : GetPendingValidatorUpdates b = (r, b') → base_step b b'
  | step_beacon h hash b r b' : RecordBeacon h hash b = (r, b') → base_step b b'
  | step_write_only v b r b' : SetWriteOnly v b = (r, b') → base_step b b'
  | step_verifier v b r b' : SetIdentityVerifier v b = (r, b') → base_step b b'
  | step_mode mode threshold b r b' : SetAttestationMode mode threshold b = (r, b') → base_step b b'
  | step_commit {DB} `{KVStore DB} (db : DB) b r b' db' : Commit db b = (r, (b', db')) → base_step b b'.
#[local] Abbreviation fresh_step := (base_step (fresh := true)).

Definition lists_rel (b b' : TwoListBase) : Prop :=
  submissions b' = submissions b ∧ participants b' = participants b.
#[local] Instance lists_rel_refl : Reflexive lists_rel.
Proof. by split. Qed.
#[local] Instance lists_rel_trans : Transitive lists_rel.
Proof. intros b1 b2 b3 [H1 H2] [H3 H4]. split; congruence. Qed.
Lemma inv_lists b b' : base_inv b → lists_rel b b' → base_inv b'.
Proof. intros Hi [E1 E2]. unfold base_inv. by rewrite E1, E2. Qed.
Lemma inv_keeps {A} (m : M TwoListBase A) b r b' : keeps lists_rel m → m b = (r, b') → base_inv b → base_inv b'.
Proof. intros Hk Hm Hi. specialize (Hk b). rewrite Hm in Hk. by eapply inv_lists. Qed.

Lemma fresh_step_inv b b' : fresh_step b b' → base_inv b → base_inv b'.
Proof.
  intros [now p d st en b0 r b1 Hx|now p i h pl part sealed b0 r b1 Hf Hx|p old new pl b0 r b1 Hf Hx|p i h b0 r b1 Hx
    |now p height b0 r b1 Hx|k power name b0 r b1 Hx|b0 r b1 Hx|h hash b0 r b1 Hx|v b0 r b1 Hx|v b0 r b1 Hx|mode th b0 r b1 Hx|DB HDB db b0 r b1 db' Hx] Hi.
  - eapply inv_keeps, Hi; [|exact Hx]. unfold CreatePeriod, set_dirty. keeps_auto; by split.
  - specialize (Hf eq_refl). destruct (has (participants b0) (participantKey p h)) eqn:Hp.
    { unfold SubmitToListsWithSealedAttrs in Hx. revert Hx. mrun. unfold id. rewrite Hp. by intros [= _ <-]. }
    apply has_false in Hp as Hn. apply has_false in Hf.
    destruct (submit_run now p i h pl part sealed b0 Hn) as (evs & b2 & Hrun & _ & _ & _ & E1 & E2).
    rewrite Hx in Hrun. injection Hrun as -> ->. destruct Hi as [Hm Hl]. unfold base_inv. rewrite E1, E2.
    split; [by apply sizes_insert|by apply map_Forall_insert_2].
  - revert Hx. unfold UpdateSubmission, set_dirty. mrun. unfold id.
    destruct (writeOnly b0); [by intros [= _ <-]|]. mrun.
    destruct (has (submissions b0) _) eqn:Ho; cbn [negb]; mrun; [|by intros [= _ <-]].
    intros [= _ <-]. destruct Hi as [Hm Hl]. unfold base_inv. fields. apply has_true in Ho. split.
    + apply sizes_replace; [done|done|]. destruct (Hf eq_refl) as [->|Hf'%has_false]; [by left|by right].
    + apply map_Forall_insert_2; [done|]. by apply map_Forall_delete.
  - revert Hx. unfold WithdrawFromLists, set_dirty. mrun. unfold id.
    destruct (has (submissions b0) _) eqn:Ho; cbn [negb]; mrun; [|by intros [= _ <-]].
    destruct (has (participants b0) _) eqn:Hp; cbn [negb]; mrun; [|by intros [= _ <-]].
    intros [= _ <-]. destruct Hi as [Hm Hl]. unfold base_inv. fields. apply has_true in Ho, Hp. split.
    + by apply sizes_delete.
    + by apply map_Forall_delete.
  - eapply inv_keeps, Hi; [|exact Hx]. unfold ClosePeriod, set_dirty. keeps_auto.
    destruct (collectPeriodLists _ _) as [ids hs]. keeps_auto; by split.
  - eapply inv_keeps, Hi; [|exact Hx]. unfold RegisterValidator, set_dirty. keeps_auto; by split.
  - by injection Hx as _ <-.
  - by injection Hx as _ <-.
  - by injection Hx as _ <-.
  - by injection Hx as _ <-.
  - eapply inv_keeps, Hi; [|exact Hx]. unfold SetAttestationMode. keeps_auto; by split.
  - eapply inv_lists; [done|]. unfold Commit in Hx. destruct (dirty b0); [destruct (db_write _ _)|];
      injection Hx as _ <- _; by split.
Qed.
Lemma base_reachable_inv sg b : rtc fresh_step (empty_base sg) b → base_inv b.
Proof.
  intros Hsteps. assert (base_inv (empty_base sg)) as Hi by (split; [by intros q _|apply map_Forall_empty]).
  induction Hsteps as [|b0 b1 b2 Hstep _ IH]; [done|]. apply IH. by eapply fresh_step_inv.
Qed.

(** A closure only exists for a closed period. *)
Definition closures_closed (b : TwoListBase) : Prop :=
  map_Forall (λ id _, PeriodRecord_Status <$> periods b !! id = Some "closed") (closures b).
Definition lifecycle_rel (b b' : TwoListBase) : Prop := closures_closed b → closures_closed b'.
#[local] Instance lifecycle_refl : Reflexive lifecycle_rel.
Proof. intros b H. exact H. Qed.
#[local] Instance lifecycle_trans : Transitive lifecycle_rel.
Proof. intros b1 b2 b3 H1 H2 H. auto. Qed.
Lemma lifecycle_same b b' : periods b' = periods b → closures b' = closures b → lifecycle_rel b b'.
Proof. unfold lifecycle_rel, closures_closed. by intros -> ->. Qed.
Lemma lifecycle_keeps {A} (m : M TwoListBase A) b r b' : keeps lifecycle_rel m → m b = (r, b') → lifecycle_rel b b'.
Proof. intros Hk Hm. specialize (Hk b). by rewrite Hm in Hk. Qed.
Lemma base_step_lifecycle fresh b b' : base_step (fresh := fresh) b b' → lifecycle_rel b b'.
Proof.
  intros [now p d st en b0 r b1 Hx|now p i h pl part sealed b0 r b1 Hf Hx|p old new pl b0 r b1 Hf Hx|p i h b0 r b1 Hx
    |now p height b0 r b1 Hx|k power name b0 r b1 Hx|b0 r b1 Hx|h hash b0 r b1 Hx|v b0 r b1 Hx|v b0 r b1 Hx
    |mode th b0 r b1 Hx|DB HDB db b0 r b1 db' Hx].
  1: { revert Hx. unfold CreatePeriod, set_dirty. mrun. destruct (has (periods b0) p) eqn:E; mrun; intros [= _ <-]; [done|].
    intros H id c Hc. specialize (H id c Hc). cbn in *. rewrite lookup_insert. case_decide; [|done]. subst.
    apply has_false in E. by rewrite E in H. }
  1: { destruct (has (participants b0) (participantKey p h)) eqn:Hp.
    { unfold SubmitToListsWithSealedAttrs in Hx. revert Hx. mrun. unfold id. rewrite Hp. by intros [= _ <-]. }
    apply has_false in Hp. destruct (submit_run now p i h pl part sealed b0 Hp) as (evs & b2 & Hrun & _ & E1 & E2 & _).
    rewrite Hx in Hrun. injection Hrun as -> ->. by apply lifecycle_same. }
  3: { revert Hx. unfold ClosePeriod, set_dirty. mrun. unfold id. destruct (periods b0 !! p) as [per|] eqn:Ep; mrun; [|by intros [= _ <-]].
    destruct (bool_decide _); mrun; [by intros [= _ <-]|]. destruct (has _ _); mrun; [by intros [= _ <-]|].
    destruct (collectPeriodLists _ _) as [ids hs]. mrun. destruct (negb _); mrun; intros [= _ <-]; [done|].
    intros H i c Hc. cbn in *. rewrite lookup_alter. revert Hc. fields. rewrite lookup_insert. case_decide; [subst; by rewrite Ep|].
    intros Hc. exact (H i c Hc). }
  all: try (injection Hx as _ <-; by apply lifecycle_same).
  all: try (eapply lifecycle_keeps; [|exact Hx]; unfold UpdateSubmission, WithdrawFromLists, RegisterValidator,
    SetAttestationMode, set_dirty; keeps_auto; by apply lifecycle_same).
  unfold Commit in Hx. destruct (dirty b0); [destruct (db_write _ _)|]; injection Hx as _ <- _; by apply lifecycle_same.
Qed.
Lemma base_reachable_lifecycle fresh sg b : rtc (base_step (fresh := fresh)) (empty_base sg) b → closures_closed b.
Proof.
  intros Hsteps. assert (closures_closed (empty_base sg)) as Hi by apply map_Forall_empty.
  induction Hsteps as [|b0 b1 b2 Hstep _ IH]; [done|]. apply IH. by eapply base_step_lifecycle.
Qed.

(** The count gate of a close, and what it writes. *)
Lemma close_run now periodID height b period :
  periods b !! periodID = Some period → PeriodRecord_Status period ≠ "closed" → closures b !! periodID = None →
  let '(ids, hashes) := collectPeriodLists b periodID in
  if decide (length hashes = length ids)
  then ∃ evs b', ClosePeriod now periodID height b = (Ok (closure_of now b periodID height, evs), b') ∧
    submissions b' = submissions b ∧ participants b' = participants b ∧
    closures b' = <[periodID := closure_of now b periodID height]> (closures b) ∧
    PeriodRecord_Status <$> periods b' !! periodID = Some "closed"
  else ClosePeriod now periodID height b = (Fail (count_mismatch periodID ids hashes), b).
Proof.
  intros Hp Hst Hc%has_false. destruct (collectPeriodLists b periodID) as [ids hs] eqn:E.
  unfold ClosePeriod. mrun. unfold id. rewrite Hp. mrun. rewrite (bool_decide_false _ Hst). mrun. rewrite Hc. mrun.
  rewrite E. mrun. destruct (Nat.eqb_spec (length hs) (length ids)) as [Hl|Hl]; cbn [negb]; mrun.
  - rewrite decide_True by done. unfold set_dirty. mrun. eexists _, _. split; [done|]. fields.
    split_and!; try done. by rewrite lookup_alter_eq, Hp.
  - by rewrite decide_False.
Qed.
Lemma closure_total now b periodID height :
  ClosureRecord_TotalSubmissions (closure_of now b periodID height) = Z.of_nat (length (collectPeriodLists b periodID).1).
Proof.
  unfold closure_of. destruct (collectPeriodLists b periodID) as [ids hs]. by destruct (signClosurePayload _ _ _ _).
Qed.

(** A close that finds the lists unequal writes nothing and reports both sizes; one
    that finds them equal seals the period with their common size. *)
Theorem ClosePeriod_spec (now : Z) (periodID : string) (height : Z) (b : TwoListBase) (period : PeriodRecord) :
  periods b !! periodID = Some period → PeriodRecord_Status period ≠ "closed" → closures b !! periodID = None →
  let '(ids, hashes) := collectPeriodLists b periodID in
  if decide (length hashes = length ids)
  then ∃ closure evs b', ClosePeriod now periodID height b = (Ok (closure, evs), b') ∧
    closures b' !! periodID = Some closure ∧
    ClosureRecord_TotalSubmissions closure = Z.of_nat (length ids) ∧
    ClosureRecord_L1MerkleRoot closure = Some (computeMerkleRoot ids) ∧
    ClosureRecord_L2MerkleRoot closure = Some (computeMerkleRoot hashes) ∧
    PeriodRecord_Status <$> periods b' !! periodID = Some "closed"
  else ClosePeriod now periodID height b =
    (Fail (ErrCountMismatch periodID (Z.of_nat (length ids)) (Z.of_nat (length hashes))), b).
Proof.
  intros Hp Hst Hc. pose proof (close_run now periodID height b period Hp Hst Hc) as H.
  pose proof (closure_total now b periodID height) as Ht.
  destruct (collectPeriodLists b periodID) as [ids hs] eqn:E. case_decide; [|exact H].
  destruct H as (evs & b' & Hrun & _ & _ & Hcl & Hper).
  exists (closure_of now b periodID height), evs, b'. rewrite Hcl, lookup_insert_eq.
  split_and!; try done; unfold closure_of; rewrite E; by destruct (signClosurePayload _ _ _ _).
Qed.

Lemma closure_finalized now b periodID height : ClosureRecord_FinalizedAt (closure_of now b periodID height) = now.
Proof. unfold closure_of. destruct (collectPeriodLists b periodID) as [ids hs]. by destruct (signClosurePayload _ _ _ _). Qed.

(** With nothing superseded, what a close collects is what the counters count. *)
Lemma base_collect_counts b periodID :
  base_inv b → length (collectPeriodLists b periodID).1 = (CountsForPeriod b periodID).1 ∧
    length (collectPeriodLists b periodID).2 = (CountsForPeriod b periodID).2.
Proof.
  intros [_ Hl]. unfold CountsForPeriod, collectPeriodLists, count_where. cbn [fst snd]. rewrite !length_fmap. split; [|done].
  assert (∀ kv, kv ∈ map_to_list (submissions b) → live kv.2 = true) as Hall.
  { intros [k r] Hin%elem_of_map_to_list. exact (Hl k r Hin). }
  clear -Hall. induction (map_to_list (submissions b)) as [|kv l IH]; [done|]. cbn [List.filter].
  rewrite (Hall kv) by (by left). rewrite andb_true_r.
  destruct (in_poll periodID kv.1 kv.2); cbn [length]; rewrite IH; try done; intros; apply Hall; by right.
Qed.
(** Closing an open period of a base whose lists agree. *)
Lemma balanced_close_run b now periodID height period :
  base_inv b → no_colon periodID = true →
  periods b !! periodID = Some period → PeriodRecord_Status period ≠ "closed" → closures b !! periodID = None →
  let c := closure_of now b periodID height in
  (CountsForPeriod b periodID).1 = (CountsForPeriod b periodID).2 ∧
  ClosureRecord_TotalSubmissions c = Z.of_nat (CountsForPeriod b periodID).1 ∧
  ∃ evs b', ClosePeriod now periodID height b = (Ok (c, evs), b') ∧
    submissions b' = submissions b ∧ participants b' = participants b ∧
    PeriodRecord_Status <$> periods b' !! periodID = Some "closed".
Proof.
  intros Hi Hq Hp Hst Hc. destruct (base_collect_counts b periodID Hi) as [L1 L2]. destruct Hi as [Hm _]. specialize (Hm _ Hq).
  split; [exact Hm|]. cbv zeta. rewrite closure_total, L1. split; [done|].
  pose proof (close_run now periodID height b period Hp Hst Hc) as H.
  destruct (collectPeriodLists b periodID) as [ids hs]. cbn [fst snd] in *.
  rewrite decide_True in H by (unfold CountsForPeriod in *; cbn [fst snd] in *; congruence).
  destruct H as (evs & b' & Hrun & H1 & H2 & _ & H4). eauto 10.
Qed.
Lemma balanced_period_closes b now periodID height period :
  base_inv b → no_colon periodID = true →
  periods b !! periodID = Some period → PeriodRecord_Status period ≠ "closed" → closures b !! periodID = None →
  (CountsForPeriod b periodID).1 = (CountsForPeriod b periodID).2 ∧
  ∃ closure evs b', ClosePeriod now periodID height b = (Ok (closure, evs), b') ∧
    ClosureRecord_TotalSubmissions closure = Z.of_nat (CountsForPeriod b periodID).1.
Proof.
  intros Hi Hq Hp Hst Hc. destruct (balanced_close_run b now periodID height period Hi Hq Hp Hst Hc)
    as (Hm & Ht & evs & b' & Hrun & _). eauto 10.
Qed.

(** C36. The two-list invariant of the base, as the liveness it buys: from an empty base, when
    every submission and every update brings an identifier that is not in use, whatever
    operations run and whatever they answer, both lists of a period without a colon in its
    identifier have one size, so closing it while it is open succeeds and records that
    size. (The base checks neither: [BaseWitnesses.reused_identifier_blocks_close].) *)
Theorem reachable_period_closes (sg : option Signer) (b : TwoListBase) (now : Z) (periodID : string) (height : Z)
    (period : PeriodRecord) :
  rtc fresh_step (empty_base sg) b → no_colon periodID = true →
  periods b !! periodID = Some period → PeriodRecord_Status period ≠ "closed" → closures b !! periodID = None →
  (CountsForPeriod b periodID).1 = (CountsForPeriod b periodID).2 ∧
  ∃ closure evs b', ClosePeriod now periodID height b = (Ok (closure, evs), b') ∧
    ClosureRecord_TotalSubmissions closure = Z.of_nat (CountsForPeriod b periodID).1.
Proof.
  intros Hr%base_reachable_inv. by eapply balanced_period_closes.
Qed.
End properties.
Abbreviation any_step := (base_step (fresh := false)).
Abbreviation fresh_step := (base_step (fresh := true)).

(** ** Persistence *)
Definition base_keyed (b : TwoListBase) : Prop :=
  map_Forall (λ k p, PeriodRecord_PeriodID p = k) (periods b) ∧
  map_Forall (λ k c, ClosureRecord_PeriodID c = k) (closures b) ∧
  map_Forall (λ k v, ValidatorRecord_PubKeyBase64 v = k) (validators b).
Definition base_records_ok (b : TwoListBase) : Prop :=
  map_Forall (λ _, PeriodRecord_ok) (periods b) ∧ map_Forall (λ _, SubmissionRecord_ok) (submissions b) ∧
  map_Forall (λ _, ClosureRecord_ok) (closures b) ∧ map_Forall (λ _, ValidatorRecord_ok) (validators b).

Section restart.
Context `{C : Crypto} {DB : Type} `{KVLaws DB}.

Lemma base_commit_stored (db db' : DB) (b b' : TwoListBase) h :
  (∀ k, db_get db k = None) → dirty b = true → Commit db b = (Ok h, (b', db')) →
  stored_table db' b_period (periods b) ∧ stored_table db' b_submission (submissions b) ∧
  stored_table db' b_participant (participants b) ∧ stored_table db' b_closure (closures b) ∧
  stored_table db' b_validator (validators b) ∧
  b' = b <| appHash := h |> <| Height ::= int64_inc |> <| dirty := false |> ∧ h = Some (computeAppHash b) ∧
  db_get db' "height" = Some (VBytes (fmt_d (Height b'))) ∧
  db_get db' "app_hash" = Some (VBytes (computeAppHash b)).
Proof.
  intros Hdb Hd. unfold Commit. rewrite Hd. cbv zeta. set (batch := _ ++ _).
  destruct (db_write db batch) as [db2|] eqn:Hw; [|done]. intros [= <- <- <-].
  assert (∀ k, db_get db2 k = batch_get batch k) as Hg.
  { intros k. rewrite (db_get_write _ _ _ _ Hw), Hdb. unfold batch_get. by destruct (_ !! k). }
  split_and!; try done; try (intros k; rewrite Hg; subst batch; revert k; unfold commit_batch;
    intros k; rewrite !batch_get_app, batch_get_meta by reflexivity;
    repeat first [rewrite batch_get_other by reflexivity | rewrite batch_get_table];
    cbn beta iota; try done; by destruct (_ !! _));
    rewrite Hg; subst batch; by rewrite batch_get_app.
Qed.

Lemma base_restart (db db' : DB) (b b' : TwoListBase) (h : gobytes) (sg : option Signer) :
  (∀ k, db_get db k = None) → base_keyed b → base_records_ok b → dirty b = true →
  Commit db b = (Ok h, (b', db')) →
  NewTwoListBase db' sg = Some ((empty_base sg) <| Height := int64_inc (Height b) |> <| appHash := h |>
    <| periods := periods b |> <| submissions := submissions b |> <| participants := participants b |>
    <| closures := closures b |> <| validators := validators b |>).
Proof.
  intros Hdb (K1 & K2 & K3) (R1 & R2 & R3 & R4) Hd Hc.
  destruct (base_commit_stored _ _ _ _ _ Hdb Hd Hc) as (T1 & T2 & T3 & T4 & T5 & -> & -> & Eh & Ea).
  unfold NewTwoListBase, loadState, load_height, load_app_hash. rewrite Eh, Ea. cbn [raw_val mbind option_bind].
  rewrite scan_fmt_d by apply wrap64_ok. cbn [fmap option_fmap option_map mbind option_bind].
  rewrite (load_table_spec _ b_period _ (periods b)) by (first [done|intros k r Hk; split; [by apply of_to_json; eauto|by eauto]]).
  cbn [mbind option_bind].
  rewrite (load_table_spec _ b_submission _ (submissions b)) by (first [done|intros k r Hk; split; [by apply of_to_json; eauto|done]]).
  cbn [mbind option_bind].
  rewrite (load_table_spec _ b_participant _ (participants b)) by (first [done|intros k r Hk; split; [by apply of_to_json|done]]).
  cbn [mbind option_bind].
  rewrite (load_table_spec _ b_closure _ (closures b)) by (first [done|intros k r Hk; split; [by apply of_to_json; eauto|by eauto]]).
  cbn [mbind option_bind].
  rewrite (load_table_spec _ b_validator _ (validators b)) by (first [done|intros k r Hk; split; [by apply of_to_json; eauto|by eauto]]).
  done.
Qed.
(** A commit of the base on an empty database followed by a restart recovers the
    height, the app hash and the five tables. *)
Theorem base_Commit_roundtrip (db db' : DB) (b b' : TwoListBase) (h : gobytes) (sg : option Signer) :
  (∀ k, db_get db k = None) → base_keyed b → base_records_ok b → dirty b = true →
  Commit db b = (Ok h, (b', db')) →
  NewTwoListBase db' sg = Some ((empty_base sg) <| Height := int64_inc (Height b) |> <| appHash := h |>
    <| periods := periods b |> <| submissions := submissions b |> <| participants := participants b |>
    <| closures := closures b |> <| validators := validators b |>).
Proof. apply base_restart. Qed.
End restart.
End Base.

(** ** Decimal rendering in errors *)
Lemma itoa_char (d : N) : (d < 10)%N → ascii_of_N (48 + d) = pretty_N_char d.
Proof. intros H. destruct d as [|p]; [done|]. do 4 (destruct p as [p|p|]; try done; try lia). Qed.
Lemma itoa_loop_go fuel n buf :
  0 ≤ n < 10 ^ Z.of_nat fuel → itoa_loop fuel n buf = pretty_N_go (Z.to_N n) buf.
Proof.
  revert n buf. induction fuel as [|f IH]; intros n buf Hn; cbn [itoa_loop].
  { assert (n = 0) as -> by lia. by rewrite pretty_N_go_0. }
  destruct (Z.ltb_spec 0 n) as [Hp|Hp]; [|assert (n = 0) as -> by lia; by rewrite pretty_N_go_0].
  rewrite (pretty_N_go_step (Z.to_N n)) by lia.
  rewrite Nat2Z.inj_succ, Z.pow_succ_r in Hn by lia.
  rewrite IH by (split; [apply Z.div_pos; lia|apply Z.div_lt_upper_bound; lia]).
  rewrite Z2N.inj_div by lia. f_equal. f_equal.
  pose proof (Z.mod_pos_bound n 10 ltac:(lia)).
  rewrite Z2N.inj_add, Z2N.inj_mod by lia. apply itoa_char. apply N.mod_lt. lia.
Qed.

(** [itoa] renders every 64-bit integer in decimal but the smallest, whose negation
    overflows and which it renders as a bare sign. *)
Theorem itoa_spec (n : Z) :
  int64_ok n → itoa n = if decide (n = - 2 ^ 63) then "-" else fmt_d n.
Proof.
  intros Hn. unfold int64_ok in Hn. unfold itoa. destruct n as [|p|p].
  - by case_decide.
  - case_decide as Hd; [exfalso; clear -Hd; lia|]. cbn [Z.eqb Z.ltb Z.compare].
    rewrite itoa_loop_go by (change (Z.of_nat 20) with 20; lia).
    change (fmt_d (Z.pos p)) with (pretty (N.pos p)). unfold pretty, pretty_N. by rewrite decide_False by done.
  - cbn [Z.eqb Z.ltb Z.compare]. case_decide as Hmin; [by rewrite Hmin|].
    rewrite wrap64_id by (unfold int64_ok; lia).
    rewrite itoa_loop_go by (change (Z.of_nat 20) with 20; lia).
    change (fmt_d (Z.neg p)) with (String "-"%char (pretty (N.pos p))).
    unfold pretty, pretty_N. by rewrite decide_False by done.
Qed.
