(* ===== verification/ChatTx.v ===== *)
(** protocol/tx/chat.go: the transactions of the chat domain and their stateless
    validation. *)
From S2P Require Import Prelude GoStd Json TxData TxValidate.

(** Wire-format discriminators, scoped to this domain. *)
Definition ChatTxTypeMailboxCreate : Z := 1.
Definition ChatTxTypeMessageDispatch : Z := 2.
Definition ChatTxTypeMailboxClose : Z := 3.
Definition ChatTxTypeMessageUpdate : Z := 4.
Definition ChatTxTypeMessageWithdraw : Z := 5.
Definition ChatTxTypeRegisterValidator : Z := 6.

(** Opens a mailbox. *)
Record MailboxCreateData := mkMailboxCreateData {
  MailboxCreateData_MailboxID : string;
  MailboxCreateData_Label : string;
  MailboxCreateData_Address : string;
  MailboxCreateData_RouteHint : string;
  MailboxCreateData_SurfaceModel : string;
  MailboxCreateData_AccountLabel : string;
  MailboxCreateData_EndTime : Z;
}.
#[export] Instance Eta_MailboxCreateData : Eta MailboxCreateData := λ r,
  mkMailboxCreateData (MailboxCreateData_MailboxID r) (MailboxCreateData_Label r) (MailboxCreateData_Address r) (MailboxCreateData_RouteHint r) (MailboxCreateData_SurfaceModel r) (MailboxCreateData_AccountLabel r) (MailboxCreateData_EndTime r).
Definition MailboxCreateData_tags : list string :=
  ["mailbox_id"; "label"; "address"; "route_hint"; "surface_model"; "account_label"; "end_time"].
#[export] Instance Json_MailboxCreateData : Json MailboxCreateData := {
  jzero := mkMailboxCreateData "" "" "" "" "" "" 0;
  to_json r := JObj (
    required "mailbox_id" (MailboxCreateData_MailboxID r) ++
    omit_str "label" (MailboxCreateData_Label r) ++
    omit_str "address" (MailboxCreateData_Address r) ++
    omit_str "route_hint" (MailboxCreateData_RouteHint r) ++
    required "surface_model" (MailboxCreateData_SurfaceModel r) ++
    omit_str "account_label" (MailboxCreateData_AccountLabel r) ++
    omit_int "end_time" (MailboxCreateData_EndTime r) ++ []);
  of_json := of_object (λ ms,
    x0 ← jfield MailboxCreateData_tags ms "mailbox_id";
    x1 ← jfield MailboxCreateData_tags ms "label";
    x2 ← jfield MailboxCreateData_tags ms "address";
    x3 ← jfield MailboxCreateData_tags ms "route_hint";
    x4 ← jfield MailboxCreateData_tags ms "surface_model";
    x5 ← jfield MailboxCreateData_tags ms "account_label";
    x6 ← jfield MailboxCreateData_tags ms "end_time";
    Some (mkMailboxCreateData x0 x1 x2 x3 x4 x5 x6));
}.

(** Submits a sealed message. *)
Record MessageDispatchData := mkMessageDispatchData {
  MessageDispatchData_MailboxID : string;
  MessageDispatchData_MessageNonce : string;
  MessageDispatchData_BeaconBlockHash : string;
  MessageDispatchData_BeaconBlockHeight : Z;
  MessageDispatchData_Timestamp : Z;
  MessageDispatchData_PartitionID : string;
  MessageDispatchData_SealedPayload : option json;
  MessageDispatchData_SenderPubKey : string;
  MessageDispatchData_SenderSig : gobytes;
  MessageDispatchData_IdvAttestationSig : gobytes;
}.
#[export] Instance Eta_MessageDispatchData : Eta MessageDispatchData := λ r,
  mkMessageDispatchData (MessageDispatchData_MailboxID r) (MessageDispatchData_MessageNonce r) (MessageDispatchData_BeaconBlockHash r) (MessageDispatchData_BeaconBlockHeight r) (MessageDispatchData_Timestamp r) (MessageDispatchData_PartitionID r) (MessageDispatchData_SealedPayload r) (MessageDispatchData_SenderPubKey r) (MessageDispatchData_SenderSig r) (MessageDispatchData_IdvAttestationSig r).
Definition MessageDispatchData_tags : list string :=
  ["mailbox_id"; "message_nonce"; "beacon_block_hash"; "beacon_block_height"; "timestamp"; "partition_id"; "sealed_payload"; "sender_pub_key"; "sender_sig"; "idv_attestation_sig"].
#[export] Instance Json_MessageDispatchData : Json MessageDispatchData := {
  jzero := mkMessageDispatchData "" "" "" 0 0 "" None "" None None;
  to_json r := JObj (
    required "mailbox_id" (MessageDispatchData_MailboxID r) ++
    required "message_nonce" (MessageDispatchData_MessageNonce r) ++
    required "beacon_block_hash" (MessageDispatchData_BeaconBlockHash r) ++
    required "beacon_block_height" (MessageDispatchData_BeaconBlockHeight r) ++
    required "timestamp" (MessageDispatchData_Timestamp r) ++
    omit_str "partition_id" (MessageDispatchData_PartitionID r) ++
    required "sealed_payload" (MessageDispatchData_SealedPayload r) ++
    required "sender_pub_key" (MessageDispatchData_SenderPubKey r) ++
    required "sender_sig" (MessageDispatchData_SenderSig r) ++
    omit_bytes "idv_attestation_sig" (MessageDispatchData_IdvAttestationSig r) ++ []);
  of_json := of_object (λ ms,
    x0 ← jfield MessageDispatchData_tags ms "mailbox_id";
    x1 ← jfield MessageDispatchData_tags ms "message_nonce";
    x2 ← jfield MessageDispatchData_tags ms "beacon_block_hash";
    x3 ← jfield MessageDispatchData_tags ms "beacon_block_height";
    x4 ← jfield MessageDispatchData_tags ms "timestamp";
    x5 ← jfield MessageDispatchData_tags ms "partition_id";
    x6 ← jfield MessageDispatchData_tags ms "sealed_payload";
    x7 ← jfield MessageDispatchData_tags ms "sender_pub_key";
    x8 ← jfield MessageDispatchData_tags ms "sender_sig";
    x9 ← jfield MessageDispatchData_tags ms "idv_attestation_sig";
    Some (mkMessageDispatchData x0 x1 x2 x3 x4 x5 x6 x7 x8 x9));
}.

(** Closes a mailbox. *)
Record MailboxCloseData := mkMailboxCloseData {
  MailboxCloseData_MailboxID : string;
  MailboxCloseData_ClosingHeight : Z;
}.
#[export] Instance Eta_MailboxCloseData : Eta MailboxCloseData := λ r,
  mkMailboxCloseData (MailboxCloseData_MailboxID r) (MailboxCloseData_ClosingHeight r).
Definition MailboxCloseData_tags : list string :=
  ["mailbox_id"; "closing_height"].
#[export] Instance Json_MailboxCloseData : Json MailboxCloseData := {
  jzero := mkMailboxCloseData "" 0;
  to_json r := JObj (
    required "mailbox_id" (MailboxCloseData_MailboxID r) ++
    required "closing_height" (MailboxCloseData_ClosingHeight r) ++ []);
  of_json := of_object (λ ms,
    x0 ← jfield MailboxCloseData_tags ms "mailbox_id";
    x1 ← jfield MailboxCloseData_tags ms "closing_height";
    Some (mkMailboxCloseData x0 x1));
}.

(** Replaces a dispatched message. *)
Record MessageUpdateData := mkMessageUpdateData {
  MessageUpdateData_MailboxID : string;
  MessageUpdateData_OldMessageID : string;
  MessageUpdateData_NewMessageNonce : string;
  MessageUpdateData_BeaconBlockHash : string;
  MessageUpdateData_BeaconBlockHeight : Z;
  MessageUpdateData_NewSealedPayload : option json;
  MessageUpdateData_Timestamp : Z;
  MessageUpdateData_SenderPubKey : string;
  MessageUpdateData_SenderSig : gobytes;
  MessageUpdateData_IdvAttestationSig : gobytes;
}.
#[export] Instance Eta_MessageUpdateData : Eta MessageUpdateData := λ r,
  mkMessageUpdateData (MessageUpdateData_MailboxID r) (MessageUpdateData_OldMessageID r) (MessageUpdateData_NewMessageNonce r) (MessageUpdateData_BeaconBlockHash r) (MessageUpdateData_BeaconBlockHeight r) (MessageUpdateData_NewSealedPayload r) (MessageUpdateData_Timestamp r) (MessageUpdateData_SenderPubKey r) (MessageUpdateData_SenderSig r) (MessageUpdateData_IdvAttestationSig r).
Definition MessageUpdateData_tags : list string :=
  ["mailbox_id"; "old_message_id"; "new_message_nonce"; "beacon_block_hash"; "beacon_block_height"; "new_sealed_payload"; "timestamp"; "sender_pub_key"; "sender_sig"; "idv_attestation_sig"].
#[export] Instance Json_MessageUpdateData : Json MessageUpdateData := {
  jzero := mkMessageUpdateData "" "" "" "" 0 None 0 "" None None;
  to_json r := JObj (
    required "mailbox_id" (MessageUpdateData_MailboxID r) ++
    required "old_message_id" (MessageUpdateData_OldMessageID r) ++
    required "new_message_nonce" (MessageUpdateData_NewMessageNonce r) ++
    required "beacon_block_hash" (MessageUpdateData_BeaconBlockHash r) ++
    required "beacon_block_height" (MessageUpdateData_BeaconBlockHeight r) ++
    required "new_sealed_payload" (MessageUpdateData_NewSealedPayload r) ++
    required "timestamp" (MessageUpdateData_Timestamp r) ++
    required "sender_pub_key" (MessageUpdateData_SenderPubKey r) ++
    required "sender_sig" (MessageUpdateData_SenderSig r) ++
    omit_bytes "idv_attestation_sig" (MessageUpdateData_IdvAttestationSig r) ++ []);
  of_json := of_object (λ ms,
    x0 ← jfield MessageUpdateData_tags ms "mailbox_id";
    x1 ← jfield MessageUpdateData_tags ms "old_message_id";
    x2 ← jfield MessageUpdateData_tags ms "new_message_nonce";
    x3 ← jfield MessageUpdateData_tags ms "beacon_block_hash";
    x4 ← jfield MessageUpdateData_tags ms "beacon_block_height";
    x5 ← jfield MessageUpdateData_tags ms "new_sealed_payload";
    x6 ← jfield MessageUpdateData_tags ms "timestamp";
    x7 ← jfield MessageUpdateData_tags ms "sender_pub_key";
    x8 ← jfield MessageUpdateData_tags ms "sender_sig";
    x9 ← jfield MessageUpdateData_tags ms "idv_attestation_sig";
    Some (mkMessageUpdateData x0 x1 x2 x3 x4 x5 x6 x7 x8 x9));
}.

(** Withdraws a message from both lists. *)
Record MessageWithdrawData := mkMessageWithdrawData {
  MessageWithdrawData_MailboxID : string;
  MessageWithdrawData_MessageID : string;
  MessageWithdrawData_Timestamp : Z;
  MessageWithdrawData_SenderPubKey : string;
  MessageWithdrawData_SenderSig : gobytes;
  MessageWithdrawData_IdvAttestationSig : gobytes;
}.
#[export] Instance Eta_MessageWithdrawData : Eta MessageWithdrawData := λ r,
  mkMessageWithdrawData (MessageWithdrawData_MailboxID r) (MessageWithdrawData_MessageID r) (MessageWithdrawData_Timestamp r) (MessageWithdrawData_SenderPubKey r) (MessageWithdrawData_SenderSig r) (MessageWithdrawData_IdvAttestationSig r).
Definition MessageWithdrawData_tags : list string :=
  ["mailbox_id"; "message_id"; "timestamp"; "sender_pub_key"; "sender_sig"; "idv_attestation_sig"].
#[export] Instance Json_MessageWithdrawData : Json MessageWithdrawData := {
  jzero := mkMessageWithdrawData "" "" 0 "" None None;
  to_json r := JObj (
    required "mailbox_id" (MessageWithdrawData_MailboxID r) ++
    required "message_id" (MessageWithdrawData_MessageID r) ++
    required "timestamp" (MessageWithdrawData_Timestamp r) ++
    required "sender_pub_key" (MessageWithdrawData_SenderPubKey r) ++
    required "sender_sig" (MessageWithdrawData_SenderSig r) ++
    omit_bytes "idv_attestation_sig" (MessageWithdrawData_IdvAttestationSig r) ++ []);
  of_json := of_object (λ ms,
    x0 ← jfield MessageWithdrawData_tags ms "mailbox_id";
    x1 ← jfield MessageWithdrawData_tags ms "message_id";
    x2 ← jfield MessageWithdrawData_tags ms "timestamp";
    x3 ← jfield MessageWithdrawData_tags ms "sender_pub_key";
    x4 ← jfield MessageWithdrawData_tags ms "sender_sig";
    x5 ← jfield MessageWithdrawData_tags ms "idv_attestation_sig";
    Some (mkMessageWithdrawData x0 x1 x2 x3 x4 x5));
}.

(** ** [ValidateChatTx], one definition per case of its switch *)
Section validate.
Context {St : Type}.

(** The last three checks of the cases a participant signs. *)
Definition check_sender (pub : string) (sig idv : gobytes) (no_attestation : string) : M St unit :=
  fail_if (str_empty pub) (Errorf "missing sender_pub_key" []) ;;
  fail_if (blen sig =? 0) (Errorf "missing sender_sig" []) ;;
  fail_if (blen idv =? 0) (Errorf no_attestation []).

Definition Validate_MailboxCreate (t : Tx) : M St unit :=
  d ← or_fail (UnmarshalData (A := MailboxCreateData) t) (bad_json "invalid mailbox create data: %w");
  fail_if (str_empty (MailboxCreateData_MailboxID d)) (Errorf "missing mailbox_id" []) ;;
  fail_if (negb (bool_decide (MailboxCreateData_SurfaceModel d = "mail") || bool_decide (MailboxCreateData_SurfaceModel d = "chat")))
    (Errorf "surface_model must be 'mail' or 'chat'" []).
Definition Validate_MessageDispatch (t : Tx) : M St unit :=
  d ← or_fail (UnmarshalData (A := MessageDispatchData) t) (bad_json "invalid message dispatch data: %w");
  fail_if (str_empty (MessageDispatchData_MailboxID d)) (Errorf "missing mailbox_id" []) ;;
  fail_if (str_empty (MessageDispatchData_MessageNonce d)) (Errorf "missing message_nonce" []) ;;
  fail_if (bool_decide (MessageDispatchData_SealedPayload d = None)) (Errorf "missing sealed_payload" []) ;;
  check_sender (MessageDispatchData_SenderPubKey d) (MessageDispatchData_SenderSig d)
    (MessageDispatchData_IdvAttestationSig d) "message dispatch must carry idv_attestation_sig".
Definition Validate_MailboxClose (t : Tx) : M St unit :=
  d ← or_fail (UnmarshalData (A := MailboxCloseData) t) (bad_json "invalid mailbox close data: %w");
  fail_if (str_empty (MailboxCloseData_MailboxID d)) (Errorf "missing mailbox_id" []).
Definition Validate_MessageUpdate (t : Tx) : M St unit :=
  d ← or_fail (UnmarshalData (A := MessageUpdateData) t) (bad_json "invalid message update data: %w");
  fail_if (str_empty (MessageUpdateData_MailboxID d)) (Errorf "missing mailbox_id" []) ;;
  fail_if (str_empty (MessageUpdateData_OldMessageID d)) (Errorf "missing old_message_id" []) ;;
  fail_if (str_empty (MessageUpdateData_NewMessageNonce d)) (Errorf "missing new_message_nonce" []) ;;
  check_sender (MessageUpdateData_SenderPubKey d) (MessageUpdateData_SenderSig d)
    (MessageUpdateData_IdvAttestationSig d) "message update must carry idv_attestation_sig".
Definition Validate_MessageWithdraw (t : Tx) : M St unit :=
  d ← or_fail (UnmarshalData (A := MessageWithdrawData) t) (bad_json "invalid message withdraw data: %w");
  fail_if (str_empty (MessageWithdrawData_MailboxID d)) (Errorf "missing mailbox_id" []) ;;
  fail_if (str_empty (MessageWithdrawData_MessageID d)) (Errorf "missing message_id" []) ;;
  check_sender (MessageWithdrawData_SenderPubKey d) (MessageWithdrawData_SenderSig d)
    (MessageWithdrawData_IdvAttestationSig d) "message withdraw must carry idv_attestation_sig".

(** The case of a validator registration is the one of [Validate], word for word. *)
Definition ValidateChatTx (t : Tx) : M St unit :=
  let ty := Tx_Type t in
  fail_if (negb ((ChatTxTypeMailboxCreate <=? ty) && (ty <=? ChatTxTypeRegisterValidator)))
    (Errorf "invalid shychat transaction type: %d" [FInt ty]) ;;
  fail_if (blen (Tx_Signature t) =? 0) (Errorf "missing transaction signature" []) ;;
  fail_if (no_data t) (Errorf "missing transaction data" []) ;;
  if ty =? ChatTxTypeMailboxCreate then Validate_MailboxCreate t
  else if ty =? ChatTxTypeMessageDispatch then Validate_MessageDispatch t
  else if ty =? ChatTxTypeMailboxClose then Validate_MailboxClose t
  else if ty =? ChatTxTypeMessageUpdate then Validate_MessageUpdate t
  else if ty =? ChatTxTypeMessageWithdraw then Validate_MessageWithdraw t
  else if ty =? ChatTxTypeRegisterValidator then Validate_RegisterValidator t
  else mret tt.
End validate.
