(* ===== verification/StoreTx.v ===== *)
(** protocol/tx/store.go: the transactions of the store domain and their stateless
    validation. *)
From S2P Require Import Prelude GoStd Json TxData TxValidate ChatTx.

(** Wire-format discriminators, scoped to this domain. *)
Definition StoreTxTypeSecretStore : Z := 1.
Definition StoreTxTypeSecretReveal : Z := 2.
Definition StoreTxTypeSecretRotate : Z := 3.
Definition StoreTxTypeBucketClose : Z := 4.
Definition StoreTxTypeRegisterValidator : Z := 5.
Definition StoreTxTypeAdverseAction : Z := 6.

(** Submits a sealed secret to a bucket. *)
Record SecretStoreData := mkSecretStoreData {
  SecretStoreData_BucketID : string;
  SecretStoreData_SecretNonce : string;
  SecretStoreData_BeaconBlockHash : string;
  SecretStoreData_BeaconBlockHeight : Z;
  SecretStoreData_SubmissionIdentifierDerivation : string;
  SecretStoreData_Timestamp : Z;
  SecretStoreData_PartitionID : string;
  SecretStoreData_Category : string;
  SecretStoreData_SealedPayload : option json;
  SecretStoreData_SenderPubKey : string;
  SecretStoreData_SenderSig : gobytes;
  SecretStoreData_IdvAttestationSig : gobytes;
}.
#[export] Instance Eta_SecretStoreData : Eta SecretStoreData := λ r,
  mkSecretStoreData (SecretStoreData_BucketID r) (SecretStoreData_SecretNonce r) (SecretStoreData_BeaconBlockHash r) (SecretStoreData_BeaconBlockHeight r) (SecretStoreData_SubmissionIdentifierDerivation r) (SecretStoreData_Timestamp r) (SecretStoreData_PartitionID r) (SecretStoreData_Category r) (SecretStoreData_SealedPayload r) (SecretStoreData_SenderPubKey r) (SecretStoreData_SenderSig r) (SecretStoreData_IdvAttestationSig r).
Definition SecretStoreData_tags : list string :=
  ["scoping_id"; "submission_nonce"; "beacon_block_hash"; "beacon_block_height"; "submission_identifier_derivation"; "timestamp"; "partition_id"; "category"; "sealed_payload"; "sender_pub_key"; "sender_sig"; "idv_attestation_sig"].
#[export] Instance Json_SecretStoreData : Json SecretStoreData := {
  jzero := mkSecretStoreData "" "" "" 0 "" 0 "" "" None "" None None;
  to_json r := JObj (
    required "scoping_id" (SecretStoreData_BucketID r) ++
    required "submission_nonce" (SecretStoreData_SecretNonce r) ++
    required "beacon_block_hash" (SecretStoreData_BeaconBlockHash r) ++
    required "beacon_block_height" (SecretStoreData_BeaconBlockHeight r) ++
    omit_str "submission_identifier_derivation" (SecretStoreData_SubmissionIdentifierDerivation r) ++
    required "timestamp" (SecretStoreData_Timestamp r) ++
    omit_str "partition_id" (SecretStoreData_PartitionID r) ++
    required "category" (SecretStoreData_Category r) ++
    required "sealed_payload" (SecretStoreData_SealedPayload r) ++
    required "sender_pub_key" (SecretStoreData_SenderPubKey r) ++
    required "sender_sig" (SecretStoreData_SenderSig r) ++
    omit_bytes "idv_attestation_sig" (SecretStoreData_IdvAttestationSig r) ++ []);
  of_json := of_object (λ ms,
    x0 ← jfield SecretStoreData_tags ms "scoping_id";
    x1 ← jfield SecretStoreData_tags ms "submission_nonce";
    x2 ← jfield SecretStoreData_tags ms "beacon_block_hash";
    x3 ← jfield SecretStoreData_tags ms "beacon_block_height";
    x4 ← jfield SecretStoreData_tags ms "submission_identifier_derivation";
    x5 ← jfield SecretStoreData_tags ms "timestamp";
    x6 ← jfield SecretStoreData_tags ms "partition_id";
    x7 ← jfield SecretStoreData_tags ms "category";
    x8 ← jfield SecretStoreData_tags ms "sealed_payload";
    x9 ← jfield SecretStoreData_tags ms "sender_pub_key";
    x10 ← jfield SecretStoreData_tags ms "sender_sig";
    x11 ← jfield SecretStoreData_tags ms "idv_attestation_sig";
    Some (mkSecretStoreData x0 x1 x2 x3 x4 x5 x6 x7 x8 x9 x10 x11));
}.

(** Asks for a stored secret. *)
Record SecretRevealData := mkSecretRevealData {
  SecretRevealData_BucketID : string;
  SecretRevealData_SecretID : string;
  SecretRevealData_Timestamp : Z;
  SecretRevealData_SenderPubKey : string;
  SecretRevealData_SenderSig : gobytes;
  SecretRevealData_IdvAttestationSig : gobytes;
}.
#[export] Instance Eta_SecretRevealData : Eta SecretRevealData := λ r,
  mkSecretRevealData (SecretRevealData_BucketID r) (SecretRevealData_SecretID r) (SecretRevealData_Timestamp r) (SecretRevealData_SenderPubKey r) (SecretRevealData_SenderSig r) (SecretRevealData_IdvAttestationSig r).
Definition SecretRevealData_tags : list string :=
  ["scoping_id"; "submission_id"; "timestamp"; "sender_pub_key"; "sender_sig"; "idv_attestation_sig"].
#[export] Instance Json_SecretRevealData : Json SecretRevealData := {
  jzero := mkSecretRevealData "" "" 0 "" None None;
  to_json r := JObj (
    required "scoping_id" (SecretRevealData_BucketID r) ++
    required "submission_id" (SecretRevealData_SecretID r) ++
    required "timestamp" (SecretRevealData_Timestamp r) ++
    required "sender_pub_key" (SecretRevealData_SenderPubKey r) ++
    required "sender_sig" (SecretRevealData_SenderSig r) ++
    omit_bytes "idv_attestation_sig" (SecretRevealData_IdvAttestationSig r) ++ []);
  of_json := of_object (λ ms,
    x0 ← jfield SecretRevealData_tags ms "scoping_id";
    x1 ← jfield SecretRevealData_tags ms "submission_id";
    x2 ← jfield SecretRevealData_tags ms "timestamp";
    x3 ← jfield SecretRevealData_tags ms "sender_pub_key";
    x4 ← jfield SecretRevealData_tags ms "sender_sig";
    x5 ← jfield SecretRevealData_tags ms "idv_attestation_sig";
    Some (mkSecretRevealData x0 x1 x2 x3 x4 x5));
}.

(** Replaces a stored secret. *)
Record SecretRotateData := mkSecretRotateData {
  SecretRotateData_BucketID : string;
  SecretRotateData_OldSecretID : string;
  SecretRotateData_NewSecretNonce : string;
  SecretRotateData_BeaconBlockHash : string;
  SecretRotateData_BeaconBlockHeight : Z;
  SecretRotateData_SubmissionIdentifierDerivation : string;
  SecretRotateData_NewSealedPayload : option json;
  SecretRotateData_Timestamp : Z;
  SecretRotateData_SenderPubKey : string;
  SecretRotateData_SenderSig : gobytes;
  SecretRotateData_IdvAttestationSig : gobytes;
}.
#[export] Instance Eta_SecretRotateData : Eta SecretRotateData := λ r,
  mkSecretRotateData (SecretRotateData_BucketID r) (SecretRotateData_OldSecretID r) (SecretRotateData_NewSecretNonce r) (SecretRotateData_BeaconBlockHash r) (SecretRotateData_BeaconBlockHeight r) (SecretRotateData_SubmissionIdentifierDerivation r) (SecretRotateData_NewSealedPayload r) (SecretRotateData_Timestamp r) (SecretRotateData_SenderPubKey r) (SecretRotateData_SenderSig r) (SecretRotateData_IdvAttestationSig r).
Definition SecretRotateData_tags : list string :=
  ["scoping_id"; "old_submission_id"; "new_submission_nonce"; "beacon_block_hash"; "beacon_block_height"; "submission_identifier_derivation"; "new_sealed_payload"; "timestamp"; "sender_pub_key"; "sender_sig"; "idv_attestation_sig"].
#[export] Instance Json_SecretRotateData : Json SecretRotateData := {
  jzero := mkSecretRotateData "" "" "" "" 0 "" None 0 "" None None;
  to_json r := JObj (
    required "scoping_id" (SecretRotateData_BucketID r) ++
    required "old_submission_id" (SecretRotateData_OldSecretID r) ++
    required "new_submission_nonce" (SecretRotateData_NewSecretNonce r) ++
    required "beacon_block_hash" (SecretRotateData_BeaconBlockHash r) ++
    required "beacon_block_height" (SecretRotateData_BeaconBlockHeight r) ++
    omit_str "submission_identifier_derivation" (SecretRotateData_SubmissionIdentifierDerivation r) ++
    required "new_sealed_payload" (SecretRotateData_NewSealedPayload r) ++
    required "timestamp" (SecretRotateData_Timestamp r) ++
    required "sender_pub_key" (SecretRotateData_SenderPubKey r) ++
    required "sender_sig" (SecretRotateData_SenderSig r) ++
    omit_bytes "idv_attestation_sig" (SecretRotateData_IdvAttestationSig r) ++ []);
  of_json := of_object (λ ms,
    x0 ← jfield SecretRotateData_tags ms "scoping_id";
    x1 ← jfield SecretRotateData_tags ms "old_submission_id";
    x2 ← jfield SecretRotateData_tags ms "new_submission_nonce";
    x3 ← jfield SecretRotateData_tags ms "beacon_block_hash";
    x4 ← jfield SecretRotateData_tags ms "beacon_block_height";
    x5 ← jfield SecretRotateData_tags ms "submission_identifier_derivation";
    x6 ← jfield SecretRotateData_tags ms "new_sealed_payload";
    x7 ← jfield SecretRotateData_tags ms "timestamp";
    x8 ← jfield SecretRotateData_tags ms "sender_pub_key";
    x9 ← jfield SecretRotateData_tags ms "sender_sig";
    x10 ← jfield SecretRotateData_tags ms "idv_attestation_sig";
    Some (mkSecretRotateData x0 x1 x2 x3 x4 x5 x6 x7 x8 x9 x10));
}.

(** Closes a bucket. *)
Record BucketCloseData := mkBucketCloseData {
  BucketCloseData_BucketID : string;
  BucketCloseData_ClosingHeight : Z;
}.
#[export] Instance Eta_BucketCloseData : Eta BucketCloseData := λ r,
  mkBucketCloseData (BucketCloseData_BucketID r) (BucketCloseData_ClosingHeight r).
Definition BucketCloseData_tags : list string :=
  ["scoping_id"; "closing_height"].
#[export] Instance Json_BucketCloseData : Json BucketCloseData := {
  jzero := mkBucketCloseData "" 0;
  to_json r := JObj (
    required "scoping_id" (BucketCloseData_BucketID r) ++
    required "closing_height" (BucketCloseData_ClosingHeight r) ++ []);
  of_json := of_object (λ ms,
    x0 ← jfield BucketCloseData_tags ms "scoping_id";
    x1 ← jfield BucketCloseData_tags ms "closing_height";
    Some (mkBucketCloseData x0 x1));
}.

(** A two-party authority action on an identity of a bucket. *)
Record StoreAdverseActionData := mkStoreAdverseActionData {
  StoreAdverseActionData_ActionID : string;
  StoreAdverseActionData_ActionNonce : string;
  StoreAdverseActionData_BucketID : string;
  StoreAdverseActionData_IdentityHash : string;
  StoreAdverseActionData_ActionType : string;
  StoreAdverseActionData_ReferencedActionID : string;
  StoreAdverseActionData_EligibilityAuth : gobytes;
  StoreAdverseActionData_ReconciliationAuth : gobytes;
  StoreAdverseActionData_Reason : string;
  StoreAdverseActionData_Timestamp : Z;
}.
#[export] Instance Eta_StoreAdverseActionData : Eta StoreAdverseActionData := λ r,
  mkStoreAdverseActionData (StoreAdverseActionData_ActionID r) (StoreAdverseActionData_ActionNonce r) (StoreAdverseActionData_BucketID r) (StoreAdverseActionData_IdentityHash r) (StoreAdverseActionData_ActionType r) (StoreAdverseActionData_ReferencedActionID r) (StoreAdverseActionData_EligibilityAuth r) (StoreAdverseActionData_ReconciliationAuth r) (StoreAdverseActionData_Reason r) (StoreAdverseActionData_Timestamp r).
Definition StoreAdverseActionData_tags : list string :=
  ["action_id"; "action_nonce"; "scoping_id"; "identity_hash"; "action_type"; "referenced_action_id"; "eligibility_auth"; "reconciliation_auth"; "reason"; "timestamp"].
#[export] Instance Json_StoreAdverseActionData : Json StoreAdverseActionData := {
  jzero := mkStoreAdverseActionData "" "" "" "" "" "" None None "" 0;
  to_json r := JObj (
    required "action_id" (StoreAdverseActionData_ActionID r) ++
    required "action_nonce" (StoreAdverseActionData_ActionNonce r) ++
    required "scoping_id" (StoreAdverseActionData_BucketID r) ++
    required "identity_hash" (StoreAdverseActionData_IdentityHash r) ++
    required "action_type" (StoreAdverseActionData_ActionType r) ++
    omit_str "referenced_action_id" (StoreAdverseActionData_ReferencedActionID r) ++
    required "eligibility_auth" (StoreAdverseActionData_EligibilityAuth r) ++
    required "reconciliation_auth" (StoreAdverseActionData_ReconciliationAuth r) ++
    required "reason" (StoreAdverseActionData_Reason r) ++
    required "timestamp" (StoreAdverseActionData_Timestamp r) ++ []);
  of_json := of_object (λ ms,
    x0 ← jfield StoreAdverseActionData_tags ms "action_id";
    x1 ← jfield StoreAdverseActionData_tags ms "action_nonce";
    x2 ← jfield StoreAdverseActionData_tags ms "scoping_id";
    x3 ← jfield StoreAdverseActionData_tags ms "identity_hash";
    x4 ← jfield StoreAdverseActionData_tags ms "action_type";
    x5 ← jfield StoreAdverseActionData_tags ms "referenced_action_id";
    x6 ← jfield StoreAdverseActionData_tags ms "eligibility_auth";
    x7 ← jfield StoreAdverseActionData_tags ms "reconciliation_auth";
    x8 ← jfield StoreAdverseActionData_tags ms "reason";
    x9 ← jfield StoreAdverseActionData_tags ms "timestamp";
    Some (mkStoreAdverseActionData x0 x1 x2 x3 x4 x5 x6 x7 x8 x9));
}.

(** ** [ValidateStoreTx], one definition per case of its switch *)
Section validate.
Context {St : Type}.

Definition Validate_SecretStore (t : Tx) : M St unit :=
  d ← or_fail (UnmarshalData (A := SecretStoreData) t) (bad_json "invalid secret store data: %w");
  fail_if (str_empty (SecretStoreData_BucketID d)) (Errorf "missing scoping_id" []) ;;
  fail_if (str_empty (SecretStoreData_SecretNonce d)) (Errorf "missing submission_nonce" []) ;;
  fail_if (str_empty (SecretStoreData_Category d)) (Errorf "missing category" []) ;;
  fail_if (negb (derivation_ok (SecretStoreData_SubmissionIdentifierDerivation d)))
    (Errorf "invalid submission_identifier_derivation" []) ;;
  fail_if (bool_decide (SecretStoreData_SealedPayload d = None)) (Errorf "missing sealed_payload" []) ;;
  check_sender (SecretStoreData_SenderPubKey d) (SecretStoreData_SenderSig d)
    (SecretStoreData_IdvAttestationSig d) "secret store must carry idv_attestation_sig".
Definition Validate_SecretReveal (t : Tx) : M St unit :=
  d ← or_fail (UnmarshalData (A := SecretRevealData) t) (bad_json "invalid secret reveal data: %w");
  fail_if (str_empty (SecretRevealData_BucketID d)) (Errorf "missing scoping_id" []) ;;
  fail_if (str_empty (SecretRevealData_SecretID d)) (Errorf "missing submission_id" []) ;;
  check_sender (SecretRevealData_SenderPubKey d) (SecretRevealData_SenderSig d)
    (SecretRevealData_IdvAttestationSig d) "secret reveal must carry idv_attestation_sig".
Definition Validate_SecretRotate (t : Tx) : M St unit :=
  d ← or_fail (UnmarshalData (A := SecretRotateData) t) (bad_json "invalid secret rotate data: %w");
  fail_if (str_empty (SecretRotateData_BucketID d)) (Errorf "missing scoping_id" []) ;;
  fail_if (str_empty (SecretRotateData_OldSecretID d)) (Errorf "missing old_submission_id" []) ;;
  fail_if (str_empty (SecretRotateData_NewSecretNonce d)) (Errorf "missing new_submission_nonce" []) ;;
  fail_if (negb (derivation_ok (SecretRotateData_SubmissionIdentifierDerivation d)))
    (Errorf "invalid submission_identifier_derivation" []) ;;
  check_sender (SecretRotateData_SenderPubKey d) (SecretRotateData_SenderSig d)
    (SecretRotateData_IdvAttestationSig d) "secret rotate must carry idv_attestation_sig".
Definition Validate_BucketClose (t : Tx) : M St unit :=
  d ← or_fail (UnmarshalData (A := BucketCloseData) t) (bad_json "invalid bucket close data: %w");
  fail_if (str_empty (BucketCloseData_BucketID d)) (Errorf "missing scoping_id" []).
Definition Validate_StoreAdverseAction (t : Tx) : M St unit :=
  d ← or_fail (UnmarshalData (A := StoreAdverseActionData) t) (bad_json "invalid store adverse action data: %w");
  fail_if (str_empty (StoreAdverseActionData_ActionID d) || str_empty (StoreAdverseActionData_ActionNonce d))
    (Errorf "store adverse action: action_id and action_nonce are required" []) ;;
  fail_if (str_empty (StoreAdverseActionData_BucketID d)) (Errorf "store adverse action: bucket_id is required" []) ;;
  fail_if (str_empty (StoreAdverseActionData_IdentityHash d)) (Errorf "store adverse action: identity_hash is required" []) ;;
  fail_if (str_empty (StoreAdverseActionData_Reason d)) (Errorf "store adverse action: reason is required" []) ;;
  fail_if (StoreAdverseActionData_Timestamp d <=? 0) (Errorf "store adverse action: timestamp is required" []) ;;
  fail_if (negb (bool_decide (StoreAdverseActionData_ActionType d = "suppress") ||
                 bool_decide (StoreAdverseActionData_ActionType d = "restore")))
    (Errorf "store adverse action: unknown action_type %q (must be suppress or restore)" [FStr (StoreAdverseActionData_ActionType d)]) ;;
  fail_if ((blen (StoreAdverseActionData_EligibilityAuth d) =? 0) || (blen (StoreAdverseActionData_ReconciliationAuth d) =? 0))
    (Errorf "store adverse action: both eligibility_auth and reconciliation_auth are required" []).

(** The case of a validator registration is the one of [Validate], word for word. *)
Definition ValidateStoreTx (t : Tx) : M St unit :=
  let ty := Tx_Type t in
  fail_if (negb ((StoreTxTypeSecretStore <=? ty) && (ty <=? StoreTxTypeAdverseAction)))
    (Errorf "invalid shystore transaction type: %d" [FInt ty]) ;;
  fail_if (blen (Tx_Signature t) =? 0) (Errorf "missing transaction signature" []) ;;
  fail_if (no_data t) (Errorf "missing transaction data" []) ;;
  if ty =? StoreTxTypeSecretStore then Validate_SecretStore t
  else if ty =? StoreTxTypeSecretReveal then Validate_SecretReveal t
  else if ty =? StoreTxTypeSecretRotate then Validate_SecretRotate t
  else if ty =? StoreTxTypeBucketClose then Validate_BucketClose t
  else if ty =? StoreTxTypeRegisterValidator then Validate_RegisterValidator t
  else if ty =? StoreTxTypeAdverseAction then Validate_StoreAdverseAction t
  else mret tt.
End validate.
