(* ===== verification/Domain.v ===== *)
(** A state machine built on the two-list base: the interface of the embedding, and the
    checks the chat and the store domain share. *)
From S2P Require Import Prelude GoStd Json Types TxData TxValidate Nonce Identity Keys TwoListBase.
Import Base.

(** A state [S] that embeds [*submission.TwoListBase]. *)
Class Embeds (S : Type) := {
  the_base : S → TwoListBase;
  with_base : TwoListBase → S → S;
  the_with_base b s : the_base (with_base b s) = b;
  with_the_base s : with_base (the_base s) s = s;
  with_with_base b b' s : with_base b (with_base b' s) = with_base b s;
}.
(** A promoted method: it runs on the embedded base. *)
Definition on_base {S} `{Embeds S} {A} (m : M TwoListBase A) : M S A :=
  λ s, let '(r, b) := m (the_base s) in (r, with_base b s).

Section checks.
Context `{C : Crypto} {S : Type} `{Embeds S}.

(** Device signature: [pub] is 64 hex characters and [sig] its signature of [msg]. *)
Definition check_device (pub msg : string) (sig : gobytes) (invalid : error) : M S unit :=
  let key_error := Errorf "sender_pub_key must be a 64-char hex-encoded Ed25519 public key" [] in
  raw ← or_fail (hex_DecodeString pub) key_error;
  fail_if (negb (slen raw =? PublicKeySize)) key_error ;;
  fail_if (negb (ed25519_Verify raw msg (bytes_of sig))) invalid.
(** Nonce format and beacon. *)
Definition check_nonce (field nonce beaconHash : string) (beaconHeight : Z) : M S unit :=
  wrap_err (λ e, Errorf (field +:+ ": %w") [FErr e]) (ValidateNonce nonce) ;;
  window ← gets (λ s, beaconWindow (the_base s));
  wrap_err (λ e, Errorf "beacon: %w" [FErr e]) (ValidateBeacon beaconHash beaconHeight window).
(** The period exists and is not closed; [kind] is what the domain calls it. *)
Definition check_period (kind closed periodID : string) : M S PeriodRecord :=
  s ← gets (λ s, s);
  period ← or_fail (GetPeriod (the_base s) periodID) (Errorf (kind +:+ " %s does not exist") [FStr periodID]);
  fail_if (bool_decide (PeriodRecord_Status period = "closed")) (Errorf (kind +:+ " %s is " +:+ closed) [FStr periodID]) ;;
  mret period.
Definition configured_verifier : M S IdentityVerifier :=
  v ← gets (λ s, GetVerifier (the_base s));
  or_fail v (Errorf "no identity verifier configured for this deployment" []).
(** [identityHash, err := verify(...)]: the failure of a verifier, wrapped. *)
Definition identified (o : option string) (what : string) : M S string :=
  or_fail o (Errorf what [FErr verifier_error]).
(** [executeRegisterValidator], in both domains. *)
Definition execute_validator (t : Tx) : M S (list Event) :=
  d ← or_fail (UnmarshalData (A := ValidatorRegistrationData) t) (bad_json "invalid validator registration data: %w");
  on_base (RegisterValidator (ValidatorRegistrationData_PubKeyBase64 d) (ValidatorRegistrationData_Power d)
             (ValidatorRegistrationData_Name d)).
End checks.

(** ** Frames *)
Section frames.
Context {S : Type} `{Embeds S}.
Lemma on_base_run {A} (m : M TwoListBase A) s :
  on_base m s = (let '(r, b) := m (the_base s) in (r, with_base b s)).
Proof. done. Qed.
Lemma on_base_ok {A} (m : M TwoListBase A) s a s' :
  on_base m s = (Ok a, s') → ∃ b, m (the_base s) = (Ok a, b) ∧ s' = with_base b s.
Proof. unfold on_base. destruct (m (the_base s)) as [r b]. intros [= -> <-]. eauto. Qed.
End frames.
