(* ===== verification/Chat.v ===== *)
(** domain/state/shychat/state.go: the chat machine, mailboxes on the two-list base. *)
From S2P Require Import Prelude GoStd Json Tables KVStore Types TxData TxValidate Nonce Identity Keys VotingState TwoListBase Domain ChatTx.
Import Base.

(** What the chat domain knows of a mailbox besides its period. *)
Record MailboxRecord := mkMailboxRecord {
  MailboxRecord_MailboxID : string;
  MailboxRecord_Label : string;
  MailboxRecord_Address : string;
  MailboxRecord_RouteHint : string;
  MailboxRecord_SurfaceModel : string;
  MailboxRecord_AccountLabel : string;
}.
#[export] Instance Eta_MailboxRecord : Eta MailboxRecord := λ r,
  mkMailboxRecord (MailboxRecord_MailboxID r) (MailboxRecord_Label r) (MailboxRecord_Address r) (MailboxRecord_RouteHint r) (MailboxRecord_SurfaceModel r) (MailboxRecord_AccountLabel r).
Definition MailboxRecord_tags : list string :=
  ["mailbox_id"; "label"; "address"; "route_hint"; "surface_model"; "account_label"].
#[export] Instance Json_MailboxRecord : Json MailboxRecord := {
  jzero := mkMailboxRecord "" "" "" "" "" "";
  to_json r := JObj (
    required "mailbox_id" (MailboxRecord_MailboxID r) ++
    omit_str "label" (MailboxRecord_Label r) ++
    omit_str "address" (MailboxRecord_Address r) ++
    omit_str "route_hint" (MailboxRecord_RouteHint r) ++
    required "surface_model" (MailboxRecord_SurfaceModel r) ++
    omit_str "account_label" (MailboxRecord_AccountLabel r) ++ []);
  of_json := of_object (λ ms,
    x0 ← jfield MailboxRecord_tags ms "mailbox_id";
    x1 ← jfield MailboxRecord_tags ms "label";
    x2 ← jfield MailboxRecord_tags ms "address";
    x3 ← jfield MailboxRecord_tags ms "route_hint";
    x4 ← jfield MailboxRecord_tags ms "surface_model";
    x5 ← jfield MailboxRecord_tags ms "account_label";
    Some (mkMailboxRecord x0 x1 x2 x3 x4 x5));
}.

(** The summary a closed mailbox leaves. *)
Record DeliveryRecord := mkDeliveryRecord {
  DeliveryRecord_MailboxID : string;
  DeliveryRecord_TotalMessages : Z;
  DeliveryRecord_SurfaceModel : string;
  DeliveryRecord_FinalizedAt : Z;
}.
#[export] Instance Eta_DeliveryRecord : Eta DeliveryRecord := λ r,
  mkDeliveryRecord (DeliveryRecord_MailboxID r) (DeliveryRecord_TotalMessages r) (DeliveryRecord_SurfaceModel r) (DeliveryRecord_FinalizedAt r).
Definition DeliveryRecord_tags : list string :=
  ["mailbox_id"; "total_messages"; "surface_model"; "finalized_at"].
#[export] Instance Json_DeliveryRecord : Json DeliveryRecord := {
  jzero := mkDeliveryRecord "" 0 "" 0;
  to_json r := JObj (
    required "mailbox_id" (DeliveryRecord_MailboxID r) ++
    required "total_messages" (DeliveryRecord_TotalMessages r) ++
    required "surface_model" (DeliveryRecord_SurfaceModel r) ++
    required "finalized_at" (DeliveryRecord_FinalizedAt r) ++ []);
  of_json := of_object (λ ms,
    x0 ← jfield DeliveryRecord_tags ms "mailbox_id";
    x1 ← jfield DeliveryRecord_tags ms "total_messages";
    x2 ← jfield DeliveryRecord_tags ms "surface_model";
    x3 ← jfield DeliveryRecord_tags ms "finalized_at";
    Some (mkDeliveryRecord x0 x1 x2 x3));
}.

(** [type ChatState struct]. *)
Record ChatState := mkChatState {
  chat_base : TwoListBase;
  mailboxes : gmap string MailboxRecord;
  deliveries : gmap string DeliveryRecord;
}.
#[export] Instance Eta_ChatState : Eta ChatState := λ r, mkChatState (chat_base r) (mailboxes r) (deliveries r).
#[export] Program Instance Embeds_ChatState : Embeds ChatState := {
  the_base := chat_base; with_base b s := s <| chat_base := b |> }.
Next Obligation. done. Qed.
Next Obligation. by intros []. Qed.
Next Obligation. done. Qed.

Definition GetMailbox (s : ChatState) (mailboxID : string) : option MailboxRecord := mailboxes s !! mailboxID.
Definition GetDelivery (s : ChatState) (mailboxID : string) : option DeliveryRecord := deliveries s !! mailboxID.

Section chat.
Context `{C : Crypto}.

(** [NewChatState]: the base is reloaded, the chat tables start empty. *)
Definition NewChatState {DB} `{KVStore DB} (db : DB) (sg : option Signer) : option ChatState :=
  base ← NewTwoListBase db sg; Some (mkChatState base ∅ ∅).
Definition SetIdentityVerifier (v : IdentityVerifier) : M ChatState unit := on_base (Base.SetIdentityVerifier v).

(** ** Identities and identifiers *)
(** The message posed as a ballot cast for the verifier. *)
Definition chat_cast (d : MessageDispatchData) : BallotCastData :=
  (jzero : BallotCastData)
    <| BallotCastData_PollID := MessageDispatchData_MailboxID d |>
    <| BallotCastData_BallotNonce := MessageDispatchData_MessageNonce d |>
    <| BallotCastData_VoterPubKey := MessageDispatchData_SenderPubKey d |>
    <| BallotCastData_VoterSig := MessageDispatchData_SenderSig d |>
    <| BallotCastData_IdvAttestationSig := MessageDispatchData_IdvAttestationSig d |>.
Definition verifyAndIdentifyChat (v : IdentityVerifier) (d : MessageDispatchData) : option string :=
  VerifyAndIdentify v (chat_cast d).
Definition chat_update (d : MessageUpdateData) : BallotUpdateData :=
  (jzero : BallotUpdateData)
    <| BallotUpdateData_PollID := MessageUpdateData_MailboxID d |>
    <| BallotUpdateData_NewBallotNonce := MessageUpdateData_NewMessageNonce d |>
    <| BallotUpdateData_VoterPubKey := MessageUpdateData_SenderPubKey d |>
    <| BallotUpdateData_VoterSig := MessageUpdateData_SenderSig d |>
    <| BallotUpdateData_IdvAttestationSig := MessageUpdateData_IdvAttestationSig d |>.
Definition verifyAndIdentifyChatUpdate (v : IdentityVerifier) (d : MessageUpdateData) : option string :=
  VerifyAndIdentifyUpdate v (chat_update d).
(** Its first argument, the verifier, is not used. *)
Definition verifyAndIdentifyChatWithdraw (v : option IdentityVerifier) (d : MessageWithdrawData) : option string :=
  Some (hex_EncodeToString (sha256 (MessageWithdrawData_SenderPubKey d +:+ MessageWithdrawData_MailboxID d))).
Definition computeMessageID (messageNonce : string) : string := hex_EncodeToString (sha256 messageNonce).
Definition computeMessageIDWithBeacon (beaconBlockHash messageNonce : string) : string :=
  if str_empty beaconBlockHash then computeMessageID messageNonce
  else default (computeMessageID messageNonce) (DeriveSubmissionID beaconBlockHash messageNonce).

(** ** MailboxCreate *)
Definition validateMailboxCreate (t : Tx) : M ChatState unit :=
  d ← or_fail (UnmarshalData (A := MailboxCreateData) t) (bad_json "invalid mailbox create data: %w");
  s ← gets (λ s, s);
  fail_if (bool_decide (is_Some (GetPeriod (the_base s) (MailboxCreateData_MailboxID d))))
    (Errorf "mailbox %s already exists" [FStr (MailboxCreateData_MailboxID d)]).
(** [now 0] is the handler's reading of the clock, [now 1] that of [CreatePeriod]. *)
Definition executeMailboxCreate (now : clock) (t : Tx) : M ChatState (list Event) :=
  d ← or_fail (UnmarshalData (A := MailboxCreateData) t) (bad_json "invalid mailbox create data: %w");
  let id := MailboxCreateData_MailboxID d in
  let endTime := if MailboxCreateData_EndTime d =? 0 then int64_add (now 0%nat) (365 * 24 * 3600)
                 else MailboxCreateData_EndTime d in
  on_base (CreatePeriod (now 1%nat) id "shychat" (now 0%nat) endTime) ;;
  modify (λ s, s <| mailboxes ::= <[id :=
    mkMailboxRecord id (MailboxCreateData_Label d) (MailboxCreateData_Address d) (MailboxCreateData_RouteHint d)
      (MailboxCreateData_SurfaceModel d) (MailboxCreateData_AccountLabel d)]> |>) ;;
  mret [mkEvent "mailbox_created"
    [("mailbox_id", id, true); ("surface_model", MailboxCreateData_SurfaceModel d, false)]].

(** ** MessageDispatch *)
Definition validateMessageDispatch (now : Z) (t : Tx) : M ChatState unit :=
  d ← or_fail (UnmarshalData (A := MessageDispatchData) t) (bad_json "invalid message dispatch data: %w");
  let id := MessageDispatchData_MailboxID d in
  check_nonce "message_nonce" (MessageDispatchData_MessageNonce d) (MessageDispatchData_BeaconBlockHash d)
    (MessageDispatchData_BeaconBlockHeight d) ;;
  check_device (MessageDispatchData_SenderPubKey d) (MessageDispatchData_MessageNonce d +:+ ":" +:+ id)
    (MessageDispatchData_SenderSig d) (Errorf "sender device signature invalid for mailbox %s" [FStr id]) ;;
  period ← check_period "mailbox" "closed" id;
  fail_if ((0 <? PeriodRecord_EndTime period) && (PeriodRecord_EndTime period <=? now))
    (Errorf "mailbox %s has expired" [FStr id]) ;;
  v ← configured_verifier;
  identityHash ← identified (verifyAndIdentifyChat v d) "identity verification failed: %w";
  s ← gets (λ s, s);
  fail_if (HasParticipant (the_base s) id identityHash)
    (Errorf "sender %s already has a message in mailbox %s" [FStr identityHash; FStr id]).
Definition executeMessageDispatch (now : Z) (t : Tx) : M ChatState (list Event) :=
  d ← or_fail (UnmarshalData (A := MessageDispatchData) t) (bad_json "invalid message dispatch data: %w");
  v ← gets (λ s, GetVerifier (the_base s));
  v ← or_panic v;
  identityHash ← identified (verifyAndIdentifyChat v d) "identity re-derivation failed: %w";
  let messageID := computeMessageIDWithBeacon (MessageDispatchData_BeaconBlockHash d) (MessageDispatchData_MessageNonce d) in
  on_base (SubmitToLists now (MessageDispatchData_MailboxID d) messageID identityHash
             (MessageDispatchData_SealedPayload d) (MessageDispatchData_PartitionID d)).

(** ** MailboxClose *)
Definition validateMailboxClose (t : Tx) : M ChatState unit :=
  d ← or_fail (UnmarshalData (A := MailboxCloseData) t) (bad_json "invalid mailbox close data: %w");
  check_period "mailbox" "already closed" (MailboxCloseData_MailboxID d) ;; mret tt.
Definition executeMailboxClose (now : Z) (t : Tx) : M ChatState (list Event) :=
  d ← or_fail (UnmarshalData (A := MailboxCloseData) t) (bad_json "invalid mailbox close data: %w");
  let id := MailboxCloseData_MailboxID d in
  ce ← on_base (ClosePeriod now id (MailboxCloseData_ClosingHeight d));
  mb ← gets (λ s, mailboxes s !! id);
  let surfaceModel := match mb with Some mb => MailboxRecord_SurfaceModel mb | None => "" end in
  modify (λ s, s <| deliveries ::= <[id :=
    mkDeliveryRecord id (ClosureRecord_TotalSubmissions ce.1) surfaceModel (ClosureRecord_FinalizedAt ce.1)]> |>) ;;
  mret ce.2.

(** ** MessageUpdate *)
Definition validateMessageUpdate (t : Tx) : M ChatState unit :=
  w ← gets (λ s, IsWriteOnly (the_base s));
  fail_if w (Errorf "write-only posture active: message updates are not permitted" []) ;;
  d ← or_fail (UnmarshalData (A := MessageUpdateData) t) (bad_json "invalid message update data: %w");
  let id := MessageUpdateData_MailboxID d in
  check_nonce "new_message_nonce" (MessageUpdateData_NewMessageNonce d) (MessageUpdateData_BeaconBlockHash d)
    (MessageUpdateData_BeaconBlockHeight d) ;;
  check_device (MessageUpdateData_SenderPubKey d) ("update:" +:+ MessageUpdateData_NewMessageNonce d +:+ ":" +:+ id)
    (MessageUpdateData_SenderSig d) (Errorf "sender device signature invalid for message update on mailbox %s" [FStr id]) ;;
  check_period "mailbox" "closed" id ;;
  s ← gets (λ s, s);
  fail_if (negb (HasSubmission (the_base s) id (MessageUpdateData_OldMessageID d)))
    (Errorf "old_message_id %s not found in mailbox %s" [FStr (MessageUpdateData_OldMessageID d); FStr id]) ;;
  v ← configured_verifier;
  identityHash ← identified (verifyAndIdentifyChatUpdate v d) "identity verification failed for message update: %w";
  fail_if (negb (HasParticipant (the_base s) id identityHash))
    (Errorf "sender is not registered in mailbox %s — cannot update a non-dispatched message" [FStr id]).
Definition executeMessageUpdate (t : Tx) : M ChatState (list Event) :=
  d ← or_fail (UnmarshalData (A := MessageUpdateData) t) (bad_json "invalid message update data: %w");
  let newMessageID := computeMessageIDWithBeacon (MessageUpdateData_BeaconBlockHash d) (MessageUpdateData_NewMessageNonce d) in
  on_base (UpdateSubmission (MessageUpdateData_MailboxID d) (MessageUpdateData_OldMessageID d) newMessageID
             (MessageUpdateData_NewSealedPayload d)).

(** ** MessageWithdraw *)
Definition validateMessageWithdraw (t : Tx) : M ChatState unit :=
  d ← or_fail (UnmarshalData (A := MessageWithdrawData) t) (bad_json "invalid message withdraw data: %w");
  let id := MessageWithdrawData_MailboxID d in
  check_device (MessageWithdrawData_SenderPubKey d) ("withdraw:" +:+ MessageWithdrawData_MessageID d +:+ ":" +:+ id)
    (MessageWithdrawData_SenderSig d) (Errorf "sender device signature invalid for message withdraw on mailbox %s" [FStr id]) ;;
  check_period "mailbox" "closed" id ;;
  s ← gets (λ s, s);
  fail_if (negb (HasSubmission (the_base s) id (MessageWithdrawData_MessageID d)))
    (Errorf "message_id %s not found in mailbox %s" [FStr (MessageWithdrawData_MessageID d); FStr id]) ;;
  v ← configured_verifier;
  identityHash ← identified (verifyAndIdentifyChatWithdraw (Some v) d) "identity verification failed for message withdraw: %w";
  fail_if (negb (HasParticipant (the_base s) id identityHash)) (Errorf "sender is not registered in mailbox %s" [FStr id]).
Definition executeMessageWithdraw (t : Tx) : M ChatState (list Event) :=
  d ← or_fail (UnmarshalData (A := MessageWithdrawData) t) (bad_json "invalid message withdraw data: %w");
  v ← gets (λ s, GetVerifier (the_base s));
  identityHash ← identified (verifyAndIdentifyChatWithdraw v d) "identity re-derivation failed: %w";
  on_base (WithdrawFromLists (MessageWithdrawData_MailboxID d) (MessageWithdrawData_MessageID d) identityHash).

(** ** Dispatch *)
Definition unknown_chat_type (ty : Z) : error := Errorf "unknown shychat transaction type: %d" [FInt ty].
Definition ValidateTx (now : Z) (t : Tx) : M ChatState unit :=
  ValidateChatTx t ;;
  let ty := Tx_Type t in
  if ty =? ChatTxTypeMailboxCreate then validateMailboxCreate t
  else if ty =? ChatTxTypeMessageDispatch then validateMessageDispatch now t
  else if ty =? ChatTxTypeMailboxClose then validateMailboxClose t
  else if ty =? ChatTxTypeMessageUpdate then validateMessageUpdate t
  else if ty =? ChatTxTypeMessageWithdraw then validateMessageWithdraw t
  else if ty =? ChatTxTypeRegisterValidator then mret tt
  else failM (unknown_chat_type ty).
Definition ExecuteTx (now : clock) (t : Tx) : M ChatState (list Event) :=
  let ty := Tx_Type t in
  if ty =? ChatTxTypeMailboxCreate then executeMailboxCreate now t
  else if ty =? ChatTxTypeMessageDispatch then executeMessageDispatch (now 0%nat) t
  else if ty =? ChatTxTypeMailboxClose then executeMailboxClose (now 0%nat) t
  else if ty =? ChatTxTypeMessageUpdate then executeMessageUpdate t
  else if ty =? ChatTxTypeMessageWithdraw then executeMessageWithdraw t
  else if ty =? ChatTxTypeRegisterValidator then execute_validator t
  else failM (unknown_chat_type ty).

(** [Query]: the cases in the order of the switch. *)
Definition Query (s : ChatState) (path : string) : error + json :=
  let under p := has_prefix path p in
  let id p := trim_prefix path p in
  if bool_decide (path = "/mailboxes") then marshal_records (map_to_list (mailboxes s)).*2
  else if under "/mailbox/" then query_record (mailboxes s) (id "/mailbox/") "mailbox not found: %s"
  else if under "/delivery/" then query_record (deliveries s) (id "/delivery/") "delivery record not found for mailbox: %s"
  else if under "/message_count/" then
    let '(l1, l2) := CountsForPeriod (the_base s) (id "/message_count/") in
    inr (JObj [("l1", JInt (Z.of_nat l1)); ("l2", JInt (Z.of_nat l2))])
  else query_error "unknown query path: %s" [FStr path].
End chat.
