(* ===== verification/Store.v ===== *)
(** domain/state/shystore/state.go: the store machine, buckets of secrets on the two-list
    base, with two-party suppression of an identity. *)
From S2P Require Import Prelude GoStd Json Tables KVStore Types TxData TxValidate Nonce Identity Keys VotingState TwoListBase Domain StoreTx.
Import Base.

(** What the store domain knows of a bucket besides its period. *)
Record BucketRecord := mkBucketRecord {
  BucketRecord_BucketID : string;
  BucketRecord_AllowedCategories : slice string;
}.
#[export] Instance Eta_BucketRecord : Eta BucketRecord := λ r,
  mkBucketRecord (BucketRecord_BucketID r) (BucketRecord_AllowedCategories r).
Definition BucketRecord_tags : list string :=
  ["scoping_id"; "allowed_categories"].
#[export] Instance Json_BucketRecord : Json BucketRecord := {
  jzero := mkBucketRecord "" None;
  to_json r := JObj (
    required "scoping_id" (BucketRecord_BucketID r) ++
    required "allowed_categories" (BucketRecord_AllowedCategories r) ++ []);
  of_json := of_object (λ ms,
    x0 ← jfield BucketRecord_tags ms "scoping_id";
    x1 ← jfield BucketRecord_tags ms "allowed_categories";
    Some (mkBucketRecord x0 x1));
}.

(** A reveal that was requested. *)
Record RevealEventRecord := mkRevealEventRecord {
  RevealEventRecord_BucketID : string;
  RevealEventRecord_SecretID : string;
  RevealEventRecord_RequestedAt : Z;
  RevealEventRecord_Height : Z;
}.
#[export] Instance Eta_RevealEventRecord : Eta RevealEventRecord := λ r,
  mkRevealEventRecord (RevealEventRecord_BucketID r) (RevealEventRecord_SecretID r) (RevealEventRecord_RequestedAt r) (RevealEventRecord_Height r).
Definition RevealEventRecord_tags : list string :=
  ["scoping_id"; "secret_id"; "requested_at"; "height"].
#[export] Instance Json_RevealEventRecord : Json RevealEventRecord := {
  jzero := mkRevealEventRecord "" "" 0 0;
  to_json r := JObj (
    required "scoping_id" (RevealEventRecord_BucketID r) ++
    required "secret_id" (RevealEventRecord_SecretID r) ++
    required "requested_at" (RevealEventRecord_RequestedAt r) ++
    required "height" (RevealEventRecord_Height r) ++ []);
  of_json := of_object (λ ms,
    x0 ← jfield RevealEventRecord_tags ms "scoping_id";
    x1 ← jfield RevealEventRecord_tags ms "secret_id";
    x2 ← jfield RevealEventRecord_tags ms "requested_at";
    x3 ← jfield RevealEventRecord_tags ms "height";
    Some (mkRevealEventRecord x0 x1 x2 x3));
}.

(** An entry of the append-only log of authority actions. *)
Record StoreActionRecord := mkStoreActionRecord {
  StoreActionRecord_ActionID : string;
  StoreActionRecord_BucketID : string;
  StoreActionRecord_IdentityHash : string;
  StoreActionRecord_ActionType : string;
  StoreActionRecord_ReferencedActionID : string;
  StoreActionRecord_EligibilityAuth : gobytes;
  StoreActionRecord_ReconciliationAuth : gobytes;
  StoreActionRecord_Reason : string;
  StoreActionRecord_Timestamp : Z;
  StoreActionRecord_Height : Z;
}.
#[export] Instance Eta_StoreActionRecord : Eta StoreActionRecord := λ r,
  mkStoreActionRecord (StoreActionRecord_ActionID r) (StoreActionRecord_BucketID r) (StoreActionRecord_IdentityHash r) (StoreActionRecord_ActionType r) (StoreActionRecord_ReferencedActionID r) (StoreActionRecord_EligibilityAuth r) (StoreActionRecord_ReconciliationAuth r) (StoreActionRecord_Reason r) (StoreActionRecord_Timestamp r) (StoreActionRecord_Height r).
Definition StoreActionRecord_tags : list string :=
  ["action_id"; "scoping_id"; "identity_hash"; "action_type"; "referenced_action_id"; "eligibility_auth"; "reconciliation_auth"; "reason"; "timestamp"; "height"].
#[export] Instance Json_StoreActionRecord : Json StoreActionRecord := {
  jzero := mkStoreActionRecord "" "" "" "" "" None None "" 0 0;
  to_json r := JObj (
    required "action_id" (StoreActionRecord_ActionID r) ++
    required "scoping_id" (StoreActionRecord_BucketID r) ++
    required "identity_hash" (StoreActionRecord_IdentityHash r) ++
    required "action_type" (StoreActionRecord_ActionType r) ++
    omit_str "referenced_action_id" (StoreActionRecord_ReferencedActionID r) ++
    required "eligibility_auth" (StoreActionRecord_EligibilityAuth r) ++
    required "reconciliation_auth" (StoreActionRecord_ReconciliationAuth r) ++
    required "reason" (StoreActionRecord_Reason r) ++
    required "timestamp" (StoreActionRecord_Timestamp r) ++
    required "height" (StoreActionRecord_Height r) ++ []);
  of_json := of_object (λ ms,
    x0 ← jfield StoreActionRecord_tags ms "action_id";
    x1 ← jfield StoreActionRecord_tags ms "scoping_id";
    x2 ← jfield StoreActionRecord_tags ms "identity_hash";
    x3 ← jfield StoreActionRecord_tags ms "action_type";
    x4 ← jfield StoreActionRecord_tags ms "referenced_action_id";
    x5 ← jfield StoreActionRecord_tags ms "eligibility_auth";
    x6 ← jfield StoreActionRecord_tags ms "reconciliation_auth";
    x7 ← jfield StoreActionRecord_tags ms "reason";
    x8 ← jfield StoreActionRecord_tags ms "timestamp";
    x9 ← jfield StoreActionRecord_tags ms "height";
    Some (mkStoreActionRecord x0 x1 x2 x3 x4 x5 x6 x7 x8 x9));
}.

(** [type StoreState struct]. *)
Record StoreState := mkStoreState {
  store_base : TwoListBase;
  buckets : gmap string BucketRecord;
  revealEvents : gmap string RevealEventRecord;
  eligibilityAuthorityPubKey : gobytes;
  reconciliationAuthorityPubKey : gobytes;
  authorityActions : gmap string StoreActionRecord;
  suppressedIdentities : gset string;
}.
#[export] Instance Eta_StoreState : Eta StoreState := λ r,
  mkStoreState (store_base r) (buckets r) (revealEvents r) (eligibilityAuthorityPubKey r)
    (reconciliationAuthorityPubKey r) (authorityActions r) (suppressedIdentities r).
#[export] Program Instance Embeds_StoreState : Embeds StoreState := {
  the_base := store_base; with_base b s := s <| store_base := b |> }.
Next Obligation. done. Qed.
Next Obligation. by intros []. Qed.
Next Obligation. done. Qed.
(** [type StoreStateOptions struct]. *)
Record StoreStateOptions := mkStoreOptions { opt_eligibility : gobytes; opt_reconciliation : gobytes }.

Definition GetBucket (s : StoreState) (bucketID : string) : option BucketRecord := buckets s !! bucketID.

Section store.
Context `{C : Crypto}.

(** [NewStoreStateWithOptions]: the base is reloaded, everything else starts empty. *)
Definition NewStoreStateWithOptions {DB} `{KVStore DB} (db : DB) (sg : option Signer) (opts : StoreStateOptions) :
    error + StoreState :=
  if (0 <? blen (opt_eligibility opts)) && (0 <? blen (opt_reconciliation opts)) &&
     bool_decide (bytes_of (opt_eligibility opts) = bytes_of (opt_reconciliation opts))
  then inl (Errorf "eligibility_authority_pub_key and reconciliation_authority_pub_key must be distinct keys; identical keys collapse the two-party threshold to a single-party threshold" [])
  else match NewTwoListBase db sg with
  | None => inl (Errorf "load" [])
  | Some base => inr (mkStoreState base ∅ ∅ (opt_eligibility opts) (opt_reconciliation opts) ∅ ∅)
  end.
Definition NewStoreState {DB} `{KVStore DB} (db : DB) (sg : option Signer) : error + StoreState :=
  NewStoreStateWithOptions db sg (mkStoreOptions None None).
Definition SetIdentityVerifier (v : IdentityVerifier) : M StoreState unit := on_base (Base.SetIdentityVerifier v).

Definition NewBucket (now : clock) (bucketID : string) (allowedCategories : slice string) : M StoreState unit :=
  s ← gets (λ s, s);
  fail_if (bool_decide (is_Some (GetPeriod (the_base s) bucketID))) (Errorf "bucket %s already exists" [FStr bucketID]) ;;
  on_base (CreatePeriod (now 1%nat) bucketID "shystore" (now 0%nat) 0) ;;
  modify (λ s, s <| buckets ::= <[bucketID := mkBucketRecord bucketID allowedCategories]> |>).

(** ** Identities and identifiers *)
Definition store_cast (d : SecretStoreData) : BallotCastData :=
  (jzero : BallotCastData)
    <| BallotCastData_PollID := SecretStoreData_BucketID d |>
    <| BallotCastData_BallotNonce := SecretStoreData_SecretNonce d |>
    <| BallotCastData_VoterPubKey := SecretStoreData_SenderPubKey d |>
    <| BallotCastData_VoterSig := SecretStoreData_SenderSig d |>
    <| BallotCastData_IdvAttestationSig := SecretStoreData_IdvAttestationSig d |>.
Definition verifyAndIdentifyStore (v : IdentityVerifier) (d : SecretStoreData) : option string :=
  VerifyAndIdentify v (store_cast d).
(** Its first argument, the verifier, is not used. *)
Definition verifyAndIdentifyStoreReveal (v : option IdentityVerifier) (d : SecretRevealData) : option string :=
  Some (hex_EncodeToString (sha256 (SecretRevealData_SenderPubKey d +:+ SecretRevealData_BucketID d))).
Definition store_rotate (d : SecretRotateData) : BallotUpdateData :=
  (jzero : BallotUpdateData)
    <| BallotUpdateData_PollID := SecretRotateData_BucketID d |>
    <| BallotUpdateData_NewBallotNonce := SecretRotateData_NewSecretNonce d |>
    <| BallotUpdateData_VoterPubKey := SecretRotateData_SenderPubKey d |>
    <| BallotUpdateData_VoterSig := SecretRotateData_SenderSig d |>
    <| BallotUpdateData_IdvAttestationSig := SecretRotateData_IdvAttestationSig d |>.
Definition verifyAndIdentifyStoreRotate (v : IdentityVerifier) (d : SecretRotateData) : option string :=
  VerifyAndIdentifyUpdate v (store_rotate d).
Definition computeSecretID (secretNonce : string) : string := hex_EncodeToString (sha256 secretNonce).
(** [string(payload)]: a payload is taken to be spelled the way [json.Marshal] spells it. *)
Definition payload_text (payload : option json) : string := default "" (json_text <$> payload).
Definition deriveSecretID (secretNonce : string) (payload : option json) (mode : string) : string :=
  if bool_decide (mode = SubmissionIdentifierDerivationNoncePlusPayload)
  then hex_EncodeToString (sha256 (secretNonce +:+ ":" +:+ payload_text payload))
  else computeSecretID secretNonce.
Definition deriveSecretIDWithBeacon (beaconBlockHash secretNonce : string) (payload : option json) (mode : string) : string :=
  if bool_decide (mode = SubmissionIdentifierDerivationNoncePlusPayload)
  then hex_EncodeToString (sha256 (secretNonce +:+ ":" +:+ payload_text payload))
  else if str_empty beaconBlockHash then computeSecretID secretNonce
  else default (computeSecretID secretNonce) (DeriveSubmissionID beaconBlockHash secretNonce).

(** ** SecretStore *)
(** [cat == d.Category] for some allowed category; an empty list allows all. *)
Definition category_allowed (bucket : option BucketRecord) (category : string) : bool :=
  match bucket with
  | Some b => (len (BucketRecord_AllowedCategories b) =? 0) || bool_decide (category ∈ elems (BucketRecord_AllowedCategories b))
  | None => true
  end.
Definition validateSecretStore (t : Tx) : M StoreState unit :=
  d ← or_fail (UnmarshalData (A := SecretStoreData) t) (bad_json "invalid secret store data: %w");
  let id := SecretStoreData_BucketID d in
  check_nonce "secret_nonce" (SecretStoreData_SecretNonce d) (SecretStoreData_BeaconBlockHash d)
    (SecretStoreData_BeaconBlockHeight d) ;;
  check_device (SecretStoreData_SenderPubKey d) (SecretStoreData_SecretNonce d +:+ ":" +:+ id)
    (SecretStoreData_SenderSig d) (Errorf "sender device signature invalid for bucket %s" [FStr id]) ;;
  check_period "bucket" "closed" id ;;
  s ← gets (λ s, s);
  fail_if (negb (category_allowed (buckets s !! id) (SecretStoreData_Category d)))
    (Errorf "category %q is not allowed in bucket %s" [FStr (SecretStoreData_Category d); FStr id]) ;;
  v ← configured_verifier;
  identityHash ← identified (verifyAndIdentifyStore v d) "identity verification failed: %w";
  fail_if (HasParticipant (the_base s) id identityHash)
    (Errorf "participant %s already has a secret in bucket %s; use rotate to update" [FStr identityHash; FStr id]).
Definition executeSecretStore (now : Z) (t : Tx) : M StoreState (list Event) :=
  d ← or_fail (UnmarshalData (A := SecretStoreData) t) (bad_json "invalid secret store data: %w");
  v ← gets (λ s, GetVerifier (the_base s));
  v ← or_panic v;
  identityHash ← identified (verifyAndIdentifyStore v d) "identity re-derivation failed: %w";
  let secretID := deriveSecretIDWithBeacon (SecretStoreData_BeaconBlockHash d) (SecretStoreData_SecretNonce d)
                    (SecretStoreData_SealedPayload d) (SecretStoreData_SubmissionIdentifierDerivation d) in
  on_base (SubmitToLists now (SecretStoreData_BucketID d) secretID identityHash
             (SecretStoreData_SealedPayload d) (SecretStoreData_PartitionID d)).

(** ** SecretReveal *)
Definition suppress_key (bucketID identityHash : string) : string := bucketID +:+ ":" +:+ identityHash.
Definition validateSecretReveal (t : Tx) : M StoreState unit :=
  d ← or_fail (UnmarshalData (A := SecretRevealData) t) (bad_json "invalid secret reveal data: %w");
  let id := SecretRevealData_BucketID d in
  check_device (SecretRevealData_SenderPubKey d) (SecretRevealData_SecretID d +:+ ":" +:+ id)
    (SecretRevealData_SenderSig d) (Errorf "sender device signature invalid for secret reveal in bucket %s" [FStr id]) ;;
  s ← gets (λ s, s);
  or_fail (GetPeriod (the_base s) id) (Errorf "bucket %s does not exist" [FStr id]) ;;
  v ← configured_verifier;
  identityHash ← identified (verifyAndIdentifyStoreReveal (Some v) d) "identity verification failed for reveal: %w";
  fail_if (negb (HasParticipant (the_base s) id identityHash))
    (Errorf "no secret registered for identity %s in bucket %s" [FStr identityHash; FStr id]) ;;
  fail_if (negb (HasSubmission (the_base s) id (SecretRevealData_SecretID d)))
    (Errorf "secret_id %s not found in bucket %s" [FStr (SecretRevealData_SecretID d); FStr id]) ;;
  fail_if (bool_decide (suppress_key id identityHash ∈ suppressedIdentities s))
    (Errorf "secret reveal blocked: identity %s is under authority suppression in bucket %s" [FStr identityHash; FStr id]).
Definition executeSecretReveal (now : Z) (t : Tx) : M StoreState (list Event) :=
  d ← or_fail (UnmarshalData (A := SecretRevealData) t) (bad_json "invalid secret reveal data: %w");
  let id := SecretRevealData_BucketID d in
  let secretID := SecretRevealData_SecretID d in
  h ← gets (λ s, (GetInfo (the_base s)).1);
  modify (λ s, s <| revealEvents ::= <[id +:+ ":" +:+ secretID := mkRevealEventRecord id secretID now (int64_inc h)]> |>) ;;
  mret [mkEvent "reveal_requested" [("scoping_id", id, true); ("secret_id", secretID, true)]].

(** ** SecretRotate *)
Definition validateSecretRotate (t : Tx) : M StoreState unit :=
  w ← gets (λ s, IsWriteOnly (the_base s));
  fail_if w (Errorf "write-only posture active: secret rotation is not permitted" []) ;;
  d ← or_fail (UnmarshalData (A := SecretRotateData) t) (bad_json "invalid secret rotate data: %w");
  let id := SecretRotateData_BucketID d in
  check_nonce "new_secret_nonce" (SecretRotateData_NewSecretNonce d) (SecretRotateData_BeaconBlockHash d)
    (SecretRotateData_BeaconBlockHeight d) ;;
  check_device (SecretRotateData_SenderPubKey d) ("rotate:" +:+ SecretRotateData_NewSecretNonce d +:+ ":" +:+ id)
    (SecretRotateData_SenderSig d) (Errorf "sender device signature invalid for secret rotate in bucket %s" [FStr id]) ;;
  check_period "bucket" "closed" id ;;
  s ← gets (λ s, s);
  fail_if (negb (HasSubmission (the_base s) id (SecretRotateData_OldSecretID d)))
    (Errorf "old_secret_id %s not found in bucket %s" [FStr (SecretRotateData_OldSecretID d); FStr id]) ;;
  v ← configured_verifier;
  identityHash ← identified (verifyAndIdentifyStoreRotate v d) "identity verification failed for secret rotate: %w";
  fail_if (negb (HasParticipant (the_base s) id identityHash))
    (Errorf "participant %s is not registered in bucket %s" [FStr identityHash; FStr id]).
Definition executeSecretRotate (t : Tx) : M StoreState (list Event) :=
  d ← or_fail (UnmarshalData (A := SecretRotateData) t) (bad_json "invalid secret rotate data: %w");
  let newSecretID := deriveSecretIDWithBeacon (SecretRotateData_BeaconBlockHash d) (SecretRotateData_NewSecretNonce d)
                       (SecretRotateData_NewSealedPayload d) (SecretRotateData_SubmissionIdentifierDerivation d) in
  on_base (UpdateSubmission (SecretRotateData_BucketID d) (SecretRotateData_OldSecretID d) newSecretID
             (SecretRotateData_NewSealedPayload d)).

(** ** BucketClose *)
Definition validateBucketClose (t : Tx) : M StoreState unit :=
  d ← or_fail (UnmarshalData (A := BucketCloseData) t) (bad_json "invalid bucket close data: %w");
  check_period "bucket" "already closed" (BucketCloseData_BucketID d) ;; mret tt.
Definition executeBucketClose (now : Z) (t : Tx) : M StoreState (list Event) :=
  d ← or_fail (UnmarshalData (A := BucketCloseData) t) (bad_json "invalid bucket close data: %w");
  ce ← on_base (ClosePeriod now (BucketCloseData_BucketID d) (BucketCloseData_ClosingHeight d));
  mret ce.2.

(** ** Adverse actions *)
Definition storeAdverseActionCanonicalMessage (d : StoreAdverseActionData) : string :=
  sha256 ("shyware-store-adverse-action:" +:+ StoreAdverseActionData_ActionType d +:+ ":" +:+
    StoreAdverseActionData_BucketID d +:+ ":" +:+ StoreAdverseActionData_IdentityHash d +:+ ":" +:+
    StoreAdverseActionData_ActionID d +:+ ":" +:+ fmt_d (StoreAdverseActionData_Timestamp d)).
Definition hashStoreActionNonce (nonce : string) : string := hex_EncodeToString (sha256 nonce).
Definition validateStoreAdverseAction (t : Tx) : M StoreState unit :=
  s ← gets (λ s, s);
  fail_if ((blen (eligibilityAuthorityPubKey s) =? 0) || (blen (reconciliationAuthorityPubKey s) =? 0))
    (Errorf "store adverse action: authority keys not configured on this deployment" []) ;;
  d ← or_fail (UnmarshalData (A := StoreAdverseActionData) t) (bad_json "invalid store adverse action data: %w");
  let actionID := StoreAdverseActionData_ActionID d in
  fail_if (negb (bool_decide (actionID = hashStoreActionNonce (StoreAdverseActionData_ActionNonce d))))
    (Errorf "store adverse action: action_id does not match H(action_nonce)" []) ;;
  fail_if (has (authorityActions s) actionID)
    (Errorf "store adverse action: action_id %s already committed" [FStr actionID]) ;;
  fail_if (negb (HasParticipant (the_base s) (StoreAdverseActionData_BucketID d) (StoreAdverseActionData_IdentityHash d)))
    (Errorf "store adverse action: identity %s not found in bucket %s"
      [FStr (StoreAdverseActionData_IdentityHash d); FStr (StoreAdverseActionData_BucketID d)]) ;;
  fail_if (bool_decide (StoreAdverseActionData_ActionType d = "restore") &&
           negb (str_empty (StoreAdverseActionData_ReferencedActionID d)) &&
           negb (has (authorityActions s) (StoreAdverseActionData_ReferencedActionID d)))
    (Errorf "store adverse action: referenced_action_id %s not found in authority-action log"
      [FStr (StoreAdverseActionData_ReferencedActionID d)]) ;;
  let msg := storeAdverseActionCanonicalMessage d in
  elig ← or_panic (ed25519_try (bytes_of (eligibilityAuthorityPubKey s)) msg (bytes_of (StoreAdverseActionData_EligibilityAuth d)));
  fail_if (negb elig) (Errorf "store adverse action: invalid eligibility authority signature" []) ;;
  recon ← or_panic (ed25519_try (bytes_of (reconciliationAuthorityPubKey s)) msg
            (bytes_of (StoreAdverseActionData_ReconciliationAuth d)));
  fail_if (negb recon) (Errorf "store adverse action: invalid reconciliation authority signature" []).
(** The entry of the log; its height stays zero. *)
Definition store_action_record (d : StoreAdverseActionData) : StoreActionRecord := {|
  StoreActionRecord_ActionID := StoreAdverseActionData_ActionID d;
  StoreActionRecord_BucketID := StoreAdverseActionData_BucketID d;
  StoreActionRecord_IdentityHash := StoreAdverseActionData_IdentityHash d;
  StoreActionRecord_ActionType := StoreAdverseActionData_ActionType d;
  StoreActionRecord_ReferencedActionID := StoreAdverseActionData_ReferencedActionID d;
  StoreActionRecord_EligibilityAuth := StoreAdverseActionData_EligibilityAuth d;
  StoreActionRecord_ReconciliationAuth := StoreAdverseActionData_ReconciliationAuth d;
  StoreActionRecord_Reason := StoreAdverseActionData_Reason d;
  StoreActionRecord_Timestamp := StoreAdverseActionData_Timestamp d;
  StoreActionRecord_Height := 0;
|}.
Definition apply_suppression (d : StoreAdverseActionData) (m : gset string) : gset string :=
  let key := suppress_key (StoreAdverseActionData_BucketID d) (StoreAdverseActionData_IdentityHash d) in
  if bool_decide (StoreAdverseActionData_ActionType d = "suppress") then {[key]} ∪ m
  else if bool_decide (StoreAdverseActionData_ActionType d = "restore") then m ∖ {[key]}
  else m.
Definition executeStoreAdverseAction (t : Tx) : M StoreState (list Event) :=
  d ← or_fail (UnmarshalData (A := StoreAdverseActionData) t) (bad_json "invalid store adverse action data: %w");
  let actionID := StoreAdverseActionData_ActionID d in
  modify (λ s, s <| authorityActions ::= <[actionID := store_action_record d]> |>) ;;
  modify (λ s, s <| suppressedIdentities ::= apply_suppression d |>) ;;
  mret [mkEvent "store_adverse_action"
    [("action_id", actionID, true); ("action_type", StoreAdverseActionData_ActionType d, true)]].

(** ** Dispatch *)
Definition unknown_store_type (ty : Z) : error := Errorf "unknown shystore transaction type: %d" [FInt ty].
Definition ValidateTx (t : Tx) : M StoreState unit :=
  ValidateStoreTx t ;;
  let ty := Tx_Type t in
  if ty =? StoreTxTypeSecretStore then validateSecretStore t
  else if ty =? StoreTxTypeSecretReveal then validateSecretReveal t
  else if ty =? StoreTxTypeSecretRotate then validateSecretRotate t
  else if ty =? StoreTxTypeBucketClose then validateBucketClose t
  else if ty =? StoreTxTypeRegisterValidator then mret tt
  else if ty =? StoreTxTypeAdverseAction then validateStoreAdverseAction t
  else failM (unknown_store_type ty).
Definition ExecuteTx (now : Z) (t : Tx) : M StoreState (list Event) :=
  let ty := Tx_Type t in
  if ty =? StoreTxTypeSecretStore then executeSecretStore now t
  else if ty =? StoreTxTypeSecretReveal then executeSecretReveal now t
  else if ty =? StoreTxTypeSecretRotate then executeSecretRotate t
  else if ty =? StoreTxTypeBucketClose then executeBucketClose now t
  else if ty =? StoreTxTypeRegisterValidator then execute_validator t
  else if ty =? StoreTxTypeAdverseAction then executeStoreAdverseAction t
  else failM (unknown_store_type ty).

(** [Query]: the cases in the order of the switch. *)
Definition query_store_actions (s : StoreState) (bucketID identityHash : string) : error + json :=
  marshal_records (List.filter (λ r, bool_decide (StoreActionRecord_BucketID r = bucketID) &&
      bool_decide (StoreActionRecord_IdentityHash r = identityHash)) (map_to_list (authorityActions s)).*2).
Definition Query (s : StoreState) (path : string) : error + json :=
  let under p := has_prefix path p in
  let id p := trim_prefix path p in
  if bool_decide (path = "/buckets") then marshal_records (map_to_list (buckets s)).*2
  else if under "/bucket/" then query_record (buckets s) (id "/bucket/") "bucket not found: %s"
  else if under "/secret_count/" then
    let '(l1, l2) := CountsForPeriod (the_base s) (id "/secret_count/") in
    inr (JObj [("count", JInt (Z.of_nat l1)); ("participant_count", JInt (Z.of_nat l2))])
  else if under "/secret_exists/" then
    match split2 (id "/secret_exists/") "/" with
    | (_, None) => query_error "secret_exists requires /secret_exists/{bucket_id}/{secret_id}" []
    | (bucketID, Some secretID) => inr (SubmissionPresence (the_base s) bucketID secretID)
    end
  else if under "/authority-actions/" then
    match split2 (id "/authority-actions/") "/" with
    | (bucketID, Some identityHash) =>
        if str_empty bucketID || str_empty identityHash
        then query_error "authority-actions query requires /authority-actions/{bucket_id}/{identity_hash}" []
        else query_store_actions s bucketID identityHash
    | (_, None) => query_error "authority-actions query requires /authority-actions/{bucket_id}/{identity_hash}" []
    end
  else query_error "unknown query path: %s" [FStr path].
End store.
