(* ===== verification/DomainTheorems.v ===== *)
(** What a machine on the two-list base inherits from it: the interface both domains
    discharge, the relations their handlers keep, and what the base promises them. *)
From S2P Require Import Prelude GoStd Json KVStore Types TxData TxValidate Nonce Identity Keys VotingState TwoListBase Domain.
Import Base.

(** ** The interface: a machine whose steps only reach the base through its operations
    Its steps are those that bring fresh identifiers. *)
Class DomainMachine `{C : Crypto} (S : Type) `{Embeds S} := {
  dinit : S → Prop;
  dstep : S → S → Prop;
  dinit_base s : dinit s → ∃ sg, the_base s = empty_base sg;
  dstep_base s s' : dstep s s' → rtc fresh_step (the_base s) (the_base s');
}.
Section inherited.
Context `{C : Crypto} {S : Type} `{DomainMachine S}.

Definition dreach (s : S) : Prop := ∃ s0, dinit s0 ∧ rtc dstep s0 s.
Lemma dreach_base s : dreach s → ∃ sg, rtc fresh_step (empty_base sg) (the_base s).
Proof.
  intros (s0 & [sg E0]%dinit_base & Hr). exists sg. rewrite <- E0. clear E0.
  induction Hr as [|s1 s2 s3 Hs _ IH]; [done|]. etrans; [by apply dstep_base|exact IH].
Qed.
(** A period that is not closed has no closure yet. *)
Lemma dreach_no_closure s periodID period :
  dreach s → periods (the_base s) !! periodID = Some period → PeriodRecord_Status period ≠ "closed" →
  closures (the_base s) !! periodID = None.
Proof.
  intros [sg Hr]%dreach_base Hp Ho. destruct (closures (the_base s) !! periodID) as [c|] eqn:E; [|done].
  exfalso. apply Ho. pose proof (base_reachable_lifecycle _ _ _ Hr _ _ E) as H'. cbn in H'. rewrite Hp in H'. by injection H'.
Qed.
(** In a reachable state every open period closes, with equal lists. *)
Lemma domain_period_closes s now periodID height period :
  dreach s → no_colon periodID = true →
  periods (the_base s) !! periodID = Some period → PeriodRecord_Status period ≠ "closed" →
  let b := the_base s in let c := closure_of now b periodID height in
  (CountsForPeriod b periodID).1 = (CountsForPeriod b periodID).2 ∧
  ClosureRecord_TotalSubmissions c = Z.of_nat (CountsForPeriod b periodID).1 ∧
  ∃ evs b', ClosePeriod now periodID height b = (Ok (c, evs), b') ∧
    submissions b' = submissions b ∧ participants b' = participants b ∧
    PeriodRecord_Status <$> periods b' !! periodID = Some "closed".
Proof.
  intros Hr Hn Hp Ho. apply (balanced_close_run _ now periodID height period); try done.
  - apply dreach_base in Hr as [sg Hr]. by eapply base_reachable_inv.
  - by eapply dreach_no_closure.
Qed.
End inherited.

(** ** What the application does to the base besides executing transactions *)
Section config.
Context `{C : Crypto}.
Inductive config_step : TwoListBase → TwoListBase → Prop :=
  | config_drain b r b' : GetPendingValidatorUpdates b = (r, b') → config_step b b'
  | config_beacon h hash b r b' : RecordBeacon h hash b = (r, b') → config_step b b'
  | config_write_only v b r b' : SetWriteOnly v b = (r, b') → config_step b b'
  | config_verifier v b r b' : Base.SetIdentityVerifier v b = (r, b') → config_step b b'
  | config_mode mode threshold b r b' : SetAttestationMode mode threshold b = (r, b') → config_step b b'
  | config_commit {DB} `{KVStore DB} (db : DB) b r b' db' : Commit db b = (r, (b', db')) → config_step b b'.
Lemma config_base b b' : config_step b b' → fresh_step b b'.
Proof.
  intros [b0 r b1 Hx|h hash b0 r b1 Hx|v b0 r b1 Hx|v b0 r b1 Hx|mode th b0 r b1 Hx|DB HDB db b0 r b1 db' Hx];
    [exact (step_drain _ _ _ Hx)|exact (step_beacon _ _ _ _ _ Hx)|exact (step_write_only _ _ _ _ Hx)
    |exact (step_verifier _ _ _ _ Hx)|exact (step_mode _ _ _ _ _ Hx)|exact (step_commit _ _ _ _ _ Hx)].
Qed.

(** The tables of periods and closures are kept. *)
Definition same_periods (b b' : TwoListBase) : Prop := periods b' = periods b ∧ closures b' = closures b.
#[export] Instance same_periods_refl : Reflexive same_periods.
Proof. by split. Qed.
#[export] Instance same_periods_trans : Transitive same_periods.
Proof. intros b1 b2 b3 [H1 H2] [H3 H4]. split; congruence. Qed.
Lemma config_periods b b' : config_step b b' → same_periods b b'.
Proof.
  intros [b0 r b1 Hx|h hash b0 r b1 Hx|v b0 r b1 Hx|v b0 r b1 Hx|mode th b0 r b1 Hx|DB HDB db b0 r b1 db' Hx].
  1-4: by injection Hx as _ <-.
  - assert (keeps same_periods (SetAttestationMode mode th)) as Hk
      by (unfold SetAttestationMode; keeps_auto; by split).
    specialize (Hk b0). by rewrite Hx in Hk.
  - unfold Commit in Hx. destruct (dirty b0); [destruct (db_write _ _)|]; by injection Hx as _ <- _.
Qed.

(** *** The operations of the base, as the handlers see them *)
Lemma create_run now p d st en b :
  CreatePeriod now p d st en b =
  if has (periods b) p then (Fail (Errorf "period %s already exists" [FStr p]), b)
  else (Ok tt, b <| periods ::= <[p := mkPeriodRecord p d st en "open" now]> |> <| dirty := true |>).
Proof. unfold CreatePeriod, set_dirty. mrun. by destruct (has (periods b) p). Qed.
Lemma close_effect now p height b r b' :
  ClosePeriod now p height b = (r, b') →
  match r with
  | Ok (c, _) => closures b' = <[p := c]> (closures b) ∧ dom (periods b') = dom (periods b)
  | _ => b' = b
  end.
Proof.
  unfold ClosePeriod, set_dirty. mrun. unfold id. destruct (periods b !! p) as [per|]; mrun; [|by intros [= <- <-]].
  destruct (bool_decide _); mrun; [by intros [= <- <-]|]. destruct (has _ _); mrun; [by intros [= <- <-]|].
  destruct (collectPeriodLists _ _) as [ids hs]. mrun. destruct (negb _); mrun; intros [= <- <-]; [done|].
  split; [done|]. fields. by rewrite dom_alter_L.
Qed.
Lemma SubmitToLists_periods now p i h pl part : keeps same_periods (SubmitToLists now p i h pl part).
Proof.
  intros b. unfold SubmitToLists. destruct (has (participants b) (participantKey p h)) eqn:Hp.
  - unfold SubmitToListsWithSealedAttrs. mrun. unfold id. by rewrite Hp.
  - apply has_false in Hp. destruct (submit_run now p i h pl part None b Hp) as (evs & b2 & Hrun & _ & E1 & E2 & _).
    rewrite Hrun. by split.
Qed.
Lemma SubmitToLists_ok now p i h pl part b :
  HasParticipant b p h = false → ∃ evs b', SubmitToLists now p i h pl part b = (Ok evs, b').
Proof.
  intros Hp%has_false. destruct (submit_run now p i h pl part None b Hp) as (evs & b2 & Hrun & _).
  exists evs, b2. exact Hrun.
Qed.
Lemma UpdateSubmission_periods p old new pl : keeps same_periods (UpdateSubmission p old new pl).
Proof. unfold UpdateSubmission, set_dirty. keeps_auto; by split. Qed.
Lemma UpdateSubmission_ok p old new pl b :
  writeOnly b = false → HasSubmission b p old = true → ∃ evs b', UpdateSubmission p old new pl b = (Ok evs, b').
Proof.
  unfold HasSubmission. intros Hw Hs. unfold UpdateSubmission, set_dirty. mrun. unfold id.
  rewrite Hw. mrun. rewrite Hs. cbn [negb]. mrun. eauto.
Qed.
Lemma WithdrawFromLists_periods p i h : keeps same_periods (WithdrawFromLists p i h).
Proof. unfold WithdrawFromLists, set_dirty. keeps_auto; by split. Qed.
Lemma WithdrawFromLists_ok p i h b :
  HasSubmission b p i = true → HasParticipant b p h = true → ∃ evs b', WithdrawFromLists p i h b = (Ok evs, b').
Proof.
  unfold HasSubmission, HasParticipant. intros Hs Hp. unfold WithdrawFromLists, set_dirty. mrun. unfold id.
  rewrite Hs. cbn [negb]. mrun. rewrite Hp. cbn [negb]. mrun. eauto.
Qed.
Lemma RegisterValidator_periods k power name : keeps same_periods (RegisterValidator k power name).
Proof. unfold RegisterValidator, set_dirty. keeps_auto; by split. Qed.
Lemma RegisterValidator_ok k power name b raw :
  base64_DecodeString k = Some raw → ∃ evs b', RegisterValidator k power name b = (Ok evs, b').
Proof. intros E. unfold RegisterValidator, set_dirty. mrun. rewrite E. mrun. destruct (power =? 0); mrun; eauto. Qed.
End config.
Create HintDb domain.
#[export] Hint Resolve SubmitToLists_periods UpdateSubmission_periods WithdrawFromLists_periods
  RegisterValidator_periods : domain.

(** ** How a handler acts on the state it is embedded in *)
Section acts.
Context `{C : Crypto} {S : Type} `{Embeds S}.

(** Through base operations only. *)
Definition base_rel (s s' : S) : Prop := rtc fresh_step (the_base s) (the_base s').
#[export] Instance base_rel_refl : Reflexive base_rel.
Proof. intros s. unfold base_rel. reflexivity. Qed.
#[export] Instance base_rel_trans : Transitive base_rel.
Proof. intros s1 s2 s3. unfold base_rel. intros H1 H2. by etrans. Qed.
Lemma keeps_on_base {A} (m : M TwoListBase A) :
  (∀ b r b', m b = (r, b') → fresh_step b b') → keeps base_rel (on_base m).
Proof.
  intros Hm s. unfold on_base. destruct (m (the_base s)) as [r b] eqn:E. cbn. unfold base_rel.
  rewrite the_with_base. apply rtc_once. by eapply Hm.
Qed.
Lemma on_base_fresh {A} (m : M TwoListBase A) s :
  (∀ r b', m (the_base s) = (r, b') → fresh_step (the_base s) b') → base_rel s (on_base m s).2.
Proof.
  intros Hm. unfold on_base. destruct (m (the_base s)) as [r b] eqn:E. cbn. unfold base_rel.
  rewrite the_with_base. apply rtc_once. by eapply Hm.
Qed.
Lemma keeps_at {A} (R : S → S → Prop) (m : M S A) s r s' : keeps R m → m s = (r, s') → R s s'.
Proof. intros Hk E. specialize (Hk s). by rewrite E in Hk. Qed.
Lemma keeps_validator t : keeps base_rel (execute_validator t).
Proof. unfold execute_validator. keeps_auto. apply keeps_on_base. intros b r b' Hx. by eapply step_validator. Qed.

(** Nothing but the base changes, and in it no period and no closure. *)
Definition lists_only (s s' : S) : Prop := ∃ b, s' = with_base b s ∧ same_periods (the_base s) b.
#[export] Instance lists_only_refl : Reflexive lists_only.
Proof. intros s. exists (the_base s). by rewrite with_the_base. Qed.
#[export] Instance lists_only_trans : Transitive lists_only.
Proof.
  intros s1 s2 s3 (b1 & -> & H1) (b2 & -> & H2). exists b2. rewrite with_with_base. split; [done|].
  rewrite the_with_base in H2. by etrans.
Qed.
Lemma keeps_lists_only {A} (m : M TwoListBase A) : keeps same_periods m → keeps lists_only (on_base m).
Proof.
  intros Hm s. specialize (Hm (the_base s)). unfold on_base. destruct (m (the_base s)) as [r b]. by exists b.
Qed.
Lemma on_base_returns {A} (m : M TwoListBase A) s :
  (∃ a b, m (the_base s) = (Ok a, b)) → ∃ a s', on_base m s = (Ok a, s').
Proof. intros (a & b & E). unfold on_base. rewrite E. eauto. Qed.
(** A registration that passed the stateless checks is carried out. *)
Lemma validator_executes t s :
  ∀ s0 s1 : S, ∀ u, Validate_RegisterValidator t s0 = (Ok u, s1) → ∃ evs s', execute_validator t s = (Ok evs, s').
Proof.
  intros s0 s1 u Hv. unfold Validate_RegisterValidator in Hv. minv Hv. unfold execute_validator. mrun.
  match goal with H : UnmarshalData t = Some _ |- _ => rewrite H end. mrun.
  apply on_base_returns. by eapply RegisterValidator_ok.
Qed.
End acts.

(** ** What the shared checks establish, and that they write nothing *)
Section checks.
Context `{C : Crypto} {S : Type} `{Embeds S}.

Definition device_signed (pub msg : string) (sig : gobytes) : Prop :=
  ∃ raw, hex_DecodeString pub = Some raw ∧ slen raw = PublicKeySize ∧ ed25519_Verify raw msg (bytes_of sig) = true.
Lemma check_device_ok pub msg sig e (s s' : S) u :
  check_device pub msg sig e s = (Ok u, s') → s' = s ∧ device_signed pub msg sig.
Proof.
  intros Hc. unfold check_device in Hc. minv Hc. split; [done|]. bools. unfold device_signed. eauto.
Qed.
Lemma check_nonce_ok field nonce hash h (s s' : S) u :
  check_nonce field nonce hash h s = (Ok u, s') →
  s' = s ∧ ValidateNonce nonce s = (Ok tt, s) ∧ ValidateBeacon hash h (beaconWindow (the_base s)) s = (Ok tt, s).
Proof.
  intros Hc. unfold check_nonce in Hc. minv Hc.
  match goal with H1 : ValidateNonce _ _ = (Ok ?a, _), H2 : ValidateBeacon _ _ _ _ = (Ok ?b, _) |- _ =>
    pose proof (ValidateNonce_pure _ _ _ _ H1); subst; pose proof (ValidateBeacon_pure _ _ _ _ _ _ H2); subst;
    destruct a, b; done end.
Qed.
Lemma check_period_ok kind closed id (s s' : S) p :
  check_period kind closed id s = (Ok p, s') →
  s' = s ∧ periods (the_base s) !! id = Some p ∧ PeriodRecord_Status p ≠ "closed".
Proof. intros Hc. unfold check_period in Hc. minv Hc. bools. done. Qed.
Lemma configured_verifier_ok (s s' : S) v :
  configured_verifier s = (Ok v, s') → s' = s ∧ GetVerifier (the_base s) = Some v.
Proof. intros Hc. unfold configured_verifier in Hc. minv Hc. done. Qed.
Lemma identified_ok o what (s s' : S) h : identified o what s = (Ok h, s') → s' = s ∧ o = Some h.
Proof. intros Hc. unfold identified in Hc. minv Hc. done. Qed.
Lemma benign_ok {A} (m : M S A) s r s' : benign m → m s = (r, s') → s' = s.
Proof. intros Hb E. destruct (Hb s) as [E' _]. by rewrite E in E'. Qed.
End checks.

(** Opens an accepted validation into the facts its checks establish. *)
Ltac checks H :=
  minv1 H;
  repeat match goal with
  | H1 : check_device _ _ _ _ _ = (Ok _, _) |- _ => apply check_device_ok in H1 as [? ?]
  | H1 : check_nonce _ _ _ _ _ = (Ok _, _) |- _ => apply check_nonce_ok in H1 as (? & ? & ?)
  | H1 : check_period _ _ _ _ = (Ok _, _) |- _ => apply check_period_ok in H1 as (? & ? & ?)
  | H1 : configured_verifier _ = (Ok _, _) |- _ => apply configured_verifier_ok in H1 as [? ?]
  | H1 : identified _ _ _ = (Ok _, _) |- _ => apply identified_ok in H1 as [? ?]
  end; subst; bools.
(** Runs a method on the facts at hand. *)
Ltac mfacts :=
  repeat first [progress mrun | match goal with H : ?x = Some _ |- context [match ?x with Some _ => _ | None => _ end] => rewrite H end].
