(* ===== verification/ChatTheorems.v ===== *)
(** The chat machine: its tables agree with the base, a validated transaction executes,
    a closed mailbox is delivered with the right total; and the withdrawal identity. *)
From S2P Require Import Prelude GoStd Json KVStore Types TxData TxValidate Nonce Identity Keys VotingState TwoListBase Domain DomainTheorems.
From S2P Require Import ChatTx Chat.
Import Base.

Section chat.
Context `{C : Crypto}.

(** ** Steps *)
(** The identifiers a transaction brings are new: a dispatched message, and an updated
    one unless it keeps its identifier. *)
Definition chat_fresh (t : Tx) (s : ChatState) : bool :=
  if Tx_Type t =? ChatTxTypeMessageDispatch then
    match UnmarshalData (A := MessageDispatchData) t with
    | Some d => negb (HasSubmission (the_base s) (MessageDispatchData_MailboxID d)
        (computeMessageIDWithBeacon (MessageDispatchData_BeaconBlockHash d) (MessageDispatchData_MessageNonce d)))
    | None => true
    end
  else if Tx_Type t =? ChatTxTypeMessageUpdate then
    match UnmarshalData (A := MessageUpdateData) t with
    | Some d =>
        let new := computeMessageIDWithBeacon (MessageUpdateData_BeaconBlockHash d) (MessageUpdateData_NewMessageNonce d) in
        bool_decide (new = MessageUpdateData_OldMessageID d) ||
        negb (HasSubmission (the_base s) (MessageUpdateData_MailboxID d) new)
    | None => true
    end
  else true.

(** Any transaction, validated or not, executed or refused, and what the application
    configures on the base; with [fresh] set, transactions that bring fresh identifiers,
    which nothing in the machine checks. *)
Inductive chat_step {fresh : bool} : ChatState → ChatState → Prop :=
  | chat_tx now t s r s' : (fresh = true → chat_fresh t s = true) → ExecuteTx now t s = (r, s') → chat_step s s'
  | chat_config s b : config_step (the_base s) b → chat_step s (with_base b s).
Lemma chat_step_any s s' : chat_step (fresh := true) s s' → chat_step (fresh := false) s s'.
Proof. intros [now t s0 r s1 _ Hx|s0 b Hb]; [by eapply chat_tx|by apply chat_config]. Qed.
(** An empty database. *)
Definition chat_init (s : ChatState) : Prop :=
  (∃ sg, chat_base s = empty_base sg) ∧ mailboxes s = ∅ ∧ deliveries s = ∅.

Lemma chat_tx_base now t s r s' : chat_fresh t s = true → ExecuteTx now t s = (r, s') → base_rel s s'.
Proof.
  unfold chat_fresh, ExecuteTx. intros Hf Hx.
  destruct (Tx_Type t =? ChatTxTypeMailboxCreate).
  { eapply keeps_at, Hx. unfold executeMailboxCreate. keeps_auto; [|exact (rtc_refl fresh_step _)].
    apply keeps_on_base. intros b r0 b' Hb. by eapply step_create. }
  destruct (Tx_Type t =? ChatTxTypeMessageDispatch).
  { revert Hx. unfold executeMessageDispatch, identified. mrun. destruct (UnmarshalData t) as [d|]; [|by intros [= _ <-]].
    mrun. destruct (GetVerifier _) as [v|]; [|by intros [= _ <-]]. mrun.
    destruct (verifyAndIdentifyChat v d); [|by intros [= _ <-]]. mrun. intros Hx.
    match type of Hx with on_base ?m s = _ => pose proof (on_base_fresh m s) as H end. rewrite Hx in H. apply H.
    intros r0 b' Hb. apply negb_true_iff in Hf. by eapply (step_submit (fresh := true)). }
  destruct (Tx_Type t =? ChatTxTypeMailboxClose).
  { eapply keeps_at, Hx. unfold executeMailboxClose. keeps_auto; [|exact (rtc_refl fresh_step _)].
    apply keeps_on_base. intros b r0 b' Hb. by eapply step_close. }
  destruct (Tx_Type t =? ChatTxTypeMessageUpdate).
  { revert Hx. unfold executeMessageUpdate. mrun. destruct (UnmarshalData t) as [d|]; [|by intros [= _ <-]]. mrun. intros Hx.
    match type of Hx with on_base ?m s = _ => pose proof (on_base_fresh m s) as H end. rewrite Hx in H. apply H.
    intros r0 b' Hb. eapply step_update; [intros _|exact Hb].
    apply orb_true_iff in Hf as [Hf%bool_decide_eq_true|Hf%negb_true_iff]; [by left|by right]. }
  destruct (Tx_Type t =? ChatTxTypeMessageWithdraw).
  { eapply keeps_at, Hx. unfold executeMessageWithdraw, identified. keeps_auto.
    apply keeps_on_base. intros b r0 b' Hb. by eapply step_withdraw. }
  destruct (Tx_Type t =? ChatTxTypeRegisterValidator); [|by injection Hx as _ <-]. eapply keeps_at, Hx. apply keeps_validator.
Qed.
#[export] Program Instance chat_machine : DomainMachine ChatState := { dinit := chat_init; dstep := chat_step (fresh := true) }.
Next Obligation. intros s H. exact (proj1 H). Qed.
Next Obligation.
  intros s s' [now t s0 r s1 Hf Hx|s0 b Hb]; [eapply chat_tx_base; [by apply Hf|done]|].
  apply rtc_once. rewrite the_with_base. by apply config_base.
Qed.

(** ** The tables of the domain follow those of the base *)
Definition closure_sum (c : ClosureRecord) : Z * Z := (ClosureRecord_TotalSubmissions c, ClosureRecord_FinalizedAt c).
Definition delivery_sum (r : DeliveryRecord) : Z * Z := (DeliveryRecord_TotalMessages r, DeliveryRecord_FinalizedAt r).
Definition chat_agree (s : ChatState) : Prop :=
  dom (mailboxes s) = dom (periods (chat_base s)) ∧
  delivery_sum <$> deliveries s = closure_sum <$> closures (chat_base s).
Lemma agree_lists_only s s' : lists_only s s' → chat_agree s → chat_agree s'.
Proof. intros (b & -> & E1 & E2) [H1 H2]. unfold chat_agree. cbn in *. by rewrite E1, E2. Qed.

Lemma create_agree now t s r s' : executeMailboxCreate now t s = (r, s') → chat_agree s → chat_agree s'.
Proof.
  unfold executeMailboxCreate. mrun. destruct (UnmarshalData t) as [d|]; [|by intros [= _ <-]]. mrun.
  rewrite on_base_run, create_run. destruct (has _ _) eqn:E; [by intros [= _ <-]; destruct s|]. mrun.
  intros [= _ <-] [H1 H2]. split; [|exact H2]. cbn. rewrite !dom_insert_L. cbn in H1. by rewrite H1.
Qed.
Lemma close_agree now t s r s' : executeMailboxClose now t s = (r, s') → chat_agree s → chat_agree s'.
Proof.
  unfold executeMailboxClose. mrun. destruct (UnmarshalData t) as [d|]; [|by intros [= _ <-]]. mrun.
  rewrite on_base_run. destruct (ClosePeriod _ _ _ _) as [r0 b'] eqn:E. apply close_effect in E.
  destruct r0 as [[c evs]|e|]; mrun; [|by subst; intros [= _ <-]; destruct s..].
  destruct E as [E1 E2]. intros [= _ <-] [H1 H2]. split; cbn; [by rewrite E2|].
  rewrite E1, !fmap_insert. cbn in H2. by rewrite H2.
Qed.
Lemma tx_agree now t s r s' : ExecuteTx now t s = (r, s') → chat_agree s → chat_agree s'.
Proof.
  unfold ExecuteTx. intros Hx.
  destruct (Tx_Type t =? ChatTxTypeMailboxCreate); [by eapply create_agree|].
  destruct (Tx_Type t =? ChatTxTypeMessageDispatch).
  { eapply agree_lists_only, keeps_at, Hx. unfold executeMessageDispatch, identified. keeps_auto.
    apply keeps_lists_only; auto with domain. }
  destruct (Tx_Type t =? ChatTxTypeMailboxClose); [by eapply close_agree|].
  destruct (Tx_Type t =? ChatTxTypeMessageUpdate).
  { eapply agree_lists_only, keeps_at, Hx. unfold executeMessageUpdate. keeps_auto. apply keeps_lists_only; auto with domain. }
  destruct (Tx_Type t =? ChatTxTypeMessageWithdraw).
  { eapply agree_lists_only, keeps_at, Hx. unfold executeMessageWithdraw, identified. keeps_auto.
    apply keeps_lists_only; auto with domain. }
  destruct (Tx_Type t =? ChatTxTypeRegisterValidator); [|by injection Hx as _ <-].
  eapply agree_lists_only, keeps_at, Hx. unfold execute_validator. keeps_auto. apply keeps_lists_only; auto with domain.
Qed.
Lemma step_agree s s' : chat_step (fresh := false) s s' → chat_agree s → chat_agree s'.
Proof.
  intros [now t s0 r s1 _ Hx|s0 b Hb]; [by eapply tx_agree|]. apply agree_lists_only. exists b. by split; [|apply config_periods].
Qed.
Lemma reach_agree s0 s : chat_init s0 → rtc (chat_step (fresh := false)) s0 s → chat_agree s.
Proof.
  intros ([sg E] & E1 & E2) Hr. assert (chat_agree s0) as H0 by (unfold chat_agree; by rewrite E, E1, E2).
  clear E E1 E2. induction Hr as [|a b c Hab _ IH]; [done|]. by eapply IH, step_agree.
Qed.

Lemma dreach_agree s : dreach s → chat_agree s.
Proof.
  intros (s0 & Hi & Hr). apply (reach_agree s0); [done|]. clear Hi.
  induction Hr as [|a b c Hab _ IH]; [done|]. eapply rtc_l; [by apply chat_step_any|done].
Qed.

(** C23. In every state the chat machine reaches from an empty database while it runs, whatever
    transactions it executes, validated or not, the mailboxes are exactly the periods of the
    base, and the deliveries are exactly its closures, mailbox by mailbox with the total
    and the time of the closure. *)
Theorem chat_tables_agree (s0 s : ChatState) :
  chat_init s0 → rtc (chat_step (fresh := false)) s0 s →
  (∀ id, is_Some (GetMailbox s id) ↔ is_Some (GetPeriod (chat_base s) id)) ∧
  (∀ id r, GetDelivery s id = Some r → ∃ c, closures (chat_base s) !! id = Some c ∧
     DeliveryRecord_TotalMessages r = ClosureRecord_TotalSubmissions c ∧
     DeliveryRecord_FinalizedAt r = ClosureRecord_FinalizedAt c) ∧
  (∀ id c, closures (chat_base s) !! id = Some c → is_Some (GetDelivery s id)).
Proof.
  intros H0 Hs. destruct (reach_agree s0 s H0 Hs) as [H1 H2]. split_and!; intros id.
  - unfold GetMailbox, GetPeriod. by rewrite <- !elem_of_dom, H1.
  - intros r Hr. apply (f_equal (lookup id)) in H2. rewrite !lookup_fmap in H2. unfold GetDelivery in Hr.
    rewrite Hr in H2. destruct (closures (chat_base s) !! id) as [c|]; [|done]. injection H2 as E1 E2. eauto.
  - intros c Hc. apply (f_equal (lookup id)) in H2. rewrite !lookup_fmap, Hc in H2. unfold GetDelivery.
    destruct (deliveries s !! id); [eauto|done].
Qed.

(** ** A validated transaction executes *)
Lemma ValidateChatTx_pure t (s s' : ChatState) u : ValidateChatTx t s = (Ok u, s') → s' = s.
Proof.
  apply benign_ok. unfold ValidateChatTx, Validate_MailboxCreate, Validate_MessageDispatch, Validate_MailboxClose,
    Validate_MessageUpdate, Validate_MessageWithdraw, Validate_RegisterValidator, check_sender. benign_auto;
    repeat (destruct (_ =? _); [benign_auto|]); benign_auto.
Qed.
Lemma create_executes now t (s s1 : ChatState) u :
  validateMailboxCreate t s = (Ok u, s1) → ∃ evs s', executeMailboxCreate now t s = (Ok evs, s').
Proof.
  intros Hv. unfold validateMailboxCreate in Hv. checks Hv. unfold executeMailboxCreate. mfacts.
  rewrite on_base_run, create_run. unfold GetPeriod in *.
  assert (has (periods (the_base s)) (MailboxCreateData_MailboxID a) = false) as ->
    by (apply has_false; by apply eq_None_not_Some). mrun. eauto.
Qed.
Lemma dispatch_executes now0 now t (s s1 : ChatState) u :
  validateMessageDispatch now0 t s = (Ok u, s1) → ∃ evs s', executeMessageDispatch now t s = (Ok evs, s').
Proof.
  intros Hv. unfold validateMessageDispatch in Hv. checks Hv. unfold executeMessageDispatch, identified. mfacts.
  apply on_base_returns. by apply SubmitToLists_ok.
Qed.
Lemma update_executes t (s s1 : ChatState) u :
  validateMessageUpdate t s = (Ok u, s1) → ∃ evs s', executeMessageUpdate t s = (Ok evs, s').
Proof.
  intros Hv. unfold validateMessageUpdate in Hv. checks Hv. unfold executeMessageUpdate. mfacts.
  apply on_base_returns. by apply UpdateSubmission_ok.
Qed.
Lemma withdraw_executes t (s s1 : ChatState) u :
  validateMessageWithdraw t s = (Ok u, s1) → ∃ evs s', executeMessageWithdraw t s = (Ok evs, s').
Proof.
  intros Hv. unfold validateMessageWithdraw in Hv. checks Hv. unfold executeMessageWithdraw, identified. mfacts.
  apply on_base_returns. apply WithdrawFromLists_ok; [done|]. unfold verifyAndIdentifyChatWithdraw in *. congruence.
Qed.
(** A close of a mailbox, and what it delivers. *)
Lemma mailbox_close_run now t (s : ChatState) d period :
  dreach s → UnmarshalData t = Some d → no_colon (MailboxCloseData_MailboxID d) = true →
  GetPeriod (chat_base s) (MailboxCloseData_MailboxID d) = Some period → PeriodRecord_Status period ≠ "closed" →
  ∃ evs s', executeMailboxClose now t s = (Ok evs, s').
Proof.
  intros Hr Hd Hn Hp Ho. destruct (domain_period_closes s now _ (MailboxCloseData_ClosingHeight d) period Hr Hn Hp Ho)
    as (_ & _ & evs & b' & Hx & _).
  unfold executeMailboxClose. mfacts. rewrite on_base_run, Hx. mrun. eauto.
Qed.

(** What the theorem asks of a close: that its mailbox has no colon in its identifier, and
    that the messages so far brought fresh identifiers. *)
Definition close_admissible (s : ChatState) (t : Tx) : Prop :=
  Tx_Type t = ChatTxTypeMailboxClose →
  dreach s ∧ ∀ d : MailboxCloseData, UnmarshalData t = Some d → no_colon (MailboxCloseData_MailboxID d) = true.
(** C24. A transaction that [ValidateTx] accepts, in whatever state, is carried out by
    [ExecuteTx] there, at whatever clock reading, without an error or a panic; a close of
    a mailbox is, when its identifier has no colon and the state was reached from an empty
    database by transactions with fresh message identifiers. *)
Theorem chat_validated_executes (s s1 : ChatState) (t : Tx) (now0 : Z) (now : clock) :
  close_admissible s t → ValidateTx now0 t s = (Ok tt, s1) →
  ∃ evs s', ExecuteTx now t s = (Ok evs, s').
Proof.
  intros Ha Hv. unfold ValidateTx in Hv. apply bind_ok in Hv as (u & s0 & Hst & Hv).
  pose proof (ValidateChatTx_pure _ _ _ _ Hst) as ->. revert Ha Hv Hst. unfold close_admissible, ExecuteTx, ValidateChatTx.
  destruct (Tx_Type t =? ChatTxTypeMailboxCreate); [intros _ Hv _; by eapply create_executes|].
  destruct (Tx_Type t =? ChatTxTypeMessageDispatch); [intros _ Hv _; by eapply dispatch_executes|].
  destruct (Tx_Type t =? ChatTxTypeMailboxClose) eqn:Ec.
  { apply Z.eqb_eq in Ec. intros [Hr Ha] Hv _; [done|]. unfold validateMailboxClose in Hv. checks Hv.
    eapply mailbox_close_run; [done|done|by eapply Ha|done|done]. }
  destruct (Tx_Type t =? ChatTxTypeMessageUpdate); [intros _ Hv _; by eapply update_executes|].
  destruct (Tx_Type t =? ChatTxTypeMessageWithdraw); [intros _ Hv _; by eapply withdraw_executes|].
  destruct (Tx_Type t =? ChatTxTypeRegisterValidator); [|by intros _ Hv].
  intros _ _ Hst. do 3 (apply bind_ok in Hst as (? & ? & _ & Hst)). by eapply validator_executes.
Qed.

Lemma closed_refuses_dispatch now t d (s s2 : ChatState) :
  UnmarshalData t = Some d →
  PeriodRecord_Status <$> periods (chat_base s) !! MessageDispatchData_MailboxID d = Some "closed" →
  validateMessageDispatch now t s ≠ (Ok tt, s2).
Proof.
  intros Hu Hc Hv. unfold validateMessageDispatch in Hv. checks Hv. simplify_eq. cbn in *.
  match goal with H : periods _ !! _ = Some _ |- _ => rewrite H in Hc end. by injection Hc.
Qed.
(** An accepted close delivers: the record it leaves counts the messages of List 1, as
    many as the participants of List 2, with the surface model of the mailbox; both
    lists stay as they are and the mailbox accepts no further message. *)
Theorem mailbox_close_delivers (s s1 s' : ChatState) (t : Tx) (d : MailboxCloseData) (now0 : Z) (now : clock) evs :
  dreach s → Tx_Type t = ChatTxTypeMailboxClose → UnmarshalData t = Some d →
  let id := MailboxCloseData_MailboxID d in
  no_colon id = true → ValidateTx now0 t s = (Ok tt, s1) → ExecuteTx now t s = (Ok evs, s') →
  (∃ r mb, GetDelivery s' id = Some r ∧ GetMailbox s id = Some mb ∧
    DeliveryRecord_TotalMessages r = Z.of_nat (CountsForPeriod (chat_base s) id).1 ∧
    (CountsForPeriod (chat_base s) id).1 = (CountsForPeriod (chat_base s) id).2 ∧
    DeliveryRecord_SurfaceModel r = MailboxRecord_SurfaceModel mb ∧ DeliveryRecord_FinalizedAt r = now 0%nat) ∧
  submissions (chat_base s') = submissions (chat_base s) ∧ participants (chat_base s') = participants (chat_base s) ∧
  ∀ now' t' d' s2, UnmarshalData t' = Some d' → MessageDispatchData_MailboxID d' = id →
    validateMessageDispatch now' t' s' ≠ (Ok tt, s2).
Proof.
  intros Hr Ht Hu id Hn Hv Hx. unfold ValidateTx in Hv. apply bind_ok in Hv as (u & s0 & Hst & Hv).
  pose proof (ValidateChatTx_pure _ _ _ _ Hst) as ->. rewrite Ht in Hv. cbn in Hv. unfold validateMailboxClose in Hv.
  checks Hv. simplify_eq.
  match goal with H1 : periods _ !! _ = Some ?p, H2 : PeriodRecord_Status ?p ≠ _ |- _ => rename H1 into Hp, H2 into Ho end.
  assert (∃ mb, mailboxes s !! id = Some mb) as [mb Hmb].
  { apply elem_of_dom. rewrite (proj1 (dreach_agree s Hr)). by apply elem_of_dom_2 in Hp. }
  destruct (domain_period_closes s (now 0%nat) id (MailboxCloseData_ClosingHeight d) _ Hr Hn Hp Ho)
    as (Hc & Htot & evs0 & b' & Hrun & E1 & E2 & Hst').
  revert Hx. unfold ExecuteTx. rewrite Ht. cbn [Z.eqb Pos.eqb ChatTxTypeMailboxClose ChatTxTypeMailboxCreate ChatTxTypeMessageDispatch].
  unfold executeMailboxClose. mfacts. rewrite on_base_run. fold id. rewrite Hrun. mrun. cbn [mailboxes with_base Embeds_ChatState]. fields.
  rewrite Hmb. intros [= _ <-]. split_and!; try done.
  - eexists _, mb. split; [apply lookup_insert_eq|].
    split_and!; [done|exact Htot|exact Hc|done|exact (closure_finalized _ _ _ _)].
  - intros now' t' d' s2 Hu' Hid. apply (closed_refuses_dispatch now' t' d'); [done|]. by rewrite Hid.
Qed.

(** ** Who may withdraw what *)
(** Anyone registered in the mailbox may withdraw any message of it, whoever sent it:
    acceptance asks for a device signature of the message identifier, an open mailbox,
    the presence of the message and the registration of the caller, and for nothing else;
    execution then takes the message off List 1 and the caller off List 2. *)
Theorem withdraw_ignores_owner (s : ChatState) (t : Tx) (d : MessageWithdrawData) (period : PeriodRecord) (v : IdentityVerifier) :
  let id := MessageWithdrawData_MailboxID d in
  let caller := hex_EncodeToString (sha256 (MessageWithdrawData_SenderPubKey d +:+ id)) in
  UnmarshalData t = Some d → GetVerifier (chat_base s) = Some v →
  device_signed (MessageWithdrawData_SenderPubKey d) ("withdraw:" +:+ MessageWithdrawData_MessageID d +:+ ":" +:+ id)
    (MessageWithdrawData_SenderSig d) →
  GetPeriod (chat_base s) id = Some period → PeriodRecord_Status period ≠ "closed" →
  HasSubmission (chat_base s) id (MessageWithdrawData_MessageID d) = true →
  HasParticipant (chat_base s) id caller = true →
  validateMessageWithdraw t s = (Ok tt, s) ∧
  ∃ evs s', executeMessageWithdraw t s = (Ok evs, s') ∧
    submissions (chat_base s') = delete (submissionKey id (MessageWithdrawData_MessageID d)) (submissions (chat_base s)) ∧
    participants (chat_base s') = delete (participantKey id caller) (participants (chat_base s)).
Proof.
  intros id caller Hu Hv (raw & E1 & E2 & E3) Hp Ho Hs Hpt. subst id caller.
  change (chat_base s) with (the_base s) in *. split.
  - unfold validateMessageWithdraw, check_device, check_period, configured_verifier, identified, verifyAndIdentifyChatWithdraw.
    mfacts. rewrite E2. cbn [Z.eqb Pos.eqb PublicKeySize negb]. mfacts. rewrite E3. cbn [negb]. mfacts.
    rewrite bool_decide_false by done. mfacts. rewrite Hs. cbn [negb]. mfacts. by rewrite Hpt.
  - unfold executeMessageWithdraw, identified, verifyAndIdentifyChatWithdraw. mfacts.
    rewrite on_base_run. unfold WithdrawFromLists, set_dirty. mrun. cbn [id]. unfold HasSubmission, HasParticipant in *.
    rewrite Hs. cbn [negb]. mrun. rewrite Hpt. cbn [negb]. mrun. by eexists _, _.
Qed.
(** Under [NoopVerifier] the identity a message is sent under and the one its
    withdrawal looks for are hashes of different strings. *)
Lemma noop_withdraw_identity (d : MessageDispatchData) (w : MessageWithdrawData) v :
  let pub := MessageDispatchData_SenderPubKey d in let id := MessageDispatchData_MailboxID d in
  MessageWithdrawData_SenderPubKey w = pub → MessageWithdrawData_MailboxID w = id →
  collision_free [pub +:+ id] [pub +:+ ":" +:+ id] →
  verifyAndIdentifyChatWithdraw v w ≠ verifyAndIdentifyChat NoopVerifier d.
Proof.
  unfold verifyAndIdentifyChat, verifyAndIdentifyChatWithdraw. cbn. unfold noop_identity. cbn.
  intros -> -> Hf [= Heq%(inj hex_EncodeToString)%(collision_free1 _ _ Hf)]. apply (f_equal String.length) in Heq. rewrite !str_app_length in Heq. cbn in Heq. lia.
Qed.
End chat.
