(* ===== verification/StoreTheorems.v ===== *)
(** The store machine: buckets follow the periods of the base, a validated transaction
    executes, two-party suppression blocks every reveal until it is lifted, and the log
    accounts for it; what a restart forgets. *)
From S2P Require Import Prelude GoStd Json KVStore Tables Types TxData TxValidate Nonce Identity Keys VotingState TwoListBase Domain DomainTheorems.
From S2P Require Import ChatTx StoreTx Store.
Import Base.

Section store.
Context `{C : Crypto}.

(** ** Steps *)
(** The identifiers a transaction brings are new: a stored secret, and a rotated one
    unless it keeps its identifier. *)
Definition store_fresh (t : Tx) (s : StoreState) : bool :=
  if Tx_Type t =? StoreTxTypeSecretStore then
    match UnmarshalData (A := SecretStoreData) t with
    | Some d => negb (HasSubmission (the_base s) (SecretStoreData_BucketID d)
        (deriveSecretIDWithBeacon (SecretStoreData_BeaconBlockHash d) (SecretStoreData_SecretNonce d)
           (SecretStoreData_SealedPayload d) (SecretStoreData_SubmissionIdentifierDerivation d)))
    | None => true
    end
  else if Tx_Type t =? StoreTxTypeSecretRotate then
    match UnmarshalData (A := SecretRotateData) t with
    | Some d =>
        let new := deriveSecretIDWithBeacon (SecretRotateData_BeaconBlockHash d) (SecretRotateData_NewSecretNonce d)
                     (SecretRotateData_NewSealedPayload d) (SecretRotateData_SubmissionIdentifierDerivation d) in
        bool_decide (new = SecretRotateData_OldSecretID d) ||
        negb (HasSubmission (the_base s) (SecretRotateData_BucketID d) new)
    | None => true
    end
  else true.

(** Any transaction, validated or not, executed or refused; a bucket the operator opens;
    and what the application configures on the base; with [fresh] set, transactions that
    bring fresh identifiers, which nothing in the machine checks. *)
Inductive store_step {fresh : bool} : StoreState → StoreState → Prop :=
  | store_tx now t s r s' : (fresh = true → store_fresh t s = true) → ExecuteTx now t s = (r, s') → store_step s s'
  | store_bucket now id cats s r s' : NewBucket now id cats s = (r, s') → store_step s s'
  | store_config s b : config_step (the_base s) b → store_step s (with_base b s).
(** An empty database. *)
Definition store_init (s : StoreState) : Prop :=
  (∃ sg, store_base s = empty_base sg) ∧ buckets s = ∅ ∧ authorityActions s = ∅ ∧ suppressedIdentities s = ∅.

Lemma store_tx_base now t s r s' : store_fresh t s = true → ExecuteTx now t s = (r, s') → base_rel s s'.
Proof.
  unfold store_fresh, ExecuteTx. intros Hf Hx.
  destruct (Tx_Type t =? StoreTxTypeSecretStore).
  { revert Hx. unfold executeSecretStore, identified. mrun. destruct (UnmarshalData t) as [d|]; [|by intros [= _ <-]].
    mrun. destruct (GetVerifier _) as [v|]; [|by intros [= _ <-]]. mrun.
    destruct (verifyAndIdentifyStore v d); [|by intros [= _ <-]]. mrun. intros Hx.
    match type of Hx with on_base ?m s = _ => pose proof (on_base_fresh m s) as H end. rewrite Hx in H. apply H.
    intros r0 b' Hb. apply negb_true_iff in Hf. by eapply (step_submit (fresh := true)). }
  destruct (Tx_Type t =? StoreTxTypeSecretReveal).
  { eapply keeps_at, Hx. unfold executeSecretReveal. keeps_auto. exact (rtc_refl fresh_step _). }
  destruct (Tx_Type t =? StoreTxTypeSecretRotate).
  { revert Hx. unfold executeSecretRotate. mrun. destruct (UnmarshalData t) as [d|]; [|by intros [= _ <-]]. mrun. intros Hx.
    match type of Hx with on_base ?m s = _ => pose proof (on_base_fresh m s) as H end. rewrite Hx in H. apply H.
    intros r0 b' Hb. eapply step_update; [intros _|exact Hb].
    apply orb_true_iff in Hf as [Hf%bool_decide_eq_true|Hf%negb_true_iff]; [by left|by right]. }
  destruct (Tx_Type t =? StoreTxTypeBucketClose).
  { eapply keeps_at, Hx. unfold executeBucketClose. keeps_auto.
    apply keeps_on_base. intros b r0 b' Hb. by eapply step_close. }
  destruct (Tx_Type t =? StoreTxTypeRegisterValidator); [eapply keeps_at, Hx; apply keeps_validator|].
  destruct (Tx_Type t =? StoreTxTypeAdverseAction); [|by injection Hx as _ <-].
  eapply keeps_at, Hx. unfold executeStoreAdverseAction. keeps_auto; exact (rtc_refl fresh_step _).
Qed.
Lemma bucket_base now id cats s r s' : NewBucket now id cats s = (r, s') → base_rel s s'.
Proof.
  intros Hx. eapply keeps_at, Hx. unfold NewBucket. keeps_auto; [|exact (rtc_refl fresh_step _)].
  apply keeps_on_base. intros b r0 b' Hb. by eapply step_create.
Qed.
#[export] Program Instance store_machine : DomainMachine StoreState := { dinit := store_init; dstep := store_step (fresh := true) }.
Next Obligation. intros s H. exact (proj1 H). Qed.
Next Obligation.
  intros s s' [now t s0 r s1 Hf Hx|now id cats s0 r s1 Hx|s0 b Hb]; [eapply store_tx_base; [by apply Hf|done]|by eapply bucket_base|].
  apply rtc_once. rewrite the_with_base. by apply config_base.
Qed.

(** ** A validated transaction executes *)
Lemma ValidateStoreTx_pure t (s s' : StoreState) u : ValidateStoreTx t s = (Ok u, s') → s' = s.
Proof.
  apply benign_ok. unfold ValidateStoreTx, Validate_SecretStore, Validate_SecretReveal, Validate_SecretRotate,
    Validate_BucketClose, Validate_StoreAdverseAction, Validate_RegisterValidator, check_sender. benign_auto;
    repeat (destruct (_ =? _); [benign_auto|]); benign_auto.
Qed.
Lemma store_executes now t (s s1 : StoreState) u :
  validateSecretStore t s = (Ok u, s1) → ∃ evs s', executeSecretStore now t s = (Ok evs, s').
Proof.
  intros Hv. unfold validateSecretStore in Hv. checks Hv. unfold executeSecretStore, identified. mfacts.
  apply on_base_returns. by apply SubmitToLists_ok.
Qed.
Lemma reveal_executes now t (s s1 : StoreState) u :
  validateSecretReveal t s = (Ok u, s1) → ∃ evs s', executeSecretReveal now t s = (Ok evs, s').
Proof. intros Hv. unfold validateSecretReveal in Hv. checks Hv. unfold executeSecretReveal. mfacts. eauto. Qed.
Lemma rotate_executes t (s s1 : StoreState) u :
  validateSecretRotate t s = (Ok u, s1) → ∃ evs s', executeSecretRotate t s = (Ok evs, s').
Proof.
  intros Hv. unfold validateSecretRotate in Hv. checks Hv. unfold executeSecretRotate. mfacts.
  apply on_base_returns. by apply UpdateSubmission_ok.
Qed.
Lemma adverse_executes t (s s1 : StoreState) u :
  validateStoreAdverseAction t s = (Ok u, s1) → ∃ evs s', executeStoreAdverseAction t s = (Ok evs, s').
Proof. intros Hv. unfold validateStoreAdverseAction in Hv. checks Hv. unfold executeStoreAdverseAction. mfacts. eauto. Qed.
Definition store_admissible (t : Tx) : bool :=
  if Tx_Type t =? StoreTxTypeBucketClose
  then from_option (λ d, no_colon (BucketCloseData_BucketID d)) true (UnmarshalData (A := BucketCloseData) t)
  else true.
(** In a reachable state a transaction that [ValidateTx] accepts is carried out by
    [ExecuteTx] without an error or a panic; a close seals as many secrets as there are
    participants. *)
Theorem store_validated_executes (s s1 : StoreState) (t : Tx) (now : Z) :
  dreach s → store_admissible t = true → ValidateTx t s = (Ok tt, s1) →
  ∃ evs s', ExecuteTx now t s = (Ok evs, s').
Proof.
  intros Hr Ha Hv. unfold ValidateTx in Hv. apply bind_ok in Hv as (u & s0 & Hst & Hv).
  pose proof (ValidateStoreTx_pure _ _ _ _ Hst) as ->. revert Ha Hv Hst. unfold store_admissible, ExecuteTx, ValidateStoreTx.
  destruct (Tx_Type t =? StoreTxTypeSecretStore); [intros _ Hv _; by eapply store_executes|].
  destruct (Tx_Type t =? StoreTxTypeSecretReveal); [intros _ Hv _; by eapply reveal_executes|].
  destruct (Tx_Type t =? StoreTxTypeSecretRotate); [intros _ Hv _; by eapply rotate_executes|].
  destruct (Tx_Type t =? StoreTxTypeBucketClose).
  { intros Ha Hv _. unfold validateBucketClose in Hv. checks Hv.
    match goal with H : UnmarshalData t = Some ?d |- _ => rewrite H in Ha; rename d into dc end. cbn in Ha.
    match goal with H1 : periods _ !! _ = Some _, H2 : _ ≠ "closed" |- _ =>
      destruct (domain_period_closes s now _ (BucketCloseData_ClosingHeight dc) _ Hr Ha H1 H2) as (_ & _ & evs & b' & Hx & _) end.
    unfold executeBucketClose. mfacts. rewrite on_base_run, Hx. mrun. eauto. }
  destruct (Tx_Type t =? StoreTxTypeRegisterValidator).
  { intros _ _ Hst. do 3 (apply bind_ok in Hst as (? & ? & _ & Hst)). by eapply validator_executes. }
  destruct (Tx_Type t =? StoreTxTypeAdverseAction); [|by intros _ Hv]. intros _ Hv _. by eapply adverse_executes.
Qed.

(** ** Two-party suppression *)
(** What only adverse actions touch. *)
Definition same_authority (s s' : StoreState) : Prop :=
  authorityActions s' = authorityActions s ∧ suppressedIdentities s' = suppressedIdentities s ∧
  eligibilityAuthorityPubKey s' = eligibilityAuthorityPubKey s ∧
  reconciliationAuthorityPubKey s' = reconciliationAuthorityPubKey s.
#[local] Instance same_authority_refl : Reflexive same_authority.
Proof. by repeat split. Qed.
#[local] Instance same_authority_trans : Transitive same_authority.
Proof. intros s1 s2 s3 (?&?&?&?) (?&?&?&?). repeat split; congruence. Qed.
Lemma on_base_authority {A} (m : M TwoListBase A) : keeps same_authority (on_base m).
Proof. intros s. unfold on_base. destruct (m _). by repeat split. Qed.
Lemma other_authority now t s r s' :
  Tx_Type t ≠ StoreTxTypeAdverseAction → ExecuteTx now t s = (r, s') → same_authority s s'.
Proof.
  intros Ht%Z.eqb_neq. unfold ExecuteTx. intros Hx. eapply keeps_at, Hx.
  destruct (Tx_Type t =? StoreTxTypeSecretStore).
  { unfold executeSecretStore, identified. keeps_auto. apply on_base_authority. }
  destruct (Tx_Type t =? StoreTxTypeSecretReveal); [unfold executeSecretReveal; keeps_auto; by repeat split|].
  destruct (Tx_Type t =? StoreTxTypeSecretRotate); [unfold executeSecretRotate; keeps_auto; apply on_base_authority|].
  destruct (Tx_Type t =? StoreTxTypeBucketClose); [unfold executeBucketClose; keeps_auto; apply on_base_authority|].
  destruct (Tx_Type t =? StoreTxTypeRegisterValidator); [unfold execute_validator; keeps_auto; apply on_base_authority|].
  rewrite Ht. keeps_auto.
Qed.
Lemma bucket_authority now id cats s r s' : NewBucket now id cats s = (r, s') → same_authority s s'.
Proof. intros Hx. eapply keeps_at, Hx. unfold NewBucket. keeps_auto; [apply on_base_authority|by repeat split]. Qed.
Lemma adverse_run t d s :
  UnmarshalData t = Some d →
  executeStoreAdverseAction t s =
    (Ok [mkEvent "store_adverse_action" [("action_id", StoreAdverseActionData_ActionID d, true);
                                         ("action_type", StoreAdverseActionData_ActionType d, true)]],
     s <| authorityActions ::= <[StoreAdverseActionData_ActionID d := store_action_record d]> |>
       <| suppressedIdentities ::= apply_suppression d |>).
Proof. intros Hu. unfold executeStoreAdverseAction. by mfacts. Qed.

(** The message both authorities sign, read off an entry of the log. *)
Definition action_message (r : StoreActionRecord) : string :=
  sha256 ("shyware-store-adverse-action:" +:+ StoreActionRecord_ActionType r +:+ ":" +:+
    StoreActionRecord_BucketID r +:+ ":" +:+ StoreActionRecord_IdentityHash r +:+ ":" +:+
    StoreActionRecord_ActionID r +:+ ":" +:+ fmt_d (StoreActionRecord_Timestamp r)).
Definition two_signed (s : StoreState) (r : StoreActionRecord) : Prop :=
  ed25519_Verify (bytes_of (eligibilityAuthorityPubKey s)) (action_message r)
    (bytes_of (StoreActionRecord_EligibilityAuth r)) = true ∧
  ed25519_Verify (bytes_of (reconciliationAuthorityPubKey s)) (action_message r)
    (bytes_of (StoreActionRecord_ReconciliationAuth r)) = true.
Definition action_key (r : StoreActionRecord) : string :=
  suppress_key (StoreActionRecord_BucketID r) (StoreActionRecord_IdentityHash r).
Lemma adverse_facts t d s s1 u :
  UnmarshalData t = Some d → validateStoreAdverseAction t s = (Ok u, s1) →
  two_signed s (store_action_record d) ∧
  StoreAdverseActionData_ActionID d = hashStoreActionNonce (StoreAdverseActionData_ActionNonce d) ∧
  authorityActions s !! StoreAdverseActionData_ActionID d = None ∧
  HasParticipant (the_base s) (StoreAdverseActionData_BucketID d) (StoreAdverseActionData_IdentityHash d) = true.
Proof.
  intros Hu Hv. unfold validateStoreAdverseAction in Hv. checks Hv. simplify_eq.
  repeat match goal with H : ed25519_try _ _ _ = Some _ |- _ => apply ed25519_try_Some in H; symmetry in H end.
  split_and!; [by split|done|by apply has_false|done].
Qed.

(** [t] lifts the suppression of [k]: a restoration of that identity in that bucket. *)
Definition lifts (k : string) (t : Tx) : bool :=
  (Tx_Type t =? StoreTxTypeAdverseAction) &&
  match UnmarshalData (A := StoreAdverseActionData) t with
  | Some d => bool_decide (StoreAdverseActionData_ActionType d = "restore") &&
      bool_decide (suppress_key (StoreAdverseActionData_BucketID d) (StoreAdverseActionData_IdentityHash d) = k)
  | None => false
  end.
(** Any step, validated or not, but a restoration of [k]. *)
Inductive quiet_step (k : string) : StoreState → StoreState → Prop :=
  | quiet_tx now t s r s' : lifts k t = false → ExecuteTx now t s = (r, s') → quiet_step k s s'
  | quiet_bucket now id cats s r s' : NewBucket now id cats s = (r, s') → quiet_step k s s'
  | quiet_config s b : config_step (the_base s) b → quiet_step k s (with_base b s).
Lemma apply_suppression_keeps k d m :
  negb (bool_decide (StoreAdverseActionData_ActionType d = "restore") &&
    bool_decide (suppress_key (StoreAdverseActionData_BucketID d) (StoreAdverseActionData_IdentityHash d) = k)) = true →
  k ∈ m → k ∈ apply_suppression d m.
Proof.
  unfold apply_suppression. intros Hn%negb_true_iff%andb_false_iff Hk.
  destruct (bool_decide (_ = "suppress")); [set_solver|]. destruct (bool_decide (_ = "restore")); [|done].
  destruct Hn as [Hn|Hn%bool_decide_eq_false]; [done|set_solver].
Qed.
Lemma quiet_keeps k s s' : quiet_step k s s' → k ∈ suppressedIdentities s → k ∈ suppressedIdentities s'.
Proof.
  intros [now t s0 r s1 Hl Hx|now id cats s0 r s1 Hx|s0 b Hb] Hk; [|by rewrite (proj1 (proj2 (bucket_authority _ _ _ _ _ _ Hx)))|done].
  destruct (decide (Tx_Type t = StoreTxTypeAdverseAction)) as [Ht|Ht];
    [|by rewrite (proj1 (proj2 (other_authority _ _ _ _ _ Ht Hx)))].
  revert Hl Hx. unfold lifts, ExecuteTx. rewrite Ht.
  cbn [Z.eqb Pos.eqb StoreTxTypeAdverseAction StoreTxTypeSecretStore StoreTxTypeSecretReveal StoreTxTypeSecretRotate
       StoreTxTypeBucketClose StoreTxTypeRegisterValidator andb].
  destruct (UnmarshalData t) as [d|] eqn:Hu; intros Hl.
  - rewrite (adverse_run _ _ _ Hu). intros [= _ <-]. cbn. apply apply_suppression_keeps; [by rewrite Hl|done].
  - unfold executeStoreAdverseAction. mrun. rewrite Hu. by intros [= _ <-].
Qed.

(** C33. An accepted suppression carries the signatures of both authorities over the action,
    under an identifier the log does not hold; and from its execution on, whatever is
    executed short of a restoration of that identity, validated or not, no reveal by it
    in that bucket is accepted. *)
Theorem suppression_blocks_reveal (t : Tx) (d : StoreAdverseActionData) (now : Z) (s s0 s1 s2 : StoreState) r :
  Tx_Type t = StoreTxTypeAdverseAction → UnmarshalData t = Some d → StoreAdverseActionData_ActionType d = "suppress" →
  let k := suppress_key (StoreAdverseActionData_BucketID d) (StoreAdverseActionData_IdentityHash d) in
  ValidateTx t s = (Ok tt, s0) → ExecuteTx now t s = (r, s1) → rtc (quiet_step k) s1 s2 →
  two_signed s (store_action_record d) ∧ authorityActions s !! StoreAdverseActionData_ActionID d = None ∧
  ∀ t' d' s3, UnmarshalData t' = Some d' → SecretRevealData_BucketID d' = StoreAdverseActionData_BucketID d →
    hex_EncodeToString (sha256 (SecretRevealData_SenderPubKey d' +:+ SecretRevealData_BucketID d')) =
      StoreAdverseActionData_IdentityHash d →
    validateSecretReveal t' s2 ≠ (Ok tt, s3).
Proof.
  intros Ht Hu Hs k Hv Hx Hq. unfold ValidateTx in Hv. apply bind_ok in Hv as (u & s0' & Hst & Hv).
  pose proof (ValidateStoreTx_pure _ _ _ _ Hst) as ->. rewrite Ht in Hv. cbn in Hv.
  destruct (adverse_facts _ _ _ _ _ Hu Hv) as (H2 & _ & Hn & _). split; [done|]. split; [done|].
  assert (k ∈ suppressedIdentities s2) as Hk.
  { assert (k ∈ suppressedIdentities s1) as Hk1.
    { revert Hx. unfold ExecuteTx. rewrite Ht. cbn -[executeStoreAdverseAction]. rewrite (adverse_run _ _ _ Hu).
      intros [= _ <-]. cbn. unfold apply_suppression. rewrite bool_decide_true by done. set_solver. }
    clear -Hq Hk1. induction Hq; [done|]. eauto using quiet_keeps. }
  intros t' d' s3 Hu' Eb Ei Hv'. unfold validateSecretReveal, verifyAndIdentifyStoreReveal in Hv'. checks Hv'. simplify_eq.
  rewrite Eb, <- Eb, Ei, Eb in *. done.
Qed.

(** ** The log accounts for every suppression *)
(** A step of a node that validates what it executes. *)
Inductive valid_step : StoreState → StoreState → Prop :=
  | valid_tx now t s r s' : ValidateTx t s = (Ok tt, s) → ExecuteTx now t s = (r, s') → valid_step s s'
  | valid_bucket now id cats s r s' : NewBucket now id cats s = (r, s') → valid_step s s'
  | valid_config s b : config_step (the_base s) b → valid_step s (with_base b s).
Definition accounted (s : StoreState) : Prop :=
  map_Forall (λ id r, StoreActionRecord_ActionID r = id ∧ two_signed s r) (authorityActions s) ∧
  ∀ k, k ∈ suppressedIdentities s →
    ∃ id r, authorityActions s !! id = Some r ∧ StoreActionRecord_ActionType r = "suppress" ∧ action_key r = k.
Lemma accounted_same s s' : same_authority s s' → accounted s → accounted s'.
Proof. unfold accounted, two_signed. by intros (-> & -> & -> & ->). Qed.
Lemma suppressed_by k d m :
  k ∈ apply_suppression d m → k ∈ m ∨ StoreAdverseActionData_ActionType d = "suppress" ∧ action_key (store_action_record d) = k.
Proof.
  unfold apply_suppression, action_key. cbn. destruct (bool_decide (_ = "suppress")) eqn:E; bools; [set_solver|].
  destruct (bool_decide (_ = "restore")); set_solver.
Qed.
Lemma valid_accounted s s' :
  valid_step s s' → accounted s → accounted s' ∧ authorityActions s ⊆ authorityActions s'.
Proof.
  intros Hstep Ha. assert (same_authority s s' → accounted s' ∧ authorityActions s ⊆ authorityActions s') as Hsame.
  { intros Hs. split; [by eapply accounted_same|]. by rewrite (proj1 Hs). }
  destruct Hstep as [now t s r s' Hv Hx|now id cats s r s' Hx|s b _]; [|by apply Hsame; eapply bucket_authority|by apply Hsame].
  destruct (decide (Tx_Type t = StoreTxTypeAdverseAction)) as [Ht|Ht]; [|by apply Hsame; eapply other_authority].
  clear Hsame. unfold ValidateTx in Hv. apply bind_ok in Hv as (u & s0 & Hst & Hv).
  pose proof (ValidateStoreTx_pure _ _ _ _ Hst) as ->. rewrite Ht in Hv. cbn in Hv.
  revert Hx. unfold ExecuteTx. rewrite Ht. cbn -[executeStoreAdverseAction].
  destruct (UnmarshalData (A := StoreAdverseActionData) t) as [d|] eqn:Hu;
    [|unfold executeStoreAdverseAction; mrun; rewrite Hu; by intros [= _ <-]].
  destruct (adverse_facts _ _ _ _ _ Hu Hv) as (H2 & _ & Hn & _). rewrite (adverse_run _ _ _ Hu). intros [= _ <-].
  destruct Ha as [Ha1 Ha2]. split; [split|]; cbn.
  - apply map_Forall_insert_2; [split; [reflexivity|exact H2]|exact Ha1].
  - intros k Hk. apply suppressed_by in Hk as [(id & r0 & Hr & Hs)%Ha2|Hk].
    + exists id, r0. split; [|exact Hs]. by rewrite lookup_insert_ne by congruence.
    + exists (StoreAdverseActionData_ActionID d), (store_action_record d). split; [apply lookup_insert_eq|exact Hk].
  - by apply insert_subseteq.
Qed.
(** Along any run of a validating node from an empty database: every entry of the log
    sits under its identifier and carries the signatures of both authorities, every
    suppressed identity has a suppression in the log, and the log never loses an entry. *)
Theorem suppression_accountable (s0 s s' : StoreState) :
  store_init s0 → rtc valid_step s0 s → rtc valid_step s s' →
  (∀ id r, authorityActions s !! id = Some r → StoreActionRecord_ActionID r = id ∧ two_signed s r) ∧
  (∀ bucketID identityHash, suppress_key bucketID identityHash ∈ suppressedIdentities s →
     ∃ id r, authorityActions s !! id = Some r ∧ StoreActionRecord_ActionType r = "suppress" ∧
       suppress_key (StoreActionRecord_BucketID r) (StoreActionRecord_IdentityHash r) = suppress_key bucketID identityHash) ∧
  authorityActions s ⊆ authorityActions s'.
Proof.
  intros (_ & _ & E1 & E2) H1 H2.
  assert (∀ s1 s2, rtc valid_step s1 s2 → accounted s1 → accounted s2 ∧ authorityActions s1 ⊆ authorityActions s2) as Hrun.
  { clear. induction 1 as [s|s1 s2 s3 Hs _ IH]; [done|]. intros Ha. destruct (valid_accounted _ _ Hs Ha) as [Hb Hsub].
    destruct (IH Hb) as [Hc Hsub']. split; [done|]. by etrans. }
  assert (accounted s0) as H0 by (split; [rewrite E1; apply map_Forall_empty|rewrite E2; set_solver]).
  destruct (Hrun _ _ H1 H0) as [Hs _]. destruct (Hrun _ _ H2 Hs) as [_ Hsub]. destruct Hs as [Ha Hb].
  split_and!; [exact Ha| |exact Hsub]. intros b i Hk. exact (Hb _ Hk).
Qed.

(** ** What a restart forgets *)
(** What acceptance of a reveal depends on. *)
Lemma reveal_same t (s1 s2 : StoreState) :
  periods (store_base s1) = periods (store_base s2) → submissions (store_base s1) = submissions (store_base s2) →
  participants (store_base s1) = participants (store_base s2) → verifier (store_base s1) = verifier (store_base s2) →
  suppressedIdentities s1 = suppressedIdentities s2 →
  (validateSecretReveal t s1).1 = (validateSecretReveal t s2).1.
Proof.
  intros E1 E2 E3 E4 E5. unfold validateSecretReveal, check_device, configured_verifier, identified, verifyAndIdentifyStoreReveal. mrun.
  destruct (UnmarshalData t) as [d|]; [|done]. mrun.
  destruct (hex_DecodeString _) as [raw|]; [|done]. mrun. destruct (negb (slen raw =? _)); [done|]. mrun.
  destruct (negb (ed25519_Verify _ _ _)); [done|]. mrun. unfold GetPeriod, GetVerifier, HasParticipant, HasSubmission.
  cbn [the_base Embeds_StoreState]. rewrite E1, E2, E3, E5.
  destruct (periods _ !! _); [|done]. mrun. cbn [the_base Embeds_StoreState]. rewrite E4.
  destruct (verifier (store_base s2)); [|done]. mrun.
  destruct (negb (has (participants _) _)); [done|]. mrun. destruct (negb (has (submissions _) _)); [done|]. mrun.
  by destruct (bool_decide _).
Qed.
Lemma reveal_pure t (s s' : StoreState) u : validateSecretReveal t s = (Ok u, s') → s' = s.
Proof. intros Hv. unfold validateSecretReveal in Hv. by checks Hv. Qed.
End store.

Section restart.
Context `{C : Crypto} {DB : Type} `{KVLaws DB}.
(** A commit of a store state followed by a restart with the same authority keys: the
    suppressions and the authority log are gone, and a reveal that only its suppression
    kept back is accepted. *)
Theorem restart_lifts_suppression (db db' : DB) (s : StoreState) (b' : TwoListBase) (h : gobytes)
    (sg : option Signer) (opts : StoreStateOptions) (v : IdentityVerifier) (t : Tx) (s1 : StoreState) :
  (∀ k, db_get db k = None) → base_keyed (store_base s) → base_records_ok (store_base s) →
  dirty (store_base s) = true → Commit db (store_base s) = (Ok h, (b', db')) →
  bytes_of (opt_eligibility opts) ≠ bytes_of (opt_reconciliation opts) → GetVerifier (store_base s) = Some v →
  validateSecretReveal t (s <| suppressedIdentities := ∅ |>) = (Ok tt, s1) →
  ∃ s', NewStoreStateWithOptions db' sg opts = inr s' ∧
    suppressedIdentities s' = ∅ ∧ authorityActions s' = ∅ ∧ buckets s' = ∅ ∧
    let s2 := (Store.SetIdentityVerifier v s').2 in validateSecretReveal t s2 = (Ok tt, s2).
Proof.
  intros Hdb Hk Hr Hd Hc Hopt Hv Hrev. pose proof (base_restart db db' _ b' h sg Hdb Hk Hr Hd Hc) as Hnew.
  eexists. split; [unfold NewStoreStateWithOptions; rewrite (bool_decide_false _ Hopt), andb_false_r, Hnew; done|].
  split_and!; [done..|]. cbv zeta. match goal with |- validateSecretReveal t ?x = _ => set (s2 := x) end.
  assert ((validateSecretReveal t s2).1 = Ok tt) as E.
  { rewrite (reveal_same t s2 (s <| suppressedIdentities := ∅ |>)); try done. by rewrite Hrev. }
  destruct (validateSecretReveal t s2) as [r s3] eqn:E'. cbn in E. subst r. f_equal. by eapply reveal_pure.
Qed.
End restart.
