(* ===== verification/Demo.v ===== *)
(** A concrete poll, from its creation to its close, that the witnesses evaluate:
    two participants, both authorities, the stand-in digest and signature scheme
    [demo_crypto], the [NoopVerifier] and an in-memory database. *)
From S2P Require Import Prelude GoStd Json Sha256 KVStore Types TxData Merkle Nonce TxValidate Identity.
From S2P Require Import Keys VotingState Polls Tallies Ballots BatchFlush Reseal Authority Confirms Tables Persist App.

#[export] Existing Instance demo_crypto.

(** Keys: 32 raw bytes, hex for participants and base64 for authorities. *)
Fixpoint repeat_byte (n : nat) (c : ascii) : string :=
  match n with O => "" | S k => String c (repeat_byte k c) end.
Definition alice_raw : string := repeat_byte 32 "A".
Definition bob_raw : string := repeat_byte 32 "B".
Definition alice : string := hex_EncodeToString alice_raw.
Definition bob : string := hex_EncodeToString bob_raw.
Definition elig_raw : string := repeat_byte 32 "E".
Definition recon_raw : string := repeat_byte 32 "R".
Definition elig_key : string := b64_encode elig_raw.
Definition recon_key : string := b64_encode recon_raw.

(** Transactions. *)
Definition tx {A} `{Json A} (ty : Z) (data : A) : Tx := mkTx ty (Some "sig") (Some (to_json data)).

Definition demo_create : PollCreateData :=
  mkPollCreateData "p1" "Approve?" (Some ["yes"; "no"]) "" 100 200 elig_key recon_key.
Definition create_tx : Tx := tx TxTypePollCreate demo_create.

Definition beacon_hash : string := hex_EncodeToString (repeat_byte 32 "b").
Definition nonce (c : ascii) : string := hex_EncodeToString (String "n" (repeat_byte 31 c)).
Definition cast (key raw : string) (c : ascii) (choice : string) : BallotCastData :=
  mkBallotCastData "p1" (Some [choice]) (nonce c) beacon_hash 5 "" 0 "" key
    (Some (demo_sign raw (voterDeviceSigMessage (nonce c) "p1"))) (Some "att") "" None "" None "".
Definition alice_cast : BallotCastData := cast alice alice_raw "1" "yes".
Definition bob_cast : BallotCastData := cast bob bob_raw "2" "no".
Definition alice_tx : Tx := tx TxTypeBallotCast alice_cast.
Definition bob_tx : Tx := tx TxTypeBallotCast bob_cast.
Definition batch_tx : Tx := tx TxTypeBatchFlush (mkBatchFlushData "p1" (Some [alice_tx; bob_tx])).
Definition close_tx : Tx := tx TxTypePollClose (mkPollCloseData "p1" 9).

(** States: after creation and a beacon, after the batch. *)
Definition at_ (z : Z) : clock := λ _, z.
Definition s_empty : State := (SetIdentityVerifier NoopVerifier (initialState None)).2.
Definition s_created : State := (RecordBeacon 5 beacon_hash ((executePollCreate 50 create_tx s_empty).2)).2.
Definition s_open : State := (validateBatchFlush (at_ 150) batch_tx s_created).2.
Definition s_voted : State := (executeBatchFlush (at_ 150) batch_tx s_open).2.
Definition s_closed : State := (executePollClose 250 close_tx s_voted).2.

(** A successful run, to be read as an equation. *)
Lemma run_eq {S A} (m : M S A) (s : S) (a : A) : (m s).1 = Ok a → m s = (Ok a, (m s).2).
Proof. destruct (m s) as [r s']. by intros [= ->]. Qed.

(** A computed fact. *)
Ltac eval_done := vm_compute; first [reflexivity | discriminate | solve [eauto]].
(** [accepted m s H]: the run of [m] on [s] returns without an error. *)
Ltac accepted m s H :=
  assert ((m s).1 = Ok tt) as H by (vm_compute; reflexivity); apply run_eq in H.
(** [instance thm H]: [thm] at its arguments, its computable hypotheses evaluated. *)
Tactic Notation "instance" uconstr(thm) "as" ident(H) :=
  unshelve epose proof thm as H; [eval_done..|].

Example demo_create_accepted : (validatePollCreate 50 create_tx s_empty).1 = Ok tt.
Proof. vm_compute. reflexivity. Qed.
Example demo_batch_accepted : (validateBatchFlush (at_ 150) batch_tx s_created).1 = Ok tt.
Proof. vm_compute. reflexivity. Qed.
Example demo_two_records :
  (L1_total s_voted "p1", L2_total s_voted "p1") = (2%nat, 2%nat).
Proof. vm_compute. reflexivity. Qed.
Example demo_counts :
  (λ t, (Tally_TotalVotes t, Tally_Counts t !! "yes", Tally_Counts t !! "no")) <$> tallies s_closed !! "p1" =
  Some (2, Some 1, Some 1).
Proof. vm_compute. reflexivity. Qed.

(** What the participants and the authorities send afterwards. *)
Definition ballot_of (data : BallotCastData) : string := cast_ballotID data.
Definition alice_hash : string := noop_identity alice "p1".
Definition bob_hash : string := noop_identity bob "p1".
Definition update (choices : list string) : BallotUpdateData :=
  mkBallotUpdateData "p1" (ballot_of alice_cast) (nonce "3") beacon_hash 5 "" (Some choices) 0 alice
    (Some (demo_sign alice_raw (ballotUpdateDeviceSigMessage (nonce "3") "p1"))) (Some "att") "" None "" None "".
Definition change_tx : Tx := tx TxTypeUpdateBallot (update ["no"]).
Definition withdraw_tx : Tx := tx TxTypeUpdateBallot (update []).
Definition reseal_data : ResealVoteData :=
  mkResealVoteData "p1" (ballot_of alice_cast) alice
    (Some (demo_sign alice_raw ("migrate:" +:+ ballot_of alice_cast +:+ ":" +:+ "p1"))) 0.
Definition reseal_tx : Tx := tx TxTypeResealVote reseal_data.
Definition both_sign (f : gobytes → gobytes → Tx) (msg : string) : Tx :=
  f (Some (demo_sign elig_raw msg)) (Some (demo_sign recon_raw msg)).
Definition rescind_tx : Tx :=
  both_sign (λ e r, tx TxTypeAuthorityRescind
      (mkAuthorityRescindData "p1" (ballot_of alice_cast) alice_hash "ref-1" e r))
    (rescindMessage "p1" (ballot_of alice_cast) alice_hash "ref-1").
Definition restore_tx : Tx :=
  both_sign (λ e r, tx TxTypeAuthorityRestore
      (mkAuthorityRestoreData "p1" (ballot_of alice_cast) alice_hash "ref-2" e r))
    (restoreMessage "p1" (ballot_of alice_cast) alice_hash "ref-2").
Definition confirm_tx : Tx :=
  tx TxTypeConfirmReceipt (mkConfirmReceiptData "p1" alice_hash alice (Some "att") "" None "" None "").
Definition validator_tx : Tx :=
  tx TxTypeRegisterValidator (mkValidatorRegistrationData elig_key 7 "node").

Definition s_sealed : State := (executeResealVote reseal_tx s_voted).2.
Definition s_rescinded : State := (executeAuthorityRescind rescind_tx s_voted).2.
Definition s_restored : State := (executeAuthorityRestore restore_tx s_rescinded).2.
(** Alice, whose ballot was rescinded and restored, votes again. *)
Definition alice_again : Tx := tx TxTypeBallotCast (cast alice alice_raw "4" "no").
Definition s_recast : State := (executeBallotCast 160 alice_again s_restored).2.

Example demo_accepted :
  ((validateBallotUpdate 150 change_tx s_voted).1, (validateBallotUpdate 150 withdraw_tx s_voted).1,
   (validateResealVote reseal_tx s_voted).1, (validateAuthorityRescind rescind_tx s_voted).1,
   (validateAuthorityRestore restore_tx s_rescinded).1, (validateConfirmReceipt 150 confirm_tx s_voted).1,
   (validateBallotCast 160 alice_again s_restored).1) =
  (Ok tt, Ok tt, Ok tt, Ok tt, Ok tt, Ok tt, Ok tt).
Proof. vm_compute. reflexivity. Qed.

(** And a third time: the grant is still there. *)
Definition alice_third : Tx := tx TxTypeBallotCast (cast alice alice_raw "6" "no").
Definition candidate_of (d : BallotCastData) (h : string) : batchCandidate := mkCandidate d (cast_ballotID d) h.
Definition demo_candidates : list batchCandidate :=
  [candidate_of alice_cast alice_hash; candidate_of bob_cast bob_hash].
Lemma demo_candidates_ok :
  Forall2 (is_candidate NoopVerifier) [alice_tx; bob_tx] demo_candidates.
Proof. repeat (apply Forall2_cons; split; [split_and!; vm_compute; reflexivity|]). by apply Forall2_nil. Qed.
