(* ===== verification/Witnesses.v ===== *)
(** Concrete instances: every hypothesis of the canonical state machine's theorems
    is met by the poll of [Demo], and the conclusion says something of it. *)
From S2P Require Import Prelude GoStd Json Sha256 KVStore Types TxData Merkle Nonce TxValidate Identity.
From S2P Require Import Keys VotingState Polls Tallies Ballots BatchFlush Reseal Authority Confirms Tables Persist App.
From S2P Require Import Invariants Determinism CountMatch Demo.

(** ** The two lists *)
Lemma s_created_empty : voteDirections s_created = ∅ ∧ voterRegistry s_created = ∅.
Proof. split; vm_compute; reflexivity. Qed.
Lemma nothing_in_s_created {V W} (m1 : gmap string V) (m2 : gmap string W) k1 k2 :
  m1 = ∅ → m2 = ∅ → m1 !! k1 = None ∧ m2 !! k2 = None.
Proof. intros -> ->. by rewrite !lookup_empty. Qed.
Lemma batch_fresh : fresh s_created batch_tx.
Proof.
  destruct s_created_empty as [E1 E2]. split.
  - intros _ data idv cs _ _ _ c _. by apply nothing_in_s_created.
  - intros H. vm_compute in H. discriminate.
Qed.
Lemma ValidateTx_batch now t s : Tx_Type t = TxTypeBatchFlush → ValidateTx now t s = validateBatchFlush now t s.
Proof. intros H. unfold ValidateTx. by rewrite H. Qed.
Lemma ExecuteTx_batch now t s : Tx_Type t = TxTypeBatchFlush → ExecuteTx now t s = executeBatchFlush now t s.
Proof. intros H. unfold ExecuteTx. by rewrite H. Qed.
Lemma batch_data : UnmarshalData batch_tx = Some (mkBatchFlushData "p1" (Some [alice_tx; bob_tx])).
Proof. vm_compute. reflexivity. Qed.
Lemma threshold_ok : int64_ok (rollingThreshold s_created).
Proof. vm_compute. split; [discriminate|reflexivity]. Qed.
Lemma batch_accepted : validateBatchFlush (at_ 150) batch_tx s_created = (Ok tt, s_open).
Proof. accepted (validateBatchFlush (at_ 150) batch_tx) s_created R. exact R. Qed.

Lemma count_match_invariant_witness :
  rtc vstep s_created s_voted ∧ L1_total s_voted "p1" = 2%nat ∧ L1_total s_voted "p1" = L2_total s_voted "p1".
Proof.
  assert (rtc vstep s_created s_voted) as Hr.
  { apply rtc_once, (step_tx (at_ 150) (at_ 150) batch_tx s_created s_open s_voted
      (executeBatchFlush (at_ 150) batch_tx s_open).1 batch_fresh).
    - rewrite ValidateTx_batch by reflexivity. exact batch_accepted.
    - rewrite ExecuteTx_batch by reflexivity. exact (surjective_pairing _). }
  assert (count_match s_created) as Hc.
  { destruct s_created_empty as [E1 E2]. unfold count_match. rewrite E1, E2. by intros q _. }
  instance (count_match_invariant s_created s_voted _ threshold_ok Hc Hr) as H.
  split; [exact Hr|]. split; [eval_done|]. exact (H "p1" eq_refl).
Defined.

Lemma executePollClose_spec_witness :
  L1_counted s_voted "p1" = L2_total s_voted "p1" ∧
  ∃ evs s', executePollClose 250 close_tx s_voted = (Ok evs, s').
Proof.
  pose (poll := default (new_poll 0 demo_create) (polls s_voted !! "p1")).
  assert (L1_counted s_voted "p1" = L2_total s_voted "p1") as E by eval_done.
  split; [exact E|].
  instance (executePollClose_spec 250 close_tx (mkPollCloseData "p1" 9) s_voted poll _ _) as H.
  cbn zeta in H. rewrite decide_True in H by exact E. destruct H as (_ & _ & evs & ->). eauto.
Defined.

Lemma close_tally_conserves_witness :
  exists tally, tally = close_tally 250 s_voted (default (new_poll 0 demo_create) (polls s_voted !! "p1")) "p1" ∧
  default 0 (Tally_Counts tally !! "yes") + (default 0 (Tally_Counts tally !! "no") + 0) = 2.
Proof.
  eexists. split; [reflexivity|].
  edestruct (close_tally_conserves 250 s_voted (default (new_poll 0 demo_create) (polls s_voted !! "p1")) "p1")
    as [_ H]; [eval_done| |eval_done| |].
  - apply (bool_decide_unpack _). vm_compute. exact I.
  - assert (map_Forall (λ k v, match elems (VoteRecord_Choices v) with
      | c :: _ => c = "yes" ∨ c = "no" | [] => False end) (voteDirections s_voted)) as Hall.
    { apply map_Forall_to_list. vm_compute.
      repeat (apply Forall_cons; split; [auto|]). apply Forall_nil; exact I. }
    intros k v Hk _ _. specialize (Hall k v Hk). cbn in Hall.
    destruct (elems (VoteRecord_Choices v)) as [|c rest]; [destruct Hall|].
    exists c, rest. split; [exact eq_refl|]. destruct Hall as [-> | ->]; apply (bool_decide_unpack _); vm_compute; exact I.
  - cbn zeta in H. refine (eq_trans _ (eq_trans H _)); eval_done.
Defined.

Lemma collect_order_independent_witness :
  let votes := rev (map_to_list (voteDirections s_voted)) in
  let voters := rev (map_to_list (voterRegistry s_voted)) in
  (collect_on votes voters "p1" "plurality" ["yes"; "no"]).1.1 ≠
    (collectPollLists s_voted "p1" "plurality" ["yes"; "no"]).1.1 ∧
  computeMerkleRoot (collect_on votes voters "p1" "plurality" ["yes"; "no"]).1.1 =
    computeMerkleRoot (collectPollLists s_voted "p1" "plurality" ["yes"; "no"]).1.1.
Proof.
  intros votes voters. split; [eval_done|].
  pose proof (collect_order_independent s_voted "p1" "plurality" ["yes"; "no"] votes voters
    (symmetry (Permutation_rev _)) (symmetry (Permutation_rev _))) as H.
  destruct (collect_on _ _ _ _ _) as [[ids hs] cs], (collectPollLists _ _ _ _) as [[ids' hs'] cs'].
  apply H.
Defined.

Lemma sealed_poll_cannot_close_witness : ∃ e, executePollClose 250 close_tx s_sealed = (Fail e, s_sealed).
Proof.
  pose (k := voteStoreKey "p1" (ballot_of alice_cast)).
  pose (v := default (mkVoteRecord "" None "" false "") (voteDirections s_sealed !! k)).
  pose (poll := default (new_poll 0 demo_create) (polls s_sealed !! "p1")).
  apply (sealed_poll_cannot_close 250 close_tx (mkPollCloseData "p1" 9) s_sealed poll k v); eval_done.
Defined.

(** ** Ballots *)
Lemma executeBallotCast_spec_witness :
  ∃ evs s', executeBallotCast 160 alice_tx s_created = (Ok evs, s') ∧
    L1_total s' "p1" = 1%nat ∧ L2_total s' "p1" = 1%nat.
Proof.
  instance (executeBallotCast_spec 160 alice_tx alice_cast s_created NoopVerifier alice_hash _ _ _ _) as H.
  destruct H as (evs & s' & Hx & _ & _ & _ & H1 & H2).
  exists evs, s'. split; [exact Hx|]. split; [etrans; [exact H1|]|etrans; [exact H2|]]; eval_done.
Defined.

Lemma validateBallotCast_sound_witness :
  ∃ poll, polls s_restored !! "p1" = Some poll ∧ Poll_StartTime poll ≤ 160 < Poll_EndTime poll.
Proof.
  accepted (validateBallotCast 160 alice_again) s_restored R.
  instance (validateBallotCast_sound 160 alice_again s_restored _ R) as H.
  destruct H as (data & poll & pub & idv & h & Hd & _ & _ & _ & _ & _ & Hp & Ht & _).
  assert (UnmarshalData alice_again = Some (cast alice alice_raw "4" "no")) as E by eval_done.
  rewrite E in Hd. injection Hd as <-. exists poll. split; [exact Hp|exact Ht].
Defined.

Lemma restore_grant_reusable_witness :
  ∃ s2 evs s3, validateBallotCast 160 alice_third s_recast = (Ok tt, s2) ∧
    executeBallotCast 170 alice_third s2 = (Ok evs, s3) ∧ L1_total s3 "p1" = S (L2_total s3 "p1").
Proof.
  pose (g := default (mkRestoreRecord "" "" "" "" None None 0) (restores s_recast !! registry_key "p1" alice_hash)).
  pose (s0 := s_recast <| voterRegistry ::= delete (registry_key "p1" alice_hash) |>).
  accepted (validateBallotCast 160 alice_third) s0 R.
  instance (restore_grant_reusable 160 170 alice_third (cast alice alice_raw "6" "no") s_recast _ NoopVerifier
    alice_hash g (mkVoterRecord alice_hash) _ _ _ _ _ _ _ R) as H. exact H.
Defined.

Lemma accepted_update_counts_witness :
  (∃ evs s', executeBallotUpdate withdraw_tx s_voted = (Ok evs, s') ∧ (L1_total s' "p1" + 1 = 2)%nat) ∧
  (∃ evs s', executeBallotUpdate change_tx s_voted = (Ok evs, s') ∧ L2_total s' "p1" = 2%nat).
Proof.
  split.
  - accepted (validateBallotUpdate 150 withdraw_tx) s_voted R.
    destruct (accepted_update_counts 150 withdraw_tx s_voted _ R) as (_ & data & h & evs & s' & Hd & H).
    assert (UnmarshalData withdraw_tx = Some (update [])) as E by eval_done.
    rewrite E in Hd. injection Hd as <-. cbn zeta in H. rewrite decide_True in H by eval_done.
    destruct H as (Hx & _ & _ & _ & H1 & _). exists evs, s'. split; [exact Hx|]. etrans; [exact H1|eval_done].
  - accepted (validateBallotUpdate 150 change_tx) s_voted R.
    destruct (accepted_update_counts 150 change_tx s_voted _ R) as (_ & data & h & evs & s' & Hd & H).
    assert (UnmarshalData change_tx = Some (update ["no"])) as E by eval_done.
    rewrite E in Hd. injection Hd as <-. cbn zeta in H. rewrite decide_False in H by eval_done.
    destruct H as (Hx & _ & _ & _ & H2). exists evs, s'. split; [exact Hx|]. etrans; [exact H2|eval_done].
Defined.

(** ** Batches *)
Lemma validateBatchFlush_sound_witness :
  ∃ cs, Forall2 (is_candidate NoopVerifier) [alice_tx; bob_tx] cs ∧ NoDup (cand_ballotID <$> cs).
Proof.
  instance (validateBatchFlush_sound (at_ 150) batch_tx s_created s_open NoopVerifier _ batch_accepted) as H.
  destruct H as (data & poll & cs & Hd & _ & _ & Hcs & _ & Hn & _).
  rewrite batch_data in Hd. injection Hd as <-. exists cs. split; [exact Hcs|exact Hn].
Defined.

Lemma batch_flush_grows_both_lists_witness :
  let '(r, s') := executeBatchFlush (at_ 151) batch_tx s_open in
  r ≠ Panic ∧ L1_total s' "p1" = (L1_total s_created "p1" + 2)%nat ∧ L2_total s' "p1" = (L2_total s_created "p1" + 2)%nat.
Proof.
  apply (batch_flush_grows_both_lists (at_ 150) (at_ 151) batch_tx (mkBatchFlushData "p1" (Some [alice_tx; bob_tx]))
    s_created s_open NoopVerifier demo_candidates); [eval_done|exact threshold_ok|exact batch_data
    |exact batch_accepted|exact demo_candidates_ok|].
  destruct s_created_empty as [E1 E2]. intros c _. by apply nothing_in_s_created.
Defined.

Lemma batch_flush_order_independent_witness :
  executeBatchFlush (at_ 150) batch_tx s_open =
  executeBatchFlush (at_ 150) (tx TxTypeBatchFlush (mkBatchFlushData "p1" (Some [bob_tx; alice_tx]))) s_open.
Proof.
  apply (batch_flush_order_independent (at_ 150) _ _ "p1" [alice_tx; bob_tx] [bob_tx; alice_tx] s_open
    NoopVerifier demo_candidates); [exact batch_data|eval_done|apply Permutation_swap|eval_done
    |exact demo_candidates_ok|].
  apply (bool_decide_unpack _). vm_compute. exact I.
Defined.

(** ** Migration, authorities, receipts, validators *)
Lemma reseal_migrates_once_witness :
  ∃ evs s2, executeResealVote reseal_tx s_voted = (Ok evs, s2) ∧ voterRegistry s2 = voterRegistry s_voted.
Proof.
  accepted (validateResealVote reseal_tx) s_voted R.
  destruct (reseal_migrates_once reseal_tx reseal_tx s_voted _ R) as (_ & data & vote & poll & pub & evs & s2 & H).
  exists evs, s2. destruct H as (_ & _ & _ & _ & _ & _ & Hx & _ & Hr & _). split; [exact Hx|exact Hr].
Defined.

Lemma rescind_two_party_and_bilateral_witness :
  ∃ evs s2, executeAuthorityRescind rescind_tx s_voted = (Ok evs, s2).
Proof.
  accepted (validateAuthorityRescind rescind_tx) s_voted R.
  destruct (rescind_two_party_and_bilateral rescind_tx rescind_tx s_voted _ R) as (_ & data & poll & evs & s2 & H).
  exists evs, s2. destruct H as (_ & _ & _ & Hx & _). exact Hx.
Defined.

Lemma restore_presupposes_rescission_witness :
  ∃ evs s2, executeAuthorityRestore restore_tx s_rescinded = (Ok evs, s2) ∧
    voteDirections s2 = voteDirections s_rescinded.
Proof.
  accepted (validateAuthorityRestore restore_tx) s_rescinded R.
  destruct (restore_presupposes_rescission restore_tx restore_tx s_rescinded _ R)
    as (_ & data & poll & evs & s2 & H).
  exists evs, s2. destruct H as (_ & _ & _ & _ & _ & Hx & _ & Hl & _). split; [exact Hx|exact Hl].
Defined.

Lemma confirm_receipt_once_witness :
  ∃ evs s2, executeConfirmReceipt confirm_tx s_voted = (Ok evs, s2) ∧ voterRegistry s2 = voterRegistry s_voted.
Proof.
  accepted (validateConfirmReceipt 150 confirm_tx) s_voted R.
  destruct (confirm_receipt_once 150 151 confirm_tx confirm_tx s_voted _ R)
    as (_ & data & poll & idv & h & evs & s2 & H).
  exists evs, s2. destruct H as (_ & _ & _ & _ & _ & _ & _ & Hx & _ & _ & _ & _ & Hr & _).
  split; [exact Hx|exact Hr].
Defined.
