(* ===== verification/ServiceWitnesses.v ===== *)
(** Concrete instances of the theorems on validation, commitments, persistence and
    the ABCI application, on the poll of [Demo]. *)
From S2P Require Import Prelude GoStd Json Sha256 KVStore Types TxData Merkle Nonce TxValidate Identity.
From S2P Require Import Keys VotingState Polls Tallies Ballots BatchFlush Reseal Authority Confirms Tables Persist App.
From S2P Require Import Invariants Determinism CountMatch Demo.

(** ** Commitments *)
Lemma collision_free_check (Q1 Q2 : list string) :
  bool_decide (Forall (λ x, Forall (λ y, sha256 x = sha256 y → x = y) Q2) Q1) = true → collision_free Q1 Q2.
Proof.
  intros H%bool_decide_eq_true x y Hx Hy. rewrite Forall_forall in H.
  specialize (H x Hx). rewrite Forall_forall in H. exact (H y Hy).
Qed.

Lemma computeMerkleRoot_terminates_witness :
  String.length (computeMerkleRoot ["x"; "y"; "z"]) = 32%nat ∧
  merkle_loop 5 (sha256 <$> sort_Strings ["x"; "y"; "z"]) = Some (computeMerkleRoot ["x"; "y"; "z"]).
Proof.
  destruct (computeMerkleRoot_terminates ["x"; "y"; "z"]) as (Hl & _ & H).
  split; [exact Hl|]. apply H; [discriminate|cbn; lia].
Defined.

Lemma computeMerkleRoot_binding_witness : ["x"; "y"; "z"] ≡ₚ ["z"; "x"; "y"].
Proof.
  apply computeMerkleRoot_binding; [reflexivity|apply collision_free_check; eval_done|eval_done].
Defined.

Definition demo_counts_map : gmap string Z := {[ "yes" := 2; "no" := 1 ]}.
Definition demo_root (s : string) : string := computeMerkleRoot [s].
Lemma BuildSigningPayload_binding_witness :
  let v := demo_root "ballot" in let r := demo_root "voter" in
  BuildSigningPayload v r 3 demo_counts_map = BuildSigningPayload v r 3 demo_counts_map ∧
  v = v ∧ r = r ∧ 3 = 3 ∧ demo_counts_map = demo_counts_map.
Proof.
  intros v r. split; [reflexivity|].
  assert (map_Forall (λ _, int64_ok) demo_counts_map) as Hc by (apply (bool_decide_unpack _); vm_compute; exact I).
  assert (int64_ok 3) as H3 by (apply (bool_decide_unpack _); vm_compute; exact I).
  assert (String.length v = 32%nat) as Hv by eval_done. assert (String.length r = 32%nat) as Hr by eval_done.
  apply (BuildSigningPayload_binding v v r r 3 3 demo_counts_map demo_counts_map Hv Hv Hr Hr H3 H3 Hc Hc eq_refl);
    [apply collision_free_check; eval_done|reflexivity].
Defined.

Lemma DeriveSubmissionID_binding_witness :
  ∃ B N, hex_DecodeString beacon_hash = Some B ∧ hex_DecodeString (nonce "1") = Some N ∧ B = B ∧ N = N.
Proof.
  exists (repeat_byte 32 "b"), (String "n" (repeat_byte 31 "1")).
  assert (hex_DecodeString beacon_hash = Some (repeat_byte 32 "b")) as HB by eval_done.
  assert (hex_DecodeString (nonce "1") = Some (String "n" (repeat_byte 31 "1"))) as HN by eval_done.
  split; [exact HB|]. split; [exact HN|].
  assert (DeriveSubmissionID beacon_hash (nonce "1") = Some (cast_ballotID alice_cast)) as HD by eval_done.
  assert (collision_free [repeat_byte 32 "b" +:+ String "n" (repeat_byte 31 "1")]
    [repeat_byte 32 "b" +:+ String "n" (repeat_byte 31 "1")]) as HC by (apply collision_free_check; eval_done).
  exact (DeriveSubmissionID_binding _ _ _ _ _ _ _ _ _ HB HN HB HN eq_refl HC HD HD).
Defined.

Lemma record_blocks_window_witness :
  record_blocks 7 ["aa"; "bb"; "cc"] ∅ !! 8 = Some "bb".
Proof.
  instance (record_blocks_window 7 ["aa"; "bb"; "cc"] 8 _ _ _) as H. rewrite H.
  rewrite decide_True by (cbn; unfold BeaconWindowSize; lia). reflexivity.
Defined.

(** ** Stateless validation *)
Lemma Validate_total_witness : Validate_fuel 7 batch_tx tt = Validate batch_tx tt.
Proof. apply (Validate_total batch_tx 7 tt). lia. Defined.

Lemma Validate_batch_submissions_witness :
  Forall (λ sub, Tx_Type sub = TxTypeBallotCast ∧ Validate sub tt = (Ok tt, tt)) [alice_tx; bob_tx].
Proof.
  assert (Validate batch_tx tt = (Ok tt, tt)) as R by eval_done.
  assert (UnmarshalData batch_tx = Some (mkBatchFlushData "p1" (Some [alice_tx; bob_tx]))) as E by eval_done.
  apply Forall_forall. exact (proj2 (Validate_batch_submissions batch_tx _ tt eq_refl E R)).
Defined.

Lemma Validate_required_fields_witness :
  ∃ data : BallotCastData, UnmarshalData alice_tx = Some data ∧ elems (BallotCastData_Choices data) ≠ [].
Proof.
  assert (Validate alice_tx tt = (Ok tt, tt)) as R by eval_done.
  destruct (Validate_required_fields alice_tx tt R) as [_ H].
  destruct (H eq_refl) as (data & Hd & Hc & _). exists data. split; [exact Hd|exact Hc].
Defined.

(** ** Persistence *)
Definition no_db : memdb := ∅.
Definition db_voted : memdb := (Commit no_db s_voted).2.2.
Lemma no_db_empty k : db_get no_db k = None.
Proof. exact (lookup_empty k). Qed.

Ltac tables :=
  unfold keyed, in_range_records, Poll_ok, Tally_ok, ValidatorRecord_ok, ConfirmRecord_ok, RescindRecord_ok,
    RestoreRecord_ok; split_and!; apply (bool_decide_unpack _); vm_compute; exact I.
Lemma s_voted_keyed : keyed s_voted.
Proof. tables. Qed.
Lemma s_voted_in_range : in_range_records s_voted.
Proof. tables. Qed.
Lemma s_rescinded_keyed : keyed s_rescinded.
Proof. tables. Qed.
Lemma s_rescinded_in_range : in_range_records s_rescinded.
Proof. tables. Qed.

Lemma stored_over_empty {V} `{Json V} (db : memdb) p (m : gmap string V) :
  stored_table db p (m ∪ ∅) → stored_table db p m.
Proof. by rewrite (right_id_L ∅ (∪)). Qed.
Lemma stored_over_initial (db : memdb) (s : State) sg : stored db (over s (initialState sg)) → stored db s.
Proof.
  intros (H1 & H2 & H3 & H4 & H5 & H6 & H7 & H8).
  split_and!; apply stored_over_empty; [exact H1|exact H2|exact H3|exact H4|exact H5|exact H6|exact H7|exact H8].
Qed.
Lemma commit_run (db : memdb) (s : State) :
  dirty s = true → ∃ s', Commit db s = (Ok (Some (computeAppHash s)), (s', (Commit db s).2.2)).
Proof.
  intros H. unfold Commit. rewrite H. cbv zeta. generalize (computeAppHash s). intros h.
  generalize (commit_batch s ++ [("height", VBytes (fmt_d (height (s <| appHash := Some h |> <| height ::= int64_inc |>))));
    ("app_hash", VBytes h)]). intros batch.
  destruct (db_write db batch) as [db'|] eqn:E; [|discriminate E]. eexists. reflexivity.
Qed.

Lemma Commit_NewState_roundtrip_witness :
  ∃ s2, NewState db_voted None = Some s2 ∧ voteDirections s2 = voteDirections s_voted ∧ height s2 = 1.
Proof.
  assert (dirty s_voted = true) as Hd by eval_done.
  destruct (commit_run no_db s_voted Hd) as [s' Hc]. fold db_voted in Hc.
  destruct (Commit_NewState_roundtrip no_db _ s_voted s' _ None no_db_empty s_voted_keyed s_voted_in_range Hd Hc)
    as (_ & Hh & Hn).
  rewrite Hn. eexists. split; [reflexivity|]. generalize dependent (height s'). intros h' -> _.
  split; [exact (eq_refl (voteDirections s_voted))|]. eval_done.
Defined.

(** The rescinded ballot is back after the next commit and a restart. *)
Lemma deleted_records_resurface_witness :
  ∃ s2, NewState (Commit db_voted s_rescinded).2.2 None = Some s2 ∧
    is_Some (voteDirections s2 !! voteStoreKey "p1" (ballot_of alice_cast)).
Proof.
  assert (dirty s_voted = true) as Hd by eval_done. assert (dirty s_rescinded = true) as Hd2 by eval_done.
  destruct (commit_run no_db s_voted Hd) as [s' Hc], (commit_run db_voted s_rescinded Hd2) as [s2' Hc2].
  fold db_voted in Hc.
  assert (stored no_db (initialState None)) as Hst0.
  { split_and!; intros k; rewrite no_db_empty; reflexivity. }
  destruct (commit_stored no_db db_voted (initialState None) s_voted s' _ Hst0 Hd Hc) as [Hst _].
  pose (v := default (mkVoteRecord "" None "" false "") (voteDirections s_voted !! voteStoreKey "p1" (ballot_of alice_cast))).
  pose proof (stored_over_initial _ _ _ Hst) as Hst1.
  assert (voteDirections s_voted !! voteStoreKey "p1" (ballot_of alice_cast) = Some v) as E1 by eval_done.
  assert (voteDirections s_rescinded !! voteStoreKey "p1" (ballot_of alice_cast) = None) as E2 by eval_done.
  assert (voterRegistry s_voted !! registry_key "p1" alice_hash = Some (mkVoterRecord alice_hash)) as E3 by eval_done.
  assert (voterRegistry s_rescinded !! registry_key "p1" alice_hash = None) as E4 by eval_done.
  pose proof (deleted_records_resurface db_voted (Commit db_voted s_rescinded).2.2 s_voted s_rescinded s2'
    (Some (computeAppHash s_rescinded)) None _ v _ (mkVoterRecord alice_hash)
    Hst1 s_voted_keyed s_voted_in_range s_rescinded_keyed s_rescinded_in_range Hd2 Hc2 E1 E2 E3 E4) as H.
  destruct H as (s2 & Hn & Hv & _). exists s2. split; [exact Hn|]. rewrite Hv. exists v. reflexivity.
Defined.

(** ** The application *)
Definition clocks : nat → clock := λ _, at_ 150.
Lemma close_unknown_poll_panics_witness :
  (FinalizeBlock clocks no_db (mkRequestFinalizeBlock 6 "hash" [Some (EncodeTx close_tx)]) s_empty).1 = Panic.
Proof.
  assert (DecodeTx (Some (EncodeTx close_tx)) = Some close_tx) as E1 by eval_done.
  assert (UnmarshalData close_tx = Some (mkPollCloseData "p1" 9)) as E2 by eval_done.
  assert (polls s_empty !! "p1" = None) as E3 by eval_done.
  exact (close_unknown_poll_panics clocks no_db 6 "hash" _ close_tx _ [] s_empty E1 eq_refl E2 E3).
Defined.

Lemma direct_cast_disabled_witness : ExecuteTx (at_ 150) alice_tx s_open = (Fail direct_cast_error, s_open).
Proof. exact (proj2 (direct_cast_disabled (at_ 150) alice_tx s_open eq_refl)). Defined.

Lemma empty_block_keeps_info_witness :
  ∃ s', (FinalizeBlock clocks no_db (mkRequestFinalizeBlock 6 "hash" []) s_empty).2.1 = s' ∧ Info s' = Info s_empty.
Proof.
  assert (dirty s_empty = false) as E by eval_done.
  destruct (empty_block_keeps_info clocks no_db 6 "hash" s_empty E) as (s' & Hf & Hi & _).
  exists s'. rewrite Hf. split; [reflexivity|exact Hi].
Defined.

Lemma app_hash_depends_on_clock_witness :
  app_hash_input (executePollCreate 50 create_tx s_empty).2 ≠ app_hash_input (executePollCreate 51 create_tx s_empty).2.
Proof.
  assert (UnmarshalData create_tx = Some demo_create) as E by eval_done.
  assert (50 ≠ 51) as Hne by lia.
  exact (proj1 (app_hash_depends_on_clock 50 51 create_tx demo_create s_empty E Hne)).
Defined.

Lemma same_hash_different_verdict_witness :
  let g := mkRestoreRecord "p1" "b" alice_hash "ref" None None 1 in
  let t := tx TxTypeBallotCast (cast alice alice_raw "6" "no") in
  res_ok (validateBallotCast 150 t (s_voted <| restores ::= <[registry_key "p1" alice_hash := g]> |>)).1 = true ∧
  res_ok (validateBallotCast 150 t s_voted).1 = false.
Proof.
  intros g t.
  pose (s0 := s_voted <| voterRegistry ::= delete (registry_key "p1" alice_hash) |>).
  accepted (validateBallotCast 150 t) s0 R.
  assert (UnmarshalData t = Some (cast alice alice_raw "6" "no")) as E1 by eval_done.
  assert (verifier s_voted = Some NoopVerifier) as E2 by eval_done.
  assert (VerifyAndIdentify NoopVerifier (cast alice alice_raw "6" "no") = Some alice_hash) as E3 by eval_done.
  assert (voterRegistry s_voted !! registry_key "p1" alice_hash = Some (mkVoterRecord alice_hash)) as E4 by eval_done.
  assert (restores s_voted !! registry_key "p1" alice_hash = None) as E5 by eval_done.
  exact (proj2 (same_hash_different_verdict 150 t _ s_voted _ NoopVerifier alice_hash g _ E1 E2 E3 E4 E5 R)).
Defined.
