(* ===== verification/BaseWitnesses.v ===== *)
(** Concrete instances of the theorems on the two-list base: a period with two
    submissions that closes, and one with a reused identifier that does not. *)
From S2P Require Import Prelude GoStd Json Sha256 KVStore Types TxData Merkle Nonce Identity Keys VotingState.
From S2P Require Import Tables Persist TwoListBase Demo.
Import Base.

Definition payload (s : string) : option json := Some (JStr s).
Definition b_empty : TwoListBase := empty_base None.
Definition b_open : TwoListBase := (CreatePeriod 10 "w1" "vote" 0 100 b_empty).2.
Definition b_one : TwoListBase := (SubmitToLists 20 "w1" "s1" "h1" (payload "yes") "" b_open).2.
Definition b_two : TwoListBase := (SubmitToLists 30 "w1" "s2" "h2" (payload "no") "" b_one).2.
Definition w1 : PeriodRecord := default (mkPeriodRecord "" "" 0 0 "" 0) (periods b_two !! "w1").

Lemma b_two_reachable : rtc fresh_step (empty_base None) b_two.
Proof.
  eapply rtc_l; [exact (step_create 10 "w1" "vote" 0 100 b_empty _ _ (surjective_pairing _))|].
  eapply rtc_l; [refine (step_submit 20 "w1" "s1" "h1" (payload "yes") "" None b_open _ _ (λ _, _) (surjective_pairing _)); eval_done|].
  eapply rtc_l; [refine (step_submit 30 "w1" "s2" "h2" (payload "no") "" None b_one _ _ (λ _, _) (surjective_pairing _)); eval_done|].
  exact (rtc_refl _ _).
Qed.

(** Two participants under one submission identifier: both calls return, the lists have
    one and two records, and the open period cannot be closed. *)
Definition b_reused : TwoListBase := (SubmitToLists 30 "w1" "s1" "h2" (payload "no") "" b_one).2.
Theorem reused_identifier_blocks_close :
  rtc any_step (empty_base None) b_reused ∧ CountsForPeriod b_reused "w1" = (1, 2)%nat ∧
  PeriodRecord_Status <$> periods b_reused !! "w1" = PeriodRecord_Status <$> periods b_open !! "w1" ∧
  res_ok (ClosePeriod 50 "w1" 4 b_reused).1 = false ∧ (ClosePeriod 50 "w1" 4 b_reused).2 = b_reused.
Proof.
  split; [|by vm_compute].
  eapply rtc_l; [exact (step_create 10 "w1" "vote" 0 100 b_empty _ _ (surjective_pairing _))|].
  eapply rtc_l; [refine (step_submit 20 "w1" "s1" "h1" (payload "yes") "" None b_open _ _ _ (surjective_pairing _)); discriminate|].
  eapply rtc_l; [refine (step_submit 30 "w1" "s1" "h2" (payload "no") "" None b_one _ _ _ (surjective_pairing _)); discriminate|].
  exact (rtc_refl _ _).
Qed.

Lemma reachable_period_closes_witness :
  ∃ closure evs b', ClosePeriod 50 "w1" 4 b_two = (Ok (closure, evs), b') ∧ ClosureRecord_TotalSubmissions closure = 2.
Proof.
  assert (periods b_two !! "w1" = Some w1) as E1 by eval_done.
  assert (PeriodRecord_Status w1 ≠ "closed") as E2 by eval_done.
  assert (closures b_two !! "w1" = None) as E3 by eval_done.
  destruct (reachable_period_closes None b_two 50 "w1" 4 w1 b_two_reachable eq_refl E1 E2 E3)
    as (_ & closure & evs & b' & Hx & Ht).
  exists closure, evs, b'. split; [exact Hx|]. rewrite Ht. eval_done.
Defined.

Lemma ClosePeriod_spec_witness :
  ∃ closure evs b', ClosePeriod 50 "w1" 4 b_two = (Ok (closure, evs), b') ∧ closures b' !! "w1" = Some closure.
Proof.
  assert (periods b_two !! "w1" = Some w1) as E1 by eval_done.
  assert (PeriodRecord_Status w1 ≠ "closed") as E2 by eval_done.
  assert (closures b_two !! "w1" = None) as E3 by eval_done.
  pose proof (ClosePeriod_spec 50 "w1" 4 b_two w1 E1 E2 E3) as H.
  destruct (collectPeriodLists b_two "w1") as [ids hashes] eqn:E.
  assert (length (collectPeriodLists b_two "w1").2 = length (collectPeriodLists b_two "w1").1) as El by eval_done.
  rewrite E in El. rewrite decide_True in H by exact El.
  destruct H as (closure & evs & b' & Hx & Hc & _). exists closure, evs, b'. split; [exact Hx|exact Hc].
Defined.

Lemma UpdateSubmission_write_only_witness :
  UpdateSubmission "w1" "s1" "s3" None (SetWriteOnly true b_two).2 =
  (Fail ErrWriteOnlyPosture, (SetWriteOnly true b_two).2).
Proof. exact (UpdateSubmission_write_only "w1" "s1" "s3" None (SetWriteOnly true b_two).2 eq_refl). Defined.

Lemma base_tables_ok : base_keyed b_two ∧ base_records_ok b_two.
Proof.
  unfold base_keyed, base_records_ok, SubmissionRecord_ok, PeriodRecord_ok, ClosureRecord_ok, ValidatorRecord_ok.
  split_and!; apply (bool_decide_unpack _); vm_compute; exact I.
Qed.
Lemma base_commit_run (db : memdb) (b : TwoListBase) :
  dirty b = true → ∃ b', Commit db b = (Ok (Some (computeAppHash b)), (b', (Commit db b).2.2)).
Proof.
  intros H. unfold Commit. rewrite H. cbv zeta. generalize (computeAppHash b). intros h.
  match goal with |- context [db_write db ?l] => generalize l end. intros batch.
  destruct (db_write db batch) as [db'|] eqn:E; [|discriminate E]. eexists. reflexivity.
Qed.
Lemma base_Commit_roundtrip_witness :
  ∃ b2, NewTwoListBase (Commit (∅ : memdb) b_two).2.2 None = Some b2 ∧ submissions b2 = submissions b_two.
Proof.
  assert (dirty b_two = true) as Hd by eval_done.
  destruct (base_commit_run (∅ : memdb) b_two Hd) as [b' Hc]. destruct base_tables_ok as [Hk Hr].
  assert (∀ k, db_get (∅ : memdb) k = None) as Hdb by (intros k; exact (lookup_empty k)).
  pose proof (base_Commit_roundtrip (∅ : memdb) _ b_two b' _ None Hdb Hk Hr Hd Hc) as H.
  eexists. split; [exact H|]. exact (eq_refl (submissions b_two)).
Defined.

Lemma itoa_spec_witness : itoa (- 2 ^ 63) = "-" ∧ itoa (-7) = "-7".
Proof.
  assert (int64_ok (- 2 ^ 63)) as H1 by (vm_compute; split; [discriminate|reflexivity]).
  assert (int64_ok (-7)) as H2 by (vm_compute; split; [discriminate|reflexivity]).
  pose proof (itoa_spec (- 2 ^ 63) H1) as E1. pose proof (itoa_spec (-7) H2) as E2.
  split; [exact E1|]. etrans; [exact E2|eval_done].
Defined.
