(* ===== verification/DomainDemo.v ===== *)
(** A concrete mailbox and a concrete bucket, each with two participants, and on them the
    instances of the theorems on the chat and the store machine, the identity verifiers
    and the presence query. *)
From S2P Require Import Prelude GoStd Json Sha256 KVStore Tables Types TxData Merkle Nonce TxValidate Identity Keys.
From S2P Require Import VotingState VoteQuery Persist TwoListBase Domain DomainTheorems Demo ServiceWitnesses.
From S2P Require ChatTx Chat ChatTheorems StoreTx Store StoreTheorems.
From S2P Require BaseWitnesses.
Import Base.

(** The operator of the deployment attests devices with the key [didit_raw]. *)
Definition didit_raw : string := repeat_byte 32 "D".
Definition attestation (pub period : string) : gobytes := Some (demo_sign didit_raw (diditDeviceAttestMessage pub period)).
Definition sealed (s : string) : option json := Some (JStr s).
(** The base both deployments start on: a verifier and a beacon. *)
Definition base_verified : TwoListBase := (Base.SetIdentityVerifier (DiditVerifier didit_raw) (empty_base None)).2.
Definition base_ready : TwoListBase := (Base.RecordBeacon 5 beacon_hash base_verified).2.

(** ** A mailbox with a message of each participant *)
Module Mailbox.
Import ChatTx Chat ChatTheorems.
Definition create_tx : Tx := tx ChatTxTypeMailboxCreate (mkMailboxCreateData "mb1" "Inbox" "" "" "chat" "" 0).
Definition message (pub raw : string) (c : ascii) : MessageDispatchData :=
  mkMessageDispatchData "mb1" (nonce c) beacon_hash 5 0 "" (sealed "hi") pub
    (Some (demo_sign raw (nonce c +:+ ":" +:+ "mb1"))) (attestation pub "mb1").
Definition message_id (c : ascii) : string := computeMessageIDWithBeacon beacon_hash (nonce c).
Definition alice_tx : Tx := tx ChatTxTypeMessageDispatch (message alice alice_raw "1").
Definition bob_tx : Tx := tx ChatTxTypeMessageDispatch (message bob bob_raw "2").
Definition close_data : MailboxCloseData := mkMailboxCloseData "mb1" 9.
Definition close_tx : Tx := tx ChatTxTypeMailboxClose close_data.
(** Alice withdraws Bob's message. *)
Definition withdraw_data : MessageWithdrawData :=
  mkMessageWithdrawData "mb1" (message_id "2") 0 alice
    (Some (demo_sign alice_raw ("withdraw:" +:+ message_id "2" +:+ ":" +:+ "mb1"))) (Some "att").
Definition withdraw_tx : Tx := tx ChatTxTypeMessageWithdraw withdraw_data.

Definition c_init : ChatState := mkChatState (empty_base None) ∅ ∅.
Definition c_ready : ChatState := with_base base_ready (with_base base_verified c_init).
Definition c_open : ChatState := (ExecuteTx (at_ 100) create_tx c_ready).2.
Definition c_one : ChatState := (ExecuteTx (at_ 110) alice_tx c_open).2.
Definition c_two : ChatState := (ExecuteTx (at_ 120) bob_tx c_one).2.
Definition c_closed : ChatState := (ExecuteTx (at_ 130) close_tx c_two).2.

Lemma mailbox_step (now : clock) (t : Tx) (s : ChatState) : chat_fresh t s = true → dstep s (ExecuteTx now t s).2.
Proof. intros Hf. exact (chat_tx now t s _ _ (λ _, Hf) (surjective_pairing _)). Qed.
Lemma c_two_reach : dreach c_two.
Proof.
  exists c_init. split; [split_and!; [by exists None|done|done]|].
  eapply rtc_l; [exact (chat_config c_init _ (config_verifier (DiditVerifier didit_raw) _ _ _ (surjective_pairing _)))|].
  eapply rtc_l; [exact (chat_config (with_base base_verified c_init) _ (config_beacon 5 beacon_hash base_verified _ _ (surjective_pairing _)))|].
  eapply rtc_l; [exact (mailbox_step (at_ 100) create_tx c_ready eq_refl)|].
  eapply rtc_l; [refine (mailbox_step (at_ 110) alice_tx c_open _); eval_done|].
  eapply rtc_l; [refine (mailbox_step (at_ 120) bob_tx c_one _); eval_done|]. apply rtc_refl.
Qed.
Lemma c_closed_reach : dreach c_closed.
Proof.
  destruct c_two_reach as (s0 & Hi & Hr). exists s0. split; [exact Hi|]. eapply rtc_r; [exact Hr|].
  exact (mailbox_step (at_ 130) close_tx c_two eq_refl).
Qed.
End Mailbox.

(** ** A bucket with a secret of each participant *)
Module Bucket.
Import StoreTx Store StoreTheorems.
Definition secret (pub raw : string) (c : ascii) : SecretStoreData :=
  mkSecretStoreData "bk1" (nonce c) beacon_hash 5 "" 0 "" "pin" (sealed "s3cret") pub
    (Some (demo_sign raw (nonce c +:+ ":" +:+ "bk1"))) (attestation pub "bk1").
Definition secret_id (c : ascii) : string := deriveSecretIDWithBeacon beacon_hash (nonce c) None "".
Definition alice_tx : Tx := tx StoreTxTypeSecretStore (secret alice alice_raw "1").
Definition bob_tx : Tx := tx StoreTxTypeSecretStore (secret bob bob_raw "2").
Definition reveal_data : SecretRevealData :=
  mkSecretRevealData "bk1" (secret_id "1") 0 alice
    (Some (demo_sign alice_raw (secret_id "1" +:+ ":" +:+ "bk1"))) (Some "att").
Definition reveal_tx : Tx := tx StoreTxTypeSecretReveal reveal_data.
Definition close_tx : Tx := tx StoreTxTypeBucketClose (mkBucketCloseData "bk1" 9).
Definition alice_id : string := diditIdentityHash alice "bk1".
Definition action (ty n : string) : StoreAdverseActionData :=
  let sign raw := Some (demo_sign raw (storeAdverseActionCanonicalMessage
    (mkStoreAdverseActionData (hashStoreActionNonce n) n "bk1" alice_id ty "" None None "order" 7))) in
  mkStoreAdverseActionData (hashStoreActionNonce n) n "bk1" alice_id ty "" (sign elig_raw) (sign recon_raw) "order" 7.
Definition suppress_tx : Tx := tx StoreTxTypeAdverseAction (action "suppress" "an1").
Definition restore_tx : Tx := tx StoreTxTypeAdverseAction (action "restore" "an2").
Definition demo_options : StoreStateOptions := mkStoreOptions (Some elig_raw) (Some recon_raw).

Definition k_init : StoreState := mkStoreState (empty_base None) ∅ ∅ (Some elig_raw) (Some recon_raw) ∅ ∅.
Definition k_ready : StoreState := with_base base_ready (with_base base_verified k_init).
Definition k_open : StoreState := (NewBucket (at_ 100) "bk1" (Some ["pin"; "seed"]) k_ready).2.
Definition k_one : StoreState := (ExecuteTx 110 alice_tx k_open).2.
Definition k_two : StoreState := (ExecuteTx 120 bob_tx k_one).2.
Definition k_suppressed : StoreState := (ExecuteTx 130 suppress_tx k_two).2.

(** A later step that lifts nothing. *)
Definition k_later : StoreState := (ExecuteTx 140 close_tx k_suppressed).2.

Lemma bucket_step (now : Z) (t : Tx) (s : StoreState) : store_fresh t s = true → dstep s (ExecuteTx now t s).2.
Proof. intros Hf. exact (store_tx now t s _ _ (λ _, Hf) (surjective_pairing _)). Qed.
Lemma k_init_ok : store_init k_init.
Proof. split_and!; [by exists None|done..]. Qed.
Lemma k_two_reach : dreach k_two.
Proof.
  exists k_init. split; [exact k_init_ok|].
  eapply rtc_l; [exact (store_config k_init _ (config_verifier (DiditVerifier didit_raw) _ _ _ (surjective_pairing _)))|].
  eapply rtc_l; [exact (store_config (with_base base_verified k_init) _ (config_beacon 5 beacon_hash base_verified _ _ (surjective_pairing _)))|].
  eapply rtc_l; [exact (store_bucket (at_ 100) "bk1" (Some ["pin"; "seed"]) k_ready _ _ (surjective_pairing _))|].
  eapply rtc_l; [refine (bucket_step 110 alice_tx k_open _); eval_done|].
  eapply rtc_l; [refine (bucket_step 120 bob_tx k_one _); eval_done|]. apply rtc_refl.
Qed.

Example bucket_accepted :
  ((ValidateTx alice_tx k_open).1, (ValidateTx bob_tx k_one).1, (ValidateTx reveal_tx k_two).1,
   (ValidateTx suppress_tx k_two).1, (ValidateTx restore_tx k_suppressed).1) = (Ok tt, Ok tt, Ok tt, Ok tt, Ok tt).
Proof. vm_compute. reflexivity. Qed.
Example reveal_blocked :
  (ValidateTx reveal_tx k_suppressed).1 = Fail (Errorf
    "secret reveal blocked: identity %s is under authority suppression in bucket %s" [FStr alice_id; FStr "bk1"]) ∧
  (ValidateTx reveal_tx (ExecuteTx 140 restore_tx k_suppressed).2).1 = Ok tt.
Proof. split; vm_compute; reflexivity. Qed.
End Bucket.

Section chat.
Import ChatTx Chat ChatTheorems Mailbox.
Lemma chat_tables_agree_witness :
  is_Some (GetDelivery c_closed "mb1") ∧ is_Some (GetMailbox c_closed "mb1").
Proof.
  destruct c_closed_reach as (s0 & Hi & Hr).
  assert (rtc (chat_step (fresh := false)) s0 c_closed) as Ha.
  { clear Hi. induction Hr as [|a b c Hab _ IH]; [apply rtc_refl|]. eapply rtc_l; [exact (chat_step_any a b Hab)|exact IH]. }
  destruct (chat_tables_agree s0 c_closed Hi Ha) as (Hm & _ & Hd). split.
  - destruct (closures (chat_base c_closed) !! "mb1") as [c|] eqn:E; [exact (Hd "mb1" c E)|exfalso; revert E; eval_done].
  - apply Hm. eval_done.
Defined.
Lemma chat_validated_executes_witness : ∃ evs s', ExecuteTx (at_ 130) close_tx c_two = (Ok evs, s').
Proof.
  assert ((ValidateTx 125 close_tx c_two).1 = Ok tt) as Hv by eval_done. apply run_eq in Hv.
  refine (chat_validated_executes c_two _ close_tx 125 (at_ 130) _ Hv). intros _. split; [exact c_two_reach|].
  intros d Hd. assert (UnmarshalData close_tx = Some close_data) as E by (by vm_compute). rewrite E in Hd. by injection Hd as <-.
Defined.
Lemma mailbox_close_delivers_witness :
  ∃ r, GetDelivery c_closed "mb1" = Some r ∧ DeliveryRecord_TotalMessages r = 2.
Proof.
  assert ((ValidateTx 125 close_tx c_two).1 = Ok tt) as Hv by eval_done. apply run_eq in Hv.
  destruct (ExecuteTx (at_ 130) close_tx c_two) as [[evs| |] s'] eqn:Hx; [|exfalso; revert Hx; eval_done..].
  destruct (mailbox_close_delivers c_two _ s' close_tx close_data 125 (at_ 130) evs c_two_reach eq_refl
    ltac:(eval_done) eq_refl Hv Hx) as ((r & mb & Hr & _ & Ht & _) & _).
  exists r. assert (c_closed = s') as -> by (unfold c_closed; rewrite Hx; reflexivity). split; [exact Hr|].
  rewrite Ht. eval_done.
Defined.
Lemma withdraw_ignores_owner_witness :
  ∃ evs s', executeMessageWithdraw withdraw_tx c_two = (Ok evs, s') ∧
    submissions (chat_base s') = delete (submissionKey "mb1" (message_id "2")) (submissions (chat_base c_two)).
Proof.
  destruct (periods (chat_base c_two) !! "mb1") as [period|] eqn:Hp; [|exfalso; revert Hp; eval_done].
  assert (PeriodRecord_Status <$> periods (chat_base c_two) !! "mb1" = Some "open") as Ho by eval_done.
  rewrite Hp in Ho. injection Ho as Ho.
  assert (PeriodRecord_Status period ≠ "closed") as Hc by (rewrite Ho; discriminate).
  assert (GetVerifier (chat_base c_two) = Some (DiditVerifier didit_raw)) as Hv by eval_done.
  unshelve epose proof (withdraw_ignores_owner c_two withdraw_tx withdraw_data period (DiditVerifier didit_raw) _ Hv _ Hp Hc _ _)
    as (_ & evs & s' & Hx & E & _); [eval_done|exists alice_raw; split; [|split]; eval_done|eval_done..|].
  exists evs, s'. split; [exact Hx|exact E].
Defined.
End chat.

Section store.
Import StoreTx Store StoreTheorems Bucket.
Lemma store_validated_executes_witness : ∃ evs s', ExecuteTx 130 close_tx k_two = (Ok evs, s').
Proof.
  assert ((ValidateTx close_tx k_two).1 = Ok tt) as Hv by eval_done. apply run_eq in Hv.
  exact (store_validated_executes k_two _ close_tx 130 k_two_reach eq_refl Hv).
Defined.
Lemma suppression_blocks_reveal_witness :
  (validateSecretReveal reveal_tx k_later).1 ≠ Ok tt.
Proof.
  assert ((ValidateTx suppress_tx k_two).1 = Ok tt) as Hv by eval_done. apply run_eq in Hv.
  assert (UnmarshalData suppress_tx = Some (action "suppress" "an1")) as Hu by eval_done.
  assert (UnmarshalData reveal_tx = Some reveal_data) as Hr by eval_done.
  assert (lifts (suppress_key "bk1" alice_id) close_tx = false) as Hl by eval_done.
  pose proof (rtc_once _ _ (quiet_tx (suppress_key "bk1" alice_id) 140 close_tx k_suppressed _ _ Hl (surjective_pairing _))) as Hq.
  destruct (suppression_blocks_reveal suppress_tx (action "suppress" "an1") 130 k_two _ k_suppressed k_later _
    eq_refl Hu eq_refl Hv (surjective_pairing _) Hq) as (_ & _ & H).
  intros E. apply run_eq in E. exact (H reveal_tx reveal_data _ Hr eq_refl eq_refl E).
Defined.
(** The run of [k_suppressed], step by step, each transaction accepted. *)
Lemma k_suppressed_valid : rtc valid_step k_init k_suppressed.
Proof.
  assert (∀ now t s, (ValidateTx t s).1 = Ok tt → (ValidateTx t s).2 = s → valid_step s (ExecuteTx now t s).2) as Hstep.
  { intros now t s Hv Hs. apply run_eq in Hv. rewrite Hs in Hv. exact (valid_tx now t s _ _ Hv (surjective_pairing _)). }
  eapply rtc_l; [exact (valid_config k_init _ (config_verifier (DiditVerifier didit_raw) _ _ _ (surjective_pairing _)))|].
  eapply rtc_l; [exact (valid_config (with_base base_verified k_init) _ (config_beacon 5 beacon_hash base_verified _ _ (surjective_pairing _)))|].
  eapply rtc_l; [exact (valid_bucket (at_ 100) "bk1" (Some ["pin"; "seed"]) k_ready _ _ (surjective_pairing _))|].
  eapply rtc_l; [apply (Hstep 110 alice_tx k_open); eval_done|].
  eapply rtc_l; [apply (Hstep 120 bob_tx k_one); eval_done|].
  eapply rtc_l; [apply (Hstep 130 suppress_tx k_two); eval_done|]. apply rtc_refl.
Qed.
Lemma suppression_accountable_witness :
  ∃ id r, authorityActions k_suppressed !! id = Some r ∧ StoreActionRecord_ActionType r = "suppress".
Proof.
  destruct (suppression_accountable k_init k_suppressed k_suppressed k_init_ok k_suppressed_valid (rtc_refl _ _)) as (_ & H & _).
  destruct (H "bk1" alice_id) as (id & r & E & Ht & _); [eval_done|]. exists id, r. split; [exact E|exact Ht].
Defined.
Lemma k_tables_ok : base_keyed (store_base k_suppressed) ∧ base_records_ok (store_base k_suppressed).
Proof.
  unfold base_keyed, base_records_ok, SubmissionRecord_ok, PeriodRecord_ok, ClosureRecord_ok, ValidatorRecord_ok.
  split_and!; apply (bool_decide_unpack _); vm_compute; exact I.
Qed.
Lemma restart_lifts_suppression_witness :
  ∃ s', NewStoreStateWithOptions (Base.Commit (∅ : memdb) (store_base k_suppressed)).2.2 None demo_options = inr s' ∧
    suppressedIdentities s' = ∅.
Proof.
  assert (dirty (store_base k_suppressed) = true) as Hd by eval_done.
  destruct (BaseWitnesses.base_commit_run (∅ : memdb) (store_base k_suppressed) Hd) as [b' Hc]. destruct k_tables_ok as [Hk Hr].
  assert (∀ k, db_get (∅ : memdb) k = None) as Hdb by (intros k; exact (lookup_empty k)).
  assert (GetVerifier (store_base k_suppressed) = Some (DiditVerifier didit_raw)) as Hv by eval_done.
  assert ((validateSecretReveal reveal_tx (k_suppressed <| suppressedIdentities := ∅ |>)).1 = Ok tt) as Hrev by eval_done.
  apply run_eq in Hrev. assert (bytes_of (opt_eligibility demo_options) ≠ bytes_of (opt_reconciliation demo_options)) as Ho by eval_done.
  destruct (restart_lifts_suppression (∅ : memdb) _ k_suppressed b' _ None demo_options (DiditVerifier didit_raw) reveal_tx _
    Hdb Hk Hr Hd Hc Ho Hv Hrev) as (s' & Hn & Hs & _).
  exists s'. split; [exact Hn|exact Hs].
Defined.
End store.

(** ** Verifiers and queries *)
Lemma buildVerifier_stable_witness : IdentityStable (DiditVerifier didit_raw).
Proof.
  refine (buildVerifier_stable (λ _, inl hex_error) "didit" (hex_EncodeToString didit_raw) "" "" _ _). eval_done.
Defined.
Lemma diditIdentityHash_binding_witness : diditIdentityHash alice "mb1" ≠ diditIdentityHash bob "mb1".
Proof.
  assert (collision_free [alice +:+ "mb1"] [bob +:+ "mb1"]) as Hf by (apply collision_free_check; eval_done).
  intros H. destruct (diditIdentityHash_binding alice bob "mb1" "mb1" eq_refl Hf H) as [E _]. revert E. eval_done.
Defined.
Definition wallet : string := repeat_byte 40 "a".
Lemma wallet_two_identities_witness :
  ∃ h h', walletIdentityHash wallet "p1" = Some h ∧ walletIdentityHash ("0x" +:+ wallet) "p1" = Some h' ∧ h ≠ h'.
Proof.
  unshelve epose proof (wallet_two_identities wallet "p1" _ _ _ _ _ _) as (h & h' & H1 & H2 & H3); [eval_done..|].
  exists h, h'. split; [exact H1|]. split; [exact H2|]. apply H3. apply collision_free_check. eval_done.
Defined.
Lemma vote_exists_blind_witness :
  VoteQuery.Query s_voted ("/vote_exists/" +:+ ballot_of alice_cast) = inr (JObj [("exists", JBool true)]).
Proof.
  apply (vote_exists_blind s_voted s_voted (ballot_of alice_cast) (λ k, conj (λ x, x) (λ x, x))).
  exists "p1". eval_done.
Defined.
