(* ===== verification/Governance.v ===== *)
(** embodiments/shyshares: weighted governance. Its records (types.go), the weighted
    tally (tally.go), identities and eligibility (identity.go) and queued actions
    (actions.go). Weights are unsigned 64-bit integers; a [time.Time] is an integer. *)
From S2P Require Import Prelude GoStd Json Identity.

(** ** Unsigned 64-bit arithmetic *)
Definition u64 (z : Z) : Z := z `mod` 2 ^ 64.
Definition u64_ok (z : Z) : Prop := 0 ≤ z < 2 ^ 64.
Definition u64_add (a b : Z) : Z := u64 (a + b).
Definition u64_mul (a b : Z) : Z := u64 (a * b).
Lemma u64_small z : u64_ok z → u64 z = z.
Proof. apply Z.mod_small. Qed.
Lemma u64_range z : u64_ok (u64 z).
Proof. by apply Z.mod_pos_bound. Qed.
Lemma u64_add_small a b : u64_ok (a + b) → u64_add a b = a + b.
Proof. apply u64_small. Qed.
Lemma u64_mul_small a b : u64_ok (a * b) → u64_mul a b = a * b.
Proof. apply u64_small. Qed.
Lemma u64_add_l a b : u64_add (u64 a) b = u64 (a + b).
Proof. unfold u64_add, u64. by rewrite Zplus_mod_idemp_l. Qed.

(** ** types.go *)
Record Organization := mkOrganization {
  Organization_ID : string;
  Organization_Name : string;
  Organization_Slug : string;
  Organization_Description : string;
  Organization_TokenSymbol : string;
  Organization_TreasuryRail : string;
  Organization_Adapters : slice string;
  Organization_MemberCount : Z;
  Organization_ProposalCount : Z;
}.
#[export] Instance Eta_Organization : Eta Organization := λ r,
  mkOrganization (Organization_ID r) (Organization_Name r) (Organization_Slug r) (Organization_Description r)
    (Organization_TokenSymbol r) (Organization_TreasuryRail r) (Organization_Adapters r) (Organization_MemberCount r)
    (Organization_ProposalCount r).
Record MembershipSnapshot := mkMembershipSnapshot {
  MembershipSnapshot_OrganizationID : string;
  MembershipSnapshot_SnapshotID : string;
  MembershipSnapshot_AccountCommitment : string;
  MembershipSnapshot_WalletAddress : string;
  MembershipSnapshot_Roles : slice string;
  MembershipSnapshot_VotingWeight : Z;
  MembershipSnapshot_DelegatedWeight : Z;
  MembershipSnapshot_EffectiveWeight : Z;
}.
Definition EffectiveVotingWeight (m : MembershipSnapshot) : Z :=
  if 0 <? MembershipSnapshot_EffectiveWeight m then MembershipSnapshot_EffectiveWeight m
  else u64_add (MembershipSnapshot_VotingWeight m) (MembershipSnapshot_DelegatedWeight m).
Definition HasRole (m : MembershipSnapshot) (role : string) : bool := bool_decide (role ∈ elems (MembershipSnapshot_Roles m)).
Record GovernanceProposal := mkGovernanceProposal {
  GovernanceProposal_ID : string;
  GovernanceProposal_OrganizationID : string;
  GovernanceProposal_Title : string;
  GovernanceProposal_Summary : string;
  GovernanceProposal_ProposalClass : string;
  GovernanceProposal_Status : string;
  GovernanceProposal_SnapshotID : string;
  GovernanceProposal_SnapshotMode : string;
  GovernanceProposal_SnapshotRef : string;
  GovernanceProposal_CreatedBy : string;
  GovernanceProposal_CreatedAt : Z;
  GovernanceProposal_ClosesAt : Z;
  GovernanceProposal_QuorumBPS : Z;
  GovernanceProposal_ApprovalBPS : Z;
  GovernanceProposal_EligibleWeight : Z;
  GovernanceProposal_ExecutionAdapter : string;
  GovernanceProposal_Payload : option json;
  GovernanceProposal_QueuedActionIDs : slice string;
}.
#[export] Instance Eta_GovernanceProposal : Eta GovernanceProposal := λ r,
  mkGovernanceProposal (GovernanceProposal_ID r) (GovernanceProposal_OrganizationID r) (GovernanceProposal_Title r)
    (GovernanceProposal_Summary r) (GovernanceProposal_ProposalClass r) (GovernanceProposal_Status r)
    (GovernanceProposal_SnapshotID r) (GovernanceProposal_SnapshotMode r) (GovernanceProposal_SnapshotRef r)
    (GovernanceProposal_CreatedBy r) (GovernanceProposal_CreatedAt r) (GovernanceProposal_ClosesAt r)
    (GovernanceProposal_QuorumBPS r) (GovernanceProposal_ApprovalBPS r) (GovernanceProposal_EligibleWeight r)
    (GovernanceProposal_ExecutionAdapter r) (GovernanceProposal_Payload r) (GovernanceProposal_QueuedActionIDs r).
Record WeightedBallot := mkWeightedBallot {
  WeightedBallot_ProposalID : string;
  WeightedBallot_AccountCommitment : string;
  WeightedBallot_Direction : string;
  WeightedBallot_SubmittedAt : Z;
}.
Record GovernanceTally := mkGovernanceTally {
  GovernanceTally_ProposalID : string;
  GovernanceTally_YesWeight : Z;
  GovernanceTally_NoWeight : Z;
  GovernanceTally_AbstainWeight : Z;
  GovernanceTally_EligibleWeight : Z;
  GovernanceTally_QuorumReached : bool;
  GovernanceTally_ApprovalBPS : Z;
  GovernanceTally_Status : string;
}.
#[export] Instance Eta_GovernanceTally : Eta GovernanceTally := λ r,
  mkGovernanceTally (GovernanceTally_ProposalID r) (GovernanceTally_YesWeight r) (GovernanceTally_NoWeight r)
    (GovernanceTally_AbstainWeight r) (GovernanceTally_EligibleWeight r) (GovernanceTally_QuorumReached r)
    (GovernanceTally_ApprovalBPS r) (GovernanceTally_Status r).
Record QueuedGovernanceAction := mkQueuedGovernanceAction {
  QueuedGovernanceAction_ID : string;
  QueuedGovernanceAction_OrganizationID : string;
  QueuedGovernanceAction_ProposalID : string;
  QueuedGovernanceAction_ActionType : string;
  QueuedGovernanceAction_Adapter : string;
  QueuedGovernanceAction_Status : string;
  QueuedGovernanceAction_Payload : option json;
  QueuedGovernanceAction_CreatedAt : Z;
  QueuedGovernanceAction_DispatchedAt : option Z;
  QueuedGovernanceAction_Dispatch : option (gmap string json);
}.
#[export] Instance Eta_QueuedGovernanceAction : Eta QueuedGovernanceAction := λ r,
  mkQueuedGovernanceAction (QueuedGovernanceAction_ID r) (QueuedGovernanceAction_OrganizationID r)
    (QueuedGovernanceAction_ProposalID r) (QueuedGovernanceAction_ActionType r) (QueuedGovernanceAction_Adapter r)
    (QueuedGovernanceAction_Status r) (QueuedGovernanceAction_Payload r) (QueuedGovernanceAction_CreatedAt r)
    (QueuedGovernanceAction_DispatchedAt r) (QueuedGovernanceAction_Dispatch r).
Definition AdapterShywire : string := "shywire".
Definition AdapterByodao : string := "byodao".
Definition AdapterInternalQueue : string := "internal_queue".

(** ** tally.go *)
(** One turn of the loop of [ComputeTally]. *)
Definition count_ballot (memberWeight : gmap string Z) (tally : GovernanceTally) (ballot : string * string) : GovernanceTally :=
  match memberWeight !! ballot.1 with
  | None => tally
  | Some weight =>
      if bool_decide (ballot.2 = "yes") then tally <| GovernanceTally_YesWeight ::= λ w, u64_add w weight |>
      else if bool_decide (ballot.2 = "no") then tally <| GovernanceTally_NoWeight ::= λ w, u64_add w weight |>
      else tally <| GovernanceTally_AbstainWeight ::= λ w, u64_add w weight |>
  end.
(** [ComputeTally] with the ballots in the order of the iteration. *)
Definition tally_on (proposal : GovernanceProposal) (ballots : list (string * string)) (memberWeight : gmap string Z) : GovernanceTally :=
  let tally := mkGovernanceTally (GovernanceProposal_ID proposal) 0 0 0 (GovernanceProposal_EligibleWeight proposal) false 0
                 (GovernanceProposal_Status proposal) in
  let tally := foldl (count_ballot memberWeight) tally ballots in
  let castWeight := u64_add (u64_add (GovernanceTally_YesWeight tally) (GovernanceTally_NoWeight tally))
                      (GovernanceTally_AbstainWeight tally) in
  let tally := if 0 <? GovernanceProposal_EligibleWeight proposal
    then tally <| GovernanceTally_QuorumReached :=
           u64_mul (GovernanceProposal_EligibleWeight proposal) (GovernanceProposal_QuorumBPS proposal) <=? u64_mul castWeight 10000 |>
    else tally in
  let decisive := u64_add (GovernanceTally_YesWeight tally) (GovernanceTally_NoWeight tally) in
  if 0 <? decisive
  then tally <| GovernanceTally_ApprovalBPS := u64_mul (GovernanceTally_YesWeight tally) 10000 `div` decisive |>
  else tally.
Definition ComputeTally (proposal : GovernanceProposal) (ballots : gmap string string) (memberWeight : gmap string Z) : GovernanceTally :=
  tally_on proposal (map_to_list ballots) memberWeight.
Definition in_org (organizationID : string) (s : MembershipSnapshot) : bool :=
  bool_decide (MembershipSnapshot_OrganizationID s = organizationID).
Definition TotalEligibleWeight (snapshots : list MembershipSnapshot) (organizationID : string) : Z :=
  foldl (λ total s, if in_org organizationID s then u64_add total (EffectiveVotingWeight s) else total) 0 snapshots.
Definition MemberWeightMap (snapshots : list MembershipSnapshot) (organizationID : string) : gmap string Z :=
  foldl (λ m s, if in_org organizationID s then <[MembershipSnapshot_AccountCommitment s := EffectiveVotingWeight s]> m else m)
    ∅ snapshots.

(** ** identity.go *)
Section identity.
Context `{C : Crypto}.
Definition AccountCommitment (walletAddress : string) : string :=
  hex_EncodeToString (sha256 (to_lower (trim_space walletAddress))).
Definition isValidEVMAddress (s : string) : bool :=
  let s := trim_prefix s "0x" in
  if negb (slen s =? 40) then false else match hex_DecodeString s with Some _ => true | None => false end.
Definition WalletIdentity (walletAddress pollID : string) : error + string :=
  let walletAddress := to_lower (trim_space walletAddress) in
  if negb (isValidEVMAddress walletAddress)
  then inl (Errorf "shyshares: walletAddress must be a 40-hex-char EVM address (with or without 0x prefix)" [])
  else if str_empty pollID then inl (Errorf "shyshares: pollID must not be empty" [])
  else inr (hex_EncodeToString (sha256 (walletAddress +:+ ":" +:+ pollID))).
End identity.
Record EligibilityCheck := mkEligibilityCheck {
  EligibilityCheck_MinTokenBalance : Z;
  EligibilityCheck_DelegationRequired : bool;
  EligibilityCheck_Allowlist : slice string;
}.
(** [Check]: [None] is the nil error. *)
Definition eligibility_Check (e : EligibilityCheck) (walletAddress : string) (onChainBalance : Z) (hasDelegation : bool) : option error :=
  let walletAddress := to_lower (trim_prefix walletAddress "0x") in
  if (0 <? EligibilityCheck_MinTokenBalance e) && (onChainBalance <? EligibilityCheck_MinTokenBalance e)
  then Some (Errorf "shyshares eligibility: wallet balance %d < required %d"
               [FInt onChainBalance; FInt (EligibilityCheck_MinTokenBalance e)])
  else if EligibilityCheck_DelegationRequired e && negb hasDelegation
  then Some (Errorf "shyshares eligibility: wallet has no active governance delegation" [])
  else if 0 <? len (EligibilityCheck_Allowlist e) then
    if bool_decide (walletAddress ∈ (λ allowed, to_lower (trim_prefix allowed "0x")) <$> elems (EligibilityCheck_Allowlist e))
    then None else Some (Errorf "shyshares eligibility: wallet not in allowlist" [])
  else None.

(** ** actions.go *)
Definition NewQueuedAction (now : Z) (proposal : GovernanceProposal) : QueuedGovernanceAction :=
  let actionID := match elems (GovernanceProposal_QueuedActionIDs proposal) with
                  | id :: _ => id
                  | [] => "act-" +:+ GovernanceProposal_ID proposal
                  end in
  mkQueuedGovernanceAction actionID (GovernanceProposal_OrganizationID proposal) (GovernanceProposal_ID proposal)
    (GovernanceProposal_ProposalClass proposal) (GovernanceProposal_ExecutionAdapter proposal) "queued"
    (GovernanceProposal_Payload proposal) now None None.
(** [os.Getenv] is the argument [env]. *)
Definition BuildActionDispatch (env : string → string) (action : QueuedGovernanceAction) (dispatchedBy : string) : gmap string json :=
  let dispatch : gmap string json :=
    <["adapter" := JStr (QueuedGovernanceAction_Adapter action)]>
      (<["dispatched_by" := JStr dispatchedBy]> (<["status" := JStr "submitted"]> ∅)) in
  let with_env name key dispatch :=
    let v := trim_space (env name) in if str_empty v then dispatch else <[key := JStr v]> dispatch in
  if bool_decide (QueuedGovernanceAction_Adapter action = AdapterShywire) then
    with_env "SHYSHARES_SHYWIRE_BASE_URL" "adapter_endpoint"
      (<["rail" := JStr AdapterShywire]> (<["canonical_queue" := JBool true]>
        (<["status" := JStr "queued_for_shywire"]> dispatch)))
  else if bool_decide (QueuedGovernanceAction_Adapter action = AdapterByodao) then
    with_env "SHYSHARES_BYODAO_TARGET" "adapter_target"
      (<["canonical_queue" := JBool true]> (<["status" := JStr "queued_for_byodao"]> dispatch))
  else <["canonical_queue" := JBool true]> (<["status" := JStr "internal_applied"]> dispatch).
