(* ===== verification/GovernanceTally.v ===== *)
(** The weighted tally against its reference: sums over the ballots of members, in any
    order of iteration; where 64-bit products wrap. *)
From S2P Require Import Prelude GoStd Json Identity Governance.

(** The weight a list of ballots gives to the directions [P]: exact integers. *)
Definition weight_of (mw : gmap string Z) (P : string → bool) (b : string * string) : Z :=
  match mw !! b.1 with Some w => if P b.2 then w else 0 | None => 0 end.
Definition weight_for (mw : gmap string Z) (P : string → bool) (l : list (string * string)) : Z :=
  foldr (λ b acc, weight_of mw P b + acc) 0 l.
Definition is_yes (d : string) : bool := bool_decide (d = "yes").
Definition is_no (d : string) : bool := bool_decide (d = "no").
Definition is_abstain (d : string) : bool := negb (is_yes d) && negb (is_no d).

Section weight.
Context (mw : gmap string Z).
Lemma weight_for_perm P l1 l2 : l1 ≡ₚ l2 → weight_for mw P l1 = weight_for mw P l2.
Proof. unfold weight_for. induction 1; cbn; lia. Qed.
(** Every ballot is counted in exactly one direction. *)
Lemma weight_split l :
  weight_for mw (λ _, true) l = weight_for mw is_yes l + weight_for mw is_no l + weight_for mw is_abstain l.
Proof.
  unfold weight_for. induction l as [|[k d] l IH]; cbn; [done|]. rewrite IH. unfold weight_of, is_abstain, is_yes, is_no. cbn.
  destruct (mw !! k); [|lia]. case_bool_decide; case_bool_decide; subst; cbn; try discriminate; lia.
Qed.
Lemma weight_for_nonneg P l : map_Forall (λ _, u64_ok) mw → 0 ≤ weight_for mw P l.
Proof.
  intros Hm. unfold weight_for. induction l as [|[k d] l IH]; cbn; [lia|]. unfold weight_of at 1. cbn.
  destruct (mw !! k) as [w|] eqn:E; [|lia]. pose proof (Hm _ _ E) as Hw. unfold u64_ok in Hw. destruct (P d); lia.
Qed.
Lemma count_in_range b t :
  u64_ok (GovernanceTally_YesWeight t) → u64_ok (GovernanceTally_NoWeight t) → u64_ok (GovernanceTally_AbstainWeight t) →
  u64_ok (GovernanceTally_YesWeight (count_ballot mw t b)) ∧ u64_ok (GovernanceTally_NoWeight (count_ballot mw t b)) ∧
  u64_ok (GovernanceTally_AbstainWeight (count_ballot mw t b)).
Proof.
  intros Hy Hn Ha. unfold count_ballot. destruct (mw !! b.1); [|done].
  destruct (bool_decide (b.2 = "yes")); [|destruct (bool_decide (b.2 = "no"))]; cbn; split_and!; try done; apply u64_range.
Qed.
Lemma count_spec l t :
  let t' := foldl (count_ballot mw) t l in
  u64_ok (GovernanceTally_YesWeight t) → u64_ok (GovernanceTally_NoWeight t) → u64_ok (GovernanceTally_AbstainWeight t) →
  t' = t <| GovernanceTally_YesWeight ::= λ w, u64 (w + weight_for mw is_yes l) |>
         <| GovernanceTally_NoWeight ::= λ w, u64 (w + weight_for mw is_no l) |>
         <| GovernanceTally_AbstainWeight ::= λ w, u64 (w + weight_for mw is_abstain l) |>.
Proof.
  cbv zeta. revert t. induction l as [|[k d] l IH]; intros t Hy Hn Ha.
  - destruct t; cbn in *. unfold weight_for, field_set; cbn.
    by rewrite !Z.add_0_r, !u64_small by done.
  - cbn [foldl]. rewrite IH.
    + unfold count_ballot, weight_for, weight_of, is_abstain, is_yes, is_no. cbn [foldr fst snd]. fold (weight_for mw is_yes l).
      destruct (mw !! k) as [w|]; [|by rewrite !Z.add_0_l].
      destruct (bool_decide (d = "yes")) eqn:E1; destruct (bool_decide (d = "no")) eqn:E2; cbn [negb andb]; bools; subst;
        try discriminate; rewrite ?Z.add_0_l; destruct t; unfold field_set; cbn; unfold u64_add; f_equal; unfold u64;
        rewrite Zplus_mod_idemp_l; f_equal; lia.
    + by apply count_in_range.
    + by apply count_in_range.
    + by apply count_in_range.
Qed.
End weight.

Section tally.
Context (proposal : GovernanceProposal) (mw : gmap string Z).
(** The tally in closed form. *)
Definition tally_closed (l : list (string * string)) : GovernanceTally :=
  let y := u64 (weight_for mw is_yes l) in let n := u64 (weight_for mw is_no l) in
  let a := u64 (weight_for mw is_abstain l) in let eligible := GovernanceProposal_EligibleWeight proposal in
  mkGovernanceTally (GovernanceProposal_ID proposal) y n a eligible
    ((0 <? eligible) && (u64_mul eligible (GovernanceProposal_QuorumBPS proposal) <=? u64_mul (u64_add (u64_add y n) a) 10000))
    (if 0 <? u64_add y n then u64_mul y 10000 `div` u64_add y n else 0) (GovernanceProposal_Status proposal).
Lemma tally_on_closed l : tally_on proposal l mw = tally_closed l.
Proof.
  assert (u64_ok 0) as H0 by done. unfold tally_on. rewrite count_spec by done. cbn. unfold tally_closed. fields.
  rewrite !Z.add_0_l. destruct (0 <? GovernanceProposal_EligibleWeight proposal); cbn;
    destruct (0 <? u64_add _ _); reflexivity.
Qed.

(** The order in which Go visits the ballots does not matter. *)
Theorem tally_order_independent (ballots : gmap string string) (l : list (string * string)) :
  l ≡ₚ map_to_list ballots → tally_on proposal l mw = ComputeTally proposal ballots mw.
Proof.
  intros Hl. unfold ComputeTally. rewrite !tally_on_closed. unfold tally_closed.
  by rewrite !(weight_for_perm mw _ _ _ Hl).
Qed.

(** With weights and products that fit 64 bits the tally is the one of exact integers:
    every ballot of a member counts in one direction with its weight, ballots of
    others do not; the quorum is the exact fraction of the eligible weight, and the
    approval the exact fraction of the decisive weight, rounded down, at most 10000. *)
Theorem ComputeTally_exact (ballots : gmap string string) :
  let l := map_to_list ballots in let t := ComputeTally proposal ballots mw in
  let cast := weight_for mw (λ _, true) l in let eligible := GovernanceProposal_EligibleWeight proposal in
  map_Forall (λ _, u64_ok) mw → u64_ok (cast * 10000) → u64_ok (eligible * GovernanceProposal_QuorumBPS proposal) →
  GovernanceTally_YesWeight t = weight_for mw is_yes l ∧
  GovernanceTally_NoWeight t = weight_for mw is_no l ∧
  GovernanceTally_AbstainWeight t = weight_for mw is_abstain l ∧
  GovernanceTally_YesWeight t + GovernanceTally_NoWeight t + GovernanceTally_AbstainWeight t = cast ∧
  (GovernanceTally_QuorumReached t = true ↔ 0 < eligible ∧ eligible * GovernanceProposal_QuorumBPS proposal ≤ cast * 10000) ∧
  GovernanceTally_ApprovalBPS t = (GovernanceTally_YesWeight t * 10000) `div` (GovernanceTally_YesWeight t + GovernanceTally_NoWeight t) ∧
  0 ≤ GovernanceTally_ApprovalBPS t ≤ 10000.
Proof.
  intros l t cast eligible Hm Hc He. subst t. unfold ComputeTally. rewrite tally_on_closed. unfold tally_closed. fold l eligible. cbn.
  pose proof (weight_split mw l) as Hs. fold cast in Hs.
  pose proof (weight_for_nonneg mw is_yes l Hm). pose proof (weight_for_nonneg mw is_no l Hm).
  pose proof (weight_for_nonneg mw is_abstain l Hm). unfold u64_ok in Hc, He.
  rewrite !(u64_small (weight_for mw _ l)) by (unfold u64_ok; lia).
  rewrite (u64_add_small (weight_for mw is_yes l)) by (unfold u64_ok; lia). rewrite u64_add_small by (unfold u64_ok; lia).
  rewrite <- Hs. rewrite !u64_mul_small by (unfold u64_ok; lia).
  split_and!; try done.
  - rewrite andb_true_iff, Z.ltb_lt, Z.leb_le. done.
  - destruct (0 <? _) eqn:E; bools; [done|]. assert (weight_for mw is_yes l = 0) as -> by lia. by rewrite Zdiv_0_l.
  - destruct (0 <? _) eqn:E; bools; [|lia]. apply Z.div_pos; lia.
  - destruct (0 <? _) eqn:E; bools; [|lia]. apply Z.div_le_upper_bound; lia.
Qed.

(** A quorum that no vote is needed for: when the 64-bit product of the eligible weight
    and the quorum wraps to zero, the empty ballot box reaches it. *)
Theorem quorum_without_votes :
  0 < GovernanceProposal_EligibleWeight proposal →
  (GovernanceProposal_EligibleWeight proposal * GovernanceProposal_QuorumBPS proposal) `mod` 2 ^ 64 = 0 →
  GovernanceTally_QuorumReached (ComputeTally proposal ∅ mw) = true.
Proof.
  intros He Hw. unfold ComputeTally. rewrite tally_on_closed, map_to_list_empty. unfold tally_closed. cbn.
  apply andb_true_iff. split; [by apply Z.ltb_lt|]. unfold u64_mul, u64. by rewrite Hw.
Qed.
End tally.

(** A weight map gives every account the weight of its last snapshot in the
    organization, and only accounts that have one. *)
Theorem MemberWeightMap_last (snapshots : list MembershipSnapshot) (organizationID account : string) :
  MemberWeightMap snapshots organizationID !! account =
  last ((λ s, EffectiveVotingWeight s) <$>
    List.filter (λ s, in_org organizationID s && bool_decide (MembershipSnapshot_AccountCommitment s = account)) snapshots).
Proof.
  unfold MemberWeightMap. induction snapshots as [|s l IH] using rev_ind; [done|].
  rewrite foldl_app, List.filter_app, fmap_app. cbn. destruct (in_org organizationID s) eqn:E; cbn; [|by rewrite app_nil_r].
  rewrite lookup_insert. case_decide as Ha.
  - subst account. rewrite bool_decide_true by done. cbn. by rewrite last_snoc.
  - rewrite bool_decide_false by done. by rewrite app_nil_r.
Qed.
