(* ===== verification/WireTypes.v ===== *)
(** The records of the transfer protocol: embodiments/shywire/types/{transfer,financing,
    custody}.go and the validator record of embodiments/shywire/state/validators.go. *)
From S2P Require Import Prelude GoStd Json.

(** An asset of the transfer layer. *)
Record AssetRecord := mkAssetRecord {
  AssetRecord_AssetID : string;
  AssetRecord_Name : string;
  AssetRecord_Decimals : Z;
  AssetRecord_TotalSupply : Z;
  AssetRecord_CreatedAt : Z;
}.
#[export] Instance Eta_AssetRecord : Eta AssetRecord := λ r,
  mkAssetRecord (AssetRecord_AssetID r) (AssetRecord_Name r) (AssetRecord_Decimals r) (AssetRecord_TotalSupply r) (AssetRecord_CreatedAt r).
Definition AssetRecord_tags : list string :=
  ["asset_id"; "name"; "decimals"; "total_supply"; "created_at"].
#[export] Instance Json_AssetRecord : Json AssetRecord := {
  jzero := mkAssetRecord "" "" 0 0 0;
  to_json r := JObj (
    required "asset_id" (AssetRecord_AssetID r) ++
    required "name" (AssetRecord_Name r) ++
    required "decimals" (AssetRecord_Decimals r) ++
    required "total_supply" (AssetRecord_TotalSupply r) ++
    required "created_at" (AssetRecord_CreatedAt r) ++ []);
  of_json := of_object (λ ms,
    x0 ← jfield AssetRecord_tags ms "asset_id";
    x1 ← jfield AssetRecord_tags ms "name";
    x2 ← jfield_with of_json_uint8 0 AssetRecord_tags ms "decimals";
    x3 ← jfield AssetRecord_tags ms "total_supply";
    x4 ← jfield AssetRecord_tags ms "created_at";
    Some (mkAssetRecord x0 x1 x2 x3 x4));
}.
(** Its integers are in range. *)
Definition AssetRecord_ok (r : AssetRecord) : Prop :=
  uint_ok 8 (AssetRecord_Decimals r) ∧ int64_ok (AssetRecord_TotalSupply r) ∧ int64_ok (AssetRecord_CreatedAt r).
#[export] Instance roundtrip_AssetRecord : JsonRoundTrip AssetRecord AssetRecord_ok.
Proof. struct_roundtrip Json_AssetRecord. Qed.

(** List 1: an anonymous transfer, no identity field. *)
Record TransferRecord := mkTransferRecord {
  TransferRecord_TransferID : string;
  TransferRecord_AssetID : string;
  TransferRecord_Amount : Z;
  TransferRecord_Timestamp : Z;
  TransferRecord_Height : Z;
}.
#[export] Instance Eta_TransferRecord : Eta TransferRecord := λ r,
  mkTransferRecord (TransferRecord_TransferID r) (TransferRecord_AssetID r) (TransferRecord_Amount r) (TransferRecord_Timestamp r) (TransferRecord_Height r).
Definition TransferRecord_tags : list string :=
  ["transfer_id"; "asset_id"; "amount"; "timestamp"; "height"].
#[export] Instance Json_TransferRecord : Json TransferRecord := {
  jzero := mkTransferRecord "" "" 0 0 0;
  to_json r := JObj (
    required "transfer_id" (TransferRecord_TransferID r) ++
    required "asset_id" (TransferRecord_AssetID r) ++
    required "amount" (TransferRecord_Amount r) ++
    required "timestamp" (TransferRecord_Timestamp r) ++
    required "height" (TransferRecord_Height r) ++ []);
  of_json := of_object (λ ms,
    x0 ← jfield TransferRecord_tags ms "transfer_id";
    x1 ← jfield TransferRecord_tags ms "asset_id";
    x2 ← jfield TransferRecord_tags ms "amount";
    x3 ← jfield TransferRecord_tags ms "timestamp";
    x4 ← jfield TransferRecord_tags ms "height";
    Some (mkTransferRecord x0 x1 x2 x3 x4));
}.
(** Its integers are in range. *)
Definition TransferRecord_ok (r : TransferRecord) : Prop :=
  int64_ok (TransferRecord_Amount r) ∧ int64_ok (TransferRecord_Timestamp r) ∧ int64_ok (TransferRecord_Height r).
#[export] Instance roundtrip_TransferRecord : JsonRoundTrip TransferRecord TransferRecord_ok.
Proof. struct_roundtrip Json_TransferRecord. Qed.

(** The redacted transfer a query answers: no amount. *)
Record PublicTransferRecord := mkPublicTransferRecord {
  PublicTransferRecord_TransferID : string;
  PublicTransferRecord_AssetID : string;
  PublicTransferRecord_Timestamp : Z;
  PublicTransferRecord_Height : Z;
}.
#[export] Instance Eta_PublicTransferRecord : Eta PublicTransferRecord := λ r,
  mkPublicTransferRecord (PublicTransferRecord_TransferID r) (PublicTransferRecord_AssetID r) (PublicTransferRecord_Timestamp r) (PublicTransferRecord_Height r).
Definition PublicTransferRecord_tags : list string :=
  ["transfer_id"; "asset_id"; "timestamp"; "height"].
#[export] Instance Json_PublicTransferRecord : Json PublicTransferRecord := {
  jzero := mkPublicTransferRecord "" "" 0 0;
  to_json r := JObj (
    required "transfer_id" (PublicTransferRecord_TransferID r) ++
    required "asset_id" (PublicTransferRecord_AssetID r) ++
    required "timestamp" (PublicTransferRecord_Timestamp r) ++
    required "height" (PublicTransferRecord_Height r) ++ []);
  of_json := of_object (λ ms,
    x0 ← jfield PublicTransferRecord_tags ms "transfer_id";
    x1 ← jfield PublicTransferRecord_tags ms "asset_id";
    x2 ← jfield PublicTransferRecord_tags ms "timestamp";
    x3 ← jfield PublicTransferRecord_tags ms "height";
    Some (mkPublicTransferRecord x0 x1 x2 x3));
}.

(** List 2: a participation record, no amount field. *)
Record ParticipantRecord := mkParticipantRecord {
  ParticipantRecord_TransferID : string;
  ParticipantRecord_IdentityHash : string;
  ParticipantRecord_Height : Z;
}.
#[export] Instance Eta_ParticipantRecord : Eta ParticipantRecord := λ r,
  mkParticipantRecord (ParticipantRecord_TransferID r) (ParticipantRecord_IdentityHash r) (ParticipantRecord_Height r).
Definition ParticipantRecord_tags : list string :=
  ["transfer_id"; "identity_hash"; "height"].
#[export] Instance Json_ParticipantRecord : Json ParticipantRecord := {
  jzero := mkParticipantRecord "" "" 0;
  to_json r := JObj (
    required "transfer_id" (ParticipantRecord_TransferID r) ++
    required "identity_hash" (ParticipantRecord_IdentityHash r) ++
    required "height" (ParticipantRecord_Height r) ++ []);
  of_json := of_object (λ ms,
    x0 ← jfield ParticipantRecord_tags ms "transfer_id";
    x1 ← jfield ParticipantRecord_tags ms "identity_hash";
    x2 ← jfield ParticipantRecord_tags ms "height";
    Some (mkParticipantRecord x0 x1 x2));
}.
(** Its integers are in range. *)
Definition ParticipantRecord_ok (r : ParticipantRecord) : Prop :=
  int64_ok (ParticipantRecord_Height r).
#[export] Instance roundtrip_ParticipantRecord : JsonRoundTrip ParticipantRecord ParticipantRecord_ok.
Proof. struct_roundtrip Json_ParticipantRecord. Qed.

(** The balance of an account commitment in one asset. *)
Record AccountRecord := mkAccountRecord {
  AccountRecord_AccountCommitment : string;
  AccountRecord_AssetID : string;
  AccountRecord_Balance : Z;
  AccountRecord_Disabled : bool;
  AccountRecord_Frozen : bool;
  AccountRecord_UpdatedAt : Z;
  AccountRecord_Height : Z;
}.
#[export] Instance Eta_AccountRecord : Eta AccountRecord := λ r,
  mkAccountRecord (AccountRecord_AccountCommitment r) (AccountRecord_AssetID r) (AccountRecord_Balance r) (AccountRecord_Disabled r) (AccountRecord_Frozen r) (AccountRecord_UpdatedAt r) (AccountRecord_Height r).
Definition AccountRecord_tags : list string :=
  ["account_commitment"; "asset_id"; "balance"; "disabled"; "frozen"; "updated_at"; "height"].
#[export] Instance Json_AccountRecord : Json AccountRecord := {
  jzero := mkAccountRecord "" "" 0 false false 0 0;
  to_json r := JObj (
    required "account_commitment" (AccountRecord_AccountCommitment r) ++
    required "asset_id" (AccountRecord_AssetID r) ++
    required "balance" (AccountRecord_Balance r) ++
    omit_bool "disabled" (AccountRecord_Disabled r) ++
    omit_bool "frozen" (AccountRecord_Frozen r) ++
    required "updated_at" (AccountRecord_UpdatedAt r) ++
    required "height" (AccountRecord_Height r) ++ []);
  of_json := of_object (λ ms,
    x0 ← jfield AccountRecord_tags ms "account_commitment";
    x1 ← jfield AccountRecord_tags ms "asset_id";
    x2 ← jfield AccountRecord_tags ms "balance";
    x3 ← jfield AccountRecord_tags ms "disabled";
    x4 ← jfield AccountRecord_tags ms "frozen";
    x5 ← jfield AccountRecord_tags ms "updated_at";
    x6 ← jfield AccountRecord_tags ms "height";
    Some (mkAccountRecord x0 x1 x2 x3 x4 x5 x6));
}.
(** Its integers are in range. *)
Definition AccountRecord_ok (r : AccountRecord) : Prop :=
  int64_ok (AccountRecord_Balance r) ∧ int64_ok (AccountRecord_UpdatedAt r) ∧ int64_ok (AccountRecord_Height r).
#[export] Instance roundtrip_AccountRecord : JsonRoundTrip AccountRecord AccountRecord_ok.
Proof. struct_roundtrip Json_AccountRecord. Qed.

(** An append-only record of an adverse action. *)
Record AuthorityActionRecord := mkAuthorityActionRecord {
  AuthorityActionRecord_ActionID : string;
  AuthorityActionRecord_AccountCommitment : string;
  AuthorityActionRecord_AssetID : string;
  AuthorityActionRecord_ActionType : string;
  AuthorityActionRecord_ReferencedActionID : string;
  AuthorityActionRecord_EligibilityAuth : gobytes;
  AuthorityActionRecord_ReconciliationAuth : gobytes;
  AuthorityActionRecord_Reason : string;
  AuthorityActionRecord_Timestamp : Z;
  AuthorityActionRecord_Height : Z;
}.
#[export] Instance Eta_AuthorityActionRecord : Eta AuthorityActionRecord := λ r,
  mkAuthorityActionRecord (AuthorityActionRecord_ActionID r) (AuthorityActionRecord_AccountCommitment r) (AuthorityActionRecord_AssetID r) (AuthorityActionRecord_ActionType r) (AuthorityActionRecord_ReferencedActionID r) (AuthorityActionRecord_EligibilityAuth r) (AuthorityActionRecord_ReconciliationAuth r) (AuthorityActionRecord_Reason r) (AuthorityActionRecord_Timestamp r) (AuthorityActionRecord_Height r).
Definition AuthorityActionRecord_tags : list string :=
  ["action_id"; "account_commitment"; "asset_id"; "action_type"; "referenced_action_id"; "eligibility_auth"; "reconciliation_auth"; "reason"; "timestamp"; "height"].
#[export] Instance Json_AuthorityActionRecord : Json AuthorityActionRecord := {
  jzero := mkAuthorityActionRecord "" "" "" "" "" None None "" 0 0;
  to_json r := JObj (
    required "action_id" (AuthorityActionRecord_ActionID r) ++
    required "account_commitment" (AuthorityActionRecord_AccountCommitment r) ++
    required "asset_id" (AuthorityActionRecord_AssetID r) ++
    required "action_type" (AuthorityActionRecord_ActionType r) ++
    omit_str "referenced_action_id" (AuthorityActionRecord_ReferencedActionID r) ++
    required "eligibility_auth" (AuthorityActionRecord_EligibilityAuth r) ++
    required "reconciliation_auth" (AuthorityActionRecord_ReconciliationAuth r) ++
    required "reason" (AuthorityActionRecord_Reason r) ++
    required "timestamp" (AuthorityActionRecord_Timestamp r) ++
    required "height" (AuthorityActionRecord_Height r) ++ []);
  of_json := of_object (λ ms,
    x0 ← jfield AuthorityActionRecord_tags ms "action_id";
    x1 ← jfield AuthorityActionRecord_tags ms "account_commitment";
    x2 ← jfield AuthorityActionRecord_tags ms "asset_id";
    x3 ← jfield AuthorityActionRecord_tags ms "action_type";
    x4 ← jfield AuthorityActionRecord_tags ms "referenced_action_id";
    x5 ← jfield AuthorityActionRecord_tags ms "eligibility_auth";
    x6 ← jfield AuthorityActionRecord_tags ms "reconciliation_auth";
    x7 ← jfield AuthorityActionRecord_tags ms "reason";
    x8 ← jfield AuthorityActionRecord_tags ms "timestamp";
    x9 ← jfield AuthorityActionRecord_tags ms "height";
    Some (mkAuthorityActionRecord x0 x1 x2 x3 x4 x5 x6 x7 x8 x9));
}.
(** Its integers are in range. *)
Definition AuthorityActionRecord_ok (r : AuthorityActionRecord) : Prop :=
  int64_ok (AuthorityActionRecord_Timestamp r) ∧ int64_ok (AuthorityActionRecord_Height r).
#[export] Instance roundtrip_AuthorityActionRecord : JsonRoundTrip AuthorityActionRecord AuthorityActionRecord_ok.
Proof. struct_roundtrip Json_AuthorityActionRecord. Qed.

(** What was minted and burned of an asset. *)
Record SupplyRecord := mkSupplyRecord {
  SupplyRecord_AssetID : string;
  SupplyRecord_TotalMinted : Z;
  SupplyRecord_TotalBurned : Z;
  SupplyRecord_TotalSupply : Z;
  SupplyRecord_UpdatedAt : Z;
}.
#[export] Instance Eta_SupplyRecord : Eta SupplyRecord := λ r,
  mkSupplyRecord (SupplyRecord_AssetID r) (SupplyRecord_TotalMinted r) (SupplyRecord_TotalBurned r) (SupplyRecord_TotalSupply r) (SupplyRecord_UpdatedAt r).
Definition SupplyRecord_tags : list string :=
  ["asset_id"; "total_minted"; "total_burned"; "total_supply"; "updated_at"].
#[export] Instance Json_SupplyRecord : Json SupplyRecord := {
  jzero := mkSupplyRecord "" 0 0 0 0;
  to_json r := JObj (
    required "asset_id" (SupplyRecord_AssetID r) ++
    required "total_minted" (SupplyRecord_TotalMinted r) ++
    required "total_burned" (SupplyRecord_TotalBurned r) ++
    required "total_supply" (SupplyRecord_TotalSupply r) ++
    required "updated_at" (SupplyRecord_UpdatedAt r) ++ []);
  of_json := of_object (λ ms,
    x0 ← jfield SupplyRecord_tags ms "asset_id";
    x1 ← jfield SupplyRecord_tags ms "total_minted";
    x2 ← jfield SupplyRecord_tags ms "total_burned";
    x3 ← jfield SupplyRecord_tags ms "total_supply";
    x4 ← jfield SupplyRecord_tags ms "updated_at";
    Some (mkSupplyRecord x0 x1 x2 x3 x4));
}.
(** Its integers are in range. *)
Definition SupplyRecord_ok (r : SupplyRecord) : Prop :=
  int64_ok (SupplyRecord_TotalMinted r) ∧ int64_ok (SupplyRecord_TotalBurned r) ∧ int64_ok (SupplyRecord_TotalSupply r) ∧ int64_ok (SupplyRecord_UpdatedAt r).
#[export] Instance roundtrip_SupplyRecord : JsonRoundTrip SupplyRecord SupplyRecord_ok.
Proof. struct_roundtrip Json_SupplyRecord. Qed.

(** A consumed enrollment authorization. *)
Record EnrollmentRecord := mkEnrollmentRecord {
  EnrollmentRecord_Token : string;
  EnrollmentRecord_AccountCommitment : string;
  EnrollmentRecord_Height : Z;
}.
#[export] Instance Eta_EnrollmentRecord : Eta EnrollmentRecord := λ r,
  mkEnrollmentRecord (EnrollmentRecord_Token r) (EnrollmentRecord_AccountCommitment r) (EnrollmentRecord_Height r).
Definition EnrollmentRecord_tags : list string :=
  ["token"; "account_commitment"; "height"].
#[export] Instance Json_EnrollmentRecord : Json EnrollmentRecord := {
  jzero := mkEnrollmentRecord "" "" 0;
  to_json r := JObj (
    required "token" (EnrollmentRecord_Token r) ++
    required "account_commitment" (EnrollmentRecord_AccountCommitment r) ++
    required "height" (EnrollmentRecord_Height r) ++ []);
  of_json := of_object (λ ms,
    x0 ← jfield EnrollmentRecord_tags ms "token";
    x1 ← jfield EnrollmentRecord_tags ms "account_commitment";
    x2 ← jfield EnrollmentRecord_tags ms "height";
    Some (mkEnrollmentRecord x0 x1 x2));
}.
(** Its integers are in range. *)
Definition EnrollmentRecord_ok (r : EnrollmentRecord) : Prop :=
  int64_ok (EnrollmentRecord_Height r).
#[export] Instance roundtrip_EnrollmentRecord : JsonRoundTrip EnrollmentRecord EnrollmentRecord_ok.
Proof. struct_roundtrip Json_EnrollmentRecord. Qed.

(** A party of a contract. *)
Record ContractPartyRecord := mkContractPartyRecord {
  ContractPartyRecord_Role : string;
  ContractPartyRecord_Commitment : string;
  ContractPartyRecord_AllocationBps : Z;
  ContractPartyRecord_Seniority : Z;
}.
#[export] Instance Eta_ContractPartyRecord : Eta ContractPartyRecord := λ r,
  mkContractPartyRecord (ContractPartyRecord_Role r) (ContractPartyRecord_Commitment r) (ContractPartyRecord_AllocationBps r) (ContractPartyRecord_Seniority r).
Definition ContractPartyRecord_tags : list string :=
  ["role"; "commitment"; "allocation_bps"; "seniority"].
#[export] Instance Json_ContractPartyRecord : Json ContractPartyRecord := {
  jzero := mkContractPartyRecord "" "" 0 0;
  to_json r := JObj (
    required "role" (ContractPartyRecord_Role r) ++
    required "commitment" (ContractPartyRecord_Commitment r) ++
    required "allocation_bps" (ContractPartyRecord_AllocationBps r) ++
    required "seniority" (ContractPartyRecord_Seniority r) ++ []);
  of_json := of_object (λ ms,
    x0 ← jfield ContractPartyRecord_tags ms "role";
    x1 ← jfield ContractPartyRecord_tags ms "commitment";
    x2 ← jfield_with of_json_uint32 0 ContractPartyRecord_tags ms "allocation_bps";
    x3 ← jfield_with of_json_uint32 0 ContractPartyRecord_tags ms "seniority";
    Some (mkContractPartyRecord x0 x1 x2 x3));
}.
(** Its integers are in range. *)
Definition ContractPartyRecord_ok (r : ContractPartyRecord) : Prop :=
  uint_ok 32 (ContractPartyRecord_AllocationBps r) ∧ uint_ok 32 (ContractPartyRecord_Seniority r).
#[export] Instance roundtrip_ContractPartyRecord : JsonRoundTrip ContractPartyRecord ContractPartyRecord_ok.
Proof. struct_roundtrip Json_ContractPartyRecord. Qed.

(** An anonymous contract. *)
Record ContractRecord := mkContractRecord {
  ContractRecord_ContractID : string;
  ContractRecord_AssetID : string;
  ContractRecord_ContractType : string;
  ContractRecord_ContractHash : string;
  ContractRecord_Parties : slice ContractPartyRecord;
  ContractRecord_Metadata : option json;
  ContractRecord_ConditionHash : string;
  ContractRecord_ConditionType : string;
  ContractRecord_ActivatedAt : Z;
  ContractRecord_ExecutionCount : Z;
  ContractRecord_TotalExecuted : Z;
  ContractRecord_ExpiryTimestamp : Z;
  ContractRecord_Status : string;
  ContractRecord_CreatedAt : Z;
  ContractRecord_UpdatedAt : Z;
  ContractRecord_Height : Z;
}.
#[export] Instance Eta_ContractRecord : Eta ContractRecord := λ r,
  mkContractRecord (ContractRecord_ContractID r) (ContractRecord_AssetID r) (ContractRecord_ContractType r) (ContractRecord_ContractHash r) (ContractRecord_Parties r) (ContractRecord_Metadata r) (ContractRecord_ConditionHash r) (ContractRecord_ConditionType r) (ContractRecord_ActivatedAt r) (ContractRecord_ExecutionCount r) (ContractRecord_TotalExecuted r) (ContractRecord_ExpiryTimestamp r) (ContractRecord_Status r) (ContractRecord_CreatedAt r) (ContractRecord_UpdatedAt r) (ContractRecord_Height r).
Definition ContractRecord_tags : list string :=
  ["contract_id"; "asset_id"; "contract_type"; "contract_hash"; "parties"; "metadata"; "condition_hash"; "condition_type"; "activated_at"; "execution_count"; "total_executed"; "expiry_timestamp"; "status"; "created_at"; "updated_at"; "height"].
#[export] Instance Json_ContractRecord : Json ContractRecord := {
  jzero := mkContractRecord "" "" "" "" None None "" "" 0 0 0 0 "" 0 0 0;
  to_json r := JObj (
    required "contract_id" (ContractRecord_ContractID r) ++
    omit_str "asset_id" (ContractRecord_AssetID r) ++
    required "contract_type" (ContractRecord_ContractType r) ++
    required "contract_hash" (ContractRecord_ContractHash r) ++
    required "parties" (ContractRecord_Parties r) ++
    omit_raw "metadata" (ContractRecord_Metadata r) ++
    omit_str "condition_hash" (ContractRecord_ConditionHash r) ++
    omit_str "condition_type" (ContractRecord_ConditionType r) ++
    omit_int "activated_at" (ContractRecord_ActivatedAt r) ++
    required "execution_count" (ContractRecord_ExecutionCount r) ++
    omit_int "total_executed" (ContractRecord_TotalExecuted r) ++
    omit_int "expiry_timestamp" (ContractRecord_ExpiryTimestamp r) ++
    required "status" (ContractRecord_Status r) ++
    required "created_at" (ContractRecord_CreatedAt r) ++
    required "updated_at" (ContractRecord_UpdatedAt r) ++
    required "height" (ContractRecord_Height r) ++ []);
  of_json := of_object (λ ms,
    x0 ← jfield ContractRecord_tags ms "contract_id";
    x1 ← jfield ContractRecord_tags ms "asset_id";
    x2 ← jfield ContractRecord_tags ms "contract_type";
    x3 ← jfield ContractRecord_tags ms "contract_hash";
    x4 ← jfield ContractRecord_tags ms "parties";
    x5 ← jfield ContractRecord_tags ms "metadata";
    x6 ← jfield ContractRecord_tags ms "condition_hash";
    x7 ← jfield ContractRecord_tags ms "condition_type";
    x8 ← jfield ContractRecord_tags ms "activated_at";
    x9 ← jfield ContractRecord_tags ms "execution_count";
    x10 ← jfield ContractRecord_tags ms "total_executed";
    x11 ← jfield ContractRecord_tags ms "expiry_timestamp";
    x12 ← jfield ContractRecord_tags ms "status";
    x13 ← jfield ContractRecord_tags ms "created_at";
    x14 ← jfield ContractRecord_tags ms "updated_at";
    x15 ← jfield ContractRecord_tags ms "height";
    Some (mkContractRecord x0 x1 x2 x3 x4 x5 x6 x7 x8 x9 x10 x11 x12 x13 x14 x15));
}.
(** Its integers are in range. *)
Definition ContractRecord_ok (r : ContractRecord) : Prop :=
  Forall ContractPartyRecord_ok (elems (ContractRecord_Parties r)) ∧ int64_ok (ContractRecord_ActivatedAt r) ∧ int64_ok (ContractRecord_ExecutionCount r) ∧ int64_ok (ContractRecord_TotalExecuted r) ∧ int64_ok (ContractRecord_ExpiryTimestamp r) ∧ int64_ok (ContractRecord_CreatedAt r) ∧ int64_ok (ContractRecord_UpdatedAt r) ∧ int64_ok (ContractRecord_Height r).
#[export] Instance roundtrip_ContractRecord : JsonRoundTrip ContractRecord ContractRecord_ok.
Proof. struct_roundtrip Json_ContractRecord. Qed.

(** One execution of a contract. *)
Record ContractExecutionRecord := mkContractExecutionRecord {
  ContractExecutionRecord_ExecutionID : string;
  ContractExecutionRecord_ContractID : string;
  ContractExecutionRecord_AssetID : string;
  ContractExecutionRecord_ExecutionType : string;
  ContractExecutionRecord_SourceRef : string;
  ContractExecutionRecord_Amount : Z;
  ContractExecutionRecord_Payload : option json;
  ContractExecutionRecord_Timestamp : Z;
  ContractExecutionRecord_Height : Z;
}.
#[export] Instance Eta_ContractExecutionRecord : Eta ContractExecutionRecord := λ r,
  mkContractExecutionRecord (ContractExecutionRecord_ExecutionID r) (ContractExecutionRecord_ContractID r) (ContractExecutionRecord_AssetID r) (ContractExecutionRecord_ExecutionType r) (ContractExecutionRecord_SourceRef r) (ContractExecutionRecord_Amount r) (ContractExecutionRecord_Payload r) (ContractExecutionRecord_Timestamp r) (ContractExecutionRecord_Height r).
Definition ContractExecutionRecord_tags : list string :=
  ["execution_id"; "contract_id"; "asset_id"; "execution_type"; "source_ref"; "amount"; "payload"; "timestamp"; "height"].
#[export] Instance Json_ContractExecutionRecord : Json ContractExecutionRecord := {
  jzero := mkContractExecutionRecord "" "" "" "" "" 0 None 0 0;
  to_json r := JObj (
    required "execution_id" (ContractExecutionRecord_ExecutionID r) ++
    required "contract_id" (ContractExecutionRecord_ContractID r) ++
    omit_str "asset_id" (ContractExecutionRecord_AssetID r) ++
    required "execution_type" (ContractExecutionRecord_ExecutionType r) ++
    required "source_ref" (ContractExecutionRecord_SourceRef r) ++
    omit_int "amount" (ContractExecutionRecord_Amount r) ++
    omit_raw "payload" (ContractExecutionRecord_Payload r) ++
    required "timestamp" (ContractExecutionRecord_Timestamp r) ++
    required "height" (ContractExecutionRecord_Height r) ++ []);
  of_json := of_object (λ ms,
    x0 ← jfield ContractExecutionRecord_tags ms "execution_id";
    x1 ← jfield ContractExecutionRecord_tags ms "contract_id";
    x2 ← jfield ContractExecutionRecord_tags ms "asset_id";
    x3 ← jfield ContractExecutionRecord_tags ms "execution_type";
    x4 ← jfield ContractExecutionRecord_tags ms "source_ref";
    x5 ← jfield ContractExecutionRecord_tags ms "amount";
    x6 ← jfield ContractExecutionRecord_tags ms "payload";
    x7 ← jfield ContractExecutionRecord_tags ms "timestamp";
    x8 ← jfield ContractExecutionRecord_tags ms "height";
    Some (mkContractExecutionRecord x0 x1 x2 x3 x4 x5 x6 x7 x8));
}.
(** Its integers are in range. *)
Definition ContractExecutionRecord_ok (r : ContractExecutionRecord) : Prop :=
  int64_ok (ContractExecutionRecord_Amount r) ∧ int64_ok (ContractExecutionRecord_Timestamp r) ∧ int64_ok (ContractExecutionRecord_Height r).
#[export] Instance roundtrip_ContractExecutionRecord : JsonRoundTrip ContractExecutionRecord ContractExecutionRecord_ok.
Proof. struct_roundtrip Json_ContractExecutionRecord. Qed.

(** What a settlement took from a lot. *)
Record LotAllocation := mkLotAllocation {
  LotAllocation_LotID : string;
  LotAllocation_Quantity : Z;
}.
#[export] Instance Eta_LotAllocation : Eta LotAllocation := λ r,
  mkLotAllocation (LotAllocation_LotID r) (LotAllocation_Quantity r).
Definition LotAllocation_tags : list string :=
  ["lot_id"; "quantity"].
#[export] Instance Json_LotAllocation : Json LotAllocation := {
  jzero := mkLotAllocation "" 0;
  to_json r := JObj (
    required "lot_id" (LotAllocation_LotID r) ++
    required "quantity" (LotAllocation_Quantity r) ++ []);
  of_json := of_object (λ ms,
    x0 ← jfield LotAllocation_tags ms "lot_id";
    x1 ← jfield LotAllocation_tags ms "quantity";
    Some (mkLotAllocation x0 x1));
}.
(** Its integers are in range. *)
Definition LotAllocation_ok (r : LotAllocation) : Prop :=
  int64_ok (LotAllocation_Quantity r).
#[export] Instance roundtrip_LotAllocation : JsonRoundTrip LotAllocation LotAllocation_ok.
Proof. struct_roundtrip Json_LotAllocation. Qed.

(** A published custody policy. *)
Record ConsortiumPolicyRecord := mkConsortiumPolicyRecord {
  ConsortiumPolicyRecord_PolicyID : string;
  ConsortiumPolicyRecord_AssetID : string;
  ConsortiumPolicyRecord_Name : string;
  ConsortiumPolicyRecord_ActiveOperatorIDs : slice string;
  ConsortiumPolicyRecord_AcceptedSkuClassIDs : slice string;
  ConsortiumPolicyRecord_UnitOfMeasure : string;
  ConsortiumPolicyRecord_QuantityNormalization : string;
  ConsortiumPolicyRecord_ShippingAdjustmentRef : string;
  ConsortiumPolicyRecord_DemurrageRateBps : Z;
  ConsortiumPolicyRecord_OperatorFeeBps : Z;
  ConsortiumPolicyRecord_RedemptionMode : string;
  ConsortiumPolicyRecord_RedemptionRouting : string;
  ConsortiumPolicyRecord_EvidenceRequirements : slice string;
  ConsortiumPolicyRecord_Status : string;
  ConsortiumPolicyRecord_PublishedAt : Z;
  ConsortiumPolicyRecord_UpdatedAt : Z;
  ConsortiumPolicyRecord_Height : Z;
}.
#[export] Instance Eta_ConsortiumPolicyRecord : Eta ConsortiumPolicyRecord := λ r,
  mkConsortiumPolicyRecord (ConsortiumPolicyRecord_PolicyID r) (ConsortiumPolicyRecord_AssetID r) (ConsortiumPolicyRecord_Name r) (ConsortiumPolicyRecord_ActiveOperatorIDs r) (ConsortiumPolicyRecord_AcceptedSkuClassIDs r) (ConsortiumPolicyRecord_UnitOfMeasure r) (ConsortiumPolicyRecord_QuantityNormalization r) (ConsortiumPolicyRecord_ShippingAdjustmentRef r) (ConsortiumPolicyRecord_DemurrageRateBps r) (ConsortiumPolicyRecord_OperatorFeeBps r) (ConsortiumPolicyRecord_RedemptionMode r) (ConsortiumPolicyRecord_RedemptionRouting r) (ConsortiumPolicyRecord_EvidenceRequirements r) (ConsortiumPolicyRecord_Status r) (ConsortiumPolicyRecord_PublishedAt r) (ConsortiumPolicyRecord_UpdatedAt r) (ConsortiumPolicyRecord_Height r).
Definition ConsortiumPolicyRecord_tags : list string :=
  ["policy_id"; "asset_id"; "name"; "active_operator_ids"; "accepted_sku_class_ids"; "unit_of_measure"; "quantity_normalization"; "shipping_adjustment_ref"; "demurrage_rate_bps"; "operator_fee_bps"; "redemption_mode"; "redemption_routing"; "evidence_requirements"; "status"; "published_at"; "updated_at"; "height"].
#[export] Instance Json_ConsortiumPolicyRecord : Json ConsortiumPolicyRecord := {
  jzero := mkConsortiumPolicyRecord "" "" "" None None "" "" "" 0 0 "" "" None "" 0 0 0;
  to_json r := JObj (
    required "policy_id" (ConsortiumPolicyRecord_PolicyID r) ++
    required "asset_id" (ConsortiumPolicyRecord_AssetID r) ++
    required "name" (ConsortiumPolicyRecord_Name r) ++
    required "active_operator_ids" (ConsortiumPolicyRecord_ActiveOperatorIDs r) ++
    required "accepted_sku_class_ids" (ConsortiumPolicyRecord_AcceptedSkuClassIDs r) ++
    required "unit_of_measure" (ConsortiumPolicyRecord_UnitOfMeasure r) ++
    required "quantity_normalization" (ConsortiumPolicyRecord_QuantityNormalization r) ++
    required "shipping_adjustment_ref" (ConsortiumPolicyRecord_ShippingAdjustmentRef r) ++
    required "demurrage_rate_bps" (ConsortiumPolicyRecord_DemurrageRateBps r) ++
    required "operator_fee_bps" (ConsortiumPolicyRecord_OperatorFeeBps r) ++
    required "redemption_mode" (ConsortiumPolicyRecord_RedemptionMode r) ++
    required "redemption_routing" (ConsortiumPolicyRecord_RedemptionRouting r) ++
    required "evidence_requirements" (ConsortiumPolicyRecord_EvidenceRequirements r) ++
    required "status" (ConsortiumPolicyRecord_Status r) ++
    required "published_at" (ConsortiumPolicyRecord_PublishedAt r) ++
    required "updated_at" (ConsortiumPolicyRecord_UpdatedAt r) ++
    required "height" (ConsortiumPolicyRecord_Height r) ++ []);
  of_json := of_object (λ ms,
    x0 ← jfield ConsortiumPolicyRecord_tags ms "policy_id";
    x1 ← jfield ConsortiumPolicyRecord_tags ms "asset_id";
    x2 ← jfield ConsortiumPolicyRecord_tags ms "name";
    x3 ← jfield ConsortiumPolicyRecord_tags ms "active_operator_ids";
    x4 ← jfield ConsortiumPolicyRecord_tags ms "accepted_sku_class_ids";
    x5 ← jfield ConsortiumPolicyRecord_tags ms "unit_of_measure";
    x6 ← jfield ConsortiumPolicyRecord_tags ms "quantity_normalization";
    x7 ← jfield ConsortiumPolicyRecord_tags ms "shipping_adjustment_ref";
    x8 ← jfield_with of_json_uint32 0 ConsortiumPolicyRecord_tags ms "demurrage_rate_bps";
    x9 ← jfield_with of_json_uint32 0 ConsortiumPolicyRecord_tags ms "operator_fee_bps";
    x10 ← jfield ConsortiumPolicyRecord_tags ms "redemption_mode";
    x11 ← jfield ConsortiumPolicyRecord_tags ms "redemption_routing";
    x12 ← jfield ConsortiumPolicyRecord_tags ms "evidence_requirements";
    x13 ← jfield ConsortiumPolicyRecord_tags ms "status";
    x14 ← jfield ConsortiumPolicyRecord_tags ms "published_at";
    x15 ← jfield ConsortiumPolicyRecord_tags ms "updated_at";
    x16 ← jfield ConsortiumPolicyRecord_tags ms "height";
    Some (mkConsortiumPolicyRecord x0 x1 x2 x3 x4 x5 x6 x7 x8 x9 x10 x11 x12 x13 x14 x15 x16));
}.
(** Its integers are in range. *)
Definition ConsortiumPolicyRecord_ok (r : ConsortiumPolicyRecord) : Prop :=
  uint_ok 32 (ConsortiumPolicyRecord_DemurrageRateBps r) ∧ uint_ok 32 (ConsortiumPolicyRecord_OperatorFeeBps r) ∧ int64_ok (ConsortiumPolicyRecord_PublishedAt r) ∧ int64_ok (ConsortiumPolicyRecord_UpdatedAt r) ∧ int64_ok (ConsortiumPolicyRecord_Height r).
#[export] Instance roundtrip_ConsortiumPolicyRecord : JsonRoundTrip ConsortiumPolicyRecord ConsortiumPolicyRecord_ok.
Proof. struct_roundtrip Json_ConsortiumPolicyRecord. Qed.

(** A custody operator. *)
Record WarehouseOperatorRecord := mkWarehouseOperatorRecord {
  WarehouseOperatorRecord_OperatorID : string;
  WarehouseOperatorRecord_Name : string;
  WarehouseOperatorRecord_WarehouseID : string;
  WarehouseOperatorRecord_Region : string;
  WarehouseOperatorRecord_VideoStreamRef : string;
  WarehouseOperatorRecord_Status : string;
  WarehouseOperatorRecord_CreatedAt : Z;
  WarehouseOperatorRecord_UpdatedAt : Z;
  WarehouseOperatorRecord_Height : Z;
}.
#[export] Instance Eta_WarehouseOperatorRecord : Eta WarehouseOperatorRecord := λ r,
  mkWarehouseOperatorRecord (WarehouseOperatorRecord_OperatorID r) (WarehouseOperatorRecord_Name r) (WarehouseOperatorRecord_WarehouseID r) (WarehouseOperatorRecord_Region r) (WarehouseOperatorRecord_VideoStreamRef r) (WarehouseOperatorRecord_Status r) (WarehouseOperatorRecord_CreatedAt r) (WarehouseOperatorRecord_UpdatedAt r) (WarehouseOperatorRecord_Height r).
Definition WarehouseOperatorRecord_tags : list string :=
  ["operator_id"; "name"; "warehouse_id"; "region"; "video_stream_ref"; "status"; "created_at"; "updated_at"; "height"].
#[export] Instance Json_WarehouseOperatorRecord : Json WarehouseOperatorRecord := {
  jzero := mkWarehouseOperatorRecord "" "" "" "" "" "" 0 0 0;
  to_json r := JObj (
    required "operator_id" (WarehouseOperatorRecord_OperatorID r) ++
    required "name" (WarehouseOperatorRecord_Name r) ++
    required "warehouse_id" (WarehouseOperatorRecord_WarehouseID r) ++
    required "region" (WarehouseOperatorRecord_Region r) ++
    required "video_stream_ref" (WarehouseOperatorRecord_VideoStreamRef r) ++
    required "status" (WarehouseOperatorRecord_Status r) ++
    required "created_at" (WarehouseOperatorRecord_CreatedAt r) ++
    required "updated_at" (WarehouseOperatorRecord_UpdatedAt r) ++
    required "height" (WarehouseOperatorRecord_Height r) ++ []);
  of_json := of_object (λ ms,
    x0 ← jfield WarehouseOperatorRecord_tags ms "operator_id";
    x1 ← jfield WarehouseOperatorRecord_tags ms "name";
    x2 ← jfield WarehouseOperatorRecord_tags ms "warehouse_id";
    x3 ← jfield WarehouseOperatorRecord_tags ms "region";
    x4 ← jfield WarehouseOperatorRecord_tags ms "video_stream_ref";
    x5 ← jfield WarehouseOperatorRecord_tags ms "status";
    x6 ← jfield WarehouseOperatorRecord_tags ms "created_at";
    x7 ← jfield WarehouseOperatorRecord_tags ms "updated_at";
    x8 ← jfield WarehouseOperatorRecord_tags ms "height";
    Some (mkWarehouseOperatorRecord x0 x1 x2 x3 x4 x5 x6 x7 x8));
}.
(** Its integers are in range. *)
Definition WarehouseOperatorRecord_ok (r : WarehouseOperatorRecord) : Prop :=
  int64_ok (WarehouseOperatorRecord_CreatedAt r) ∧ int64_ok (WarehouseOperatorRecord_UpdatedAt r) ∧ int64_ok (WarehouseOperatorRecord_Height r).
#[export] Instance roundtrip_WarehouseOperatorRecord : JsonRoundTrip WarehouseOperatorRecord WarehouseOperatorRecord_ok.
Proof. struct_roundtrip Json_WarehouseOperatorRecord. Qed.

(** A class of goods a policy may accept. *)
Record AcceptedSkuClassRecord := mkAcceptedSkuClassRecord {
  AcceptedSkuClassRecord_SkuClassID : string;
  AcceptedSkuClassRecord_Name : string;
  AcceptedSkuClassRecord_GradeBand : string;
  AcceptedSkuClassRecord_UnitOfMeasure : string;
  AcceptedSkuClassRecord_NormalizedFactorBps : Z;
  AcceptedSkuClassRecord_StorageClass : string;
  AcceptedSkuClassRecord_Status : string;
  AcceptedSkuClassRecord_CreatedAt : Z;
  AcceptedSkuClassRecord_UpdatedAt : Z;
  AcceptedSkuClassRecord_Height : Z;
}.
#[export] Instance Eta_AcceptedSkuClassRecord : Eta AcceptedSkuClassRecord := λ r,
  mkAcceptedSkuClassRecord (AcceptedSkuClassRecord_SkuClassID r) (AcceptedSkuClassRecord_Name r) (AcceptedSkuClassRecord_GradeBand r) (AcceptedSkuClassRecord_UnitOfMeasure r) (AcceptedSkuClassRecord_NormalizedFactorBps r) (AcceptedSkuClassRecord_StorageClass r) (AcceptedSkuClassRecord_Status r) (AcceptedSkuClassRecord_CreatedAt r) (AcceptedSkuClassRecord_UpdatedAt r) (AcceptedSkuClassRecord_Height r).
Definition AcceptedSkuClassRecord_tags : list string :=
  ["sku_class_id"; "name"; "grade_band"; "unit_of_measure"; "normalized_factor_bps"; "storage_class"; "status"; "created_at"; "updated_at"; "height"].
#[export] Instance Json_AcceptedSkuClassRecord : Json AcceptedSkuClassRecord := {
  jzero := mkAcceptedSkuClassRecord "" "" "" "" 0 "" "" 0 0 0;
  to_json r := JObj (
    required "sku_class_id" (AcceptedSkuClassRecord_SkuClassID r) ++
    required "name" (AcceptedSkuClassRecord_Name r) ++
    required "grade_band" (AcceptedSkuClassRecord_GradeBand r) ++
    required "unit_of_measure" (AcceptedSkuClassRecord_UnitOfMeasure r) ++
    required "normalized_factor_bps" (AcceptedSkuClassRecord_NormalizedFactorBps r) ++
    required "storage_class" (AcceptedSkuClassRecord_StorageClass r) ++
    required "status" (AcceptedSkuClassRecord_Status r) ++
    required "created_at" (AcceptedSkuClassRecord_CreatedAt r) ++
    required "updated_at" (AcceptedSkuClassRecord_UpdatedAt r) ++
    required "height" (AcceptedSkuClassRecord_Height r) ++ []);
  of_json := of_object (λ ms,
    x0 ← jfield AcceptedSkuClassRecord_tags ms "sku_class_id";
    x1 ← jfield AcceptedSkuClassRecord_tags ms "name";
    x2 ← jfield AcceptedSkuClassRecord_tags ms "grade_band";
    x3 ← jfield AcceptedSkuClassRecord_tags ms "unit_of_measure";
    x4 ← jfield_with of_json_uint32 0 AcceptedSkuClassRecord_tags ms "normalized_factor_bps";
    x5 ← jfield AcceptedSkuClassRecord_tags ms "storage_class";
    x6 ← jfield AcceptedSkuClassRecord_tags ms "status";
    x7 ← jfield AcceptedSkuClassRecord_tags ms "created_at";
    x8 ← jfield AcceptedSkuClassRecord_tags ms "updated_at";
    x9 ← jfield AcceptedSkuClassRecord_tags ms "height";
    Some (mkAcceptedSkuClassRecord x0 x1 x2 x3 x4 x5 x6 x7 x8 x9));
}.
(** Its integers are in range. *)
Definition AcceptedSkuClassRecord_ok (r : AcceptedSkuClassRecord) : Prop :=
  uint_ok 32 (AcceptedSkuClassRecord_NormalizedFactorBps r) ∧ int64_ok (AcceptedSkuClassRecord_CreatedAt r) ∧ int64_ok (AcceptedSkuClassRecord_UpdatedAt r) ∧ int64_ok (AcceptedSkuClassRecord_Height r).
#[export] Instance roundtrip_AcceptedSkuClassRecord : JsonRoundTrip AcceptedSkuClassRecord AcceptedSkuClassRecord_ok.
Proof. struct_roundtrip Json_AcceptedSkuClassRecord. Qed.

(** A lot in custody. *)
Record IntakeLotRecord := mkIntakeLotRecord {
  IntakeLotRecord_LotID : string;
  IntakeLotRecord_PolicyID : string;
  IntakeLotRecord_AssetID : string;
  IntakeLotRecord_OperatorID : string;
  IntakeLotRecord_WarehouseID : string;
  IntakeLotRecord_AccountCommitment : string;
  IntakeLotRecord_SkuClassID : string;
  IntakeLotRecord_Quantity : Z;
  IntakeLotRecord_RemainingQuantity : Z;
  IntakeLotRecord_MintedAmount : Z;
  IntakeLotRecord_OperatorFeeAmount : Z;
  IntakeLotRecord_ShippingCostAmount : Z;
  IntakeLotRecord_StorageReserveAmount : Z;
  IntakeLotRecord_VideoSessionRef : string;
  IntakeLotRecord_EvidenceRefs : slice string;
  IntakeLotRecord_Status : string;
  IntakeLotRecord_CreatedAt : Z;
  IntakeLotRecord_UpdatedAt : Z;
  IntakeLotRecord_Height : Z;
}.
#[export] Instance Eta_IntakeLotRecord : Eta IntakeLotRecord := λ r,
  mkIntakeLotRecord (IntakeLotRecord_LotID r) (IntakeLotRecord_PolicyID r) (IntakeLotRecord_AssetID r) (IntakeLotRecord_OperatorID r) (IntakeLotRecord_WarehouseID r) (IntakeLotRecord_AccountCommitment r) (IntakeLotRecord_SkuClassID r) (IntakeLotRecord_Quantity r) (IntakeLotRecord_RemainingQuantity r) (IntakeLotRecord_MintedAmount r) (IntakeLotRecord_OperatorFeeAmount r) (IntakeLotRecord_ShippingCostAmount r) (IntakeLotRecord_StorageReserveAmount r) (IntakeLotRecord_VideoSessionRef r) (IntakeLotRecord_EvidenceRefs r) (IntakeLotRecord_Status r) (IntakeLotRecord_CreatedAt r) (IntakeLotRecord_UpdatedAt r) (IntakeLotRecord_Height r).
Definition IntakeLotRecord_tags : list string :=
  ["lot_id"; "policy_id"; "asset_id"; "operator_id"; "warehouse_id"; "account_commitment"; "sku_class_id"; "quantity"; "remaining_quantity"; "minted_amount"; "operator_fee_amount"; "shipping_cost_amount"; "storage_reserve_amount"; "video_session_ref"; "evidence_refs"; "status"; "created_at"; "updated_at"; "height"].
#[export] Instance Json_IntakeLotRecord : Json IntakeLotRecord := {
  jzero := mkIntakeLotRecord "" "" "" "" "" "" "" 0 0 0 0 0 0 "" None "" 0 0 0;
  to_json r := JObj (
    required "lot_id" (IntakeLotRecord_LotID r) ++
    required "policy_id" (IntakeLotRecord_PolicyID r) ++
    required "asset_id" (IntakeLotRecord_AssetID r) ++
    required "operator_id" (IntakeLotRecord_OperatorID r) ++
    required "warehouse_id" (IntakeLotRecord_WarehouseID r) ++
    required "account_commitment" (IntakeLotRecord_AccountCommitment r) ++
    required "sku_class_id" (IntakeLotRecord_SkuClassID r) ++
    required "quantity" (IntakeLotRecord_Quantity r) ++
    required "remaining_quantity" (IntakeLotRecord_RemainingQuantity r) ++
    required "minted_amount" (IntakeLotRecord_MintedAmount r) ++
    required "operator_fee_amount" (IntakeLotRecord_OperatorFeeAmount r) ++
    required "shipping_cost_amount" (IntakeLotRecord_ShippingCostAmount r) ++
    required "storage_reserve_amount" (IntakeLotRecord_StorageReserveAmount r) ++
    required "video_session_ref" (IntakeLotRecord_VideoSessionRef r) ++
    required "evidence_refs" (IntakeLotRecord_EvidenceRefs r) ++
    required "status" (IntakeLotRecord_Status r) ++
    required "created_at" (IntakeLotRecord_CreatedAt r) ++
    required "updated_at" (IntakeLotRecord_UpdatedAt r) ++
    required "height" (IntakeLotRecord_Height r) ++ []);
  of_json := of_object (λ ms,
    x0 ← jfield IntakeLotRecord_tags ms "lot_id";
    x1 ← jfield IntakeLotRecord_tags ms "policy_id";
    x2 ← jfield IntakeLotRecord_tags ms "asset_id";
    x3 ← jfield IntakeLotRecord_tags ms "operator_id";
    x4 ← jfield IntakeLotRecord_tags ms "warehouse_id";
    x5 ← jfield IntakeLotRecord_tags ms "account_commitment";
    x6 ← jfield IntakeLotRecord_tags ms "sku_class_id";
    x7 ← jfield IntakeLotRecord_tags ms "quantity";
    x8 ← jfield IntakeLotRecord_tags ms "remaining_quantity";
    x9 ← jfield IntakeLotRecord_tags ms "minted_amount";
    x10 ← jfield IntakeLotRecord_tags ms "operator_fee_amount";
    x11 ← jfield IntakeLotRecord_tags ms "shipping_cost_amount";
    x12 ← jfield IntakeLotRecord_tags ms "storage_reserve_amount";
    x13 ← jfield IntakeLotRecord_tags ms "video_session_ref";
    x14 ← jfield IntakeLotRecord_tags ms "evidence_refs";
    x15 ← jfield IntakeLotRecord_tags ms "status";
    x16 ← jfield IntakeLotRecord_tags ms "created_at";
    x17 ← jfield IntakeLotRecord_tags ms "updated_at";
    x18 ← jfield IntakeLotRecord_tags ms "height";
    Some (mkIntakeLotRecord x0 x1 x2 x3 x4 x5 x6 x7 x8 x9 x10 x11 x12 x13 x14 x15 x16 x17 x18));
}.
(** Its integers are in range. *)
Definition IntakeLotRecord_ok (r : IntakeLotRecord) : Prop :=
  int64_ok (IntakeLotRecord_Quantity r) ∧ int64_ok (IntakeLotRecord_RemainingQuantity r) ∧ int64_ok (IntakeLotRecord_MintedAmount r) ∧ int64_ok (IntakeLotRecord_OperatorFeeAmount r) ∧ int64_ok (IntakeLotRecord_ShippingCostAmount r) ∧ int64_ok (IntakeLotRecord_StorageReserveAmount r) ∧ int64_ok (IntakeLotRecord_CreatedAt r) ∧ int64_ok (IntakeLotRecord_UpdatedAt r) ∧ int64_ok (IntakeLotRecord_Height r).
#[export] Instance roundtrip_IntakeLotRecord : JsonRoundTrip IntakeLotRecord IntakeLotRecord_ok.
Proof. struct_roundtrip Json_IntakeLotRecord. Qed.

(** A redemption request. *)
Record RedemptionRequestRecord := mkRedemptionRequestRecord {
  RedemptionRequestRecord_RequestID : string;
  RedemptionRequestRecord_AssetID : string;
  RedemptionRequestRecord_AccountCommitment : string;
  RedemptionRequestRecord_WarehouseID : string;
  RedemptionRequestRecord_SkuClassID : string;
  RedemptionRequestRecord_SiloAmount : Z;
  RedemptionRequestRecord_RequestedQuantity : Z;
  RedemptionRequestRecord_DestinationRef : string;
  RedemptionRequestRecord_Status : string;
  RedemptionRequestRecord_CreatedAt : Z;
  RedemptionRequestRecord_UpdatedAt : Z;
  RedemptionRequestRecord_Height : Z;
}.
#[export] Instance Eta_RedemptionRequestRecord : Eta RedemptionRequestRecord := λ r,
  mkRedemptionRequestRecord (RedemptionRequestRecord_RequestID r) (RedemptionRequestRecord_AssetID r) (RedemptionRequestRecord_AccountCommitment r) (RedemptionRequestRecord_WarehouseID r) (RedemptionRequestRecord_SkuClassID r) (RedemptionRequestRecord_SiloAmount r) (RedemptionRequestRecord_RequestedQuantity r) (RedemptionRequestRecord_DestinationRef r) (RedemptionRequestRecord_Status r) (RedemptionRequestRecord_CreatedAt r) (RedemptionRequestRecord_UpdatedAt r) (RedemptionRequestRecord_Height r).
Definition RedemptionRequestRecord_tags : list string :=
  ["request_id"; "asset_id"; "account_commitment"; "warehouse_id"; "sku_class_id"; "silo_amount"; "requested_quantity"; "destination_ref"; "status"; "created_at"; "updated_at"; "height"].
#[export] Instance Json_RedemptionRequestRecord : Json RedemptionRequestRecord := {
  jzero := mkRedemptionRequestRecord "" "" "" "" "" 0 0 "" "" 0 0 0;
  to_json r := JObj (
    required "request_id" (RedemptionRequestRecord_RequestID r) ++
    required "asset_id" (RedemptionRequestRecord_AssetID r) ++
    required "account_commitment" (RedemptionRequestRecord_AccountCommitment r) ++
    required "warehouse_id" (RedemptionRequestRecord_WarehouseID r) ++
    required "sku_class_id" (RedemptionRequestRecord_SkuClassID r) ++
    required "silo_amount" (RedemptionRequestRecord_SiloAmount r) ++
    required "requested_quantity" (RedemptionRequestRecord_RequestedQuantity r) ++
    required "destination_ref" (RedemptionRequestRecord_DestinationRef r) ++
    required "status" (RedemptionRequestRecord_Status r) ++
    required "created_at" (RedemptionRequestRecord_CreatedAt r) ++
    required "updated_at" (RedemptionRequestRecord_UpdatedAt r) ++
    required "height" (RedemptionRequestRecord_Height r) ++ []);
  of_json := of_object (λ ms,
    x0 ← jfield RedemptionRequestRecord_tags ms "request_id";
    x1 ← jfield RedemptionRequestRecord_tags ms "asset_id";
    x2 ← jfield RedemptionRequestRecord_tags ms "account_commitment";
    x3 ← jfield RedemptionRequestRecord_tags ms "warehouse_id";
    x4 ← jfield RedemptionRequestRecord_tags ms "sku_class_id";
    x5 ← jfield RedemptionRequestRecord_tags ms "silo_amount";
    x6 ← jfield RedemptionRequestRecord_tags ms "requested_quantity";
    x7 ← jfield RedemptionRequestRecord_tags ms "destination_ref";
    x8 ← jfield RedemptionRequestRecord_tags ms "status";
    x9 ← jfield RedemptionRequestRecord_tags ms "created_at";
    x10 ← jfield RedemptionRequestRecord_tags ms "updated_at";
    x11 ← jfield RedemptionRequestRecord_tags ms "height";
    Some (mkRedemptionRequestRecord x0 x1 x2 x3 x4 x5 x6 x7 x8 x9 x10 x11));
}.
(** Its integers are in range. *)
Definition RedemptionRequestRecord_ok (r : RedemptionRequestRecord) : Prop :=
  int64_ok (RedemptionRequestRecord_SiloAmount r) ∧ int64_ok (RedemptionRequestRecord_RequestedQuantity r) ∧ int64_ok (RedemptionRequestRecord_CreatedAt r) ∧ int64_ok (RedemptionRequestRecord_UpdatedAt r) ∧ int64_ok (RedemptionRequestRecord_Height r).
#[export] Instance roundtrip_RedemptionRequestRecord : JsonRoundTrip RedemptionRequestRecord RedemptionRequestRecord_ok.
Proof. struct_roundtrip Json_RedemptionRequestRecord. Qed.

(** A settled redemption. *)
Record RedemptionSettlementRecord := mkRedemptionSettlementRecord {
  RedemptionSettlementRecord_SettlementID : string;
  RedemptionSettlementRecord_RequestID : string;
  RedemptionSettlementRecord_OperatorID : string;
  RedemptionSettlementRecord_WarehouseID : string;
  RedemptionSettlementRecord_AllocatedLots : slice LotAllocation;
  RedemptionSettlementRecord_FulfillmentRef : string;
  RedemptionSettlementRecord_BurnAmount : Z;
  RedemptionSettlementRecord_SettledQuantity : Z;
  RedemptionSettlementRecord_SettledAt : Z;
  RedemptionSettlementRecord_Height : Z;
}.
#[export] Instance Eta_RedemptionSettlementRecord : Eta RedemptionSettlementRecord := λ r,
  mkRedemptionSettlementRecord (RedemptionSettlementRecord_SettlementID r) (RedemptionSettlementRecord_RequestID r) (RedemptionSettlementRecord_OperatorID r) (RedemptionSettlementRecord_WarehouseID r) (RedemptionSettlementRecord_AllocatedLots r) (RedemptionSettlementRecord_FulfillmentRef r) (RedemptionSettlementRecord_BurnAmount r) (RedemptionSettlementRecord_SettledQuantity r) (RedemptionSettlementRecord_SettledAt r) (RedemptionSettlementRecord_Height r).
Definition RedemptionSettlementRecord_tags : list string :=
  ["settlement_id"; "request_id"; "operator_id"; "warehouse_id"; "allocated_lots"; "fulfillment_ref"; "burn_amount"; "settled_quantity"; "settled_at"; "height"].
#[export] Instance Json_RedemptionSettlementRecord : Json RedemptionSettlementRecord := {
  jzero := mkRedemptionSettlementRecord "" "" "" "" None "" 0 0 0 0;
  to_json r := JObj (
    required "settlement_id" (RedemptionSettlementRecord_SettlementID r) ++
    required "request_id" (RedemptionSettlementRecord_RequestID r) ++
    required "operator_id" (RedemptionSettlementRecord_OperatorID r) ++
    required "warehouse_id" (RedemptionSettlementRecord_WarehouseID r) ++
    required "allocated_lots" (RedemptionSettlementRecord_AllocatedLots r) ++
    required "fulfillment_ref" (RedemptionSettlementRecord_FulfillmentRef r) ++
    required "burn_amount" (RedemptionSettlementRecord_BurnAmount r) ++
    required "settled_quantity" (RedemptionSettlementRecord_SettledQuantity r) ++
    required "settled_at" (RedemptionSettlementRecord_SettledAt r) ++
    required "height" (RedemptionSettlementRecord_Height r) ++ []);
  of_json := of_object (λ ms,
    x0 ← jfield RedemptionSettlementRecord_tags ms "settlement_id";
    x1 ← jfield RedemptionSettlementRecord_tags ms "request_id";
    x2 ← jfield RedemptionSettlementRecord_tags ms "operator_id";
    x3 ← jfield RedemptionSettlementRecord_tags ms "warehouse_id";
    x4 ← jfield RedemptionSettlementRecord_tags ms "allocated_lots";
    x5 ← jfield RedemptionSettlementRecord_tags ms "fulfillment_ref";
    x6 ← jfield RedemptionSettlementRecord_tags ms "burn_amount";
    x7 ← jfield RedemptionSettlementRecord_tags ms "settled_quantity";
    x8 ← jfield RedemptionSettlementRecord_tags ms "settled_at";
    x9 ← jfield RedemptionSettlementRecord_tags ms "height";
    Some (mkRedemptionSettlementRecord x0 x1 x2 x3 x4 x5 x6 x7 x8 x9));
}.
(** Its integers are in range. *)
Definition RedemptionSettlementRecord_ok (r : RedemptionSettlementRecord) : Prop :=
  Forall LotAllocation_ok (elems (RedemptionSettlementRecord_AllocatedLots r)) ∧ int64_ok (RedemptionSettlementRecord_BurnAmount r) ∧ int64_ok (RedemptionSettlementRecord_SettledQuantity r) ∧ int64_ok (RedemptionSettlementRecord_SettledAt r) ∧ int64_ok (RedemptionSettlementRecord_Height r).
#[export] Instance roundtrip_RedemptionSettlementRecord : JsonRoundTrip RedemptionSettlementRecord RedemptionSettlementRecord_ok.
Proof. struct_roundtrip Json_RedemptionSettlementRecord. Qed.

(** A storage charge. *)
Record DemurrageAssessmentRecord := mkDemurrageAssessmentRecord {
  DemurrageAssessmentRecord_AssessmentID : string;
  DemurrageAssessmentRecord_AssetID : string;
  DemurrageAssessmentRecord_AccountCommitment : string;
  DemurrageAssessmentRecord_PolicyID : string;
  DemurrageAssessmentRecord_Amount : Z;
  DemurrageAssessmentRecord_PeriodStart : Z;
  DemurrageAssessmentRecord_PeriodEnd : Z;
  DemurrageAssessmentRecord_Reason : string;
  DemurrageAssessmentRecord_AppliedAt : Z;
  DemurrageAssessmentRecord_Height : Z;
}.
#[export] Instance Eta_DemurrageAssessmentRecord : Eta DemurrageAssessmentRecord := λ r,
  mkDemurrageAssessmentRecord (DemurrageAssessmentRecord_AssessmentID r) (DemurrageAssessmentRecord_AssetID r) (DemurrageAssessmentRecord_AccountCommitment r) (DemurrageAssessmentRecord_PolicyID r) (DemurrageAssessmentRecord_Amount r) (DemurrageAssessmentRecord_PeriodStart r) (DemurrageAssessmentRecord_PeriodEnd r) (DemurrageAssessmentRecord_Reason r) (DemurrageAssessmentRecord_AppliedAt r) (DemurrageAssessmentRecord_Height r).
Definition DemurrageAssessmentRecord_tags : list string :=
  ["assessment_id"; "asset_id"; "account_commitment"; "policy_id"; "amount"; "period_start"; "period_end"; "reason"; "applied_at"; "height"].
#[export] Instance Json_DemurrageAssessmentRecord : Json DemurrageAssessmentRecord := {
  jzero := mkDemurrageAssessmentRecord "" "" "" "" 0 0 0 "" 0 0;
  to_json r := JObj (
    required "assessment_id" (DemurrageAssessmentRecord_AssessmentID r) ++
    required "asset_id" (DemurrageAssessmentRecord_AssetID r) ++
    required "account_commitment" (DemurrageAssessmentRecord_AccountCommitment r) ++
    required "policy_id" (DemurrageAssessmentRecord_PolicyID r) ++
    required "amount" (DemurrageAssessmentRecord_Amount r) ++
    required "period_start" (DemurrageAssessmentRecord_PeriodStart r) ++
    required "period_end" (DemurrageAssessmentRecord_PeriodEnd r) ++
    required "reason" (DemurrageAssessmentRecord_Reason r) ++
    required "applied_at" (DemurrageAssessmentRecord_AppliedAt r) ++
    required "height" (DemurrageAssessmentRecord_Height r) ++ []);
  of_json := of_object (λ ms,
    x0 ← jfield DemurrageAssessmentRecord_tags ms "assessment_id";
    x1 ← jfield DemurrageAssessmentRecord_tags ms "asset_id";
    x2 ← jfield DemurrageAssessmentRecord_tags ms "account_commitment";
    x3 ← jfield DemurrageAssessmentRecord_tags ms "policy_id";
    x4 ← jfield DemurrageAssessmentRecord_tags ms "amount";
    x5 ← jfield DemurrageAssessmentRecord_tags ms "period_start";
    x6 ← jfield DemurrageAssessmentRecord_tags ms "period_end";
    x7 ← jfield DemurrageAssessmentRecord_tags ms "reason";
    x8 ← jfield DemurrageAssessmentRecord_tags ms "applied_at";
    x9 ← jfield DemurrageAssessmentRecord_tags ms "height";
    Some (mkDemurrageAssessmentRecord x0 x1 x2 x3 x4 x5 x6 x7 x8 x9));
}.
(** Its integers are in range. *)
Definition DemurrageAssessmentRecord_ok (r : DemurrageAssessmentRecord) : Prop :=
  int64_ok (DemurrageAssessmentRecord_Amount r) ∧ int64_ok (DemurrageAssessmentRecord_PeriodStart r) ∧ int64_ok (DemurrageAssessmentRecord_PeriodEnd r) ∧ int64_ok (DemurrageAssessmentRecord_AppliedAt r) ∧ int64_ok (DemurrageAssessmentRecord_Height r).
#[export] Instance roundtrip_DemurrageAssessmentRecord : JsonRoundTrip DemurrageAssessmentRecord DemurrageAssessmentRecord_ok.
Proof. struct_roundtrip Json_DemurrageAssessmentRecord. Qed.

(** A consensus validator. *)
Record ValidatorRecord := mkValidatorRecord {
  ValidatorRecord_PubKeyBase64 : string;
  ValidatorRecord_Power : Z;
  ValidatorRecord_Name : string;
}.
#[export] Instance Eta_ValidatorRecord : Eta ValidatorRecord := λ r,
  mkValidatorRecord (ValidatorRecord_PubKeyBase64 r) (ValidatorRecord_Power r) (ValidatorRecord_Name r).
Definition ValidatorRecord_tags : list string :=
  ["pub_key_base64"; "power"; "name"].
#[export] Instance Json_ValidatorRecord : Json ValidatorRecord := {
  jzero := mkValidatorRecord "" 0 "";
  to_json r := JObj (
    required "pub_key_base64" (ValidatorRecord_PubKeyBase64 r) ++
    required "power" (ValidatorRecord_Power r) ++
    required "name" (ValidatorRecord_Name r) ++ []);
  of_json := of_object (λ ms,
    x0 ← jfield ValidatorRecord_tags ms "pub_key_base64";
    x1 ← jfield ValidatorRecord_tags ms "power";
    x2 ← jfield ValidatorRecord_tags ms "name";
    Some (mkValidatorRecord x0 x1 x2));
}.
(** Its integers are in range. *)
Definition ValidatorRecord_ok (r : ValidatorRecord) : Prop :=
  int64_ok (ValidatorRecord_Power r).
#[export] Instance roundtrip_ValidatorRecord : JsonRoundTrip ValidatorRecord ValidatorRecord_ok.
Proof. struct_roundtrip Json_ValidatorRecord. Qed.

