(* ===== verification/WireTx.v ===== *)
(** embodiments/shywire/tx/tx.go: the transaction payloads of the transfer protocol
    and their stateless validation.  The envelope, its codec and the validator
    registration are those of protocol/tx ([TxData]): the Go types are field for
    field the same. *)
From S2P Require Import Prelude GoStd Json TxData TxValidate.

(** Wire-format discriminators. *)
Definition TxTypeRegisterAsset : Z := 1.
Definition TxTypeMint : Z := 2.
Definition TxTypeBurn : Z := 3.
Definition TxTypeTransfer : Z := 4.
Definition TxTypeRegisterAccount : Z := 5.
Definition TxTypeRegisterValidator : Z := 6.
Definition TxTypeRegisterContract : Z := 7.
Definition TxTypeExecuteContract : Z := 8.
Definition TxTypeActivateContract : Z := 9.
Definition TxTypeRegisterConsortiumPolicy : Z := 10.
Definition TxTypeRegisterWarehouseOperator : Z := 11.
Definition TxTypeRegisterAcceptedSkuClass : Z := 12.
Definition TxTypeRecordCustodyIntakeLot : Z := 13.
Definition TxTypeRequestCustodyRedemption : Z := 14.
Definition TxTypeSettleCustodyRedemption : Z := 15.
Definition TxTypeApplyCustodyDemurrage : Z := 16.
Definition TxTypeAdverseAction : Z := 17.

(** The operator registers an asset. *)
Record RegisterAssetData := mkRegisterAssetData {
  RegisterAssetData_AssetID : string;
  RegisterAssetData_Name : string;
  RegisterAssetData_Decimals : Z;
}.
#[export] Instance Eta_RegisterAssetData : Eta RegisterAssetData := λ r,
  mkRegisterAssetData (RegisterAssetData_AssetID r) (RegisterAssetData_Name r) (RegisterAssetData_Decimals r).
Definition RegisterAssetData_tags : list string :=
  ["asset_id"; "name"; "decimals"].
#[export] Instance Json_RegisterAssetData : Json RegisterAssetData := {
  jzero := mkRegisterAssetData "" "" 0;
  to_json r := JObj (
    required "asset_id" (RegisterAssetData_AssetID r) ++
    required "name" (RegisterAssetData_Name r) ++
    required "decimals" (RegisterAssetData_Decimals r) ++ []);
  of_json := of_object (λ ms,
    x0 ← jfield RegisterAssetData_tags ms "asset_id";
    x1 ← jfield RegisterAssetData_tags ms "name";
    x2 ← jfield_with of_json_uint8 0 RegisterAssetData_tags ms "decimals";
    Some (mkRegisterAssetData x0 x1 x2));
}.

(** The operator mints supply to an account. *)
Record MintData := mkMintData {
  MintData_AssetID : string;
  MintData_AccountCommitment : string;
  MintData_Amount : Z;
  MintData_Timestamp : Z;
}.
#[export] Instance Eta_MintData : Eta MintData := λ r,
  mkMintData (MintData_AssetID r) (MintData_AccountCommitment r) (MintData_Amount r) (MintData_Timestamp r).
Definition MintData_tags : list string :=
  ["asset_id"; "account_commitment"; "amount"; "timestamp"].
#[export] Instance Json_MintData : Json MintData := {
  jzero := mkMintData "" "" 0 0;
  to_json r := JObj (
    required "asset_id" (MintData_AssetID r) ++
    required "account_commitment" (MintData_AccountCommitment r) ++
    required "amount" (MintData_Amount r) ++
    required "timestamp" (MintData_Timestamp r) ++ []);
  of_json := of_object (λ ms,
    x0 ← jfield MintData_tags ms "asset_id";
    x1 ← jfield MintData_tags ms "account_commitment";
    x2 ← jfield MintData_tags ms "amount";
    x3 ← jfield MintData_tags ms "timestamp";
    Some (mkMintData x0 x1 x2 x3));
}.

(** The operator burns supply of an account. *)
Record BurnData := mkBurnData {
  BurnData_AssetID : string;
  BurnData_AccountCommitment : string;
  BurnData_Amount : Z;
  BurnData_Timestamp : Z;
}.
#[export] Instance Eta_BurnData : Eta BurnData := λ r,
  mkBurnData (BurnData_AssetID r) (BurnData_AccountCommitment r) (BurnData_Amount r) (BurnData_Timestamp r).
Definition BurnData_tags : list string :=
  ["asset_id"; "account_commitment"; "amount"; "timestamp"].
#[export] Instance Json_BurnData : Json BurnData := {
  jzero := mkBurnData "" "" 0 0;
  to_json r := JObj (
    required "asset_id" (BurnData_AssetID r) ++
    required "account_commitment" (BurnData_AccountCommitment r) ++
    required "amount" (BurnData_Amount r) ++
    required "timestamp" (BurnData_Timestamp r) ++ []);
  of_json := of_object (λ ms,
    x0 ← jfield BurnData_tags ms "asset_id";
    x1 ← jfield BurnData_tags ms "account_commitment";
    x2 ← jfield BurnData_tags ms "amount";
    x3 ← jfield BurnData_tags ms "timestamp";
    Some (mkBurnData x0 x1 x2 x3));
}.

(** An anonymous transfer between two accounts. *)
Record TransferData := mkTransferData {
  TransferData_AssetID : string;
  TransferData_SenderCommitment : string;
  TransferData_RecipientCommitment : string;
  TransferData_Amount : Z;
  TransferData_Nullifier : string;
  TransferData_TransferNonce : string;
  TransferData_SenderProof : gobytes;
  TransferData_Timestamp : Z;
}.
#[export] Instance Eta_TransferData : Eta TransferData := λ r,
  mkTransferData (TransferData_AssetID r) (TransferData_SenderCommitment r) (TransferData_RecipientCommitment r) (TransferData_Amount r) (TransferData_Nullifier r) (TransferData_TransferNonce r) (TransferData_SenderProof r) (TransferData_Timestamp r).
Definition TransferData_tags : list string :=
  ["asset_id"; "sender_commitment"; "recipient_commitment"; "amount"; "nullifier"; "submission_nonce"; "sender_proof"; "timestamp"].
#[export] Instance Json_TransferData : Json TransferData := {
  jzero := mkTransferData "" "" "" 0 "" "" None 0;
  to_json r := JObj (
    required "asset_id" (TransferData_AssetID r) ++
    required "sender_commitment" (TransferData_SenderCommitment r) ++
    required "recipient_commitment" (TransferData_RecipientCommitment r) ++
    required "amount" (TransferData_Amount r) ++
    required "nullifier" (TransferData_Nullifier r) ++
    required "submission_nonce" (TransferData_TransferNonce r) ++
    required "sender_proof" (TransferData_SenderProof r) ++
    required "timestamp" (TransferData_Timestamp r) ++ []);
  of_json := of_object (λ ms,
    x0 ← jfield TransferData_tags ms "asset_id";
    x1 ← jfield TransferData_tags ms "sender_commitment";
    x2 ← jfield TransferData_tags ms "recipient_commitment";
    x3 ← jfield TransferData_tags ms "amount";
    x4 ← jfield TransferData_tags ms "nullifier";
    x5 ← jfield TransferData_tags ms "submission_nonce";
    x6 ← jfield TransferData_tags ms "sender_proof";
    x7 ← jfield TransferData_tags ms "timestamp";
    Some (mkTransferData x0 x1 x2 x3 x4 x5 x6 x7));
}.

(** An account commitment is registered. *)
Record RegisterAccountData := mkRegisterAccountData {
  RegisterAccountData_AccountCommitment : string;
  RegisterAccountData_WalletProof : gobytes;
  RegisterAccountData_EnrollmentToken : string;
  RegisterAccountData_EnrollmentProof : gobytes;
}.
#[export] Instance Eta_RegisterAccountData : Eta RegisterAccountData := λ r,
  mkRegisterAccountData (RegisterAccountData_AccountCommitment r) (RegisterAccountData_WalletProof r) (RegisterAccountData_EnrollmentToken r) (RegisterAccountData_EnrollmentProof r).
Definition RegisterAccountData_tags : list string :=
  ["account_commitment"; "wallet_proof"; "enrollment_token"; "enrollment_proof"].
#[export] Instance Json_RegisterAccountData : Json RegisterAccountData := {
  jzero := mkRegisterAccountData "" None "" None;
  to_json r := JObj (
    required "account_commitment" (RegisterAccountData_AccountCommitment r) ++
    required "wallet_proof" (RegisterAccountData_WalletProof r) ++
    omit_str "enrollment_token" (RegisterAccountData_EnrollmentToken r) ++
    omit_bytes "enrollment_proof" (RegisterAccountData_EnrollmentProof r) ++ []);
  of_json := of_object (λ ms,
    x0 ← jfield RegisterAccountData_tags ms "account_commitment";
    x1 ← jfield RegisterAccountData_tags ms "wallet_proof";
    x2 ← jfield RegisterAccountData_tags ms "enrollment_token";
    x3 ← jfield RegisterAccountData_tags ms "enrollment_proof";
    Some (mkRegisterAccountData x0 x1 x2 x3));
}.

(** A party of a contract. *)
Record ContractParty := mkContractParty {
  ContractParty_Role : string;
  ContractParty_Commitment : string;
  ContractParty_AllocationBps : Z;
  ContractParty_Seniority : Z;
}.
#[export] Instance Eta_ContractParty : Eta ContractParty := λ r,
  mkContractParty (ContractParty_Role r) (ContractParty_Commitment r) (ContractParty_AllocationBps r) (ContractParty_Seniority r).
Definition ContractParty_tags : list string :=
  ["role"; "commitment"; "allocation_bps"; "seniority"].
#[export] Instance Json_ContractParty : Json ContractParty := {
  jzero := mkContractParty "" "" 0 0;
  to_json r := JObj (
    required "role" (ContractParty_Role r) ++
    required "commitment" (ContractParty_Commitment r) ++
    required "allocation_bps" (ContractParty_AllocationBps r) ++
    required "seniority" (ContractParty_Seniority r) ++ []);
  of_json := of_object (λ ms,
    x0 ← jfield ContractParty_tags ms "role";
    x1 ← jfield ContractParty_tags ms "commitment";
    x2 ← jfield_with of_json_uint32 0 ContractParty_tags ms "allocation_bps";
    x3 ← jfield_with of_json_uint32 0 ContractParty_tags ms "seniority";
    Some (mkContractParty x0 x1 x2 x3));
}.

(** A contract is anchored. *)
Record RegisterContractData := mkRegisterContractData {
  RegisterContractData_ContractID : string;
  RegisterContractData_AssetID : string;
  RegisterContractData_ContractType : string;
  RegisterContractData_ContractHash : string;
  RegisterContractData_Parties : slice ContractParty;
  RegisterContractData_Metadata : option json;
  RegisterContractData_PendingCondition : bool;
  RegisterContractData_ExpiryTimestamp : Z;
  RegisterContractData_Timestamp : Z;
}.
#[export] Instance Eta_RegisterContractData : Eta RegisterContractData := λ r,
  mkRegisterContractData (RegisterContractData_ContractID r) (RegisterContractData_AssetID r) (RegisterContractData_ContractType r) (RegisterContractData_ContractHash r) (RegisterContractData_Parties r) (RegisterContractData_Metadata r) (RegisterContractData_PendingCondition r) (RegisterContractData_ExpiryTimestamp r) (RegisterContractData_Timestamp r).
Definition RegisterContractData_tags : list string :=
  ["contract_id"; "asset_id"; "contract_type"; "contract_hash"; "parties"; "metadata"; "pending_condition"; "expiry_timestamp"; "timestamp"].
#[export] Instance Json_RegisterContractData : Json RegisterContractData := {
  jzero := mkRegisterContractData "" "" "" "" None None false 0 0;
  to_json r := JObj (
    required "contract_id" (RegisterContractData_ContractID r) ++
    omit_str "asset_id" (RegisterContractData_AssetID r) ++
    required "contract_type" (RegisterContractData_ContractType r) ++
    required "contract_hash" (RegisterContractData_ContractHash r) ++
    required "parties" (RegisterContractData_Parties r) ++
    omit_raw "metadata" (RegisterContractData_Metadata r) ++
    omit_bool "pending_condition" (RegisterContractData_PendingCondition r) ++
    required "expiry_timestamp" (RegisterContractData_ExpiryTimestamp r) ++
    required "timestamp" (RegisterContractData_Timestamp r) ++ []);
  of_json := of_object (λ ms,
    x0 ← jfield RegisterContractData_tags ms "contract_id";
    x1 ← jfield RegisterContractData_tags ms "asset_id";
    x2 ← jfield RegisterContractData_tags ms "contract_type";
    x3 ← jfield RegisterContractData_tags ms "contract_hash";
    x4 ← jfield RegisterContractData_tags ms "parties";
    x5 ← jfield RegisterContractData_tags ms "metadata";
    x6 ← jfield RegisterContractData_tags ms "pending_condition";
    x7 ← jfield RegisterContractData_tags ms "expiry_timestamp";
    x8 ← jfield RegisterContractData_tags ms "timestamp";
    Some (mkRegisterContractData x0 x1 x2 x3 x4 x5 x6 x7 x8));
}.

(** A pending contract becomes active. *)
Record ActivateContractData := mkActivateContractData {
  ActivateContractData_ContractID : string;
  ActivateContractData_EvidenceHash : string;
  ActivateContractData_EvidenceType : string;
  ActivateContractData_ActivatedAt : Z;
}.
#[export] Instance Eta_ActivateContractData : Eta ActivateContractData := λ r,
  mkActivateContractData (ActivateContractData_ContractID r) (ActivateContractData_EvidenceHash r) (ActivateContractData_EvidenceType r) (ActivateContractData_ActivatedAt r).
Definition ActivateContractData_tags : list string :=
  ["contract_id"; "evidence_hash"; "evidence_type"; "activated_at"].
#[export] Instance Json_ActivateContractData : Json ActivateContractData := {
  jzero := mkActivateContractData "" "" "" 0;
  to_json r := JObj (
    required "contract_id" (ActivateContractData_ContractID r) ++
    required "evidence_hash" (ActivateContractData_EvidenceHash r) ++
    required "evidence_type" (ActivateContractData_EvidenceType r) ++
    required "activated_at" (ActivateContractData_ActivatedAt r) ++ []);
  of_json := of_object (λ ms,
    x0 ← jfield ActivateContractData_tags ms "contract_id";
    x1 ← jfield ActivateContractData_tags ms "evidence_hash";
    x2 ← jfield ActivateContractData_tags ms "evidence_type";
    x3 ← jfield ActivateContractData_tags ms "activated_at";
    Some (mkActivateContractData x0 x1 x2 x3));
}.

(** An execution of a contract. *)
Record ExecuteContractData := mkExecuteContractData {
  ExecuteContractData_ContractID : string;
  ExecuteContractData_AssetID : string;
  ExecuteContractData_PartyCommitment : string;
  ExecuteContractData_CounterpartyCommitment : string;
  ExecuteContractData_ExecutionType : string;
  ExecuteContractData_SourceRef : string;
  ExecuteContractData_Amount : Z;
  ExecuteContractData_Payload : option json;
  ExecuteContractData_Nullifier : string;
  ExecuteContractData_TransferNonce : string;
  ExecuteContractData_Timestamp : Z;
}.
#[export] Instance Eta_ExecuteContractData : Eta ExecuteContractData := λ r,
  mkExecuteContractData (ExecuteContractData_ContractID r) (ExecuteContractData_AssetID r) (ExecuteContractData_PartyCommitment r) (ExecuteContractData_CounterpartyCommitment r) (ExecuteContractData_ExecutionType r) (ExecuteContractData_SourceRef r) (ExecuteContractData_Amount r) (ExecuteContractData_Payload r) (ExecuteContractData_Nullifier r) (ExecuteContractData_TransferNonce r) (ExecuteContractData_Timestamp r).
Definition ExecuteContractData_tags : list string :=
  ["contract_id"; "asset_id"; "party_commitment"; "counterparty_commitment"; "execution_type"; "source_ref"; "amount"; "payload"; "nullifier"; "transfer_nonce"; "timestamp"].
#[export] Instance Json_ExecuteContractData : Json ExecuteContractData := {
  jzero := mkExecuteContractData "" "" "" "" "" "" 0 None "" "" 0;
  to_json r := JObj (
    required "contract_id" (ExecuteContractData_ContractID r) ++
    omit_str "asset_id" (ExecuteContractData_AssetID r) ++
    required "party_commitment" (ExecuteContractData_PartyCommitment r) ++
    omit_str "counterparty_commitment" (ExecuteContractData_CounterpartyCommitment r) ++
    required "execution_type" (ExecuteContractData_ExecutionType r) ++
    required "source_ref" (ExecuteContractData_SourceRef r) ++
    omit_int "amount" (ExecuteContractData_Amount r) ++
    omit_raw "payload" (ExecuteContractData_Payload r) ++
    required "nullifier" (ExecuteContractData_Nullifier r) ++
    required "transfer_nonce" (ExecuteContractData_TransferNonce r) ++
    required "timestamp" (ExecuteContractData_Timestamp r) ++ []);
  of_json := of_object (λ ms,
    x0 ← jfield ExecuteContractData_tags ms "contract_id";
    x1 ← jfield ExecuteContractData_tags ms "asset_id";
    x2 ← jfield ExecuteContractData_tags ms "party_commitment";
    x3 ← jfield ExecuteContractData_tags ms "counterparty_commitment";
    x4 ← jfield ExecuteContractData_tags ms "execution_type";
    x5 ← jfield ExecuteContractData_tags ms "source_ref";
    x6 ← jfield ExecuteContractData_tags ms "amount";
    x7 ← jfield ExecuteContractData_tags ms "payload";
    x8 ← jfield ExecuteContractData_tags ms "nullifier";
    x9 ← jfield ExecuteContractData_tags ms "transfer_nonce";
    x10 ← jfield ExecuteContractData_tags ms "timestamp";
    Some (mkExecuteContractData x0 x1 x2 x3 x4 x5 x6 x7 x8 x9 x10));
}.

(** A custody policy is published. *)
Record RegisterConsortiumPolicyData := mkRegisterConsortiumPolicyData {
  RegisterConsortiumPolicyData_PolicyID : string;
  RegisterConsortiumPolicyData_AssetID : string;
  RegisterConsortiumPolicyData_Name : string;
  RegisterConsortiumPolicyData_ActiveOperatorIDs : slice string;
  RegisterConsortiumPolicyData_AcceptedSkuClassIDs : slice string;
  RegisterConsortiumPolicyData_UnitOfMeasure : string;
  RegisterConsortiumPolicyData_QuantityNormalization : string;
  RegisterConsortiumPolicyData_ShippingAdjustmentRef : string;
  RegisterConsortiumPolicyData_DemurrageRateBps : Z;
  RegisterConsortiumPolicyData_OperatorFeeBps : Z;
  RegisterConsortiumPolicyData_RedemptionMode : string;
  RegisterConsortiumPolicyData_RedemptionRouting : string;
  RegisterConsortiumPolicyData_EvidenceRequirements : slice string;
  RegisterConsortiumPolicyData_Timestamp : Z;
}.
#[export] Instance Eta_RegisterConsortiumPolicyData : Eta RegisterConsortiumPolicyData := λ r,
  mkRegisterConsortiumPolicyData (RegisterConsortiumPolicyData_PolicyID r) (RegisterConsortiumPolicyData_AssetID r) (RegisterConsortiumPolicyData_Name r) (RegisterConsortiumPolicyData_ActiveOperatorIDs r) (RegisterConsortiumPolicyData_AcceptedSkuClassIDs r) (RegisterConsortiumPolicyData_UnitOfMeasure r) (RegisterConsortiumPolicyData_QuantityNormalization r) (RegisterConsortiumPolicyData_ShippingAdjustmentRef r) (RegisterConsortiumPolicyData_DemurrageRateBps r) (RegisterConsortiumPolicyData_OperatorFeeBps r) (RegisterConsortiumPolicyData_RedemptionMode r) (RegisterConsortiumPolicyData_RedemptionRouting r) (RegisterConsortiumPolicyData_EvidenceRequirements r) (RegisterConsortiumPolicyData_Timestamp r).
Definition RegisterConsortiumPolicyData_tags : list string :=
  ["policy_id"; "asset_id"; "name"; "active_operator_ids"; "accepted_sku_class_ids"; "unit_of_measure"; "quantity_normalization"; "shipping_adjustment_ref"; "demurrage_rate_bps"; "operator_fee_bps"; "redemption_mode"; "redemption_routing"; "evidence_requirements"; "timestamp"].
#[export] Instance Json_RegisterConsortiumPolicyData : Json RegisterConsortiumPolicyData := {
  jzero := mkRegisterConsortiumPolicyData "" "" "" None None "" "" "" 0 0 "" "" None 0;
  to_json r := JObj (
    required "policy_id" (RegisterConsortiumPolicyData_PolicyID r) ++
    required "asset_id" (RegisterConsortiumPolicyData_AssetID r) ++
    required "name" (RegisterConsortiumPolicyData_Name r) ++
    required "active_operator_ids" (RegisterConsortiumPolicyData_ActiveOperatorIDs r) ++
    required "accepted_sku_class_ids" (RegisterConsortiumPolicyData_AcceptedSkuClassIDs r) ++
    required "unit_of_measure" (RegisterConsortiumPolicyData_UnitOfMeasure r) ++
    required "quantity_normalization" (RegisterConsortiumPolicyData_QuantityNormalization r) ++
    required "shipping_adjustment_ref" (RegisterConsortiumPolicyData_ShippingAdjustmentRef r) ++
    required "demurrage_rate_bps" (RegisterConsortiumPolicyData_DemurrageRateBps r) ++
    required "operator_fee_bps" (RegisterConsortiumPolicyData_OperatorFeeBps r) ++
    required "redemption_mode" (RegisterConsortiumPolicyData_RedemptionMode r) ++
    required "redemption_routing" (RegisterConsortiumPolicyData_RedemptionRouting r) ++
    required "evidence_requirements" (RegisterConsortiumPolicyData_EvidenceRequirements r) ++
    required "timestamp" (RegisterConsortiumPolicyData_Timestamp r) ++ []);
  of_json := of_object (λ ms,
    x0 ← jfield RegisterConsortiumPolicyData_tags ms "policy_id";
    x1 ← jfield RegisterConsortiumPolicyData_tags ms "asset_id";
    x2 ← jfield RegisterConsortiumPolicyData_tags ms "name";
    x3 ← jfield RegisterConsortiumPolicyData_tags ms "active_operator_ids";
    x4 ← jfield RegisterConsortiumPolicyData_tags ms "accepted_sku_class_ids";
    x5 ← jfield RegisterConsortiumPolicyData_tags ms "unit_of_measure";
    x6 ← jfield RegisterConsortiumPolicyData_tags ms "quantity_normalization";
    x7 ← jfield RegisterConsortiumPolicyData_tags ms "shipping_adjustment_ref";
    x8 ← jfield_with of_json_uint32 0 RegisterConsortiumPolicyData_tags ms "demurrage_rate_bps";
    x9 ← jfield_with of_json_uint32 0 RegisterConsortiumPolicyData_tags ms "operator_fee_bps";
    x10 ← jfield RegisterConsortiumPolicyData_tags ms "redemption_mode";
    x11 ← jfield RegisterConsortiumPolicyData_tags ms "redemption_routing";
    x12 ← jfield RegisterConsortiumPolicyData_tags ms "evidence_requirements";
    x13 ← jfield RegisterConsortiumPolicyData_tags ms "timestamp";
    Some (mkRegisterConsortiumPolicyData x0 x1 x2 x3 x4 x5 x6 x7 x8 x9 x10 x11 x12 x13));
}.

(** A custody operator is registered. *)
Record RegisterWarehouseOperatorData := mkRegisterWarehouseOperatorData {
  RegisterWarehouseOperatorData_OperatorID : string;
  RegisterWarehouseOperatorData_Name : string;
  RegisterWarehouseOperatorData_WarehouseID : string;
  RegisterWarehouseOperatorData_Region : string;
  RegisterWarehouseOperatorData_VideoStreamRef : string;
  RegisterWarehouseOperatorData_Status : string;
  RegisterWarehouseOperatorData_Timestamp : Z;
}.
#[export] Instance Eta_RegisterWarehouseOperatorData : Eta RegisterWarehouseOperatorData := λ r,
  mkRegisterWarehouseOperatorData (RegisterWarehouseOperatorData_OperatorID r) (RegisterWarehouseOperatorData_Name r) (RegisterWarehouseOperatorData_WarehouseID r) (RegisterWarehouseOperatorData_Region r) (RegisterWarehouseOperatorData_VideoStreamRef r) (RegisterWarehouseOperatorData_Status r) (RegisterWarehouseOperatorData_Timestamp r).
Definition RegisterWarehouseOperatorData_tags : list string :=
  ["operator_id"; "name"; "warehouse_id"; "region"; "video_stream_ref"; "status"; "timestamp"].
#[export] Instance Json_RegisterWarehouseOperatorData : Json RegisterWarehouseOperatorData := {
  jzero := mkRegisterWarehouseOperatorData "" "" "" "" "" "" 0;
  to_json r := JObj (
    required "operator_id" (RegisterWarehouseOperatorData_OperatorID r) ++
    required "name" (RegisterWarehouseOperatorData_Name r) ++
    required "warehouse_id" (RegisterWarehouseOperatorData_WarehouseID r) ++
    required "region" (RegisterWarehouseOperatorData_Region r) ++
    required "video_stream_ref" (RegisterWarehouseOperatorData_VideoStreamRef r) ++
    required "status" (RegisterWarehouseOperatorData_Status r) ++
    required "timestamp" (RegisterWarehouseOperatorData_Timestamp r) ++ []);
  of_json := of_object (λ ms,
    x0 ← jfield RegisterWarehouseOperatorData_tags ms "operator_id";
    x1 ← jfield RegisterWarehouseOperatorData_tags ms "name";
    x2 ← jfield RegisterWarehouseOperatorData_tags ms "warehouse_id";
    x3 ← jfield RegisterWarehouseOperatorData_tags ms "region";
    x4 ← jfield RegisterWarehouseOperatorData_tags ms "video_stream_ref";
    x5 ← jfield RegisterWarehouseOperatorData_tags ms "status";
    x6 ← jfield RegisterWarehouseOperatorData_tags ms "timestamp";
    Some (mkRegisterWarehouseOperatorData x0 x1 x2 x3 x4 x5 x6));
}.

(** A class of goods is accepted. *)
Record RegisterAcceptedSkuClassData := mkRegisterAcceptedSkuClassData {
  RegisterAcceptedSkuClassData_SkuClassID : string;
  RegisterAcceptedSkuClassData_Name : string;
  RegisterAcceptedSkuClassData_GradeBand : string;
  RegisterAcceptedSkuClassData_UnitOfMeasure : string;
  RegisterAcceptedSkuClassData_NormalizedFactorBps : Z;
  RegisterAcceptedSkuClassData_StorageClass : string;
  RegisterAcceptedSkuClassData_Status : string;
  RegisterAcceptedSkuClassData_Timestamp : Z;
}.
#[export] Instance Eta_RegisterAcceptedSkuClassData : Eta RegisterAcceptedSkuClassData := λ r,
  mkRegisterAcceptedSkuClassData (RegisterAcceptedSkuClassData_SkuClassID r) (RegisterAcceptedSkuClassData_Name r) (RegisterAcceptedSkuClassData_GradeBand r) (RegisterAcceptedSkuClassData_UnitOfMeasure r) (RegisterAcceptedSkuClassData_NormalizedFactorBps r) (RegisterAcceptedSkuClassData_StorageClass r) (RegisterAcceptedSkuClassData_Status r) (RegisterAcceptedSkuClassData_Timestamp r).
Definition RegisterAcceptedSkuClassData_tags : list string :=
  ["sku_class_id"; "name"; "grade_band"; "unit_of_measure"; "normalized_factor_bps"; "storage_class"; "status"; "timestamp"].
#[export] Instance Json_RegisterAcceptedSkuClassData : Json RegisterAcceptedSkuClassData := {
  jzero := mkRegisterAcceptedSkuClassData "" "" "" "" 0 "" "" 0;
  to_json r := JObj (
    required "sku_class_id" (RegisterAcceptedSkuClassData_SkuClassID r) ++
    required "name" (RegisterAcceptedSkuClassData_Name r) ++
    required "grade_band" (RegisterAcceptedSkuClassData_GradeBand r) ++
    required "unit_of_measure" (RegisterAcceptedSkuClassData_UnitOfMeasure r) ++
    required "normalized_factor_bps" (RegisterAcceptedSkuClassData_NormalizedFactorBps r) ++
    required "storage_class" (RegisterAcceptedSkuClassData_StorageClass r) ++
    required "status" (RegisterAcceptedSkuClassData_Status r) ++
    required "timestamp" (RegisterAcceptedSkuClassData_Timestamp r) ++ []);
  of_json := of_object (λ ms,
    x0 ← jfield RegisterAcceptedSkuClassData_tags ms "sku_class_id";
    x1 ← jfield RegisterAcceptedSkuClassData_tags ms "name";
    x2 ← jfield RegisterAcceptedSkuClassData_tags ms "grade_band";
    x3 ← jfield RegisterAcceptedSkuClassData_tags ms "unit_of_measure";
    x4 ← jfield_with of_json_uint32 0 RegisterAcceptedSkuClassData_tags ms "normalized_factor_bps";
    x5 ← jfield RegisterAcceptedSkuClassData_tags ms "storage_class";
    x6 ← jfield RegisterAcceptedSkuClassData_tags ms "status";
    x7 ← jfield RegisterAcceptedSkuClassData_tags ms "timestamp";
    Some (mkRegisterAcceptedSkuClassData x0 x1 x2 x3 x4 x5 x6 x7));
}.

(** A lot enters custody. *)
Record RecordCustodyIntakeLotData := mkRecordCustodyIntakeLotData {
  RecordCustodyIntakeLotData_LotID : string;
  RecordCustodyIntakeLotData_PolicyID : string;
  RecordCustodyIntakeLotData_AssetID : string;
  RecordCustodyIntakeLotData_OperatorID : string;
  RecordCustodyIntakeLotData_WarehouseID : string;
  RecordCustodyIntakeLotData_AccountCommitment : string;
  RecordCustodyIntakeLotData_SkuClassID : string;
  RecordCustodyIntakeLotData_Quantity : Z;
  RecordCustodyIntakeLotData_MintedAmount : Z;
  RecordCustodyIntakeLotData_OperatorFeeAmount : Z;
  RecordCustodyIntakeLotData_ShippingCostAmount : Z;
  RecordCustodyIntakeLotData_StorageReserveAmount : Z;
  RecordCustodyIntakeLotData_VideoSessionRef : string;
  RecordCustodyIntakeLotData_EvidenceRefs : slice string;
  RecordCustodyIntakeLotData_Timestamp : Z;
}.
#[export] Instance Eta_RecordCustodyIntakeLotData : Eta RecordCustodyIntakeLotData := λ r,
  mkRecordCustodyIntakeLotData (RecordCustodyIntakeLotData_LotID r) (RecordCustodyIntakeLotData_PolicyID r) (RecordCustodyIntakeLotData_AssetID r) (RecordCustodyIntakeLotData_OperatorID r) (RecordCustodyIntakeLotData_WarehouseID r) (RecordCustodyIntakeLotData_AccountCommitment r) (RecordCustodyIntakeLotData_SkuClassID r) (RecordCustodyIntakeLotData_Quantity r) (RecordCustodyIntakeLotData_MintedAmount r) (RecordCustodyIntakeLotData_OperatorFeeAmount r) (RecordCustodyIntakeLotData_ShippingCostAmount r) (RecordCustodyIntakeLotData_StorageReserveAmount r) (RecordCustodyIntakeLotData_VideoSessionRef r) (RecordCustodyIntakeLotData_EvidenceRefs r) (RecordCustodyIntakeLotData_Timestamp r).
Definition RecordCustodyIntakeLotData_tags : list string :=
  ["lot_id"; "policy_id"; "asset_id"; "operator_id"; "warehouse_id"; "account_commitment"; "sku_class_id"; "quantity"; "minted_amount"; "operator_fee_amount"; "shipping_cost_amount"; "storage_reserve_amount"; "video_session_ref"; "evidence_refs"; "timestamp"].
#[export] Instance Json_RecordCustodyIntakeLotData : Json RecordCustodyIntakeLotData := {
  jzero := mkRecordCustodyIntakeLotData "" "" "" "" "" "" "" 0 0 0 0 0 "" None 0;
  to_json r := JObj (
    required "lot_id" (RecordCustodyIntakeLotData_LotID r) ++
    required "policy_id" (RecordCustodyIntakeLotData_PolicyID r) ++
    required "asset_id" (RecordCustodyIntakeLotData_AssetID r) ++
    required "operator_id" (RecordCustodyIntakeLotData_OperatorID r) ++
    required "warehouse_id" (RecordCustodyIntakeLotData_WarehouseID r) ++
    required "account_commitment" (RecordCustodyIntakeLotData_AccountCommitment r) ++
    required "sku_class_id" (RecordCustodyIntakeLotData_SkuClassID r) ++
    required "quantity" (RecordCustodyIntakeLotData_Quantity r) ++
    required "minted_amount" (RecordCustodyIntakeLotData_MintedAmount r) ++
    required "operator_fee_amount" (RecordCustodyIntakeLotData_OperatorFeeAmount r) ++
    required "shipping_cost_amount" (RecordCustodyIntakeLotData_ShippingCostAmount r) ++
    required "storage_reserve_amount" (RecordCustodyIntakeLotData_StorageReserveAmount r) ++
    required "video_session_ref" (RecordCustodyIntakeLotData_VideoSessionRef r) ++
    required "evidence_refs" (RecordCustodyIntakeLotData_EvidenceRefs r) ++
    required "timestamp" (RecordCustodyIntakeLotData_Timestamp r) ++ []);
  of_json := of_object (λ ms,
    x0 ← jfield RecordCustodyIntakeLotData_tags ms "lot_id";
    x1 ← jfield RecordCustodyIntakeLotData_tags ms "policy_id";
    x2 ← jfield RecordCustodyIntakeLotData_tags ms "asset_id";
    x3 ← jfield RecordCustodyIntakeLotData_tags ms "operator_id";
    x4 ← jfield RecordCustodyIntakeLotData_tags ms "warehouse_id";
    x5 ← jfield RecordCustodyIntakeLotData_tags ms "account_commitment";
    x6 ← jfield RecordCustodyIntakeLotData_tags ms "sku_class_id";
    x7 ← jfield RecordCustodyIntakeLotData_tags ms "quantity";
    x8 ← jfield RecordCustodyIntakeLotData_tags ms "minted_amount";
    x9 ← jfield RecordCustodyIntakeLotData_tags ms "operator_fee_amount";
    x10 ← jfield RecordCustodyIntakeLotData_tags ms "shipping_cost_amount";
    x11 ← jfield RecordCustodyIntakeLotData_tags ms "storage_reserve_amount";
    x12 ← jfield RecordCustodyIntakeLotData_tags ms "video_session_ref";
    x13 ← jfield RecordCustodyIntakeLotData_tags ms "evidence_refs";
    x14 ← jfield RecordCustodyIntakeLotData_tags ms "timestamp";
    Some (mkRecordCustodyIntakeLotData x0 x1 x2 x3 x4 x5 x6 x7 x8 x9 x10 x11 x12 x13 x14));
}.

(** A redemption is requested. *)
Record RequestCustodyRedemptionData := mkRequestCustodyRedemptionData {
  RequestCustodyRedemptionData_RequestID : string;
  RequestCustodyRedemptionData_AssetID : string;
  RequestCustodyRedemptionData_AccountCommitment : string;
  RequestCustodyRedemptionData_WarehouseID : string;
  RequestCustodyRedemptionData_SkuClassID : string;
  RequestCustodyRedemptionData_SiloAmount : Z;
  RequestCustodyRedemptionData_RequestedQuantity : Z;
  RequestCustodyRedemptionData_DestinationRef : string;
  RequestCustodyRedemptionData_Timestamp : Z;
}.
#[export] Instance Eta_RequestCustodyRedemptionData : Eta RequestCustodyRedemptionData := λ r,
  mkRequestCustodyRedemptionData (RequestCustodyRedemptionData_RequestID r) (RequestCustodyRedemptionData_AssetID r) (RequestCustodyRedemptionData_AccountCommitment r) (RequestCustodyRedemptionData_WarehouseID r) (RequestCustodyRedemptionData_SkuClassID r) (RequestCustodyRedemptionData_SiloAmount r) (RequestCustodyRedemptionData_RequestedQuantity r) (RequestCustodyRedemptionData_DestinationRef r) (RequestCustodyRedemptionData_Timestamp r).
Definition RequestCustodyRedemptionData_tags : list string :=
  ["request_id"; "asset_id"; "account_commitment"; "warehouse_id"; "sku_class_id"; "silo_amount"; "requested_quantity"; "destination_ref"; "timestamp"].
#[export] Instance Json_RequestCustodyRedemptionData : Json RequestCustodyRedemptionData := {
  jzero := mkRequestCustodyRedemptionData "" "" "" "" "" 0 0 "" 0;
  to_json r := JObj (
    required "request_id" (RequestCustodyRedemptionData_RequestID r) ++
    required "asset_id" (RequestCustodyRedemptionData_AssetID r) ++
    required "account_commitment" (RequestCustodyRedemptionData_AccountCommitment r) ++
    required "warehouse_id" (RequestCustodyRedemptionData_WarehouseID r) ++
    required "sku_class_id" (RequestCustodyRedemptionData_SkuClassID r) ++
    required "silo_amount" (RequestCustodyRedemptionData_SiloAmount r) ++
    required "requested_quantity" (RequestCustodyRedemptionData_RequestedQuantity r) ++
    required "destination_ref" (RequestCustodyRedemptionData_DestinationRef r) ++
    required "timestamp" (RequestCustodyRedemptionData_Timestamp r) ++ []);
  of_json := of_object (λ ms,
    x0 ← jfield RequestCustodyRedemptionData_tags ms "request_id";
    x1 ← jfield RequestCustodyRedemptionData_tags ms "asset_id";
    x2 ← jfield RequestCustodyRedemptionData_tags ms "account_commitment";
    x3 ← jfield RequestCustodyRedemptionData_tags ms "warehouse_id";
    x4 ← jfield RequestCustodyRedemptionData_tags ms "sku_class_id";
    x5 ← jfield RequestCustodyRedemptionData_tags ms "silo_amount";
    x6 ← jfield RequestCustodyRedemptionData_tags ms "requested_quantity";
    x7 ← jfield RequestCustodyRedemptionData_tags ms "destination_ref";
    x8 ← jfield RequestCustodyRedemptionData_tags ms "timestamp";
    Some (mkRequestCustodyRedemptionData x0 x1 x2 x3 x4 x5 x6 x7 x8));
}.

(** A redemption is settled. *)
Record SettleCustodyRedemptionData := mkSettleCustodyRedemptionData {
  SettleCustodyRedemptionData_SettlementID : string;
  SettleCustodyRedemptionData_RequestID : string;
  SettleCustodyRedemptionData_OperatorID : string;
  SettleCustodyRedemptionData_WarehouseID : string;
  SettleCustodyRedemptionData_FulfillmentRef : string;
  SettleCustodyRedemptionData_BurnAmount : Z;
  SettleCustodyRedemptionData_SettledQuantity : Z;
  SettleCustodyRedemptionData_SettledAt : Z;
}.
#[export] Instance Eta_SettleCustodyRedemptionData : Eta SettleCustodyRedemptionData := λ r,
  mkSettleCustodyRedemptionData (SettleCustodyRedemptionData_SettlementID r) (SettleCustodyRedemptionData_RequestID r) (SettleCustodyRedemptionData_OperatorID r) (SettleCustodyRedemptionData_WarehouseID r) (SettleCustodyRedemptionData_FulfillmentRef r) (SettleCustodyRedemptionData_BurnAmount r) (SettleCustodyRedemptionData_SettledQuantity r) (SettleCustodyRedemptionData_SettledAt r).
Definition SettleCustodyRedemptionData_tags : list string :=
  ["settlement_id"; "request_id"; "operator_id"; "warehouse_id"; "fulfillment_ref"; "burn_amount"; "settled_quantity"; "settled_at"].
#[export] Instance Json_SettleCustodyRedemptionData : Json SettleCustodyRedemptionData := {
  jzero := mkSettleCustodyRedemptionData "" "" "" "" "" 0 0 0;
  to_json r := JObj (
    required "settlement_id" (SettleCustodyRedemptionData_SettlementID r) ++
    required "request_id" (SettleCustodyRedemptionData_RequestID r) ++
    required "operator_id" (SettleCustodyRedemptionData_OperatorID r) ++
    required "warehouse_id" (SettleCustodyRedemptionData_WarehouseID r) ++
    required "fulfillment_ref" (SettleCustodyRedemptionData_FulfillmentRef r) ++
    required "burn_amount" (SettleCustodyRedemptionData_BurnAmount r) ++
    required "settled_quantity" (SettleCustodyRedemptionData_SettledQuantity r) ++
    required "settled_at" (SettleCustodyRedemptionData_SettledAt r) ++ []);
  of_json := of_object (λ ms,
    x0 ← jfield SettleCustodyRedemptionData_tags ms "settlement_id";
    x1 ← jfield SettleCustodyRedemptionData_tags ms "request_id";
    x2 ← jfield SettleCustodyRedemptionData_tags ms "operator_id";
    x3 ← jfield SettleCustodyRedemptionData_tags ms "warehouse_id";
    x4 ← jfield SettleCustodyRedemptionData_tags ms "fulfillment_ref";
    x5 ← jfield SettleCustodyRedemptionData_tags ms "burn_amount";
    x6 ← jfield SettleCustodyRedemptionData_tags ms "settled_quantity";
    x7 ← jfield SettleCustodyRedemptionData_tags ms "settled_at";
    Some (mkSettleCustodyRedemptionData x0 x1 x2 x3 x4 x5 x6 x7));
}.

(** A two-party authority action against an account. *)
Record AdverseActionData := mkAdverseActionData {
  AdverseActionData_ActionID : string;
  AdverseActionData_ActionNonce : string;
  AdverseActionData_AccountCommitment : string;
  AdverseActionData_AssetID : string;
  AdverseActionData_ActionType : string;
  AdverseActionData_ReferencedActionID : string;
  AdverseActionData_EligibilityAuth : gobytes;
  AdverseActionData_ReconciliationAuth : gobytes;
  AdverseActionData_Reason : string;
  AdverseActionData_Timestamp : Z;
}.
#[export] Instance Eta_AdverseActionData : Eta AdverseActionData := λ r,
  mkAdverseActionData (AdverseActionData_ActionID r) (AdverseActionData_ActionNonce r) (AdverseActionData_AccountCommitment r) (AdverseActionData_AssetID r) (AdverseActionData_ActionType r) (AdverseActionData_ReferencedActionID r) (AdverseActionData_EligibilityAuth r) (AdverseActionData_ReconciliationAuth r) (AdverseActionData_Reason r) (AdverseActionData_Timestamp r).
Definition AdverseActionData_tags : list string :=
  ["action_id"; "action_nonce"; "account_commitment"; "asset_id"; "action_type"; "referenced_action_id"; "eligibility_auth"; "reconciliation_auth"; "reason"; "timestamp"].
#[export] Instance Json_AdverseActionData : Json AdverseActionData := {
  jzero := mkAdverseActionData "" "" "" "" "" "" None None "" 0;
  to_json r := JObj (
    required "action_id" (AdverseActionData_ActionID r) ++
    required "action_nonce" (AdverseActionData_ActionNonce r) ++
    required "account_commitment" (AdverseActionData_AccountCommitment r) ++
    required "asset_id" (AdverseActionData_AssetID r) ++
    required "action_type" (AdverseActionData_ActionType r) ++
    omit_str "referenced_action_id" (AdverseActionData_ReferencedActionID r) ++
    required "eligibility_auth" (AdverseActionData_EligibilityAuth r) ++
    required "reconciliation_auth" (AdverseActionData_ReconciliationAuth r) ++
    required "reason" (AdverseActionData_Reason r) ++
    required "timestamp" (AdverseActionData_Timestamp r) ++ []);
  of_json := of_object (λ ms,
    x0 ← jfield AdverseActionData_tags ms "action_id";
    x1 ← jfield AdverseActionData_tags ms "action_nonce";
    x2 ← jfield AdverseActionData_tags ms "account_commitment";
    x3 ← jfield AdverseActionData_tags ms "asset_id";
    x4 ← jfield AdverseActionData_tags ms "action_type";
    x5 ← jfield AdverseActionData_tags ms "referenced_action_id";
    x6 ← jfield AdverseActionData_tags ms "eligibility_auth";
    x7 ← jfield AdverseActionData_tags ms "reconciliation_auth";
    x8 ← jfield AdverseActionData_tags ms "reason";
    x9 ← jfield AdverseActionData_tags ms "timestamp";
    Some (mkAdverseActionData x0 x1 x2 x3 x4 x5 x6 x7 x8 x9));
}.

(** A storage charge is applied. *)
Record ApplyCustodyDemurrageData := mkApplyCustodyDemurrageData {
  ApplyCustodyDemurrageData_AssessmentID : string;
  ApplyCustodyDemurrageData_AssetID : string;
  ApplyCustodyDemurrageData_AccountCommitment : string;
  ApplyCustodyDemurrageData_PolicyID : string;
  ApplyCustodyDemurrageData_Amount : Z;
  ApplyCustodyDemurrageData_PeriodStart : Z;
  ApplyCustodyDemurrageData_PeriodEnd : Z;
  ApplyCustodyDemurrageData_Reason : string;
  ApplyCustodyDemurrageData_AppliedAt : Z;
}.
#[export] Instance Eta_ApplyCustodyDemurrageData : Eta ApplyCustodyDemurrageData := λ r,
  mkApplyCustodyDemurrageData (ApplyCustodyDemurrageData_AssessmentID r) (ApplyCustodyDemurrageData_AssetID r) (ApplyCustodyDemurrageData_AccountCommitment r) (ApplyCustodyDemurrageData_PolicyID r) (ApplyCustodyDemurrageData_Amount r) (ApplyCustodyDemurrageData_PeriodStart r) (ApplyCustodyDemurrageData_PeriodEnd r) (ApplyCustodyDemurrageData_Reason r) (ApplyCustodyDemurrageData_AppliedAt r).
Definition ApplyCustodyDemurrageData_tags : list string :=
  ["assessment_id"; "asset_id"; "account_commitment"; "policy_id"; "amount"; "period_start"; "period_end"; "reason"; "applied_at"].
#[export] Instance Json_ApplyCustodyDemurrageData : Json ApplyCustodyDemurrageData := {
  jzero := mkApplyCustodyDemurrageData "" "" "" "" 0 0 0 "" 0;
  to_json r := JObj (
    required "assessment_id" (ApplyCustodyDemurrageData_AssessmentID r) ++
    required "asset_id" (ApplyCustodyDemurrageData_AssetID r) ++
    required "account_commitment" (ApplyCustodyDemurrageData_AccountCommitment r) ++
    required "policy_id" (ApplyCustodyDemurrageData_PolicyID r) ++
    required "amount" (ApplyCustodyDemurrageData_Amount r) ++
    required "period_start" (ApplyCustodyDemurrageData_PeriodStart r) ++
    required "period_end" (ApplyCustodyDemurrageData_PeriodEnd r) ++
    required "reason" (ApplyCustodyDemurrageData_Reason r) ++
    required "applied_at" (ApplyCustodyDemurrageData_AppliedAt r) ++ []);
  of_json := of_object (λ ms,
    x0 ← jfield ApplyCustodyDemurrageData_tags ms "assessment_id";
    x1 ← jfield ApplyCustodyDemurrageData_tags ms "asset_id";
    x2 ← jfield ApplyCustodyDemurrageData_tags ms "account_commitment";
    x3 ← jfield ApplyCustodyDemurrageData_tags ms "policy_id";
    x4 ← jfield ApplyCustodyDemurrageData_tags ms "amount";
    x5 ← jfield ApplyCustodyDemurrageData_tags ms "period_start";
    x6 ← jfield ApplyCustodyDemurrageData_tags ms "period_end";
    x7 ← jfield ApplyCustodyDemurrageData_tags ms "reason";
    x8 ← jfield ApplyCustodyDemurrageData_tags ms "applied_at";
    Some (mkApplyCustodyDemurrageData x0 x1 x2 x3 x4 x5 x6 x7 x8));
}.

Section validate.
Context {St : Type}.
Abbreviation V := (M St unit).

(** [a == "" || b == "" || ...]. *)
Definition any_empty (l : list string) : bool := existsb str_empty l.

Definition Validate_RegisterAsset (t : Tx) : V :=
  d ← or_fail (UnmarshalData (A := RegisterAssetData) t) (bad_json "invalid register asset data: %w");
  fail_if (str_empty (RegisterAssetData_AssetID d))
    (Errorf "missing asset_id" []).
Definition Validate_MintBurn (t : Tx) : V :=
  d ← or_fail (UnmarshalData (A := MintData) t) (bad_json "invalid mint/burn data: %w");
  fail_if (any_empty [MintData_AssetID d; MintData_AccountCommitment d] || (MintData_Amount d <=? 0))
    (Errorf "invalid mint/burn payload" []).
Definition Validate_Transfer (t : Tx) : V :=
  d ← or_fail (UnmarshalData (A := TransferData) t) (bad_json "invalid transfer data: %w");
  fail_if (any_empty [TransferData_AssetID d; TransferData_SenderCommitment d;
      TransferData_RecipientCommitment d])
    (Errorf "missing transfer commitments" []) ;;
  fail_if ((TransferData_Amount d <=? 0) || any_empty [TransferData_Nullifier d; TransferData_TransferNonce d])
    (Errorf "invalid transfer payload" []).
Definition Validate_RegisterAccount (t : Tx) : V :=
  d ← or_fail (UnmarshalData (A := RegisterAccountData) t) (bad_json "invalid register account data: %w");
  fail_if (str_empty (RegisterAccountData_AccountCommitment d) || (blen (RegisterAccountData_WalletProof d) =? 0))
    (Errorf "invalid register account payload" []) ;;
  fail_if (xorb (str_empty (RegisterAccountData_EnrollmentToken d)) (blen (RegisterAccountData_EnrollmentProof d) =? 0))
    (Errorf "enrollment_token and enrollment_proof must both be present or both be omitted" []).
Definition Validate_RegisterContract (t : Tx) : V :=
  d ← or_fail (UnmarshalData (A := RegisterContractData) t) (bad_json "invalid contract data: %w");
  fail_if (str_empty (RegisterContractData_ContractID d))
    (Errorf "missing contract_id" []) ;;
  fail_if (str_empty (RegisterContractData_ContractHash d))
    (Errorf "missing contract_hash" []) ;;
  fail_if (str_empty (RegisterContractData_ContractType d))
    (Errorf "missing contract_type" []) ;;
  fail_if (len (RegisterContractData_Parties d) =? 0)
    (Errorf "contract must have at least one party" []) ;;
  range (elems (RegisterContractData_Parties d)) (λ _ p,
    fail_if (str_empty (ContractParty_Commitment p)) (Errorf "party commitment must not be empty" [])).
Definition Validate_ActivateContract (t : Tx) : V :=
  d ← or_fail (UnmarshalData (A := ActivateContractData) t) (bad_json "invalid contract activation data: %w");
  fail_if (any_empty [ActivateContractData_ContractID d; ActivateContractData_EvidenceHash d])
    (Errorf "missing contract_id or evidence_hash" []).
Definition Validate_ExecuteContract (t : Tx) : V :=
  d ← or_fail (UnmarshalData (A := ExecuteContractData) t) (bad_json "invalid contract execution data: %w");
  fail_if (any_empty [ExecuteContractData_ContractID d; ExecuteContractData_PartyCommitment d])
    (Errorf "missing contract_id or party_commitment" []) ;;
  fail_if (str_empty (ExecuteContractData_SourceRef d))
    (Errorf "missing source_ref" []) ;;
  fail_if (any_empty [ExecuteContractData_Nullifier d; ExecuteContractData_TransferNonce d])
    (Errorf "missing nullifier or transfer_nonce" []).
Definition Validate_RegisterConsortiumPolicy (t : Tx) : V :=
  d ← or_fail (UnmarshalData (A := RegisterConsortiumPolicyData) t) (bad_json "invalid consortium policy data: %w");
  fail_if (any_empty [RegisterConsortiumPolicyData_PolicyID d; RegisterConsortiumPolicyData_AssetID d;
      RegisterConsortiumPolicyData_Name d])
    (Errorf "missing consortium policy identity" []) ;;
  fail_if ((len (RegisterConsortiumPolicyData_ActiveOperatorIDs d) =? 0) || (len (RegisterConsortiumPolicyData_AcceptedSkuClassIDs d) =? 0))
    (Errorf "policy must declare operators and accepted sku classes" []) ;;
  fail_if (any_empty [RegisterConsortiumPolicyData_UnitOfMeasure d;
      RegisterConsortiumPolicyData_QuantityNormalization d;
      RegisterConsortiumPolicyData_RedemptionMode d;
      RegisterConsortiumPolicyData_RedemptionRouting d])
    (Errorf "missing consortium policy mechanics" []).
Definition Validate_RegisterWarehouseOperator (t : Tx) : V :=
  d ← or_fail (UnmarshalData (A := RegisterWarehouseOperatorData) t) (bad_json "invalid warehouse operator data: %w");
  fail_if (any_empty [RegisterWarehouseOperatorData_OperatorID d; RegisterWarehouseOperatorData_Name d;
      RegisterWarehouseOperatorData_WarehouseID d; RegisterWarehouseOperatorData_Status d])
    (Errorf "missing warehouse operator identity" []).
Definition Validate_RegisterAcceptedSkuClass (t : Tx) : V :=
  d ← or_fail (UnmarshalData (A := RegisterAcceptedSkuClassData) t) (bad_json "invalid accepted sku data: %w");
  fail_if (any_empty [RegisterAcceptedSkuClassData_SkuClassID d; RegisterAcceptedSkuClassData_Name d;
      RegisterAcceptedSkuClassData_GradeBand d; RegisterAcceptedSkuClassData_UnitOfMeasure d;
      RegisterAcceptedSkuClassData_Status d])
    (Errorf "missing accepted sku metadata" []) ;;
  fail_if (RegisterAcceptedSkuClassData_NormalizedFactorBps d =? 0)
    (Errorf "normalized_factor_bps must be > 0" []).
Definition Validate_RecordCustodyIntakeLot (t : Tx) : V :=
  d ← or_fail (UnmarshalData (A := RecordCustodyIntakeLotData) t) (bad_json "invalid custody intake lot data: %w");
  fail_if (any_empty [RecordCustodyIntakeLotData_LotID d; RecordCustodyIntakeLotData_PolicyID d;
      RecordCustodyIntakeLotData_AssetID d; RecordCustodyIntakeLotData_OperatorID d;
      RecordCustodyIntakeLotData_WarehouseID d; RecordCustodyIntakeLotData_AccountCommitment d;
      RecordCustodyIntakeLotData_SkuClassID d])
    (Errorf "missing custody intake lot identity" []) ;;
  fail_if ((RecordCustodyIntakeLotData_Quantity d <=? 0) || (RecordCustodyIntakeLotData_MintedAmount d <=? 0))
    (Errorf "custody intake lot quantity and minted amount must be > 0" []) ;;
  fail_if (str_empty (RecordCustodyIntakeLotData_VideoSessionRef d) || (len (RecordCustodyIntakeLotData_EvidenceRefs d) =? 0))
    (Errorf "custody intake lot requires evidence references" []).
Definition Validate_RequestCustodyRedemption (t : Tx) : V :=
  d ← or_fail (UnmarshalData (A := RequestCustodyRedemptionData) t) (bad_json "invalid custody redemption request data: %w");
  fail_if (any_empty [RequestCustodyRedemptionData_RequestID d; RequestCustodyRedemptionData_AssetID d;
      RequestCustodyRedemptionData_AccountCommitment d;
      RequestCustodyRedemptionData_WarehouseID d; RequestCustodyRedemptionData_SkuClassID d])
    (Errorf "missing custody redemption request identity" []) ;;
  fail_if ((RequestCustodyRedemptionData_SiloAmount d <=? 0) || (RequestCustodyRedemptionData_RequestedQuantity d <=? 0))
    (Errorf "custody redemption amounts must be > 0" []).
Definition Validate_SettleCustodyRedemption (t : Tx) : V :=
  d ← or_fail (UnmarshalData (A := SettleCustodyRedemptionData) t) (bad_json "invalid custody redemption settlement data: %w");
  fail_if (any_empty [SettleCustodyRedemptionData_SettlementID d; SettleCustodyRedemptionData_RequestID d;
      SettleCustodyRedemptionData_OperatorID d; SettleCustodyRedemptionData_WarehouseID d;
      SettleCustodyRedemptionData_FulfillmentRef d])
    (Errorf "missing custody settlement identity" []) ;;
  fail_if ((SettleCustodyRedemptionData_BurnAmount d <=? 0) || (SettleCustodyRedemptionData_SettledQuantity d <=? 0) || (SettleCustodyRedemptionData_SettledAt d <=? 0))
    (Errorf "custody settlement amounts must be > 0" []).
Definition Validate_ApplyCustodyDemurrage (t : Tx) : V :=
  d ← or_fail (UnmarshalData (A := ApplyCustodyDemurrageData) t) (bad_json "invalid custody demurrage data: %w");
  fail_if (any_empty [ApplyCustodyDemurrageData_AssessmentID d; ApplyCustodyDemurrageData_AssetID d;
      ApplyCustodyDemurrageData_AccountCommitment d; ApplyCustodyDemurrageData_PolicyID d;
      ApplyCustodyDemurrageData_Reason d])
    (Errorf "missing custody demurrage identity" []) ;;
  fail_if ((ApplyCustodyDemurrageData_Amount d <=? 0) || (ApplyCustodyDemurrageData_AppliedAt d <=? 0) || (ApplyCustodyDemurrageData_PeriodEnd d <=? ApplyCustodyDemurrageData_PeriodStart d))
    (Errorf "invalid custody demurrage payload" []).
(** The action types. *)
Definition known_action (a : string) : bool :=
  bool_decide (a ∈ ["disable"; "freeze"; "rescind"; "restore"; "redeem_forced"]).
Definition Validate_AdverseAction (t : Tx) : V :=
  d ← or_fail (UnmarshalData (A := AdverseActionData) t) (bad_json "invalid adverse action data: %w");
  fail_if (any_empty [AdverseActionData_ActionID d; AdverseActionData_ActionNonce d])
    (Errorf "adverse action: action_id and action_nonce are required" []) ;;
  fail_if (str_empty (AdverseActionData_AccountCommitment d))
    (Errorf "adverse action: account_commitment is required" []) ;;
  fail_if (str_empty (AdverseActionData_Reason d))
    (Errorf "adverse action: reason is required" []) ;;
  fail_if (AdverseActionData_Timestamp d <=? 0)
    (Errorf "adverse action: timestamp is required" []) ;;
  fail_if (negb (known_action (AdverseActionData_ActionType d)))
    (Errorf "adverse action: unknown action_type %q" [FStr (AdverseActionData_ActionType d)]) ;;
  fail_if ((blen (AdverseActionData_EligibilityAuth d) =? 0) || (blen (AdverseActionData_ReconciliationAuth d) =? 0))
    (Errorf "adverse action: both eligibility_auth and reconciliation_auth are required" []).

(** [Validate]; a validator registration has no case of its own. *)
Definition Validate (t : Tx) : V :=
  let ty := Tx_Type t in
  fail_if (negb ((TxTypeRegisterAsset <=? ty) && (ty <=? TxTypeAdverseAction)))
    (Errorf "invalid tx type: %d" [FInt ty]) ;;
  fail_if (blen (Tx_Signature t) =? 0) (Errorf "missing signature" []) ;;
  fail_if (no_data t) (Errorf "missing data" []) ;;
  if ty =? TxTypeRegisterAsset then Validate_RegisterAsset t
  else if ty =? TxTypeMint then Validate_MintBurn t
  else if ty =? TxTypeBurn then Validate_MintBurn t
  else if ty =? TxTypeTransfer then Validate_Transfer t
  else if ty =? TxTypeRegisterAccount then Validate_RegisterAccount t
  else if ty =? TxTypeRegisterContract then Validate_RegisterContract t
  else if ty =? TxTypeActivateContract then Validate_ActivateContract t
  else if ty =? TxTypeExecuteContract then Validate_ExecuteContract t
  else if ty =? TxTypeRegisterConsortiumPolicy then Validate_RegisterConsortiumPolicy t
  else if ty =? TxTypeRegisterWarehouseOperator then Validate_RegisterWarehouseOperator t
  else if ty =? TxTypeRegisterAcceptedSkuClass then Validate_RegisterAcceptedSkuClass t
  else if ty =? TxTypeRecordCustodyIntakeLot then Validate_RecordCustodyIntakeLot t
  else if ty =? TxTypeRequestCustodyRedemption then Validate_RequestCustodyRedemption t
  else if ty =? TxTypeSettleCustodyRedemption then Validate_SettleCustodyRedemption t
  else if ty =? TxTypeApplyCustodyDemurrage then Validate_ApplyCustodyDemurrage t
  else if ty =? TxTypeAdverseAction then Validate_AdverseAction t
  else mret tt.
End validate.
