(* ===== verification/WireState.v ===== *)
(** embodiments/shywire/state: the state of the transfer protocol, its options and
    the helpers its handlers share.

    Maps of pointers are maps of records: each handler mutates a record through the
    map, and no pointer is reachable from two keys.  Dereferencing a missing entry
    panics ([update_*]). *)
From S2P Require Import Prelude GoStd Json TxData TxValidate WireTypes WireTx.

Record State := mkState {
  enrollmentAuthorityPubKey : gobytes;
  eligibilityAuthorityPubKey : gobytes;
  reconciliationAuthorityPubKey : gobytes;
  assets : gmap string AssetRecord;
  accounts : gmap string AccountRecord;
  supply : gmap string SupplyRecord;
  transferRecords : gmap string TransferRecord;
  participants : gmap string ParticipantRecord;
  contracts : gmap string ContractRecord;
  contractExecutions : gmap string ContractExecutionRecord;
  consortiumPolicies : gmap string ConsortiumPolicyRecord;
  warehouseOperators : gmap string WarehouseOperatorRecord;
  acceptedSkuClasses : gmap string AcceptedSkuClassRecord;
  intakeLots : gmap string IntakeLotRecord;
  redemptionRequests : gmap string RedemptionRequestRecord;
  redemptionSettlements : gmap string RedemptionSettlementRecord;
  demurrageAssessments : gmap string DemurrageAssessmentRecord;
  enrollmentRecords : gmap string EnrollmentRecord;
  authorityActions : gmap string AuthorityActionRecord;
  validators : gmap string ValidatorRecord;
  currentCustodyPolicyID : string;
  pendingValidatorUpdates : list ValidatorUpdate;
  height : Z;
  appHash : gobytes;
  dirty : bool;
}.
#[export] Instance Eta_State : Eta State := λ r,
  mkState (enrollmentAuthorityPubKey r) (eligibilityAuthorityPubKey r) (reconciliationAuthorityPubKey r)
    (assets r) (accounts r) (supply r) (transferRecords r) (participants r) (contracts r)
    (contractExecutions r) (consortiumPolicies r) (warehouseOperators r) (acceptedSkuClasses r)
    (intakeLots r) (redemptionRequests r) (redemptionSettlements r) (demurrageAssessments r)
    (enrollmentRecords r) (authorityActions r) (validators r) (currentCustodyPolicyID r)
    (pendingValidatorUpdates r) (height r) (appHash r) (dirty r).

(** [Options]: the deployment gates. *)
Record Options := mkOptions {
  EnrollmentAuthorityPubKey : gobytes;
  EligibilityAuthorityPubKey : gobytes;
  ReconciliationAuthorityPubKey : gobytes;
}.
(** The state [NewStateWithOptions] builds before it loads the database. *)
Definition initialState (opts : Options) : State :=
  mkState (EnrollmentAuthorityPubKey opts) (EligibilityAuthorityPubKey opts) (ReconciliationAuthorityPubKey opts)
    ∅ ∅ ∅ ∅ ∅ ∅ ∅ ∅ ∅ ∅ ∅ ∅ ∅ ∅ ∅ ∅ ∅ "" [] 0 None false.

Definition GetInfo (s : State) : Z * gobytes := (height s, appHash s).
Definition GetPendingValidatorUpdates : M State (list ValidatorUpdate) :=
  updates ← gets pendingValidatorUpdates;
  modify (λ s, s <| pendingValidatorUpdates := [] |>) ;;
  mret updates.
Definition set_dirty : M State unit := modify (λ s, s <| dirty := true |>).

(** "asset_id:account_commitment"; an account is registered under the asset "_". *)
Definition account_key (assetID accountCommitment : string) : string := assetID +:+ ":" +:+ accountCommitment.
Definition sentinel : string := "_".

(** [p := m[k]; p.F = v]: a nil dereference when the key is missing. *)
Definition update_account (key : string) (f : AccountRecord → AccountRecord) : M State unit :=
  m ← gets accounts; _ ← or_panic (m !! key); modify (λ s, s <| accounts ::= alter f key |>).
Definition update_supply (assetID : string) (f : SupplyRecord → SupplyRecord) : M State unit :=
  m ← gets supply; _ ← or_panic (m !! assetID); modify (λ s, s <| supply ::= alter f assetID |>).
Definition update_asset (assetID : string) (f : AssetRecord → AssetRecord) : M State unit :=
  m ← gets assets; _ ← or_panic (m !! assetID); modify (λ s, s <| assets ::= alter f assetID |>).
Definition update_contract (contractID : string) (f : ContractRecord → ContractRecord) : M State unit :=
  m ← gets contracts; _ ← or_panic (m !! contractID); modify (λ s, s <| contracts ::= alter f contractID |>).

(** [acct.Balance op amount; acct.UpdatedAt = now; acct.Height = s.height]. *)
Definition move_balance (op : Z → Z) (now : option Z) (h : Z) (a : AccountRecord) : AccountRecord :=
  match now with
  | Some t => a <| AccountRecord_Balance ::= op |> <| AccountRecord_UpdatedAt := t |> <| AccountRecord_Height := h |>
  | None => a <| AccountRecord_Balance ::= op |> <| AccountRecord_Height := h |>
  end.
(** The two supply blocks: minted or burned moves, and the total is recomputed. *)
Definition recompute_supply (now : Z) (r : SupplyRecord) : SupplyRecord :=
  r <| SupplyRecord_TotalSupply := int64_sub (SupplyRecord_TotalMinted r) (SupplyRecord_TotalBurned r) |>
    <| SupplyRecord_UpdatedAt := now |>.
Definition add_minted (amount now : Z) (r : SupplyRecord) : SupplyRecord :=
  recompute_supply now (r <| SupplyRecord_TotalMinted ::= λ m, int64_add m amount |>).
Definition add_burned (amount now : Z) (r : SupplyRecord) : SupplyRecord :=
  recompute_supply now (r <| SupplyRecord_TotalBurned ::= λ b, int64_add b amount |>).
(** [sup := s.supply[id]; ...; s.assets[id].TotalSupply = sup.TotalSupply]. *)
Definition change_supply (assetID : string) (f : SupplyRecord → SupplyRecord) : M State unit :=
  update_supply assetID f ;;
  m ← gets supply;
  sup ← or_panic (m !! assetID);
  update_asset assetID (λ a, a <| AssetRecord_TotalSupply := SupplyRecord_TotalSupply sup |>).

(** [append([]string(nil), l...)]: a copy; an empty one is nil. *)
Definition copy_strings (l : slice string) : slice string :=
  match elems l with [] => None | xs => Some xs end.

Section state.
Context `{C : Crypto}.
(** [hashNonce]. *)
Definition hashNonce (nonce : string) : string := fmt_x (sha256 nonce).

(** [executeRegisterValidator]; a registration is validated statelessly only. *)
Definition executeRegisterValidator (transaction : Tx) : M State (list Event) :=
  d ← or_fail (UnmarshalData (A := ValidatorRegistrationData) transaction)
        (bad_json "invalid validator registration data: %w");
  let key := ValidatorRegistrationData_PubKeyBase64 d in
  raw ← or_fail (base64_DecodeString key) (Errorf "invalid pub_key_base64: %w" [FErr base64_error]);
  modify (λ s, s <| validators ::= <[key := mkValidatorRecord key (ValidatorRegistrationData_Power d)
                                            (ValidatorRegistrationData_Name d)]> |>) ;;
  modify (λ s, s <| pendingValidatorUpdates ::=
                      λ l, l ++ [mkValidatorUpdate raw (ValidatorRegistrationData_Power d)] |>) ;;
  set_dirty ;;
  mret [mkEvent "validator_update"
          [("name", ValidatorRegistrationData_Name d, false);
           ("power", fmt_d (ValidatorRegistrationData_Power d), false)]].
End state.
