(* ===== verification/WireSupply.v ===== *)
(** embodiments/shywire/state/{supply,transfers}.go: assets, mint and burn, and the
    anonymous transfer. *)
From S2P Require Import Prelude GoStd Json TxData TxValidate WireTypes WireTx WireState.

Section supply.
Context `{C : Crypto}.

(** ** Assets *)
Definition validateRegisterAsset (transaction : Tx) : M State unit :=
  d ← or_fail (UnmarshalData (A := RegisterAssetData) transaction) (bad_json "invalid register asset data: %w");
  s ← gets (λ s, s);
  fail_if (has (assets s) (RegisterAssetData_AssetID d))
    (Errorf "asset already registered: %s" [FStr (RegisterAssetData_AssetID d)]).
Definition executeRegisterAsset (now : Z) (transaction : Tx) : M State (list Event) :=
  d ← or_fail (UnmarshalData (A := RegisterAssetData) transaction) (bad_json "invalid register asset data: %w");
  let id := RegisterAssetData_AssetID d in
  modify (λ s, s <| assets ::=
    <[id := mkAssetRecord id (RegisterAssetData_Name d) (RegisterAssetData_Decimals d) 0 now]> |>) ;;
  modify (λ s, s <| supply ::= <[id := mkSupplyRecord id 0 0 0 now]> |>) ;;
  set_dirty ;;
  mret [mkEvent "register_asset" [("asset_id", id, true)]].

(** ** Mint and burn *)
Definition validateMint (transaction : Tx) : M State unit :=
  d ← or_fail (UnmarshalData (A := MintData) transaction) (bad_json "invalid mint data: %w");
  s ← gets (λ s, s);
  fail_if (negb (has (assets s) (MintData_AssetID d))) (ErrorUnknownAsset (MintData_AssetID d)).
Definition executeMint (now : Z) (transaction : Tx) : M State (list Event) :=
  d ← or_fail (UnmarshalData (A := MintData) transaction) (bad_json "invalid mint data: %w");
  let asset := MintData_AssetID d in
  let key := account_key asset (MintData_AccountCommitment d) in
  s ← gets (λ s, s);
  (if has (accounts s) key then mret tt else
   modify (λ s, s <| accounts ::=
     <[key := mkAccountRecord (MintData_AccountCommitment d) asset 0 false false 0 (height s)]> |>)) ;;
  update_account key (move_balance (λ b, int64_add b (MintData_Amount d)) (Some now) (height s)) ;;
  change_supply asset (add_minted (MintData_Amount d) now) ;;
  set_dirty ;;
  mret [mkEvent "mint" [("asset_id", asset, true)]].

(** [if acct.Balance < need { return &ErrorInsufficientBalance{...} }]. *)
Definition check_balance (acct : AccountRecord) (commitment asset : string) (need : Z) : M State unit :=
  fail_if (AccountRecord_Balance acct <? need)
    (ErrorInsufficientBalance commitment asset (AccountRecord_Balance acct) need).

Definition validateBurn (transaction : Tx) : M State unit :=
  d ← or_fail (UnmarshalData (A := BurnData) transaction) (bad_json "invalid burn data: %w");
  s ← gets (λ s, s);
  fail_if (negb (has (assets s) (BurnData_AssetID d))) (ErrorUnknownAsset (BurnData_AssetID d)) ;;
  acct ← or_fail (accounts s !! account_key (BurnData_AssetID d) (BurnData_AccountCommitment d))
           (Errorf "account not found: %s" [FStr (BurnData_AccountCommitment d)]);
  check_balance acct (BurnData_AccountCommitment d) (BurnData_AssetID d) (BurnData_Amount d).
Definition executeBurn (now : Z) (transaction : Tx) : M State (list Event) :=
  d ← or_fail (UnmarshalData (A := BurnData) transaction) (bad_json "invalid burn data: %w");
  let asset := BurnData_AssetID d in
  s ← gets (λ s, s);
  update_account (account_key asset (BurnData_AccountCommitment d))
    (move_balance (λ b, int64_sub b (BurnData_Amount d)) (Some now) (height s)) ;;
  change_supply asset (add_burned (BurnData_Amount d) now) ;;
  set_dirty ;;
  mret [mkEvent "burn" [("asset_id", asset, true)]].

(** ** Transfers *)
Definition validateTransfer (transaction : Tx) : M State unit :=
  d ← or_fail (UnmarshalData (A := TransferData) transaction) (bad_json "invalid transfer data: %w");
  let asset := TransferData_AssetID d in
  let sender := TransferData_SenderCommitment d in
  let recipient := TransferData_RecipientCommitment d in
  s ← gets (λ s, s);
  fail_if (negb (has (assets s) asset)) (ErrorUnknownAsset asset) ;;
  fail_if (has (participants s) (TransferData_Nullifier d)) (ErrorDuplicateTransfer (TransferData_Nullifier d)) ;;
  acct ← or_fail (accounts s !! account_key asset sender) (Errorf "sender account not found: %s" [FStr sender]);
  fail_if (AccountRecord_Disabled acct) (ErrorAccountDisabled sender) ;;
  fail_if (AccountRecord_Frozen acct) (ErrorAccountFrozen sender) ;;
  check_balance acct sender asset (TransferData_Amount d) ;;
  recipAcct ← or_fail (accounts s !! account_key asset recipient)
                (Errorf "recipient account not registered: %s" [FStr recipient]);
  fail_if (AccountRecord_Disabled recipAcct) (ErrorAccountDisabled recipient).

(** List 1 and List 2 entries of a value movement. *)
Definition record_lists (transferID asset : string) (amount : Z) (nullifier : string) (now : Z) : M State unit :=
  modify (λ s, s <| transferRecords ::=
    <[transferID := mkTransferRecord transferID asset amount now (height s)]> |>) ;;
  modify (λ s, s <| participants ::= <[nullifier := mkParticipantRecord transferID nullifier (height s)]> |>).

Definition executeTransfer (now : Z) (transaction : Tx) : M State (list Event) :=
  d ← or_fail (UnmarshalData (A := TransferData) transaction) (bad_json "invalid transfer data: %w");
  let asset := TransferData_AssetID d in
  let transferID := hashNonce (TransferData_TransferNonce d) in
  record_lists transferID asset (TransferData_Amount d) (TransferData_Nullifier d) now ;;
  h ← gets height;
  update_account (account_key asset (TransferData_SenderCommitment d))
    (move_balance (λ b, int64_sub b (TransferData_Amount d)) None h) ;;
  update_account (account_key asset (TransferData_RecipientCommitment d))
    (move_balance (λ b, int64_add b (TransferData_Amount d)) None h) ;;
  set_dirty ;;
  mret [mkEvent "transfer" [("asset_id", asset, true); ("transfer_id", transferID, true)]].
End supply.
