(* ===== verification/WireAccounts.v ===== *)
(** embodiments/shywire/state/account_auth.go and the account registration of
    transfers.go: wallet ownership proofs, single-use enrollment tokens.

    Signature recovery ([ecdsa.RecoverCompact] of btcec) and Keccak-256 are library
    code and stay parameters. *)
From S2P Require Import Prelude GoStd Json TxData TxValidate WireTypes WireTx WireState.

(** [ecdsa.RecoverCompact sig hash], giving the uncompressed public key, and
    [sha3.NewLegacyKeccak256]. *)
Class Wallet : Type := {
  RecoverCompact : string → string → option string;
  keccak256 : string → string;
}.
Definition recover_error : error := Errorf "ecdsa" [].

Section auth.
Context `{C : Crypto} `{W : Wallet}.

Definition registerAccountWalletMessage (accountCommitment : string) : string :=
  sha256 ("shyware-register-account:" +:+ accountCommitment).
Definition registerAccountEnrollmentMessage (accountCommitment token : string) : string :=
  sha256 ("shyware-enroll-account:" +:+ accountCommitment +:+ ":" +:+ token).

(** [evmAddressFromPubKey]: the last 20 bytes of the digest of the key without its
    format byte. *)
Definition evmAddressFromPubKey (uncompressed : string) : string :=
  let sum := keccak256 (str_drop 1 uncompressed) in
  "0x" +:+ hex_EncodeToString (str_drop (String.length sum - 20) sum).
Definition hashAccountCommitment (walletAddress : string) : string :=
  hex_EncodeToString (sha256 (to_lower (trim_space walletAddress))).

(** [ethereumSigToCompact]: r || s || v becomes 27+v || r || s. *)
Definition ethereumSigToCompact (sig : string) : error + string :=
  if negb (slen sig =? 65) then inl (Errorf "unsupported wallet proof length %d" [FInt (slen sig)]) else
  let recID := Z.of_N (default 0%N (N_of_ascii <$> String.get 64 sig)) in
  let compact (v : Z) := String (ascii_of_N (Z.to_N (27 + v))) (str_take 32 sig) +:+ str_take 32 (str_drop 32 sig) in
  if (recID =? 27) || (recID =? 28) then inr (compact (recID - 27))
  else if (recID =? 0) || (recID =? 1) then inr (compact recID)
  else inl (Errorf "unsupported wallet recovery id %d" [FInt recID]).
Definition ethereumPersonalSignHash (message : string) : string :=
  keccak256 (String (ascii_of_N 25) "Ethereum Signed Message:" +:+ String (ascii_of_N 10) (fmt_d (slen message)) +:+ message).

(** [recoverRegisterAccountPubKey]: the proof as a compact signature of the message,
    then as an Ethereum signature of it, then of its personal-sign hash. *)
Definition recoverRegisterAccountPubKey (walletProof accountCommitment : string) : error + string :=
  let msg := registerAccountWalletMessage accountCommitment in
  match RecoverCompact walletProof msg with
  | Some pubKey => inr pubKey
  | None =>
      match ethereumSigToCompact walletProof with
      | inl e => inl (Errorf "recover wallet proof: %w" [FErr e])
      | inr compactSig =>
          match RecoverCompact compactSig msg with
          | Some pubKey => inr pubKey
          | None =>
              match RecoverCompact compactSig (ethereumPersonalSignHash msg) with
              | Some pubKey => inr pubKey
              | None => inl (Errorf "recover wallet proof: %w" [FErr recover_error])
              end
          end
      end
  end.

(** The commitments a recovered key stands for. *)
Definition commitment_candidates (pubKey : string) : list string :=
  let address := evmAddressFromPubKey pubKey in
  [hashAccountCommitment address; hashAccountCommitment (trim_prefix address "0x")].
Definition verifyRegisterAccountWalletProof (data : RegisterAccountData) : M State unit :=
  match recoverRegisterAccountPubKey (bytes_of (RegisterAccountData_WalletProof data))
          (RegisterAccountData_AccountCommitment data) with
  | inl e => failM e
  | inr pubKey =>
      fail_if (negb (bool_decide (RegisterAccountData_AccountCommitment data ∈ commitment_candidates pubKey)))
        (Errorf "wallet proof does not match account commitment" [])
  end.

Definition verifyRegisterAccountEnrollment (data : RegisterAccountData) (authorityPubKey : gobytes)
    (used : gmap string EnrollmentRecord) : M State unit :=
  if blen authorityPubKey =? 0 then mret tt else
  let token := RegisterAccountData_EnrollmentToken data in
  fail_if (str_empty token || (blen (RegisterAccountData_EnrollmentProof data) =? 0))
    (Errorf "enrollment authorization required for account registration" []) ;;
  fail_if (has used token) (Errorf "enrollment token already used" []) ;;
  ok ← or_panic (ed25519_try (bytes_of authorityPubKey)
         (registerAccountEnrollmentMessage (RegisterAccountData_AccountCommitment data) token)
         (bytes_of (RegisterAccountData_EnrollmentProof data)));
  fail_if (negb ok) (Errorf "invalid enrollment authorization" []).

Definition validateRegisterAccount (transaction : Tx) : M State unit :=
  d ← or_fail (UnmarshalData (A := RegisterAccountData) transaction) (bad_json "invalid register account data: %w");
  wrap_err (λ e, Errorf "wallet ownership proof rejected: %w" [FErr e]) (verifyRegisterAccountWalletProof d) ;;
  s ← gets (λ s, s);
  verifyRegisterAccountEnrollment d (enrollmentAuthorityPubKey s) (enrollmentRecords s) ;;
  fail_if (has (accounts s) (account_key sentinel (RegisterAccountData_AccountCommitment d)))
    (Errorf "account already registered: %s" [FStr (RegisterAccountData_AccountCommitment d)]).

Definition executeRegisterAccount (transaction : Tx) : M State (list Event) :=
  d ← or_fail (UnmarshalData (A := RegisterAccountData) transaction) (bad_json "invalid register account data: %w");
  let commitment := RegisterAccountData_AccountCommitment d in
  let token := RegisterAccountData_EnrollmentToken d in
  modify (λ s, s <| accounts ::= <[account_key sentinel commitment :=
    mkAccountRecord commitment sentinel 0 false false 0 (height s)]> |>) ;;
  (if str_empty token then mret tt else
   modify (λ s, s <| enrollmentRecords ::= <[token := mkEnrollmentRecord token commitment (height s)]> |>)) ;;
  set_dirty ;;
  mret [mkEvent "register_account" [("account_commitment", commitment, true)]].
End auth.
