(* ===== verification/WireContracts.v ===== *)
(** embodiments/shywire/state/financing.go: anonymous contracts, their activation and
    their executions. *)
From S2P Require Import Prelude GoStd Json TxData TxValidate WireTypes WireTx WireState WireSupply.

Section contracts.
Context `{C : Crypto}.

(** The key a party's account is looked up under. *)
Definition party_key (asset commitment : string) : string :=
  if str_empty asset then account_key sentinel commitment else account_key asset commitment.
Definition validateRegisterContract (transaction : Tx) : M State unit :=
  d ← or_fail (UnmarshalData (A := RegisterContractData) transaction) (bad_json "invalid contract data: %w");
  let asset := RegisterContractData_AssetID d in
  s ← gets (λ s, s);
  fail_if (has (contracts s) (RegisterContractData_ContractID d))
    (ErrorDuplicateContract (RegisterContractData_ContractID d)) ;;
  fail_if (negb (str_empty asset) && negb (has (assets s) asset)) (ErrorUnknownAsset asset) ;;
  range (elems (RegisterContractData_Parties d)) (λ _ p,
    let c := ContractParty_Commitment p in
    fail_if (negb (str_empty c) && negb (has (accounts s) (party_key asset c)))
      (Errorf "party account not registered: %s (role: %s)" [FStr c; FStr (ContractParty_Role p)])).

Definition party_record (p : ContractParty) : ContractPartyRecord :=
  mkContractPartyRecord (ContractParty_Role p) (ContractParty_Commitment p) (ContractParty_AllocationBps p)
    (ContractParty_Seniority p).
Definition new_contract (now h : Z) (d : RegisterContractData) : ContractRecord := {|
  ContractRecord_ContractID := RegisterContractData_ContractID d;
  ContractRecord_AssetID := RegisterContractData_AssetID d;
  ContractRecord_ContractType := RegisterContractData_ContractType d;
  ContractRecord_ContractHash := RegisterContractData_ContractHash d;
  ContractRecord_Parties := Some (party_record <$> elems (RegisterContractData_Parties d));
  ContractRecord_Metadata := RegisterContractData_Metadata d;
  ContractRecord_ConditionHash := "";
  ContractRecord_ConditionType := "";
  ContractRecord_ActivatedAt := 0;
  ContractRecord_ExecutionCount := 0;
  ContractRecord_TotalExecuted := 0;
  ContractRecord_ExpiryTimestamp := RegisterContractData_ExpiryTimestamp d;
  ContractRecord_Status := if RegisterContractData_PendingCondition d then "pending_condition" else "active";
  ContractRecord_CreatedAt := now;
  ContractRecord_UpdatedAt := now;
  ContractRecord_Height := h;
|}.
Definition executeRegisterContract (now : Z) (transaction : Tx) : M State (list Event) :=
  d ← or_fail (UnmarshalData (A := RegisterContractData) transaction) (bad_json "invalid contract data: %w");
  let id := RegisterContractData_ContractID d in
  modify (λ s, s <| contracts ::= <[id := new_contract now (height s) d]> |>) ;;
  set_dirty ;;
  mret [mkEvent "register_contract"
    [("contract_id", id, true); ("contract_type", RegisterContractData_ContractType d, true);
     ("asset_id", RegisterContractData_AssetID d, true)]].

Definition validateActivateContract (transaction : Tx) : M State unit :=
  d ← or_fail (UnmarshalData (A := ActivateContractData) transaction) (bad_json "invalid contract activation data: %w");
  let id := ActivateContractData_ContractID d in
  m ← gets contracts;
  contract ← or_fail (m !! id) (ErrorUnknownContract id);
  fail_if (negb (bool_decide (ContractRecord_Status contract = "pending_condition")))
    (Errorf "contract is not pending activation: %s (status: %s)" [FStr id; FStr (ContractRecord_Status contract)]).
Definition executeActivateContract (now : Z) (transaction : Tx) : M State (list Event) :=
  d ← or_fail (UnmarshalData (A := ActivateContractData) transaction) (bad_json "invalid contract activation data: %w");
  let id := ActivateContractData_ContractID d in
  h ← gets height;
  update_contract id (λ c, c
    <| ContractRecord_ConditionHash := ActivateContractData_EvidenceHash d |>
    <| ContractRecord_ConditionType := ActivateContractData_EvidenceType d |>
    <| ContractRecord_ActivatedAt := ActivateContractData_ActivatedAt d |>
    <| ContractRecord_Status := "active" |>
    <| ContractRecord_UpdatedAt := now |>
    <| ContractRecord_Height := h |>) ;;
  set_dirty ;;
  mret [mkEvent "activate_contract"
    [("contract_id", id, true); ("evidence_type", ActivateContractData_EvidenceType d, true)]].

(** Whether an execution moves value. *)
Definition value_bearing (d : ExecuteContractData) : bool :=
  negb (str_empty (ExecuteContractData_AssetID d)) && (0 <? ExecuteContractData_Amount d).
Definition validateExecuteContract (transaction : Tx) : M State unit :=
  d ← or_fail (UnmarshalData (A := ExecuteContractData) transaction) (bad_json "invalid contract execution data: %w");
  let id := ExecuteContractData_ContractID d in
  let asset := ExecuteContractData_AssetID d in
  let party := ExecuteContractData_PartyCommitment d in
  let counterparty := ExecuteContractData_CounterpartyCommitment d in
  s ← gets (λ s, s);
  contract ← or_fail (contracts s !! id) (ErrorUnknownContract id);
  fail_if (negb (bool_decide (ContractRecord_Status contract = "active"))) (ErrorContractNotActive id) ;;
  fail_if ((0 <? ContractRecord_ExpiryTimestamp contract) &&
           (ContractRecord_ExpiryTimestamp contract <? ExecuteContractData_Timestamp d))
    (ErrorContractExpired id) ;;
  fail_if (has (participants s) (ExecuteContractData_Nullifier d))
    (ErrorDuplicateTransfer (ExecuteContractData_Nullifier d)) ;;
  if value_bearing d then
    fail_if (negb (str_empty (ContractRecord_AssetID contract)) &&
             negb (bool_decide (ContractRecord_AssetID contract = asset)))
      (Errorf "asset mismatch for contract %s" [FStr id]) ;;
    acct ← or_fail (accounts s !! account_key asset party) (Errorf "party account not found: %s" [FStr party]);
    check_balance acct party asset (ExecuteContractData_Amount d) ;;
    fail_if (negb (str_empty counterparty) && negb (has (accounts s) (account_key asset counterparty)))
      (Errorf "counterparty account not registered: %s" [FStr counterparty])
  else mret tt.

Definition execution_record (id : string) (now h : Z) (d : ExecuteContractData) : ContractExecutionRecord :=
  mkContractExecutionRecord id (ExecuteContractData_ContractID d) (ExecuteContractData_AssetID d)
    (ExecuteContractData_ExecutionType d) (ExecuteContractData_SourceRef d) (ExecuteContractData_Amount d)
    (ExecuteContractData_Payload d) now h.
(** The value movement: the counterparty, when there is one, is credited. *)
Definition execution_value (now h : Z) (d : ExecuteContractData) : M State unit :=
  let asset := ExecuteContractData_AssetID d in
  if value_bearing d then
    update_account (account_key asset (ExecuteContractData_PartyCommitment d))
      (move_balance (λ b, int64_sub b (ExecuteContractData_Amount d)) (Some now) h) ;;
    if str_empty (ExecuteContractData_CounterpartyCommitment d) then mret tt else
    update_account (account_key asset (ExecuteContractData_CounterpartyCommitment d))
      (move_balance (λ b, int64_add b (ExecuteContractData_Amount d)) (Some now) h)
  else mret tt.
Definition executeExecuteContract (now : Z) (transaction : Tx) : M State (list Event) :=
  d ← or_fail (UnmarshalData (A := ExecuteContractData) transaction) (bad_json "invalid contract execution data: %w");
  let executionID := hashNonce (ExecuteContractData_TransferNonce d) in
  record_lists executionID (ExecuteContractData_AssetID d) (ExecuteContractData_Amount d)
    (ExecuteContractData_Nullifier d) now ;;
  h ← gets height;
  modify (λ s, s <| contractExecutions ::= <[executionID := execution_record executionID now h d]> |>) ;;
  execution_value now h d ;;
  update_contract (ExecuteContractData_ContractID d) (λ c, c
    <| ContractRecord_ExecutionCount ::= int64_inc |>
    <| ContractRecord_TotalExecuted ::= λ t, int64_add t (ExecuteContractData_Amount d) |>
    <| ContractRecord_UpdatedAt := now |>
    <| ContractRecord_Height := h |>) ;;
  set_dirty ;;
  mret [mkEvent "contract_execution"
    [("contract_id", ExecuteContractData_ContractID d, true); ("execution_id", executionID, true);
     ("execution_type", ExecuteContractData_ExecutionType d, true);
     ("source_ref", ExecuteContractData_SourceRef d, true)]].
End contracts.
