(* ===== verification/WireCustody.v ===== *)
(** embodiments/shywire/state/custody.go: the consortium's operators, goods classes,
    policies and intake lots, redemption against the pooled inventory, and storage
    charges. *)
From S2P Require Import Prelude GoStd Json TxData TxValidate WireTypes WireTx WireState WireSupply.

(** ** The pooled inventory *)
Definition containsString (values : list string) (target : string) : bool :=
  existsb (λ v, bool_decide (v = target)) values.
Definition hasActiveWarehouse (s : State) (warehouseID : string) : bool :=
  existsb (λ kv : string * WarehouseOperatorRecord,
    bool_decide (WarehouseOperatorRecord_WarehouseID kv.2 = warehouseID) &&
    bool_decide (WarehouseOperatorRecord_Status kv.2 = "active"))
  (map_to_list (warehouseOperators s)).

(** A lot with the key its pointer is stored under. *)
Definition lot_entry : Type := string * IntakeLotRecord.
(** A lot of these goods, with something left. *)
Definition lot_usable (assetID warehouseID skuClassID : string) (lot : IntakeLotRecord) : bool :=
  bool_decide (IntakeLotRecord_AssetID lot = assetID) &&
  bool_decide (IntakeLotRecord_WarehouseID lot = warehouseID) &&
  bool_decide (IntakeLotRecord_SkuClassID lot = skuClassID) &&
  negb ((IntakeLotRecord_RemainingQuantity lot <=? 0) || bool_decide (IntakeLotRecord_Status lot = "exhausted")).
(** The order of [sort.Slice]: older first, then by identifier. *)
Definition lot_le (a b : lot_entry) : Prop :=
  IntakeLotRecord_CreatedAt a.2 < IntakeLotRecord_CreatedAt b.2 ∨
  (IntakeLotRecord_CreatedAt a.2 = IntakeLotRecord_CreatedAt b.2 ∧
   str_le (IntakeLotRecord_LotID a.2) (IntakeLotRecord_LotID b.2)).
#[export] Instance lot_le_dec : RelDecision lot_le.
Proof. intros a b. unfold lot_le. apply _. Defined.
Definition inventoryLots (lots : gmap string IntakeLotRecord) (assetID warehouseID skuClassID : string) : list lot_entry :=
  merge_sort lot_le (List.filter (λ kv : lot_entry, lot_usable assetID warehouseID skuClassID kv.2) (map_to_list lots)).
Definition availableCustodyInventory (s : State) (assetID warehouseID skuClassID : string) : Z :=
  foldl (λ total kv, int64_add total (IntakeLotRecord_RemainingQuantity kv.2)) 0
    (inventoryLots (intakeLots s) assetID warehouseID skuClassID).

Definition refreshLotStatus (lot : IntakeLotRecord) : IntakeLotRecord :=
  lot <| IntakeLotRecord_Status :=
    if IntakeLotRecord_RemainingQuantity lot <=? 0 then "exhausted"
    else if IntakeLotRecord_RemainingQuantity lot <? IntakeLotRecord_Quantity lot then "partially_allocated"
    else "recorded" |>.
(** What the loop does to a lot it takes [consume] from. *)
Definition consume_lot (consume now h : Z) (lot : IntakeLotRecord) : IntakeLotRecord :=
  refreshLotStatus (lot
    <| IntakeLotRecord_RemainingQuantity ::= λ q, int64_sub q consume |>
    <| IntakeLotRecord_UpdatedAt := now |> <| IntakeLotRecord_Height := h |>).
(** The loop of [allocateCustodyInventory] over the sorted lots. *)
Fixpoint allocate_loop (now h remaining : Z) (lots : list lot_entry) (m : gmap string IntakeLotRecord) :
    list LotAllocation * gmap string IntakeLotRecord :=
  match lots with
  | [] => ([], m)
  | (key, lot) :: rest =>
      if remaining =? 0 then ([], m) else
      let consume := if remaining <? IntakeLotRecord_RemainingQuantity lot then remaining
                     else IntakeLotRecord_RemainingQuantity lot in
      let '(allocs, m') := allocate_loop now h (int64_sub remaining consume) rest
                             (<[key := consume_lot consume now h lot]> m) in
      (mkLotAllocation (IntakeLotRecord_LotID lot) consume :: allocs, m')
  end.
(** [allocateCustodyInventory]: nil when nothing is asked for. *)
Definition allocateCustodyInventory (assetID warehouseID skuClassID : string) (quantity now : Z) :
    M State (slice LotAllocation) :=
  if quantity <=? 0 then mret None else
  s ← gets (λ s, s);
  let '(allocs, lots) := allocate_loop now (height s) quantity
                           (inventoryLots (intakeLots s) assetID warehouseID skuClassID) (intakeLots s) in
  modify (λ s, s <| intakeLots := lots |>) ;;
  mret (Some allocs).

Section custody.
Context `{C : Crypto}.

(** ** Operators and goods classes *)
Definition validateRegisterWarehouseOperator (transaction : Tx) : M State unit :=
  d ← or_fail (UnmarshalData (A := RegisterWarehouseOperatorData) transaction) (bad_json "invalid warehouse operator data: %w");
  s ← gets (λ s, s);
  fail_if (has (warehouseOperators s) (RegisterWarehouseOperatorData_OperatorID d))
    (Errorf "warehouse operator already registered: %s" [FStr (RegisterWarehouseOperatorData_OperatorID d)]).
Definition executeRegisterWarehouseOperator (now : Z) (transaction : Tx) : M State (list Event) :=
  d ← or_fail (UnmarshalData (A := RegisterWarehouseOperatorData) transaction) (bad_json "invalid warehouse operator data: %w");
  let op := RegisterWarehouseOperatorData_OperatorID d in
  modify (λ s, s <| warehouseOperators ::= <[op := {|
    WarehouseOperatorRecord_OperatorID := op;
    WarehouseOperatorRecord_Name := RegisterWarehouseOperatorData_Name d;
    WarehouseOperatorRecord_WarehouseID := RegisterWarehouseOperatorData_WarehouseID d;
    WarehouseOperatorRecord_Region := RegisterWarehouseOperatorData_Region d;
    WarehouseOperatorRecord_VideoStreamRef := RegisterWarehouseOperatorData_VideoStreamRef d;
    WarehouseOperatorRecord_Status := RegisterWarehouseOperatorData_Status d;
    WarehouseOperatorRecord_CreatedAt := now;
    WarehouseOperatorRecord_UpdatedAt := now;
    WarehouseOperatorRecord_Height := height s |}]> |>) ;;
  set_dirty ;;
  mret [mkEvent "register_custody_operator"
    [("operator_id", op, true); ("warehouse_id", RegisterWarehouseOperatorData_WarehouseID d, true)]].

Definition validateRegisterAcceptedSkuClass (transaction : Tx) : M State unit :=
  d ← or_fail (UnmarshalData (A := RegisterAcceptedSkuClassData) transaction) (bad_json "invalid accepted sku class data: %w");
  s ← gets (λ s, s);
  fail_if (has (acceptedSkuClasses s) (RegisterAcceptedSkuClassData_SkuClassID d))
    (Errorf "accepted sku class already registered: %s" [FStr (RegisterAcceptedSkuClassData_SkuClassID d)]).
Definition executeRegisterAcceptedSkuClass (now : Z) (transaction : Tx) : M State (list Event) :=
  d ← or_fail (UnmarshalData (A := RegisterAcceptedSkuClassData) transaction) (bad_json "invalid accepted sku class data: %w");
  let sku := RegisterAcceptedSkuClassData_SkuClassID d in
  modify (λ s, s <| acceptedSkuClasses ::= <[sku := {|
    AcceptedSkuClassRecord_SkuClassID := sku;
    AcceptedSkuClassRecord_Name := RegisterAcceptedSkuClassData_Name d;
    AcceptedSkuClassRecord_GradeBand := RegisterAcceptedSkuClassData_GradeBand d;
    AcceptedSkuClassRecord_UnitOfMeasure := RegisterAcceptedSkuClassData_UnitOfMeasure d;
    AcceptedSkuClassRecord_NormalizedFactorBps := RegisterAcceptedSkuClassData_NormalizedFactorBps d;
    AcceptedSkuClassRecord_StorageClass := RegisterAcceptedSkuClassData_StorageClass d;
    AcceptedSkuClassRecord_Status := RegisterAcceptedSkuClassData_Status d;
    AcceptedSkuClassRecord_CreatedAt := now;
    AcceptedSkuClassRecord_UpdatedAt := now;
    AcceptedSkuClassRecord_Height := height s |}]> |>) ;;
  set_dirty ;;
  mret [mkEvent "register_custody_sku_class"
    [("sku_class_id", sku, true); ("grade_band", RegisterAcceptedSkuClassData_GradeBand d, true)]].

(** ** Policies *)
Definition validateRegisterConsortiumPolicy (transaction : Tx) : M State unit :=
  d ← or_fail (UnmarshalData (A := RegisterConsortiumPolicyData) transaction) (bad_json "invalid consortium policy data: %w");
  s ← gets (λ s, s);
  fail_if (has (consortiumPolicies s) (RegisterConsortiumPolicyData_PolicyID d))
    (Errorf "consortium policy already registered: %s" [FStr (RegisterConsortiumPolicyData_PolicyID d)]) ;;
  fail_if (negb (has (assets s) (RegisterConsortiumPolicyData_AssetID d)))
    (ErrorUnknownAsset (RegisterConsortiumPolicyData_AssetID d)) ;;
  range (elems (RegisterConsortiumPolicyData_ActiveOperatorIDs d)) (λ _ operatorID,
    operator ← or_fail (warehouseOperators s !! operatorID) (Errorf "unknown custody operator: %s" [FStr operatorID]);
    fail_if (negb (bool_decide (WarehouseOperatorRecord_Status operator = "active")))
      (Errorf "custody operator not active: %s" [FStr operatorID])) ;;
  range (elems (RegisterConsortiumPolicyData_AcceptedSkuClassIDs d)) (λ _ skuID,
    sku ← or_fail (acceptedSkuClasses s !! skuID) (Errorf "unknown accepted sku class: %s" [FStr skuID]);
    fail_if (negb (bool_decide (AcceptedSkuClassRecord_Status sku = "active")))
      (Errorf "accepted sku class not active: %s" [FStr skuID])).

Definition new_policy (now h : Z) (d : RegisterConsortiumPolicyData) : ConsortiumPolicyRecord := {|
  ConsortiumPolicyRecord_PolicyID := RegisterConsortiumPolicyData_PolicyID d;
  ConsortiumPolicyRecord_AssetID := RegisterConsortiumPolicyData_AssetID d;
  ConsortiumPolicyRecord_Name := RegisterConsortiumPolicyData_Name d;
  ConsortiumPolicyRecord_ActiveOperatorIDs := copy_strings (RegisterConsortiumPolicyData_ActiveOperatorIDs d);
  ConsortiumPolicyRecord_AcceptedSkuClassIDs := copy_strings (RegisterConsortiumPolicyData_AcceptedSkuClassIDs d);
  ConsortiumPolicyRecord_UnitOfMeasure := RegisterConsortiumPolicyData_UnitOfMeasure d;
  ConsortiumPolicyRecord_QuantityNormalization := RegisterConsortiumPolicyData_QuantityNormalization d;
  ConsortiumPolicyRecord_ShippingAdjustmentRef := RegisterConsortiumPolicyData_ShippingAdjustmentRef d;
  ConsortiumPolicyRecord_DemurrageRateBps := RegisterConsortiumPolicyData_DemurrageRateBps d;
  ConsortiumPolicyRecord_OperatorFeeBps := RegisterConsortiumPolicyData_OperatorFeeBps d;
  ConsortiumPolicyRecord_RedemptionMode := RegisterConsortiumPolicyData_RedemptionMode d;
  ConsortiumPolicyRecord_RedemptionRouting := RegisterConsortiumPolicyData_RedemptionRouting d;
  ConsortiumPolicyRecord_EvidenceRequirements := copy_strings (RegisterConsortiumPolicyData_EvidenceRequirements d);
  ConsortiumPolicyRecord_Status := "active";
  ConsortiumPolicyRecord_PublishedAt := now;
  ConsortiumPolicyRecord_UpdatedAt := now;
  ConsortiumPolicyRecord_Height := h;
|}.
(** The current policy, if it is still in the table, is superseded. *)
Definition supersede (now h : Z) (current : string) (m : gmap string ConsortiumPolicyRecord) : gmap string ConsortiumPolicyRecord :=
  if str_empty current then m else
  alter (λ p, p <| ConsortiumPolicyRecord_Status := "superseded" |>
                <| ConsortiumPolicyRecord_UpdatedAt := now |> <| ConsortiumPolicyRecord_Height := h |>) current m.
Definition executeRegisterConsortiumPolicy (now : Z) (transaction : Tx) : M State (list Event) :=
  d ← or_fail (UnmarshalData (A := RegisterConsortiumPolicyData) transaction) (bad_json "invalid consortium policy data: %w");
  let policyID := RegisterConsortiumPolicyData_PolicyID d in
  modify (λ s, s <| consortiumPolicies ::= supersede now (height s) (currentCustodyPolicyID s) |>) ;;
  modify (λ s, s <| consortiumPolicies ::= <[policyID := new_policy now (height s) d]> |>) ;;
  modify (λ s, s <| currentCustodyPolicyID := policyID |>) ;;
  set_dirty ;;
  mret [mkEvent "register_custody_policy"
    [("policy_id", policyID, true); ("asset_id", RegisterConsortiumPolicyData_AssetID d, true)]].
End custody.

Section redemption.
Context `{C : Crypto}.

(** ** Intake *)
Definition validateRecordCustodyIntakeLot (transaction : Tx) : M State unit :=
  d ← or_fail (UnmarshalData (A := RecordCustodyIntakeLotData) transaction) (bad_json "invalid custody intake lot data: %w");
  let policyID := RecordCustodyIntakeLotData_PolicyID d in
  let assetID := RecordCustodyIntakeLotData_AssetID d in
  let operatorID := RecordCustodyIntakeLotData_OperatorID d in
  let skuID := RecordCustodyIntakeLotData_SkuClassID d in
  s ← gets (λ s, s);
  fail_if (has (intakeLots s) (RecordCustodyIntakeLotData_LotID d))
    (Errorf "custody intake lot already exists: %s" [FStr (RecordCustodyIntakeLotData_LotID d)]) ;;
  policy ← or_fail (consortiumPolicies s !! policyID) (Errorf "unknown custody policy: %s" [FStr policyID]);
  fail_if (negb (bool_decide (ConsortiumPolicyRecord_Status policy = "active")))
    (Errorf "custody policy not active: %s" [FStr policyID]) ;;
  fail_if (negb (bool_decide (ConsortiumPolicyRecord_AssetID policy = assetID)))
    (Errorf "custody intake lot asset mismatch for policy %s" [FStr policyID]) ;;
  fail_if (negb (has (assets s) assetID)) (ErrorUnknownAsset assetID) ;;
  operator ← or_fail (warehouseOperators s !! operatorID) (Errorf "unknown custody operator: %s" [FStr operatorID]);
  fail_if (negb (bool_decide (WarehouseOperatorRecord_Status operator = "active")))
    (Errorf "custody operator not active: %s" [FStr operatorID]) ;;
  fail_if (negb (bool_decide (WarehouseOperatorRecord_WarehouseID operator = RecordCustodyIntakeLotData_WarehouseID d)))
    (Errorf "warehouse mismatch for operator %s" [FStr operatorID]) ;;
  fail_if (negb (containsString (elems (ConsortiumPolicyRecord_ActiveOperatorIDs policy)) operatorID))
    (Errorf "operator %s not allowed by policy %s" [FStr operatorID; FStr policyID]) ;;
  fail_if (negb (has (acceptedSkuClasses s) skuID)) (Errorf "unknown accepted sku class: %s" [FStr skuID]) ;;
  fail_if (negb (containsString (elems (ConsortiumPolicyRecord_AcceptedSkuClassIDs policy)) skuID))
    (Errorf "sku class %s not allowed by policy %s" [FStr skuID; FStr policyID]) ;;
  fail_if (negb (has (accounts s) (account_key sentinel (RecordCustodyIntakeLotData_AccountCommitment d))))
    (Errorf "account commitment not registered: %s" [FStr (RecordCustodyIntakeLotData_AccountCommitment d)]).

Definition new_lot (now h : Z) (d : RecordCustodyIntakeLotData) : IntakeLotRecord := {|
  IntakeLotRecord_LotID := RecordCustodyIntakeLotData_LotID d;
  IntakeLotRecord_PolicyID := RecordCustodyIntakeLotData_PolicyID d;
  IntakeLotRecord_AssetID := RecordCustodyIntakeLotData_AssetID d;
  IntakeLotRecord_OperatorID := RecordCustodyIntakeLotData_OperatorID d;
  IntakeLotRecord_WarehouseID := RecordCustodyIntakeLotData_WarehouseID d;
  IntakeLotRecord_AccountCommitment := RecordCustodyIntakeLotData_AccountCommitment d;
  IntakeLotRecord_SkuClassID := RecordCustodyIntakeLotData_SkuClassID d;
  IntakeLotRecord_Quantity := RecordCustodyIntakeLotData_Quantity d;
  IntakeLotRecord_RemainingQuantity := RecordCustodyIntakeLotData_Quantity d;
  IntakeLotRecord_MintedAmount := RecordCustodyIntakeLotData_MintedAmount d;
  IntakeLotRecord_OperatorFeeAmount := RecordCustodyIntakeLotData_OperatorFeeAmount d;
  IntakeLotRecord_ShippingCostAmount := RecordCustodyIntakeLotData_ShippingCostAmount d;
  IntakeLotRecord_StorageReserveAmount := RecordCustodyIntakeLotData_StorageReserveAmount d;
  IntakeLotRecord_VideoSessionRef := RecordCustodyIntakeLotData_VideoSessionRef d;
  IntakeLotRecord_EvidenceRefs := copy_strings (RecordCustodyIntakeLotData_EvidenceRefs d);
  IntakeLotRecord_Status := "recorded";
  IntakeLotRecord_CreatedAt := now;
  IntakeLotRecord_UpdatedAt := now;
  IntakeLotRecord_Height := h;
|}.
Definition executeRecordCustodyIntakeLot (now : Z) (transaction : Tx) : M State (list Event) :=
  d ← or_fail (UnmarshalData (A := RecordCustodyIntakeLotData) transaction) (bad_json "invalid custody intake lot data: %w");
  let lotID := RecordCustodyIntakeLotData_LotID d in
  modify (λ s, s <| intakeLots ::= <[lotID := new_lot now (height s) d]> |>) ;;
  set_dirty ;;
  mret [mkEvent "record_custody_intake_lot"
    [("lot_id", lotID, true); ("policy_id", RecordCustodyIntakeLotData_PolicyID d, true);
     ("warehouse_id", RecordCustodyIntakeLotData_WarehouseID d, true)]].

(** ** Redemption *)
Definition validateRequestCustodyRedemption (transaction : Tx) : M State unit :=
  d ← or_fail (UnmarshalData (A := RequestCustodyRedemptionData) transaction) (bad_json "invalid custody redemption request data: %w");
  let assetID := RequestCustodyRedemptionData_AssetID d in
  let commitment := RequestCustodyRedemptionData_AccountCommitment d in
  let warehouse := RequestCustodyRedemptionData_WarehouseID d in
  let skuID := RequestCustodyRedemptionData_SkuClassID d in
  s ← gets (λ s, s);
  fail_if (has (redemptionRequests s) (RequestCustodyRedemptionData_RequestID d))
    (Errorf "custody redemption request already exists: %s" [FStr (RequestCustodyRedemptionData_RequestID d)]) ;;
  fail_if (negb (has (assets s) assetID)) (ErrorUnknownAsset assetID) ;;
  fail_if (negb (has (accounts s) (account_key sentinel commitment)))
    (Errorf "account commitment not registered: %s" [FStr commitment]) ;;
  acct ← or_fail (accounts s !! account_key assetID commitment)
           (Errorf "asset-scoped account not found: %s" [FStr commitment]);
  check_balance acct commitment assetID (RequestCustodyRedemptionData_SiloAmount d) ;;
  fail_if (negb (has (acceptedSkuClasses s) skuID)) (Errorf "unknown accepted sku class: %s" [FStr skuID]) ;;
  fail_if (negb (hasActiveWarehouse s warehouse)) (Errorf "warehouse not active or not found: %s" [FStr warehouse]) ;;
  fail_if (availableCustodyInventory s assetID warehouse skuID <? RequestCustodyRedemptionData_RequestedQuantity d)
    (Errorf "insufficient pooled inventory for warehouse %s and sku %s" [FStr warehouse; FStr skuID]).

Definition new_request (now h : Z) (d : RequestCustodyRedemptionData) : RedemptionRequestRecord := {|
  RedemptionRequestRecord_RequestID := RequestCustodyRedemptionData_RequestID d;
  RedemptionRequestRecord_AssetID := RequestCustodyRedemptionData_AssetID d;
  RedemptionRequestRecord_AccountCommitment := RequestCustodyRedemptionData_AccountCommitment d;
  RedemptionRequestRecord_WarehouseID := RequestCustodyRedemptionData_WarehouseID d;
  RedemptionRequestRecord_SkuClassID := RequestCustodyRedemptionData_SkuClassID d;
  RedemptionRequestRecord_SiloAmount := RequestCustodyRedemptionData_SiloAmount d;
  RedemptionRequestRecord_RequestedQuantity := RequestCustodyRedemptionData_RequestedQuantity d;
  RedemptionRequestRecord_DestinationRef := RequestCustodyRedemptionData_DestinationRef d;
  RedemptionRequestRecord_Status := "pending";
  RedemptionRequestRecord_CreatedAt := now;
  RedemptionRequestRecord_UpdatedAt := now;
  RedemptionRequestRecord_Height := h;
|}.
Definition executeRequestCustodyRedemption (now : Z) (transaction : Tx) : M State (list Event) :=
  d ← or_fail (UnmarshalData (A := RequestCustodyRedemptionData) transaction) (bad_json "invalid custody redemption request data: %w");
  let requestID := RequestCustodyRedemptionData_RequestID d in
  modify (λ s, s <| redemptionRequests ::= <[requestID := new_request now (height s) d]> |>) ;;
  set_dirty ;;
  mret [mkEvent "request_custody_redemption"
    [("request_id", requestID, true); ("warehouse_id", RequestCustodyRedemptionData_WarehouseID d, true);
     ("sku_class_id", RequestCustodyRedemptionData_SkuClassID d, true)]].

Definition validateSettleCustodyRedemption (transaction : Tx) : M State unit :=
  d ← or_fail (UnmarshalData (A := SettleCustodyRedemptionData) transaction) (bad_json "invalid custody redemption settlement data: %w");
  let requestID := SettleCustodyRedemptionData_RequestID d in
  let operatorID := SettleCustodyRedemptionData_OperatorID d in
  let warehouse := SettleCustodyRedemptionData_WarehouseID d in
  s ← gets (λ s, s);
  fail_if (has (redemptionSettlements s) (SettleCustodyRedemptionData_SettlementID d))
    (Errorf "custody redemption settlement already exists: %s" [FStr (SettleCustodyRedemptionData_SettlementID d)]) ;;
  request ← or_fail (redemptionRequests s !! requestID) (Errorf "unknown custody redemption request: %s" [FStr requestID]);
  fail_if (negb (bool_decide (RedemptionRequestRecord_Status request = "pending")))
    (Errorf "custody redemption request not pending: %s" [FStr requestID]) ;;
  operator ← or_fail (warehouseOperators s !! operatorID) (Errorf "unknown custody operator: %s" [FStr operatorID]);
  fail_if (negb (bool_decide (WarehouseOperatorRecord_Status operator = "active")))
    (Errorf "custody operator not active: %s" [FStr operatorID]) ;;
  fail_if (negb (bool_decide (WarehouseOperatorRecord_WarehouseID operator = warehouse) &&
                 bool_decide (RedemptionRequestRecord_WarehouseID request = warehouse)))
    (Errorf "warehouse mismatch for redemption request %s" [FStr requestID]) ;;
  fail_if (RedemptionRequestRecord_RequestedQuantity request <? SettleCustodyRedemptionData_SettledQuantity d)
    (Errorf "settled quantity exceeds redemption request %s" [FStr requestID]) ;;
  fail_if (RedemptionRequestRecord_SiloAmount request <? SettleCustodyRedemptionData_BurnAmount d)
    (Errorf "burn amount exceeds redemption request %s" [FStr requestID]) ;;
  let assetID := RedemptionRequestRecord_AssetID request in
  let commitment := RedemptionRequestRecord_AccountCommitment request in
  fail_if (availableCustodyInventory s assetID warehouse (RedemptionRequestRecord_SkuClassID request)
             <? SettleCustodyRedemptionData_SettledQuantity d)
    (Errorf "insufficient pooled inventory for redemption settlement %s" [FStr (SettleCustodyRedemptionData_SettlementID d)]) ;;
  acct ← or_fail (accounts s !! account_key assetID commitment) (Errorf "redeemer account not found: %s" [FStr commitment]);
  check_balance acct commitment assetID (SettleCustodyRedemptionData_BurnAmount d).

(** An account pays [amount] and the supply of the asset shrinks by it. *)
Definition burn_from (assetID commitment : string) (amount now : Z) : M State unit :=
  h ← gets height;
  update_account (account_key assetID commitment) (move_balance (λ b, int64_sub b amount) (Some now) h) ;;
  change_supply assetID (add_burned amount now).
Definition new_settlement (allocated : slice LotAllocation) (h : Z) (d : SettleCustodyRedemptionData) :
    RedemptionSettlementRecord := {|
  RedemptionSettlementRecord_SettlementID := SettleCustodyRedemptionData_SettlementID d;
  RedemptionSettlementRecord_RequestID := SettleCustodyRedemptionData_RequestID d;
  RedemptionSettlementRecord_OperatorID := SettleCustodyRedemptionData_OperatorID d;
  RedemptionSettlementRecord_WarehouseID := SettleCustodyRedemptionData_WarehouseID d;
  RedemptionSettlementRecord_AllocatedLots := allocated;
  RedemptionSettlementRecord_FulfillmentRef := SettleCustodyRedemptionData_FulfillmentRef d;
  RedemptionSettlementRecord_BurnAmount := SettleCustodyRedemptionData_BurnAmount d;
  RedemptionSettlementRecord_SettledQuantity := SettleCustodyRedemptionData_SettledQuantity d;
  RedemptionSettlementRecord_SettledAt := SettleCustodyRedemptionData_SettledAt d;
  RedemptionSettlementRecord_Height := h;
|}.
(** [executeSettleCustodyRedemption]: the request's pointer is dereferenced first. *)
Definition executeSettleCustodyRedemption (now : Z) (transaction : Tx) : M State (list Event) :=
  d ← or_fail (UnmarshalData (A := SettleCustodyRedemptionData) transaction) (bad_json "invalid custody redemption settlement data: %w");
  let requestID := SettleCustodyRedemptionData_RequestID d in
  let settlementID := SettleCustodyRedemptionData_SettlementID d in
  m ← gets redemptionRequests;
  request ← or_panic (m !! requestID);
  let assetID := RedemptionRequestRecord_AssetID request in
  allocated ← allocateCustodyInventory assetID (SettleCustodyRedemptionData_WarehouseID d)
                (RedemptionRequestRecord_SkuClassID request) (SettleCustodyRedemptionData_SettledQuantity d) now;
  burn_from assetID (RedemptionRequestRecord_AccountCommitment request) (SettleCustodyRedemptionData_BurnAmount d) now ;;
  modify (λ s, s <| redemptionRequests ::= alter (λ r, r
    <| RedemptionRequestRecord_Status := "settled" |> <| RedemptionRequestRecord_UpdatedAt := now |>
    <| RedemptionRequestRecord_Height := height s |>) requestID |>) ;;
  modify (λ s, s <| redemptionSettlements ::= <[settlementID := new_settlement allocated (height s) d]> |>) ;;
  set_dirty ;;
  mret [mkEvent "settle_custody_redemption"
    [("settlement_id", settlementID, true); ("request_id", requestID, true);
     ("warehouse_id", SettleCustodyRedemptionData_WarehouseID d, true)]].

(** ** Storage charges *)
Definition validateApplyCustodyDemurrage (transaction : Tx) : M State unit :=
  d ← or_fail (UnmarshalData (A := ApplyCustodyDemurrageData) transaction) (bad_json "invalid custody demurrage data: %w");
  let policyID := ApplyCustodyDemurrageData_PolicyID d in
  let assetID := ApplyCustodyDemurrageData_AssetID d in
  let commitment := ApplyCustodyDemurrageData_AccountCommitment d in
  s ← gets (λ s, s);
  fail_if (has (demurrageAssessments s) (ApplyCustodyDemurrageData_AssessmentID d))
    (Errorf "custody demurrage assessment already exists: %s" [FStr (ApplyCustodyDemurrageData_AssessmentID d)]) ;;
  policy ← or_fail (consortiumPolicies s !! policyID) (Errorf "unknown custody policy: %s" [FStr policyID]);
  fail_if (negb (bool_decide (ConsortiumPolicyRecord_AssetID policy = assetID)))
    (Errorf "custody demurrage asset mismatch for policy %s" [FStr policyID]) ;;
  acct ← or_fail (accounts s !! account_key assetID commitment)
           (Errorf "account not found for custody demurrage: %s" [FStr commitment]);
  check_balance acct commitment assetID (ApplyCustodyDemurrageData_Amount d).
Definition new_assessment (h : Z) (d : ApplyCustodyDemurrageData) : DemurrageAssessmentRecord := {|
  DemurrageAssessmentRecord_AssessmentID := ApplyCustodyDemurrageData_AssessmentID d;
  DemurrageAssessmentRecord_AssetID := ApplyCustodyDemurrageData_AssetID d;
  DemurrageAssessmentRecord_AccountCommitment := ApplyCustodyDemurrageData_AccountCommitment d;
  DemurrageAssessmentRecord_PolicyID := ApplyCustodyDemurrageData_PolicyID d;
  DemurrageAssessmentRecord_Amount := ApplyCustodyDemurrageData_Amount d;
  DemurrageAssessmentRecord_PeriodStart := ApplyCustodyDemurrageData_PeriodStart d;
  DemurrageAssessmentRecord_PeriodEnd := ApplyCustodyDemurrageData_PeriodEnd d;
  DemurrageAssessmentRecord_Reason := ApplyCustodyDemurrageData_Reason d;
  DemurrageAssessmentRecord_AppliedAt := ApplyCustodyDemurrageData_AppliedAt d;
  DemurrageAssessmentRecord_Height := h;
|}.
Definition executeApplyCustodyDemurrage (now : Z) (transaction : Tx) : M State (list Event) :=
  d ← or_fail (UnmarshalData (A := ApplyCustodyDemurrageData) transaction) (bad_json "invalid custody demurrage data: %w");
  let assessmentID := ApplyCustodyDemurrageData_AssessmentID d in
  burn_from (ApplyCustodyDemurrageData_AssetID d) (ApplyCustodyDemurrageData_AccountCommitment d)
    (ApplyCustodyDemurrageData_Amount d) now ;;
  modify (λ s, s <| demurrageAssessments ::= <[assessmentID := new_assessment (height s) d]> |>) ;;
  set_dirty ;;
  mret [mkEvent "apply_custody_demurrage"
    [("assessment_id", assessmentID, true); ("asset_id", ApplyCustodyDemurrageData_AssetID d, true)]].
End redemption.
