(* ===== verification/WireAdverse.v ===== *)
(** embodiments/shywire/state/adverse_action.go: two-party adverse actions on
    accounts and their append-only log. *)
From S2P Require Import Prelude GoStd Json TxData TxValidate WireTypes WireTx WireState.

Section adverse.
Context `{C : Crypto}.

Definition adverseActionCanonicalMessage (d : AdverseActionData) : string :=
  sha256 ("shyware-adverse-action:" +:+ AdverseActionData_ActionType d +:+ ":" +:+
    AdverseActionData_AccountCommitment d +:+ ":" +:+ AdverseActionData_AssetID d +:+ ":" +:+
    AdverseActionData_ActionID d +:+ ":" +:+ fmt_d (AdverseActionData_Timestamp d)).

Definition validateAdverseAction (transaction : Tx) : M State unit :=
  s ← gets (λ s, s);
  fail_if ((blen (eligibilityAuthorityPubKey s) =? 0) || (blen (reconciliationAuthorityPubKey s) =? 0))
    (Errorf "adverse action: authority keys not configured on this deployment" []) ;;
  d ← or_fail (UnmarshalData (A := AdverseActionData) transaction) (bad_json "invalid adverse action data: %w");
  let actionID := AdverseActionData_ActionID d in
  fail_if (negb (bool_decide (actionID = hashNonce (AdverseActionData_ActionNonce d))))
    (Errorf "adverse action: action_id does not match H(action_nonce)" []) ;;
  fail_if (has (authorityActions s) actionID)
    (Errorf "adverse action: action_id %s already committed" [FStr actionID]) ;;
  fail_if (negb (has (accounts s) (account_key sentinel (AdverseActionData_AccountCommitment d))))
    (Errorf "adverse action: account not found: %s" [FStr (AdverseActionData_AccountCommitment d)]) ;;
  fail_if (bool_decide (AdverseActionData_ActionType d = "restore") &&
           negb (str_empty (AdverseActionData_ReferencedActionID d)) &&
           negb (has (authorityActions s) (AdverseActionData_ReferencedActionID d)))
    (Errorf "adverse action: referenced_action_id %s not found in authority-action log"
      [FStr (AdverseActionData_ReferencedActionID d)]) ;;
  let msg := adverseActionCanonicalMessage d in
  elig ← or_panic (ed25519_try (bytes_of (eligibilityAuthorityPubKey s)) msg (bytes_of (AdverseActionData_EligibilityAuth d)));
  fail_if (negb elig)
    (Errorf "adverse action: invalid eligibility authority signature" []) ;;
  recon ← or_panic (ed25519_try (bytes_of (reconciliationAuthorityPubKey s)) msg
            (bytes_of (AdverseActionData_ReconciliationAuth d)));
  fail_if (negb recon)
    (Errorf "adverse action: invalid reconciliation authority signature" []).

(** The action on one account: others' accounts, and other assets' when an asset is
    named, are left. *)
Definition action_matches (d : AdverseActionData) (a : AccountRecord) : bool :=
  bool_decide (AccountRecord_AccountCommitment a = AdverseActionData_AccountCommitment d) &&
  (str_empty (AdverseActionData_AssetID d) || bool_decide (AccountRecord_AssetID a = AdverseActionData_AssetID d)).
Definition act_on (ty : string) (a : AccountRecord) : AccountRecord :=
  if bool_decide (ty = "disable") || bool_decide (ty = "rescind") then
    a <| AccountRecord_Disabled := true |> <| AccountRecord_Frozen := false |>
  else if bool_decide (ty = "freeze") then
    if AccountRecord_Disabled a then a else a <| AccountRecord_Frozen := true |>
  else if bool_decide (ty = "restore") then
    a <| AccountRecord_Disabled := false |> <| AccountRecord_Frozen := false |>
  else if bool_decide (ty = "redeem_forced") then
    a <| AccountRecord_Disabled := true |> <| AccountRecord_Balance := 0 |>
  else a.
Definition apply_action (d : AdverseActionData) (h : Z) (a : AccountRecord) : AccountRecord :=
  if action_matches d a then (act_on (AdverseActionData_ActionType d) a) <| AccountRecord_Height := h |> else a.

Definition action_record (now h : Z) (d : AdverseActionData) : AuthorityActionRecord := {|
  AuthorityActionRecord_ActionID := AdverseActionData_ActionID d;
  AuthorityActionRecord_AccountCommitment := AdverseActionData_AccountCommitment d;
  AuthorityActionRecord_AssetID := AdverseActionData_AssetID d;
  AuthorityActionRecord_ActionType := AdverseActionData_ActionType d;
  AuthorityActionRecord_ReferencedActionID := AdverseActionData_ReferencedActionID d;
  AuthorityActionRecord_EligibilityAuth := AdverseActionData_EligibilityAuth d;
  AuthorityActionRecord_ReconciliationAuth := AdverseActionData_ReconciliationAuth d;
  AuthorityActionRecord_Reason := AdverseActionData_Reason d;
  AuthorityActionRecord_Timestamp := now;
  AuthorityActionRecord_Height := h;
|}.
(** [executeAdverseAction]: each account is visited once, so the order of the map
    iteration does not show. *)
Definition executeAdverseAction (now : Z) (transaction : Tx) : M State (list Event) :=
  d ← or_fail (UnmarshalData (A := AdverseActionData) transaction) (bad_json "invalid adverse action data: %w");
  let actionID := AdverseActionData_ActionID d in
  modify (λ s, s <| authorityActions ::= <[actionID := action_record now (height s) d]> |>) ;;
  modify (λ s, s <| accounts ::= fmap (apply_action d (height s)) |>) ;;
  set_dirty ;;
  mret [mkEvent "adverse_action" [("action_id", actionID, true); ("action_type", AdverseActionData_ActionType d, true)]].
End adverse.
