(* ===== verification/WirePersist.v ===== *)
(** The persistence half of embodiments/shywire/state/state.go: [computeAppHash],
    [Commit], [loadState] and [NewStateWithOptions]. *)
From S2P Require Import Prelude GoStd Json KVStore Tables TxData TxValidate WireTypes WireTx WireState.

(** ** Table keys *)
Definition p_asset := "asset:".
Definition p_account := "account:".
Definition p_supply := "supply:".
Definition p_transfer := "transfer:".
Definition p_participant := "participant:".
Definition p_contract := "contract:".
Definition p_contract_execution := "contract_execution:".
Definition p_policy := "custody_policy:".
Definition p_operator := "custody_operator:".
Definition p_sku := "custody_sku:".
Definition p_lot := "custody_lot:".
Definition p_redemption := "custody_redemption:".
Definition p_settlement := "custody_settlement:".
Definition p_demurrage := "custody_demurrage:".
Definition p_enrollment := "enrollment:".
Definition p_action := "authority_action:".
Definition p_validator := "validator:".

(** The records [Commit] puts in its batch. *)
Definition commit_batch (s : State) : list (string * dbval) :=
  table p_asset (assets s) ++ table p_account (accounts s) ++ table p_supply (supply s) ++
  table p_transfer (transferRecords s) ++ table p_participant (participants s) ++
  table p_contract (contracts s) ++ table p_contract_execution (contractExecutions s) ++
  table p_policy (consortiumPolicies s) ++ table p_operator (warehouseOperators s) ++
  table p_sku (acceptedSkuClasses s) ++ table p_lot (intakeLots s) ++
  table p_redemption (redemptionRequests s) ++ table p_settlement (redemptionSettlements s) ++
  table p_demurrage (demurrageAssessments s) ++ table p_enrollment (enrollmentRecords s) ++
  table p_action (authorityActions s) ++ table p_validator (validators s).

(** The field [TransferID] that loadState reads of a contract execution and that its type
    does not have. *)
Class MissingField := missing_TransferID : ContractExecutionRecord → string.

Section persist.
Context `{C : Crypto} `{F : MissingField}.

(** [computeAppHash]: the marshalled records of sixteen of the tables in key order,
    the validators left out, then the current policy. *)
Definition app_hash_input (s : State) : string :=
  hash_table (assets s) +:+ hash_table (supply s) +:+ hash_table (accounts s) +:+
  hash_table (transferRecords s) +:+ hash_table (participants s) +:+ hash_table (contracts s) +:+
  hash_table (contractExecutions s) +:+ hash_table (consortiumPolicies s) +:+
  hash_table (warehouseOperators s) +:+ hash_table (acceptedSkuClasses s) +:+ hash_table (intakeLots s) +:+
  hash_table (redemptionRequests s) +:+ hash_table (redemptionSettlements s) +:+
  hash_table (demurrageAssessments s) +:+ hash_table (enrollmentRecords s) +:+
  hash_table (authorityActions s) +:+ currentCustodyPolicyID s.
Definition computeAppHash (s : State) : string := sha256 (app_hash_input s).

(** What [Commit] writes after the tables. *)
Definition commit_meta (h : Z) (hash policy : string) : list (string * dbval) :=
  [("height", VBytes (fmt_d h)); ("app_hash", VBytes hash); ("custody_policy_current", VBytes policy)].
(** [Commit]: a clean state returns the stored hash; a dirty one advances the hash
    and the height in memory, then writes the batch, which may fail. *)
Definition Commit {DB} `{KVStore DB} (db : DB) (s : State) : res gobytes * (State * DB) :=
  if dirty s then
    let h := computeAppHash s in
    let s1 := s <| appHash := Some h |> <| height ::= int64_inc |> in
    let batch := commit_batch s ++ commit_meta (height s1) h (currentCustodyPolicyID s) in
    match db_write db batch with
    | Some db' => (Ok (Some h), (s1 <| dirty := false |>, db'))
    | None => (Fail (Errorf "failed to write batch: %w" [FErr (Errorf "db" [])]), (s1, db))
    end
  else (Ok (appHash s), (s, db)).

(** The height, the hash and the policy of a database; a height that does not parse is
    ignored. *)
Definition load_wire_height {DB} `{KVStore DB} (db : DB) (h : Z) : Z :=
  from_option (λ v, default h (scan_d (db_bytes v))) h (db_get db "height").
Definition load_wire_hash {DB} `{KVStore DB} (db : DB) (h : gobytes) : gobytes :=
  from_option (λ v, Some (db_bytes v)) h (db_get db "app_hash").
Definition load_policy {DB} `{KVStore DB} (db : DB) (current : string) : string :=
  from_option db_bytes current (db_get db "custody_policy_current").
(** [loadState].  The loader of "contract_execution:" keys its map by [r.TransferID], a
    field [ContractExecutionRecord] does not have: what it would read is a parameter. *)
Definition loadState {DB} `{KVStore DB} (db : DB) (s : State) : option State :=
  let h := load_wire_height db (height s) in
  let ah := load_wire_hash db (appHash s) in
  let cp := load_policy db (currentCustodyPolicyID s) in
  t1 ← load_table db p_asset (λ _, AssetRecord_AssetID);
  t2 ← load_table db p_account (λ _ a, account_key (AccountRecord_AssetID a) (AccountRecord_AccountCommitment a));
  t3 ← load_table db p_supply (λ _, SupplyRecord_AssetID);
  t4 ← load_table db p_transfer (λ _, TransferRecord_TransferID);
  t5 ← load_table db p_participant (λ _, ParticipantRecord_IdentityHash);
  t6 ← load_table db p_contract (λ _, ContractRecord_ContractID);
  t7 ← load_table db p_contract_execution (λ _, missing_TransferID);
  t8 ← load_table db p_policy (λ _, ConsortiumPolicyRecord_PolicyID);
  t9 ← load_table db p_operator (λ _, WarehouseOperatorRecord_OperatorID);
  t10 ← load_table db p_sku (λ _, AcceptedSkuClassRecord_SkuClassID);
  t11 ← load_table db p_lot (λ _, IntakeLotRecord_LotID);
  t12 ← load_table db p_redemption (λ _, RedemptionRequestRecord_RequestID);
  t13 ← load_table db p_settlement (λ _, RedemptionSettlementRecord_SettlementID);
  t14 ← load_table db p_demurrage (λ _, DemurrageAssessmentRecord_AssessmentID);
  t15 ← load_table db p_enrollment (λ _, EnrollmentRecord_Token);
  t16 ← load_table db p_action (λ _, AuthorityActionRecord_ActionID);
  t17 ← load_table db p_validator (λ _, ValidatorRecord_PubKeyBase64);
  Some (s <| height := h |> <| appHash := ah |> <| currentCustodyPolicyID := cp |>
          <| assets := t1 |> <| accounts := t2 |> <| supply := t3 |> <| transferRecords := t4 |>
          <| participants := t5 |> <| contracts := t6 |> <| contractExecutions := t7 |>
          <| consortiumPolicies := t8 |> <| warehouseOperators := t9 |> <| acceptedSkuClasses := t10 |>
          <| intakeLots := t11 |> <| redemptionRequests := t12 |> <| redemptionSettlements := t13 |>
          <| demurrageAssessments := t14 |> <| enrollmentRecords := t15 |> <| authorityActions := t16 |>
          <| validators := t17 |>).

(** [NewStateWithOptions]: two configured authority keys must differ. *)
Definition NewStateWithOptions {DB} `{KVStore DB} (db : DB) (opts : Options) : error + State :=
  let elig := EligibilityAuthorityPubKey opts in
  let reconcile := ReconciliationAuthorityPubKey opts in
  if (0 <? blen elig) && (0 <? blen reconcile) && bool_decide (bytes_of elig = bytes_of reconcile) then
    inl (Errorf "eligibility_authority_pub_key and reconciliation_authority_pub_key must be distinct keys; identical keys collapse the two-party threshold to a single-party threshold" [])
  else
    match loadState db (initialState opts) with
    | Some s => inr s
    | None => inl (Errorf "failed to load state: %w" [FErr (Errorf "db" [])])
    end.
Definition NewState {DB} `{KVStore DB} (db : DB) : error + State := NewStateWithOptions db (mkOptions None None None).
End persist.

(** ** Well-keyed states *)
(** Every record sits under the key it is reloaded under. *)
Definition keyed (s : State) : Prop :=
  map_Forall (λ k r, AssetRecord_AssetID r = k) (assets s) ∧
  map_Forall (λ k r, account_key (AccountRecord_AssetID r) (AccountRecord_AccountCommitment r) = k) (accounts s) ∧
  map_Forall (λ k r, SupplyRecord_AssetID r = k) (supply s) ∧
  map_Forall (λ k r, TransferRecord_TransferID r = k) (transferRecords s) ∧
  map_Forall (λ k r, ParticipantRecord_IdentityHash r = k) (participants s) ∧
  map_Forall (λ k r, ContractRecord_ContractID r = k) (contracts s) ∧
  map_Forall (λ k r, ContractExecutionRecord_ExecutionID r = k) (contractExecutions s) ∧
  map_Forall (λ k r, ConsortiumPolicyRecord_PolicyID r = k) (consortiumPolicies s) ∧
  map_Forall (λ k r, WarehouseOperatorRecord_OperatorID r = k) (warehouseOperators s) ∧
  map_Forall (λ k r, AcceptedSkuClassRecord_SkuClassID r = k) (acceptedSkuClasses s) ∧
  map_Forall (λ k r, IntakeLotRecord_LotID r = k) (intakeLots s) ∧
  map_Forall (λ k r, RedemptionRequestRecord_RequestID r = k) (redemptionRequests s) ∧
  map_Forall (λ k r, RedemptionSettlementRecord_SettlementID r = k) (redemptionSettlements s) ∧
  map_Forall (λ k r, DemurrageAssessmentRecord_AssessmentID r = k) (demurrageAssessments s) ∧
  map_Forall (λ k r, EnrollmentRecord_Token r = k) (enrollmentRecords s) ∧
  map_Forall (λ k r, AuthorityActionRecord_ActionID r = k) (authorityActions s) ∧
  map_Forall (λ k r, ValidatorRecord_PubKeyBase64 r = k) (validators s).
(** Every integer of every record is in the range of its Go type. *)
Definition in_range_records (s : State) : Prop :=
  map_Forall (λ _, AssetRecord_ok) (assets s) ∧ map_Forall (λ _, AccountRecord_ok) (accounts s) ∧
  map_Forall (λ _, SupplyRecord_ok) (supply s) ∧ map_Forall (λ _, TransferRecord_ok) (transferRecords s) ∧
  map_Forall (λ _, ParticipantRecord_ok) (participants s) ∧ map_Forall (λ _, ContractRecord_ok) (contracts s) ∧
  map_Forall (λ _, ContractExecutionRecord_ok) (contractExecutions s) ∧
  map_Forall (λ _, ConsortiumPolicyRecord_ok) (consortiumPolicies s) ∧
  map_Forall (λ _, WarehouseOperatorRecord_ok) (warehouseOperators s) ∧
  map_Forall (λ _, AcceptedSkuClassRecord_ok) (acceptedSkuClasses s) ∧
  map_Forall (λ _, IntakeLotRecord_ok) (intakeLots s) ∧
  map_Forall (λ _, RedemptionRequestRecord_ok) (redemptionRequests s) ∧
  map_Forall (λ _, RedemptionSettlementRecord_ok) (redemptionSettlements s) ∧
  map_Forall (λ _, DemurrageAssessmentRecord_ok) (demurrageAssessments s) ∧
  map_Forall (λ _, EnrollmentRecord_ok) (enrollmentRecords s) ∧
  map_Forall (λ _, AuthorityActionRecord_ok) (authorityActions s) ∧
  map_Forall (λ _, ValidatorRecord_ok) (validators s).

(** [batch_get] of one table of the whole batch: no table prefix is a prefix of
    another, nor of a key of [commit_meta]. *)
Lemma batch_get_commit_meta h hash policy key :
  key ≠ "height" → key ≠ "app_hash" → key ≠ "custody_policy_current" →
  batch_get (commit_meta h hash policy) key = None.
Proof.
  intros. unfold batch_get. apply not_elem_of_list_to_map. cbn.
  rewrite !not_elem_of_cons. split_and!; try done. apply not_elem_of_nil.
Qed.
Ltac batch_lookup :=
  intros ?; unfold commit_batch; rewrite !batch_get_app, batch_get_commit_meta by done;
  repeat first [rewrite batch_get_other by reflexivity | rewrite batch_get_table];
  cbn beta iota; try done; by destruct (_ !! _).
(** One table of a load, with the roundtrip and the key of its records. *)
Ltac load_one H K R :=
  rewrite (load_table_spec _ _ _ _ H) by (intros k r Hk; split; [by apply of_to_json; apply (R k)|by apply (K k)]);
  cbn [mbind option_bind].

(** The seventeen tables of [db] are those of [s]. *)
Definition stored {DB} `{KVStore DB} (db : DB) (s : State) : Prop :=
  stored_table db p_asset (assets s) ∧ stored_table db p_account (accounts s) ∧
  stored_table db p_supply (supply s) ∧ stored_table db p_transfer (transferRecords s) ∧
  stored_table db p_participant (participants s) ∧ stored_table db p_contract (contracts s) ∧
  stored_table db p_contract_execution (contractExecutions s) ∧
  stored_table db p_policy (consortiumPolicies s) ∧ stored_table db p_operator (warehouseOperators s) ∧
  stored_table db p_sku (acceptedSkuClasses s) ∧ stored_table db p_lot (intakeLots s) ∧
  stored_table db p_redemption (redemptionRequests s) ∧ stored_table db p_settlement (redemptionSettlements s) ∧
  stored_table db p_demurrage (demurrageAssessments s) ∧ stored_table db p_enrollment (enrollmentRecords s) ∧
  stored_table db p_action (authorityActions s) ∧ stored_table db p_validator (validators s).
(** No table loses a key. *)
Definition key_subset {V} (m m' : gmap string V) : Prop := ∀ k, is_Some (m !! k) → is_Some (m' !! k).
Definition grows (s s' : State) : Prop :=
  key_subset (assets s) (assets s') ∧ key_subset (accounts s) (accounts s') ∧
  key_subset (supply s) (supply s') ∧ key_subset (transferRecords s) (transferRecords s') ∧
  key_subset (participants s) (participants s') ∧ key_subset (contracts s) (contracts s') ∧
  key_subset (contractExecutions s) (contractExecutions s') ∧
  key_subset (consortiumPolicies s) (consortiumPolicies s') ∧
  key_subset (warehouseOperators s) (warehouseOperators s') ∧
  key_subset (acceptedSkuClasses s) (acceptedSkuClasses s') ∧ key_subset (intakeLots s) (intakeLots s') ∧
  key_subset (redemptionRequests s) (redemptionRequests s') ∧
  key_subset (redemptionSettlements s) (redemptionSettlements s') ∧
  key_subset (demurrageAssessments s) (demurrageAssessments s') ∧
  key_subset (enrollmentRecords s) (enrollmentRecords s') ∧
  key_subset (authorityActions s) (authorityActions s') ∧ key_subset (validators s) (validators s').

#[export] Instance key_subset_refl V : Reflexive (@key_subset V).
Proof. by intros m k. Qed.
#[export] Instance key_subset_trans V : Transitive (@key_subset V).
Proof. intros m1 m2 m3 H1 H2 k Hk. by apply H2, H1. Qed.
Lemma key_subset_insert {V} (m : gmap string V) k v : key_subset m (<[k:=v]> m).
Proof. intros k' Hk. rewrite lookup_insert. case_decide; [by eexists|done]. Qed.
Lemma key_subset_alter {V} f k (m : gmap string V) : key_subset m (alter f k m).
Proof. intros k' Hk. by rewrite lookup_alter_is_Some. Qed.
Lemma key_subset_fmap {V} f (m : gmap string V) : key_subset m (f <$> m).
Proof. intros k' Hk. by rewrite lookup_fmap, fmap_is_Some. Qed.
Lemma key_subset_union {V} (m old : gmap string V) : key_subset old m → m ∪ old = m.
Proof.
  intros H. apply map_eq. intros k. rewrite lookup_union.
  destruct (m !! k) eqn:E, (old !! k) eqn:E2; try done. destruct (H k) as [? ?]; [by eexists|congruence].
Qed.
#[export] Instance grows_refl : Reflexive grows.
Proof. intros s. unfold grows. split_and!; done. Qed.
#[export] Instance grows_trans : Transitive grows.
Proof.
  intros s1 s2 s3. unfold grows. intros H1 H2. destruct_and! H1. destruct_and! H2.
  split_and!; etrans; done.
Qed.

Section restart.
Context `{C : Crypto} `{F : MissingField} {DB : Type} `{KVLaws DB}.

Lemma batch_written (db db' : DB) batch k :
  db_write db batch = Some db' →
  db_get db' k = match batch_get batch k with Some v => Some v | None => db_get db k end.
Proof. apply db_get_write. Qed.
Lemma stored_grown {V} `{Json V} (db db' : DB) batch prefix (m old : gmap string V) :
  db_write db batch = Some db' →
  (∀ k, batch_get batch (prefix +:+ k) = VJson ∘ to_json <$> m !! k) →
  key_subset old m → stored_table db prefix old → stored_table db' prefix m.
Proof.
  intros Hw Hb Hs Ho. rewrite <- (key_subset_union _ _ Hs). by eapply batch_table_get.
Qed.
(** What a commit leaves in the database. *)
Lemma wire_commit_stored (db db' : DB) (old s s' : State) h :
  stored db old → grows old s → dirty s = true → Commit db s = (Ok h, (s', db')) →
  stored db' s' ∧
  s' = s <| appHash := h |> <| height ::= int64_inc |> <| dirty := false |> ∧
  h = Some (computeAppHash s) ∧
  db_get db' "height" = Some (VBytes (fmt_d (height s'))) ∧
  db_get db' "app_hash" = Some (VBytes (computeAppHash s)) ∧
  db_get db' "custody_policy_current" = Some (VBytes (currentCustodyPolicyID s')).
Proof.
  intros Hst Hg Hd. unfold Commit. rewrite Hd. cbv zeta.
  set (batch := _ ++ _). destruct (db_write db batch) as [db2|] eqn:Hw; [|done].
  intros [= <- <- <-]. unfold stored, grows in *. destruct_and! Hst. destruct_and! Hg.
  split_and!; try done.
  1-17: (eapply stored_grown; [exact Hw| |done|done]; subst batch; batch_lookup).
  all: rewrite (batch_written _ _ _ _ Hw); subst batch; by rewrite batch_get_app.
Qed.

Lemma wire_loadState_stored (db : DB) (s init : State) h ah :
  stored db s → keyed s → in_range_records s → int64_ok h →
  db_get db "height" = Some (VBytes (fmt_d h)) → db_get db "app_hash" = Some (VBytes ah) →
  db_get db "custody_policy_current" = Some (VBytes (currentCustodyPolicyID s)) →
  ∃ executions, rekeyed missing_TransferID (contractExecutions s) executions ∧
  loadState db init = Some (init <| height := h |> <| appHash := Some ah |>
    <| currentCustodyPolicyID := currentCustodyPolicyID s |>
    <| assets := assets s |> <| accounts := accounts s |> <| supply := supply s |>
    <| transferRecords := transferRecords s |> <| participants := participants s |> <| contracts := contracts s |>
    <| contractExecutions := executions |> <| consortiumPolicies := consortiumPolicies s |>
    <| warehouseOperators := warehouseOperators s |> <| acceptedSkuClasses := acceptedSkuClasses s |>
    <| intakeLots := intakeLots s |> <| redemptionRequests := redemptionRequests s |>
    <| redemptionSettlements := redemptionSettlements s |> <| demurrageAssessments := demurrageAssessments s |>
    <| enrollmentRecords := enrollmentRecords s |> <| authorityActions := authorityActions s |>
    <| validators := validators s |>).
Proof.
  intros (H1&H2&H3&H4&H5&H6&H7&H8&H9&H10&H11&H12&H13&H14&H15&H16&H17)
    (K1&K2&K3&K4&K5&K6&K7&K8&K9&K10&K11&K12&K13&K14&K15&K16&K17)
    (R1&R2&R3&R4&R5&R6&R7&R8&R9&R10&R11&R12&R13&R14&R15&R16&R17) Hh Eh Ea Ep.
  unfold loadState, load_wire_height, load_wire_hash, load_policy. rewrite Eh, Ea, Ep. cbn [from_option db_bytes].
  rewrite scan_fmt_d by done. cbn [default from_option]. cbv zeta.
  destruct (load_table_rekeyed _ _ missing_TransferID _ H7) as (executions & E7 & Hx);
    [intros k r Hk; apply of_to_json; by apply (R7 k)|]. exists executions. split; [done|].
  load_one H1 K1 R1. load_one H2 K2 R2. load_one H3 K3 R3. load_one H4 K4 R4. load_one H5 K5 R5.
  load_one H6 K6 R6. rewrite E7. cbn [mbind option_bind]. load_one H8 K8 R8. load_one H9 K9 R9. load_one H10 K10 R10.
  load_one H11 K11 R11. load_one H12 K12 R12. load_one H13 K13 R13. load_one H14 K14 R14.
  load_one H15 K15 R15. load_one H16 K16 R16. load_one H17 K17 R17. done.
Qed.
End restart.

Section roundtrip.
Context `{C : Crypto} `{F : MissingField} {DB : Type} `{KVLaws DB}.

(** The database holds the state as its last commit left it. *)
Definition committed (db : DB) (s : State) : Prop :=
  stored db s ∧ db_get db "height" = Some (VBytes (fmt_d (height s))) ∧
  (∃ ah, appHash s = Some ah ∧ db_get db "app_hash" = Some (VBytes ah)) ∧
  db_get db "custody_policy_current" = Some (VBytes (currentCustodyPolicyID s)).
(** What a restart keeps of a state: all but the configured keys, the queued
    validator updates and the dirty flag. *)
Definition restarted (opts : Options) (s : State) : State :=
  s <| enrollmentAuthorityPubKey := EnrollmentAuthorityPubKey opts |>
    <| eligibilityAuthorityPubKey := EligibilityAuthorityPubKey opts |>
    <| reconciliationAuthorityPubKey := ReconciliationAuthorityPubKey opts |>
    <| pendingValidatorUpdates := [] |> <| dirty := false |>.
(** A database restarts as [s]: every table, the height, the hash, the policy and the keys;
    the contract executions under what the missing field would be, and as they were when
    that is the key they were stored under. *)
Definition restored (db : DB) (opts : Options) (s : State) : Prop :=
  ∃ executions, rekeyed missing_TransferID (contractExecutions s) executions ∧
    (map_Forall (λ k r, missing_TransferID r = k) (contractExecutions s) → executions = contractExecutions s) ∧
    NewStateWithOptions db opts = inr (restarted opts s <| contractExecutions := executions |>).
Definition distinct_authorities (opts : Options) : Prop :=
  bytes_of (EligibilityAuthorityPubKey opts) ≠ bytes_of (ReconciliationAuthorityPubKey opts) ∨
  bytes_of (EligibilityAuthorityPubKey opts) = "".

Lemma NewStateWithOptions_committed (db : DB) (s : State) opts :
  committed db s → keyed s → in_range_records s → int64_ok (height s) → distinct_authorities opts →
  restored db opts s.
Proof.
  intros (Hst & Eh & (ah & Ha & Ea) & Ep) Hk Hr Hh Hd.
  destruct (wire_loadState_stored db s (initialState opts) _ _ Hst Hk Hr Hh Eh Ea Ep) as (executions & Hx & E).
  exists executions. split; [done|]. split; [by intros Hid; eapply rekeyed_id|]. unfold NewStateWithOptions. rewrite E.
  assert ((0 <? blen (EligibilityAuthorityPubKey opts)) && (0 <? blen (ReconciliationAuthorityPubKey opts)) &&
    bool_decide (bytes_of (EligibilityAuthorityPubKey opts) = bytes_of (ReconciliationAuthorityPubKey opts)) = false) as ->.
  { destruct Hd as [Hd|Hd]; [by rewrite (bool_decide_eq_false_2 _ Hd), andb_false_r|].
    unfold blen. by rewrite Hd. }
  f_equal. unfold restarted. rewrite <- Ha. by destruct s.
Qed.

(** Commit on a database that holds an earlier state with no key the new one
    lacks, then a restart: the new state comes back, every record of the seventeen
    tables, the height, the hash and the current custody policy. *)
Theorem wire_Commit_restart (db db' : DB) (old s s' : State) (h : gobytes) (opts : Options) :
  stored db old → grows old s → keyed s → in_range_records s → distinct_authorities opts →
  dirty s = true → Commit db s = (Ok h, (s', db')) →
  h = Some (computeAppHash s) ∧ height s' = int64_inc (height s) ∧ stored db' s' ∧
  restored db' opts s'.
Proof.
  intros Hst Hg Hk Hr Ho Hd Hc. destruct (wire_commit_stored _ _ _ _ _ _ Hst Hg Hd Hc) as (Hs' & Es & -> & Eh & Ea & Ep).
  split_and!; [done|by subst s'|done|]. apply NewStateWithOptions_committed; try by subst s'.
  - split_and!; [done..| |done]. exists (computeAppHash s). by subst s'.
  - subst s'. apply wrap64_ok.
Qed.
End roundtrip.
