(* ===== verification/WireApp.v ===== *)
(** The read surface of embodiments/shywire/state/state.go ([Query]), its dispatch
    ([ValidateTx], [ExecuteTx]) and the ABCI application of embodiments/shywire/app/app.go
    around it. *)
From S2P Require Import Prelude GoStd Json KVStore Tables TxData TxValidate WireTypes WireTx WireState WireSupply.
From S2P Require Import WireAccounts WireContracts WireCustody WireAdverse WirePersist.

(** [sortedKeys] and [sortedRecords]. *)
Definition sortedKeys {V} (m : gmap string V) : list string := sort_Strings (map_keys m).
Definition sortedRecords {V} (m : gmap string V) : list V := omap (m !!.) (sortedKeys m).

Definition public_transfer (r : TransferRecord) : PublicTransferRecord :=
  mkPublicTransferRecord (TransferRecord_TransferID r) (TransferRecord_AssetID r)
    (TransferRecord_Timestamp r) (TransferRecord_Height r).
(** An action a participant may see: on this account, for this asset or for all. *)
Definition action_visible (assetID accountCommitment : string) (r : AuthorityActionRecord) : bool :=
  bool_decide (AuthorityActionRecord_AccountCommitment r = accountCommitment) &&
  (bool_decide (AuthorityActionRecord_AssetID r = assetID) || str_empty (AuthorityActionRecord_AssetID r)).

(** The case of "/authority_actions/{asset_id}/{account_commitment}"; the records come
    in the order of the map iteration, which Go leaves open. *)
Definition query_authority_actions (s : State) (rest : string) : error + json :=
  match split2 rest "/" with
  | (asset, Some commitment) =>
      if str_empty asset || str_empty commitment then
        query_error "authority_actions requires /authority_actions/{asset_id}/{account_commitment}" []
      else marshal_records (List.filter (action_visible asset commitment) (map_to_list (authorityActions s)).*2)
  | (_, None) => query_error "authority_actions requires /authority_actions/{asset_id}/{account_commitment}" []
  end.
(** [Query]: the cases in the order of the switch. *)
Definition Query (s : State) (path : string) : error + json :=
  let under p := has_prefix path p in
  let id p := trim_prefix path p in
  if under "/asset/" then query_record (assets s) (id "/asset/") "asset not found: %s"
  else if under "/supply/" then query_record (supply s) (id "/supply/") "supply not found: %s"
  else if under "/balance/" then
    match split2 (id "/balance/") "/" with
    | (_, None) => query_error "invalid balance query path: %s" [FStr path]
    | (asset, Some commitment) => query_record (accounts s) (account_key asset commitment) "account not found: %s"
    end
  else if under "/transfer_exists/" then
    inr (JObj [("exists", JBool (has (transferRecords s) (id "/transfer_exists/")))])
  else if under "/transfer/" then
    query_record (public_transfer <$> transferRecords s) (id "/transfer/") "transfer not found: %s"
  else if under "/contract/" then query_record (contracts s) (id "/contract/") "contract not found: %s"
  else if under "/contract/execution/" then
    query_record (contractExecutions s) (id "/contract/execution/") "contract execution not found: %s"
  else if bool_decide (path = "/custody/policies") then marshal_records (sortedRecords (consortiumPolicies s))
  else if bool_decide (path = "/custody/policies/current") then
    if str_empty (currentCustodyPolicyID s) then query_error "no current custody policy" []
    else query_record (consortiumPolicies s) (currentCustodyPolicyID s) "current custody policy not found: %s"
  else if under "/custody/policies/" then
    query_record (consortiumPolicies s) (id "/custody/policies/") "custody policy not found: %s"
  else if bool_decide (path = "/custody/operators") then marshal_records (sortedRecords (warehouseOperators s))
  else if under "/custody/operators/" then
    query_record (warehouseOperators s) (id "/custody/operators/") "warehouse operator not found: %s"
  else if bool_decide (path = "/custody/skus") then marshal_records (sortedRecords (acceptedSkuClasses s))
  else if under "/custody/skus/" then
    query_record (acceptedSkuClasses s) (id "/custody/skus/") "accepted sku class not found: %s"
  else if bool_decide (path = "/custody/lots") then marshal_records (sortedRecords (intakeLots s))
  else if under "/custody/lots/" then
    query_record (intakeLots s) (id "/custody/lots/") "custody intake lot not found: %s"
  else if bool_decide (path = "/custody/redemptions") then marshal_records (sortedRecords (redemptionRequests s))
  else if under "/custody/redemptions/" then
    query_record (redemptionRequests s) (id "/custody/redemptions/") "custody redemption request not found: %s"
  else if bool_decide (path = "/custody/settlements") then marshal_records (sortedRecords (redemptionSettlements s))
  else if under "/custody/settlements/" then
    query_record (redemptionSettlements s) (id "/custody/settlements/") "custody redemption settlement not found: %s"
  else if bool_decide (path = "/custody/demurrage") then marshal_records (sortedRecords (demurrageAssessments s))
  else if under "/custody/demurrage/" then
    query_record (demurrageAssessments s) (id "/custody/demurrage/") "custody demurrage assessment not found: %s"
  else if under "/authority_actions/" then
    query_authority_actions s (id "/authority_actions/")
  else query_error "unknown query path: %s" [FStr path].

Section app.
Context `{C : Crypto} `{W : Wallet}.

Definition unknown_type (ty : Z) : error := Errorf "unknown tx type: %d" [FInt ty].
(** [ValidateTx]. *)
Definition ValidateTx (transaction : Tx) : M State unit :=
  let ty := Tx_Type transaction in
  if ty =? TxTypeRegisterAsset then validateRegisterAsset transaction
  else if ty =? TxTypeMint then validateMint transaction
  else if ty =? TxTypeBurn then validateBurn transaction
  else if ty =? TxTypeTransfer then validateTransfer transaction
  else if ty =? TxTypeRegisterAccount then validateRegisterAccount transaction
  else if ty =? TxTypeRegisterValidator then mret tt
  else if ty =? TxTypeRegisterContract then validateRegisterContract transaction
  else if ty =? TxTypeExecuteContract then validateExecuteContract transaction
  else if ty =? TxTypeActivateContract then validateActivateContract transaction
  else if ty =? TxTypeRegisterConsortiumPolicy then validateRegisterConsortiumPolicy transaction
  else if ty =? TxTypeRegisterWarehouseOperator then validateRegisterWarehouseOperator transaction
  else if ty =? TxTypeRegisterAcceptedSkuClass then validateRegisterAcceptedSkuClass transaction
  else if ty =? TxTypeRecordCustodyIntakeLot then validateRecordCustodyIntakeLot transaction
  else if ty =? TxTypeRequestCustodyRedemption then validateRequestCustodyRedemption transaction
  else if ty =? TxTypeSettleCustodyRedemption then validateSettleCustodyRedemption transaction
  else if ty =? TxTypeApplyCustodyDemurrage then validateApplyCustodyDemurrage transaction
  else if ty =? TxTypeAdverseAction then validateAdverseAction transaction
  else failM (unknown_type ty).

(** [ExecuteTx]; [now] is the clock reading of the one handler that runs. *)
Definition ExecuteTx (now : Z) (transaction : Tx) : M State (list Event) :=
  let ty := Tx_Type transaction in
  if ty =? TxTypeRegisterAsset then executeRegisterAsset now transaction
  else if ty =? TxTypeMint then executeMint now transaction
  else if ty =? TxTypeBurn then executeBurn now transaction
  else if ty =? TxTypeTransfer then executeTransfer now transaction
  else if ty =? TxTypeRegisterAccount then executeRegisterAccount transaction
  else if ty =? TxTypeRegisterValidator then executeRegisterValidator transaction
  else if ty =? TxTypeRegisterContract then executeRegisterContract now transaction
  else if ty =? TxTypeExecuteContract then executeExecuteContract now transaction
  else if ty =? TxTypeActivateContract then executeActivateContract now transaction
  else if ty =? TxTypeRegisterConsortiumPolicy then executeRegisterConsortiumPolicy now transaction
  else if ty =? TxTypeRegisterWarehouseOperator then executeRegisterWarehouseOperator now transaction
  else if ty =? TxTypeRegisterAcceptedSkuClass then executeRegisterAcceptedSkuClass now transaction
  else if ty =? TxTypeRecordCustodyIntakeLot then executeRecordCustodyIntakeLot now transaction
  else if ty =? TxTypeRequestCustodyRedemption then executeRequestCustodyRedemption now transaction
  else if ty =? TxTypeSettleCustodyRedemption then executeSettleCustodyRedemption now transaction
  else if ty =? TxTypeApplyCustodyDemurrage then executeApplyCustodyDemurrage now transaction
  else if ty =? TxTypeAdverseAction then executeAdverseAction now transaction
  else failM (unknown_type ty).

(** ** app/app.go *)
Record ResponseCheckTx := mkResponseCheckTx { CheckTx_Code : Z; CheckTx_Log : option error }.
Definition wrap_log (format : string) (e : error) : option error := Some (Errorf format [FErr e]).
(** [CheckTx]. *)
Definition CheckTx (doc : option json) : M State ResponseCheckTx :=
  match DecodeTx doc with
  | None => mret (mkResponseCheckTx 1 (wrap_log "invalid tx encoding: %v" json_error))
  | Some transaction =>
      r ← try (Validate transaction);
      match r with
      | Ok _ =>
          r ← try (ValidateTx transaction);
          mret (match r with
                | Ok _ => mkResponseCheckTx 0 None
                | Fail e => mkResponseCheckTx 3 (wrap_log "tx validation failed: %v" e)
                | Panic => mkResponseCheckTx 3 None
                end)
      | Fail e => mret (mkResponseCheckTx 2 (wrap_log "invalid tx: %v" e))
      | Panic => panicM
      end
  end.

Record ExecTxResult := mkExecTxResult { Exec_Code : Z; Exec_Log : option error; Exec_Events : list Event }.
(** One turn of the loop of [FinalizeBlock]: the transaction is decoded and executed;
    neither [Validate] nor [ValidateTx] is called. *)
Definition exec_tx (now : Z) (doc : option json) : M State ExecTxResult :=
  match DecodeTx doc with
  | None => mret (mkExecTxResult 1 (wrap_log "decode error: %v" json_error) [])
  | Some transaction =>
      r ← try (ExecuteTx now transaction);
      mret (match r with
            | Ok events => mkExecTxResult 0 None events
            | Fail e => mkExecTxResult 4 (wrap_log "exec error: %v" e) []
            | Panic => mkExecTxResult 4 None []
            end)
  end.
Fixpoint exec_txs (now : nat → Z) (i : nat) (txs : list (option json)) : M State (list ExecTxResult) :=
  match txs with
  | [] => mret []
  | doc :: rest => r ← exec_tx (now i) doc; rs ← exec_txs now (S i) rest; mret (r :: rs)
  end.
Record ResponseFinalizeBlock := mkResponseFinalizeBlock {
  Res_TxResults : list ExecTxResult; Res_ValidatorUpdates : list ValidatorUpdate; Res_AppHash : gobytes }.
Definition run_block (now : nat → Z) (txs : list (option json)) : M State (list ExecTxResult * list ValidatorUpdate) :=
  results ← exec_txs now 0 txs;
  updates ← GetPendingValidatorUpdates;
  mret (results, updates).
(** [FinalizeBlock]. *)
Definition FinalizeBlock {DB} `{KVStore DB} (now : nat → Z) (db : DB) (txs : list (option json)) (s : State) :
    res ResponseFinalizeBlock * (State * DB) :=
  match run_block now txs s with
  | (Ok (results, updates), s1) =>
      match Commit db s1 with
      | (Ok h, sd) => (Ok (mkResponseFinalizeBlock results updates h), sd)
      | (Fail e, sd) => (Fail (Errorf "commit failed: %w" [FErr e]), sd)
      | (Panic, sd) => (Panic, sd)
      end
  | (Fail e, s1) => (Fail e, (s1, db))
  | (Panic, s1) => (Panic, (s1, db))
  end.

(** The chain: blocks finalized one after another, each with its own clock. *)
Fixpoint run_blocks {DB} `{KVStore DB} (now : nat → nat → Z) (db : DB) (s : State)
    (blocks : list (list (option json))) : State * DB :=
  match blocks with
  | [] => (s, db)
  | txs :: rest =>
      let '(_, (s', db')) := FinalizeBlock (now (length rest)) db txs s in run_blocks now db' s' rest
  end.

(** [Info], the answers to [Query], and the options [New] builds from its
    configuration: the two authority keys of adverse actions are never set. *)
Definition Info (s : State) : Z * gobytes := GetInfo s.
Record ResponseQuery := mkResponseQuery { Query_Code : Z; Query_Log : option error; Query_Value : option json }.
Definition QueryResponse (s : State) (path : string) : ResponseQuery :=
  match Query s path with
  | inl e => mkResponseQuery 5 (wrap_log "query failed: %v" e) None
  | inr v => mkResponseQuery 0 None (Some v)
  end.
Definition New `{F : MissingField} {DB} `{KVStore DB} (db : DB) (EnrollmentAuthorityPubKeyBase64 : string) : error + State :=
  match (if str_empty EnrollmentAuthorityPubKeyBase64 then Some None
         else Some <$> base64_DecodeString EnrollmentAuthorityPubKeyBase64) with
  | None => inl (Errorf "invalid enrollment authority pubkey: %w" [FErr base64_error])
  | Some key =>
      match NewStateWithOptions db (mkOptions key None None) with
      | inl e => inl (Errorf "failed to initialize state: %w" [FErr e])
      | inr s => inr s
      end
  end.
End app.
