(* ===== verification/WireFrames.v ===== *)
(** What every execution of the transfer protocol leaves alone, whether it returns,
    fails or panics: no table loses a key, every record stays under the key it is
    reloaded under, and the supply of an asset is what was minted less what was
    burned. *)
From S2P Require Import Prelude GoStd Json TxData TxValidate WireTypes WireTx WireState WireSupply WireAccounts.
From S2P Require Import WireContracts WireCustody WireAdverse WirePersist WireApp.

(** ** No table loses a key *)
Create HintDb grows.
Create HintDb keyed.
Ltac grow := unfold grows; split_and!; cbn;
  first [reflexivity | apply key_subset_insert | apply key_subset_alter | apply key_subset_fmap].

Lemma grows_update_account key f : keeps grows (update_account key f).
Proof. unfold update_account. keeps_auto. grow. Qed.
Lemma grows_update_supply id f : keeps grows (update_supply id f).
Proof. unfold update_supply. keeps_auto. grow. Qed.
Lemma grows_update_asset id f : keeps grows (update_asset id f).
Proof. unfold update_asset. keeps_auto. grow. Qed.
Lemma grows_update_contract id f : keeps grows (update_contract id f).
Proof. unfold update_contract. keeps_auto. grow. Qed.
Lemma grows_change_supply id f : keeps grows (change_supply id f).
Proof.
  unfold change_supply. keeps_auto; auto using grows_update_supply, grows_update_asset.
Qed.
Lemma key_subset_supersede now h current m : key_subset m (supersede now h current m).
Proof. unfold supersede. destruct (str_empty current); [done|apply key_subset_alter]. Qed.
Lemma key_subset_allocate now h lots : ∀ remaining m, key_subset m (allocate_loop now h remaining lots m).2.
Proof.
  induction lots as [|[key lot] rest IH]; intros remaining m; cbn; [done|].
  case_match; [done|]. set (m1 := <[key := _]> m). set (r := int64_sub _ _).
  specialize (IH r m1). destruct (allocate_loop now h r rest m1) as [al m2]. cbn in *.
  etrans; [apply key_subset_insert|exact IH].
Qed.
Lemma grows_allocate a w k q now : keeps grows (allocateCustodyInventory a w k q now).
Proof.
  unfold allocateCustodyInventory. intros s. case_match; [done|]. rewrite bind_run, gets_run.
  pose proof (key_subset_allocate now (height s) (inventoryLots (intakeLots s) a w k) q (intakeLots s)) as Hk.
  destruct (allocate_loop _ _ _ _ _) as [al m]. cbn in *. unfold grows. split_and!; cbn; first [exact Hk|reflexivity].
Qed.
#[export] Hint Resolve grows_update_account grows_update_contract grows_change_supply grows_allocate : grows.

Section grows.
Context `{C : Crypto} `{W : Wallet}.

Ltac grow_all := keeps_auto; auto with grows; try grow.
Lemma grows_burn_from asset commitment amount now : keeps grows (burn_from asset commitment amount now).
Proof. unfold burn_from. grow_all. Qed.
#[local] Hint Resolve grows_burn_from : grows.
Lemma ExecuteTx_grows now t : keeps grows (ExecuteTx now t).
Proof.
  unfold ExecuteTx. keeps_auto.
  - unfold executeRegisterAsset, set_dirty. grow_all.
  - unfold executeMint, set_dirty. grow_all.
  - unfold executeBurn, set_dirty. grow_all.
  - unfold executeTransfer, record_lists, set_dirty. grow_all.
  - unfold executeRegisterAccount, set_dirty. grow_all.
  - unfold executeRegisterValidator, set_dirty. grow_all.
  - unfold executeRegisterContract, set_dirty. grow_all.
  - unfold executeExecuteContract, record_lists, execution_value, set_dirty. grow_all.
  - unfold executeActivateContract, set_dirty. grow_all.
  - unfold executeRegisterConsortiumPolicy, set_dirty. grow_all.
    unfold grows. split_and!; cbn; first [reflexivity|apply key_subset_supersede].
  - unfold executeRegisterWarehouseOperator, set_dirty. grow_all.
  - unfold executeRegisterAcceptedSkuClass, set_dirty. grow_all.
  - unfold executeRecordCustodyIntakeLot, set_dirty. grow_all.
  - unfold executeRequestCustodyRedemption, set_dirty. grow_all.
  - unfold executeSettleCustodyRedemption, set_dirty. grow_all.
  - unfold executeApplyCustodyDemurrage, set_dirty. grow_all.
  - unfold executeAdverseAction, set_dirty. grow_all.
Qed.
End grows.

(** ** Records stay under their keys *)
Definition keeps_keyed (s s' : State) : Prop := keyed s → keyed s'.
#[export] Instance keeps_keyed_refl : Reflexive keeps_keyed.
Proof. intros s. unfold keeps_keyed. auto. Qed.
#[export] Instance keeps_keyed_trans : Transitive keeps_keyed.
Proof. intros s1 s2 s3. unfold keeps_keyed. auto. Qed.

Lemma map_Forall_alter {V} (P : string → V → Prop) f k (m : gmap string V) :
  map_Forall P m → (∀ v, P k v → P k (f v)) → map_Forall P (alter f k m).
Proof.
  intros Hm Hf k' v. rewrite lookup_alter. case_decide as E; [subst k'|intros Hv; by apply (Hm k')].
  intros (v0 & Hv & ->)%fmap_Some. by apply Hf, Hm.
Qed.
Lemma map_Forall_fmap_keep {V} (P : string → V → Prop) (f : V → V) (m : gmap string V) :
  map_Forall P m → (∀ k v, P k v → P k (f v)) → map_Forall P (f <$> m).
Proof. intros Hm Hf k v. rewrite lookup_fmap. intros (v0 & Hv & ->)%fmap_Some. by apply Hf, Hm. Qed.

(** An update that keeps what an account is keyed by. *)
Definition same_account (f : AccountRecord → AccountRecord) : Prop := ∀ a,
  AccountRecord_AssetID (f a) = AccountRecord_AssetID a ∧
  AccountRecord_AccountCommitment (f a) = AccountRecord_AccountCommitment a.
Lemma move_balance_same op now h : same_account (move_balance op now h).
Proof. intros a. by destruct now. Qed.
Lemma act_on_same ty : same_account (act_on ty).
Proof. intros a. unfold act_on. by repeat case_match. Qed.
Lemma apply_action_same d h : same_account (apply_action d h).
Proof.
  intros a. unfold apply_action. destruct (action_matches d a); [|done]. cbn. apply act_on_same.
Qed.
#[export] Hint Resolve move_balance_same apply_action_same : keyed.

Ltac keyed_insert := apply map_Forall_insert_2; [by cbn|done].
Ltac keyed_alter := apply map_Forall_alter; [done|by intros []].
Ltac rekey :=
  unfold keeps_keyed, keyed; intros (?&?&?&?&?&?&?&?&?&?&?&?&?&?&?&?&?); split_and!; cbn;
  first [done | keyed_insert | keyed_alter | idtac].
Lemma keyed_update_account key f : same_account f → keeps keeps_keyed (update_account key f).
Proof.
  intros Hf. unfold update_account. keeps_auto. rekey.
  apply map_Forall_alter; [done|]. intros x <-. by destruct (Hf x) as [-> ->].
Qed.
Lemma keyed_update_contract id f :
  (∀ c, ContractRecord_ContractID (f c) = ContractRecord_ContractID c) → keeps keeps_keyed (update_contract id f).
Proof.
  intros Hf. unfold update_contract. keeps_auto. rekey.
  apply map_Forall_alter; [done|]. intros x <-. apply Hf.
Qed.
Lemma keyed_change_supply id f :
  (∀ r, SupplyRecord_AssetID (f r) = SupplyRecord_AssetID r) → keeps keeps_keyed (change_supply id f).
Proof.
  intros Hf. unfold change_supply, update_supply, update_asset. keeps_auto; rekey.
  apply map_Forall_alter; [done|]. intros x <-. apply Hf.
Qed.
Lemma consume_lot_id c now h lot : IntakeLotRecord_LotID (consume_lot c now h lot) = IntakeLotRecord_LotID lot.
Proof. done. Qed.
(** The entries of the inventory are entries of the table. *)
Lemma inventoryLots_spec lots a w k kv :
  kv ∈ inventoryLots lots a w k ↔ lots !! kv.1 = Some kv.2 ∧ lot_usable a w k kv.2 = true.
Proof.
  unfold inventoryLots. rewrite merge_sort_Permutation, list_elem_of_In, filter_In, <- list_elem_of_In.
  destruct kv as [key lot]. by rewrite elem_of_map_to_list.
Qed.
Lemma keyed_allocate_loop now h lots : ∀ remaining m,
  map_Forall (λ k r, IntakeLotRecord_LotID r = k) m → (∀ kv, kv ∈ lots → IntakeLotRecord_LotID kv.2 = kv.1) →
  map_Forall (λ k r, IntakeLotRecord_LotID r = k) (allocate_loop now h remaining lots m).2.
Proof.
  induction lots as [|[key lot] rest IH]; intros remaining m Hm Hl; cbn; [done|].
  case_match; [done|]. set (m1 := <[key := _]> m). set (r := int64_sub _ _).
  assert (map_Forall (λ k r, IntakeLotRecord_LotID r = k) m1) as Hm1.
  { apply map_Forall_insert_2; [|done]. rewrite consume_lot_id. apply (Hl (key, lot)). by left. }
  specialize (IH r m1 Hm1 (λ kv H, Hl kv ltac:(by right))).
  by destruct (allocate_loop now h r rest m1).
Qed.
Lemma keyed_allocate a w k q now : keeps keeps_keyed (allocateCustodyInventory a w k q now).
Proof.
  unfold allocateCustodyInventory. intros s. case_match; [done|]. rewrite bind_run, gets_run.
  pose proof (keyed_allocate_loop now (height s) (inventoryLots (intakeLots s) a w k) q (intakeLots s)) as Hk.
  destruct (allocate_loop _ _ _ _ _) as [al m]. cbn in *. rekey.
  apply Hk; [done|]. intros [key lot] [Hkv _]%inventoryLots_spec. eauto.
Qed.
#[export] Hint Resolve keyed_update_account keyed_update_contract keyed_change_supply keyed_allocate : keyed.

Section keyed.
Context `{C : Crypto} `{W : Wallet}.

Ltac key_all := keeps_auto; auto with keyed; try rekey.
Lemma keyed_burn_from asset commitment amount now : keeps keeps_keyed (burn_from asset commitment amount now).
Proof. unfold burn_from. key_all. Qed.
#[local] Hint Resolve keyed_burn_from : keyed.
Lemma wire_ExecuteTx_keyed now t : keeps keeps_keyed (ExecuteTx now t).
Proof.
  unfold ExecuteTx. keeps_auto.
  - unfold executeRegisterAsset, set_dirty. key_all.
  - unfold executeMint, set_dirty. key_all.
  - unfold executeBurn, set_dirty. key_all.
  - unfold executeTransfer, record_lists, set_dirty. key_all.
  - unfold executeRegisterAccount, set_dirty. key_all.
  - unfold executeRegisterValidator, set_dirty. key_all.
  - unfold executeRegisterContract, set_dirty. key_all.
  - unfold executeExecuteContract, record_lists, execution_value, set_dirty. key_all.
  - unfold executeActivateContract, set_dirty. key_all.
  - unfold executeRegisterConsortiumPolicy, set_dirty. key_all.
    unfold supersede. case_match; [done|keyed_alter].
  - unfold executeRegisterWarehouseOperator, set_dirty. key_all.
  - unfold executeRegisterAcceptedSkuClass, set_dirty. key_all.
  - unfold executeRecordCustodyIntakeLot, set_dirty. key_all.
  - unfold executeRequestCustodyRedemption, set_dirty. key_all.
  - unfold executeSettleCustodyRedemption, set_dirty. key_all.
  - unfold executeApplyCustodyDemurrage, set_dirty. key_all.
  - unfold executeAdverseAction, set_dirty. key_all.
    apply map_Forall_fmap_keep; [done|]. intros k x <-.
    lazymatch goal with |- context [apply_action ?d ?h x] => by destruct (apply_action_same d h x) as [-> ->] end.
Qed.
End keyed.

(** ** The supply identity *)
(** Of every asset with a supply record the total is minted less burned (in 64-bit
    arithmetic), and every asset has a supply record and shows its total. *)
Definition supply_ok (s : State) : Prop :=
  (∀ id r, supply s !! id = Some r →
     SupplyRecord_TotalSupply r = int64_sub (SupplyRecord_TotalMinted r) (SupplyRecord_TotalBurned r)) ∧
  (∀ id a, assets s !! id = Some a →
     ∃ r, supply s !! id = Some r ∧ AssetRecord_TotalSupply a = SupplyRecord_TotalSupply r).
Definition keeps_supply (s s' : State) : Prop := supply_ok s → supply_ok s'.
#[export] Instance keeps_supply_refl : Reflexive keeps_supply.
Proof. intros s. unfold keeps_supply. auto. Qed.
#[export] Instance keeps_supply_trans : Transitive keeps_supply.
Proof. intros s1 s2 s3. unfold keeps_supply. auto. Qed.
(** Writes elsewhere. *)
Lemma keeps_supply_same s s' : assets s' = assets s → supply s' = supply s → keeps_supply s s'.
Proof. intros Ea Es. unfold keeps_supply, supply_ok. by rewrite Ea, Es. Qed.
(** Two writes seen as one. *)
Lemma keeps_modify2 {St A} (R : St → St → Prop) `{!Transitive R} f g (k : M St A) :
  (∀ s, R s (g (f s))) → keeps R k → keeps R (modify f ;; modify g ;; k).
Proof. intros H Hk s. rewrite bind_run, modify_run, bind_run, modify_run. etrans; [apply H|apply Hk]. Qed.

Lemma change_supply_supply id f :
  (∀ r, SupplyRecord_TotalSupply (f r) = int64_sub (SupplyRecord_TotalMinted (f r)) (SupplyRecord_TotalBurned (f r))) →
  keeps keeps_supply (change_supply id f).
Proof.
  intros Hf s [H1 H2]. unfold change_supply, update_supply, update_asset. mrun.
  destruct (supply s !! id) as [r|] eqn:Er; cbn; [|done]. mrun. fields.
  rewrite lookup_alter_eq, Er. cbn. mrun.
  assert (∀ id' r', alter f id (supply s) !! id' = Some r' →
    SupplyRecord_TotalSupply r' = int64_sub (SupplyRecord_TotalMinted r') (SupplyRecord_TotalBurned r')) as H1'.
  { intros id' r'. rewrite lookup_alter. case_decide as E; [|apply H1]. subst. rewrite Er. intros [= <-]. apply Hf. }
  fields. destruct (assets s !! id) as [a|] eqn:Ea; cbn; split; fields; [done| |done|].
  - intros id' a'. rewrite lookup_alter. case_decide as E; subst.
    + rewrite Ea. intros [= <-]. exists (f r). rewrite lookup_alter_eq, Er. done.
    + rewrite lookup_alter_ne by done. apply H2.
  - intros id' a' Ha'. rewrite lookup_alter_ne by congruence. by apply H2.
Qed.
Create HintDb wsupply.
#[export] Hint Resolve change_supply_supply : wsupply.

Section supply.
Context `{C : Crypto} `{W : Wallet}.

Ltac sup_all := keeps_auto; auto with wsupply; try (apply keeps_supply_same; reflexivity).
Lemma allocate_supply a w k q now : keeps keeps_supply (allocateCustodyInventory a w k q now).
Proof.
  unfold allocateCustodyInventory. intros s. case_match; [done|]. rewrite bind_run, gets_run.
  destruct (allocate_loop _ _ _ _ _) as [al m]. apply keeps_supply_same; reflexivity.
Qed.
Lemma update_account_supply key f : keeps keeps_supply (update_account key f).
Proof. unfold update_account. sup_all. Qed.
Lemma update_contract_supply key f : keeps keeps_supply (update_contract key f).
Proof. unfold update_contract. sup_all. Qed.
#[local] Hint Resolve allocate_supply update_account_supply update_contract_supply : wsupply.
Lemma burn_from_supply asset commitment amount now : keeps keeps_supply (burn_from asset commitment amount now).
Proof. unfold burn_from. sup_all. Qed.
#[local] Hint Resolve burn_from_supply : wsupply.
Lemma register_asset_supply id name dec now s :
  keeps_supply s (s <| assets ::= <[id := mkAssetRecord id name dec 0 now]> |>
                    <| supply ::= <[id := mkSupplyRecord id 0 0 0 now]> |>).
Proof.
  intros [H1 H2]. split; cbn.
  - intros id' r. rewrite lookup_insert. case_decide; [by intros [= <-]|apply H1].
  - intros id' a. rewrite !lookup_insert. case_decide; [intros [= <-]; by eexists|apply H2].
Qed.
Lemma ExecuteTx_supply now t : keeps keeps_supply (ExecuteTx now t).
Proof.
  unfold ExecuteTx. keeps_auto.
  - unfold executeRegisterAsset, set_dirty. apply keeps_bind; [apply _|sup_all|intros d]. cbv zeta.
    apply keeps_modify2; [apply _|intros; apply register_asset_supply|sup_all].
  - unfold executeMint, set_dirty. sup_all.
  - unfold executeBurn, set_dirty. sup_all.
  - unfold executeTransfer, record_lists, set_dirty. sup_all.
  - unfold executeRegisterAccount, set_dirty. sup_all.
  - unfold executeRegisterValidator, set_dirty. sup_all.
  - unfold executeRegisterContract, set_dirty. sup_all.
  - unfold executeExecuteContract, record_lists, execution_value, set_dirty. sup_all.
  - unfold executeActivateContract, set_dirty. sup_all.
  - unfold executeRegisterConsortiumPolicy, set_dirty. sup_all.
  - unfold executeRegisterWarehouseOperator, set_dirty. sup_all.
  - unfold executeRegisterAcceptedSkuClass, set_dirty. sup_all.
  - unfold executeRecordCustodyIntakeLot, set_dirty. sup_all.
  - unfold executeRequestCustodyRedemption, set_dirty. sup_all.
  - unfold executeSettleCustodyRedemption, set_dirty. sup_all.
  - unfold executeApplyCustodyDemurrage, set_dirty. sup_all.
  - unfold executeAdverseAction, set_dirty. sup_all.
Qed.
End supply.

(** ** Validation writes nothing *)
Section validation.
Context `{C : Crypto} `{W : Wallet}.
Lemma ValidateTx_same t s : (ValidateTx t s).2 = s.
Proof.
  symmetry. apply (λ H : keeps eq (ValidateTx t), H s). unfold ValidateTx. keeps_auto.
  all: unfold validateRegisterAsset, validateMint, validateBurn, validateTransfer, validateRegisterAccount,
    verifyRegisterAccountWalletProof, verifyRegisterAccountEnrollment, validateRegisterContract,
    validateExecuteContract, validateActivateContract, validateRegisterConsortiumPolicy,
    validateRegisterWarehouseOperator, validateRegisterAcceptedSkuClass, validateRecordCustodyIntakeLot,
    validateRequestCustodyRedemption, validateSettleCustodyRedemption, validateApplyCustodyDemurrage,
    validateAdverseAction, check_balance; keeps_auto.
  all: try (destruct (recoverRegisterAccountPubKey _ _); keeps_auto).
Qed.
End validation.
