(* ===== verification/WireLedger.v ===== *)
(** Conservation of value in the transfer protocol: in every state reached by
    transactions that passed validation the balances of an asset add up to its
    supply, and no validated transaction fails to execute. *)
From S2P Require Import Prelude Modular GoStd Json Keys TxData TxValidate WireTypes WireTx WireState WireSupply.
From S2P Require Import WireAccounts WireContracts WireCustody WireAdverse WirePersist WireApp WireFrames.

(** ** The ledger of an asset *)
Definition weight (asset : string) (a : AccountRecord) : Z :=
  if bool_decide (AccountRecord_AssetID a = asset) then AccountRecord_Balance a else 0.
Definition ledger (s : State) (asset : string) : Z := weigh (weight asset) (accounts s).
Definition circulating (s : State) (asset : string) : Z :=
  default 0 (SupplyRecord_TotalSupply <$> supply s !! asset).
(** What the accounts hold beyond the supply. *)
Definition drift (s : State) (asset : string) : Z := ledger s asset - circulating s asset.
Definition balanced (s : State) : Prop := ∀ asset, eq64 (drift s asset) 0.

(** The asset of an account is written without a colon, so [account_key] is
    injective on accounts. *)
Definition colon_free (s : State) : Prop :=
  map_Forall (λ id _, no_colon id = true) (assets s) ∧
  map_Forall (λ _ a, no_colon (AccountRecord_AssetID a) = true) (accounts s).
(** Requests, policies and supply records name registered assets. *)
Definition refs (s : State) : Prop :=
  map_Forall (λ _ r, is_Some (assets s !! RedemptionRequestRecord_AssetID r)) (redemptionRequests s) ∧
  map_Forall (λ _ p, is_Some (assets s !! ConsortiumPolicyRecord_AssetID p)) (consortiumPolicies s) ∧
  (∀ id, is_Some (supply s !! id) → is_Some (assets s !! id)).
Record inv (s : State) : Prop := {
  inv_keyed : keyed s;
  inv_supply : supply_ok s;
  inv_colon : colon_free s;
  inv_balanced : balanced s;
  inv_refs : refs s;
}.

(** The text before the first colon. *)
Fixpoint upto_colon (s : string) : string :=
  match s with
  | EmptyString => EmptyString
  | String a s' => if Ascii.eqb a ":"%char then EmptyString else String a (upto_colon s')
  end.
Lemma upto_colon_free s : no_colon s = true → upto_colon s = s.
Proof.
  induction s as [|a s IH]; cbn; [done|]. intros [H1%negb_true_iff H2]%andb_true_iff.
  rewrite H1. by rewrite IH.
Qed.
Lemma upto_colon_key asset c : upto_colon (account_key asset c) = upto_colon asset.
Proof.
  unfold account_key. induction asset as [|a s IH]; [done|].
  change (String a s +:+ ":" +:+ c) with (String a (s +:+ ":" +:+ c)). cbn [upto_colon].
  destruct (Ascii.eqb a ":"%char); [done|]. f_equal. exact IH.
Qed.
(** The account found under a key belongs to the asset the key starts with. *)
Lemma account_at s asset c a :
  keyed s → colon_free s → accounts s !! account_key asset c = Some a → AccountRecord_AssetID a = upto_colon asset.
Proof.
  intros (_ & Hk & _) [_ Hc] Hl. pose proof (f_equal upto_colon (Hk _ _ Hl)) as E. cbn in E.
  rewrite !upto_colon_key, (upto_colon_free _ (Hc _ _ Hl)) in E. exact E.
Qed.
Lemma account_of s asset c a :
  keyed s → colon_free s → no_colon asset = true → accounts s !! account_key asset c = Some a →
  AccountRecord_AssetID a = asset.
Proof. intros Hk Hc Hn Hl. rewrite (account_at _ _ _ _ Hk Hc Hl). by apply upto_colon_free. Qed.

(** ** How one write moves the drift *)
Section drift.
Implicit Types s : State.

Lemma drift_update s f key a asset :
  same_account f → accounts s !! key = Some a →
  drift (s <| accounts ::= alter f key |>) asset =
  drift s asset + (if bool_decide (AccountRecord_AssetID a = asset)
                   then AccountRecord_Balance (f a) - AccountRecord_Balance a else 0).
Proof.
  intros Hf Ha. unfold drift, ledger, circulating. fields. rewrite (weigh_alter _ _ _ _ _ Ha).
  unfold weight at 2 3. destruct (Hf a) as [-> _]. case_bool_decide; lia.
Qed.
Lemma drift_moved s key op now h a X asset δ :
  accounts s !! key = Some a → AccountRecord_AssetID a = asset →
  eq64 (op (AccountRecord_Balance a)) (AccountRecord_Balance a + δ) →
  eq64 (drift (s <| accounts ::= alter (move_balance op now h) key |>) X)
       (drift s X + if bool_decide (asset = X) then δ else 0).
Proof.
  intros Ha <- Hop. rewrite (drift_update _ _ _ a) by auto using move_balance_same.
  case_bool_decide; [|eq64_solve].
  assert (AccountRecord_Balance (move_balance op now h a) = op (AccountRecord_Balance a)) as -> by (by destruct now).
  rewrite Hop. unfold eq64. f_equal. lia.
Qed.
Lemma drift_new s key a asset :
  accounts s !! key = None → AccountRecord_Balance a = 0 →
  drift (s <| accounts ::= <[key := a]> |>) asset = drift s asset.
Proof.
  intros Hn Hb. unfold drift, ledger, circulating. fields. rewrite weigh_insert_None by done.
  unfold weight at 1. rewrite Hb. case_bool_decide; lia.
Qed.
Lemma drift_supply s f g id r asset :
  supply s !! id = Some r →
  drift (s <| supply ::= alter f id |> <| assets ::= g |>) asset =
  drift s asset - (if bool_decide (id = asset) then SupplyRecord_TotalSupply (f r) - SupplyRecord_TotalSupply r else 0).
Proof.
  intros Hr. unfold drift, ledger, circulating. fields. rewrite lookup_alter.
  case_decide as E; [subst; rewrite Hr, bool_decide_eq_true_2 by done; cbn; lia|].
  rewrite bool_decide_eq_false_2 by done. lia.
Qed.
Lemma drift_same s s' asset : accounts s' = accounts s → supply s' = supply s → drift s' asset = drift s asset.
Proof. intros E1 E2. unfold drift, ledger, circulating. by rewrite E1, E2. Qed.
End drift.

(** ** Runs of the money primitives *)
Lemma update_account_run s key f :
  update_account key f s = if has (accounts s) key then (Ok tt, s <| accounts ::= alter f key |>) else (Panic, s).
Proof. unfold update_account, has. mrun. by destruct (accounts s !! key). Qed.
Definition set_total (t : Z) (a : AssetRecord) : AssetRecord := a <| AssetRecord_TotalSupply := t |>.
Lemma change_supply_run s id f r :
  supply s !! id = Some r → is_Some (assets s !! id) →
  change_supply id f s =
    (Ok tt, s <| supply ::= alter f id |> <| assets ::= alter (set_total (SupplyRecord_TotalSupply (f r))) id |>).
Proof.
  intros Hr [a Ha]. unfold change_supply, update_supply, update_asset. mrun. rewrite Hr. mrun. fields.
  rewrite lookup_alter_eq, Hr. cbn. mrun. fields. by rewrite Ha.
Qed.

(** What a handler may do to the ledger and to the references of a state. *)
Definition fine (s s' : State) : Prop :=
  (∀ asset, eq64 (drift s' asset) (drift s asset)) ∧ colon_free s' ∧ refs s'.
Definition settles {A} (s : State) (m : M State A) : Prop :=
  ∃ a s', m s = (Ok a, s') ∧ fine s s'.

Lemma refs_grow s s' :
  refs s → key_subset (assets s) (assets s') → key_subset (supply s') (supply s) →
  redemptionRequests s' = redemptionRequests s → consortiumPolicies s' = consortiumPolicies s → refs s'.
Proof.
  intros (H1 & H2 & H3) Hs Hu E1 E2. split_and!.
  - rewrite E1. intros k r Hk. eapply Hs, H1; done.
  - rewrite E2. intros k r Hk. eapply Hs, H2; done.
  - intros k Hk. by apply Hs, H3, Hu.
Qed.
Lemma refs_money s f g id1 id2 : refs s → refs (s <| supply ::= alter g id1 |> <| assets ::= alter f id2 |>).
Proof.
  intros H. eapply refs_grow; [exact H|apply key_subset_alter| |done|done].
  intros k Hk. cbn in Hk. by rewrite lookup_alter_is_Some in Hk.
Qed.
Lemma fine_same s s' :
  inv s → accounts s' = accounts s → supply s' = supply s → assets s' = assets s → refs s' → fine s s'.
Proof.
  intros [_ _ Hc _ _] Ea Es Eas Hr. split_and!; [|unfold colon_free; by rewrite Ea, Eas|done].
  intros X. by rewrite (drift_same s s').
Qed.
(** A handler that leaves money, requests and policies alone. *)
Lemma fine_other s s' :
  inv s → accounts s' = accounts s → supply s' = supply s → assets s' = assets s →
  redemptionRequests s' = redemptionRequests s → consortiumPolicies s' = consortiumPolicies s → fine s s'.
Proof.
  intros Hi Ea Es Eas E1 E2. apply fine_same; try done.
  destruct Hi as [_ _ _ _ Hr]. eapply refs_grow; [exact Hr|by rewrite Eas|by rewrite Es|done|done].
Qed.
(** The tail of a handler does not show in the ledger. *)
Lemma fine_tail s s1 s' :
  fine s s1 → accounts s' = accounts s1 → supply s' = supply s1 → assets s' = assets s1 →
  redemptionRequests s' = redemptionRequests s1 → consortiumPolicies s' = consortiumPolicies s1 → fine s s'.
Proof.
  intros (Hd & Hc & Hr) Ea Es Eas E1 E2. split_and!.
  - intros X. by rewrite (drift_same s1 s') by done.
  - unfold colon_free. by rewrite Ea, Eas.
  - eapply refs_grow; [exact Hr|by rewrite Eas|by rewrite Es|done|done].
Qed.
Lemma colon_alter s f key : same_account f → colon_free s → colon_free (s <| accounts ::= alter f key |>).
Proof.
  intros Hf [H1 H2]. split; cbn; [done|]. apply map_Forall_alter; [done|]. intros a. by destruct (Hf a) as [-> _].
Qed.
Lemma colon_money s f g id : colon_free s → colon_free (s <| supply ::= f |> <| assets ::= alter g id |>).
Proof. intros [H1 H2]. split; cbn; [|done]. apply map_Forall_alter; done. Qed.

(** A balance moves by [δ] and the supply of its asset by the same. *)
Lemma fine_money s key op now h f asset c a r δ :
  inv s → no_colon asset = true → key = account_key asset c → accounts s !! key = Some a →
  supply s !! asset = Some r → eq64 (op (AccountRecord_Balance a)) (AccountRecord_Balance a + δ) →
  eq64 (SupplyRecord_TotalSupply (f r)) (SupplyRecord_TotalSupply r + δ) →
  fine s (s <| accounts ::= alter (move_balance op now h) key |> <| supply ::= alter f asset |>
            <| assets ::= alter (set_total (SupplyRecord_TotalSupply (f r))) asset |>).
Proof.
  intros Hi Hn -> Ha Hr Hop Hf. destruct Hi as [Hk _ Hc _ Href].
  pose proof (account_of _ _ _ _ Hk Hc Hn Ha) as Eas.
  split_and!.
  - intros X. rewrite (drift_supply _ _ _ _ r) by done. rewrite (drift_moved _ _ _ _ _ a X asset δ) by done.
    case_bool_decide; [rewrite Hf|]; unfold eq64; f_equal; lia.
  - apply colon_money, colon_alter; auto using move_balance_same.
  - apply refs_money. by eapply refs_grow.
Qed.
(** The two supply updates move the total by what they add or burn. *)
Lemma add_minted_total n now r :
  SupplyRecord_TotalSupply r = int64_sub (SupplyRecord_TotalMinted r) (SupplyRecord_TotalBurned r) →
  eq64 (SupplyRecord_TotalSupply (add_minted n now r)) (SupplyRecord_TotalSupply r + n).
Proof. intros ->. cbn. eq64_solve. Qed.
Lemma add_burned_total n now r :
  SupplyRecord_TotalSupply r = int64_sub (SupplyRecord_TotalMinted r) (SupplyRecord_TotalBurned r) →
  eq64 (SupplyRecord_TotalSupply (add_burned n now r)) (SupplyRecord_TotalSupply r + - n).
Proof. intros ->. cbn. eq64_solve. Qed.
Lemma registered s asset :
  inv s → is_Some (assets s !! asset) →
  no_colon asset = true ∧ ∃ r, supply s !! asset = Some r ∧
    SupplyRecord_TotalSupply r = int64_sub (SupplyRecord_TotalMinted r) (SupplyRecord_TotalBurned r).
Proof.
  intros [_ [H1 H2] [Hc _] _ _] [a Ha]. split; [by apply (Hc _ _ Ha)|].
  destruct (H2 _ _ Ha) as (r & Hr & _). eauto.
Qed.

(** ** The handlers that move money *)
(** Table membership in place of the boolean test. *)
Ltac maps := repeat match goal with
  | H : has _ _ = true |- _ => apply has_true in H
  | H : has _ _ = false |- _ => apply has_false in H
  end.
(** The outcome of a signature check that returned. *)
Ltac sigs := repeat match goal with
  | H : ed25519_try _ _ _ = Some _ |- _ => apply ed25519_try_Some in H; subst
  end.
(** Closes the list of facts an accepted validation gives. *)
Ltac accepted := bools; maps; repeat match goal with |- ∃ _, _ => eexists end; split_and!; eauto.
Section money.
Context `{C : Crypto} `{W : Wallet}.

Lemma burn_from_fine s asset c n now a :
  inv s → is_Some (assets s !! asset) → accounts s !! account_key asset c = Some a →
  ∃ s', burn_from asset c n now s = (Ok tt, s') ∧ fine s s' ∧ redemptionRequests s' = redemptionRequests s ∧
    redemptionSettlements s' = redemptionSettlements s ∧ consortiumPolicies s' = consortiumPolicies s.
Proof.
  intros Hi Has Ha. destruct (registered _ _ Hi Has) as (Hn & r & Hr & Ht).
  eexists. unfold burn_from. split_and!.
  - mrun. rewrite update_account_run, (proj2 (has_true _ _)) by (by eexists). cbn.
    rewrite (change_supply_run _ _ _ r) by done. done.
  - eapply (fine_money _ _ (λ b, int64_sub b n)); try done; [|by apply add_burned_total].
    apply int64_sub_eq64.
  - done.
  - done.
  - done.
Qed.

(** What an accepted burn establishes. *)
Lemma validateBurn_ok t s s' : validateBurn t s = (Ok tt, s') →
  ∃ d a, UnmarshalData t = Some d ∧ is_Some (assets s !! BurnData_AssetID d) ∧
    accounts s !! account_key (BurnData_AssetID d) (BurnData_AccountCommitment d) = Some a ∧
    BurnData_Amount d ≤ AccountRecord_Balance a.
Proof.
  unfold validateBurn, check_balance. intros Hv. minv Hv. accepted.
Qed.
Lemma executeBurn_fine now t s : inv s → validateBurn t s = (Ok tt, s) → settles s (executeBurn now t).
Proof.
  intros Hi Hv. destruct (validateBurn_ok _ _ _ Hv) as (d & a & Ed & Has & Ha & _).
  destruct (burn_from_fine s _ _ (BurnData_Amount d) now a Hi Has Ha) as (s1 & Hb & Hf & _).
  unfold burn_from in Hb. rewrite bind_run, gets_run in Hb. apply bind_ok in Hb as ([] & s2 & H1 & H2).
  unfold settles, executeBurn. mrun. rewrite Ed. cbn. mrun. rewrite H1. mrun. rewrite H2. mrun.
  do 2 eexists. split; [done|]. by eapply fine_tail.
Qed.

Lemma validateMint_ok t s s' : validateMint t s = (Ok tt, s') →
  ∃ d, UnmarshalData t = Some d ∧ is_Some (assets s !! MintData_AssetID d).
Proof. unfold validateMint. intros Hv. minv Hv. accepted. Qed.
Lemma fine_new_account s asset c h :
  inv s → no_colon asset = true → accounts s !! account_key asset c = None →
  fine s (s <| accounts ::= <[account_key asset c := mkAccountRecord c asset 0 false false 0 h]> |>).
Proof.
  intros [_ _ [H1 H2] _ Hr] Hn Ha. split_and!; [|split; cbn; [done|by apply map_Forall_insert_2]|done].
  intros X. by rewrite drift_new.
Qed.
Lemma fine_trans s1 s2 s3 : fine s1 s2 → fine s2 s3 → fine s1 s3.
Proof. intros (H1 & _) (H2 & H3 & H4). split_and!; [|done..]. intros X. by rewrite H2. Qed.
Lemma inv_new_account s asset c h :
  inv s → no_colon asset = true → accounts s !! account_key asset c = None →
  inv (s <| accounts ::= <[account_key asset c := mkAccountRecord c asset 0 false false 0 h]> |>).
Proof.
  intros Hi Hn Ha. destruct (fine_new_account s asset c h Hi Hn Ha) as (Hd & Hc & Hr).
  destruct Hi as [Hk Hs _ Hb _]. split; [|done|done| |done].
  - revert Hk. rekey.
  - intros X. by rewrite Hd.
Qed.

Lemma executeMint_fine now t s : inv s → validateMint t s = (Ok tt, s) → settles s (executeMint now t).
Proof.
  intros Hi Hv. destruct (validateMint_ok _ _ _ Hv) as (d & Ed & Has).
  destruct (registered _ _ Hi Has) as (Hn & r & Hr & Ht).
  set (key := account_key (MintData_AssetID d) (MintData_AccountCommitment d)).
  assert (∃ s1 a, inv s1 ∧ fine s s1 ∧ assets s1 = assets s ∧ supply s1 = supply s ∧ accounts s1 !! key = Some a ∧
    (if has (accounts s) key then mret tt else
     modify (λ s, s <| accounts ::= <[key := mkAccountRecord (MintData_AccountCommitment d) (MintData_AssetID d)
       0 false false 0 (height s)]> |>)) s = (Ok tt, s1)) as (s1 & a & Hi1 & Hf1 & Eas & Esu & Ha & Hrun).
  { destruct (has (accounts s) key) eqn:E; maps.
    - destruct E as [a Ha]. exists s, a. split_and!; try done. apply fine_same; try done. apply Hi.
    - do 2 eexists. split_and!; [by apply inv_new_account|by apply fine_new_account|done|done| |done].
      cbn. apply lookup_insert_eq. }
  unfold settles, executeMint. mrun. rewrite Ed. cbn. mrun. fold key. rewrite Hrun. mrun.
  rewrite update_account_run, (proj2 (has_true _ _)) by (by eexists). mrun.
  rewrite (change_supply_run _ _ _ r) by (cbn; by rewrite ?Eas, ?Esu). mrun.
  do 2 eexists. split; [done|]. eapply fine_tail; [|done..]. eapply fine_trans; [exact Hf1|].
  eapply (fine_money _ _ (λ b, int64_add b (MintData_Amount d))); try done; [by rewrite Esu| |by apply add_minted_total].
  apply int64_add_eq64.
Qed.

(** A payment between two accounts of one asset, the same account included. *)
Lemma fine_payment s asset k1 k2 op1 op2 now h δ a1 a2 :
  colon_free s → refs s → accounts s !! k1 = Some a1 → accounts s !! k2 = Some a2 →
  AccountRecord_AssetID a1 = asset → AccountRecord_AssetID a2 = asset →
  (∀ b, eq64 (op1 b) (b + - δ)) → (∀ b, eq64 (op2 b) (b + δ)) →
  fine s (s <| accounts ::= alter (move_balance op1 now h) k1 |> <| accounts ::= alter (move_balance op2 now h) k2 |>).
Proof.
  intros Hc Hr H1 H2 A1 A2 O1 O2. split_and!; [|by repeat apply colon_alter; auto using move_balance_same|done].
  intros X. set (s1 := s <| accounts ::= _ |>).
  assert (∃ a, accounts s1 !! k2 = Some a ∧ AccountRecord_AssetID a = asset) as (a & Ha & Aa).
  { unfold s1. fields. rewrite lookup_alter. case_decide as E; [|by eauto]. subst k1. rewrite H1. eexists. split; [done|].
    by destruct (move_balance_same op1 now h a1) as [-> _]. }
  rewrite (drift_moved _ _ _ _ _ a X asset δ) by auto. unfold s1.
  rewrite (drift_moved _ _ _ _ _ a1 X asset (- δ)) by auto. unfold eq64. f_equal. case_bool_decide; lia.
Qed.

(** What an accepted transfer establishes. *)
Lemma validateTransfer_ok t s s' : validateTransfer t s = (Ok tt, s') →
  ∃ d a r, UnmarshalData t = Some d ∧ is_Some (assets s !! TransferData_AssetID d) ∧
    participants s !! TransferData_Nullifier d = None ∧
    accounts s !! account_key (TransferData_AssetID d) (TransferData_SenderCommitment d) = Some a ∧
    accounts s !! account_key (TransferData_AssetID d) (TransferData_RecipientCommitment d) = Some r ∧
    AccountRecord_Disabled a = false ∧ AccountRecord_Frozen a = false ∧
    TransferData_Amount d ≤ AccountRecord_Balance a ∧ AccountRecord_Disabled r = false ∧ s' = s.
Proof. unfold validateTransfer, check_balance. intros Hv. minv Hv. accepted. Qed.

(** The state an accepted transfer leaves. *)
Definition transferred (now : Z) (d : TransferData) (s : State) : State :=
  let id := hashNonce (TransferData_TransferNonce d) in
  let n := TransferData_Amount d in
  s <| transferRecords ::= <[id := mkTransferRecord id (TransferData_AssetID d) n now (height s)]> |>
    <| participants ::= <[TransferData_Nullifier d := mkParticipantRecord id (TransferData_Nullifier d) (height s)]> |>
    <| accounts ::= alter (move_balance (λ b, int64_sub b n) None (height s))
         (account_key (TransferData_AssetID d) (TransferData_SenderCommitment d)) |>
    <| accounts ::= alter (move_balance (λ b, int64_add b n) None (height s))
         (account_key (TransferData_AssetID d) (TransferData_RecipientCommitment d)) |>
    <| dirty := true |>.
Lemma executeTransfer_run now t s d :
  UnmarshalData t = Some d →
  is_Some (accounts s !! account_key (TransferData_AssetID d) (TransferData_SenderCommitment d)) →
  is_Some (accounts s !! account_key (TransferData_AssetID d) (TransferData_RecipientCommitment d)) →
  executeTransfer now t s =
    (Ok [mkEvent "transfer" [("asset_id", TransferData_AssetID d, true);
                             ("transfer_id", hashNonce (TransferData_TransferNonce d), true)]],
     transferred now d s).
Proof.
  intros Ed Ha Hr. unfold executeTransfer, record_lists. mrun. rewrite Ed. cbn. mrun.
  rewrite update_account_run. fields. rewrite (proj2 (has_true _ _)) by done. mrun.
  rewrite update_account_run. fields. rewrite (proj2 (has_true _ _)) by (by rewrite lookup_alter_is_Some). done.
Qed.
Lemma executeTransfer_fine now t s : inv s → validateTransfer t s = (Ok tt, s) → settles s (executeTransfer now t).
Proof.
  intros Hi Hv. destruct (validateTransfer_ok _ _ _ Hv) as (d & a & r & Ed & Has & _ & Ha & Hr & _).
  destruct (registered _ _ Hi Has) as (Hn & _). destruct Hi as [Hk _ Hc _ Href].
  do 2 eexists. split; [by eapply executeTransfer_run; eauto|].
  eapply fine_tail; [|done..]. unfold transferred.
  set (s1 := s <| transferRecords ::= _ |> <| participants ::= _ |>).
  change (fine s1 (s1 <| accounts ::= alter (move_balance (λ b, int64_sub b (TransferData_Amount d)) None (height s))
         (account_key (TransferData_AssetID d) (TransferData_SenderCommitment d)) |>
    <| accounts ::= alter (move_balance (λ b, int64_add b (TransferData_Amount d)) None (height s))
         (account_key (TransferData_AssetID d) (TransferData_RecipientCommitment d)) |>)).
  eapply (fine_payment s1 (TransferData_AssetID d) _ _ _ _ _ _ (TransferData_Amount d) a r); try done.
  - by eapply account_of.
  - by eapply account_of.
  - intros b. eq64_solve.
  - intros b. eq64_solve.
Qed.

(** ** Registrations *)
Lemma executeRegisterAsset_fine now t s :
  inv s → validateRegisterAsset t s = (Ok tt, s) →
  (∀ d, UnmarshalData t = Some d → no_colon (RegisterAssetData_AssetID d) = true) →
  settles s (executeRegisterAsset now t).
Proof.
  intros [Hk [Hs1 Hs2] [Hc1 Hc2] Hb Hr] Hv Hn. unfold validateRegisterAsset in Hv. minv Hv. bools. maps.
  specialize (Hn _ H). do 2 eexists. split; [unfold executeRegisterAsset; mrun; rewrite H; cbn; mrun; done|].
  split_and!.
  - intros X. etrans; [|symmetry; apply Hb]. pose proof (Hb X) as HX. revert HX.
    unfold drift, ledger, circulating. cbn. rewrite lookup_insert. case_decide as E; [|done]. subst.
    destruct (supply s !! RegisterAssetData_AssetID a) eqn:Es; [|done].
    destruct Hr as (_ & _ & Hr). destruct (Hr (RegisterAssetData_AssetID a)) as [? ?]; [by eexists|congruence].
  - split; [|done]. cbn. by apply map_Forall_insert_2.
  - destruct Hr as (H5 & H6 & H7). split_and!; cbn.
    + intros k r Hkr. eapply key_subset_insert, H5; done.
    + intros k r Hkr. eapply key_subset_insert, H6; done.
    + intros k. rewrite !lookup_insert. case_decide; [by eexists|apply H7].
Qed.
(** What an accepted account registration establishes. *)
Lemma verifyRegisterAccountWalletProof_ok d s s' u :
  verifyRegisterAccountWalletProof d s = (Ok u, s') →
  s' = s ∧ ∃ pub, recoverRegisterAccountPubKey (bytes_of (RegisterAccountData_WalletProof d))
      (RegisterAccountData_AccountCommitment d) = inr pub ∧
    RegisterAccountData_AccountCommitment d ∈ commitment_candidates pub.
Proof.
  unfold verifyRegisterAccountWalletProof. destruct (recoverRegisterAccountPubKey _ _) as [e|pub]; [done|].
  intros [Hf ->]%fail_if_ok. bools. eauto.
Qed.
Lemma verifyRegisterAccountEnrollment_ok d key used s s' u :
  verifyRegisterAccountEnrollment d key used s = (Ok u, s') →
  s' = s ∧ (0 < blen key → RegisterAccountData_EnrollmentToken d ≠ "" ∧
    used !! RegisterAccountData_EnrollmentToken d = None ∧
    ed25519_Verify (bytes_of key)
      (registerAccountEnrollmentMessage (RegisterAccountData_AccountCommitment d) (RegisterAccountData_EnrollmentToken d))
      (bytes_of (RegisterAccountData_EnrollmentProof d)) = true).
Proof.
  unfold verifyRegisterAccountEnrollment. destruct (blen key =? 0) eqn:E.
  { intros [_ ->]%mret_ok. split; [done|]. bools. lia. }
  intros H. minv H. sigs. bools. maps. unfold str_empty in *. bools. done.
Qed.
Lemma validateRegisterAccount_ok t s s' : validateRegisterAccount t s = (Ok tt, s') →
  ∃ d pub, UnmarshalData t = Some d ∧
    recoverRegisterAccountPubKey (bytes_of (RegisterAccountData_WalletProof d))
      (RegisterAccountData_AccountCommitment d) = inr pub ∧
    RegisterAccountData_AccountCommitment d ∈ commitment_candidates pub ∧
    (0 < blen (enrollmentAuthorityPubKey s) → RegisterAccountData_EnrollmentToken d ≠ "" ∧
      enrollmentRecords s !! RegisterAccountData_EnrollmentToken d = None ∧
      ed25519_Verify (bytes_of (enrollmentAuthorityPubKey s))
        (registerAccountEnrollmentMessage (RegisterAccountData_AccountCommitment d) (RegisterAccountData_EnrollmentToken d))
        (bytes_of (RegisterAccountData_EnrollmentProof d)) = true) ∧
    accounts s !! account_key sentinel (RegisterAccountData_AccountCommitment d) = None ∧ s' = s.
Proof.
  unfold validateRegisterAccount. intros Hv. minv Hv. maps.
  apply verifyRegisterAccountWalletProof_ok in H2 as [-> (pub & Hp & Hin)].
  apply verifyRegisterAccountEnrollment_ok in H5 as [-> He]. eauto 10.
Qed.
Lemma executeRegisterAccount_fine t s :
  inv s → validateRegisterAccount t s = (Ok tt, s) → settles s (executeRegisterAccount t).
Proof.
  intros Hi Hv. destruct (validateRegisterAccount_ok _ _ _ Hv) as (d & pub & Ed & _ & _ & _ & Hn & _).
  pose proof (fine_new_account s sentinel _ (height s) Hi eq_refl Hn) as Hf.
  unfold settles, executeRegisterAccount. mrun. rewrite Ed. cbn. mrun.
  destruct (str_empty _); mrun; do 2 eexists; (split; [reflexivity|]); by eapply fine_tail.
Qed.
End money.

(** ** Contracts, custody and adverse actions *)
Section handlers.
Context `{C : Crypto} `{W : Wallet}.

Lemma guarded_lookup {V} (m : gmap string V) x k :
  negb (str_empty x) && negb (has m k) = false → x ≠ "" → is_Some (m !! k).
Proof.
  intros [E|E]%andb_false_iff Hx; bools; [|by maps]. unfold str_empty in E. bools. done.
Qed.
Lemma validateExecuteContract_ok t s s' : validateExecuteContract t s = (Ok tt, s') →
  ∃ d c, UnmarshalData t = Some d ∧ contracts s !! ExecuteContractData_ContractID d = Some c ∧
    ContractRecord_Status c = "active" ∧ participants s !! ExecuteContractData_Nullifier d = None ∧
    (value_bearing d = true → ∃ a,
      accounts s !! account_key (ExecuteContractData_AssetID d) (ExecuteContractData_PartyCommitment d) = Some a ∧
      ExecuteContractData_Amount d ≤ AccountRecord_Balance a ∧
      (ExecuteContractData_CounterpartyCommitment d ≠ "" →
       is_Some (accounts s !! account_key (ExecuteContractData_AssetID d) (ExecuteContractData_CounterpartyCommitment d)))).
Proof.
  unfold validateExecuteContract, check_balance. intros Hv. minv Hv. bools. maps.
  eexists _, _. split_and!; eauto. intros Hvb. rewrite Hvb in *.
  lazymatch goal with H : (_ ≫= _) _ = _ |- _ => minv H end. bools. maps.
  eexists. split_and!; eauto. intros Hne.
  by eapply guarded_lookup.
Qed.
Lemma executeExecuteContract_fine now t s :
  inv s → validateExecuteContract t s = (Ok tt, s) →
  (∀ d, UnmarshalData t = Some d → value_bearing d = true → ExecuteContractData_CounterpartyCommitment d ≠ "") →
  settles s (executeExecuteContract now t).
Proof.
  intros Hi Hv Hc. destruct (validateExecuteContract_ok _ _ _ Hv) as (d & c & Ed & Hcon & _ & _ & Hval).
  specialize (Hc _ Ed). unfold settles, executeExecuteContract, record_lists, execution_value, update_contract.
  mrun. rewrite Ed. cbn. mrun. destruct (value_bearing d).
  - destruct (Hval eq_refl) as (a & Ha & _ & Hcp). specialize (Hcp (Hc eq_refl)) as [a2 Ha2].
    assert (str_empty (ExecuteContractData_CounterpartyCommitment d) = false) as ->.
    { apply bool_decide_eq_false_2. auto. }
    set (s1 := s <| transferRecords ::= _ |> <| participants ::= _ |> <| contractExecutions ::= _ |>).
    mrun. rewrite update_account_run. unfold s1 at 1. fields. rewrite (proj2 (has_true _ _)) by (by eexists). mrun.
    rewrite update_account_run. unfold s1 at 1. fields.
    rewrite (proj2 (has_true _ _)) by (rewrite lookup_alter_is_Some; by eexists). mrun. fields. unfold s1 at 1. fields.
    rewrite Hcon. cbn. mrun. do 2 eexists. split; [done|]. eapply fine_tail; [|done..].
    destruct Hi as [Hk _ Hcf _ Href].
    eapply fine_tail.
    + eapply (fine_payment s (upto_colon (ExecuteContractData_AssetID d)) _ _
        (λ b, int64_sub b (ExecuteContractData_Amount d)) (λ b, int64_add b (ExecuteContractData_Amount d))
        (Some now) (height s) (ExecuteContractData_Amount d) a a2 Hcf Href Ha Ha2);
        first [by eapply account_at|intros b; eq64_solve].
    + reflexivity.
    + reflexivity.
    + reflexivity.
    + reflexivity.
    + reflexivity.
  - mrun. fields. rewrite Hcon. cbn. mrun. do 2 eexists. split; [done|]. eapply fine_other; done.
Qed.

(** An allocation only rewrites the lots. *)
Lemma allocate_run s a w k q now : ∃ al lots,
  allocateCustodyInventory a w k q now s = (Ok al, s <| intakeLots := lots |>).
Proof.
  unfold allocateCustodyInventory. destruct (q <=? 0).
  - exists None, (intakeLots s). by destruct s.
  - mrun. destruct (allocate_loop _ _ _ _ _) as [al m]. mrun. by exists (Some al), m.
Qed.
Lemma inv_allocated s a w k q now al lots :
  inv s → allocateCustodyInventory a w k q now s = (Ok al, s <| intakeLots := lots |>) →
  inv (s <| intakeLots := lots |>).
Proof.
  intros [Hk Hs Hc Hb Hr] Hrun. split; [|done..].
  pose proof (keyed_allocate a w k q now s) as Hka. rewrite Hrun in Hka. by apply Hka.
Qed.
(** What an accepted settlement establishes. *)
Lemma validateSettle_ok t s s' : validateSettleCustodyRedemption t s = (Ok tt, s') →
  ∃ d r a, UnmarshalData t = Some d ∧ redemptionRequests s !! SettleCustodyRedemptionData_RequestID d = Some r ∧
    RedemptionRequestRecord_Status r = "pending" ∧
    redemptionSettlements s !! SettleCustodyRedemptionData_SettlementID d = None ∧
    RedemptionRequestRecord_WarehouseID r = SettleCustodyRedemptionData_WarehouseID d ∧
    SettleCustodyRedemptionData_SettledQuantity d ≤ RedemptionRequestRecord_RequestedQuantity r ∧
    SettleCustodyRedemptionData_BurnAmount d ≤ RedemptionRequestRecord_SiloAmount r ∧
    SettleCustodyRedemptionData_SettledQuantity d ≤
      availableCustodyInventory s (RedemptionRequestRecord_AssetID r) (SettleCustodyRedemptionData_WarehouseID d)
        (RedemptionRequestRecord_SkuClassID r) ∧
    accounts s !! account_key (RedemptionRequestRecord_AssetID r) (RedemptionRequestRecord_AccountCommitment r) = Some a ∧
    SettleCustodyRedemptionData_BurnAmount d ≤ AccountRecord_Balance a.
Proof. unfold validateSettleCustodyRedemption, check_balance. intros Hv. minv Hv. accepted. Qed.
Lemma executeSettle_fine now t s :
  inv s → validateSettleCustodyRedemption t s = (Ok tt, s) → settles s (executeSettleCustodyRedemption now t).
Proof.
  intros Hi Hv. destruct (validateSettle_ok _ _ _ Hv) as (d & r & a & Ed & Hreq & _ & _ & _ & _ & _ & _ & Ha & _).
  assert (is_Some (assets s !! RedemptionRequestRecord_AssetID r)) as Has.
  { destruct Hi as [_ _ _ _ (H1 & _)]. exact (H1 _ _ Hreq). }
  destruct (allocate_run s (RedemptionRequestRecord_AssetID r) (SettleCustodyRedemptionData_WarehouseID d)
    (RedemptionRequestRecord_SkuClassID r) (SettleCustodyRedemptionData_SettledQuantity d) now) as (al & lots & Hal).
  destruct (burn_from_fine (s <| intakeLots := lots |>) _ _ (SettleCustodyRedemptionData_BurnAmount d) now a
    (inv_allocated _ _ _ _ _ _ _ _ Hi Hal) Has Ha) as (s2 & Hb & (Hd & Hc & H1 & H2 & H3) & Er & _ & Ep).
  unfold settles, executeSettleCustodyRedemption. mrun. rewrite Ed. cbn. mrun. rewrite Hreq. mrun.
  rewrite Hal. mrun. rewrite Hb. mrun. do 2 eexists. split; [done|]. split; [exact Hd|split; [exact Hc|split; [|split; [exact H2|exact H3]]]].
  cbn. apply map_Forall_alter; [exact H1|]. done.
Qed.

Lemma validateDemurrage_ok t s s' : validateApplyCustodyDemurrage t s = (Ok tt, s') →
  ∃ d p a, UnmarshalData t = Some d ∧ consortiumPolicies s !! ApplyCustodyDemurrageData_PolicyID d = Some p ∧
    ConsortiumPolicyRecord_AssetID p = ApplyCustodyDemurrageData_AssetID d ∧
    accounts s !! account_key (ApplyCustodyDemurrageData_AssetID d) (ApplyCustodyDemurrageData_AccountCommitment d) = Some a ∧
    ApplyCustodyDemurrageData_Amount d ≤ AccountRecord_Balance a.
Proof. unfold validateApplyCustodyDemurrage, check_balance. intros Hv. minv Hv. accepted. Qed.
Lemma executeDemurrage_fine now t s :
  inv s → validateApplyCustodyDemurrage t s = (Ok tt, s) → settles s (executeApplyCustodyDemurrage now t).
Proof.
  intros Hi Hv. destruct (validateDemurrage_ok _ _ _ Hv) as (d & p & a & Ed & Hp & Ea & Ha & _).
  assert (is_Some (assets s !! ApplyCustodyDemurrageData_AssetID d)) as Has.
  { destruct Hi as [_ _ _ _ (_ & H2 & _)]. pose proof (H2 _ _ Hp) as H. cbn in H. by rewrite Ea in H. }
  destruct (burn_from_fine s _ _ (ApplyCustodyDemurrageData_Amount d) now a Hi Has Ha) as (s2 & Hb & Hf & _).
  unfold settles, executeApplyCustodyDemurrage. mrun. rewrite Ed. cbn. mrun. rewrite Hb. mrun.
  do 2 eexists. split; [done|]. by eapply fine_tail.
Qed.

(** No action but a forced redemption touches a balance. *)
Lemma act_on_balance ty a : ty ≠ "redeem_forced" → AccountRecord_Balance (act_on ty a) = AccountRecord_Balance a.
Proof. intros Hne. unfold act_on. repeat case_match; bools; try done. Qed.
Lemma apply_action_weight d h asset a :
  AdverseActionData_ActionType d ≠ "redeem_forced" → weight asset (apply_action d h a) = weight asset a.
Proof.
  intros Hne. unfold weight. destruct (apply_action_same d h a) as [-> _]. case_bool_decide; [|done].
  unfold apply_action. destruct (action_matches d a); [|done]. cbn. by apply act_on_balance.
Qed.
Lemma executeAdverseAction_fine now t s :
  inv s → validateAdverseAction t s = (Ok tt, s) →
  (∀ d, UnmarshalData t = Some d → AdverseActionData_ActionType d ≠ "redeem_forced") →
  settles s (executeAdverseAction now t).
Proof.
  intros Hi Hv Hty. unfold validateAdverseAction in Hv. minv Hv.
  lazymatch goal with H : UnmarshalData t = Some ?x |- _ => rename H into Ed, x into d end. specialize (Hty _ Ed).
  unfold settles, executeAdverseAction. mrun. rewrite Ed. cbn. mrun. do 2 eexists. split; [done|].
  destruct Hi as [_ _ [Hc1 Hc2] _ Href]. split; [|split; [split; cbn; [exact Hc1|]|exact Href]].
  - intros X. unfold drift, ledger, circulating. cbn. rewrite weigh_fmap; [done|].
    intros k a _. by apply apply_action_weight.
  - apply map_Forall_fmap_keep; [done|]. intros k a. cbn. by destruct (apply_action_same d (height s) a) as [-> _].
Qed.
End handlers.

(** ** The handlers that leave money alone *)
Section records.
Context `{C : Crypto} `{W : Wallet}.

(** Runs the writes of a handler whose payload decodes as [Ed] says. *)
Ltac run_records Ed := unfold settles; mrun; rewrite Ed; cbn; mrun; do 2 eexists; (split; [reflexivity|]).
Ltac payload H := lazymatch type of H with context [UnmarshalData ?t] => idtac end;
  minv H; lazymatch goal with E : UnmarshalData _ = Some ?x |- _ => rename E into Ed, x into d end.

Lemma executeRegisterContract_fine now t s :
  inv s → validateRegisterContract t s = (Ok tt, s) → settles s (executeRegisterContract now t).
Proof.
  intros Hi Hv. unfold validateRegisterContract in Hv. payload Hv.
  unfold executeRegisterContract. run_records Ed. by apply fine_other.
Qed.
Lemma executeActivateContract_fine now t s :
  inv s → validateActivateContract t s = (Ok tt, s) → settles s (executeActivateContract now t).
Proof.
  intros Hi Hv. unfold validateActivateContract in Hv. payload Hv.
  lazymatch goal with E : contracts s !! _ = Some _ |- _ => rename E into Ec end.
  unfold settles, executeActivateContract, update_contract. mrun. rewrite Ed. cbn. mrun. rewrite Ec. cbn. mrun.
  do 2 eexists. split; [done|]. by apply fine_other.
Qed.
Lemma executeRegisterWarehouseOperator_fine now t s :
  inv s → validateRegisterWarehouseOperator t s = (Ok tt, s) → settles s (executeRegisterWarehouseOperator now t).
Proof.
  intros Hi Hv. unfold validateRegisterWarehouseOperator in Hv. payload Hv.
  unfold executeRegisterWarehouseOperator. run_records Ed. by apply fine_other.
Qed.
Lemma executeRegisterAcceptedSkuClass_fine now t s :
  inv s → validateRegisterAcceptedSkuClass t s = (Ok tt, s) → settles s (executeRegisterAcceptedSkuClass now t).
Proof.
  intros Hi Hv. unfold validateRegisterAcceptedSkuClass in Hv. payload Hv.
  unfold executeRegisterAcceptedSkuClass. run_records Ed. by apply fine_other.
Qed.
Lemma executeRecordCustodyIntakeLot_fine now t s :
  inv s → validateRecordCustodyIntakeLot t s = (Ok tt, s) → settles s (executeRecordCustodyIntakeLot now t).
Proof.
  intros Hi Hv. unfold validateRecordCustodyIntakeLot in Hv. payload Hv.
  unfold executeRecordCustodyIntakeLot. run_records Ed. by apply fine_other.
Qed.
Lemma executeRequestCustodyRedemption_fine now t s :
  inv s → validateRequestCustodyRedemption t s = (Ok tt, s) → settles s (executeRequestCustodyRedemption now t).
Proof.
  intros Hi Hv. unfold validateRequestCustodyRedemption, check_balance in Hv. payload Hv. bools. maps.
  unfold executeRequestCustodyRedemption. run_records Ed. destruct Hi as [_ _ Hc _ (H1 & H2 & H3)].
  split; [done|split; [done|split; [|done]]]. cbn. by apply map_Forall_insert_2.
Qed.
Lemma executeRegisterConsortiumPolicy_fine now t s :
  inv s → validateRegisterConsortiumPolicy t s = (Ok tt, s) → settles s (executeRegisterConsortiumPolicy now t).
Proof.
  intros Hi Hv. unfold validateRegisterConsortiumPolicy in Hv. payload Hv. bools. maps.
  unfold executeRegisterConsortiumPolicy. run_records Ed. destruct Hi as [_ _ Hc _ (H1 & H2 & H3)].
  split; [done|split; [done|split; [done|split; [|done]]]]. cbn. apply map_Forall_insert_2; [done|].
  unfold supersede. case_match; [done|]. by apply map_Forall_alter.
Qed.
End records.

(** ** Validated transactions *)
(** A transaction whose effect stays inside the ledger: an asset identifier without
    a colon, an execution whose value has a recipient, no forced redemption. *)
Definition admissible (t : Tx) : bool :=
  let ty := Tx_Type t in
  if ty =? TxTypeRegisterAsset then
    match UnmarshalData (A := RegisterAssetData) t with Some d => no_colon (RegisterAssetData_AssetID d) | None => true end
  else if ty =? TxTypeExecuteContract then
    match UnmarshalData (A := ExecuteContractData) t with
    | Some d => negb (value_bearing d && str_empty (ExecuteContractData_CounterpartyCommitment d)) | None => true end
  else if ty =? TxTypeAdverseAction then
    match UnmarshalData (A := AdverseActionData) t with
    | Some d => negb (bool_decide (AdverseActionData_ActionType d = "redeem_forced")) | None => true end
  else true.

Lemma admissible_asset t d :
  admissible t = true → Tx_Type t = TxTypeRegisterAsset → UnmarshalData t = Some d → no_colon (RegisterAssetData_AssetID d) = true.
Proof. unfold admissible. intros H Ht E. rewrite Ht in H. cbn in H. by rewrite E in H. Qed.
Lemma admissible_execution t d :
  admissible t = true → Tx_Type t = TxTypeExecuteContract → UnmarshalData t = Some d →
  value_bearing d = true → ExecuteContractData_CounterpartyCommitment d ≠ "".
Proof.
  unfold admissible. intros H Ht E Hv. rewrite Ht in H. cbn in H. rewrite E, Hv in H. cbn in H. unfold str_empty in H. by bools.
Qed.
Lemma admissible_action t d :
  admissible t = true → Tx_Type t = TxTypeAdverseAction → UnmarshalData t = Some d →
  AdverseActionData_ActionType d ≠ "redeem_forced".
Proof. unfold admissible. intros H Ht E. rewrite Ht in H. cbn in H. rewrite E in H. by bools. Qed.

Section validated.
Context `{C : Crypto} `{W : Wallet}.

Lemma settles_inv {A} s (m : M State A) :
  inv s → keeps keeps_keyed m → keeps keeps_supply m → settles s m →
  ∃ a s', m s = (Ok a, s') ∧ inv s'.
Proof.
  intros [Hk Hs _ Hb _] K S (a & s' & Hm & Hd & Hc & Hr). exists a, s'. split; [done|].
  specialize (K s). specialize (S s). rewrite Hm in *. split; [by apply K|by apply S|done| |done].
  intros X. by rewrite Hd.
Qed.
Lemma executeRegisterValidator_inv t s : inv s → inv (executeRegisterValidator t s).2.
Proof.
  intros Hi. unfold executeRegisterValidator. mrun. destruct (UnmarshalData t); [|done]. mrun.
  destruct (base64_DecodeString _); [|done]. mrun. destruct Hi as [Hk Hs Hc Hb Hr]. split; try done.
  cbn. revert Hk. rekey.
Qed.

(** In a state that satisfies the invariant a validated admissible transaction
    executes, and the invariant holds again. *)
Lemma ExecuteTx_validated now t s :
  inv s → ValidateTx t s = (Ok tt, s) → admissible t = true → Tx_Type t ≠ TxTypeRegisterValidator →
  ∃ ev s', ExecuteTx now t s = (Ok ev, s') ∧ inv s'.
Proof.
  intros Hi Hv Ha Hty. apply settles_inv; [done|apply wire_ExecuteTx_keyed|apply ExecuteTx_supply|].
  revert Hv. unfold ValidateTx, ExecuteTx.
  repeat lazymatch goal with
  | |- context [if Tx_Type t =? ?k then _ else _] => destruct (Tx_Type t =? k) eqn:?; [intros Hv; bools|]
  end.
  all: eauto using executeRegisterAsset_fine, executeExecuteContract_fine, executeAdverseAction_fine,
    admissible_asset, admissible_execution, admissible_action.
  all: eauto using executeMint_fine, executeBurn_fine, executeTransfer_fine, executeRegisterAccount_fine,
    executeRegisterContract_fine, executeActivateContract_fine, executeRegisterConsortiumPolicy_fine,
    executeRegisterWarehouseOperator_fine.
  all: eauto using executeRegisterAcceptedSkuClass_fine, executeRecordCustodyIntakeLot_fine,
    executeRequestCustodyRedemption_fine, executeSettle_fine, executeDemurrage_fine.
  all: done.
Qed.
End validated.
