(* ===== verification/WireInventory.v ===== *)
(** Allocation of the pooled custody inventory: the loop of
    [allocateCustodyInventory] is the first-in first-out reference below, and it
    hands out what was asked for, or the whole pool when that is less. *)
From S2P Require Import Prelude Modular GoStd Json Keys TxData TxValidate WireTypes WireTx WireState WireSupply.
From S2P Require Import WireCustody WirePersist WireFrames WireLedger WireApp WireAdverse WireContracts WireAccounts.

(** ** The reference: take from each lot in turn what is still needed. *)
Fixpoint fifo (q : Z) (stock : list Z) : list Z :=
  match stock with
  | [] => []
  | r :: rest => if q =? 0 then [] else Z.min r q :: fifo (q - Z.min r q) rest
  end.
Fixpoint Zsum (l : list Z) : Z := match l with [] => 0 | x :: l' => x + Zsum l' end.
Lemma Zsum_pos stock : Forall (λ r, 0 < r) stock → 0 ≤ Zsum stock.
Proof. induction 1; cbn; lia. Qed.
Lemma fifo_sum stock : ∀ q, Forall (λ r, 0 < r) stock → 0 ≤ q → Zsum (fifo q stock) = Z.min q (Zsum stock).
Proof.
  induction stock as [|r rest IH]; intros q Hp Hq; cbn in *; [lia|].
  apply Forall_cons in Hp as [Hr Hp]. pose proof (Zsum_pos _ Hp). destruct (q =? 0) eqn:E; bools; cbn; [lia|].
  rewrite IH; [lia|done|lia].
Qed.
Lemma fifo_length stock : ∀ q, (length (fifo q stock) ≤ length stock)%nat.
Proof. induction stock as [|r rest IH]; intros q; cbn; [done|]. case_match; cbn; [lia|]. specialize (IH (q - Z.min r q)). lia. Qed.
(** A lot is touched only when every earlier one is emptied. *)
Lemma fifo_order stock : ∀ q i j r x y,
  Forall (λ r, 0 < r) stock → 0 ≤ q → (i < j)%nat →
  fifo q stock !! i = Some x → fifo q stock !! j = Some y → stock !! i = Some r → x = r.
Proof.
  induction stock as [|r0 rest IH]; intros q i j r x y Hp Hq Hij; [done|].
  apply Forall_cons in Hp as [Hr Hp]. cbn. destruct (q =? 0) eqn:E; [done|]. bools.
  destruct j as [|j]; [lia|]. destruct i as [|i]; cbn.
  - intros [= <-] Hy [= ->]. destruct (Z.min_spec r q) as [[? ->]|[? Em]]; [done|]. rewrite Em in Hy.
    rewrite Z.sub_diag in Hy. by destruct rest.
  - intros Hx Hy Hr0. apply (IH (q - Z.min r0 q) i j r x y); [done|lia|lia|done..].
Qed.

(** ** The loop of the code is the reference *)
(** The quantity a list of allocations takes from a lot. *)
Definition taken (al : list LotAllocation) (lotID : string) : Z :=
  Zsum ((λ a, if bool_decide (LotAllocation_LotID a = lotID) then LotAllocation_Quantity a else 0) <$> al).
Definition lot_left (kv : lot_entry) : Z := IntakeLotRecord_RemainingQuantity kv.2.
Definition lot_ready (kv : lot_entry) : Prop :=
  IntakeLotRecord_LotID kv.2 = kv.1 ∧ 0 < lot_left kv ∧ int64_ok (lot_left kv).

Lemma consume_min rem r : (if rem <? r then rem else r) = Z.min r rem.
Proof. destruct (rem <? r) eqn:E; bools; lia. Qed.
Lemma int64_sub_small a b : 0 ≤ b ≤ a → int64_ok a → int64_sub a b = a - b.
Proof. intros Hb Ha. unfold int64_sub. apply wrap64_id. unfold int64_ok in *. lia. Qed.

Lemma allocate_loop_fifo now h lots : ∀ q m,
  Forall lot_ready lots → 0 ≤ q → int64_ok q →
  (allocate_loop now h q lots m).1 = zip_with mkLotAllocation lots.*1 (fifo q (lot_left <$> lots)).
Proof.
  induction lots as [|[key lot] rest IH]; intros q m Hl Hq Hok; cbn; [done|].
  apply Forall_cons in Hl as [(Hid & Hpos & Hlok) Hl]. unfold lot_left in *. cbn in *.
  destruct (q =? 0) eqn:E; [done|]. bools. rewrite consume_min.
  rewrite int64_sub_small by (lia || done).
  specialize (IH (q - Z.min (IntakeLotRecord_RemainingQuantity lot) q)
    (<[key := consume_lot (Z.min (IntakeLotRecord_RemainingQuantity lot) q) now h lot]> m) Hl ltac:(lia)).
  destruct (allocate_loop _ _ _ rest _) as [al m']. cbn in *. rewrite Hid, IH; [done|]. unfold int64_ok in *. lia.
Qed.
Lemma allocate_loop_left now h lots : ∀ q m k l,
  Forall lot_ready lots → NoDup lots.*1 → (∀ kv, kv ∈ lots → m !! kv.1 = Some kv.2) → 0 ≤ q → int64_ok q →
  m !! k = Some l → int64_ok (IntakeLotRecord_RemainingQuantity l) →
  ∃ l', (allocate_loop now h q lots m).2 !! k = Some l' ∧
    IntakeLotRecord_RemainingQuantity l' =
    IntakeLotRecord_RemainingQuantity l - taken (allocate_loop now h q lots m).1 k.
Proof.
  induction lots as [|[key lot] rest IH]; intros q m k l Hl Hnd Hin Hq Hok Hk Hlk; cbn.
  { exists l. split; [done|]. cbn. lia. }
  destruct (q =? 0) eqn:E; [exists l; split; [done|cbn; lia]|]. bools.
  apply Forall_cons in Hl as [(Hid & Hpos & Hlok) Hl]. apply NoDup_cons in Hnd as [Hnk Hnd].
  pose proof (Hin (key, lot) ltac:(by left)) as Hkey. unfold lot_left in *. cbn in *.
  rewrite consume_min. set (c := Z.min (IntakeLotRecord_RemainingQuantity lot) q).
  rewrite (int64_sub_small q c) by (unfold c; lia || done).
  set (m1 := <[key := consume_lot c now h lot]> m).
  assert (∀ kv, kv ∈ rest → m1 !! kv.1 = Some kv.2) as Hin1.
  { intros kv Hkv. unfold m1. rewrite lookup_insert_ne; [apply Hin; by right|].
    intros ->. apply Hnk, list_elem_of_fmap. by exists kv. }
  assert (int64_ok (q - c)) as Hqc by (unfold c, int64_ok in *; lia).
  destruct (decide (k = key)) as [->|Hne].
  - rewrite Hkey in Hk. injection Hk as <-.
    assert (IntakeLotRecord_RemainingQuantity (consume_lot c now h lot) = IntakeLotRecord_RemainingQuantity lot - c) as Er.
    { unfold consume_lot, refreshLotStatus. cbn. apply int64_sub_small; [unfold c; lia|done]. }
    destruct (IH (q - c) m1 key (consume_lot c now h lot)) as (l' & H1 & H2); try done; [unfold c; lia| | |].
    { unfold m1. apply lookup_insert_eq. }
    { rewrite Er. unfold c, int64_ok in *. lia. }
    destruct (allocate_loop _ _ (q - c) rest m1) as [al m'] eqn:Ea. cbn in *. exists l'. split; [done|].
    unfold taken in *. cbn. rewrite Hid, bool_decide_eq_true_2 by done. rewrite H2, Er. lia.
  - destruct (IH (q - c) m1 k l) as (l' & H1 & H2); try done; [unfold c; lia| |].
    { unfold m1. by rewrite lookup_insert_ne. }
    destruct (allocate_loop _ _ (q - c) rest m1) as [al m'] eqn:Ea. cbn in *. exists l'. split; [done|].
    unfold taken in *. cbn. rewrite Hid, bool_decide_eq_false_2 by done. lia.
Qed.

(** ** The order of the lots *)
#[export] Instance lot_le_total : Total lot_le.
Proof.
  intros a b. unfold lot_le. pose proof (total str_le (IntakeLotRecord_LotID a.2) (IntakeLotRecord_LotID b.2)).
  destruct (Z.lt_total (IntakeLotRecord_CreatedAt a.2) (IntakeLotRecord_CreatedAt b.2)) as [?|[?|?]]; naive_solver.
Qed.
#[export] Instance lot_le_trans : Transitive lot_le.
Proof.
  intros a b c [?|[? H1]] [?|[? H2]]; unfold lot_le; try (left; lia). right. split; [lia|by etrans].
Qed.
(** Whatever order the map iteration gives, sorting ends in the same list. *)
Lemma inventoryLots_unique lots a w k l :
  map_Forall (λ k r, IntakeLotRecord_LotID r = k) lots →
  l ≡ₚ inventoryLots lots a w k → Sorted lot_le l → l = inventoryLots lots a w k.
Proof.
  intros Hk Hp Hs. apply (Sorted_unique_strong lot_le); [|done|apply Sorted_merge_sort, _|done].
  intros [k1 l1] [k2 l2] H1 H2 L1 L2. rewrite Hp in H1.
  apply inventoryLots_spec in H1 as [H1 _], H2 as [H2 _]. cbn in *.
  assert (IntakeLotRecord_LotID l1 = IntakeLotRecord_LotID l2) as E.
  { destruct L1 as [?|[? L1]], L2 as [?|[? L2]]; cbn in *; try lia. by apply (anti_symm str_le). }
  rewrite (Hk _ _ H1), (Hk _ _ H2) in E. subst k2. rewrite H1 in H2. by injection H2 as ->.
Qed.

(** ** The pool *)
Definition pool (s : State) (assetID warehouseID skuClassID : string) : Z :=
  Zsum (lot_left <$> inventoryLots (intakeLots s) assetID warehouseID skuClassID).
Definition lots_in_range (s : State) : Prop :=
  map_Forall (λ _ l, int64_ok (IntakeLotRecord_RemainingQuantity l)) (intakeLots s).
Lemma inventoryLots_ready s a w k :
  map_Forall (λ k r, IntakeLotRecord_LotID r = k) (intakeLots s) → lots_in_range s →
  Forall lot_ready (inventoryLots (intakeLots s) a w k).
Proof.
  intros Hk Hr. apply Forall_forall. intros [key lot] [Hl Hu]%inventoryLots_spec. cbn in *.
  split_and!; [by apply Hk| |by apply (Hr _ _ Hl)].
  unfold lot_usable in Hu. bools. by unfold lot_left.
Qed.
Lemma NoDup_filter_fst {A B} (P : A * B → bool) (l : list (A * B)) : NoDup l.*1 → NoDup (List.filter P l).*1.
Proof.
  induction l as [|x l IH]; cbn; [done|]. intros [Hx Hl]%NoDup_cons. destruct (P x); cbn; [|auto].
  apply NoDup_cons. split; [|auto]. intros (y & E & Hy)%list_elem_of_fmap. apply Hx.
  rewrite E. apply list_elem_of_fmap. exists y. split; [done|].
  apply list_elem_of_In, filter_In in Hy as [Hy _]. by apply list_elem_of_In.
Qed.
Lemma inventoryLots_NoDup lots a w k : NoDup (inventoryLots lots a w k).*1.
Proof.
  unfold inventoryLots. rewrite merge_sort_Permutation. apply NoDup_filter_fst, NoDup_fst_map_to_list.
Qed.
Lemma available_pool s a w k : eq64 (availableCustodyInventory s a w k) (pool s a w k).
Proof.
  unfold availableCustodyInventory, pool. generalize (inventoryLots (intakeLots s) a w k). intros l.
  assert (∀ z, eq64 (foldl (λ total kv, int64_add total (IntakeLotRecord_RemainingQuantity kv.2)) z l)
                    (z + Zsum (lot_left <$> l))) as H.
  { induction l as [|kv l IH]; intros z; cbn; [eq64_solve|]. rewrite IH, int64_add_eq64. unfold eq64, lot_left. f_equal. lia. }
  rewrite H. eq64_solve.
Qed.
