(* ===== verification/WireTheorems.v ===== *)
(** What the transfer protocol guarantees: conservation of value along validated
    transactions, the supply identity along any blocks, the effect of a transfer, of
    a custody settlement and of an adverse action, single-use enrollment, and the
    limits of these guarantees. *)
From S2P Require Import Prelude Modular GoStd Json Tables KVStore Keys TxData TxValidate WireTypes WireTx WireState WireSupply.
From S2P Require Import WireAccounts WireContracts WireCustody WireAdverse WirePersist WireApp WireFrames WireLedger WireInventory.

(** ** States of a deployment *)
Section reach.
Context `{C : Crypto} `{W : Wallet}.

(** Reached from the initial state by transactions that [ValidateTx] accepts where
    they are executed and that are [admissible], by handing out the validator
    updates, and by commits. *)
Inductive wire_reach {DB} `{KVStore DB} (opts : Options) : State → Prop :=
  | reach_init : wire_reach opts (initialState opts)
  | reach_tx s now t r s' :
      wire_reach opts s → ValidateTx t s = (Ok tt, s) → admissible t = true →
      ExecuteTx now t s = (r, s') → wire_reach opts s'
  | reach_updates s : wire_reach opts s → wire_reach opts (GetPendingValidatorUpdates s).2
  | reach_commit s (db : DB) : wire_reach opts s → wire_reach opts (Commit db s).2.1.

Lemma inv_initial opts : inv (initialState opts).
Proof. split; [split_and!; apply map_Forall_empty|by split|split; apply map_Forall_empty|done|].
  split_and!; [apply map_Forall_empty..|]. intros id [? E]. done.
Qed.
Lemma inv_same s s' :
  inv s → keyed s' → assets s' = assets s → accounts s' = accounts s → supply s' = supply s →
  redemptionRequests s' = redemptionRequests s → consortiumPolicies s' = consortiumPolicies s → inv s'.
Proof.
  intros [_ Hs Hc Hb Hr] Hk E1 E2 E3 E4 E5. split; [done|by apply (keeps_supply_same s)| | |].
  - unfold colon_free. by rewrite E1, E2.
  - intros X. by rewrite (drift_same s).
  - unfold refs. by rewrite E1, E3, E4, E5.
Qed.
Lemma wire_reach_inv {DB} `{KVStore DB} opts s : wire_reach opts s → inv s.
Proof.
  induction 1 as [|s now t r s' _ Hi Hv Ha He|s _ Hi|s db _ Hi].
  - apply inv_initial.
  - destruct (decide (Tx_Type t = TxTypeRegisterValidator)) as [E|E].
    + pose proof (executeRegisterValidator_inv t s Hi) as H'. unfold ExecuteTx in He. rewrite E in He.
      cbn in He. by rewrite He in H'.
    + destruct (ExecuteTx_validated now t s Hi Hv Ha E) as (ev & s2 & He2 & Hi2). rewrite He in He2. by injection He2 as -> ->.
  - apply (inv_same s); try done. apply Hi.
  - unfold Commit. destruct (dirty s); [|done]. cbv zeta.
    destruct (db_write db _); apply (inv_same s); try done; apply Hi.
Qed.

(** C3. Conservation of value. In every state reached by validated, admissible
    transactions (no colon in an asset identifier, a counterparty in every value
    execution, no forced redemption), updates and commits, a registered asset has a supply record whose
    total equals the total the asset itself records and the difference of what was
    minted and burned, and the balances of all accounts of the asset sum to that
    total, as 64-bit integers. *)
Theorem wire_ledger_conserved {DB} `{KVStore DB} opts (s : State) (asset : string) (a : AssetRecord) :
  wire_reach opts s → assets s !! asset = Some a →
  ∃ r, supply s !! asset = Some r ∧
    AssetRecord_TotalSupply a = SupplyRecord_TotalSupply r ∧
    SupplyRecord_TotalSupply r = int64_sub (SupplyRecord_TotalMinted r) (SupplyRecord_TotalBurned r) ∧
    eq64 (ledger s asset) (SupplyRecord_TotalSupply r).
Proof.
  intros [_ [H1 H2] _ Hb _]%wire_reach_inv Ha. destruct (H2 _ _ Ha) as (r & Hr & Et). exists r. split_and!; eauto.
  specialize (Hb asset). unfold drift, circulating in Hb. rewrite Hr in Hb. cbn in Hb.
  transitivity (ledger s asset - SupplyRecord_TotalSupply r + SupplyRecord_TotalSupply r).
  { unfold eq64. f_equal. lia. }
  rewrite Hb. done.
Qed.

(** C17. A validated transaction executes. In a state reached by validated, admissible
    transactions, an admissible transaction that [ValidateTx] accepts is carried out by
    [ExecuteTx] without an error or a panic: every record the handlers look up without a
    check is there. Not so for registering a validator, whose key execution decodes and
    validation does not. *)
Theorem wire_validated_executes {DB} `{KVStore DB} opts (s : State) (t : Tx) (now : Z) :
  wire_reach opts s → ValidateTx t s = (Ok tt, s) → admissible t = true → Tx_Type t ≠ TxTypeRegisterValidator →
  ∃ events s', ExecuteTx now t s = (Ok events, s').
Proof.
  intros Hi%wire_reach_inv Hv Ha Ht. destruct (ExecuteTx_validated now t s Hi Hv Ha Ht) as (ev & s' & He & _). eauto.
Qed.
End reach.

(** ** Whole chains, with no validation at all *)
Section chain.
Context `{C : Crypto} `{W : Wallet}.

Lemma exec_txs_keeps (R : State → State → Prop) `{!Reflexive R, !Transitive R} now txs :
  (∀ n t, keeps R (ExecuteTx n t)) → ∀ i, keeps R (exec_txs now i txs).
Proof.
  intros HR. induction txs as [|doc rest IH]; intros i; cbn; keeps_auto; [|apply IH].
  unfold exec_tx. destruct (DecodeTx doc); keeps_auto. apply HR.
Qed.
Lemma wire_run_block_keeps (R : State → State → Prop) `{!Reflexive R, !Transitive R} now txs :
  (∀ n t, keeps R (ExecuteTx n t)) → (∀ s, R s (s <| pendingValidatorUpdates := [] |>)) →
  keeps R (run_block now txs).
Proof.
  intros HR Hp. unfold run_block, GetPendingValidatorUpdates. keeps_auto; [by apply exec_txs_keeps|apply Hp].
Qed.
(** The tables of a state, without which no relation below can be told. *)
Lemma run_block_frame now txs s :
  grows s (run_block now txs s).2 ∧ (keyed s → keyed (run_block now txs s).2) ∧
  (supply_ok s → supply_ok (run_block now txs s).2).
Proof.
  split_and!.
  - apply wire_run_block_keeps; [apply _..|apply ExecuteTx_grows|]. intros s0. by split_and!.
  - apply (wire_run_block_keeps keeps_keyed); [apply wire_ExecuteTx_keyed|]. intros s0. by unfold keeps_keyed.
  - apply (wire_run_block_keeps keeps_supply); [apply ExecuteTx_supply|]. intros s0. by apply keeps_supply_same.
Qed.

(** What holds between a state and its database along any chain. *)
Definition chain_ok {DB} `{KVStore DB} (db : DB) (s : State) : Prop :=
  keyed s ∧ supply_ok s ∧ ∃ old, stored db old ∧ grows old s.
Lemma FinalizeBlock_chain {DB} `{KVLaws DB} now (db : DB) txs s :
  chain_ok db s → chain_ok (FinalizeBlock now db txs s).2.2 (FinalizeBlock now db txs s).2.1.
Proof.
  intros (Hk & Hs & old & Ho & Hg). destruct (run_block_frame now txs s) as (Fg & Fk & Fs).
  unfold FinalizeBlock. destruct (run_block now txs s) as [[[results updates]|e|] s1]; cbn in *.
  2, 3: split_and!; eauto; exists old; split; [done|by etrans].
  assert (grows old s1) as Hg1 by (by etrans).
  assert (chain_ok db s1) as Hc1 by (split_and!; eauto).
  destruct (Commit db s1) as [[h|e|] [s' db']] eqn:Ec; cbn.
  - destruct (dirty s1) eqn:Hd.
    + destruct (wire_commit_stored _ _ _ _ _ _ Ho Hg1 Hd Ec) as (Hst & -> & _). destruct Hc1 as (K1 & S1 & _).
      split_and!; [done|done|]. by exists (s1 <| appHash := h |> <| height ::= int64_inc |> <| dirty := false |>).
    + unfold Commit in Ec. rewrite Hd in Ec. by injection Ec as _ <- <-.
  - unfold Commit in Ec. destruct (dirty s1); [|done]. cbv zeta in Ec.
    destruct (db_write db _) in Ec; [done|]. injection Ec as _ <- <-. destruct Hc1 as (K1 & S1 & _).
    split_and!; [done|done|]. exists old. split; [done|]. revert Hg1. unfold grows. done.
  - unfold Commit in Ec. destruct (dirty s1); [|done]. cbv zeta in Ec. by destruct (db_write db _) in Ec.
Qed.
Lemma run_blocks_chain {DB} `{KVLaws DB} now blocks : ∀ (db : DB) s,
  chain_ok db s → chain_ok (run_blocks now db s blocks).2 (run_blocks now db s blocks).1.
Proof.
  induction blocks as [|txs rest IH]; intros db s Hc; cbn; [done|].
  pose proof (FinalizeBlock_chain (now (length rest)) db txs s Hc) as Hc'.
  destruct (FinalizeBlock _ db txs s) as [r [s' db']]. by apply IH.
Qed.
Lemma chain_initial {DB} `{KVStore DB} (db : DB) opts : (∀ k, db_get db k = None) → chain_ok db (initialState opts).
Proof.
  intros Hdb. split_and!; [split_and!; apply map_Forall_empty|by split|].
  exists (initialState opts). split; [|done]. split_and!; intros k; by rewrite Hdb.
Qed.

(** The supply identity along any chain of blocks, whose transactions need not
    have been validated by anyone: every supply record of the resulting state has as
    its total the wrapped difference of what was minted and burned. *)
Theorem wire_blocks_supply {DB} `{KVLaws DB} now (db : DB) opts blocks (asset : string) (r : SupplyRecord) :
  (∀ k, db_get db k = None) →
  supply (run_blocks now db (initialState opts) blocks).1 !! asset = Some r →
  SupplyRecord_TotalSupply r = int64_sub (SupplyRecord_TotalMinted r) (SupplyRecord_TotalBurned r).
Proof.
  intros Hdb Hr. destruct (run_blocks_chain now blocks db _ (chain_initial db opts Hdb)) as (_ & [H1 _] & _). by apply H1 in Hr.
Qed.

(** C21. Restart after a block. On a chain started on an empty database with distinct
    authorities, when a block changes the state, leaves its records within their Go
    types and is finalized, [NewStateWithOptions] on the database of that block rebuilds
    the state: the height, the app hash, the authority keys of the options and all tables
    but one. The contract executions come back under the field of theirs that the loader
    names and the type does not have, a parameter here; they are the same table when it
    is the identifier they were stored under ([rekeyed_id]). *)
Theorem wire_chain_restart `{F : MissingField} {DB} `{KVLaws DB} now now' (db db1 db' : DB) opts blocks txs s s' results resp :
  (∀ k, db_get db k = None) → distinct_authorities opts →
  run_blocks now db (initialState opts) blocks = (s, db1) →
  run_block now' txs s = (Ok results, s') → dirty s' = true → in_range_records s' →
  (FinalizeBlock now' db1 txs s).1 = Ok resp → (FinalizeBlock now' db1 txs s).2.2 = db' →
  restored db' opts (FinalizeBlock now' db1 txs s).2.1.
Proof.
  intros Hdb Ho Hrun Hb Hd Hr. pose proof (run_blocks_chain now blocks db _ (chain_initial db opts Hdb)) as Hc.
  rewrite Hrun in Hc. destruct Hc as (Hk & _ & old & Hst & Hg). destruct (run_block_frame now' txs s) as (Fg & Fk & _).
  unfold FinalizeBlock. rewrite Hb in *. cbn in Fg, Fk. destruct results as [results updates].
  destruct (Commit db1 s') as [[h|e|] [s2 db2]] eqn:Ec; cbn; [|done..]. intros _ <-.
  destruct (wire_commit_stored _ _ _ _ _ _ Hst (grows_trans _ _ _ Hg Fg) Hd Ec) as (Hs' & -> & -> & Eh & Ea & Ep).
  apply NewStateWithOptions_committed; [|by apply Fk|done|apply wrap64_ok|done].
  split_and!; [done|done| |done]. by exists (computeAppHash s').
Qed.
End chain.

(** ** Transfers *)
Section transfers.
Context `{C : Crypto} `{W : Wallet}.

Definition balance_at (s : State) (asset commitment : string) : option Z :=
  AccountRecord_Balance <$> accounts s !! account_key asset commitment.

(** C6. The effect of an accepted transfer. It succeeds, the sender could pay, the
    amount moves from the sender's to the recipient's balance (a transfer to oneself
    leaves the balance as it was), no other account, no supply and no asset changes,
    and no transfer with the same nullifier is accepted afterwards. *)
Theorem executeTransfer_spec now t s d :
  validateTransfer t s = (Ok tt, s) → UnmarshalData t = Some d →
  let asset := TransferData_AssetID d in
  let n := TransferData_Amount d in
  ∃ events s' b1 b2, executeTransfer now t s = (Ok events, s') ∧
    balance_at s asset (TransferData_SenderCommitment d) = Some b1 ∧ n ≤ b1 ∧
    balance_at s asset (TransferData_RecipientCommitment d) = Some b2 ∧
    (TransferData_SenderCommitment d ≠ TransferData_RecipientCommitment d →
       balance_at s' asset (TransferData_SenderCommitment d) = Some (int64_sub b1 n) ∧
       balance_at s' asset (TransferData_RecipientCommitment d) = Some (int64_add b2 n)) ∧
    (TransferData_SenderCommitment d = TransferData_RecipientCommitment d →
       balance_at s' asset (TransferData_SenderCommitment d) = Some (int64_add (int64_sub b1 n) n)) ∧
    (∀ key, key ≠ account_key asset (TransferData_SenderCommitment d) →
       key ≠ account_key asset (TransferData_RecipientCommitment d) → accounts s' !! key = accounts s !! key) ∧
    supply s' = supply s ∧ assets s' = assets s ∧
    (∀ t2 d2, UnmarshalData t2 = Some d2 → TransferData_Nullifier d2 = TransferData_Nullifier d →
       is_Some (assets s !! TransferData_AssetID d2) →
       validateTransfer t2 s' = (Fail (ErrorDuplicateTransfer (TransferData_Nullifier d)), s')).
Proof.
  intros Hv Ed. destruct (validateTransfer_ok _ _ _ Hv) as (d' & a & r & Ed' & _ & _ & Ha & Hr & _ & _ & Hn & _).
  rewrite Ed in Ed'. injection Ed' as <-. cbv zeta.
  set (k1 := account_key _ (TransferData_SenderCommitment d)) in *.
  set (k2 := account_key _ (TransferData_RecipientCommitment d)) in *.
  assert (TransferData_SenderCommitment d = TransferData_RecipientCommitment d ↔ k1 = k2) as Hkk.
  { split; [by unfold k1, k2; intros ->|]. unfold k1, k2, account_key. intros E.
    by apply (inj (String.append _)), (inj (String.append _)) in E. }
  do 2 eexists. exists (AccountRecord_Balance a), (AccountRecord_Balance r).
  split; [by apply (executeTransfer_run now t s d); eauto|].
  unfold balance_at. fold k1 k2. unfold transferred. fields. fold k1 k2. rewrite Ha, Hr. split_and!; try done.
  - intros Hne. assert (k1 ≠ k2) by tauto.
    rewrite lookup_alter_ne, lookup_alter_eq, Ha, lookup_alter_eq, lookup_alter_ne, Hr by done. done.
  - intros He%Hkk. rewrite <- He, !lookup_alter_eq, Ha. done.
  - intros key H1 H2. by rewrite !lookup_alter_ne.
  - intros t2 d2 Ed2 En Has. unfold validateTransfer. mrun. rewrite Ed2. cbn. mrun. fields.
    rewrite (proj2 (has_true _ _)) by done. cbn. mrun. fields. rewrite En.
    rewrite (proj2 (has_true _ _)); [done|]. rewrite lookup_insert_eq. by eexists.
Qed.

(** A block that mints an asset nobody registered panics: [CheckTx] would have
    refused the transaction, the block execution does not ask. *)
Theorem unvalidated_mint_panics {DB} `{KVStore DB} now (db : DB) s doc t d :
  DecodeTx (Some doc) = Some t → Tx_Type t = TxTypeMint → UnmarshalData t = Some d →
  assets s !! MintData_AssetID d = None → supply s !! MintData_AssetID d = None →
  validateMint t s = (Fail (ErrorUnknownAsset (MintData_AssetID d)), s) ∧
  (FinalizeBlock now db [Some doc] s).1 = Panic.
Proof.
  intros Hdoc Ht Ed Ha Hs. split.
  - unfold validateMint. mrun. rewrite Ed. cbn. mrun. by rewrite (proj2 (has_false _ _) Ha).
  - assert (∃ s1, executeMint (now 0%nat) t s = (Panic, s1)) as (s1 & Hp).
    { unfold executeMint. mrun. rewrite Ed. cbn. mrun.
      destruct (has (accounts s) _) eqn:E; mrun; rewrite update_account_run; fields.
      - rewrite E. mrun. unfold change_supply, update_supply. mrun. fields. rewrite Hs. by eexists.
      - rewrite (proj2 (has_true _ _)) by (rewrite lookup_insert_eq; by eexists). mrun.
        unfold change_supply, update_supply. mrun. fields. rewrite Hs. by eexists. }
    unfold FinalizeBlock, run_block. cbn [exec_txs]. unfold exec_tx. rewrite Hdoc. unfold ExecuteTx. rewrite Ht. cbn.
    unfold try. rewrite !bind_run. rewrite Hp. done.
Qed.
End transfers.

(** ** Custody *)
Section custody.
Context `{C : Crypto} `{W : Wallet}.

Lemma allocate_spec_run s a w k q now :
  keyed s → lots_in_range s → 0 < q → int64_ok q →
  let lots := inventoryLots (intakeLots s) a w k in
  ∃ al s', allocateCustodyInventory a w k q now s = (Ok (Some al), s') ∧
    al = zip_with mkLotAllocation lots.*1 (fifo q (lot_left <$> lots)) ∧
    Zsum (LotAllocation_Quantity <$> al) = Z.min q (pool s a w k) ∧
    (∀ lotID lot, intakeLots s !! lotID = Some lot → ∃ lot', intakeLots s' !! lotID = Some lot' ∧
       IntakeLotRecord_RemainingQuantity lot' = IntakeLotRecord_RemainingQuantity lot - taken al lotID).
Proof.
  intros Hk Hr Hq Hok lots. assert (Forall lot_ready lots) as Hl.
  { apply inventoryLots_ready; [|done]. unfold keyed in Hk. tauto. }
  unfold allocateCustodyInventory. destruct (q <=? 0) eqn:E; bools; [lia|]. mrun. fold lots.
  pose proof (allocate_loop_fifo now (height s) lots q (intakeLots s) Hl ltac:(lia) Hok) as H1.
  pose proof (λ k l, allocate_loop_left now (height s) lots q (intakeLots s) k l Hl
    (inventoryLots_NoDup _ _ _ _)) as H2.
  destruct (allocate_loop _ _ _ _ _) as [al m]. cbn in H1, H2. mrun. do 2 eexists. split_and!; [done|done| |].
  - rewrite H1. transitivity (Zsum (fifo q (lot_left <$> lots))).
    + f_equal. apply fmap_zip_with_r; [done|]. rewrite length_fmap.
      etrans; [apply fifo_length|by rewrite length_fmap].
    + unfold pool. fold lots. apply fifo_sum; [|lia].
      apply Forall_fmap. eapply Forall_impl; [exact Hl|]. by intros kv (_ & ? & _).
  - intros lotID lot Hlot. cbn. apply H2; try done; [|lia|by apply (Hr _ _ Hlot)].
    by intros kv [? _]%inventoryLots_spec.
Qed.

(** C19. Allocation is first in, first out.  When every record sits under its own identifier
    and the quantity is a positive 64-bit integer, the lots of the asset, the warehouse and
    the SKU are gone through in one well-defined order, each emptied before the next is
    touched, and each lowered by what was taken from it; what is taken adds up to the
    quantity, or to the whole pool when the pool holds less, of which the caller is not
    told. *)
Theorem allocateCustodyInventory_fifo s assetID warehouseID skuClassID q now :
  keyed s → lots_in_range s → 0 < q → int64_ok q →
  let lots := inventoryLots (intakeLots s) assetID warehouseID skuClassID in
  ∃ al s', allocateCustodyInventory assetID warehouseID skuClassID q now s = (Ok (Some al), s') ∧
    al = zip_with mkLotAllocation lots.*1 (fifo q (lot_left <$> lots)) ∧
    Sorted lot_le lots ∧ (∀ l, l ≡ₚ lots → Sorted lot_le l → l = lots) ∧
    Zsum (LotAllocation_Quantity <$> al) = Z.min q (pool s assetID warehouseID skuClassID) ∧
    (∀ i j kv x y, (i < j)%nat → lots !! i = Some kv → al !! i = Some x → al !! j = Some y →
       LotAllocation_Quantity x = IntakeLotRecord_RemainingQuantity kv.2) ∧
    (∀ lotID lot, intakeLots s !! lotID = Some lot → ∃ lot', intakeLots s' !! lotID = Some lot' ∧
       IntakeLotRecord_RemainingQuantity lot' = IntakeLotRecord_RemainingQuantity lot - taken al lotID).
Proof.
  intros Hk Hr Hq Hok lots.
  destruct (allocate_spec_run s assetID warehouseID skuClassID q now Hk Hr Hq Hok) as (al & s' & Hrun & Hal & Hs & Hl).
  exists al, s'. split_and!; try done.
  - apply Sorted_merge_sort, _.
  - intros l Hp Hsl. apply inventoryLots_unique; [unfold keyed in Hk; tauto|done|done].
  - intros i j kv x y Hij Hkv Hx Hy. fold lots in Hal. rewrite Hal in Hx, Hy.
    apply lookup_zip_with_Some in Hx as (kx & qx & -> & _ & Hqx).
    apply lookup_zip_with_Some in Hy as (ky & qy & -> & _ & Hqy). cbn.
    assert (Forall (λ r, 0 < r) (lot_left <$> lots)) as Hpos.
    { apply Forall_fmap. eapply Forall_impl; [apply inventoryLots_ready; [|done]; unfold keyed in Hk; tauto|].
      by intros kv' (_ & ? & _). }
    apply (fifo_order _ q i j _ _ qy Hpos ltac:(lia) Hij Hqx Hqy). rewrite list_lookup_fmap. apply fmap_Some. by exists kv.
Qed.

Lemma available_exact s a w k :
  keyed s → lots_in_range s → pool s a w k < 2 ^ 63 → availableCustodyInventory s a w k = pool s a w k.
Proof.
  intros Hk Hr Hp. assert (0 ≤ pool s a w k) as H0.
  { apply Zsum_pos, Forall_fmap. eapply Forall_impl; [apply inventoryLots_ready; [unfold keyed in Hk; tauto|done]|].
    by intros kv (_ & ? & _). }
  apply eq64_exact; [|unfold int64_ok; lia|apply available_pool].
  unfold availableCustodyInventory. generalize (inventoryLots (intakeLots s) a w k). intros l.
  assert (∀ z, int64_ok z → int64_ok (foldl (λ total kv, int64_add total (IntakeLotRecord_RemainingQuantity kv.2)) z l)) as H.
  { induction l as [|kv l IH]; intros z Hz; cbn; [done|]. apply IH, wrap64_ok. }
  apply H. by vm_compute.
Qed.
Lemma burn_from_run s asset c n now a r x :
  accounts s !! account_key asset c = Some a → supply s !! asset = Some r → assets s !! asset = Some x →
  ∃ f, burn_from asset c n now s =
    (Ok tt, s <| accounts ::= alter (move_balance (λ b, int64_sub b n) (Some now) (height s)) (account_key asset c) |>
              <| supply ::= alter (add_burned n now) asset |> <| assets ::= f |>).
Proof.
  intros Ha Hr Hx. eexists. unfold burn_from. mrun.
  rewrite update_account_run, (proj2 (has_true _ _)) by (by eexists). mrun.
  rewrite (change_supply_run _ _ _ r); [done|done|by eexists].
Qed.

(** C18. The effect of an accepted custody settlement of a positive quantity, in a state
    reached by validated, admissible transactions whose pool of the asset, the warehouse
    and the SKU is below 2^63. The allocation recorded on the settlement adds up to the
    settled quantity, each lot loses exactly what was allocated from it, the requester's
    balance and the supply go down by the burned amount, and in the state it leaves no
    settlement of the request validates. *)
Theorem settle_custody_spec {DB} `{KVStore DB} opts s t now d req :
  wire_reach opts s → lots_in_range s → validateSettleCustodyRedemption t s = (Ok tt, s) →
  UnmarshalData t = Some d → redemptionRequests s !! SettleCustodyRedemptionData_RequestID d = Some req →
  0 < SettleCustodyRedemptionData_SettledQuantity d →
  pool s (RedemptionRequestRecord_AssetID req) (SettleCustodyRedemptionData_WarehouseID d)
    (RedemptionRequestRecord_SkuClassID req) < 2 ^ 63 →
  let asset := RedemptionRequestRecord_AssetID req in
  let burned := SettleCustodyRedemptionData_BurnAmount d in
  ∃ events s' al st b sup, executeSettleCustodyRedemption now t s = (Ok events, s') ∧
    redemptionSettlements s' !! SettleCustodyRedemptionData_SettlementID d = Some st ∧
    RedemptionSettlementRecord_AllocatedLots st = Some al ∧
    Zsum (LotAllocation_Quantity <$> al) = SettleCustodyRedemptionData_SettledQuantity d ∧
    (∀ lotID lot, intakeLots s !! lotID = Some lot → ∃ lot', intakeLots s' !! lotID = Some lot' ∧
       IntakeLotRecord_RemainingQuantity lot' = IntakeLotRecord_RemainingQuantity lot - taken al lotID) ∧
    balance_at s asset (RedemptionRequestRecord_AccountCommitment req) = Some b ∧ burned ≤ b ∧
    balance_at s' asset (RedemptionRequestRecord_AccountCommitment req) = Some (int64_sub b burned) ∧
    supply s !! asset = Some sup ∧ supply s' !! asset = Some (add_burned burned now sup) ∧
    (∀ t2 d2, UnmarshalData t2 = Some d2 →
       SettleCustodyRedemptionData_RequestID d2 = SettleCustodyRedemptionData_RequestID d →
       ∃ e, validateSettleCustodyRedemption t2 s' = (Fail e, s')).
Proof.
  intros Hi%wire_reach_inv Hr Hv Ed Hreq Hq Hpool. cbv zeta.
  destruct (validateSettle_ok _ _ _ Hv) as (d' & r' & a & Ed' & Hreq' & _ & _ & _ & _ & _ & Hav & Ha & Hb).
  rewrite Ed in Ed'. injection Ed' as <-. rewrite Hreq in Hreq'. injection Hreq' as <-.
  destruct Hi as [Hk [_ Hsup] _ _ (Href & _)]. destruct (Href _ _ Hreq) as [x Hx].
  destruct (Hsup _ _ Hx) as (sup & Hs & _). rewrite available_exact in Hav by done.
  destruct (allocate_spec_run s (RedemptionRequestRecord_AssetID req) (SettleCustodyRedemptionData_WarehouseID d)
    (RedemptionRequestRecord_SkuClassID req) (SettleCustodyRedemptionData_SettledQuantity d) now Hk Hr)
    as (al & s1 & Hal & _ & Hsum & Hleft); [lia|unfold int64_ok; lia|]. rewrite Z.min_l in Hsum by lia.
  destruct (allocate_run s (RedemptionRequestRecord_AssetID req) (SettleCustodyRedemptionData_WarehouseID d)
    (RedemptionRequestRecord_SkuClassID req) (SettleCustodyRedemptionData_SettledQuantity d) now) as (al' & lots & Hal').
  rewrite Hal in Hal'. injection Hal' as <- ->.
  set (s1 := s <| intakeLots := lots |>) in *.
  destruct (burn_from_run s1 _ _ (SettleCustodyRedemptionData_BurnAmount d) now a sup x Ha Hs Hx) as (f & Hburn).
  do 2 eexists. exists al. eexists. exists (AccountRecord_Balance a), sup. split.
  { unfold executeSettleCustodyRedemption. mrun. rewrite Ed. cbn. mrun. rewrite Hreq. mrun. rewrite Hal. mrun.
    rewrite Hburn. mrun. reflexivity. }
  unfold balance_at, s1. fields. rewrite Ha. split_and!; try done.
  - apply lookup_insert_eq.
  - done.
  - by rewrite lookup_alter_eq, Ha.
  - by rewrite lookup_alter_eq, Hs.
  - intros t2 d2 Ed2 Er. unfold validateSettleCustodyRedemption. mrun. rewrite Ed2. cbn. mrun.
    destruct (has _ _); mrun; [by eexists|]. fields. rewrite Er, lookup_alter_eq, Hreq. cbn. mrun. by eexists.
Qed.
End custody.

(** ** Adverse actions, enrollment and the read surface *)
Section authority.
Context `{C : Crypto} `{W : Wallet}.

Lemma validateAdverseAction_ok t s s' : validateAdverseAction t s = (Ok tt, s') →
  ∃ d, UnmarshalData t = Some d ∧ s' = s ∧
    blen (eligibilityAuthorityPubKey s) ≠ 0 ∧ blen (reconciliationAuthorityPubKey s) ≠ 0 ∧
    AdverseActionData_ActionID d = hashNonce (AdverseActionData_ActionNonce d) ∧
    authorityActions s !! AdverseActionData_ActionID d = None ∧
    is_Some (accounts s !! account_key sentinel (AdverseActionData_AccountCommitment d)) ∧
    (AdverseActionData_ActionType d = "restore" → AdverseActionData_ReferencedActionID d ≠ "" →
     is_Some (authorityActions s !! AdverseActionData_ReferencedActionID d)) ∧
    ed25519_Verify (bytes_of (eligibilityAuthorityPubKey s)) (adverseActionCanonicalMessage d)
      (bytes_of (AdverseActionData_EligibilityAuth d)) = true ∧
    ed25519_Verify (bytes_of (reconciliationAuthorityPubKey s)) (adverseActionCanonicalMessage d)
      (bytes_of (AdverseActionData_ReconciliationAuth d)) = true.
Proof.
  unfold validateAdverseAction. intros Hv. minv Hv. sigs. bools. maps. eexists. split_and!; eauto.
  intros Hr Hne. rewrite <- andb_assoc in *.
  lazymatch goal with H : bool_decide (_ = "restore") && _ = false |- _ =>
    rewrite bool_decide_eq_true_2 in H by done; by eapply guarded_lookup end.
Qed.

(** C20. An accepted adverse action carries the signatures of both authorities over
    its canonical message. Its record is logged under its own identifier and no
    earlier record of the log is lost; every account that does not match is left
    alone, every matching one is disabled, frozen, restored or emptied as the action
    says; and the same action cannot be submitted again. *)
Theorem adverse_action_two_party t s d now :
  validateAdverseAction t s = (Ok tt, s) → UnmarshalData t = Some d →
  (ed25519_Verify (bytes_of (eligibilityAuthorityPubKey s)) (adverseActionCanonicalMessage d)
      (bytes_of (AdverseActionData_EligibilityAuth d)) = true ∧
   ed25519_Verify (bytes_of (reconciliationAuthorityPubKey s)) (adverseActionCanonicalMessage d)
      (bytes_of (AdverseActionData_ReconciliationAuth d)) = true) ∧
  ∃ events s', executeAdverseAction now t s = (Ok events, s') ∧
    authorityActions s ⊆ authorityActions s' ∧
    authorityActions s' !! AdverseActionData_ActionID d = Some (action_record now (height s) d) ∧
    (∀ key a, accounts s !! key = Some a → ∃ a', accounts s' !! key = Some a' ∧
       (action_matches d a = false → a' = a) ∧
       (action_matches d a = true →
          (AdverseActionData_ActionType d = "disable" ∨ AdverseActionData_ActionType d = "rescind" →
             AccountRecord_Disabled a' = true ∧ AccountRecord_Frozen a' = false) ∧
          (AdverseActionData_ActionType d = "freeze" →
             AccountRecord_Disabled a' || AccountRecord_Frozen a' = true) ∧
          (AdverseActionData_ActionType d = "restore" →
             AccountRecord_Disabled a' = false ∧ AccountRecord_Frozen a' = false) ∧
          (AdverseActionData_ActionType d = "redeem_forced" →
             AccountRecord_Disabled a' = true ∧ AccountRecord_Balance a' = 0))) ∧
    (∀ t2 d2, UnmarshalData t2 = Some d2 → AdverseActionData_ActionID d2 = AdverseActionData_ActionID d →
       ∃ e, validateAdverseAction t2 s' = (Fail e, s')).
Proof.
  intros Hv Ed. destruct (validateAdverseAction_ok _ _ _ Hv) as (d' & Ed' & _ & K1 & K2 & _ & Hn & _ & _ & V1 & V2).
  rewrite Ed in Ed'. injection Ed' as <-. split; [done|].
  do 2 eexists. split; [unfold executeAdverseAction; mrun; rewrite Ed; cbn; mrun; reflexivity|].
  fields. split_and!.
  - by apply insert_subseteq.
  - apply lookup_insert_eq.
  - intros key a Ha. exists (apply_action d (height s) a). split; [by rewrite lookup_fmap, Ha|].
    unfold apply_action. split; intros ->; [done|]. cbn.
    split_and!; intros Hty; [destruct Hty as [->| ->]|rewrite Hty..]; try done.
    change (act_on "freeze" a) with (if AccountRecord_Disabled a then a else a <| AccountRecord_Frozen := true |>).
    destruct (AccountRecord_Disabled a) eqn:E; fields; [by rewrite E|by rewrite orb_true_r].
  - intros t2 d2 Ed2 Eid. unfold validateAdverseAction. mrun. fields.
    apply Z.eqb_neq in K1 as ->, K2 as ->. cbn. mrun. rewrite Ed2. cbn. mrun.
    destruct (negb _); mrun; [by eexists|]. rewrite Eid, (proj2 (has_true _ _)); mrun; [by eexists|].
    fields. rewrite lookup_insert_eq. by eexists.
Qed.

(** An enrollment token registers one account. When the deployment has an
    enrollment authority, an accepted registration carries that authority's signature
    over commitment and token; executing it opens the account with no balance and
    marks the token, and no later registration with that token is accepted. *)
Theorem enrollment_token_once t s d :
  0 < blen (enrollmentAuthorityPubKey s) → validateRegisterAccount t s = (Ok tt, s) → UnmarshalData t = Some d →
  ed25519_Verify (bytes_of (enrollmentAuthorityPubKey s))
    (registerAccountEnrollmentMessage (RegisterAccountData_AccountCommitment d) (RegisterAccountData_EnrollmentToken d))
    (bytes_of (RegisterAccountData_EnrollmentProof d)) = true ∧
  ∃ events s', executeRegisterAccount t s = (Ok events, s') ∧
    enrollmentRecords s' !! RegisterAccountData_EnrollmentToken d =
      Some (mkEnrollmentRecord (RegisterAccountData_EnrollmentToken d) (RegisterAccountData_AccountCommitment d) (height s)) ∧
    accounts s' !! account_key sentinel (RegisterAccountData_AccountCommitment d) =
      Some (mkAccountRecord (RegisterAccountData_AccountCommitment d) sentinel 0 false false 0 (height s)) ∧
    (∀ t2 d2, UnmarshalData t2 = Some d2 →
       RegisterAccountData_EnrollmentToken d2 = RegisterAccountData_EnrollmentToken d →
       ∃ e, validateRegisterAccount t2 s' = (Fail e, s')).
Proof.
  intros Hkey Hv Ed. destruct (validateRegisterAccount_ok _ _ _ Hv) as (d' & pub & Ed' & _ & _ & He & Hn & _).
  rewrite Ed in Ed'. injection Ed' as <-. destruct (He Hkey) as (Ht & Hu & Hsig). split; [done|].
  assert (str_empty (RegisterAccountData_EnrollmentToken d) = false) as Hemp by (by apply bool_decide_eq_false_2).
  do 2 eexists. split; [unfold executeRegisterAccount; mrun; rewrite Ed; cbn; mrun; rewrite Hemp; mrun; reflexivity|].
  fields. split_and!; [apply lookup_insert_eq|apply lookup_insert_eq|].
  intros t2 d2 Ed2 Et. unfold validateRegisterAccount. mrun. rewrite Ed2. cbn. mrun.
  unfold verifyRegisterAccountWalletProof, wrap_err. destruct (recoverRegisterAccountPubKey _ _); [by eexists|].
  rewrite fail_if_run. destruct (negb _); [by eexists|]. mrun. unfold verifyRegisterAccountEnrollment. fields.
  assert ((blen (enrollmentAuthorityPubKey s) =? 0) = false) as -> by (apply Z.eqb_neq; lia). mrun.
  destruct (_ || _); mrun; [by eexists|]. rewrite Et, (proj2 (has_true _ _)); [mrun; by eexists|].
  rewrite lookup_insert_eq. by eexists.
Qed.

(** A forced redemption strands its supply: the balance of the account is set to
    zero while the supply records stay as they were, and every later burn from the
    account is refused for want of balance. *)
Theorem redeem_forced_strands_supply t s d now key a :
  validateAdverseAction t s = (Ok tt, s) → UnmarshalData t = Some d →
  AdverseActionData_ActionType d = "redeem_forced" → accounts s !! key = Some a → action_matches d a = true →
  ∃ events s', executeAdverseAction now t s = (Ok events, s') ∧ supply s' = supply s ∧
    (AccountRecord_Balance <$> accounts s' !! key = Some 0) ∧
    (∀ t2 d2, UnmarshalData t2 = Some d2 → is_Some (assets s !! BurnData_AssetID d2) →
       account_key (BurnData_AssetID d2) (BurnData_AccountCommitment d2) = key → 0 < BurnData_Amount d2 →
       validateBurn t2 s' = (Fail (ErrorInsufficientBalance (BurnData_AccountCommitment d2) (BurnData_AssetID d2) 0
                                    (BurnData_Amount d2)), s')).
Proof.
  intros Hv Ed Hty Ha Hm. do 2 eexists.
  split; [unfold executeAdverseAction; mrun; rewrite Ed; cbn; mrun; reflexivity|]. fields.
  assert (AccountRecord_Balance (apply_action d (height s) a) = 0) as Hb.
  { unfold apply_action. rewrite Hm. cbn. unfold act_on. by rewrite Hty. }
  split_and!; [done|by rewrite lookup_fmap, Ha; cbn; rewrite Hb|].
  intros t2 d2 Ed2 Has Hkey Hn. unfold validateBurn, check_balance. mrun. rewrite Ed2. cbn. mrun. fields.
  rewrite (proj2 (has_true _ _)) by done. cbn. mrun. rewrite Hkey, lookup_fmap, Ha. cbn. mrun.
  rewrite Hb. destruct (0 <? BurnData_Amount d2) eqn:E; bools; [done|lia].
Qed.

(** Decides the cases of the switch a path with a literal prefix does not take. *)
Ltac route :=
  repeat match goal with
  | |- context [if has_prefix ?s ?p then _ else _] =>
      let b := eval cbv in (has_prefix s p) in
      lazymatch b with
      | true => change (has_prefix s p) with true
      | false => change (has_prefix s p) with false
      | _ => rewrite (has_prefix_app p)
      end; cbv iota
  end.
(** C22. The public view of a transfer. Two states whose records under one identifier agree
    on transfer identifier, asset, time and height answer the path "/transfer/" alike,
    whatever the amounts and nonces in the records are; the path "/transfer_exists/" says
    that there is a record and nothing more. *)
Theorem query_hides_amounts s1 s2 id r1 r2 :
  transferRecords s1 !! id = Some r1 → transferRecords s2 !! id = Some r2 →
  TransferRecord_TransferID r1 = TransferRecord_TransferID r2 → TransferRecord_AssetID r1 = TransferRecord_AssetID r2 →
  TransferRecord_Timestamp r1 = TransferRecord_Timestamp r2 → TransferRecord_Height r1 = TransferRecord_Height r2 →
  Query s1 ("/transfer/" +:+ id) = Query s2 ("/transfer/" +:+ id) ∧
  Query s1 ("/transfer_exists/" +:+ id) = inr (JObj [("exists", JBool true)]).
Proof.
  intros H1 H2 E1 E2 E3 E4. split.
  - assert (∀ s r, transferRecords s !! id = Some r → Query s ("/transfer/" +:+ id) = inr (to_json (public_transfer r))) as Hq.
    { intros s r Hr. unfold Query. rewrite trim_prefix_app. route. unfold query_record.
      by rewrite lookup_fmap, Hr. }
    rewrite (Hq _ _ H1), (Hq _ _ H2). unfold public_transfer. by rewrite E1, E2, E3, E4.
  - unfold Query. rewrite trim_prefix_app. route. by rewrite (proj2 (has_true _ _)) by (by eexists).
Qed.
(** A path under "/contract/execution/" is taken by the case before it. *)
Theorem contract_execution_unreachable s id :
  contracts s !! ("execution/" +:+ id) = None →
  Query s ("/contract/execution/" +:+ id) = inl (Errorf "contract not found: %s" [FStr ("execution/" +:+ id)]).
Proof.
  intros Hn. change ("/contract/execution/" +:+ id) with ("/contract/" +:+ ("execution/" +:+ id)).
  unfold Query. rewrite (trim_prefix_app "/contract/"). route. unfold query_record. by rewrite Hn.
Qed.
End authority.
