(* ===== verification/WireRefine.v ===== *)
(** The transfer protocol refines a book of balances: every validated transaction
    posts a short list of entries to the book, and nothing else of the state matters
    to it. *)
From S2P Require Import Prelude Modular GoStd Json KVStore Keys TxData TxValidate WireTypes WireTx WireState WireSupply.
From S2P Require Import WireAccounts WireContracts WireCustody WireAdverse WirePersist WireApp WireFrames WireLedger WireTheorems.

(** ** The book
    What each account holds and how much of each asset has been issued. *)
Record book := mkBook { funds : gmap string Z; issued : gmap string Z }.
#[export] Instance Eta_book : Eta book := λ b, mkBook (funds b) (issued b).
Definition empty_book : book := mkBook ∅ ∅.
Inductive entry :=
  | List_asset (asset : string)
  | Open_account (key : string)
  | Issue (asset key : string) (n : Z)
  | Retire (asset key : string) (n : Z)
  | Pay (payer payee : string) (n : Z).

Definition credit (key : string) (n : Z) (b : book) : option book :=
  x ← funds b !! key; Some (b <| funds ::= <[key := int64_add x n]> |>).
Definition debit (key : string) (n : Z) (b : book) : option book :=
  x ← funds b !! key; if n <=? x then Some (b <| funds ::= <[key := int64_sub x n]> |>) else None.
Definition restate (asset : string) (op : Z → Z) (b : book) : option book :=
  t ← issued b !! asset; Some (b <| issued ::= <[asset := op t]> |>).
(** Posting an entry: nothing is spent that is not there, nothing is opened twice. *)
Definition post (e : entry) (b : book) : option book :=
  match e with
  | List_asset a => if has (issued b) a then None else Some (b <| issued ::= <[a := 0]> |>)
  | Open_account k => if has (funds b) k then None else Some (b <| funds ::= <[k := 0]> |>)
  | Issue a k n => b1 ← credit k n b; restate a (λ t, int64_add t n) b1
  | Retire a k n => b1 ← debit k n b; restate a (λ t, int64_sub t n) b1
  | Pay k1 k2 n => b1 ← debit k1 n b; credit k2 n b1
  end.
Fixpoint post_all (es : list entry) (b : book) : option book :=
  match es with [] => Some b | e :: rest => b1 ← post e b; post_all rest b1 end.
Lemma post_all_app es1 es2 b : post_all (es1 ++ es2) b = post_all es1 b ≫= post_all es2.
Proof. revert b. induction es1 as [|e es1 IH]; intros b; cbn; [done|]. destruct (post e b); cbn; [apply IH|done]. Qed.

(** ** The book of a state and the entries of a transaction *)
Definition book_of (s : State) : book :=
  mkBook (AccountRecord_Balance <$> accounts s) (SupplyRecord_TotalSupply <$> supply s).
Definition with_payload {A} `{Json A} (t : Tx) (f : A → list entry) : list entry :=
  match UnmarshalData t with Some d => f d | None => [] end.
Definition mint_entries (s : State) (d : MintData) : list entry :=
  let key := account_key (MintData_AssetID d) (MintData_AccountCommitment d) in
  (if has (accounts s) key then [] else [Open_account key]) ++ [Issue (MintData_AssetID d) key (MintData_Amount d)].
Definition burn_entry (asset commitment : string) (n : Z) : entry := Retire asset (account_key asset commitment) n.
Definition execution_entries (d : ExecuteContractData) : list entry :=
  if value_bearing d then
    [Pay (account_key (ExecuteContractData_AssetID d) (ExecuteContractData_PartyCommitment d))
         (account_key (ExecuteContractData_AssetID d) (ExecuteContractData_CounterpartyCommitment d))
         (ExecuteContractData_Amount d)]
  else [].
Definition settle_entries (s : State) (d : SettleCustodyRedemptionData) : list entry :=
  match redemptionRequests s !! SettleCustodyRedemptionData_RequestID d with
  | Some r => [burn_entry (RedemptionRequestRecord_AssetID r) (RedemptionRequestRecord_AccountCommitment r)
                 (SettleCustodyRedemptionData_BurnAmount d)]
  | None => []
  end.
Definition entries_of (s : State) (t : Tx) : list entry :=
  let ty := Tx_Type t in
  if ty =? TxTypeRegisterAsset then with_payload t (λ d, [List_asset (RegisterAssetData_AssetID d)])
  else if ty =? TxTypeMint then with_payload t (mint_entries s)
  else if ty =? TxTypeBurn then
    with_payload t (λ d, [burn_entry (BurnData_AssetID d) (BurnData_AccountCommitment d) (BurnData_Amount d)])
  else if ty =? TxTypeTransfer then
    with_payload t (λ d, [Pay (account_key (TransferData_AssetID d) (TransferData_SenderCommitment d))
      (account_key (TransferData_AssetID d) (TransferData_RecipientCommitment d)) (TransferData_Amount d)])
  else if ty =? TxTypeRegisterAccount then
    with_payload t (λ d, [Open_account (account_key sentinel (RegisterAccountData_AccountCommitment d))])
  else if ty =? TxTypeExecuteContract then with_payload t execution_entries
  else if ty =? TxTypeSettleCustodyRedemption then with_payload t (settle_entries s)
  else if ty =? TxTypeApplyCustodyDemurrage then
    with_payload t (λ d, [burn_entry (ApplyCustodyDemurrageData_AssetID d)
      (ApplyCustodyDemurrageData_AccountCommitment d) (ApplyCustodyDemurrageData_Amount d)])
  else [].

(** A handler that posts [es]. *)
Definition posts {A} (s : State) (m : M State A) (es : list entry) : Prop :=
  ∀ a s', m s = (Ok a, s') → post_all es (book_of s) = Some (book_of s').

(** ** The primitives against the book *)
Lemma book_ext s b : funds b = AccountRecord_Balance <$> accounts s → issued b = SupplyRecord_TotalSupply <$> supply s → b = book_of s.
Proof. destruct b. cbn. by intros -> ->. Qed.
Lemma fmap_alter_insert {V} (w : V → Z) (f : V → V) (m : gmap string V) k v :
  m !! k = Some v → w <$> alter f k m = <[k := w (f v)]> (w <$> m).
Proof.
  intros Hv. apply map_eq. intros i. rewrite lookup_fmap, lookup_alter, lookup_insert, lookup_fmap.
  case_decide; [subst; by rewrite Hv|done].
Qed.
Lemma update_account_ok key f s s' u :
  update_account key f s = (Ok u, s') → is_Some (accounts s !! key) ∧ s' = s <| accounts ::= alter f key |>.
Proof. rewrite update_account_run. destruct (has _ _) eqn:E; [|done]. intros [= _ <-]. maps. done. Qed.
Lemma change_supply_ok id f s s' u :
  change_supply id f s = (Ok u, s') → ∃ r g, supply s !! id = Some r ∧ s' = s <| supply ::= alter f id |> <| assets ::= g |>.
Proof.
  unfold change_supply, update_supply, update_asset. mrun. destruct (supply s !! id) as [r|]; [|done].
  mrun. fields. destruct (alter f id (supply s) !! id); mrun; [|done]. fields.
  destruct (assets s !! id); [|done]. mrun. intros [= _ <-]. eauto.
Qed.
Lemma move_balance_value op now h a : AccountRecord_Balance (move_balance op now h a) = op (AccountRecord_Balance a).
Proof. by destruct now. Qed.

(** Changing one balance, and one total, as the book sees it. *)
Lemma book_moved s key op now h a :
  accounts s !! key = Some a →
  book_of (s <| accounts ::= alter (move_balance op now h) key |>) =
    (book_of s) <| funds ::= <[key := op (AccountRecord_Balance a)]> |>.
Proof.
  intros Ha. unfold book_of. fields. cbn. rewrite (fmap_alter_insert _ _ _ _ a) by done. by rewrite move_balance_value.
Qed.
Lemma debit_book s key n now h a :
  accounts s !! key = Some a → n ≤ AccountRecord_Balance a →
  debit key n (book_of s) = Some (book_of (s <| accounts ::= alter (move_balance (λ b, int64_sub b n) now h) key |>)).
Proof.
  intros Ha Hn. rewrite (book_moved _ _ _ _ _ a) by done. unfold debit. cbn. rewrite lookup_fmap, Ha. cbn.
  by rewrite (proj2 (Z.leb_le _ _) Hn).
Qed.
Lemma credit_book s key n now h a :
  accounts s !! key = Some a →
  credit key n (book_of s) = Some (book_of (s <| accounts ::= alter (move_balance (λ b, int64_add b n) now h) key |>)).
Proof.
  intros Ha. rewrite (book_moved _ _ _ _ _ a) by done. unfold credit. cbn. by rewrite lookup_fmap, Ha.
Qed.
Lemma restate_book s asset f g op r :
  supply s !! asset = Some r → SupplyRecord_TotalSupply (f r) = op (SupplyRecord_TotalSupply r) →
  restate asset op (book_of s) = Some (book_of (s <| supply ::= alter f asset |> <| assets ::= g |>)).
Proof.
  intros Hr Hf. unfold restate. cbn. rewrite lookup_fmap, Hr. cbn. unfold book_of. fields. f_equal.
  cbn. unfold field_set. cbn. rewrite (fmap_alter_insert _ _ _ _ r) by done. by rewrite Hf.
Qed.
(** The totals after a mint and a burn. *)
Lemma add_minted_exact n now r :
  SupplyRecord_TotalSupply r = int64_sub (SupplyRecord_TotalMinted r) (SupplyRecord_TotalBurned r) →
  SupplyRecord_TotalSupply (add_minted n now r) = int64_add (SupplyRecord_TotalSupply r) n.
Proof.
  intros H. apply eq64_exact; [apply wrap64_ok..|]. rewrite add_minted_total by done. by rewrite int64_add_eq64.
Qed.
Lemma add_burned_exact n now r :
  SupplyRecord_TotalSupply r = int64_sub (SupplyRecord_TotalMinted r) (SupplyRecord_TotalBurned r) →
  SupplyRecord_TotalSupply (add_burned n now r) = int64_sub (SupplyRecord_TotalSupply r) n.
Proof.
  intros H. apply eq64_exact; [apply wrap64_ok..|]. rewrite add_burned_total by done. by rewrite int64_sub_eq64.
Qed.
Lemma book_same s s' : accounts s' = accounts s → supply s' = supply s → book_of s' = book_of s.
Proof. unfold book_of. by intros -> ->. Qed.
Lemma supply_total s asset r : inv s → supply s !! asset = Some r →
  SupplyRecord_TotalSupply r = int64_sub (SupplyRecord_TotalMinted r) (SupplyRecord_TotalBurned r).
Proof. intros [_ [H1 _] _ _ _] Hr. exact (H1 _ _ Hr). Qed.

(** Reads what the primitives did off a successful run [H] of a handler. *)
Ltac ledger_run H :=
  minv1 H; subst;
  repeat match goal with
  | H1 : set_dirty _ = (Ok _, _) |- _ => unfold set_dirty in H1; apply modify_ok in H1; subst
  | H1 : update_account _ _ _ = (Ok _, _) |- _ => apply update_account_ok in H1 as [? ->]
  | H1 : change_supply _ _ _ = (Ok _, _) |- _ =>
      let r := fresh "sup" in let g := fresh "totals" in let E := fresh "Hsup" in
      apply change_supply_ok in H1 as (r & g & E & ->)
  end; simplify_eq.

(** Enters a run [H] of a handler whose payload decodes as [Ed] says. *)
Ltac enter Ed H := rewrite bind_run, or_fail_run, Ed in H; cbn beta iota in H.

(** An entry against the writes that carry it out; [s] is the state before them. *)
Lemma retire_book s asset c n now h a r g :
  inv s → accounts s !! account_key asset c = Some a → n ≤ AccountRecord_Balance a → supply s !! asset = Some r →
  post (burn_entry asset c n) (book_of s) = Some (book_of
    (s <| accounts ::= alter (move_balance (λ b, int64_sub b n) (Some now) h) (account_key asset c) |>
       <| supply ::= alter (add_burned n now) asset |> <| assets ::= g |>)).
Proof.
  intros Hi Ha Hn Hr. cbn. rewrite (debit_book _ _ _ (Some now) h a) by done. cbn.
  apply (restate_book _ _ (add_burned n now) g _ r); [done|]. by eapply add_burned_exact, (supply_total s).
Qed.
Lemma issue_book s asset key n now h a r g :
  inv s → accounts s !! key = Some a → supply s !! asset = Some r →
  post (Issue asset key n) (book_of s) = Some (book_of
    (s <| accounts ::= alter (move_balance (λ b, int64_add b n) (Some now) h) key |>
       <| supply ::= alter (add_minted n now) asset |> <| assets ::= g |>)).
Proof.
  intros Hi Ha Hr. cbn. rewrite (credit_book _ _ _ (Some now) h a) by done. cbn.
  apply (restate_book _ _ (add_minted n now) g (λ t, int64_add t n) r); [done|].
  by eapply add_minted_exact, (supply_total s).
Qed.
Lemma pay_book s k1 k2 n now h a :
  accounts s !! k1 = Some a → n ≤ AccountRecord_Balance a → is_Some (accounts s !! k2) →
  post (Pay k1 k2 n) (book_of s) = Some (book_of
    (s <| accounts ::= alter (move_balance (λ b, int64_sub b n) now h) k1 |>
       <| accounts ::= alter (move_balance (λ b, int64_add b n) now h) k2 |>)).
Proof.
  intros Ha Hn Hr. cbn. rewrite (debit_book _ _ _ now h a) by done. cbn.
  set (s1 := s <| accounts ::= _ |>). assert (is_Some (accounts s1 !! k2)) as [b Hb].
  { unfold s1. fields. by rewrite lookup_alter_is_Some. }
  by apply (credit_book s1 _ _ now h b).
Qed.
Lemma open_book s key a :
  accounts s !! key = None → AccountRecord_Balance a = 0 →
  post (Open_account key) (book_of s) = Some (book_of (s <| accounts ::= <[key := a]> |>)).
Proof.
  intros Hn Ha. cbn. rewrite (proj2 (has_false _ _)) by (by rewrite lookup_fmap, Hn).
  unfold book_of. fields. f_equal. unfold field_set. cbn. by rewrite fmap_insert, Ha.
Qed.

(** ** The handlers against the book *)
Section handlers.
Context `{C : Crypto} `{W : Wallet}.

Lemma executeBurn_posts now t s d :
  inv s → validateBurn t s = (Ok tt, s) → UnmarshalData t = Some d →
  posts s (executeBurn now t) [burn_entry (BurnData_AssetID d) (BurnData_AccountCommitment d) (BurnData_Amount d)].
Proof.
  intros Hi Hv Ed ev s' Hrun. destruct (validateBurn_ok _ _ _ Hv) as (d' & a & Ed' & _ & Ha & Hn).
  rewrite Ed in Ed'. injection Ed' as <-. unfold executeBurn in Hrun. enter Ed Hrun. ledger_run Hrun. cbn [post_all].
  rewrite (retire_book s _ _ _ now (height s) a sup totals) by done. done.
Qed.
Lemma executeTransfer_posts now t s d :
  validateTransfer t s = (Ok tt, s) → UnmarshalData t = Some d →
  posts s (executeTransfer now t) [Pay (account_key (TransferData_AssetID d) (TransferData_SenderCommitment d))
      (account_key (TransferData_AssetID d) (TransferData_RecipientCommitment d)) (TransferData_Amount d)].
Proof.
  intros Hv Ed ev s' Hrun. destruct (validateTransfer_ok _ _ _ Hv) as (d' & a & r & Ed' & _ & _ & Ha & Hr & _ & _ & Hn & _).
  rewrite Ed in Ed'. injection Ed' as <-. unfold executeTransfer, record_lists in Hrun. enter Ed Hrun.
  ledger_run Hrun. cbn [post_all].
  rewrite (pay_book s _ _ _ None (height s) a) by done. done.
Qed.
Lemma executeMint_posts now t s d :
  inv s → validateMint t s = (Ok tt, s) → UnmarshalData t = Some d → posts s (executeMint now t) (mint_entries s d).
Proof.
  intros Hi Hv Ed ev s' Hrun. destruct (validateMint_ok _ _ _ Hv) as (d' & Ed' & Has).
  destruct (registered _ _ Hi Has) as (Hn & _). rewrite Ed in Ed'. injection Ed' as <-.
  unfold executeMint in Hrun. enter Ed Hrun. minv1 Hrun. subst. unfold mint_entries. rewrite post_all_app.
  set (key := account_key _ _) in *. destruct (has (accounts s) key) eqn:E; maps; minv1 H2; subst; ledger_run H4.
  - destruct E as [b Hb]. cbn [post_all mbind option_bind].
    rewrite (issue_book s _ _ _ now (height s) b sup totals) by done. done.
  - cbn [post_all].
    rewrite (open_book s _ (mkAccountRecord (MintData_AccountCommitment d) (MintData_AssetID d) 0 false false 0 (height s))) by done.
    cbn [mbind option_bind]. set (s1 := s <| accounts ::= _ |>).
    erewrite (issue_book s1 _ key _ now (height s) _ sup totals); [done|by apply inv_new_account|apply lookup_insert_eq|done].
Qed.
Lemma executeRegisterAsset_posts now t s d :
  inv s → validateRegisterAsset t s = (Ok tt, s) → UnmarshalData t = Some d →
  posts s (executeRegisterAsset now t) [List_asset (RegisterAssetData_AssetID d)].
Proof.
  intros [_ _ _ _ (_ & _ & Hr)] Hv Ed ev s' Hrun. unfold validateRegisterAsset in Hv. minv Hv. bools. maps.
  unfold executeRegisterAsset in Hrun. enter Ed Hrun. ledger_run Hrun. cbn. rewrite (proj2 (has_false _ _)).
  - cbn. unfold book_of. fields. unfold field_set. cbn. by rewrite fmap_insert.
  - rewrite lookup_fmap. destruct (supply s !! _) eqn:Es; [|done]. destruct (Hr _ (mk_is_Some _ _ Es)). congruence.
Qed.
Lemma executeRegisterAccount_posts t s d :
  validateRegisterAccount t s = (Ok tt, s) → UnmarshalData t = Some d →
  posts s (executeRegisterAccount t) [Open_account (account_key sentinel (RegisterAccountData_AccountCommitment d))].
Proof.
  intros Hv Ed ev s' Hrun. destruct (validateRegisterAccount_ok _ _ _ Hv) as (d' & pub & Ed' & _ & _ & _ & Hn & _).
  rewrite Ed in Ed'. injection Ed' as <-. unfold executeRegisterAccount in Hrun. enter Ed Hrun.
  minv1 Hrun. subst. cbn [post_all].
  rewrite (open_book s _ (mkAccountRecord (RegisterAccountData_AccountCommitment d) sentinel 0 false false 0 (height s))) by done.
  unfold set_dirty in H0. apply modify_ok in H0 as ->. destruct (str_empty _); minv1 H1; subst; done.
Qed.
Lemma executeExecuteContract_posts now t s d :
  validateExecuteContract t s = (Ok tt, s) → UnmarshalData t = Some d →
  (value_bearing d = true → ExecuteContractData_CounterpartyCommitment d ≠ "") →
  posts s (executeExecuteContract now t) (execution_entries d).
Proof.
  intros Hv Ed Hc ev s' Hrun. destruct (validateExecuteContract_ok _ _ _ Hv) as (d' & c & Ed' & _ & _ & _ & Hval).
  rewrite Ed in Ed'. injection Ed' as <-. unfold executeExecuteContract, record_lists, execution_value, update_contract in Hrun.
  enter Ed Hrun. unfold execution_entries. destruct (value_bearing d).
  - destruct (Hval eq_refl) as (a & Ha & Hn & Hcp). specialize (Hc eq_refl). specialize (Hcp Hc).
    assert (str_empty (ExecuteContractData_CounterpartyCommitment d) = false) as E by (by apply bool_decide_eq_false_2).
    rewrite E in Hrun. ledger_run Hrun. cbn [post_all].
    rewrite (pay_book s _ _ _ (Some now) (height s) a) by done. done.
  - ledger_run Hrun. done.
Qed.
Lemma burn_from_posts s s1 asset c n now a s' u :
  inv s → accounts s !! account_key asset c = Some a → n ≤ AccountRecord_Balance a →
  accounts s1 = accounts s → supply s1 = supply s → burn_from asset c n now s1 = (Ok u, s') →
  post_all [burn_entry asset c n] (book_of s) = Some (book_of s').
Proof.
  intros Hi Ha Hn Ea Es Hrun. unfold burn_from in Hrun. ledger_run Hrun. cbn [post_all].
  assert (supply s !! asset = Some sup) as Hs by (rewrite <- Es; exact Hsup).
  rewrite (retire_book s _ _ _ now (height s1) a sup totals) by done. cbn.
  unfold book_of. fields. unfold field_set. cbn. by rewrite Ea, Es.
Qed.
Lemma executeDemurrage_posts now t s d :
  inv s → validateApplyCustodyDemurrage t s = (Ok tt, s) → UnmarshalData t = Some d →
  posts s (executeApplyCustodyDemurrage now t) [burn_entry (ApplyCustodyDemurrageData_AssetID d)
      (ApplyCustodyDemurrageData_AccountCommitment d) (ApplyCustodyDemurrageData_Amount d)].
Proof.
  intros Hi Hv Ed ev s' Hrun. destruct (validateDemurrage_ok _ _ _ Hv) as (d' & p & a & Ed' & _ & _ & Ha & Hn).
  rewrite Ed in Ed'. injection Ed' as <-. unfold executeApplyCustodyDemurrage in Hrun. enter Ed Hrun.
  ledger_run Hrun. etrans; [by eapply (burn_from_posts s s)|done].
Qed.
Lemma executeSettle_posts now t s d :
  inv s → validateSettleCustodyRedemption t s = (Ok tt, s) → UnmarshalData t = Some d →
  posts s (executeSettleCustodyRedemption now t) (settle_entries s d).
Proof.
  intros Hi Hv Ed ev s' Hrun. destruct (validateSettle_ok _ _ _ Hv) as (d' & r & a & Ed' & Hreq & _ & _ & _ & _ & _ & _ & Ha & Hn).
  rewrite Ed in Ed'. injection Ed' as <-. unfold executeSettleCustodyRedemption in Hrun. enter Ed Hrun.
  rewrite bind_run, gets_run in Hrun. cbn beta iota in Hrun. rewrite Hreq in Hrun.
  destruct (allocate_run s (RedemptionRequestRecord_AssetID r) (SettleCustodyRedemptionData_WarehouseID d)
    (RedemptionRequestRecord_SkuClassID r) (SettleCustodyRedemptionData_SettledQuantity d) now) as (al & lots & Hal).
  rewrite bind_run, or_panic_run in Hrun. cbn beta iota in Hrun. rewrite bind_run, Hal in Hrun. ledger_run Hrun.
  unfold settle_entries. rewrite Hreq. etrans; [by eapply (burn_from_posts s (s <| intakeLots := lots |>))|done].
Qed.
Lemma executeAdverseAction_posts now t s d :
  UnmarshalData t = Some d → AdverseActionData_ActionType d ≠ "redeem_forced" → posts s (executeAdverseAction now t) [].
Proof.
  intros Ed Hty ev s' Hrun. unfold executeAdverseAction in Hrun. enter Ed Hrun. ledger_run Hrun. cbn [post_all].
  unfold book_of. fields. do 2 f_equal. unfold field_set. cbn. rewrite <- map_fmap_compose.
  apply map_fmap_ext. intros k r _. cbn. unfold apply_action. destruct (action_matches d r); [|done].
  cbn. symmetry. by apply act_on_balance.
Qed.
(** The handlers that leave accounts and supply alone. *)
Ltac quiet d := intros ? ? Hrun; unfold d, update_contract, set_dirty in Hrun; ledger_run Hrun; done.
Lemma quiet_handlers now t s :
  posts s (executeRegisterContract now t) [] ∧ posts s (executeActivateContract now t) [] ∧
  posts s (executeRegisterConsortiumPolicy now t) [] ∧ posts s (executeRegisterWarehouseOperator now t) [] ∧
  posts s (executeRegisterAcceptedSkuClass now t) [] ∧ posts s (executeRecordCustodyIntakeLot now t) [] ∧
  posts s (executeRequestCustodyRedemption now t) [] ∧ posts s (executeRegisterValidator t) [].
Proof.
  split_and!; [quiet executeRegisterContract|quiet executeActivateContract|quiet executeRegisterConsortiumPolicy|
    quiet executeRegisterWarehouseOperator|quiet executeRegisterAcceptedSkuClass|quiet executeRecordCustodyIntakeLot|
    quiet executeRequestCustodyRedemption|quiet executeRegisterValidator].
Qed.

(** ** Every validated transaction *)
Lemma with_payload_posts {A B} `{Json A} t s e (k : A → M State B) (f : A → list entry) :
  (∀ d, UnmarshalData t = Some d → posts s (d ← or_fail (UnmarshalData t) e; k d) (f d)) →
  posts s (d ← or_fail (UnmarshalData t) e; k d) (with_payload t f).
Proof. intros Hp. unfold with_payload. destruct (UnmarshalData t) as [d|] eqn:E; [by apply Hp|by intros ? ? ?]. Qed.
Lemma ExecuteTx_posts now t s :
  inv s → ValidateTx t s = (Ok tt, s) → admissible t = true → posts s (ExecuteTx now t) (entries_of s t).
Proof.
  intros Hi Hv Ha. destruct (quiet_handlers now t s) as (Q1 & Q2 & Q3 & Q4 & Q5 & Q6 & Q7 & Q8).
  revert Hv. unfold ValidateTx, ExecuteTx, entries_of.
  repeat lazymatch goal with
  | |- context [if Tx_Type t =? ?k then _ else _] =>
      destruct (Tx_Type t =? k) eqn:?; [intros Hv; bools|]
  end.
  all: try match goal with E : Tx_Type ?t = _ |- context [Tx_Type ?t =? _] => rewrite E; cbn end; try done.
  all: try (apply with_payload_posts; intros d Ed).
  - by apply executeRegisterAsset_posts.
  - by apply executeMint_posts.
  - by apply executeBurn_posts.
  - by apply executeTransfer_posts.
  - by apply executeRegisterAccount_posts.
  - apply executeExecuteContract_posts; [done..|]. by eapply admissible_execution.
  - by apply executeSettle_posts.
  - by apply executeDemurrage_posts.
  - intros a s' Hrun. unfold validateAdverseAction in Hv. minv Hv.
    lazymatch goal with E : UnmarshalData t = Some _ |- _ => rename E into Ed end.
    eapply (executeAdverseAction_posts now t s); [done|by eapply admissible_action|done].
Qed.
End handlers.

Section refinement.
Context `{C : Crypto} `{W : Wallet}.

Lemma executeRegisterValidator_book t s : book_of (executeRegisterValidator t s).2 = book_of s.
Proof.
  unfold executeRegisterValidator. mrun. destruct (UnmarshalData t); [|done]. mrun. by destruct (base64_DecodeString _).
Qed.
Lemma reach_journal {DB} `{KVStore DB} opts s :
  wire_reach opts s → ∃ journal, post_all journal empty_book = Some (book_of s).
Proof.
  induction 1 as [|s now t r s' Hr [es IH] Hv Ha He|s Hr [es IH]|s db Hr [es IH]].
  - exists []. done.
  - pose proof (wire_reach_inv _ _ Hr) as Hi. destruct r as [ev|e|].
    { exists (es ++ entries_of s t). rewrite post_all_app, IH. cbn. by apply (ExecuteTx_posts now t s Hi Hv Ha ev). }
    all: exists es; rewrite IH; f_equal; symmetry.
    all: destruct (decide (Tx_Type t = TxTypeRegisterValidator)) as [E|E];
      [|by destruct (ExecuteTx_validated now t s Hi Hv Ha E) as (ev & s2 & He2 & _); congruence].
    all: unfold ExecuteTx in He; rewrite E in He; cbn in He.
    all: pose proof (executeRegisterValidator_book t s) as Hb; rewrite He in Hb; done.
  - exists es. by rewrite IH.
  - exists es. rewrite IH. f_equal. symmetry. unfold Commit. destruct (dirty s); [|done]. cbv zeta.
    destruct (db_write db _); by apply book_same.
Qed.

(** C4. The transfer protocol refines the book. In every state reached by validated,
    admissible transactions the balances and totals are what posting some journal of
    entries to the empty book gives, and a validated, admissible transaction, other than
    one that registers a validator, executes and posts exactly its own entries, each
    of which the book accepts: nothing is overspent, nothing opened twice. *)
Theorem wire_refines_book {DB} `{KVStore DB} opts (s : State) :
  wire_reach opts s →
  (∃ journal, post_all journal empty_book = Some (book_of s)) ∧
  (∀ t now, ValidateTx t s = (Ok tt, s) → admissible t = true → Tx_Type t ≠ TxTypeRegisterValidator →
     ∃ events s', ExecuteTx now t s = (Ok events, s') ∧ post_all (entries_of s t) (book_of s) = Some (book_of s')).
Proof.
  intros Hr. split; [by eapply reach_journal|]. pose proof (wire_reach_inv _ _ Hr) as Hi. intros t now Hv Ha Hty.
  destruct (ExecuteTx_validated now t s Hi Hv Ha Hty) as (ev & s' & He & _). exists ev, s'. split; [done|].
  by apply (ExecuteTx_posts now t s Hi Hv Ha ev).
Qed.
End refinement.
