(* ===== verification/WireDemo.v ===== *)
(** A concrete transfer deployment: two enrolled accounts, one asset, a transfer, two
    custody lots, a redemption and its settlement, and an adverse action; with
    [demo_crypto], a stand-in wallet scheme and an in-memory database; and on it the
    instances of the transfer protocol's theorems. *)
From S2P Require Import Prelude Modular GoStd Json Sha256 KVStore Tables TxData TxValidate Keys WireTypes WireTx.
From S2P Require Import WireState WireSupply WireAccounts WireContracts WireCustody WireAdverse WirePersist.
From S2P Require Import WireApp WireFrames WireLedger WireInventory WireTheorems WireRefine.

#[export] Existing Instance demo_crypto.
(** The signature is the public key itself. *)
#[export] Instance demo_wallet : Wallet := {
  RecoverCompact sig _ := if str_empty sig then None else Some sig;
  keccak256 := demo_digest;
}.
Fixpoint bytes_32 (n : nat) (c : ascii) : string :=
  match n with O => "" | S k => String c (bytes_32 k c) end.
Definition enroll_raw : string := bytes_32 32 "N".
Definition elig_raw : string := bytes_32 32 "E".
Definition recon_raw : string := bytes_32 32 "R".
Definition demo_opts : Options := mkOptions (Some enroll_raw) (Some elig_raw) (Some recon_raw).

Definition wtx {A} `{Json A} (ty : Z) (data : A) : Tx := mkTx ty (Some "sig") (Some (to_json data)).
(** Accounts. *)
Definition commitment_of (key : string) : string := hashAccountCommitment (evmAddressFromPubKey key).
Definition ann_key : string := "4ann".
Definition ben_key : string := "4ben".
Definition ann : string := commitment_of ann_key.
Definition ben : string := commitment_of ben_key.
Definition account_data (key token : string) : RegisterAccountData :=
  mkRegisterAccountData (commitment_of key) (Some key) token
    (Some (demo_sign enroll_raw (registerAccountEnrollmentMessage (commitment_of key) token))).
Definition account_tx (key token : string) : Tx := wtx TxTypeRegisterAccount (account_data key token).

Definition asset_tx : Tx := wtx TxTypeRegisterAsset (mkRegisterAssetData "silo" "Silo" 2).
Definition mint_tx : Tx := wtx TxTypeMint (mkMintData "silo" ann 100 1).
Definition mint_ben_tx : Tx := wtx TxTypeMint (mkMintData "silo" ben 5 1).
Definition transfer_data (nullifier nonce : string) : TransferData :=
  mkTransferData "silo" ann ben 30 nullifier nonce (Some "p") 2.
Definition transfer_tx : Tx := wtx TxTypeTransfer (transfer_data "nul1" "non1").

(** Custody. *)
Definition operator_tx : Tx :=
  wtx TxTypeRegisterWarehouseOperator (mkRegisterWarehouseOperatorData "op1" "Op" "wh1" "eu" "v" "active" 3).
Definition sku_tx : Tx :=
  wtx TxTypeRegisterAcceptedSkuClass (mkRegisterAcceptedSkuClassData "sku1" "Grain" "A" "kg" 10000 "dry" "active" 3).
Definition policy_tx : Tx :=
  wtx TxTypeRegisterConsortiumPolicy
    (mkRegisterConsortiumPolicyData "pol1" "silo" "Pool" (Some ["op1"]) (Some ["sku1"]) "kg" "q" "s" 5 5 "pool" "near" (Some ["video"]) 3).
Definition lot_tx (id : string) (q : Z) : Tx :=
  wtx TxTypeRecordCustodyIntakeLot
    (mkRecordCustodyIntakeLotData id "pol1" "silo" "op1" "wh1" ann "sku1" q q 0 0 0 "vid" (Some ["ev"]) 4).
Definition request_tx : Tx :=
  wtx TxTypeRequestCustodyRedemption (mkRequestCustodyRedemptionData "req1" "silo" ann "wh1" "sku1" 20 12 "dock" 5).
Definition settle_data : SettleCustodyRedemptionData := mkSettleCustodyRedemptionData "set1" "req1" "op1" "wh1" "ful" 20 12 6.
Definition settle_tx : Tx := wtx TxTypeSettleCustodyRedemption settle_data.

(** An adverse action signed by both authorities. *)
Definition action_data (ty nonce : string) : AdverseActionData :=
  let sign raw := Some (demo_sign raw (adverseActionCanonicalMessage
    (mkAdverseActionData (hashNonce nonce) nonce ann "" ty "" None None "order" 7))) in
  mkAdverseActionData (hashNonce nonce) nonce ann "" ty "" (sign elig_raw) (sign recon_raw) "order" 7.
Definition action_tx (ty nonce : string) : Tx := wtx TxTypeAdverseAction (action_data ty nonce).

(** The states along the way. *)
Definition run_tx (s : State) (step : Z * Tx) : State := (ExecuteTx step.1 step.2 s).2.
Definition accounts_steps : list (Z * Tx) :=
  [(10, asset_tx); (11, account_tx ann_key "tok1"); (12, account_tx ben_key "tok2"); (13, mint_tx); (13, mint_ben_tx)].
Definition custody_steps : list (Z * Tx) :=
  [(15, operator_tx); (15, sku_tx); (15, policy_tx); (16, lot_tx "lotB" 10); (16, lot_tx "lotA" 9); (17, request_tx)].
Definition w_enrolled : State := foldl run_tx (initialState demo_opts) (take 2 accounts_steps).
Definition w_funded : State := foldl run_tx (initialState demo_opts) accounts_steps.
Definition w_custody : State := foldl run_tx w_funded custody_steps.

(** A sequence of steps each of which passes validation and is admissible. *)
Fixpoint steps_ok (s : State) (steps : list (Z * Tx)) : bool :=
  match steps with
  | [] => true
  | st :: rest => res_ok (ValidateTx st.2 s).1 && admissible st.2 && steps_ok (run_tx s st) rest
  end.
Lemma validate_eq t s : res_ok (ValidateTx t s).1 = true → ValidateTx t s = (Ok tt, s).
Proof.
  intros H. pose proof (ValidateTx_same t s) as Hs. destruct (ValidateTx t s) as [[[]| |] s']; cbn in *; [by subst|done..].
Qed.
Ltac dispatched := let Ht := fresh in let Hv := fresh in
  intros Ht Hv%validate_eq; unfold ValidateTx in Hv; by rewrite Ht in Hv.
Lemma validated_transfer t s :
  Tx_Type t = TxTypeTransfer → res_ok (ValidateTx t s).1 = true → validateTransfer t s = (Ok tt, s).
Proof. dispatched. Qed.
Lemma validated_settlement t s :
  Tx_Type t = TxTypeSettleCustodyRedemption → res_ok (ValidateTx t s).1 = true →
  validateSettleCustodyRedemption t s = (Ok tt, s).
Proof. dispatched. Qed.
Lemma validated_action t s :
  Tx_Type t = TxTypeAdverseAction → res_ok (ValidateTx t s).1 = true → validateAdverseAction t s = (Ok tt, s).
Proof. dispatched. Qed.
Lemma validated_account t s :
  Tx_Type t = TxTypeRegisterAccount → res_ok (ValidateTx t s).1 = true → validateRegisterAccount t s = (Ok tt, s).
Proof. dispatched. Qed.
Lemma steps_reach {DB} `{KVStore DB} opts steps : ∀ s,
  steps_ok s steps = true → wire_reach opts s → wire_reach opts (foldl run_tx s steps).
Proof.
  induction steps as [|[now t] rest IH]; intros s; cbn; [done|].
  intros [[Hv Ha]%andb_true_iff Hr]%andb_true_iff Hs. apply IH; [done|].
  eapply reach_tx; [exact Hs|by apply validate_eq|done|]. unfold run_tx. cbn. apply surjective_pairing.
Qed.
Lemma w_funded_reach : wire_reach (DB := memdb) demo_opts w_funded.
Proof. apply steps_reach; [vm_compute; reflexivity|constructor]. Qed.
Lemma w_custody_reach : wire_reach (DB := memdb) demo_opts w_custody.
Proof. apply steps_reach; [vm_compute; reflexivity|apply w_funded_reach]. Qed.

Example demo_balances :
  (ledger w_funded "silo", balance_at (run_tx w_funded (14, transfer_tx)) "silo" ann,
   balance_at (run_tx w_funded (14, transfer_tx)) "silo" ben) = (105, Some 70, Some 35).
Proof. vm_compute. reflexivity. Qed.
(** The older lot of the same second is the one with the smaller identifier. *)
Example demo_allocation :
  (λ st, RedemptionSettlementRecord_AllocatedLots st) <$>
    redemptionSettlements (run_tx w_custody (18, settle_tx)) !! "set1" =
  Some (Some [mkLotAllocation "lotA" 9; mkLotAllocation "lotB" 3]).
Proof. vm_compute. reflexivity. Qed.

(** A computed fact. *)
Ltac weval := vm_compute; first [reflexivity | discriminate | solve [eauto]].

Lemma wire_ledger_conserved_witness :
  ∃ r, supply w_custody !! "silo" = Some r ∧ eq64 (ledger w_custody "silo") (SupplyRecord_TotalSupply r).
Proof.
  assert (is_Some (assets w_custody !! "silo")) as [a Ha] by weval.
  destruct (wire_ledger_conserved (DB := memdb) demo_opts w_custody "silo" a w_custody_reach Ha) as (r & Hr & _ & _ & He).
  exists r. split; [exact Hr|exact He].
Defined.

Lemma wire_validated_executes_witness : ∃ events s', ExecuteTx 18 settle_tx w_custody = (Ok events, s').
Proof.
  assert (res_ok (ValidateTx settle_tx w_custody).1 = true) as Hv by weval.
  assert (admissible settle_tx = true) as Ha by weval.
  apply (wire_validated_executes (DB := memdb) demo_opts w_custody settle_tx 18 w_custody_reach (validate_eq _ _ Hv) Ha).
  discriminate.
Defined.

Lemma post_one e b b' : post_all [e] b = Some b' → post e b = Some b'.
Proof. cbn. by destruct (post e b). Qed.
(** Settling burns twenty units of the first participant's balance in the book too. *)
Lemma wire_refines_book_witness :
  ∃ events s', ExecuteTx 18 settle_tx w_custody = (Ok events, s') ∧
    post (Retire "silo" (account_key "silo" ann) 20) (book_of w_custody) = Some (book_of s').
Proof.
  assert (res_ok (ValidateTx settle_tx w_custody).1 = true) as Hv by weval.
  assert (admissible settle_tx = true) as Ha by weval.
  assert (entries_of w_custody settle_tx = [Retire "silo" (account_key "silo" ann) 20]) as Ee by weval.
  destruct (wire_refines_book (DB := memdb) demo_opts w_custody w_custody_reach) as [_ H].
  destruct (H settle_tx 18 (validate_eq _ _ Hv) Ha ltac:(discriminate)) as (ev & s' & He & Hp).
  exists ev, s'. split; [exact He|]. rewrite Ee in Hp. exact (post_one _ _ _ Hp).
Defined.

Lemma executeTransfer_spec_witness :
  ∃ events s', executeTransfer 14 transfer_tx w_funded = (Ok events, s') ∧ supply s' = supply w_funded.
Proof.
  assert (res_ok (ValidateTx transfer_tx w_funded).1 = true) as Hv by weval.
  assert (UnmarshalData transfer_tx = Some (transfer_data "nul1" "non1")) as Ed by weval.
  destruct (executeTransfer_spec 14 transfer_tx w_funded _ (validated_transfer transfer_tx _ eq_refl Hv) Ed)
    as (ev & s' & b1 & b2 & He & _ & _ & _ & _ & _ & _ & Hs & _).
  exists ev, s'. split; [exact He|exact Hs].
Defined.

Definition rogue_data : MintData := mkMintData "ghost" ann 1 1.
Definition rogue_doc : json := to_json (wtx TxTypeMint rogue_data).
Lemma unvalidated_mint_panics_witness :
  (FinalizeBlock (λ _, 14) (∅ : memdb) [Some rogue_doc] w_funded).1 = Panic.
Proof.
  assert (DecodeTx (Some rogue_doc) = Some (wtx TxTypeMint rogue_data)) as Hd by weval.
  assert (UnmarshalData (wtx TxTypeMint rogue_data) = Some rogue_data) as Ed by weval.
  assert (assets w_funded !! MintData_AssetID rogue_data = None) as Ha by weval.
  assert (supply w_funded !! MintData_AssetID rogue_data = None) as Hs by weval.
  exact (proj2 (unvalidated_mint_panics (λ _, 14) (∅ : memdb) w_funded rogue_doc _ _ Hd eq_refl Ed Ha Hs)).
Defined.

(** ** Custody *)
Lemma w_custody_keyed : keyed w_custody.
Proof. exact (inv_keyed _ (wire_reach_inv (DB := memdb) _ _ w_custody_reach)). Qed.
Lemma w_custody_in_range : lots_in_range w_custody.
Proof. apply (bool_decide_unpack _). vm_compute. exact I. Qed.

Lemma allocateCustodyInventory_fifo_witness :
  ∃ al s', allocateCustodyInventory "silo" "wh1" "sku1" 12 18 w_custody = (Ok (Some al), s') ∧
    Zsum (LotAllocation_Quantity <$> al) = 12.
Proof.
  assert (pool w_custody "silo" "wh1" "sku1" = 19) as Hp by weval.
  assert (int64_ok 12) as Hok by (apply (bool_decide_unpack _); vm_compute; exact I).
  destruct (allocateCustodyInventory_fifo w_custody "silo" "wh1" "sku1" 12 18 w_custody_keyed w_custody_in_range eq_refl Hok)
    as (al & s' & Hrun & _ & _ & _ & Hs & _).
  exists al, s'. split; [exact Hrun|]. rewrite Hp in Hs. exact Hs.
Defined.

Lemma settle_custody_spec_witness :
  ∃ events s' b, executeSettleCustodyRedemption 18 settle_tx w_custody = (Ok events, s') ∧
    balance_at w_custody "silo" ann = Some b ∧ balance_at s' "silo" ann = Some (int64_sub b 20).
Proof.
  assert (res_ok (ValidateTx settle_tx w_custody).1 = true) as Hv by weval.
  assert (UnmarshalData settle_tx = Some settle_data) as Ed by weval.
  destruct (redemptionRequests w_custody !! "req1") as [req|] eqn:Er; [|exfalso; revert Er; weval].
  assert (Some (RedemptionRequestRecord_AssetID req, RedemptionRequestRecord_AccountCommitment req,
                RedemptionRequestRecord_SkuClassID req) = Some ("silo", ann, "sku1")) as E.
  { transitivity ((λ r, (RedemptionRequestRecord_AssetID r, RedemptionRequestRecord_AccountCommitment r,
      RedemptionRequestRecord_SkuClassID r)) <$> redemptionRequests w_custody !! "req1").
    - rewrite Er. reflexivity.
    - clear. weval. }
  assert (pool w_custody "silo" "wh1" "sku1" < 2 ^ 63) as Hp.
  { assert (pool w_custody "silo" "wh1" "sku1" = 19) as -> by weval. reflexivity. }
  injection E as Ea Ec Ek. rewrite <- Ea, <- Ek in Hp.
  destruct (settle_custody_spec (DB := memdb) demo_opts w_custody settle_tx 18 settle_data req w_custody_reach
    w_custody_in_range (validated_settlement settle_tx _ eq_refl Hv) Ed Er eq_refl Hp)
    as (ev & s' & al & st & b & sup & He & _ & _ & _ & _ & Hb & _ & Hb' & _).
  rewrite Ea, Ec in Hb, Hb'. exists ev, s', b. split; [exact He|split; [exact Hb|exact Hb']].
Defined.

(** ** Authority and enrollment *)
Lemma adverse_action_two_party_witness :
  ∃ events s', executeAdverseAction 19 (action_tx "freeze" "an1") w_funded = (Ok events, s') ∧
    authorityActions w_funded ⊆ authorityActions s'.
Proof.
  assert (res_ok (ValidateTx (action_tx "freeze" "an1") w_funded).1 = true) as Hv by weval.
  assert (UnmarshalData (action_tx "freeze" "an1") = Some (action_data "freeze" "an1")) as Ed by weval.
  destruct (adverse_action_two_party (action_tx "freeze" "an1") w_funded _ 19 (validated_action (action_tx "freeze" "an1") _ eq_refl Hv) Ed)
    as (_ & ev & s' & He & Hsub & _).
  exists ev, s'. split; [exact He|exact Hsub].
Defined.

Lemma redeem_forced_strands_supply_witness :
  ∃ events s', executeAdverseAction 19 (action_tx "redeem_forced" "an2") w_funded = (Ok events, s') ∧
    supply s' = supply w_funded ∧ AccountRecord_Balance <$> accounts s' !! account_key "silo" ann = Some 0.
Proof.
  assert (res_ok (ValidateTx (action_tx "redeem_forced" "an2") w_funded).1 = true) as Hv by weval.
  assert (UnmarshalData (action_tx "redeem_forced" "an2") = Some (action_data "redeem_forced" "an2")) as Ed by weval.
  destruct (accounts w_funded !! account_key "silo" ann) as [a|] eqn:Ha; [|exfalso; revert Ha; weval].
  assert (Some (action_matches (action_data "redeem_forced" "an2") a) = Some true) as Hm.
  { transitivity (action_matches (action_data "redeem_forced" "an2") <$> accounts w_funded !! account_key "silo" ann).
    - rewrite Ha. reflexivity.
    - clear. weval. }
  injection Hm as Hm.
  destruct (redeem_forced_strands_supply (action_tx "redeem_forced" "an2") w_funded _ 19 _ a
    (validated_action (action_tx "redeem_forced" "an2") _ eq_refl Hv) Ed eq_refl Ha Hm) as (ev & s' & He & Hs & Hb & _).
  exists ev, s'. split; [exact He|split; [exact Hs|exact Hb]].
Defined.

Lemma enrollment_token_once_witness :
  ∃ events s', executeRegisterAccount (account_tx ben_key "tok2") w_enrolled = (Ok events, s') ∧
    enrollmentRecords s' !! "tok2" = Some (mkEnrollmentRecord "tok2" ben 0).
Proof.
  assert (0 < blen (enrollmentAuthorityPubKey w_enrolled)) as Hk by weval.
  assert (res_ok (ValidateTx (account_tx ben_key "tok2") w_enrolled).1 = true) as Hv by weval.
  assert (UnmarshalData (account_tx ben_key "tok2") = Some (account_data ben_key "tok2")) as Ed by weval.
  destruct (enrollment_token_once (account_tx ben_key "tok2") w_enrolled _ Hk (validated_account (account_tx ben_key "tok2") _ eq_refl Hv) Ed)
    as (_ & ev & s' & He & Hr & _).
  exists ev, s'. split; [exact He|]. assert (height w_enrolled = 0) as Eh by weval. rewrite Eh in Hr. exact Hr.
Defined.

(** ** Persistence and queries *)
Lemma empty_db k : db_get (∅ : memdb) k = None.
Proof. reflexivity. Qed.
Lemma wire_blocks_supply_witness : ∃ r,
  supply (run_blocks (λ _ _, 9) (∅ : memdb) (initialState demo_opts) [[Some (to_json asset_tx); Some rogue_doc]]).1 !! "silo" = Some r ∧
  SupplyRecord_TotalSupply r = int64_sub (SupplyRecord_TotalMinted r) (SupplyRecord_TotalBurned r).
Proof.
  destruct (supply (run_blocks (λ _ _, 9) (∅ : memdb) (initialState demo_opts) [[Some (to_json asset_tx); Some rogue_doc]]).1 !! "silo")
    as [r|] eqn:Er; [|exfalso; revert Er; weval].
  exists r. split; [reflexivity|].
  exact (wire_blocks_supply (λ _ _, 9) (∅ : memdb) demo_opts _ "silo" r empty_db Er).
Defined.

Definition block_1 : list (option json) :=
  [Some (to_json asset_tx); Some (to_json (account_tx ann_key "tok1")); Some (to_json mint_tx)].
Definition chain_0 : State * memdb := run_blocks (λ _ _, 9) (∅ : memdb) (initialState demo_opts) [block_1].
Definition block_2 : list (option json) := [Some (to_json (account_tx ben_key "tok2"))].
#[local] Abbreviation final_2 := (FinalizeBlock (λ _, 20) chain_0.2 block_2 chain_0.1).
Lemma chain_0_eq : run_blocks (λ _ _, 9) (∅ : memdb) (initialState demo_opts) [block_1] = (chain_0.1, chain_0.2).
Proof. unfold chain_0. generalize (run_blocks (λ _ _, 9) (∅ : memdb) (initialState demo_opts) [block_1]). by intros []. Qed.
Lemma run_some {S A} (m : M S A) (s : S) : res_ok (m s).1 = true → ∃ a, m s = (Ok a, (m s).2).
Proof. destruct (m s) as [[a| |] s']; cbn; intros; [by exists a|done..]. Qed.
Lemma res_some {A} (r : res A) : res_ok r = true → ∃ a, r = Ok a.
Proof. destruct r; cbn; intros; [by eexists|done..]. Qed.
(** Whatever the missing field is; here the contract of the execution. *)
#[export] Instance demo_field : MissingField := ContractExecutionRecord_ContractID.
Lemma wire_chain_restart_witness : restored final_2.2.2 demo_opts final_2.2.1.
Proof.
  assert (distinct_authorities demo_opts) as Ho by (left; weval).
  assert (res_ok (run_block (λ _, 20) block_2 chain_0.1).1 = true) as Hb by weval.
  assert (dirty (run_block (λ _, 20) block_2 chain_0.1).2 = true) as Hd by weval.
  assert (in_range_records (run_block (λ _, 20) block_2 chain_0.1).2) as Hr.
  { unfold in_range_records. repeat (split; [apply (bool_decide_unpack _); vm_compute; exact I|]).
    apply (bool_decide_unpack _). vm_compute. exact I. }
  assert (res_ok final_2.1 = true) as Hf by weval.
  destruct (run_some _ _ Hb) as [results Eb]. destruct (res_some _ Hf) as [resp Ef].
  exact (wire_chain_restart (λ _ _, 9) (λ _, 20) (∅ : memdb) chain_0.2 final_2.2.2 demo_opts [block_1] block_2 chain_0.1 _
    results resp empty_db Ho chain_0_eq Eb Hd Hr Ef eq_refl).
Defined.

Definition w_sent : State := run_tx w_funded (14, transfer_tx).
Definition w_sent_more : State := w_sent <| transferRecords ::= alter (λ r, r <| TransferRecord_Amount := 77 |>) (hashNonce "non1") |>.
Lemma query_hides_amounts_witness :
  Query w_sent ("/transfer/" +:+ hashNonce "non1") = Query w_sent_more ("/transfer/" +:+ hashNonce "non1").
Proof.
  assert (transferRecords w_sent !! hashNonce "non1" = Some (mkTransferRecord (hashNonce "non1") "silo" 30 14 0)) as H1 by weval.
  assert (transferRecords w_sent_more !! hashNonce "non1" = Some (mkTransferRecord (hashNonce "non1") "silo" 77 14 0)) as H2 by weval.
  exact (proj1 (query_hides_amounts w_sent w_sent_more _ _ _ H1 H2 eq_refl eq_refl eq_refl eq_refl)).
Defined.
