(* ===== verification/Shares.v ===== *)
(** embodiments/shyshares: the governance chain. Its transaction envelope (tx/tx.go) and
    its ABCI application (app/app.go), which composes the voting state machine ([App])
    and the transfer state machine ([WireApp]) on two databases.

    A document is [None] when its bytes are no JSON; a payload is the JSON value of the
    raw message, and the text that an ed25519 signature covers is taken as spelled by
    json.Marshal. *)
From S2P Require Import Prelude GoStd Json Types TxData TxValidate Identity KVStore.
From S2P Require Import VotingState VoteQuery Confirms Persist App.
From S2P Require Import WireTypes WireTx WireState WireAccounts WirePersist WireApp.

(** ** tx/tx.go *)
Definition ProtocolVoting : string := "shyvoting".
Definition ProtocolWire : string := "shywire".
Record Envelope := mkEnvelope {
  Envelope_Protocol : string;
  Envelope_Payload : option json;
}.
Definition Envelope_tags : list string := ["protocol"; "payload"].
#[export] Instance Json_Envelope : Json Envelope := {
  jzero := mkEnvelope "" None;
  to_json r := JObj (
    required "protocol" (Envelope_Protocol r) ++
    required "payload" (Envelope_Payload r) ++ []);
  of_json := of_object (λ ms,
    x0 ← jfield Envelope_tags ms "protocol";
    x1 ← jfield Envelope_tags ms "payload";
    Some (mkEnvelope x0 x1));
}.
Definition DecodeEnvelope (raw : option json) : error + Envelope :=
  match raw ≫= unmarshal with
  | None => inl (Errorf "decode envelope: %w" [FErr json_error])
  | Some e =>
      let p := Envelope_Protocol e in
      if negb (bool_decide (p = ProtocolVoting) || bool_decide (p = ProtocolWire))
      then inl (Errorf "unknown protocol %q: must be %q or %q" [FStr p; FStr ProtocolVoting; FStr ProtocolWire])
      else match Envelope_Payload e with
           | None => inl (Errorf "envelope payload is empty" [])
           | Some _ => inr e
           end
  end.
(** [WrapVoting], [WrapWire]: a payload that is no JSON does not marshal. *)
Definition wrap_payload (protocol : string) (payload : option json) : error + json :=
  match payload with
  | None => inl json_error
  | Some _ => inr (to_json (mkEnvelope protocol payload))
  end.
Definition WrapVoting (payload : option json) : error + json := wrap_payload ProtocolVoting payload.
Definition WrapWire (payload : option json) : error + json := wrap_payload ProtocolWire payload.

(** ** app/app.go *)
(** The fields of [Config] that outlive [New]; no code reads [Config_GovAssetID] and
    [Config_MinVoteBalance] afterwards. *)
Record Config := mkConfig {
  Config_AppName : string;
  Config_GovAssetID : string;
  Config_MinVoteBalance : Z;
  Config_AuthorityKeys : list string;
  Config_HouseKeys : list string;
}.
(** The two sub-states of [App]. *)
Record State := mkState {
  voting : VotingState.State;
  wire : WireState.State;
}.
#[export] Instance Eta_State : Eta State := λ r, mkState (voting r) (wire r).
(** A call of a method of one sub-state. *)
Definition in_voting {A} (m : M VotingState.State A) : M State A := λ s,
  let '(r, v) := m (voting s) in (r, s <| voting := v |>).
Definition in_wire {A} (m : M WireState.State A) : M State A := λ s,
  let '(r, w) := m (wire s) in (r, s <| wire := w |>).

Section app.
Context `{C : Crypto} `{W : Wallet}.

Definition combined_hash (vHash wHash : gobytes) : string := sha256 (bytes_of vHash +:+ bytes_of wHash).
(** [New] over the two opened databases. *)
Definition New `{F : MissingField} {DB} `{KVStore DB} (vDB wDB : DB) (sg : option Signer) (Verifier : option IdentityVerifier) : error + State :=
  match Verifier with
  | None => inl (Errorf "Config.Verifier is required for the voting sub-state machine" [])
  | Some idv =>
      match Persist.NewState vDB sg with
      | None => inl (Errorf "init voting state: %w" [FErr (Errorf "db" [])])
      | Some vs =>
          match WirePersist.NewState wDB with
          | inl e => inl (Errorf "init wire state: %w" [FErr e])
          | inr ws => inr (mkState (SetIdentityVerifier idv vs).2 ws)
          end
      end
  end.
(** [Info]: the last block height and the app hash. *)
Definition Info (s : State) : Z * string :=
  let '(vHeight, vHash) := VotingState.GetInfo (voting s) in
  let '(wHeight, wHash) := WireState.GetInfo (wire s) in
  (if vHeight <? wHeight then wHeight else vHeight, combined_hash vHash wHash).

(** [CheckTx]: the voting branch validates the transaction statelessly and against the
    state, the wire branch only against the state. *)
Definition CheckTx (now : clock) (raw : option json) : M State App.ResponseCheckTx :=
  match DecodeEnvelope raw with
  | inl e => mret (App.mkResponseCheckTx 1 (App.wrap_log "invalid envelope: %v" e))
  | inr env =>
      if bool_decide (Envelope_Protocol env = ProtocolVoting) then
        match DecodeTx (Envelope_Payload env) with
        | None => mret (App.mkResponseCheckTx 1 (App.wrap_log "invalid voting tx: %v" json_error))
        | Some t =>
            r ← try (in_voting (TxValidate.Validate t));
            match r with
            | Ok _ =>
                r ← try (in_voting (App.ValidateTx now t));
                mret (match r with
                      | Ok _ => App.mkResponseCheckTx 0 None
                      | Fail e => App.mkResponseCheckTx 3 (App.wrap_log "voting validation failed: %v" e)
                      | Panic => App.mkResponseCheckTx 3 None
                      end)
            | Fail e => mret (App.mkResponseCheckTx 2 (App.wrap_log "invalid tx: %v" e))
            | Panic => panicM
            end
        end
      else if bool_decide (Envelope_Protocol env = ProtocolWire) then
        match DecodeTx (Envelope_Payload env) with
        | None => mret (App.mkResponseCheckTx 1 (App.wrap_log "invalid wire tx: %v" json_error))
        | Some t =>
            r ← try (in_wire (WireApp.ValidateTx t));
            mret (match r with
                  | Ok _ => App.mkResponseCheckTx 0 None
                  | Fail e => App.mkResponseCheckTx 3 (App.wrap_log "wire validation failed: %v" e)
                  | Panic => App.mkResponseCheckTx 3 None
                  end)
        end
      else mret (App.mkResponseCheckTx 0 None)
  end.

(** [pollCreatorType]: the first list with a key that verifies; verifying under a key of
    another length panics. *)
Definition data_text (t : Tx) : string := match Tx_Data t with Some j => json_text j | None => "" end.
Fixpoint any_verifies (keys : list string) (t : Tx) : option bool :=
  match keys with
  | [] => Some false
  | pub :: rest =>
      b ← ed25519_try pub (data_text t) (bytes_of (Tx_Signature t));
      if b : bool then Some true else any_verifies rest t
  end.
Definition pollCreatorType (cfg : Config) (t : Tx) : option string :=
  if negb (Tx_Type t =? TxTypePollCreate) then Some ""
  else
    house ← any_verifies (Config_HouseKeys cfg) t;
    if house : bool then Some "house"
    else
      authority ← any_verifies (Config_AuthorityKeys cfg) t;
      Some (if authority : bool then "authority" else "holder").

(** One turn of the loop of [FinalizeBlock]. *)
Definition exec_voting (cfg : Config) (now : clock) (t : Tx) : M State App.ExecTxResult :=
  r ← try (in_voting (App.ExecuteTx now t));
  match r with
  | Ok events =>
      ct ← or_panic (pollCreatorType cfg t);
      mret (App.mkExecTxResult 0 None
        (if str_empty ct then events else events ++ [mkEvent "poll_create" [("creator_type", ct, false)]]))
  | Fail e => mret (App.mkExecTxResult 4 (App.wrap_log "voting execution failed: %v" e) [])
  | Panic => panicM
  end.
Definition exec_wire (now : Z) (t : Tx) : M State App.ExecTxResult :=
  r ← try (in_wire (WireApp.ExecuteTx now t));
  mret (match r with
        | Ok events => App.mkExecTxResult 0 None events
        | Fail e => App.mkExecTxResult 4 (App.wrap_log "wire execution failed: %v" e) []
        | Panic => App.mkExecTxResult 4 None []
        end).
Definition exec_tx (cfg : Config) (now : clock) (raw : option json) : M State App.ExecTxResult :=
  match DecodeEnvelope raw with
  | inl e => mret (App.mkExecTxResult 1 (App.wrap_log "invalid envelope: %v" e) [])
  | inr env =>
      if bool_decide (Envelope_Protocol env = ProtocolVoting) then
        match DecodeTx (Envelope_Payload env) with
        | None => mret (App.mkExecTxResult 1 (App.wrap_log "invalid voting tx: %v" json_error) [])
        | Some t => exec_voting cfg now t
        end
      else if bool_decide (Envelope_Protocol env = ProtocolWire) then
        match DecodeTx (Envelope_Payload env) with
        | None => mret (App.mkExecTxResult 1 (App.wrap_log "invalid wire tx: %v" json_error) [])
        | Some t => exec_wire (now 0%nat) t
        end
      else mret (App.mkExecTxResult 1 (Some (Errorf "unknown protocol: %q" [FStr (Envelope_Protocol env)])) [])
  end.
Fixpoint exec_txs (cfg : Config) (now : nat → clock) (i : nat) (txs : list (option json)) : M State (list App.ExecTxResult) :=
  match txs with
  | [] => mret []
  | raw :: rest => r ← exec_tx cfg (now i) raw; rs ← exec_txs cfg now (S i) rest; mret (r :: rs)
  end.
(** No call of [RecordBeacon]: the block's height and hash are not read. *)
Definition run_block (cfg : Config) (now : nat → clock) (txs : list (option json)) :
    M State (list App.ExecTxResult * list ValidatorUpdate) :=
  results ← exec_txs cfg now 0 txs;
  vu ← in_voting Confirms.GetPendingValidatorUpdates;
  wu ← in_wire WireState.GetPendingValidatorUpdates;
  mret (results, vu ++ wu).
(** [FinalizeBlock]: the voting database is committed first, then the wire database. *)
Definition FinalizeBlock {DB} `{KVStore DB} (cfg : Config) (now : nat → clock) (vDB wDB : DB)
    (txs : list (option json)) (s : State) : res App.ResponseFinalizeBlock * (State * (DB * DB)) :=
  match run_block cfg now txs s with
  | (Ok (results, updates), s1) =>
      match Persist.Commit vDB (voting s1) with
      | (Ok vHash, (v2, vDB2)) =>
          match WirePersist.Commit wDB (wire s1) with
          | (Ok wHash, (w2, wDB2)) =>
              (Ok (App.mkResponseFinalizeBlock results updates (Some (combined_hash vHash wHash))),
               (mkState v2 w2, (vDB2, wDB2)))
          | (Fail e, (w2, wDB2)) => (Fail (Errorf "wire commit failed: %w" [FErr e]), (mkState v2 w2, (vDB2, wDB2)))
          | (Panic, (w2, wDB2)) => (Panic, (mkState v2 w2, (vDB2, wDB2)))
          end
      | (Fail e, (v2, vDB2)) => (Fail (Errorf "voting commit failed: %w" [FErr e]), (mkState v2 (wire s1), (vDB2, wDB)))
      | (Panic, (v2, vDB2)) => (Panic, (mkState v2 (wire s1), (vDB2, wDB)))
      end
  | (Fail e, s1) => (Fail e, (s1, (vDB, wDB)))
  | (Panic, s1) => (Panic, (s1, (vDB, wDB)))
  end.

(** [Query]: by prefix, or the voting answer and failing that the wire answer. *)
Definition strip_path (path prefix : string) : string :=
  let subPath := str_drop (String.length prefix) path in if str_empty subPath then "/" else subPath.
Definition Query (s : State) (path : string) : WireApp.ResponseQuery :=
  let result :=
    if has_prefix path "/voting" then VoteQuery.Query (voting s) (strip_path path "/voting")
    else if has_prefix path "/wire" then WireApp.Query (wire s) (strip_path path "/wire")
    else match VoteQuery.Query (voting s) path with
         | inl _ => WireApp.Query (wire s) path
         | inr v => inr v
         end in
  match result with
  | inl e => WireApp.mkResponseQuery 5 (App.wrap_log "query failed: %v" e) None
  | inr v => WireApp.mkResponseQuery 0 None (Some v)
  end.
End app.
