(* ===== verification/SharesTheorems.v ===== *)
(** The governance chain: each sub-state runs as its own chain would on the payloads
    addressed to it; what reported heights and hashes say of a block; no ballot passes
    the mempool; a transfer of a negative amount does. *)
From S2P Require Import Prelude GoStd Json Types TxData Nonce TxValidate Identity KVStore Keys Merkle Polls.
From S2P Require Import VotingState VoteQuery Tallies Ballots BatchFlush Reseal Authority Confirms Persist App Invariants.
From S2P Require Import WireTypes WireTx WireState WireSupply WireAccounts WirePersist WireApp WireFrames WireLedger WireTheorems Shares.

(** ** Envelopes *)
(** Decoding what [WrapVoting] or [WrapWire] made gives the payload back. *)
Theorem DecodeEnvelope_wrapped (protocol : string) (payload doc : json) :
  protocol = ProtocolVoting ∨ protocol = ProtocolWire →
  wrap_payload protocol (Some payload) = inr doc →
  DecodeEnvelope (Some doc) = inr (mkEnvelope protocol (Some payload)).
Proof. by intros [-> | ->] [= <-]. Qed.

(** ** Methods of one sub-state *)
Lemma in_voting_run {A} (m : M VotingState.State A) s a s' :
  in_voting m s = (Ok a, s') ↔ m (voting s) = (Ok a, voting s') ∧ wire s' = wire s.
Proof.
  unfold in_voting. destruct (m (voting s)) as [r v]. destruct s, s'. cbn. split.
  - by intros [= -> <- <-].
  - intros [[= -> ->] ->]. done.
Qed.
Lemma in_wire_run {A} (m : M WireState.State A) s a s' :
  in_wire m s = (Ok a, s') ↔ m (wire s) = (Ok a, wire s') ∧ voting s' = voting s.
Proof.
  unfold in_wire. destruct (m (wire s)) as [r w]. destruct s, s'. cbn. split.
  - by intros [= -> <- <-].
  - intros [[= -> ->] ->]. done.
Qed.
Lemma try_in_voting {A} (m : M VotingState.State A) s r s' :
  try (in_voting m) s = (Ok r, s') ↔ try m (voting s) = (Ok r, voting s') ∧ wire s' = wire s.
Proof. rewrite <- in_voting_run. unfold try, in_voting. destruct (m (voting s)) as [[a|e|] v]; done. Qed.
Lemma try_in_wire {A} (m : M WireState.State A) s r s' :
  try (in_wire m) s = (Ok r, s') ↔ try m (wire s) = (Ok r, wire s') ∧ voting s' = voting s.
Proof. rewrite <- in_wire_run. unfold try, in_wire. destruct (m (wire s)) as [[a|e|] v]; done. Qed.

(** ** The two projections of a block *)
(** The payloads a block addresses to one protocol, with their places. *)
Fixpoint addressed (protocol : string) (i : nat) (txs : list (option json)) : list (nat * option json) :=
  match txs with
  | [] => []
  | raw :: rest =>
      match DecodeEnvelope raw with
      | inr env =>
          if bool_decide (Envelope_Protocol env = protocol)
          then (i, Envelope_Payload env) :: addressed protocol (S i) rest else addressed protocol (S i) rest
      | inl _ => addressed protocol (S i) rest
      end
  end.
(** The clock of the [j]-th of them. *)
Definition at_place {A} (now : nat → A) (l : list (nat * option json)) (j : nat) : A := now (default 0%nat (l.*1 !! j)).
Lemma DecodeEnvelope_protocol raw env :
  DecodeEnvelope raw = inr env → Envelope_Protocol env = ProtocolVoting ∨ Envelope_Protocol env = ProtocolWire.
Proof.
  unfold DecodeEnvelope. destruct (raw ≫= unmarshal) as [e|]; [|done].
  destruct (negb _) eqn:Hp; [done|]. destruct (Envelope_Payload e); [|done]. intros [= <-].
  apply negb_false_iff, orb_true_iff in Hp as [Hp|Hp]; bools; auto.
Qed.

Section projections.
Context `{C : Crypto} `{W : Wallet}.

Lemma app_exec_txs_shift now txs : ∀ i, App.exec_txs now (S i) txs = App.exec_txs (λ j, now (S j)) i txs.
Proof. induction txs as [|doc rest IH]; intros i; cbn; [done|]. by rewrite (IH (S i)). Qed.
Lemma wire_exec_txs_shift now txs : ∀ i, WireApp.exec_txs now (S i) txs = WireApp.exec_txs (λ j, now (S j)) i txs.
Proof. induction txs as [|doc rest IH]; intros i; cbn; [done|]. by rewrite (IH (S i)). Qed.

(** A transaction acts on the sub-state it is addressed to, with the code that
    sub-state's own application gives it, and leaves the other alone. *)
Lemma exec_tx_projects cfg now raw s r s' :
  exec_tx cfg now raw s = (Ok r, s') →
  match DecodeEnvelope raw with
  | inl _ => s' = s ∧ App.Exec_Code r = 1
  | inr env =>
      if bool_decide (Envelope_Protocol env = ProtocolVoting) then
        ∃ rv, App.exec_tx now (Envelope_Payload env) (voting s) = (Ok rv, voting s') ∧ wire s' = wire s ∧
          App.Exec_Code rv = App.Exec_Code r
      else ∃ rw, WireApp.exec_tx (now 0%nat) (Envelope_Payload env) (wire s) = (Ok rw, wire s') ∧ voting s' = voting s ∧
          WireApp.Exec_Code rw = App.Exec_Code r
  end.
Proof.
  unfold exec_tx. destruct (DecodeEnvelope raw) as [e|env] eqn:Ee; [by intros [= <- <-]|].
  pose proof (DecodeEnvelope_protocol _ _ Ee) as Hp. case_bool_decide as Hv.
  - unfold App.exec_tx. destruct (DecodeTx _) as [t|]; [|intros [= <- <-]; eexists; by rewrite mret_run].
    unfold exec_voting. intros (a & s1 & Ht & H3)%bind_ok. apply try_in_voting in Ht as [H1 H2].
    rewrite bind_run, H1. destruct a as [events|e|].
    + apply bind_ok in H3 as (ct & s1' & Hct & Hr). unfold or_panic in Hct. destruct (pollCreatorType cfg t); [|done].
      injection Hct as <- <-. injection Hr as <- <-. eexists. split_and!; done.
    + injection H3 as <- <-. eexists. split_and!; done.
    + done.
  - rewrite bool_decide_true by (by destruct Hp).
    unfold WireApp.exec_tx. destruct (DecodeTx _) as [t|]; [|intros [= <- <-]; eexists; by rewrite mret_run].
    unfold exec_wire. intros (a & s1 & Ht & H3)%bind_ok. apply try_in_wire in Ht as [H1 H2].
    rewrite bind_run, H1. injection H3 as <- <-. eexists. split_and!; [done|done|by destruct a].
Qed.

Lemma exec_txs_projects cfg now txs : ∀ i s rs s',
  exec_txs cfg now i txs s = (Ok rs, s') →
  let lv := addressed ProtocolVoting i txs in let lw := addressed ProtocolWire i txs in
  length rs = length txs ∧
  (∃ rv, App.exec_txs (at_place now lv) 0 lv.*2 (voting s) = (Ok rv, voting s')) ∧
  (∃ rw, WireApp.exec_txs (λ j, at_place now lw j 0%nat) 0 lw.*2 (wire s) = (Ok rw, wire s')).
Proof.
  induction txs as [|raw rest IH]; intros i s rs s' H; cbv zeta.
  - injection H as <- <-. split_and!; [done|by exists []|by exists []].
  - cbn [exec_txs] in H. apply bind_ok in H as (r & s1 & H1 & H). apply bind_ok in H as (rs1 & s2 & H2 & H).
    injection H as <- <-. apply IH in H2 as (Hl & (rv & Hv) & (rw & Hw)). apply exec_tx_projects in H1.
    cbn [addressed length]. destruct (DecodeEnvelope raw) as [e|env] eqn:Ee.
    { destruct H1 as [-> _]. split_and!; [by rewrite Hl|by exists rv|by exists rw]. }
    pose proof (DecodeEnvelope_protocol _ _ Ee) as Hp.
    case_bool_decide as Hb.
    + destruct H1 as (v & Hv1 & Hs & _). rewrite (bool_decide_false (Envelope_Protocol env = ProtocolWire)) by (by rewrite Hb).
      rewrite Hs in Hw. split_and!; [by rewrite Hl| |by exists rw]. exists (v :: rv). cbn [fmap list_fmap App.exec_txs snd].
      rewrite bind_run. change (at_place now ((i, Envelope_Payload env) :: addressed ProtocolVoting (S i) rest) 0) with (now i).
      rewrite Hv1. rewrite bind_run, app_exec_txs_shift.
      change (λ j, at_place now ((i, Envelope_Payload env) :: addressed ProtocolVoting (S i) rest) (S j))
        with (at_place now (addressed ProtocolVoting (S i) rest)).
      by rewrite Hv.
    + destruct H1 as (w & Hw1 & Hs & _). rewrite bool_decide_true by (by destruct Hp).
      rewrite Hs in Hv. split_and!; [by rewrite Hl|by exists rv|]. exists (w :: rw). cbn [fmap list_fmap WireApp.exec_txs snd].
      rewrite bind_run. change (at_place now ((i, Envelope_Payload env) :: addressed ProtocolWire (S i) rest) 0 0%nat) with (now i 0%nat).
      rewrite Hw1. rewrite bind_run, wire_exec_txs_shift.
      change (λ j, at_place now ((i, Envelope_Payload env) :: addressed ProtocolWire (S i) rest) (S j) 0%nat)
        with (λ j, at_place now (addressed ProtocolWire (S i) rest) j 0%nat).
      by rewrite Hw.
Qed.

(** The voting machine's block without the beacon. *)
Definition voting_block (now : nat → clock) (txs : list (option json)) :
    M VotingState.State (list App.ExecTxResult * list ValidatorUpdate) :=
  results ← App.exec_txs now 0 txs; updates ← Confirms.GetPendingValidatorUpdates; mret (results, updates).

(** A finalized block, seen from the two sub-states: the wire sub-state and its
    database step as the transfer application's own block of the payloads addressed to
    it; the voting sub-state runs its payloads in order, without the beacon, and is
    committed; the app hash is the digest of the two app hashes. *)
Lemma FinalizeBlock_projects {DB} `{KVStore DB} cfg now (vDB wDB : DB) txs s resp s' vDB' wDB' :
  FinalizeBlock cfg now vDB wDB txs s = (Ok resp, (s', (vDB', wDB'))) →
  let lv := addressed ProtocolVoting 0 txs in let lw := addressed ProtocolWire 0 txs in
  length (App.Res_TxResults resp) = length txs ∧
  (∃ rw, WireApp.FinalizeBlock (λ j, at_place now lw j 0%nat) wDB lw.*2 (wire s) = (Ok rw, (wire s', wDB'))) ∧
  (∃ rv v1 h, voting_block (at_place now lv) lv.*2 (voting s) = (Ok rv, v1) ∧ Persist.Commit vDB v1 = (Ok h, (voting s', vDB'))) ∧
  App.Res_AppHash resp = Some (combined_hash (VotingState.appHash (voting s')) (WireState.appHash (wire s'))).
Proof.
  unfold FinalizeBlock, run_block. rewrite bind_run. destruct (exec_txs cfg now 0 txs s) as [[rs|e|] s1] eqn:Ex; [|done..].
  apply exec_txs_projects in Ex as (Hl & (rv & Hv) & (rw & Hw)).
  unfold WireApp.FinalizeBlock, WireApp.run_block, voting_block. rewrite !bind_run, Hv, Hw. cbn zeta.
  unfold Confirms.GetPendingValidatorUpdates, WireState.GetPendingValidatorUpdates, in_voting, in_wire. mrun.
  cbn [voting wire field_set]. destruct s1 as [v1 w1]. cbn.
  destruct (Persist.Commit vDB _) as [[vh|e|] [v2 vDB2]] eqn:Ev; [|done..].
  destruct (WirePersist.Commit wDB _) as [[wh|e|] [w2 wDB2]] eqn:Ew; [|done..].
  intros [= <- <- <- <-]. cbn. split_and!; [done|by eexists| |].
  - do 3 eexists. split; [done|exact Ev].
  - f_equal. f_equal.
    + unfold Persist.Commit in Ev. destruct (VotingState.dirty _); [|by injection Ev as <- <- <-].
      destruct (db_write _ _); [|done]. by injection Ev as <- <- <-.
    + unfold WirePersist.Commit in Ew. destruct (WireState.dirty _); [|by injection Ew as <- <- <-].
      destruct (db_write _ _); [|done]. by injection Ew as <- <- <-.
Qed.
End projections.

(** ** The chain as a simulation of two *)
Section simulation.
Context `{C : Crypto} `{W : Wallet} {DB : Type} `{KVStore DB}.


End simulation.

Section carried.
Context `{C : Crypto} `{W : Wallet} {DB : Type} `{KVLaws DB}.

End carried.

(** ** Heights, hashes and commits *)
Section info.
Context `{C : Crypto} `{W : Wallet} {DB : Type} `{KVStore DB}.

(** After a finalized block [Info] reports the hash of its response, and as the height
    the larger of two counters, each of which has advanced only if the block wrote to
    that sub-state. *)
Theorem Info_after_block cfg now (vDB wDB : DB) txs s resp s' dbs :
  FinalizeBlock cfg now vDB wDB txs s = (Ok resp, (s', dbs)) →
  App.Res_AppHash resp = Some (Info s').2 ∧
  (Info s').1 = Z.max (VotingState.height (voting s')) (WireState.height (wire s')) ∧
  ∃ s1 r, run_block cfg now txs s = (Ok r, s1) ∧
    VotingState.height (voting s') =
      (if VotingState.dirty (voting s1) then int64_inc (VotingState.height (voting s1)) else VotingState.height (voting s1)) ∧
    WireState.height (wire s') =
      (if WireState.dirty (wire s1) then int64_inc (WireState.height (wire s1)) else WireState.height (wire s1)).
Proof.
  intros Hf. destruct dbs as [vDB' wDB']. pose proof (FinalizeBlock_projects _ _ _ _ _ _ _ _ _ _ Hf) as (_ & _ & _ & ->).
  split_and!; [done| |].
  { unfold Info, VotingState.GetInfo, WireState.GetInfo. cbn. destruct (Z.ltb_spec (VotingState.height (voting s')) (WireState.height (wire s'))); lia. }
  unfold FinalizeBlock in Hf. destruct (run_block cfg now txs s) as [[[rs us]|e|] s1]; [|done..].
  exists s1, (rs, us). split; [done|].
  destruct (Persist.Commit vDB _) as [[vh|e|] [v2 vDB2]] eqn:Ev; [|done..].
  destruct (WirePersist.Commit wDB _) as [[wh|e|] [w2 wDB2]] eqn:Ew; [|done..].
  injection Hf as _ <- _ _. unfold Persist.Commit in Ev. unfold WirePersist.Commit in Ew. split; cbn.
  - clear Ew. destruct (VotingState.dirty _); [|by injection Ev as _ <- _]. destruct (db_write _ _); [|done]. by injection Ev as _ <- _.
  - clear Ev. destruct (WireState.dirty _); [|by injection Ew as _ <- _]. destruct (db_write _ _); [|done]. by injection Ew as _ <- _.
Qed.

(** The two databases are not committed together: when the write of the second fails,
    [FinalizeBlock] fails with the voting half of the block on disk and the wire half not. *)
Theorem commit_splits_block cfg now (vDB wDB vDB2 : DB) txs s s1 v2 r h :
  run_block cfg now txs s = (Ok r, s1) →
  VotingState.dirty (voting s1) = true → WireState.dirty (wire s1) = true →
  Persist.Commit vDB (voting s1) = (Ok h, (v2, vDB2)) → (∀ batch, db_write wDB batch = None) →
  ∃ e s', FinalizeBlock cfg now vDB wDB txs s = (Fail e, (s', (vDB2, wDB))) ∧ voting s' = v2 ∧
    VotingState.dirty v2 = false ∧ VotingState.height v2 = int64_inc (VotingState.height (voting s1)) ∧
    WireState.dirty (wire s') = true.
Proof.
  intros Hr Hv Hw Hc Hfail. unfold FinalizeBlock. rewrite Hr. destruct r as [rs us]. rewrite Hc.
  unfold WirePersist.Commit. rewrite Hw. cbv zeta. rewrite Hfail. cbn [fst snd]. do 2 eexists. split; [reflexivity|]. cbn [voting wire]. split; [done|].
  unfold Persist.Commit in Hc. rewrite Hv in Hc. cbv zeta in Hc. destruct (db_write vDB _); [|done].
  by injection Hc as _ <- _.
Qed.
End info.

(** ** No ballot passes the mempool *)
Section ballots.
Context `{C : Crypto} `{W : Wallet} {DB : Type} `{KVStore DB}.

(** The beacon window of the voting sub-state. *)
Definition beacons (s : State) : gmap Z string := beaconWindow (voting s).
Definition same_beacons (s s' : State) : Prop := beacons s' = beacons s.
Definition same_window (v v' : VotingState.State) : Prop := beaconWindow v' = beaconWindow v.
#[local] Instance same_beacons_refl : Reflexive same_beacons.
Proof. done. Qed.
#[local] Instance same_beacons_trans : Transitive same_beacons.
Proof. unfold same_beacons. intros ???. congruence. Qed.
#[local] Instance same_window_refl : Reflexive same_window.
Proof. done. Qed.
#[local] Instance same_window_trans : Transitive same_window.
Proof. unfold same_window. intros ???. congruence. Qed.
Lemma in_voting_beacons {A} (m : M VotingState.State A) : keeps same_window m → keeps same_beacons (in_voting m).
Proof. intros Hm s. specialize (Hm (voting s)). unfold in_voting. by destruct (m (voting s)). Qed.
Lemma in_wire_beacons {A} (m : M WireState.State A) : keeps same_beacons (in_wire m).
Proof. intros s. unfold in_wire. by destruct (m (wire s)). Qed.
Lemma only_opened_window v v' : only_opened v v' → same_window v v'.
Proof. by intros (ps & -> & _). Qed.
Lemma sba_window v v' : same_but_attestation v v' → same_window v v'.
Proof. by intros (c & k & d & ->). Qed.
Lemma ExecuteTx_window now t : keeps same_window (App.ExecuteTx now t).
Proof.
  unfold App.ExecuteTx. cbv zeta. repeat (apply keeps_if); try (apply keeps_fail; apply _).
  - unfold executePollCreate, VotingState.set_dirty. keeps_auto; done.
  - unfold executePollClose, update_poll, VotingState.set_dirty. keeps_auto; try done.
    destruct (collectPollLists _ _ _ _) as [[ids hs] cs]. keeps_auto; done.
  - unfold executeValidatorRegister, VotingState.set_dirty. keeps_auto; done.
  - unfold executeConfirmReceipt, update_poll, VotingState.set_dirty. keeps_auto; done.
  - unfold executeBallotUpdate, VotingState.set_dirty. keeps_auto; done.
  - apply executeBatchFlush_keeps; [apply _..|apply sba_window| |]; done.
  - unfold executeResealVote, update_poll, VotingState.set_dirty. keeps_auto; done.
  - unfold executeAuthorityRescind, update_poll, VotingState.set_dirty. keeps_auto; done.
  - unfold executeAuthorityRestore, VotingState.set_dirty. keeps_auto; done.
Qed.
Lemma CheckTx_beacons now raw : keeps same_beacons (CheckTx now raw).
Proof.
  unfold CheckTx. destruct (DecodeEnvelope raw) as [e|env]; [keeps_auto|]. apply keeps_if; [|apply keeps_if; [|keeps_auto]].
  - apply keeps_option; [intros t|keeps_auto]. keeps_auto.
    + apply in_voting_beacons. intros v. destruct (Validate_benign t v) as [-> _]. done.
    + destruct a; keeps_auto. apply in_voting_beacons. intros v. apply only_opened_window, ValidateTx_keeps.
  - apply keeps_option; [intros t|keeps_auto]. keeps_auto. apply in_wire_beacons.
Qed.
Lemma exec_txs_beacons cfg now txs : ∀ i, keeps same_beacons (exec_txs cfg now i txs).
Proof.
  induction txs as [|raw rest IH]; intros i; cbn [exec_txs]; keeps_auto; auto.
  unfold exec_tx. destruct (DecodeEnvelope raw) as [e|env]; [keeps_auto|]. apply keeps_if; [|apply keeps_if; [|keeps_auto]].
  - apply keeps_option; [intros t|keeps_auto]. unfold exec_voting. keeps_auto; [apply in_voting_beacons, ExecuteTx_window|].
    destruct a; keeps_auto.
  - apply keeps_option; [intros t|keeps_auto]. unfold exec_wire. keeps_auto. apply in_wire_beacons.
Qed.
Lemma FinalizeBlock_beacons cfg now (vDB wDB : DB) txs s :
  beacons (FinalizeBlock cfg now vDB wDB txs s).2.1 = beacons s.
Proof.
  assert (keeps same_beacons (run_block cfg now txs)) as Hk.
  { unfold run_block. keeps_auto; [apply exec_txs_beacons|by apply in_voting_beacons|apply in_wire_beacons]. }
  specialize (Hk s). unfold FinalizeBlock. destruct (run_block cfg now txs s) as [[[rs us]|e|] s1]; [|done..].
  assert (∀ v, beaconWindow (Persist.Commit vDB v).2.1 = beaconWindow v) as Hc.
  { intros v. unfold Persist.Commit. destruct (VotingState.dirty v); [|done]. cbv zeta. by destruct (db_write _ _). }
  specialize (Hc (voting s1)). unfold beacons. unfold same_beacons, beacons in Hk. cbn in Hk.
  destruct (Persist.Commit vDB _) as [[vh|e|] [v2 vDB2]]; cbn in *; try congruence.
  destruct (WirePersist.Commit wDB _) as [[wh|e|] [w2 wDB2]]; cbn in *; congruence.
Qed.
Lemma loadState_window (db : DB) (v v' : VotingState.State) : Persist.loadState db v = Some v' → same_window v v'.
Proof. unfold Persist.loadState. intros Hl. repeat (apply bind_Some in Hl as (? & _ & Hl)). by injection Hl as <-. Qed.
Lemma New_beacons `{F : MissingField} (vDB wDB : DB) sg v s : New vDB wDB sg v = inr s → beacons s = ∅.
Proof.
  unfold New. destruct v as [idv|]; [|done]. destruct (Persist.NewState vDB sg) as [vs|] eqn:Ev; [|done].
  destruct (WirePersist.NewState wDB) as [e|ws]; [done|]. intros [= <-]. by apply loadState_window in Ev.
Qed.

(** The states of a running node: started on any databases, then mempool checks and
    blocks in any order, whatever they answer. *)
Inductive running `{F : MissingField} (cfg : Config) : State → Prop :=
  | running_new (vDB wDB : DB) sg v s : New vDB wDB sg v = inr s → running cfg s
  | running_check now raw s : running cfg s → running cfg (CheckTx now raw s).2
  | running_block now (vDB wDB : DB) txs s : running cfg s → running cfg (FinalizeBlock cfg now vDB wDB txs s).2.1.
Lemma running_beacons `{F : MissingField} cfg s : running cfg s → beacons s = ∅.
Proof.
  induction 1 as [vDB wDB sg v s Hn|now raw s _ IH|now vDB wDB txs s _ IH].
  - by eapply New_beacons.
  - rewrite <- IH. apply CheckTx_beacons.
  - by rewrite FinalizeBlock_beacons.
Qed.
(** With no beacon known, no beacon is accepted. *)
Lemma ValidateBeacon_empty {S} h n (s s' : S) u : ValidateBeacon h n ∅ s ≠ (Ok u, s').
Proof. intros Hb. unfold ValidateBeacon in Hb. minv Hb. done. Qed.
Lemma cast_needs_beacon now t v v' u : beaconWindow v = ∅ → validateBallotCast now t v ≠ (Ok u, v').
Proof.
  intros Hw Hv. destruct u. apply validateBallotCast_facts in Hv as (d & p & pub & idv & h & _ & _ & Hb & _).
  rewrite Hw in Hb. by eapply ValidateBeacon_empty.
Qed.
Lemma batch_needs_beacon now t v v' : beaconWindow v = ∅ → Tx_Type t = TxTypeBatchFlush →
  TxValidate.Validate t v = (Ok tt, v) → App.ValidateTx now t v ≠ (Ok tt, v').
Proof.
  intros Hw Ht Hval. unfold App.ValidateTx. rewrite Ht. cbn [Z.eqb]. intros Hv. change (validateBatchFlush now t v = (Ok tt, v')) in Hv.
  unfold validateBatchFlush in Hv. apply bind_ok in Hv as (data & v1 & H1 & Hv).
  destruct (UnmarshalData t) as [d|] eqn:Ed; [|done]. injection H1 as -> <-.
  pose proof (proj1 (Validate_batch_submissions t data v Ht Ed Hval)) as Hne.
  apply bind_ok in Hv as (ps & v1 & H1 & Hv). injection H1 as <- <-.
  apply bind_ok in Hv as (poll & v1 & H1 & Hv). destruct (polls v !! _); [|done]. injection H1 as <- <-.
  apply bind_ok in Hv as (u & v1 & H1 & Hv). apply fail_if_ok in H1 as [_ ->].
  destruct (elems (BatchFlushData_Submissions data)) as [|sub subs]; [done|]. cbn [check_submissions] in Hv.
  apply bind_ok in Hv as (u1 & v2 & H1 & Hv). apply fail_if_ok in H1 as [_ ->].
  apply bind_ok in Hv as (u2 & v3 & H1 & Hv). unfold wrap_err in H1.
  destruct (validateBallotCast (now 0%nat) sub v) as [[x|e|] v4] eqn:Ec; [|done..]. by eapply cast_needs_beacon.
Qed.
Lemma update_needs_beacon now t v v' : beaconWindow v = ∅ → Tx_Type t = TxTypeUpdateBallot →
  App.ValidateTx now t v ≠ (Ok tt, v').
Proof.
  intros Hw Ht. unfold App.ValidateTx. rewrite Ht. cbn [Z.eqb]. intros Hv. change (validateBallotUpdate (now 0%nat) t v = (Ok tt, v')) in Hv.
  unfold validateBallotUpdate in Hv. apply bind_ok in Hv as (data & v1 & H1 & Hv).
  destruct (UnmarshalData t) as [d|]; [|done]. injection H1 as -> <-.
  apply bind_ok in Hv as (u & v1 & H1 & Hv). unfold wrap_err in H1.
  destruct (ValidateNonce _ v) as [[x|e|] v4] eqn:En; [|done..]. injection H1 as <- <-. apply ValidateNonce_pure in En as ->.
  apply bind_ok in Hv as (w & v1 & H1 & Hv). injection H1 as <- <-. rewrite Hw in Hv.
  apply bind_ok in Hv as (u1 & v1 & H1 & Hv). unfold wrap_err in H1.
  destruct (ValidateBeacon _ _ ∅ v) as [[y|e|] v5] eqn:Eb; [|done..]. by eapply ValidateBeacon_empty.
Qed.

(** Nothing in the governance chain records a beacon, so from a fresh start on any
    database, through any mempool checks and blocks, no transaction that casts or
    changes a ballot is ever admitted to the mempool. *)
Theorem shares_admits_no_ballot `{F : MissingField} cfg (s : State) now raw env t r s' :
  running cfg s → DecodeEnvelope raw = inr env → Envelope_Protocol env = ProtocolVoting →
  DecodeTx (Envelope_Payload env) = Some t →
  Tx_Type t = TxTypeBallotCast ∨ Tx_Type t = TxTypeBatchFlush ∨ Tx_Type t = TxTypeUpdateBallot →
  CheckTx now raw s = (Ok r, s') → App.CheckTx_Code r ≠ 0.
Proof.
  intros Hb%running_beacons He Hp Hd Ht. unfold CheckTx. rewrite He, Hp, Hd. cbn [bool_decide decide_rel].
  rewrite bool_decide_true by done. intros (rv & s1 & H1 & H2)%bind_ok Hc.
  apply try_in_voting in H1 as [H1 _]. destruct (Validate_benign t (voting s)) as [Hs _].
  unfold try in H1. destruct (TxValidate.Validate t (voting s)) as [[[]|e|] v1] eqn:Ev; [|injection H1 as <- _; cbn in H2; by injection H2 as <- _|done].
  cbn in Hs. subst v1. injection H1 as <- Hv1. apply bind_ok in H2 as (rx & s2 & H2 & H3).
  apply try_in_voting in H2 as [H2 _]. rewrite <- Hv1 in H2. unfold try in H2. injection H3 as <- _.
  destruct (App.ValidateTx now t (voting s)) as [[[]|e|] v2] eqn:Ex; [|by injection H2 as <- _|done].
  destruct Ht as [Ht|[Ht|Ht]].
  - unfold App.ValidateTx in Ex. by rewrite Ht in Ex.
  - by eapply batch_needs_beacon.
  - by eapply update_needs_beacon.
Qed.
End ballots.

(** ** Two more consequences of the composition *)
Section consequences.
Context `{C : Crypto} `{W : Wallet}.

(** C40. The wire branch of [CheckTx] never asks [Validate]: a transfer of a negative amount,
    which the transfer application refuses, is admitted when the sender's own checks
    pass; the block then moves value from the recipient to the sender, who signed it. *)
Theorem negative_transfer_admitted cfg (now : clock) (s : State) raw env t d :
  DecodeEnvelope raw = inr env → Envelope_Protocol env = ProtocolWire → DecodeTx (Envelope_Payload env) = Some t →
  Tx_Type t = TxTypeTransfer → UnmarshalData t = Some d → TransferData_Amount d < 0 →
  TransferData_SenderCommitment d ≠ TransferData_RecipientCommitment d →
  validateTransfer t (wire s) = (Ok tt, wire s) →
  let asset := TransferData_AssetID d in
  (∀ u w', WireTx.Validate t (wire s) ≠ (Ok u, w')) ∧
  CheckTx now raw s = (Ok (App.mkResponseCheckTx 0 None), s) ∧
  ∃ r s' b1 b2, exec_tx cfg now raw s = (Ok r, s') ∧ App.Exec_Code r = 0 ∧
    balance_at (wire s) asset (TransferData_SenderCommitment d) = Some b1 ∧
    balance_at (wire s) asset (TransferData_RecipientCommitment d) = Some b2 ∧
    balance_at (wire s') asset (TransferData_SenderCommitment d) = Some (int64_sub b1 (TransferData_Amount d)) ∧
    balance_at (wire s') asset (TransferData_RecipientCommitment d) = Some (int64_add b2 (TransferData_Amount d)).
Proof.
  intros He Hp Hd Ht Ed Hn Hne Hv asset. split_and!.
  - intros u w' Hval. unfold Validate in Hval. rewrite Ht in Hval.
    do 3 (apply bind_ok in Hval as (? & w0 & H0 & Hval); apply fail_if_ok in H0 as [_ ->]).
    change (Validate_Transfer t (wire s) = (Ok u, w')) in Hval. unfold Validate_Transfer in Hval. rewrite Ed in Hval.
    apply bind_ok in Hval as (d' & w1 & H1 & Hval). injection H1 as <- <-.
    apply bind_ok in Hval as (u1 & w1 & H1 & Hval). 
    apply fail_if_ok in Hval as [H2 _]. apply orb_false_iff in H2 as [H2 _]. apply Z.leb_gt in H2. lia.
  - unfold CheckTx. rewrite He, Hp. rewrite bool_decide_false, bool_decide_true by done. rewrite Hd, bind_run.
    assert (WireApp.ValidateTx t (wire s) = (Ok tt, wire s)) as Hx by (unfold WireApp.ValidateTx; by rewrite Ht).
    unfold try, in_wire. rewrite Hx. cbn. by destruct s.
  - destruct (executeTransfer_spec (now 0%nat) t (wire s) d Hv Ed) as (ev & w' & b1 & b2 & Hx & H1 & _ & H2 & H3 & _).
    destruct (H3 Hne) as [H4 H5]. unfold exec_tx. rewrite He, Hp. rewrite bool_decide_false, bool_decide_true by done. rewrite Hd.
    assert (WireApp.ExecuteTx (now 0%nat) t (wire s) = (Ok ev, w')) as Hy by (unfold WireApp.ExecuteTx; by rewrite Ht).
    unfold exec_wire. rewrite bind_run. unfold try, in_wire. rewrite Hy. do 4 eexists. split_and!; [reflexivity|..]; done.
Qed.

(** With keys of the right length the tag of a poll never panics; it is empty exactly for
    other transactions, and a house key takes precedence over an authority key. *)
Theorem pollCreatorType_spec cfg (t : Tx) :
  Forall (λ k, slen k = PublicKeySize) (Config_HouseKeys cfg) → Forall (λ k, slen k = PublicKeySize) (Config_AuthorityKeys cfg) →
  let signed keys := ∃ k, k ∈ keys ∧ ed25519_Verify k (data_text t) (bytes_of (Tx_Signature t)) = true in
  ∃ tag, pollCreatorType cfg t = Some tag ∧
    (tag = "" ↔ Tx_Type t ≠ TxTypePollCreate) ∧
    (tag = "house" ↔ Tx_Type t = TxTypePollCreate ∧ signed (Config_HouseKeys cfg)) ∧
    (tag = "authority" ↔ Tx_Type t = TxTypePollCreate ∧ signed (Config_AuthorityKeys cfg) ∧ ¬ signed (Config_HouseKeys cfg)).
Proof.
  intros Hh Ha signed.
  assert (∀ keys, Forall (λ k, slen k = PublicKeySize) keys →
    ∃ b, any_verifies keys t = Some b ∧ (b = true ↔ signed keys)) as Hany.
  { induction 1 as [|k keys Hk _ (b & Hb & IH)]; cbn.
    - exists false. split; [done|]. split; [done|]. by intros (k & Hk%elem_of_nil & _).
    - unfold ed25519_try. unfold slen in Hk. rewrite Hk, Z.eqb_refl. cbn.
      destruct (ed25519_Verify k _ _) eqn:Ev; [exists true|exists b]; (split; [done|]).
      + split; [|done]. intros _. exists k. split; [by left|done].
      + rewrite IH. split; intros (k' & Hk' & Hv'); exists k'; (split; [|done]); [by right|].
        apply elem_of_cons in Hk' as [->|?]; [congruence|done]. }
  unfold pollCreatorType. destruct (Z.eqb_spec (Tx_Type t) TxTypePollCreate) as [E|E]; cbn.
  - destruct (Hany _ Hh) as (b1 & -> & H1). destruct (Hany _ Ha) as (b2 & E2 & H2). cbn.
    destruct b1; [|rewrite E2; cbn; destruct b2]; eexists; (split; [done|]); repeat split; try done; intuition done.
  - eexists. split; [done|]. repeat split; try done; by intros [? _].
Qed.
End consequences.
