(* ===== verification/Config.v ===== *)
(** protocol/config: the gate on the deployment manifest (validate.go), its runtime
    configuration, the manifest the server binaries read (manifest.go), and what
    embodiments/shyshares/cmd/shyware-abci/main.go makes of its keys.  A document is
    [None] when its bytes are no JSON; [env] is [os.Getenv]. *)
From S2P Require Import Prelude GoStd Json Identity.

(** A pointer to a struct: [null] is nil, a value is decoded into the struct. *)
Definition of_json_ptr {A} `{Json A} (prev : option A) (j : json) : option (option A) :=
  match j with
  | JNull => Some None
  | _ => Some <$> of_json (default jzero prev) j
  end.
Definition of_json_uint64 (prev : Z) (j : json) : option Z :=
  match j with
  | JInt z => if decide (uint_ok 64 z) then Some z else None
  | JNull => Some prev | _ => None
  end.
Definition to_json_ptr {A} `{Json A} (p : option A) : json := match p with Some a => to_json a | None => JNull end.

(** ** validate.go *)
Definition SupportedContractVersions : list string :=
  ["shyvoting-v1"; "shycontracts-v1"; "shycustody-v1"; "shywire-v1"; "shyshares-v1"].
Record identityBlock := mkIdentityBlock { identityBlock_Provider : string }.
#[export] Instance Json_identityBlock : Json identityBlock := {
  jzero := mkIdentityBlock "";
  to_json r := JObj (required "provider" (identityBlock_Provider r) ++ []);
  of_json := of_object (λ ms, x0 ← jfield ["provider"] ms "provider"; Some (mkIdentityBlock x0));
}.
Record signingBlock := mkSigningBlock { signingBlock_Backend : string; signingBlock_Required : bool }.
Definition signingBlock_tags : list string := ["backend"; "required"].
#[export] Instance Json_signingBlock : Json signingBlock := {
  jzero := mkSigningBlock "" false;
  to_json r := JObj (required "backend" (signingBlock_Backend r) ++ required "required" (signingBlock_Required r) ++ []);
  of_json := of_object (λ ms,
    x0 ← jfield signingBlock_tags ms "backend";
    x1 ← jfield signingBlock_tags ms "required";
    Some (mkSigningBlock x0 x1));
}.
Record AttestationConfig := mkAttestationConfig {
  AttestationConfig_Mode : string;
  AttestationConfig_RollingThreshold : Z;
}.
#[export] Instance Eta_AttestationConfig : Eta AttestationConfig := λ r,
  mkAttestationConfig (AttestationConfig_Mode r) (AttestationConfig_RollingThreshold r).
Definition AttestationConfig_tags : list string := ["mode"; "rolling_threshold"].
#[export] Instance Json_AttestationConfig : Json AttestationConfig := {
  jzero := mkAttestationConfig "" 0;
  to_json r := JObj (
    required "mode" (AttestationConfig_Mode r) ++
    required "rolling_threshold" (AttestationConfig_RollingThreshold r) ++ []);
  of_json := of_object (λ ms,
    x0 ← jfield AttestationConfig_tags ms "mode";
    x1 ← jfield AttestationConfig_tags ms "rolling_threshold";
    Some (mkAttestationConfig x0 x1));
}.
Record reconcileAuthorityBlock := mkReconcileAuthorityBlock {
  reconcileAuthorityBlock_Operator : string;
  reconcileAuthorityBlock_Endpoint : string;
}.
Definition reconcileAuthorityBlock_tags : list string := ["operator"; "endpoint"].
#[export] Instance Json_reconcileAuthorityBlock : Json reconcileAuthorityBlock := {
  jzero := mkReconcileAuthorityBlock "" "";
  to_json r := JObj (
    required "operator" (reconcileAuthorityBlock_Operator r) ++
    required "endpoint" (reconcileAuthorityBlock_Endpoint r) ++ []);
  of_json := of_object (λ ms,
    x0 ← jfield reconcileAuthorityBlock_tags ms "operator";
    x1 ← jfield reconcileAuthorityBlock_tags ms "endpoint";
    Some (mkReconcileAuthorityBlock x0 x1));
}.
Record RuntimeFallbacks := mkRuntimeFallbacks {
  WriteOnlyOnMissingPlayIntegrity : bool;
  WriteOnlyOnHostileNetwork : bool;
  WriteOnlyOnUntrustedDeviceAttestation : bool;
  WriteOnlyOnHSMUnavailable : bool;
}.
Definition RuntimeFallbacks_tags : list string :=
  ["write_only_on_missing_play_integrity"; "write_only_on_hostile_network";
   "write_only_on_untrusted_device_attestation"; "write_only_on_hsm_unavailable"].
#[export] Instance Json_RuntimeFallbacks : Json RuntimeFallbacks := {
  jzero := mkRuntimeFallbacks false false false false;
  to_json r := JObj (
    required "write_only_on_missing_play_integrity" (WriteOnlyOnMissingPlayIntegrity r) ++
    required "write_only_on_hostile_network" (WriteOnlyOnHostileNetwork r) ++
    required "write_only_on_untrusted_device_attestation" (WriteOnlyOnUntrustedDeviceAttestation r) ++
    required "write_only_on_hsm_unavailable" (WriteOnlyOnHSMUnavailable r) ++ []);
  of_json := of_object (λ ms,
    x0 ← jfield RuntimeFallbacks_tags ms "write_only_on_missing_play_integrity";
    x1 ← jfield RuntimeFallbacks_tags ms "write_only_on_hostile_network";
    x2 ← jfield RuntimeFallbacks_tags ms "write_only_on_untrusted_device_attestation";
    x3 ← jfield RuntimeFallbacks_tags ms "write_only_on_hsm_unavailable";
    Some (mkRuntimeFallbacks x0 x1 x2 x3));
}.
Record deploymentBlock := mkDeploymentBlock {
  deploymentBlock_DefaultPosture : string;
  deploymentBlock_DeploymentTier : string;
  deploymentBlock_ReconcileAuthority : option reconcileAuthorityBlock;
  deploymentBlock_Attestation : AttestationConfig;
  deploymentBlock_RuntimeFallbacks : RuntimeFallbacks;
}.
Definition deploymentBlock_tags : list string :=
  ["default_posture"; "deployment_tier"; "reconcile_authority"; "attestation"; "runtime_fallbacks"].
#[export] Instance Json_deploymentBlock : Json deploymentBlock := {
  jzero := mkDeploymentBlock "" "" None jzero jzero;
  to_json r := JObj (
    required "default_posture" (deploymentBlock_DefaultPosture r) ++
    required "deployment_tier" (deploymentBlock_DeploymentTier r) ++
    [("reconcile_authority", to_json_ptr (deploymentBlock_ReconcileAuthority r))] ++
    required "attestation" (deploymentBlock_Attestation r) ++
    required "runtime_fallbacks" (deploymentBlock_RuntimeFallbacks r) ++ []);
  of_json := of_object (λ ms,
    x0 ← jfield deploymentBlock_tags ms "default_posture";
    x1 ← jfield deploymentBlock_tags ms "deployment_tier";
    x2 ← jfield_with of_json_ptr None deploymentBlock_tags ms "reconcile_authority";
    x3 ← jfield deploymentBlock_tags ms "attestation";
    x4 ← jfield deploymentBlock_tags ms "runtime_fallbacks";
    Some (mkDeploymentBlock x0 x1 x2 x3 x4));
}.
Record manifest := mkManifest {
  manifest_ContractVersion : string;
  manifest_App : option json;
  manifest_Domains : option json;
  manifest_API : option json;
  manifest_Identity : option identityBlock;
  manifest_Signing : option signingBlock;
  manifest_Deployment : option deploymentBlock;
}.
Definition manifest_tags : list string :=
  ["contract_version"; "app"; "domains"; "api"; "identity"; "signing"; "deployment"].
#[export] Instance Json_manifest : Json manifest := {
  jzero := mkManifest "" None None None None None None;
  to_json r := JObj (
    required "contract_version" (manifest_ContractVersion r) ++
    required "app" (manifest_App r) ++ required "domains" (manifest_Domains r) ++ required "api" (manifest_API r) ++
    [("identity", to_json_ptr (manifest_Identity r)); ("signing", to_json_ptr (manifest_Signing r));
     ("deployment", to_json_ptr (manifest_Deployment r))]);
  of_json := of_object (λ ms,
    x0 ← jfield manifest_tags ms "contract_version";
    x1 ← jfield manifest_tags ms "app";
    x2 ← jfield manifest_tags ms "domains";
    x3 ← jfield manifest_tags ms "api";
    x4 ← jfield_with of_json_ptr None manifest_tags ms "identity";
    x5 ← jfield_with of_json_ptr None manifest_tags ms "signing";
    x6 ← jfield_with of_json_ptr None manifest_tags ms "deployment";
    Some (mkManifest x0 x1 x2 x3 x4 x5 x6));
}.
Record PostureConfig := mkPostureConfig {
  PostureConfig_DefaultPosture : string;
  PostureConfig_RuntimeFallbacks : RuntimeFallbacks;
  PostureConfig_Attestation : AttestationConfig;
  PostureConfig_WriteOnly : bool;
}.

Section validate.
Context {St : Type}.

Definition shyconfig_error (what : string) (args : list farg) : error := Errorf ("shyconfig: " +:+ what) args.
Definition missing_raw (r : option json) : bool := match r with None => true | Some _ => false end.
Definition validProviders : list string := ["didit"; "identus"; "wallet"; "none"].
Definition validPostures : list string := ["recoverable"; "coercion_resistant"].
Definition validModes : list string := ["rolling"; "period_close"; "none"].
(** The separation of the reconciling authority from the ledger operator; of the three
    messages the first sentence stands for the whole. *)
Definition check_separation (d : deploymentBlock) : M St unit :=
  match deploymentBlock_ReconcileAuthority d with
  | None => mret tt
  | Some ra =>
      let tier := deploymentBlock_DeploymentTier d in
      let operator := reconcileAuthorityBlock_Operator ra in
      fail_if (bool_decide (operator = "ledger_operator"))
        (shyconfig_error "reconcile_authority.operator ledger_operator is not permitted" []) ;;
      fail_if (bool_decide (operator = "operator") && bool_decide (tier = "self_hosted"))
        (shyconfig_error "reconcile_authority.operator operator is not valid for deployment_tier self_hosted" []) ;;
      fail_if (bool_decide (operator = "shyware") && (bool_decide (tier = "community") || bool_decide (tier = "hosted_dedicated")))
        (shyconfig_error "reconcile_authority.operator shyware is not valid for deployment_tier %q" [FStr tier])
  end.
Definition validate_parsed (m : manifest) : M St unit :=
  fail_if (str_empty (manifest_ContractVersion m)) (shyconfig_error "missing required field: contract_version" []) ;;
  fail_if (negb (bool_decide (manifest_ContractVersion m ∈ SupportedContractVersions)))
    (shyconfig_error "unsupported contract_version %q (supported: shyvoting-v1, shycontracts-v1, shycustody-v1, shywire-v1, shyshares-v1)"
       [FStr (manifest_ContractVersion m)]) ;;
  fail_if (missing_raw (manifest_App m)) (shyconfig_error "missing required field: app" []) ;;
  fail_if (missing_raw (manifest_Domains m)) (shyconfig_error "missing required field: domains" []) ;;
  fail_if (missing_raw (manifest_API m)) (shyconfig_error "missing required field: api" []) ;;
  identity ← or_fail (manifest_Identity m) (shyconfig_error "missing required block: identity" []);
  fail_if (str_empty (identityBlock_Provider identity)) (shyconfig_error "identity.provider is required" []) ;;
  fail_if (negb (bool_decide (identityBlock_Provider identity ∈ validProviders)))
    (shyconfig_error "unsupported identity.provider %q" [FStr (identityBlock_Provider identity)]) ;;
  signing ← or_fail (manifest_Signing m) (shyconfig_error "missing required block: signing" []);
  fail_if (str_empty (signingBlock_Backend signing)) (shyconfig_error "signing.backend is required" []) ;;
  deployment ← or_fail (manifest_Deployment m) (shyconfig_error "missing required block: deployment" []);
  let posture := deploymentBlock_DefaultPosture deployment in
  fail_if (negb (bool_decide (posture ∈ validPostures)))
    (shyconfig_error "unsupported deployment.default_posture %q (must be recoverable or coercion_resistant)" [FStr posture]) ;;
  let mode := AttestationConfig_Mode (deploymentBlock_Attestation deployment) in
  fail_if (negb (str_empty mode) && negb (bool_decide (mode ∈ validModes)))
    (shyconfig_error "unsupported deployment.attestation.mode %q (must be rolling, period_close, or none)" [FStr mode]) ;;
  check_separation deployment.
Definition ValidateManifest (data : option json) : M St unit :=
  m ← or_fail (data ≫= unmarshal) (shyconfig_error "invalid JSON: %w" [FErr json_error]);
  validate_parsed m.
(** The defaults of [ParseManifest]. *)
Definition default_attestation (attest : AttestationConfig) : AttestationConfig :=
  let attest := if str_empty (AttestationConfig_Mode attest) then attest <| AttestationConfig_Mode := "rolling" |> else attest in
  if bool_decide (AttestationConfig_Mode attest = "rolling") && (AttestationConfig_RollingThreshold attest <=? 0)
  then attest <| AttestationConfig_RollingThreshold := 100 |> else attest.
(** [ParseManifest]: the second decoding is of the document the first one accepted; a
    nil deployment would be dereferenced. *)
Definition ParseManifest (data : option json) : M St PostureConfig :=
  ValidateManifest data ;;
  let m : manifest := default jzero (data ≫= unmarshal) in
  deployment ← or_panic (manifest_Deployment m);
  mret (mkPostureConfig (deploymentBlock_DefaultPosture deployment) (deploymentBlock_RuntimeFallbacks deployment)
          (default_attestation (deploymentBlock_Attestation deployment))
          (bool_decide (deploymentBlock_DefaultPosture deployment = "coercion_resistant"))).
End validate.

(** ** manifest.go *)
Record AppBlock := mkAppBlock { AppBlock_ID : string; AppBlock_Name : string; AppBlock_ChainID : string }.
Definition AppBlock_tags : list string := ["id"; "name"; "chain_id"].
#[export] Instance Json_AppBlock : Json AppBlock := {
  jzero := mkAppBlock "" "" "";
  to_json r := JObj (required "id" (AppBlock_ID r) ++ required "name" (AppBlock_Name r) ++
    required "chain_id" (AppBlock_ChainID r) ++ []);
  of_json := of_object (λ ms,
    x0 ← jfield AppBlock_tags ms "id"; x1 ← jfield AppBlock_tags ms "name"; x2 ← jfield AppBlock_tags ms "chain_id";
    Some (mkAppBlock x0 x1 x2));
}.
Record ManifestIdentity := mkManifestIdentity { ManifestIdentity_Provider : string; ManifestIdentity_IssuerPubKeyHex : string }.
#[export] Instance Eta_ManifestIdentity : Eta ManifestIdentity := λ r,
  mkManifestIdentity (ManifestIdentity_Provider r) (ManifestIdentity_IssuerPubKeyHex r).
Definition ManifestIdentity_tags : list string := ["provider"; "issuer_pubkey_hex"].
#[export] Instance Json_ManifestIdentity : Json ManifestIdentity := {
  jzero := mkManifestIdentity "" "";
  to_json r := JObj (required "provider" (ManifestIdentity_Provider r) ++
    required "issuer_pubkey_hex" (ManifestIdentity_IssuerPubKeyHex r) ++ []);
  of_json := of_object (λ ms,
    x0 ← jfield ManifestIdentity_tags ms "provider"; x1 ← jfield ManifestIdentity_tags ms "issuer_pubkey_hex";
    Some (mkManifestIdentity x0 x1));
}.
Record ManifestSigning := mkManifestSigning { ManifestSigning_TallyKeyID : string }.
#[export] Instance Eta_ManifestSigning : Eta ManifestSigning := λ r, mkManifestSigning (ManifestSigning_TallyKeyID r).
#[export] Instance Json_ManifestSigning : Json ManifestSigning := {
  jzero := mkManifestSigning "";
  to_json r := JObj (required "tally_key_id" (ManifestSigning_TallyKeyID r) ++ []);
  of_json := of_object (λ ms, x0 ← jfield ["tally_key_id"] ms "tally_key_id"; Some (mkManifestSigning x0));
}.
Record EligibilityBlock := mkEligibilityBlock { EligibilityBlock_AssetID : string; EligibilityBlock_MinBalance : Z }.
Definition EligibilityBlock_tags : list string := ["asset_id"; "min_balance"].
#[export] Instance Json_EligibilityBlock : Json EligibilityBlock := {
  jzero := mkEligibilityBlock "" 0;
  to_json r := JObj (required "asset_id" (EligibilityBlock_AssetID r) ++ required "min_balance" (EligibilityBlock_MinBalance r) ++ []);
  of_json := of_object (λ ms,
    x0 ← jfield EligibilityBlock_tags ms "asset_id"; x1 ← jfield_with of_json_uint64 0 EligibilityBlock_tags ms "min_balance";
    Some (mkEligibilityBlock x0 x1));
}.
Record GovernanceManifest := mkGovernanceManifest {
  GovernanceManifest_PollCreateAuthority : string;
  GovernanceManifest_AuthorityKeys : slice string;
  GovernanceManifest_HouseKeys : slice string;
  GovernanceManifest_Eligibility : EligibilityBlock;
  GovernanceManifest_VoteWeight : string;
}.
#[export] Instance Eta_GovernanceManifest : Eta GovernanceManifest := λ r,
  mkGovernanceManifest (GovernanceManifest_PollCreateAuthority r) (GovernanceManifest_AuthorityKeys r)
    (GovernanceManifest_HouseKeys r) (GovernanceManifest_Eligibility r) (GovernanceManifest_VoteWeight r).
Definition GovernanceManifest_tags : list string :=
  ["poll_create_authority"; "authority_keys"; "house_keys"; "eligibility"; "vote_weight"].
#[export] Instance Json_GovernanceManifest : Json GovernanceManifest := {
  jzero := mkGovernanceManifest "" None None jzero "";
  to_json r := JObj (
    required "poll_create_authority" (GovernanceManifest_PollCreateAuthority r) ++
    required "authority_keys" (GovernanceManifest_AuthorityKeys r) ++
    required "house_keys" (GovernanceManifest_HouseKeys r) ++
    required "eligibility" (GovernanceManifest_Eligibility r) ++
    required "vote_weight" (GovernanceManifest_VoteWeight r) ++ []);
  of_json := of_object (λ ms,
    x0 ← jfield GovernanceManifest_tags ms "poll_create_authority";
    x1 ← jfield GovernanceManifest_tags ms "authority_keys";
    x2 ← jfield GovernanceManifest_tags ms "house_keys";
    x3 ← jfield GovernanceManifest_tags ms "eligibility";
    x4 ← jfield GovernanceManifest_tags ms "vote_weight";
    Some (mkGovernanceManifest x0 x1 x2 x3 x4));
}.
(** [Manifest]; [rawManifest], which it is decoded through, has the same fields. *)
Record Manifest := mkFullManifest {
  Manifest_ContractVersion : string;
  Manifest_App : AppBlock;
  Manifest_Identity : ManifestIdentity;
  Manifest_Signing : ManifestSigning;
  Manifest_Governance : option GovernanceManifest;
}.
#[export] Instance Eta_Manifest : Eta Manifest := λ r,
  mkFullManifest (Manifest_ContractVersion r) (Manifest_App r) (Manifest_Identity r) (Manifest_Signing r) (Manifest_Governance r).
Definition rawManifest_tags : list string := ["contract_version"; "app"; "identity"; "signing"; "governance"].
#[export] Instance Json_rawManifest : Json Manifest := {
  jzero := mkFullManifest "" jzero jzero jzero None;
  to_json r := JObj (
    required "contract_version" (Manifest_ContractVersion r) ++ required "app" (Manifest_App r) ++
    required "identity" (Manifest_Identity r) ++ required "signing" (Manifest_Signing r) ++
    [("governance", to_json_ptr (Manifest_Governance r))]);
  of_json := of_object (λ ms,
    x0 ← jfield rawManifest_tags ms "contract_version";
    x1 ← jfield rawManifest_tags ms "app";
    x2 ← jfield rawManifest_tags ms "identity";
    x3 ← jfield rawManifest_tags ms "signing";
    x4 ← jfield_with of_json_ptr None rawManifest_tags ms "governance";
    Some (mkFullManifest x0 x1 x2 x3 x4));
}.

(** The hand-written [trimSpace]: blanks and tabs only. *)
Definition is_blank (c : ascii) : bool := bool_decide (c = " "%char) || bool_decide (c = ascii_of_N 9).
Fixpoint trim_blank_left (s : string) : string :=
  match s with String c s' => if is_blank c then trim_blank_left s' else s | EmptyString => s end.
Fixpoint trim_blank_right (s : string) : string :=
  match s with
  | EmptyString => EmptyString
  | String c s' => let t := trim_blank_right s' in if str_empty t && is_blank c then EmptyString else String c t
  end.
Definition trimSpace (s : string) : string := trim_blank_right (trim_blank_left s).
(** The pieces between separators. *)
Fixpoint split_at (s : string) (sep : ascii) : list string :=
  match s with
  | EmptyString => [""]
  | String c s' =>
      if bool_decide (c = sep) then "" :: split_at s' sep
      else match split_at s' sep with p :: ps => String c p :: ps | [] => [String c ""] end
  end.
Definition splitTrim (s : string) (sep : ascii) : list string := trimSpace <$> split_at s sep.
Definition splitCSV (s : string) : list string := List.filter (λ part, negb (str_empty part)) (splitTrim s ",").
(** A nil slice when nothing is left. *)
Definition csv_slice (s : string) : slice string := match splitCSV s with [] => None | l => Some l end.

(** [applyEnvOverrides]: only what the manifest left empty is taken from the environment. *)
Definition override_keys (v : string) (keys : slice string) : slice string :=
  if negb (str_empty v) && (len keys =? 0) then csv_slice v else keys.
Definition override_str (v s : string) : string := if negb (str_empty v) && str_empty s then v else s.
Definition applyEnvOverrides (env : string → string) (m : Manifest) : Manifest :=
  m <| Manifest_Identity ::= λ i, i <| ManifestIdentity_IssuerPubKeyHex ::= override_str (env "SHYWARE_IDENTITY_ISSUER_PUBKEY_HEX") |> |>
    <| Manifest_Signing ::= λ s, s <| ManifestSigning_TallyKeyID ::= override_str (env "SHYWARE_SIGNING_TALLY_KEY_ID") |> |>
    <| Manifest_Governance ::= fmap (λ g,
         g <| GovernanceManifest_AuthorityKeys ::= override_keys (env "SHYWARE_GOVERNANCE_AUTHORITY_KEYS") |>
           <| GovernanceManifest_HouseKeys ::= override_keys (env "SHYWARE_GOVERNANCE_HOUSE_KEYS") |>) |>.
Definition Parse {St} (env : string → string) (data : option json) : M St Manifest :=
  ValidateManifest data ;;
  raw ← or_fail (data ≫= unmarshal) (shyconfig_error "parse: %w" [FErr json_error]);
  mret (applyEnvOverrides env raw).
(** [Load]: [file] is what reading the path gives. *)
Definition Load {St} (env : string → string) (path : string) (file : option (option json)) : M St Manifest :=
  data ← or_fail file (shyconfig_error "read %s: %w" [FStr path; FErr (Errorf "os" [])]);
  Parse env data.

(** ** embodiments/shyshares/cmd/shyware-abci/main.go *)
Definition shares_decodeEd25519Key (hexStr field : string) : error + string :=
  let hexStr := trim_space hexStr in
  if str_empty hexStr || has_prefix hexStr "REDACTED"
  then inl (Errorf "%s is required (set in shyconfig or SHYWARE_IDENTITY_ISSUER_PUBKEY_HEX env)" [FStr field])
  else match hex_DecodeString hexStr with
       | None => inl (Errorf "%s is not valid hex: %w" [FStr field; FErr hex_error])
       | Some b =>
           if negb (slen b =? PublicKeySize)
           then inl (Errorf "%s must be %d bytes (Ed25519), got %d" [FStr field; FInt PublicKeySize; FInt (slen b)])
           else inr b
       end.
Fixpoint decode_keys (i : nat) (hexes : list string) (field : string) : error + list string :=
  match hexes with
  | [] => inr []
  | h :: rest =>
      match shares_decodeEd25519Key h (field +:+ "[" +:+ fmt_d (Z.of_nat i) +:+ "]") with
      | inl e => inl e
      | inr k => match decode_keys (S i) rest field with inl e => inl e | inr ks => inr (k :: ks) end
      end
  end.
Definition decodeKeySlice (hexes : slice string) (field : string) : error + list string := decode_keys 0 (elems hexes) field.
Section verifier.
Context `{C : Crypto}.
Definition shares_buildVerifier (m : Manifest) : error + IdentityVerifier :=
  let provider := ManifestIdentity_Provider (Manifest_Identity m) in
  let key := shares_decodeEd25519Key (ManifestIdentity_IssuerPubKeyHex (Manifest_Identity m)) "identity.issuer_pubkey_hex" in
  if bool_decide (provider = "didit") then match key with inl e => inl e | inr pub => inr (DiditVerifier pub) end
  else if bool_decide (provider = "identus") then match key with inl e => inl e | inr pub => inr (IdentusVerifier pub) end
  else if bool_decide (provider = "wallet") then inr WalletVerifier
  else if bool_decide (provider = "none") then inr NoopVerifier
  else inl (Errorf "unsupported identity.provider %q in shyconfig" [FStr provider]).
End verifier.
