(* ===== verification/ConfigTheorems.v ===== *)
(** The manifest gate: what an accepted manifest is, the separation it guarantees, the
    runtime configuration it yields, and how environment overrides and key lists read. *)
From S2P Require Import Prelude GoStd Json Identity Config.

(** ** The gate *)
(** The entity that operates the ledger, by deployment tier, in the vocabulary of
    [reconcile_authority.operator]. *)
Definition ledger_entity (tier : string) : option string :=
  if bool_decide (tier = "self_hosted") then Some "operator"
  else if bool_decide (tier = "community") || bool_decide (tier = "hosted_dedicated") then Some "shyware"
  else None.
Definition separated (d : deploymentBlock) : Prop :=
  ∀ ra, deploymentBlock_ReconcileAuthority d = Some ra →
    reconcileAuthorityBlock_Operator ra ≠ "ledger_operator" ∧
    ledger_entity (deploymentBlock_DeploymentTier d) ≠ Some (reconcileAuthorityBlock_Operator ra).
(** What the gate asks of a manifest. *)
Definition well_formed (m : manifest) : Prop :=
  manifest_ContractVersion m ∈ SupportedContractVersions ∧
  is_Some (manifest_App m) ∧ is_Some (manifest_Domains m) ∧ is_Some (manifest_API m) ∧
  (∃ i, manifest_Identity m = Some i ∧ identityBlock_Provider i ∈ validProviders) ∧
  (∃ s, manifest_Signing m = Some s ∧ signingBlock_Backend s ≠ "") ∧
  ∃ d, manifest_Deployment m = Some d ∧ deploymentBlock_DefaultPosture d ∈ validPostures ∧
    AttestationConfig_Mode (deploymentBlock_Attestation d) ∈ "" :: validModes ∧ separated d.

Section gate.
Context {St : Type}.
Implicit Types st : St.

Lemma pass_if c e (k : unit → M St unit) st : c = false → (fail_if c e ≫= k) st = k tt st.
Proof. by intros ->. Qed.
Lemma pass_or {A} (a : A) e (k : A → M St unit) st : (or_fail (Some a) e ≫= k) st = k a st.
Proof. done. Qed.
(** The guards neither write nor panic. *)
Definition quiet {A} (m : M St A) : Prop := ∀ st, (m st).2 = st ∧ (m st).1 ≠ Panic.
Lemma quiet_bind {A B} (m : M St A) (k : A → M St B) : quiet m → (∀ a, quiet (k a)) → quiet (m ≫= k).
Proof. intros Hm Hk st. rewrite bind_run. destruct (Hm st) as [H1 H2]. destruct (m st) as [[a|e|] s1]; cbn in *; subst; [apply Hk|done|done]. Qed.
Lemma quiet_if c e : quiet (fail_if c e).
Proof. intros st. by destruct c. Qed.
Lemma quiet_or {A} (o : option A) e : quiet (or_fail o e).
Proof. intros st. by destruct o. Qed.
Lemma validate_parsed_quiet m : quiet (validate_parsed m).
Proof.
  unfold validate_parsed, check_separation.
  repeat first [apply quiet_if | apply quiet_or | apply quiet_bind; [|intros] | progress cbv zeta].
  destruct (deploymentBlock_ReconcileAuthority _); [|by intros st].
  repeat first [apply quiet_if | apply quiet_bind; [|intros] | progress cbv zeta].
Qed.
Lemma validate_parsed_pure m st st' u : validate_parsed m st = (Ok u, st') → st' = st.
Proof. intros E. destruct (validate_parsed_quiet m st) as [H _]. by rewrite E in H. Qed.
Lemma validate_parsed_total m st : (validate_parsed m st).1 ≠ Panic.
Proof. apply validate_parsed_quiet. Qed.

Lemma check_separation_spec d st st' u :
  check_separation d st = (Ok u, st') ↔ st' = st ∧ separated d.
Proof.
  destruct u. unfold check_separation, separated, ledger_entity.
  destruct (deploymentBlock_ReconcileAuthority d) as [[op ep]|]; [|rewrite mret_run; split; [intros [= ->]|intros [-> _]]; done].
  rewrite !bind_run, fail_if_run. cbn. split.
  - intros Hc. destruct (bool_decide (op = "ledger_operator")) eqn:E1; [done|]. cbn in Hc.
    rewrite bind_run, fail_if_run in Hc. destruct (bool_decide (op = "operator") && _) eqn:E2; [done|].
    rewrite fail_if_run in Hc. destruct (bool_decide (op = "shyware") && _) eqn:E3; [done|].
    injection Hc as ->. split; [done|]. intros ra [= <-]. cbn. split; [by bools|].
    intros Hl. clear E1. repeat case_bool_decide; by simplify_eq/=.
  - intros [-> Hs]. destruct (Hs _ eq_refl) as [H1 H2]. cbn in *. rewrite (bool_decide_false (op = "ledger_operator")) by done.
    rewrite bind_run, !fail_if_run.
    repeat case_bool_decide; simplify_eq/=; first [done | congruence].
Qed.
Lemma validate_parsed_spec m st : validate_parsed m st = (Ok tt, st) ↔ well_formed m.
Proof.
  unfold validate_parsed, well_formed. split.
  - intros Hv.
    repeat match type of Hv with
      | (_ ≫= _) _ = _ => let a := fresh "a" in let s1 := fresh "s" in let H1 := fresh "H" in
          apply bind_ok in Hv as (a & s1 & H1 & Hv);
          first [apply fail_if_ok in H1 as [H1 ->] | apply or_fail_ok in H1 as [H1 ->]]
      end.
    apply check_separation_spec in Hv as [_ Hs]. bools.
    split_and!; [done| | | |by eauto| |].
    1-3: by match goal with |- is_Some ?o => destruct o; [by eexists|done] end.
    + eexists. split; [done|]. unfold str_empty in *. by bools.
    + eexists. split_and!; try done. unfold str_empty in *.
      apply elem_of_cons. case_bool_decide; [by left|]. cbn in *. by bools; right.
  - intros (Hv & [a Ha] & [b Hb] & [c Hc] & (i & Hi & Hp) & (s & Hs & Hb2) & d & Hd & Hpo & Hm & Hsep).
    assert (∀ x, x ≠ "" → str_empty x = false) as Hne by (intros x ?; by apply bool_decide_eq_false).
    assert (manifest_ContractVersion m ≠ "") as Hv0 by (intros E; rewrite E in Hv; by apply (bool_decide_eq_true_2 _) in Hv).
    assert (identityBlock_Provider i ≠ "") as Hp0 by (intros E; rewrite E in Hp; by apply (bool_decide_eq_true_2 _) in Hp).
    rewrite pass_if by auto. rewrite (bool_decide_true _ Hv), Ha, Hb, Hc, !pass_if by done. rewrite Hi, pass_or, pass_if by auto.
    rewrite (bool_decide_true _ Hp), pass_if by done.
    rewrite Hs, pass_or, pass_if by (by apply Hne). rewrite Hd, pass_or. cbv zeta.
    rewrite (bool_decide_true (_ ∈ validPostures)) by done. rewrite pass_if by done.
    rewrite pass_if; [by apply check_separation_spec|].
    apply elem_of_cons in Hm as [->|Hm]; [done|]. rewrite (bool_decide_true (_ ∈ validModes)) by done. apply andb_false_r.
Qed.
Lemma ValidateManifest_iff (data : option json) st :
  ValidateManifest data st = (Ok tt, st) ↔ ∃ m : manifest, data ≫= unmarshal = Some m ∧ well_formed m.
Proof.
  unfold ValidateManifest. split.
  - intros (m & s1 & H1 & H2)%bind_ok. apply or_fail_ok in H1 as [Hm ->]. exists m. by rewrite <- validate_parsed_spec.
  - intros (m & -> & Hw). rewrite pass_or. by apply validate_parsed_spec.
Qed.
(** C37. The gate accepts exactly the documents that decode to a well-formed manifest:
    supported version, all blocks present, a known identity provider, a signing backend,
    a known posture, a known attestation mode or none, and the reconciling authority
    separated from the entity that runs the ledger. It never panics and, whatever its
    answer, writes nothing. It does not ask for the issuer's key. *)
Theorem ValidateManifest_accepts (data : option json) st :
  (ValidateManifest data st = (Ok tt, st) ↔ ∃ m : manifest, data ≫= unmarshal = Some m ∧ well_formed m) ∧
  (ValidateManifest data st).1 ≠ Panic ∧ (ValidateManifest data st).2 = st.
Proof.
  split; [apply ValidateManifest_iff|].
  apply and_comm, (quiet_bind (or_fail _ _) validate_parsed); [apply quiet_or|apply validate_parsed_quiet].
Qed.
Lemma default_attestation_spec (a : AttestationConfig) :
  AttestationConfig_Mode a ∈ "" :: validModes →
  AttestationConfig_Mode (default_attestation a) ∈ validModes ∧
  (AttestationConfig_Mode (default_attestation a) = "rolling" → 0 < AttestationConfig_RollingThreshold (default_attestation a)).
Proof.
  destruct a as [mode thr]. unfold default_attestation, str_empty. cbn [AttestationConfig_Mode].
  intros [->|Hm]%elem_of_cons.
  - change (bool_decide ("" = "")) with true. cbn.
    change (bool_decide ("rolling" = "rolling")) with true. cbn. destruct (Z.leb_spec thr 0); cbn; (split; [by left|]); lia.
  - destruct (decide (mode = "")) as [->|E]; [by apply (bool_decide_eq_true_2 _) in Hm|]. rewrite (bool_decide_false (mode = "")) by done. cbn.
    case_bool_decide as E2; cbn; [|done]. destruct (Z.leb_spec thr 0); cbn; (split; [done|]); lia.
Qed.
(** C38. What the runtime gets from an accepted manifest: an attestation mode that is one of
    the three, a positive threshold in the rolling mode, write-only exactly under the
    coercion-resistant posture; parsing never panics, and fails exactly when the gate
    refuses. *)
Theorem ParseManifest_spec (data : option json) st :
  match ParseManifest data st with
  | (Ok cfg, st') => st' = st ∧ ValidateManifest data st = (Ok tt, st) ∧
      PostureConfig_DefaultPosture cfg ∈ validPostures ∧
      (PostureConfig_WriteOnly cfg = true ↔ PostureConfig_DefaultPosture cfg = "coercion_resistant") ∧
      AttestationConfig_Mode (PostureConfig_Attestation cfg) ∈ validModes ∧
      (AttestationConfig_Mode (PostureConfig_Attestation cfg) = "rolling" →
         0 < AttestationConfig_RollingThreshold (PostureConfig_Attestation cfg))
  | (Fail e, st') => (ValidateManifest data st).1 = Fail e
  | (Panic, _) => False
  end.
Proof.
  unfold ParseManifest. rewrite bind_run. destruct (ValidateManifest data st) as [[[]|e|] st1] eqn:Ev; [|done|].
  - assert (st1 = st) as ->.
    { unfold ValidateManifest in Ev. apply bind_ok in Ev as (m & s1 & H1 & H2). apply or_fail_ok in H1 as [_ ->].
      eapply validate_parsed_pure. exact H2. }
    pose proof Ev as Hacc. apply ValidateManifest_iff in Ev as (m & Hm & _ & _ & _ & _ & _ & _ & d & Hd & Hp & Hmode & _).
    rewrite Hm. cbv zeta. cbn [from_option]. unfold id. rewrite Hd. rewrite bind_run, or_panic_run. cbn beta iota zeta. rewrite mret_run.
    destruct (default_attestation_spec _ Hmode) as [Ha1 Ha2]. split_and!; [done|done|done|by apply bool_decide_eq_true|done|done].
  - exfalso. revert Ev. unfold ValidateManifest. rewrite bind_run. destruct (or_fail _ _ st) as [[m|e|] s1] eqn:E.
    + intros Ev. pose proof (validate_parsed_total m s1) as Ht. by rewrite Ev in Ht.
    + done.
    + unfold or_fail in E. by destruct (data ≫= unmarshal).
Qed.
End gate.

(** ** Key lists *)
(** A key as it is written in a list: not empty, without the separator, not padded. *)
Definition plain_key (k : string) : Prop := k ≠ "" ∧ trimSpace k = k ∧ split_at k "," = [k].
Lemma split_at_app s t :
  split_at s "," = [s] → split_at (s +:+ String "," t) "," = s :: split_at t ",".
Proof.
  induction s as [|c s IH]; cbn; [done|]. case_bool_decide; [by intros [= ?]|].
  intros Hs. change (String c s +:+ String "," t) with (String c (s +:+ String "," t)). cbn [split_at]. rewrite (bool_decide_false (c = _)) by done.
  rewrite IH; [done|]. destruct (split_at s ",") as [|p ps] eqn:E; by simplify_eq/=.
Qed.
(** A comma-separated list of plain keys reads back as that list.
*)
Theorem splitCSV_join (keys : list string) : Forall plain_key keys → splitCSV (str_join keys ",") = keys.
Proof.
  intros Hk. unfold splitCSV, splitTrim. destruct keys as [|k keys]; [done|].
  assert (split_at (str_join (k :: keys) ",") "," = k :: keys) as ->.
  { revert k Hk. induction keys as [|k2 keys IH]; intros k [(_ & _ & H1) H2]%Forall_cons; [by cbn|].
    change (str_join (k :: k2 :: keys) ",") with (k +:+ String "," (str_join (k2 :: keys) ",")).
    by rewrite split_at_app, IH. }
  assert (trimSpace <$> k :: keys = k :: keys) as ->.
  { induction Hk as [|x l (_ & Hx & _) _ IH]; [done|]. cbn. by rewrite Hx, IH. }
  induction Hk as [|x l (Hx & _) _ IH]; [done|]. cbn. unfold str_empty at 1. rewrite bool_decide_false by done. cbn. by f_equal.
Qed.
(** Keys that decode are of the length [ed25519.Verify] asks for, as many as were given. *)
Theorem decodeKeySlice_lengths (hexes : slice string) field keys :
  decodeKeySlice hexes field = inr keys →
  length keys = length (elems hexes) ∧ Forall (λ k, slen k = PublicKeySize) keys.
Proof.
  unfold decodeKeySlice. generalize 0%nat as i. revert keys. induction (elems hexes) as [|h l IH]; intros keys i; cbn.
  - by intros [= <-].
  - destruct (shares_decodeEd25519Key h _) as [e|k] eqn:Ek; [done|]. destruct (decode_keys (S i) l field) as [e|ks] eqn:El; [done|].
    intros [= <-]. destruct (IH _ _ El) as [H1 H2]. cbn. split; [by rewrite H1|]. constructor; [|done].
    unfold shares_decodeEd25519Key in Ek. destruct (_ || _); [done|]. destruct (hex_DecodeString _) as [b|]; [|done].
    destruct (negb _) eqn:E; [done|]. injection Ek as <-. apply negb_false_iff, Z.eqb_eq in E. done.
Qed.

(** ** Environment overrides *)
(** The environment fills in what the manifest leaves empty and changes nothing else. *)
Theorem applyEnvOverrides_fills (env : string → string) (m : Manifest) :
  let m' := applyEnvOverrides env m in
  Manifest_ContractVersion m' = Manifest_ContractVersion m ∧ Manifest_App m' = Manifest_App m ∧
  ManifestIdentity_Provider (Manifest_Identity m') = ManifestIdentity_Provider (Manifest_Identity m) ∧
  (ManifestIdentity_IssuerPubKeyHex (Manifest_Identity m) ≠ "" → Manifest_Identity m' = Manifest_Identity m) ∧
  (ManifestSigning_TallyKeyID (Manifest_Signing m) ≠ "" → Manifest_Signing m' = Manifest_Signing m) ∧
  (is_Some (Manifest_Governance m') ↔ is_Some (Manifest_Governance m)) ∧
  (∀ g, Manifest_Governance m = Some g →
     ∃ g', Manifest_Governance m' = Some g' ∧ GovernanceManifest_Eligibility g' = GovernanceManifest_Eligibility g ∧
       (elems (GovernanceManifest_AuthorityKeys g) ≠ [] → GovernanceManifest_AuthorityKeys g' = GovernanceManifest_AuthorityKeys g) ∧
       (elems (GovernanceManifest_HouseKeys g) ≠ [] → GovernanceManifest_HouseKeys g' = GovernanceManifest_HouseKeys g)) ∧
  applyEnvOverrides env m' = m'.
Proof.
  assert (∀ v s, s ≠ "" → override_str v s = s) as Hstr.
  { intros v s Hs. unfold override_str, str_empty. rewrite (bool_decide_false (s = "")) by done. by rewrite andb_false_r. }
  assert (∀ v keys, elems keys ≠ [] → override_keys v keys = keys) as Hkeys.
  { intros v keys Hs. unfold override_keys, len. destruct (elems keys); [done|]. cbn. by rewrite andb_false_r. }
  assert (∀ v s, override_str v (override_str v s) = override_str v s) as Hstr2.
  { intros v s. unfold override_str. destruct (negb (str_empty v) && str_empty s) eqn:E; [|by rewrite E]. by destruct (negb (str_empty v) && str_empty v). }
  assert (∀ v keys, override_keys v (override_keys v keys) = override_keys v keys) as Hkeys2.
  { intros v keys. unfold override_keys. destruct (negb (str_empty v) && (len keys =? 0)) eqn:E; [|by rewrite E]. by destruct (negb (str_empty v) && (len (csv_slice v) =? 0)). }
  destruct m as [cv app [prov hex] [tally] g]. unfold applyEnvOverrides. cbn. split_and!; try done.
  - intros Hh. unfold field_set. cbn. by rewrite Hstr.
  - intros Hh. unfold field_set. cbn. by rewrite Hstr.
  - destruct g; cbn; split; intros [? ?]; by eexists.
  - intros g0 [= ->]. destruct g0 as [a b c d e]. eexists. split; [done|]. cbn. split_and!; auto.
  - unfold field_set. cbn. rewrite !Hstr2. destruct g as [[a b c d e]|]; cbn; [|done]. by rewrite !Hkeys2.
Qed.
