(* ===== verification/Persona.v ===== *)
(** services/identity/kyb.go and persona.go: the verification of an entity from a webhook
    of the KYB provider, its header, age and HMAC. *)
From S2P Require Import Prelude GoStd Json Sha256 Tables Config.

(** ** crypto/hmac over SHA-256 *)
Fixpoint xor_pad (pad : N) (key : string) : string :=
  match key with EmptyString => EmptyString | String c key' => String (ascii_of_N (N.lxor (N_of_ascii c) pad)) (xor_pad pad key') end.
Fixpoint zeros (n : nat) : string := match n with O => EmptyString | S n' => String zero (zeros n') end.
Definition hmac_key `{Crypto} (key : string) : string :=
  let key := if (64 <? String.length key)%nat then sha256 key else key in
  key +:+ zeros (64 - String.length key).
Definition hmac_sha256 `{Crypto} (key msg : string) : string :=
  sha256 (xor_pad 92 (hmac_key key) +:+ sha256 (xor_pad 54 (hmac_key key) +:+ msg)).

(** ** strconv and time *)
(** [strconv.ParseInt(s, 10, 64)]: a sign, then digits only, within range. *)
Fixpoint all_digits (s : string) : bool :=
  match s with EmptyString => true | String c s' => bool_decide (is_Some (digit_value c)) && all_digits s' end.
Definition ParseInt (s : string) : option Z :=
  let '(neg, digits) :=
    match s with
    | String "-" s' => (true, s')
    | String "+" s' => (false, s')
    | _ => (false, s)
    end in
  if str_empty digits || negb (all_digits digits) then None
  else let z := if neg then - scan_digits 0 digits else scan_digits 0 digits in
       if decide (int64_ok z) then Some z else None.
Definition unixToInternal : Z := 62135596800.
Definition Second : Z := 1000000000.
Definition Minute : Z := 60 * Second.
(** [time.Since(time.Unix(ts, 0))] at [now] nanoseconds after the epoch: the seconds of
    a time wrap, the difference saturates. *)
Definition time_Since (now ts : Z) : Z :=
  let d := now - (wrap64 (ts + unixToInternal) - unixToInternal) * Second in
  Z.max (- 2 ^ 63) (Z.min (2 ^ 63 - 1) d).

(** ** Data (kyb.go) *)
Record EntityVerificationRequest := mkEntityVerificationRequest {
  Req_InquiryID : string; Req_EntityPubKeyHex : string; Req_WebhookSig : string; Req_WebhookPayload : string }.
#[export] Instance Eta_EntityVerificationRequest : Eta EntityVerificationRequest := λ r,
  mkEntityVerificationRequest (Req_InquiryID r) (Req_EntityPubKeyHex r) (Req_WebhookSig r) (Req_WebhookPayload r).
Record EntityRecord := mkEntityRecord { EntityID : string; EntityName : string; VerificationStatus : string; PubKeyHex : string }.
#[export] Instance Eta_EntityRecord : Eta EntityRecord := λ r,
  mkEntityRecord (EntityID r) (EntityName r) (VerificationStatus r) (PubKeyHex r).
Definition KYBVerifier : Type := EntityVerificationRequest → res EntityRecord.

(** ** The event (persona.go) *)
Record PersonaAttributes := mkPersonaAttributes { Persona_Status : string; Persona_ReferenceID : string }.
#[export] Instance Json_PersonaAttributes : Json PersonaAttributes := {
  jzero := mkPersonaAttributes "" "";
  to_json r := JObj (required "status" (Persona_Status r) ++ required "reference-id" (Persona_ReferenceID r) ++ []);
  of_json := of_object (λ ms,
    x0 ← jfield ["status"; "reference-id"] ms "status";
    x1 ← jfield ["status"; "reference-id"] ms "reference-id";
    Some (mkPersonaAttributes x0 x1));
}.
Record PersonaAccountData := mkPersonaAccountData { Persona_AccountID : string }.
#[export] Instance Json_PersonaAccountData : Json PersonaAccountData := {
  jzero := mkPersonaAccountData "";
  to_json r := JObj (required "id" (Persona_AccountID r) ++ []);
  of_json := of_object (λ ms, x0 ← jfield ["id"] ms "id"; Some (mkPersonaAccountData x0));
}.
Record PersonaAccount := mkPersonaAccount { Persona_AccountData : PersonaAccountData }.
#[export] Instance Json_PersonaAccount : Json PersonaAccount := {
  jzero := mkPersonaAccount jzero;
  to_json r := JObj (required "data" (Persona_AccountData r) ++ []);
  of_json := of_object (λ ms, x0 ← jfield ["data"] ms "data"; Some (mkPersonaAccount x0));
}.
Record PersonaRelationships := mkPersonaRelationships { Persona_Account : PersonaAccount }.
#[export] Instance Json_PersonaRelationships : Json PersonaRelationships := {
  jzero := mkPersonaRelationships jzero;
  to_json r := JObj (required "account" (Persona_Account r) ++ []);
  of_json := of_object (λ ms, x0 ← jfield ["account"] ms "account"; Some (mkPersonaRelationships x0));
}.
Record PersonaData := mkPersonaData {
  Persona_Type : string; Persona_ID : string; Persona_Attributes : PersonaAttributes; Persona_Relationships : PersonaRelationships }.
Definition PersonaData_tags : list string := ["type"; "id"; "attributes"; "relationships"].
#[export] Instance Json_PersonaData : Json PersonaData := {
  jzero := mkPersonaData "" "" jzero jzero;
  to_json r := JObj (required "type" (Persona_Type r) ++ required "id" (Persona_ID r) ++
    required "attributes" (Persona_Attributes r) ++ required "relationships" (Persona_Relationships r) ++ []);
  of_json := of_object (λ ms,
    x0 ← jfield PersonaData_tags ms "type";
    x1 ← jfield PersonaData_tags ms "id";
    x2 ← jfield PersonaData_tags ms "attributes";
    x3 ← jfield PersonaData_tags ms "relationships";
    Some (mkPersonaData x0 x1 x2 x3));
}.
Record personaWebhookEvent := mkPersonaWebhookEvent { Persona_Data : PersonaData }.
#[export] Instance Json_personaWebhookEvent : Json personaWebhookEvent := {
  jzero := mkPersonaWebhookEvent jzero;
  to_json r := JObj (required "data" (Persona_Data r) ++ []);
  of_json := of_object (λ ms, x0 ← jfield ["data"] ms "data"; Some (mkPersonaWebhookEvent x0));
}.

(** ** The verifier (persona.go) *)
Record PersonaVerifier := mkPersonaVerifier { WebhookSecret : string; WebhookTolerance : Z }.
(** The last timestamp and the last signature of a header. *)
Definition read_header (sigHeader : string) : string * string :=
  foldl (λ '(timestamp, v1Sig) part,
    if has_prefix part "t=" then (trim_prefix part "t=", v1Sig)
    else if has_prefix part "v1=" then (timestamp, trim_prefix part "v1=")
    else (timestamp, v1Sig)) ("", "") (split_at sigHeader ",").
Section persona.
Context `{C : Crypto} (parse : string → option json) (v : PersonaVerifier) (now : Z).
(** [None] is acceptance. *)
Definition verifyWebhookSig (sigHeader payload : string) : option error :=
  let tolerance := if WebhookTolerance v =? 0 then 5 * Minute else WebhookTolerance v in
  let '(timestamp, v1Sig) := read_header sigHeader in
  if str_empty timestamp then Some (Errorf "missing timestamp (t=) in Persona-Signature header" [])
  else if str_empty v1Sig then Some (Errorf "missing v1 signature in Persona-Signature header" [])
  else match ParseInt timestamp with
  | None => Some (Errorf "invalid timestamp in Persona-Signature header: %w" [FErr (Errorf "strconv.ParseInt" [FStr timestamp])])
  | Some ts =>
      let age := time_Since now ts in
      if (tolerance <? age) || (age <? int64_sub 0 tolerance) then Some (Errorf "webhook timestamp out of tolerance: age=%s" [FInt age])
      else if bool_decide (v1Sig = hex_EncodeToString (hmac_sha256 (WebhookSecret v) (timestamp +:+ "." +:+ payload))) then None
      else Some (Errorf "Persona-Signature v1 mismatch" [])
  end.
Definition VerifyEntity : KYBVerifier := λ req,
  match verifyWebhookSig (Req_WebhookSig req) (Req_WebhookPayload req) with
  | Some e => Fail (Errorf "persona webhook signature: %w" [FErr e])
  | None =>
      match parse (Req_WebhookPayload req) ≫= unmarshal with
      | None => Fail (Errorf "persona webhook payload: %w" [FErr json_error])
      | Some event =>
          let inquiryID := Persona_ID (Persona_Data event) in
          let status := Persona_Status (Persona_Attributes (Persona_Data event)) in
          if str_empty inquiryID then Fail (Errorf "persona webhook payload: missing data.id" [])
          else if negb (str_empty (Req_InquiryID req)) && negb (bool_decide (inquiryID = Req_InquiryID req))
          then Fail (Errorf "persona webhook payload: inquiry ID mismatch: got %s, want %s" [FStr inquiryID; FStr (Req_InquiryID req)])
          else if negb (bool_decide (status = "approved"))
          then Fail (Errorf "persona inquiry %s is not approved (status: %s)" [FStr inquiryID; FStr status])
          else Ok (mkEntityRecord
            (Persona_AccountID (Persona_AccountData (Persona_Account (Persona_Relationships (Persona_Data event)))))
            (Persona_ReferenceID (Persona_Attributes (Persona_Data event))) status (Req_EntityPubKeyHex req))
      end
  end.
End persona.

(** ** Headers *)
Fixpoint no_comma (s : string) : bool :=
  match s with EmptyString => true | String c s' => negb (bool_decide (c = ","%char)) && no_comma s' end.
Lemma split_at_piece s : no_comma s = true → split_at s "," = [s].
Proof.
  induction s as [|c s IH]; [done|]. cbn. intros [Hc%negb_true_iff Hs]%andb_true_iff. by rewrite Hc, IH.
Qed.
Lemma split_at_cons s t : no_comma s = true → split_at (s +:+ String "," t) "," = s :: split_at t ",".
Proof.
  induction s as [|c s IH]; [done|]. cbn [no_comma]. intros [Hc%negb_true_iff Hs]%andb_true_iff.
  change (split_at (String c (s +:+ String "," t)) "," = String c s :: split_at t ","). cbn [split_at]. by rewrite Hc, IH.
Qed.
Lemma hex_no_comma s : no_comma (hex_EncodeToString s) = true.
Proof.
  induction s as [|c s IH]; [done|]. cbn [hex_EncodeToString no_comma]. rewrite IH.
  by destruct c as [[] [] [] [] [] [] [] []].
Qed.
(** The header the provider sends for a time and a signature. *)
Definition header (timestamp sig : string) : string := "t=" +:+ timestamp +:+ String "," ("v1=" +:+ sig).
Lemma read_header_header timestamp sig : no_comma timestamp = true → no_comma sig = true →
  read_header (header timestamp sig) = (timestamp, sig).
Proof.
  intros Ht Hs. unfold read_header, header. rewrite <- (str_app_assoc "t="), (split_at_cons ("t=" +:+ timestamp)) by done.
  rewrite split_at_piece by done. cbn [foldl]. by rewrite !has_prefix_app, !trim_prefix_app.
Qed.
Lemma time_Since_bounds now ts : int64_ok (time_Since now ts).
Proof. unfold time_Since, int64_ok. lia. Qed.

Section theorems.
Context `{C : Crypto} (parse : string → option json) (v : PersonaVerifier) (now : Z).
Definition tolerance_of : Z := if WebhookTolerance v =? 0 then 5 * Minute else WebhookTolerance v.
Definition webhook_mac (timestamp payload : string) : string :=
  hex_EncodeToString (hmac_sha256 (WebhookSecret v) (timestamp +:+ "." +:+ payload)).
(** A header is accepted exactly when its last time parses, is within the tolerance on
    either side of the clock, and its last signature is the MAC of that time and the body. *)
Lemma verifyWebhookSig_spec sigHeader payload :
  verifyWebhookSig v now sigHeader payload = None ↔
  ∃ timestamp ts, read_header sigHeader = (timestamp, webhook_mac timestamp payload) ∧ timestamp ≠ "" ∧
    webhook_mac timestamp payload ≠ "" ∧ ParseInt timestamp = Some ts ∧
    int64_sub 0 tolerance_of ≤ time_Since now ts ≤ tolerance_of.
Proof.
  unfold verifyWebhookSig. fold tolerance_of. destruct (read_header sigHeader) as [timestamp sig]. cbv zeta.
  unfold str_empty. fold (webhook_mac timestamp payload). split.
  - do 2 (case_bool_decide; [done|]). destruct (ParseInt timestamp) as [ts|] eqn:Ep; [|done].
    destruct (_ || _) eqn:Eb; [done|]. apply orb_false_iff in Eb as [H1 H2]. case_bool_decide; [|done].
    intros _. subst sig. exists timestamp, ts. split_and!; [done..|lia|lia].
  - intros (t & ts & [= -> ->] & Ht & Hs & Hp & Hl & Hh). rewrite !bool_decide_false by done. rewrite Hp.
    replace (tolerance_of <? time_Since now ts) with false by lia.
    replace (time_Since now ts <? int64_sub 0 tolerance_of) with false by lia.
    cbn. by rewrite bool_decide_true.
Qed.

(** What the verifier accepts is an event whose body the provider signed within the
    tolerance, about an approved inquiry, the one asked for when one is; the record holds
    what the event names and the key of the request. *)
Theorem VerifyEntity_sound req r : VerifyEntity parse v now req = Ok r →
  verifyWebhookSig v now (Req_WebhookSig req) (Req_WebhookPayload req) = None ∧
  ∃ event : personaWebhookEvent, let data := Persona_Data event in
    parse (Req_WebhookPayload req) ≫= unmarshal = Some event ∧ Persona_ID data ≠ "" ∧
    (Req_InquiryID req = "" ∨ Persona_ID data = Req_InquiryID req) ∧ Persona_Status (Persona_Attributes data) = "approved" ∧
    r = mkEntityRecord (Persona_AccountID (Persona_AccountData (Persona_Account (Persona_Relationships data))))
          (Persona_ReferenceID (Persona_Attributes data)) "approved" (Req_EntityPubKeyHex req).
Proof.
  unfold VerifyEntity, str_empty. destruct (verifyWebhookSig _ _ _ _) as [e|]; [done|].
  destruct (parse _ ≫= unmarshal) as [event|]; [|done]. intros H. split; [done|]. exists event. cbv zeta in *.
  case_bool_decide; [done|]. destruct (_ && _) eqn:E in H; [done|].
  destruct (bool_decide (_ = "approved")) eqn:Ea in H; [|done]. apply bool_decide_eq_true in Ea.
  injection H as <-. rewrite Ea. split_and!; [done..| |done|done].
  apply andb_false_iff in E as [E%negb_false_iff%bool_decide_eq_true|E%negb_false_iff%bool_decide_eq_true]; auto.
Qed.
(** An event the provider signed is accepted: the header made from the MAC of a time within
    the tolerance and the body. *)
Theorem signed_webhook_accepted timestamp ts payload : CryptoLaws C →
  timestamp ≠ "" → no_comma timestamp = true → ParseInt timestamp = Some ts →
  int64_sub 0 tolerance_of ≤ time_Since now ts ≤ tolerance_of →
  verifyWebhookSig v now (header timestamp (webhook_mac timestamp payload)) payload = None.
Proof.
  intros HC Hne Hc Hp Ht. apply verifyWebhookSig_spec. exists timestamp, ts.
  split_and!; [|done| |done|lia|lia]; [apply read_header_header; [done|apply hex_no_comma]|].
  intros E. apply (f_equal String.length) in E. unfold webhook_mac, hmac_sha256 in E.
  rewrite hex_encode_length, sha256_length in E. done.
Qed.
(** The signature does not cover the key: one event binds its entity to any key. *)
Theorem webhook_binds_any_key req r (key : string) : VerifyEntity parse v now req = Ok r →
  VerifyEntity parse v now (req <| Req_EntityPubKeyHex := key |>) = Ok (r <| PubKeyHex := key |>).
Proof.
  unfold VerifyEntity. fields. destruct (verifyWebhookSig _ _ _ _) as [e|]; [done|].
  destruct (parse _ ≫= unmarshal) as [event|]; [|done]. cbv zeta. repeat (case_match; [done|]). by intros [= <-].
Qed.
End theorems.

(** A published value of HMAC-SHA256. *)
Example hmac_vector : hex_EncodeToString (hmac_sha256 (H := go_crypto (λ _ _ _, false)) "key" "The quick brown fox jumps over the lazy dog") =
  "f7bc83f430538424b13298e6aa6fb143ef4d59a14946175997479dbc2d1a3cd8".
Proof. by vm_compute. Qed.

(** ** A webhook *)
#[local] Existing Instance demo_crypto.
Definition persona : PersonaVerifier := mkPersonaVerifier "whsec" 0.
Definition persona_event (status : string) : personaWebhookEvent :=
  mkPersonaWebhookEvent (mkPersonaData "event" "inq_1" (mkPersonaAttributes status "House") 
    (mkPersonaRelationships (mkPersonaAccount (mkPersonaAccountData "act_1")))).
Definition persona_parse (t : string) : option json :=
  if bool_decide (t = "approved") || bool_decide (t = "declined") then Some (to_json (persona_event t)) else None.
Definition persona_request (body : string) : EntityVerificationRequest :=
  mkEntityVerificationRequest "inq_1" "key" (header "1700000000" (webhook_mac persona "1700000000" body)) body.
Definition verified (body : string) (at_ : Z) : res EntityRecord :=
  VerifyEntity persona_parse persona (at_ * Second) (persona_request body).
Example persona_approved : verified "approved" 1700000060 = Ok (mkEntityRecord "act_1" "House" "approved" "key").
Proof. by vm_compute. Qed.
Example persona_declined : res_ok (verified "declined" 1700000060) = false.
Proof. by vm_compute. Qed.
(** The window is closed on both sides. *)
Example persona_window :
  (λ t, res_ok (verified "approved" t)) <$> [1699999699; 1699999700; 1700000300; 1700000301] = [false; true; true; false].
Proof. by vm_compute. Qed.
Example ParseInt_examples :
  ParseInt <$> ["12"; "-7"; "+3"; ""; "-"; "1_0"; "9223372036854775807"; "9223372036854775808"; "-9223372036854775808"] =
  [Some 12; Some (-7); Some 3; None; None; None; Some (2 ^ 63 - 1); None; Some (- 2 ^ 63)].
Proof. by vm_compute. Qed.

Lemma VerifyEntity_sound_witness : verifyWebhookSig persona (1700000060 * Second)
  (Req_WebhookSig (persona_request "approved")) "approved" = None.
Proof.
  by apply (VerifyEntity_sound persona_parse persona (1700000060 * Second) (persona_request "approved")
    (mkEntityRecord "act_1" "House" "approved" "key")); vm_compute.
Defined.
Lemma webhook_binds_any_key_witness :
  VerifyEntity persona_parse persona (1700000060 * Second) ((persona_request "approved") <| Req_EntityPubKeyHex := "other" |>) =
  Ok (mkEntityRecord "act_1" "House" "approved" "other").
Proof.
  by apply (webhook_binds_any_key persona_parse persona (1700000060 * Second) (persona_request "approved")
    (mkEntityRecord "act_1" "House" "approved" "key") "other"); vm_compute.
Defined.
