(* ===== verification/Http.v ===== *)
(** What the HTTP handlers of api/ share: a response, and a handler written as a
    sequence of checks each of which may answer the request and end it. *)
From S2P Require Import Prelude GoStd Json.

(** A response: its status, the error of a [writeError] and the body of a [writeJSON],
    of which nothing is written when it does not marshal. *)
Record Response := mkResponse { Resp_Status : Z; Resp_Error : option error; Resp_Body : option json }.
Definition writeError (status : Z) (e : error) : Response := mkResponse status (Some e) None.
Definition writeJSON (status : Z) (body : option json) : Response := mkResponse status None body.

(** ** Early answers *)
Section early.
Context {S Response : Type}.
(** A step of a handler: it answers the request, or it goes on with a value. *)
Definition or_answer {A} (m : M S (Response + A)) (k : A → M S Response) : M S Response :=
  x ← m; match x with inl r => mret r | inr a => k a end.
Definition answer_if (b : bool) (r : Response) : M S (Response + unit) := mret (if b then inl r else inr tt).
Definition need {A} (o : option A) (r : Response) : M S (Response + A) :=
  mret (match o with None => inl r | Some a => inr a end).
(** A call whose error is answered with [h]. *)
Definition attempt {A} (m : M S A) (h : error → Response) : M S (Response + A) :=
  r ← try m;
  match r with Ok a => mret (inr a) | Fail e => mret (inl (h e)) | Panic => panicM end.

(** What each step comes to. *)
Lemma answer_if_run b r (k : unit → M S Response) s :
  or_answer (answer_if b r) k s = if b then (Ok r, s) else k tt s.
Proof. by destruct b. Qed.
Lemma need_run {A} (o : option A) r k s :
  or_answer (need o r) k s = match o with None => (Ok r, s) | Some a => k a s end.
Proof. by destruct o. Qed.
Lemma answered_run {A} (x : Response + A) k s :
  or_answer (mret x) k s = match x with inl r => (Ok r, s) | inr a => k a s end.
Proof. by destruct x. Qed.
Lemma attempt_run {A} (m : M S A) h k s :
  or_answer (attempt m h) k s =
  match m s with (Ok a, s') => k a s' | (Fail e, s') => (Ok (h e), s') | (Panic, s') => (Panic, s') end.
Proof. unfold or_answer, attempt. rewrite !bind_run. unfold try. by destruct (m s) as [[a|e|] s']. Qed.

(** Steps that move the state by a relation. *)
Context (R : S → S → Prop) `{!Reflexive R, !Transitive R}.
Lemma keeps_answer {A} (m : M S (Response + A)) k : keeps R m → (∀ a, keeps R (k a)) → keeps R (or_answer m k).
Proof.
  intros Hm Hk. apply keeps_bind; [apply _|done|]. intros [r|a]; [by apply keeps_ret|apply Hk].
Qed.
Lemma keeps_answer_if b r : keeps R (answer_if b r).
Proof. by apply keeps_ret. Qed.
Lemma keeps_need {A} (o : option A) r : keeps R (need o r).
Proof. by apply keeps_ret. Qed.
Lemma keeps_attempt {A} (m : M S A) h : keeps R m → keeps R (attempt m h).
Proof.
  intros Hm. apply keeps_bind; [apply _|by apply keeps_try|]. intros [a|e|]; [by apply keeps_ret..|by apply keeps_panic].
Qed.
End early.
(** Decomposes a handler; what is left are the obligations of its calls. *)
Ltac http_auto :=
  repeat first
    [ progress keeps_auto
    | lazymatch goal with
      | |- keeps _ (or_answer _ _) => apply keeps_answer; [apply _..| |intros ?]
      | |- keeps _ (answer_if _ _) => apply keeps_answer_if; apply _
      | |- keeps _ (need _ _) => apply keeps_need; apply _
      | |- keeps _ (attempt _ _) => apply keeps_attempt; [apply _..|]
      end ].
Declare Scope http_scope.
Delimit Scope http_scope with http.
Notation "x ⇐ m ; k" := (or_answer m (λ x, k)) (at level 20, m at level 100, k at level 200) : http_scope.
