(* ===== verification/Relay.v ===== *)
(** api/relay/server.go: the ingress relay. Ballots wait in a queue per poll; a flush
    takes the queue of a poll, shuffles it, forwards it submission by submission to the
    upstream server and puts back what was not accepted.

    [parse] reads JSON text; [upstream] is the server behind the relay, which answers a
    request ([None] is a transport error, [Some None] a body that is no JSON) as it
    likes given all requests before; [draw] is the random source of the shuffle. *)
From S2P Require Import Prelude GoStd Json Http TxData TxValidate.

(** A request sent upstream, with its answer; [None] is the empty body of a flush. *)
Record Call := mkCall { Call_URL : string; Call_Tx : option string; Call_Answer : option (option json) }.
(** [Server], with the log of the requests it has sent. *)
Record Server := mkServer {
  upstreamBase : string;
  queue : gmap string (list string);
  outbox : list Call;
}.
#[export] Instance Eta_Server : Eta Server := λ r, mkServer (upstreamBase r) (queue r) (outbox r).
(** [strings.TrimRight(s, "/")]. *)
Fixpoint trim_slashes (s : string) : string :=
  match s with
  | EmptyString => EmptyString
  | String c s' => let t := trim_slashes s' in
      if str_empty t && bool_decide (c = "/"%char) then EmptyString else String c t
  end.
Definition NewServer (base : string) : Server := mkServer (trim_slashes base) ∅ [].
Definition queued (s : Server) (pollID : string) : list string := default [] (queue s !! pollID).

(** [responseHasErrorStatus]: the body is an object with the key "error". *)
Definition responseHasErrorStatus (raw : option json) : bool :=
  match raw with
  | Some (JObj kvs) => bool_decide ("error" ∈ kvs.*1)
  | _ => false
  end.
Definition accepted (answer : option (option json)) : bool :=
  match answer with Some raw => negb (responseHasErrorStatus raw) | None => false end.

(** [shuffle]: the loop from the last index down to 1, each exchanged with the drawn one;
    on an error the batch stays as far shuffled as it is. *)
Definition swap {A} (i j : nat) (l : list A) : list A :=
  match l !! i, l !! j with
  | Some x, Some y => <[i := y]> (<[j := x]> l)
  | _, _ => l
  end.
Fixpoint shuffle_from {A} (draw : nat → option nat) (i : nat) (batch : list A) : list A * bool :=
  match i with
  | O => (batch, true)
  | S i' =>
      match draw i with
      | None => (batch, false)
      | Some j => shuffle_from draw i' (swap i j batch)
      end
  end.
Definition shuffle {A} (draw : nat → option nat) (batch : list A) : list A * bool :=
  shuffle_from draw (length batch - 1) batch.

Section server.
Context (parse : string → option json) (upstream : list Call → string → option string → option (option json)).

Definition count_body (pollID : string) (n : nat) : list (string * json) :=
  [("scoping_id", JStr pollID); ("queue_count", JInt (Z.of_nat n))].
(** [submitBallot]: [body] is the decoded request. *)
Definition submitBallot (body : option string) : M Server Response :=
  match body with
  | None => mret (writeError 400 (Errorf "invalid request body" []))
  | Some text =>
      if str_empty text then mret (writeError 400 (Errorf "missing tx field" [])) else
      match parse text ≫= unmarshal with
      | None => mret (writeError 400 (Errorf "invalid tx JSON: %v" [FErr json_error]))
      | Some envelope =>
          r ← try (Validate envelope);
          match r with
          | Ok _ =>
              if negb (Tx_Type envelope =? TxTypeBallotCast)
              then mret (writeError 400 (Errorf "tx.type must be TxTypeBallotCast" [])) else
              match UnmarshalData (A := BallotCastData) envelope with
              | None => mret (writeError 400 (Errorf "invalid ballot cast data: %v" [FErr json_error]))
              | Some data =>
                  let pollID := BallotCastData_PollID data in
                  if str_empty pollID then mret (writeError 400 (Errorf "poll_id required" [])) else
                  modify (λ s, s <| queue ::= <[pollID := queued s pollID ++ [text]]> |>) ;;
                  s ← gets id;
                  mret (writeJSON 200 (Some (JObj (("queued", JBool true) :: count_body pollID (length (queued s pollID))))))
              end
          | Fail e => mret (writeError 400 (Errorf "invalid tx: %v" [FErr e]))
          | Panic => panicM
          end
      end
  end.
Definition getQueueCount (s : Server) (pollID : string) : Response :=
  writeJSON 200 (Some (JObj (count_body pollID (length (queued s pollID))))).

Definition dequeue (pollID : string) : M Server (list string) :=
  s ← gets id;
  modify (λ s, s <| queue ::= delete pollID |>) ;;
  mret (queued s pollID).
Definition restore (pollID : string) (batch : list string) : M Server unit :=
  match batch with
  | [] => mret tt
  | _ => modify (λ s, s <| queue ::= <[pollID := batch ++ queued s pollID]> |>)
  end.
(** [postJSON]: the status of the answer is not looked at. *)
Definition postJSON (url : string) (tx : option string) : M Server (option (option json)) :=
  s ← gets id;
  let answer := upstream (outbox s) url tx in
  modify (λ s, s <| outbox ::= λ l, l ++ [mkCall url tx answer] |>) ;;
  mret answer.
(** The forwarding loop of [flushPoll]: [Some] is the response it returns early with. *)
Fixpoint forward (pollID : string) (batch : list string) : M Server (option Response) :=
  match batch with
  | [] => mret None
  | item :: rest =>
      s ← gets id;
      answer ← postJSON (upstreamBase s +:+ "/ballots") (Some item);
      if accepted answer then forward pollID rest
      else
        restore pollID (item :: rest) ;;
        mret (Some (match answer with
                    | None => writeError 502 (Errorf "upstream queue submit failed: %v" [FErr (Errorf "http" [])])
                    | Some raw => writeJSON 409 raw
                    end))
  end.
Definition flushPoll (draw : nat → option nat) (pollID : string) : M Server Response :=
  batch ← dequeue pollID;
  match batch with
  | [] => mret (writeError 404 (Errorf "no queued relay submissions for poll" []))
  | _ =>
      let '(batch, ok) := shuffle draw batch in
      if negb ok then
        restore pollID batch ;;
        mret (writeError 500 (Errorf "shuffle failed: %v" [FErr (Errorf "rand" [])]))
      else
        early ← forward pollID batch;
        match early with
        | Some r => mret r
        | None =>
            s ← gets id;
            result ← postJSON (upstreamBase s +:+ "/polls/" +:+ pollID +:+ "/flush") None;
            match result with
            | None =>
                restore pollID [] ;;
                mret (writeError 502 (Errorf "upstream flush failed: %v" [FErr (Errorf "http" [])]))
            | Some raw =>
                if responseHasErrorStatus raw then mret (writeJSON 409 raw)
                else mret (writeJSON 200 (body ← raw; Some (JObj
                  [("relayed", JBool true); ("scoping_id", JStr pollID);
                   ("submission_count", JInt (Z.of_nat (length batch))); ("result", body)])))
            end
        end
  end.
End server.

(** ** Concurrency
    The lock is held by [submitBallot]'s append, by [dequeue] and by [restore], not
    across a flush: requests run concurrently, one atomic piece at a time. *)
(** Where a running [flushPoll] stands: before the next request, or about to restore. *)
Inductive Phase := Sending | Restoring.
Record Flush := mkFlush { Flush_PollID : string; Flush_Batch : list string; Flush_Phase : Phase }.
(** The server, the running flushes, and the submissions answered with 200 so far. *)
Record World := mkWorld { w_server : Server; w_flushes : list Flush; w_taken : list string }.
Section concurrency.
Context (parse : string → option json) (upstream : list Call → string → option string → option (option json)).
Definition taken (body : option string) (r : Response) : list string :=
  if Resp_Status r =? 200 then match body with Some text => [text] | None => [] end else [].
Inductive step : World → World → Prop :=
  | step_submit body s r s' fl tk :
      submitBallot parse body s = (Ok r, s') →
      step (mkWorld s fl tk) (mkWorld s' fl (taken body r ++ tk))
  | step_start draw pollID s batch s' batch' ok fl tk :
      dequeue pollID s = (Ok batch, s') → shuffle draw batch = (batch', ok) →
      step (mkWorld s fl tk) (mkWorld s' (mkFlush pollID batch' (if ok : bool then Sending else Restoring) :: fl) tk)
  | step_send pollID item rest s answer s' fl1 fl2 tk :
      postJSON upstream (upstreamBase s +:+ "/ballots") (Some item) s = (Ok answer, s') →
      step (mkWorld s (fl1 ++ mkFlush pollID (item :: rest) Sending :: fl2) tk)
           (mkWorld s' (fl1 ++ (if accepted answer then mkFlush pollID rest Sending
                                else mkFlush pollID (item :: rest) Restoring) :: fl2) tk)
  | step_restore pollID batch s s' fl1 fl2 tk :
      restore pollID batch s = (Ok tt, s') →
      step (mkWorld s (fl1 ++ mkFlush pollID batch Restoring :: fl2) tk) (mkWorld s' (fl1 ++ fl2) tk)
  | step_finish pollID s answer s' fl1 fl2 tk :
      postJSON upstream (upstreamBase s +:+ "/polls/" +:+ pollID +:+ "/flush") None s = (Ok answer, s') →
      step (mkWorld s (fl1 ++ mkFlush pollID [] Sending :: fl2) tk) (mkWorld s' (fl1 ++ fl2) tk).
End concurrency.
