(* ===== verification/RelayTheorems.v ===== *)
(** The ingress relay loses no ballot: the shuffle is a permutation, a flush splits its
    batch into what upstream accepted and what goes back to the queue, and so does any
    interleaving of submissions and flushes. *)
From S2P Require Import Prelude GoStd Json Http TxData TxValidate Relay.

(** ** The shuffle *)
Lemma swap_perm {A} i j (l : list A) : swap i j l ≡ₚ l.
Proof. unfold swap. destruct (l !! i) eqn:Ei, (l !! j) eqn:Ej; try done. by apply Permutation_insert_swap. Qed.
(** Whatever is drawn, and even when the random source fails half way, the batch holds
    the same submissions. *)
Theorem shuffle_permutes {A} (draw : nat → option nat) (batch : list A) : (shuffle draw batch).1 ≡ₚ batch.
Proof.
  unfold shuffle. generalize (length batch - 1)%nat as i. intros i. revert batch.
  induction i as [|i IH]; intros batch; cbn; [done|]. destruct (draw (S i)) as [j|]; [|done].
  by rewrite IH, swap_perm.
Qed.

(** ** Bookkeeping *)
(** The submissions upstream accepted, as the relay sees it. *)
Definition delivered (calls : list Call) : list string :=
  omap (λ c, if accepted (Call_Answer c) then Call_Tx c else None) calls.
Definition all_queued (s : Server) : list string := concat (map_to_list (queue s)).*2.
Lemma delivered_app l1 l2 : delivered (l1 ++ l2) = delivered l1 ++ delivered l2.
Proof. apply omap_app. Qed.
Lemma all_queued_split s pollID :
  all_queued s ≡ₚ queued s pollID ++ concat (map_to_list (delete pollID (queue s))).*2.
Proof.
  unfold all_queued, queued. destruct (queue s !! pollID) as [l|] eqn:E; cbn.
  - rewrite <- (insert_delete_id (queue s) pollID l) at 1 by done.
    by rewrite map_to_list_insert by apply lookup_delete_eq.
  - by rewrite delete_id.
Qed.
Lemma all_queued_insert s pollID l :
  all_queued (s <| queue ::= <[pollID := l]> |>) ≡ₚ l ++ concat (map_to_list (delete pollID (queue s))).*2.
Proof. rewrite (all_queued_split _ pollID). unfold queued. fields. by rewrite lookup_insert_eq, delete_insert_eq. Qed.
Lemma all_queued_delete s pollID : queued s pollID ++ all_queued (s <| queue ::= delete pollID |>) ≡ₚ all_queued s.
Proof. symmetry. apply all_queued_split. Qed.
Lemma all_queued_push s pollID l :
  all_queued (s <| queue ::= <[pollID := l ++ queued s pollID]> |>) ≡ₚ l ++ all_queued s.
Proof. by rewrite all_queued_insert, (all_queued_split s pollID), <- (assoc_L (++)). Qed.

Section relay.
Context (parse : string → option json) (upstream : list Call → string → option string → option (option json)).

(** ** Each operation *)
Lemma postJSON_run url tx s :
  postJSON upstream url tx s = (Ok (upstream (outbox s) url tx),
    s <| outbox ::= λ l, l ++ [mkCall url tx (upstream (outbox s) url tx)] |>).
Proof. done. Qed.
Lemma restore_run pollID batch s :
  ∃ s', restore pollID batch s = (Ok tt, s') ∧ outbox s' = outbox s ∧ upstreamBase s' = upstreamBase s ∧
    queued s' pollID = batch ++ queued s pollID ∧ (∀ p, p ≠ pollID → queued s' p = queued s p) ∧
    all_queued s' ≡ₚ batch ++ all_queued s.
Proof.
  destruct batch as [|b batch]; [by exists s|]. unfold restore. rewrite modify_run. eexists. split; [done|].
  split_and!; [done|done| | |by apply all_queued_push]; unfold queued; fields.
  - by rewrite lookup_insert_eq.
  - intros p Hp. by rewrite lookup_insert_ne.
Qed.
(** The response to a submission: 200 exactly when the text went to the end of its
    poll's queue; any other response leaves the server as it was. *)
Lemma relay_submitBallot_run body s :
  ∃ r s', submitBallot parse body s = (Ok r, s') ∧ outbox s' = outbox s ∧
    ((Resp_Status r = 200 ∧ ∃ text pollID, body = Some text ∧ pollID ≠ "" ∧
        queued s' pollID = queued s pollID ++ [text] ∧ all_queued s' ≡ₚ text :: all_queued s) ∨
     (Resp_Status r = 400 ∧ s' = s)).
Proof.
  unfold submitBallot. destruct body as [text|]; [|rewrite mret_run; eauto 10].
  destruct (str_empty text); [rewrite mret_run; eauto 10|].
  destruct (parse text ≫= unmarshal) as [envelope|]; [|rewrite mret_run; eauto 10].
  destruct (Validate_benign envelope s) as [Hs Hp]. rewrite bind_run. unfold try.
  destruct (Validate envelope s) as [[u|e|] s1]; cbn in Hs; subst; [|rewrite mret_run; eauto 10|done].
  destruct (negb _); [rewrite mret_run; eauto 10|].
  destruct (UnmarshalData envelope) as [data|]; [|rewrite mret_run; eauto 10].
  destruct (str_empty (BallotCastData_PollID data)) eqn:He; [rewrite mret_run; eauto 10|].
  cbv zeta. mrun. do 2 eexists. split; [done|]. split; [done|]. left. split; [done|].
  exists text, (BallotCastData_PollID data). split_and!; [done|by apply bool_decide_eq_false in He| |].
  - unfold queued. fields. by rewrite lookup_insert_eq.
  - rewrite all_queued_insert, (all_queued_split s (BallotCastData_PollID data)). solve_Permutation.
Qed.
(** The forwarding loop delivers a prefix of its batch and restores the rest. *)
Lemma forward_run pollID batch : ∀ s, ∃ r s' calls,
  forward upstream pollID batch s = (Ok r, s') ∧ outbox s' = outbox s ++ calls ∧
  batch ++ queued s pollID = delivered calls ++ queued s' pollID ∧ (∀ p, p ≠ pollID → queued s' p = queued s p) ∧
  (r = None → delivered calls = batch ∧ queued s' pollID = queued s pollID) ∧ (∀ resp, r = Some resp → Resp_Status resp = 502 ∨ Resp_Status resp = 409).
Proof.
  induction batch as [|item rest IH]; intros s; cbn [forward].
  - exists None, s, []. rewrite app_nil_r. by split_and!.
  - rewrite bind_run, gets_run. cbn beta iota. rewrite bind_run, postJSON_run. cbn beta iota.
    set (url := _ +:+ _). set (answer := upstream _ _ _). set (s1 := s <| outbox ::= _ |>).
    destruct (accepted answer) eqn:Ea.
    + destruct (IH s1) as (r & s' & calls & -> & Ho & Hq & Hp & Hn & Hr). exists r, s', (mkCall url (Some item) answer :: calls).
      split; [done|]. split; [by rewrite Ho; unfold s1; fields; rewrite <- (assoc_L (++))|].
      change (delivered (mkCall url (Some item) answer :: calls)) with (delivered ([mkCall url (Some item) answer] ++ calls)).
      rewrite delivered_app. unfold delivered at 1 3. cbn. rewrite Ea. cbn. split_and!; [by rewrite <- Hq|done| |done].
      intros Hnone. destruct (Hn Hnone) as [-> ?]. done.
    + destruct (restore_run pollID (item :: rest) s1) as (s2 & E & Ho & _ & Hq & Hp & _).
      rewrite bind_run, E. cbn beta iota. rewrite mret_run.
      exists (Some (match answer with None => writeError 502 (Errorf "upstream queue submit failed: %v" [FErr (Errorf "http" [])])
                    | Some raw => writeJSON 409 raw end)), s2, [mkCall url (Some item) answer].
      unfold delivered. cbn. rewrite Ea. split_and!; [done|by rewrite Ho|by rewrite Hq|done|done|].
      intros resp [= <-]. destruct answer; auto.
Qed.

(** A flush loses nothing and duplicates nothing: the queue it found is, up to the order
    of the shuffle, what upstream accepted followed by what is queued afterwards, and the
    other polls are untouched, whatever upstream and the random source do; it answers 404
    on an empty queue, and a 200 means that the whole queue was accepted. *)
Theorem flushPoll_loses_nothing (draw : nat → option nat) (pollID : string) (s : Server) :
  ∃ r s' calls, flushPoll upstream draw pollID s = (Ok r, s') ∧ outbox s' = outbox s ++ calls ∧
    queued s pollID ≡ₚ delivered calls ++ queued s' pollID ∧ (∀ p, p ≠ pollID → queued s' p = queued s p) ∧
    (Resp_Status r = 404 ↔ queued s pollID = []) ∧ (Resp_Status r = 200 → queued s' pollID = []).
Proof.
  unfold flushPoll, dequeue. mrun. set (s0 := s <| queue ::= _ |>).
  assert (queued s0 pollID = []) as Hq0 by (unfold queued, s0; fields; by rewrite lookup_delete_eq).
  assert (∀ p, p ≠ pollID → queued s0 p = queued s p) as Hp0 by (intros p Hp; unfold queued, s0; fields; by rewrite lookup_delete_ne).
  change (queued (id s) pollID) with (queued s pollID).
  destruct (queued s pollID) as [|b0 batch0] eqn:Eq.
  { rewrite mret_run. exists (writeError 404 (Errorf "no queued relay submissions for poll" [])), s0, []. split_and!; try done. by rewrite app_nil_r. by rewrite Hq0. }
  pose proof (shuffle_permutes draw (b0 :: batch0)) as Hperm. destruct (shuffle draw (b0 :: batch0)) as [batch ok]. cbn in Hperm.
  destruct ok; cbn [negb].
  - destruct (forward_run pollID batch s0) as (early & s1 & calls & E & Ho & Hq & Hp & Hn & Hr). rewrite bind_run, E. cbn beta iota.
    rewrite Hq0, app_nil_r in Hq. rewrite Hq in Hperm. destruct early as [r|].
    + destruct (Hr r eq_refl) as [Hst|Hst]; exists r, s1, calls; rewrite mret_run;
        (split_and!; [done|done|done|intros p Hp'; rewrite Hp, Hp0 by done; done|by rewrite Hst|by rewrite Hst]).
    + destruct (Hn eq_refl) as [Hd Hq1]. rewrite Hq0 in Hq1. rewrite Hq1, app_nil_r in Hperm. clear Hn Hr Hq.
      rewrite bind_run, gets_run. cbn beta iota. rewrite bind_run, postJSON_run. cbn beta iota.
      set (url := _ +:+ _). set (result := upstream _ _ _). set (s2 := s1 <| outbox ::= _ |>).
      assert (queued s2 pollID = []) as Hq2 by done.
      assert (∀ p, p ≠ pollID → queued s2 p = queued s p) as Hp2 by (intros p Hp'; change (queued s2 p) with (queued s1 p); by rewrite Hp, Hp0).
      assert (outbox s2 = outbox s ++ calls ++ [mkCall url None result]) as Ho2 by (unfold s2; fields; by rewrite Ho, <- (assoc_L (++))).
      assert (b0 :: batch0 ≡ₚ delivered (calls ++ [mkCall url None result]) ++ queued s2 pollID) as Hf.
      { transitivity (delivered calls); [done|]. rewrite Hq2, delivered_app, app_nil_r. unfold delivered at 3. cbn.
        by destruct (accepted result); rewrite app_nil_r. }
      destruct result as [raw|]; [destruct (responseHasErrorStatus raw)|].
      * exists (writeJSON 409 raw), s2, (calls ++ [mkCall url None (Some raw)]). by split_and!.
      * eexists _, s2, (calls ++ [mkCall url None (Some raw)]). rewrite mret_run. by split_and!.
      * exists (writeError 502 (Errorf "upstream flush failed: %v" [FErr (Errorf "http" [])])), s2, (calls ++ [mkCall url None None]). by split_and!.
  - destruct (restore_run pollID batch s0) as (s1 & E & Ho & _ & Hq & Hp & _). rewrite bind_run, E. cbn beta iota. rewrite mret_run.
    eexists _, s1, []. rewrite app_nil_r. split_and!; [done|done|by rewrite Hq, Hq0, app_nil_r, Hperm|intros p Hp'; by rewrite Hp, Hp0|done|done].
Qed.
(** ** Any interleaving *)
Definition in_flight (fl : list Flush) : list string := concat (Flush_Batch <$> fl).
Lemma in_flight_mid fl1 f fl2 : in_flight (fl1 ++ f :: fl2) ≡ₚ Flush_Batch f ++ in_flight (fl1 ++ fl2).
Proof. unfold in_flight. rewrite !fmap_app, !concat_app. cbn. solve_Permutation. Qed.
(** Where the submissions that were answered with 200 are. *)
Definition accounted (w : World) : Prop :=
  w_taken w ≡ₚ delivered (outbox (w_server w)) ++ in_flight (w_flushes w) ++ all_queued (w_server w).
Lemma step_accounted w w' : step parse upstream w w' → accounted w → accounted w'.
Proof.
  unfold accounted. intros Hs Hw. destruct Hs as
    [body s r s' fl tk H1|draw pollID s batch s' batch' ok fl tk H1 H2|pollID item rest s answer s' fl1 fl2 tk H1
    |pollID batch s s' fl1 fl2 tk H1|pollID s answer s' fl1 fl2 tk H1]; cbn [w_taken w_server w_flushes] in *.
  - destruct (relay_submitBallot_run body s) as (r' & s2 & E & Ho & Hc). rewrite H1 in E. injection E as <- <-. rewrite Ho.
    destruct Hc as [(Hst & text & p & -> & _ & _ & Hq)|[Hst ->]]; unfold taken; rewrite Hst; cbn; [|done].
    rewrite Hq, Hw. solve_Permutation.
  - unfold dequeue in H1. injection H1 as <- <-. pose proof (shuffle_permutes draw (queued s pollID)) as Hperm.
    change (queued (id s) pollID) with (queued s pollID) in *. rewrite H2 in Hperm. cbn in Hperm.
    change (in_flight (?f :: fl)) with (batch' ++ in_flight fl). rewrite Hw, <- (all_queued_delete s pollID), <- Hperm.
    change (outbox (s <| queue ::= delete pollID |>)) with (outbox s). solve_Permutation.
  - rewrite postJSON_run in H1. injection H1 as <- <-. set (answer := upstream _ _ _) in *.
    change (all_queued (s <| outbox ::= _ |>)) with (all_queued s). fields. rewrite delivered_app. unfold delivered at 2. cbn.
    rewrite in_flight_mid in Hw |- *. rewrite Hw. destruct (accepted answer); cbn; solve_Permutation.
  - destruct (restore_run pollID batch s) as (s2 & E & Ho & _ & _ & _ & Hq). rewrite H1 in E. injection E as <-.
    rewrite Ho, Hq, Hw, in_flight_mid. cbn. solve_Permutation.
  - rewrite postJSON_run in H1. injection H1 as <- <-. set (answer := upstream _ _ _) in *.
    change (all_queued (s <| outbox ::= _ |>)) with (all_queued s). fields. rewrite delivered_app. unfold delivered at 2. cbn.
    rewrite in_flight_mid in Hw. cbn in Hw. rewrite Hw. destruct (accepted answer); cbn; by rewrite app_nil_r.
Qed.
Lemma steps_accounted w w' : rtc (step parse upstream) w w' → accounted w → accounted w'.
Proof. induction 1 as [|x y z Hs _ IH]; [done|]. intros Hx. by eapply IH, step_accounted. Qed.
(** C32. From an empty relay, however submissions and any number of flushes of any polls
    interleave: every submission answered with 200 is, exactly once, among those upstream
    accepted, in a running flush, or queued; when no flush is running, it was accepted or
    is queued. *)
Theorem relay_accounts (base : string) (w : World) :
  rtc (step parse upstream) (mkWorld (NewServer base) [] []) w →
  w_taken w ≡ₚ delivered (outbox (w_server w)) ++ in_flight (w_flushes w) ++ all_queued (w_server w) ∧
  (w_flushes w = [] → w_taken w ≡ₚ delivered (outbox (w_server w)) ++ all_queued (w_server w)).
Proof.
  intros Hr%steps_accounted; [|unfold accounted, all_queued; cbn; by rewrite map_to_list_empty]. rename Hr into Hw.
  split; [exact Hw|]. intros E. unfold accounted in Hw. by rewrite E in Hw.
Qed.
End relay.
