(* ===== verification/GovServer.v ===== *)
(** embodiments/shyshares/api/server.go: the governance API over its in-memory store.
    One definition per handler, from the decoded request to the reply; a handler holds
    the lock throughout, so handlers are the atomic steps of the server.

    [now] gives the readings of time.Now() within a handler, in nanoseconds;
    [time_Parse] is time.Parse(time.RFC3339, _); [env] is os.Getenv. *)
From S2P Require Import Prelude GoStd Json Identity Governance.

Record Store := mkStore {
  organizations : gmap string Organization;
  memberships : gmap string (list MembershipSnapshot);
  proposals : gmap string GovernanceProposal;
  ballots : gmap string (gmap string WeightedBallot);
  actions : gmap string QueuedGovernanceAction;
}.
#[export] Instance Eta_Store : Eta Store := λ r,
  mkStore (organizations r) (memberships r) (proposals r) (ballots r) (actions r).
Definition NewStore : Store := mkStore ∅ ∅ ∅ ∅ ∅.

(** What [writeJSON] writes: an error message, or the objects of a successful reply. *)
Inductive Reply :=
  | ReplyError (status : Z) (msg : string)
  | ReplyOrganizations (orgs : list Organization)
  | ReplyOrganization (org : Organization)
  | ReplyMemberships (account_commitment : string) (l : list MembershipSnapshot)
  | ReplyProposals (l : list GovernanceProposal)
  | ReplyProposal (p : GovernanceProposal)
  | ReplyClosed (p : GovernanceProposal) (t : GovernanceTally) (queued_action : option QueuedGovernanceAction)
  | ReplyBallot (proposal : string) (t : GovernanceTally)
  | ReplyTally (t : GovernanceTally)
  | ReplyActions (l : list QueuedGovernanceAction)
  | ReplyAction (a : QueuedGovernanceAction).
Definition StatusOK : Z := 200.
Definition reply_status (r : Reply) : Z := match r with ReplyError st _ => st | _ => StatusOK end.

(** ** Methods of the store *)
Definition allMemberships (s : Store) : list MembershipSnapshot := concat (map_to_list (memberships s)).*2.
Definition refreshOrganizationStats (s : Store) : Store :=
  s <| organizations ::= map_imap (λ orgID org,
    let memberCount := Z.of_nat (length (List.filter (in_org orgID) (allMemberships s))) in
    let proposalCount := Z.of_nat (length (List.filter (λ kv, bool_decide (GovernanceProposal_OrganizationID kv.2 = orgID))
                           (map_to_list (proposals s)))) in
    Some (org <| Organization_MemberCount := memberCount |> <| Organization_ProposalCount := proposalCount |>)) |>.
Definition getMembership (s : Store) (commitment organizationID : string) : option MembershipSnapshot :=
  List.find (in_org organizationID) (default [] (memberships s !! commitment)).
Definition directions (s : Store) (proposalID : string) : gmap string string :=
  WeightedBallot_Direction <$> default ∅ (ballots s !! proposalID).
Definition computeTally (s : Store) (proposal : GovernanceProposal) : GovernanceTally :=
  ComputeTally proposal (directions s (GovernanceProposal_ID proposal))
    (MemberWeightMap (allMemberships s) (GovernanceProposal_OrganizationID proposal)).
(** The proposal with its action queued, and the action. *)
Definition ensureQueuedAction (now : Z) (proposal : GovernanceProposal) :
    M Store (GovernanceProposal * QueuedGovernanceAction) :=
  let action := NewQueuedAction now proposal in
  modify (λ s, s <| actions ::= <[QueuedGovernanceAction_ID action := action]> |>) ;;
  mret (proposal <| GovernanceProposal_QueuedActionIDs := Some [QueuedGovernanceAction_ID action] |>, action).

Definition maxUint64 (value fallback : Z) : Z := if value =? 0 then fallback else value.
Definition defaultString (value fallback : string) : string :=
  if str_empty (trim_space value) then fallback else trim_space value.
(** [%03d] of a positive number. *)
Fixpoint zeros (n : nat) (s : string) : string := match n with O => s | S k => String "0" (zeros k s) end.
Definition fmt_03d (z : Z) : string := let d := fmt_d z in zeros (3 - String.length d) d.
Definition is_admin (s : Store) (by_ organizationID : string) : option MembershipSnapshot :=
  m ← getMembership s by_ organizationID; if HasRole m "admin" then Some m else None.

(** ** Reads *)
(** Sorted as [sort.Slice] sorts; the order among equals is not specified. *)
Definition by_Name (a b : Organization) : Prop := str_le (Organization_Name a) (Organization_Name b).
Definition by_CreatedAt {A} (f : A → Z) (a b : A) : Prop := f b ≤ f a.
#[export] Instance by_Name_dec : RelDecision by_Name.
Proof. intros a b. unfold by_Name. apply _. Defined.
#[export] Instance by_CreatedAt_dec {A} (f : A → Z) : RelDecision (by_CreatedAt f).
Proof. intros a b. unfold by_CreatedAt. apply _. Defined.
Definition listOrganizations (s : Store) : Reply := ReplyOrganizations (merge_sort by_Name (map_to_list (organizations s)).*2).
Definition getOrganization (s : Store) (id : string) : Reply :=
  match organizations s !! id with Some o => ReplyOrganization o | None => ReplyError 404 "Organization not found" end.
Definition getMemberships (s : Store) (commitment : string) : Reply :=
  ReplyMemberships commitment (default [] (memberships s !! commitment)).
Definition selected (orgID status org st : string) : bool :=
  (str_empty orgID || bool_decide (org = orgID)) && (str_empty status || bool_decide (st = status)).
Definition listProposals (s : Store) (organization_id status : string) : Reply :=
  let orgID := trim_space organization_id in let status := trim_space status in
  ReplyProposals (merge_sort (by_CreatedAt GovernanceProposal_CreatedAt)
    (List.filter (λ p, selected orgID status (GovernanceProposal_OrganizationID p) (GovernanceProposal_Status p))
       (map_to_list (proposals s)).*2)).
Definition getProposal (s : Store) (id : string) : Reply :=
  match proposals s !! id with Some p => ReplyProposal p | None => ReplyError 404 "Proposal not found" end.
Definition getTally (s : Store) (proposal_id : string) : Reply :=
  match proposals s !! proposal_id with Some p => ReplyTally (computeTally s p) | None => ReplyError 404 "Proposal not found" end.
Definition listActions (s : Store) (organization_id status : string) : Reply :=
  let orgID := trim_space organization_id in let status := trim_space status in
  ReplyActions (merge_sort (by_CreatedAt QueuedGovernanceAction_CreatedAt)
    (List.filter (λ a, selected orgID status (QueuedGovernanceAction_OrganizationID a) (QueuedGovernanceAction_Status a))
       (map_to_list (actions s)).*2)).
Definition getAction (s : Store) (id : string) : Reply :=
  match actions s !! id with Some a => ReplyAction a | None => ReplyError 404 "Action not found" end.

(** ** Writes *)
Record CreateRequest := mkCreateRequest {
  Create_OrganizationID : string; Create_CreatedBy : string; Create_Title : string; Create_Summary : string;
  Create_ProposalClass : string; Create_QuorumBPS : Z; Create_ApprovalBPS : Z; Create_ClosesAt : string;
  Create_ExecutionAdapter : string; Create_Payload : option json }.
Definition hours72 : Z := 72 * 3600 * 10 ^ 9.
Section writes.
Context (time_Parse : string → option Z) (env : string → string) (now : nat → Z).

(** [createProposal]; [None] is a body that does not decode. *)
Definition new_proposal (s : Store) (body : CreateRequest) (membership : MembershipSnapshot) : GovernanceProposal :=
  let closesAt := if str_empty (trim_space (Create_ClosesAt body)) then now 0%nat + hours72
                  else default (now 0%nat + hours72) (time_Parse (Create_ClosesAt body)) in
  mkGovernanceProposal
    ("prop-" +:+ Create_OrganizationID body +:+ "-" +:+ fmt_03d (Z.of_nat (size (proposals s)) + 1))
    (Create_OrganizationID body) (trim_space (Create_Title body)) (trim_space (Create_Summary body))
    (trim_space (Create_ProposalClass body)) "active" (MembershipSnapshot_SnapshotID membership)
    "delegated_stake_snapshot" (MembershipSnapshot_SnapshotID membership) (Create_CreatedBy body)
    (now 1%nat) closesAt (maxUint64 (Create_QuorumBPS body) 4000) (maxUint64 (Create_ApprovalBPS body) 5000)
    (TotalEligibleWeight (allMemberships s) (Create_OrganizationID body))
    (defaultString (Create_ExecutionAdapter body) AdapterInternalQueue) (Create_Payload body) None.
Definition createProposal (body : option CreateRequest) : M Store Reply :=
  match body with
  | None => mret (ReplyError 400 "Invalid JSON payload")
  | Some body =>
      s ← gets id;
      match organizations s !! Create_OrganizationID body with
      | None => mret (ReplyError 404 "Organization not found")
      | Some _ =>
          match is_admin s (Create_CreatedBy body) (Create_OrganizationID body) with
          | None => mret (ReplyError 403 "Only organization admins may create proposals")
          | Some membership =>
              let proposal := new_proposal s body membership in
              modify (λ s, s <| proposals ::= <[GovernanceProposal_ID proposal := proposal]> |>
                             <| ballots ::= <[GovernanceProposal_ID proposal := ∅]> |>) ;;
              modify refreshOrganizationStats ;;
              mret (ReplyProposal proposal)
          end
      end
  end.

(** [closeProposal]; [closed_by] is what decoding left in the body. *)
Definition closeProposal (id_ closed_by : string) : M Store Reply :=
  s ← gets id;
  match proposals s !! id_ with
  | None => mret (ReplyError 404 "Proposal not found")
  | Some proposal =>
      match is_admin s closed_by (GovernanceProposal_OrganizationID proposal) with
      | None => mret (ReplyError 403 "Only organization admins may close proposals")
      | Some _ =>
          let tally := computeTally s proposal in
          if negb (bool_decide (GovernanceProposal_Status proposal = "active")) then mret (ReplyClosed proposal tally None)
          else if GovernanceTally_QuorumReached tally && (GovernanceProposal_ApprovalBPS proposal <=? GovernanceTally_ApprovalBPS tally) then
            r ← ensureQueuedAction (now 0%nat) (proposal <| GovernanceProposal_Status := "passed" |>);
            let '(proposal, action) := r in
            modify (λ s, s <| proposals ::= <[GovernanceProposal_ID proposal := proposal]> |>) ;;
            mret (ReplyClosed proposal (tally <| GovernanceTally_Status := GovernanceProposal_Status proposal |>) (Some action))
          else
            let proposal := proposal <| GovernanceProposal_Status := "failed" |> in
            modify (λ s, s <| proposals ::= <[GovernanceProposal_ID proposal := proposal]> |>) ;;
            mret (ReplyClosed proposal (tally <| GovernanceTally_Status := GovernanceProposal_Status proposal |>) None)
      end
  end.

Record BallotRequest := mkBallotRequest { Ballot_ProposalID : string; Ballot_AccountCommitment : string; Ballot_Direction : string }.
(** [submitBallot]; a write to the ballots of a proposal that has no map panics. *)
Definition submitBallot (body : option BallotRequest) : M Store Reply :=
  match body with
  | None => mret (ReplyError 400 "Invalid JSON payload")
  | Some body =>
      s ← gets id;
      match proposals s !! Ballot_ProposalID body with
      | None => mret (ReplyError 404 "Proposal not found")
      | Some proposal =>
          if negb (bool_decide (GovernanceProposal_Status proposal = "active")) then mret (ReplyError 409 "Proposal is not active") else
          match getMembership s (Ballot_AccountCommitment body) (GovernanceProposal_OrganizationID proposal) with
          | None => mret (ReplyError 403 "No eligible membership snapshot for this organization")
          | Some _ =>
              let cast := default ∅ (ballots s !! GovernanceProposal_ID proposal) in
              if bool_decide (is_Some (cast !! Ballot_AccountCommitment body))
              then mret (ReplyError 409 "Ballot already submitted for this proposal") else
              _ ← or_panic (ballots s !! GovernanceProposal_ID proposal);
              let ballot := mkWeightedBallot (GovernanceProposal_ID proposal) (Ballot_AccountCommitment body)
                              (trim_space (Ballot_Direction body)) (now 0%nat) in
              modify (λ s, s <| ballots ::= <[GovernanceProposal_ID proposal := <[Ballot_AccountCommitment body := ballot]> cast]> |>) ;;
              s ← gets id;
              mret (ReplyBallot (GovernanceProposal_ID proposal) (computeTally s proposal))
          end
      end
  end.

(** [dispatchAction]. *)
Definition dispatchAction (id_ dispatched_by adapter : string) : M Store Reply :=
  s ← gets id;
  match actions s !! id_ with
  | None => mret (ReplyError 404 "Action not found")
  | Some action =>
      match is_admin s dispatched_by (QueuedGovernanceAction_OrganizationID action) with
      | None => mret (ReplyError 403 "Only organization admins may dispatch queued actions")
      | Some _ =>
          let action := action <| QueuedGovernanceAction_Adapter ::= defaultString adapter |>
                               <| QueuedGovernanceAction_DispatchedAt := Some (now 0%nat) |>
                               <| QueuedGovernanceAction_Status := "dispatched" |> in
          let action := action <| QueuedGovernanceAction_Dispatch := Some (BuildActionDispatch env action dispatched_by) |> in
          modify (λ s, s <| actions ::= <[QueuedGovernanceAction_ID action := action]> |>) ;;
          mret (ReplyAction action)
      end
  end.
End writes.
