(* ===== verification/GovTheorems.v ===== *)
(** The governance API: identifiers are fresh, no handler panics, a closed proposal and
    its ballots are final, and an action exists only for a proposal that passed. *)
From S2P Require Import Prelude GoStd Json KVStore Tables Identity Governance GovernanceTally GovServer.

(** ** Proposal identifiers *)
Fixpoint all_digits (s : string) : bool :=
  match s with
  | EmptyString => true
  | String c s' => match digit_value c with Some _ => all_digits s' | None => false end
  end.
Lemma digits_go (x : N) (s : string) : all_digits s = true → all_digits (pretty_N_go x s) = true.
Proof.
  revert s. induction (N.lt_wf_0 x) as [x _ IH]. intros s Hs. destruct (decide (x = 0)%N) as [->|Hx]; [done|].
  rewrite pretty_N_go_step by lia. apply IH; [apply N.div_lt; lia|]. cbn. by rewrite digit_char.
Qed.
Lemma digits_zeros n s : all_digits s = true → all_digits (zeros n s) = true.
Proof. intros Hs. by induction n. Qed.
Lemma scan_zeros n s : scan_digits 0 (zeros n s) = scan_digits 0 s.
Proof. by induction n. Qed.
Lemma fmt_03d_digits z : 0 ≤ z → all_digits (fmt_03d z) = true.
Proof.
  intros Hz. unfold fmt_03d. cbv zeta. apply digits_zeros. destruct z as [|p|p]; [done| |lia].
  unfold fmt_d. change (pretty (Z.pos p)) with (pretty (N.pos p)). unfold pretty, pretty_N. rewrite decide_False by done. by apply digits_go.
Qed.
Lemma fmt_03d_inj z1 z2 : 0 < z1 → 0 < z2 → fmt_03d z1 = fmt_03d z2 → z1 = z2.
Proof.
  assert (∀ p, scan_digits 0 (fmt_03d (Z.pos p)) = Z.pos p) as Hs.
  { intros p. unfold fmt_03d. cbv zeta. rewrite scan_zeros. unfold fmt_d. change (pretty (Z.pos p)) with (pretty (N.pos p)).
    unfold pretty, pretty_N. rewrite decide_False by done. by rewrite scan_digits_go by lia. }
  intros H1 H2 E. destruct z1 as [|p1|p1], z2 as [|p2|p2]; try lia. by rewrite <- (Hs p1), <- (Hs p2), E.
Qed.
Lemma suffix_unique a b d1 d2 : all_digits d1 = true → all_digits d2 = true →
  a +:+ "-" +:+ d1 = b +:+ "-" +:+ d2 → d1 = d2.
Proof.
  intros H1 H2. revert b. induction a as [|c a IH]; intros [|c' b] E.
  - change (String "-" d1 = String "-" d2) in E. congruence.
  - change (String "-" d1 = String c' (b +:+ String "-" d2)) in E. injection E as <- ->. exfalso. clear H2.
    induction b as [|c b IH]; [done|]. change (all_digits (String c (b +:+ String "-" d2)) = true) in H1. cbn [all_digits] in H1.
    destruct (digit_value c); [by apply IH|done].
  - change (String c (a +:+ String "-" d1) = String "-" d2) in E. injection E as -> <-. exfalso. clear H1 IH.
    induction a as [|c a IH]; [done|]. change (all_digits (String c (a +:+ String "-" d1)) = true) in H2. cbn [all_digits] in H2.
    destruct (digit_value c); [by apply IH|done].
  - change (String c (a +:+ "-" +:+ d1) = String c' (b +:+ "-" +:+ d2)) in E. injection E as _ E. by eapply IH.
Qed.
Definition proposal_id (org : string) (n : Z) : string := "prop-" +:+ org +:+ "-" +:+ fmt_03d n.
Lemma proposal_id_number o1 o2 n1 n2 : 0 < n1 → 0 < n2 → proposal_id o1 n1 = proposal_id o2 n2 → n1 = n2.
Proof.
  intros H1 H2 E. apply (inj (String.append "prop-")) in E.
  apply suffix_unique in E; [by apply fmt_03d_inj|apply fmt_03d_digits; lia|apply fmt_03d_digits; lia].
Qed.

(** ** The invariant *)
Definition decided (s : Store) (p : GovernanceProposal) : bool :=
  let t := computeTally s p in
  GovernanceTally_QuorumReached t && (GovernanceProposal_ApprovalBPS p <=? GovernanceTally_ApprovalBPS t).
Definition action_id (id : string) : string := "act-" +:+ id.
Definition proposal_ok (s : Store) (id : string) (p : GovernanceProposal) : Prop :=
  GovernanceProposal_ID p = id ∧ is_Some (ballots s !! id) ∧
  (∃ org n, id = proposal_id org n ∧ 1 ≤ n ≤ Z.of_nat (size (proposals s))) ∧
  (GovernanceProposal_Status p = "active" ∧ GovernanceProposal_QueuedActionIDs p = None ∨
   GovernanceProposal_Status p = "failed" ∧ decided s p = false ∨
   GovernanceProposal_Status p = "passed" ∧ decided s p = true ∧ is_Some (actions s !! action_id id)).
Definition ballots_ok (s : Store) (id : string) (m : gmap string WeightedBallot) : Prop :=
  ∃ p, proposals s !! id = Some p ∧ map_Forall (λ acc b,
    WeightedBallot_ProposalID b = id ∧ WeightedBallot_AccountCommitment b = acc ∧
    is_Some (getMembership s acc (GovernanceProposal_OrganizationID p))) m.
Definition action_ok (s : Store) (aid : string) (a : QueuedGovernanceAction) : Prop :=
  QueuedGovernanceAction_ID a = aid ∧ aid = action_id (QueuedGovernanceAction_ProposalID a) ∧
  ∃ p, proposals s !! QueuedGovernanceAction_ProposalID a = Some p ∧ GovernanceProposal_Status p = "passed" ∧
    QueuedGovernanceAction_OrganizationID a = GovernanceProposal_OrganizationID p.
Definition store_ok (s : Store) : Prop :=
  map_Forall (proposal_ok s) (proposals s) ∧ map_Forall (ballots_ok s) (ballots s) ∧ map_Forall (action_ok s) (actions s).
(** A deployment starts with organizations and members and nothing else. *)
Definition seeded (orgs : gmap string Organization) (members : gmap string (list MembershipSnapshot)) : Store :=
  mkStore orgs members ∅ ∅ ∅.
Lemma seeded_ok orgs members : store_ok (seeded orgs members).
Proof. split_and!; apply map_Forall_empty. Qed.

(** A request that changes the store. *)
Inductive api_step : Store → Reply → Store → Prop :=
  | api_create time_Parse now body s r s' : createProposal time_Parse now body s = (Ok r, s') → api_step s r s'
  | api_close now id_ by_ s r s' : closeProposal now id_ by_ s = (Ok r, s') → api_step s r s'
  | api_submit now body s r s' : submitBallot now body s = (Ok r, s') → api_step s r s'
  | api_dispatch env now id_ by_ adapter s r s' : dispatchAction env now id_ by_ adapter s = (Ok r, s') → api_step s r s'.
Definition api_moves (s s' : Store) : Prop := ∃ r, api_step s r s'.

(** ** What each handler writes *)
Lemma createProposal_run time_Parse now body s :
  ∃ r s', createProposal time_Parse now body s = (Ok r, s') ∧
    ((reply_status r ≠ 200 ∧ s' = s) ∨
     ∃ b m, body = Some b ∧ is_admin s (Create_CreatedBy b) (Create_OrganizationID b) = Some m ∧
       let p := new_proposal time_Parse now s b m in r = ReplyProposal p ∧
       s' = refreshOrganizationStats (s <| proposals ::= <[GovernanceProposal_ID p := p]> |>
                                        <| ballots ::= <[GovernanceProposal_ID p := ∅]> |>)).
Proof.
  unfold createProposal. destruct body as [b|]; [|rewrite mret_run; by eauto 10]. mrun. cbn [id].
  destruct (organizations s !! _); [|rewrite mret_run; by eauto 10].
  destruct (is_admin s _ _) as [m|] eqn:Em; [|rewrite mret_run; by eauto 10].
  cbv zeta. mrun. do 2 eexists. split; [done|]. right. by exists b, m.
Qed.
Lemma closeProposal_run now id_ by_ s :
  ∃ r s', closeProposal now id_ by_ s = (Ok r, s') ∧
    (s' = s ∨ ∃ p, proposals s !! id_ = Some p ∧ GovernanceProposal_Status p = "active" ∧
      is_Some (is_admin s by_ (GovernanceProposal_OrganizationID p)) ∧
      if decided s p then
        let p1 := p <| GovernanceProposal_Status := "passed" |> in let a := NewQueuedAction (now 0%nat) p1 in
        s' = s <| actions ::= <[QueuedGovernanceAction_ID a := a]> |>
               <| proposals ::= <[GovernanceProposal_ID p :=
                    p1 <| GovernanceProposal_QueuedActionIDs := Some [QueuedGovernanceAction_ID a] |>]> |>
      else s' = s <| proposals ::= <[GovernanceProposal_ID p := p <| GovernanceProposal_Status := "failed" |>]> |>).
Proof.
  unfold closeProposal. mrun. cbn [id]. destruct (proposals s !! id_) as [p|] eqn:Ep; [|rewrite mret_run; by eauto 10].
  destruct (is_admin s by_ _) as [m|] eqn:Em; [|rewrite mret_run; by eauto 10]. cbv zeta.
  case_bool_decide as Ha; cbn [negb]; [|rewrite mret_run; by eauto 10].
  assert (decided s p = GovernanceTally_QuorumReached (computeTally s p) &&
    (GovernanceProposal_ApprovalBPS p <=? GovernanceTally_ApprovalBPS (computeTally s p))) as <- by done.
  destruct (decided s p) eqn:Ed.
  - unfold ensureQueuedAction. mrun. do 2 eexists. split; [done|]. right. exists p. split_and!; [done|done|by eexists|].
    rewrite Ed. done.
  - mrun. do 2 eexists. split; [done|]. right. exists p. split_and!; [done|done|by eexists|]. by rewrite Ed.
Qed.
Lemma submitBallot_run now body s :
  store_ok s →
  ∃ r s', submitBallot now body s = (Ok r, s') ∧
    ((reply_status r ≠ 200 ∧ s' = s) ∨
     ∃ b p m, body = Some b ∧ proposals s !! Ballot_ProposalID b = Some p ∧ GovernanceProposal_Status p = "active" ∧
       is_Some (getMembership s (Ballot_AccountCommitment b) (GovernanceProposal_OrganizationID p)) ∧
       ballots s !! Ballot_ProposalID b = Some m ∧ m !! Ballot_AccountCommitment b = None ∧ reply_status r = 200 ∧
       s' = s <| ballots ::= <[Ballot_ProposalID b := <[Ballot_AccountCommitment b :=
              mkWeightedBallot (Ballot_ProposalID b) (Ballot_AccountCommitment b) (trim_space (Ballot_Direction b)) (now 0%nat)]> m]> |>).
Proof.
  intros (Hp & _). unfold submitBallot. destruct body as [b|]; [|rewrite mret_run; by eauto 10]. mrun. cbn [id].
  destruct (proposals s !! Ballot_ProposalID b) as [p|] eqn:Ep; [|rewrite mret_run; by eauto 10].
  destruct (Hp _ _ Ep) as (Hid & [m Hm] & _). rewrite Hid, Hm.
  case_bool_decide as Ha; cbn [negb]; [|rewrite mret_run; by eauto 10].
  destruct (getMembership s _ _) eqn:Eg; [|rewrite mret_run; by eauto 10]. cbv zeta. cbn [from_option].
  case_bool_decide as Hc; [rewrite mret_run; by eauto 10|]. rewrite <- eq_None_not_Some in Hc. mrun.
  do 2 eexists. split; [done|]. right. exists b, p, m. split_and!; try done.
Qed.
Lemma dispatchAction_run env now id_ by_ adapter s :
  ∃ r s', dispatchAction env now id_ by_ adapter s = (Ok r, s') ∧
    (s' = s ∨ ∃ a a', actions s !! id_ = Some a ∧ is_Some (is_admin s by_ (QueuedGovernanceAction_OrganizationID a)) ∧
      QueuedGovernanceAction_ID a' = QueuedGovernanceAction_ID a ∧
      QueuedGovernanceAction_ProposalID a' = QueuedGovernanceAction_ProposalID a ∧
      QueuedGovernanceAction_OrganizationID a' = QueuedGovernanceAction_OrganizationID a ∧
      QueuedGovernanceAction_Status a' = "dispatched" ∧
      s' = s <| actions ::= <[QueuedGovernanceAction_ID a := a']> |>).
Proof.
  unfold dispatchAction. mrun. cbn [id]. destruct (actions s !! id_) as [a|] eqn:Ea; [|rewrite mret_run; by eauto 10].
  destruct (is_admin s by_ _) as [m|] eqn:Em; [|rewrite mret_run; by eauto 10]. cbv zeta. mrun.
  do 2 eexists. split; [done|]. right.
  refine (ex_intro _ a (ex_intro _ _ (conj eq_refl (conj _ (conj _ (conj _ (conj _ (conj _ eq_refl)))))))); [by eexists|done..].
Qed.

(** ** Preservation *)
(** Whether a proposal passes depends on its ballots, the memberships and its terms,
    not on its status. *)
Lemma decided_same s s' p p' :
  memberships s' = memberships s → ballots s' !! GovernanceProposal_ID p = ballots s !! GovernanceProposal_ID p →
  p' = p <| GovernanceProposal_Status := GovernanceProposal_Status p' |>
         <| GovernanceProposal_QueuedActionIDs := GovernanceProposal_QueuedActionIDs p' |> →
  decided s' p' = decided s p.
Proof.
  intros Hm Hb ->. unfold decided, computeTally, ComputeTally, directions, allMemberships. rewrite !tally_on_closed.
  unfold tally_closed. fields. by rewrite Hm, Hb.
Qed.
Lemma proposal_ok_same s s' id p :
  memberships s' = memberships s → ballots s' !! id = ballots s !! id → (size (proposals s) ≤ size (proposals s'))%nat →
  (is_Some (actions s !! action_id id) → is_Some (actions s' !! action_id id)) →
  proposal_ok s id p → proposal_ok s' id p.
Proof.
  intros Hm Hb Hsz Ha (Hid & Hbs & (org & n & Hn & Hr) & Hst). unfold proposal_ok.
  rewrite Hb, (decided_same s s' p p) by (rewrite ?Hid; done || by destruct p).
  split_and!; [done|done| |intuition auto]. exists org, n. split; [done|lia].
Qed.
Lemma find_membership_same s s' acc org : memberships s' = memberships s → getMembership s' acc org = getMembership s acc org.
Proof. unfold getMembership. by intros ->. Qed.

Lemma create_ok time_Parse now s b m :
  store_ok s → let p := new_proposal time_Parse now s b m in
  proposals s !! GovernanceProposal_ID p = None ∧
  store_ok (refreshOrganizationStats (s <| proposals ::= <[GovernanceProposal_ID p := p]> |>
                                        <| ballots ::= <[GovernanceProposal_ID p := ∅]> |>)).
Proof.
  intros (Hp & Hb & Ha) p. set (id := GovernanceProposal_ID p).
  assert (id = proposal_id (Create_OrganizationID b) (Z.of_nat (size (proposals s)) + 1)) as Eid by done.
  assert (proposals s !! id = None) as Hfresh.
  { destruct (proposals s !! id) as [q|] eqn:Eq; [|done]. destruct (Hp _ _ Eq) as (_ & _ & (org & n & Hn & Hr) & _).
    rewrite Eid in Hn. apply proposal_id_number in Hn; lia. }
  split; [done|].
  assert (ballots s !! id = None) as Hnb.
  { destruct (ballots s !! id) as [m'|] eqn:Em; [|done]. destruct (Hb _ _ Em) as (q & Eq & _). congruence. }
  unfold store_ok. change (proposals (refreshOrganizationStats _)) with (<[id := p]> (proposals s)).
  change (ballots (refreshOrganizationStats _)) with (<[id := ∅ : gmap string WeightedBallot]> (ballots s)).
  change (actions (refreshOrganizationStats _)) with (actions s). split_and!.
  - apply map_Forall_insert; [done|]. split.
    + split_and!; [done|exists ∅; apply (lookup_insert_eq (ballots s) id)| |by left].
      exists (Create_OrganizationID b), (Z.of_nat (size (proposals s)) + 1). split; [done|].
      change (1 ≤ Z.of_nat (size (proposals s)) + 1 ≤ Z.of_nat (size (<[id := p]> (proposals s)))).
      rewrite map_size_insert_None by done. lia.
    + intros k q Hq. apply (proposal_ok_same s); [done| | |done|by apply Hp].
      * apply (lookup_insert_ne (ballots s) id). intros <-. congruence.
      * change (size (proposals s) ≤ size (<[id := p]> (proposals s)))%nat. rewrite map_size_insert_None by done. lia.
  - apply map_Forall_insert; [done|]. split.
    + exists p. split; [apply (lookup_insert_eq (proposals s) id)|]. apply map_Forall_empty.
    + intros k m' Hm'. destruct (Hb _ _ Hm') as (q & Hq & Hall). exists q. split; [|done].
      etrans; [apply (lookup_insert_ne (proposals s) id); intros <-; congruence|done].
  - intros k a Hk. destruct (Ha _ _ Hk) as (H1 & H2 & q & Hq & H3). split_and!; [done|done|]. exists q. split; [|done].
    etrans; [apply (lookup_insert_ne (proposals s) id); intros E; rewrite E in Hfresh; congruence|done].
Qed.

(** A write to one proposal that keeps its identity, organization and ballots. *)
Lemma close_ok s id p p' (acts : gmap string QueuedGovernanceAction) :
  store_ok s → proposals s !! id = Some p → GovernanceProposal_Status p = "active" →
  GovernanceProposal_OrganizationID p' = GovernanceProposal_OrganizationID p →
  let s' := s <| actions := acts |> <| proposals ::= <[id := p']> |> in
  (∀ aid a, actions s !! aid = Some a → acts !! aid = Some a) →
  proposal_ok s' id p' → (∀ aid a, acts !! aid = Some a → actions s !! aid = Some a ∨ action_ok s' aid a) → store_ok s'.
Proof.
  intros (Hp & Hb & Ha) Ep Hst Horg s' Hacts Hp' Hnew. unfold store_ok.
  assert (proposals s' = <[id := p']> (proposals s)) as -> by done. change (ballots s') with (ballots s). change (actions s') with acts.
  split_and!.
  - apply map_Forall_insert_2; [done|]. intros k q Hq. apply (proposal_ok_same s); [done|done| | |by apply Hp].
    + cbn. rewrite map_size_insert. rewrite Ep. done.
    + intros [a Hk]. exists a. by apply Hacts.
  - intros k m Hm. destruct (Hb _ _ Hm) as (q & Hq & Hall). unfold ballots_ok. cbn. destruct (decide (k = id)) as [->|Hk].
    + rewrite Ep in Hq. injection Hq as <-. exists p'. rewrite lookup_insert_eq, Horg. done.
    + exists q. by rewrite lookup_insert_ne.
  - intros k a Hk. destruct (Hnew _ _ Hk) as [Hold|]; [|done]. destruct (Ha _ _ Hold) as (H1 & H2 & q & Hq & H3 & H4).
    split_and!; [done|done|]. exists q. split; [|done]. cbn. rewrite lookup_insert_ne; [done|]. intros E.
    rewrite <- E, Ep in Hq. injection Hq as <-. by rewrite H3 in Hst.
Qed.
(** The decision that closes a proposal. *)
Definition closed_by (s : Store) (now : Z) (p : GovernanceProposal) : Store :=
  if decided s p then
    let p1 := p <| GovernanceProposal_Status := "passed" |> in let a := NewQueuedAction now p1 in
    s <| actions ::= <[QueuedGovernanceAction_ID a := a]> |>
      <| proposals ::= <[GovernanceProposal_ID p := p1 <| GovernanceProposal_QueuedActionIDs := Some [QueuedGovernanceAction_ID a] |>]> |>
  else s <| proposals ::= <[GovernanceProposal_ID p := p <| GovernanceProposal_Status := "failed" |>]> |>.
Lemma closed_by_ok s now id p :
  store_ok s → proposals s !! id = Some p → GovernanceProposal_Status p = "active" → store_ok (closed_by s now p).
Proof.
  intros Hs Ep Hst. pose proof Hs as (Hp & _ & Ha). destruct (Hp _ _ Ep) as (Hid & Hbs & (org & n & Hn & Hr) & Hc).
  assert (GovernanceProposal_QueuedActionIDs p = None) as Hq by (rewrite Hst in Hc; by intuition).
  assert (∀ q, (size (proposals s) = size (<[id:=q]> (proposals s)))%nat) as Hsz by (intros q; by rewrite map_size_insert, Ep).
  unfold closed_by. destruct (decided s p) eqn:Ed; cbv zeta; rewrite Hid.
  - set (p1 := p <| GovernanceProposal_Status := "passed" |>). set (a := NewQueuedAction now p1).
    assert (QueuedGovernanceAction_ID a = action_id id) as Ea.
    { unfold a, NewQueuedAction, p1. cbn [QueuedGovernanceAction_ID]. fields. rewrite Hq. cbn. by rewrite Hid. }
    assert (actions s !! action_id id = None) as Hfresh.
    { destruct (actions s !! action_id id) as [a0|] eqn:E0; [|done]. destruct (Ha _ _ E0) as (_ & E1 & q & Eq & Hpq & _).
      apply (inj (String.append "act-")) in E1. rewrite <- E1, Ep in Eq. injection Eq as <-. by rewrite Hst in Hpq. }
    rewrite Ea. set (p2 := p1 <| GovernanceProposal_QueuedActionIDs := _ |>).
    change (s <| actions ::= _ |> <| proposals ::= _ |>) with
      (s <| actions := <[action_id id := a]> (actions s) |> <| proposals ::= <[id := p2]> |>).
    apply (close_ok s id p); [done|done|done|done| | |].
    + intros aid a0 H0. rewrite lookup_insert_ne; [done|]. intros <-. congruence.
    + split_and!; [done|done|exists org, n; split; [done|]; rewrite Hr || cbn; rewrite <- Hsz; lia|]. right. right. split_and!; [done| |].
      * rewrite <- Ed. by apply decided_same; [..|destruct p].
      * exists a. apply (lookup_insert_eq (actions s) (action_id id)).
    + intros aid a0. rewrite lookup_insert. case_decide as E; [|by left]. intros [= <-]. right. subst aid.
      split_and!; [done|unfold action_id; cbn; by rewrite Hid|]. exists p2. split_and!; [|done|done].
      assert (QueuedGovernanceAction_ProposalID a = id) as -> by done. apply (lookup_insert_eq (proposals s) id).
  - change (s <| proposals ::= _ |>) with (s <| actions := actions s |> <| proposals ::= <[id := p <| GovernanceProposal_Status := "failed" |>]> |>).
    apply (close_ok s id p); [done|done|done|done|done| |by left].
    split_and!; [done|done|exists org, n; split; [done|]; cbn; rewrite <- Hsz; lia|]. right. left. split; [done|].
    rewrite <- Ed. by apply decided_same; [..|destruct p].
Qed.
Lemma submit_ok s id acc p m b :
  store_ok s → proposals s !! id = Some p → GovernanceProposal_Status p = "active" →
  ballots s !! id = Some m → is_Some (getMembership s acc (GovernanceProposal_OrganizationID p)) →
  WeightedBallot_ProposalID b = id → WeightedBallot_AccountCommitment b = acc →
  store_ok (s <| ballots ::= <[id := <[acc := b]> m]> |>).
Proof.
  intros (Hp & Hb & Ha) Ep Hst Em Hmem Hb1 Hb2. split_and!.
  - intros k q Hq. change (proposals s !! k = Some q) in Hq. destruct (decide (k = id)) as [->|Hk].
    + rewrite Ep in Hq. injection Hq as <-. destruct (Hp _ _ Ep) as (Hid & _ & Hn & Hc). split_and!; [done| |done|].
      * eexists. apply (lookup_insert_eq (ballots s) id).
      * left. rewrite Hst in Hc. by intuition.
    + apply (proposal_ok_same s); [done| |done|done|by apply Hp]. by apply (lookup_insert_ne (ballots s) id).
  - change (map_Forall (ballots_ok (s <| ballots ::= <[id := <[acc := b]> m]> |>)) (<[id := <[acc := b]> m]> (ballots s))).
    apply map_Forall_insert_2.
    + destruct (Hb _ _ Em) as (q & Hq & Hall). exists q. split; [done|]. rewrite Ep in Hq. injection Hq as <-.
      apply map_Forall_insert_2; [by split_and!|done].
    + done.
  - done.
Qed.
Lemma dispatch_ok s aid a a' :
  store_ok s → actions s !! aid = Some a →
  QueuedGovernanceAction_ID a' = QueuedGovernanceAction_ID a → QueuedGovernanceAction_ProposalID a' = QueuedGovernanceAction_ProposalID a →
  QueuedGovernanceAction_OrganizationID a' = QueuedGovernanceAction_OrganizationID a →
  store_ok (s <| actions ::= <[QueuedGovernanceAction_ID a := a']> |>).
Proof.
  intros (Hp & Hb & Ha) Ea E1 E2 E3. destruct (Ha _ _ Ea) as (Hid & Hact & q & Hq). rewrite Hid. split_and!.
  - intros k p Hk. change (proposals s !! k = Some p) in Hk. apply (proposal_ok_same s); [done|done|done| |by apply Hp].
    intros [a0 H0]. change (is_Some (<[aid := a']> (actions s) !! action_id k)). rewrite lookup_insert. case_decide; [by eexists|by exists a0].
  - done.
  - change (map_Forall (action_ok (s <| actions ::= <[aid := a']> |>)) (<[aid := a']> (actions s))). apply map_Forall_insert_2.
    + split_and!; [by rewrite E1|by rewrite E2|]. exists q. by rewrite E2, E3.
    + done.
Qed.

(** Every request keeps the invariant. *)
Lemma api_step_ok s r s' : store_ok s → api_step s r s' → store_ok s'.
Proof.
  intros Hs Hstep. destruct Hstep as [tp now body s r s' H|now id_ by_ s r s' H|now body s r s' H|env now id_ by_ ad s r s' H].
  - destruct (createProposal_run tp now body s) as (r1 & s1 & E & Hc). rewrite H in E. injection E as <- <-.
    destruct Hc as [[_ ->]|(b & m & _ & _ & _ & ->)]; [done|]. by apply create_ok.
  - destruct (closeProposal_run now id_ by_ s) as (r1 & s1 & E & Hc). rewrite H in E. injection E as <- <-.
    destruct Hc as [->|(p & Ep & Hst & _ & Hc)]; [done|]. assert (s' = closed_by s (now 0%nat) p) as ->.
    { unfold closed_by. by destruct (decided s p). }
    by eapply closed_by_ok.
  - destruct (submitBallot_run now body s Hs) as (r1 & s1 & E & Hc). rewrite H in E. injection E as <- <-.
    destruct Hc as [[_ ->]|(b & p & m & _ & Ep & Hst & Hmem & Em & _ & _ & ->)]; [done|]. by eapply submit_ok.
  - destruct (dispatchAction_run env now id_ by_ ad s) as (r1 & s1 & E & Hc). rewrite H in E. injection E as <- <-.
    destruct Hc as [->|(a & a' & Ea & _ & E1 & E2 & E3 & _ & ->)]; [done|]. by eapply dispatch_ok.
Qed.
Lemma api_reach_ok orgs members s : rtc api_moves (seeded orgs members) s → store_ok s.
Proof.
  intros Hr. assert (∀ x, rtc api_moves x s → store_ok x → store_ok s) as H.
  { induction 1 as [|x y z [r Hs] _ IH]; [done|]. intros Hx. by eapply IH, api_step_ok. }
  by apply (H _ Hr), seeded_ok.
Qed.

(** ** What the API guarantees *)
Section guarantees.
Context (orgs : gmap string Organization) (members : gmap string (list MembershipSnapshot)).

(** In a reachable store no request panics, and a proposal is never created under an
    identifier that is taken: identifiers are distinct although the organization's name
    in them is free text. *)
Theorem api_total (s : Store) :
  rtc api_moves (seeded orgs members) s →
  (∀ tp now body, ∃ r s', createProposal tp now body s = (Ok r, s') ∧
     (∀ p, r = ReplyProposal p → proposals s !! GovernanceProposal_ID p = None ∧ proposals s' !! GovernanceProposal_ID p = Some p)) ∧
  (∀ now id_ by_, ∃ r s', closeProposal now id_ by_ s = (Ok r, s')) ∧
  (∀ now body, ∃ r s', submitBallot now body s = (Ok r, s')) ∧
  (∀ env now id_ by_ adapter, ∃ r s', dispatchAction env now id_ by_ adapter s = (Ok r, s')).
Proof.
  intros Hs%api_reach_ok. split_and!.
  - intros tp now body. destruct (createProposal_run tp now body s) as (r & s' & E & Hc). exists r, s'. split; [done|].
    intros p ->. destruct Hc as [[Hst _]|(b & m & _ & _ & [= ->] & ->)]; [done|].
    destruct (create_ok tp now s b m Hs) as [Hf _]. split; [done|]. set (p := new_proposal tp now s b m).
    apply (lookup_insert_eq (proposals s) (GovernanceProposal_ID p)).
  - intros now id_ by_. destruct (closeProposal_run now id_ by_ s) as (r & s' & E & _). eauto.
  - intros now body. destruct (submitBallot_run now body s Hs) as (r & s' & E & _). eauto.
  - intros env now id_ by_ ad. destruct (dispatchAction_run env now id_ by_ ad s) as (r & s' & E & _). eauto.
Qed.

(** What one request leaves alone. *)
Lemma api_step_frame s s' : store_ok s → api_moves s s' →
  memberships s' = memberships s ∧
  (∀ id p, proposals s !! id = Some p → GovernanceProposal_Status p ≠ "active" →
     proposals s' !! id = Some p ∧ ballots s' !! id = ballots s !! id) ∧
  (∀ id m acc b, ballots s !! id = Some m → m !! acc = Some b → ∃ m', ballots s' !! id = Some m' ∧ m' !! acc = Some b).
Proof.
  intros Hs [r Hstep]. destruct Hstep as [tp now body s r s' H|now id_ by_ s r s' H|now body s r s' H|env now id_ by_ ad s r s' H].
  - destruct (createProposal_run tp now body s) as (r1 & s1 & E & Hc). rewrite H in E. injection E as <- <-.
    destruct Hc as [[_ ->]|(b & m & _ & _ & _ & ->)]; [by split_and!; eauto|]. destruct (create_ok tp now s b m Hs) as [Hf _].
    set (p := new_proposal tp now s b m) in *. split; [done|].
    change (proposals (refreshOrganizationStats _)) with (<[GovernanceProposal_ID p := p]> (proposals s)).
    change (ballots (refreshOrganizationStats _)) with (<[GovernanceProposal_ID p := ∅ : gmap string WeightedBallot]> (ballots s)).
    split.
    + intros id q Hq _. assert (GovernanceProposal_ID p ≠ id) by congruence. by rewrite !lookup_insert_ne.
    + intros id m0 acc b0 Hm Hb0. destruct Hs as (_ & Hb & _). destruct (Hb _ _ Hm) as (q & Hq & _).
      assert (GovernanceProposal_ID p ≠ id) by congruence. exists m0. by rewrite lookup_insert_ne.
  - destruct (closeProposal_run now id_ by_ s) as (r1 & s1 & E & Hc). rewrite H in E. injection E as <- <-.
    destruct Hc as [->|(p & Ep & Hst & _ & Hc)]; [by split_and!; eauto|]. destruct Hs as (Hp & _ & _).
    destruct (Hp _ _ Ep) as (Hid & _). rewrite Hid in Hc.
    destruct (decided s p); cbv zeta in Hc; subst s'; (split_and!; [done| |by eauto]);
      intros id q Hq Hne; (split; [|done]); (assert (id_ ≠ id) by congruence); cbn; by rewrite lookup_insert_ne.
  - destruct (submitBallot_run now body s Hs) as (r1 & s1 & E & Hc). rewrite H in E. injection E as <- <-.
    destruct Hc as [[_ ->]|(b & p & m & _ & Ep & Hst & Hmem & Em & Hnone & _ & ->)]; [by split_and!; eauto|].
    split_and!; [done| |].
    + intros id q Hq Hne. split; [done|]. apply (lookup_insert_ne (ballots s)). congruence.
    + intros id m0 acc b0 Hm Hb0. cbn. rewrite lookup_insert. case_decide as Eid; [|by eauto]. subst id.
      rewrite Em in Hm. injection Hm as <-. eexists. split; [done|]. rewrite lookup_insert_ne; [done|congruence].
  - destruct (dispatchAction_run env now id_ by_ ad s) as (r1 & s1 & E & Hc). rewrite H in E. injection E as <- <-.
    destruct Hc as [->|(a & a' & _ & _ & _ & _ & _ & _ & ->)]; by split_and!; eauto.
Qed.
(** C26. A closed proposal is closed for good: whatever requests follow, it does not change,
    its ballots do not change, and neither does its tally. *)
Theorem closed_is_final (s s' : Store) (id : string) (p : GovernanceProposal) :
  rtc api_moves (seeded orgs members) s → rtc api_moves s s' →
  proposals s !! id = Some p → GovernanceProposal_Status p ≠ "active" →
  proposals s' !! id = Some p ∧ ballots s' !! id = ballots s !! id ∧ computeTally s' p = computeTally s p.
Proof.
  intros Hs%api_reach_ok Hr Hp Hst.
  assert (memberships s' = memberships s ∧ proposals s' !! id = Some p ∧ ballots s' !! id = ballots s !! id) as (H1 & H2 & H3).
  { induction Hr as [|x y z Hxy _ IH]; [done|]. pose proof Hxy as [r Hstep]. pose proof (api_step_ok _ _ _ Hs Hstep) as Hy.
    destruct (api_step_frame _ _ Hs Hxy) as (F1 & F2 & _). destruct (F2 _ _ Hp Hst) as [F3 F4].
    destruct (IH Hy F3) as (I1 & I2 & I3). split_and!; congruence. }
  split_and!; [done|done|]. destruct Hs as (Hok & _). destruct (Hok _ _ Hp) as (Hid & _).
  unfold computeTally, directions, allMemberships. by rewrite H1, Hid, H3.
Qed.

(** C27. A member votes once: after an accepted ballot, along any requests, that ballot stays
    as it was cast and every further one for the same account is refused without effect. *)
Theorem ballot_once (s s1 s' : Store) now b r :
  rtc api_moves (seeded orgs members) s →
  submitBallot now (Some b) s = (Ok r, s1) → reply_status r = 200 → rtc api_moves s1 s' →
  is_Some (getMembership s (Ballot_AccountCommitment b)
    (default "" (GovernanceProposal_OrganizationID <$> proposals s !! Ballot_ProposalID b))) ∧
  (∃ m, ballots s' !! Ballot_ProposalID b = Some m ∧
     WeightedBallot_Direction <$> m !! Ballot_AccountCommitment b = Some (trim_space (Ballot_Direction b))) ∧
  ∀ now' d, ∃ st msg, submitBallot now' (Some (mkBallotRequest (Ballot_ProposalID b) (Ballot_AccountCommitment b) d)) s' =
    (Ok (ReplyError st msg), s').
Proof.
  intros Hs%api_reach_ok Hb Hst Hr. pose proof (api_step_ok _ _ _ Hs (api_submit _ _ _ _ _ Hb)) as Hs1.
  destruct (submitBallot_run now (Some b) s Hs) as (r1 & s2 & E & Hc). rewrite Hb in E. injection E as <- <-.
  destruct Hc as [[Hne _]|(b' & p & m & [= <-] & Ep & Hact & Hmem & Em & Hnone & _ & ->)]; [done|].
  rewrite Ep. split; [done|]. set (bal := mkWeightedBallot _ _ _ _) in *.
  assert (∃ m', ballots s' !! Ballot_ProposalID b = Some m' ∧ m' !! Ballot_AccountCommitment b = Some bal) as (m' & Hm' & Hbal).
  { clear Hb Hs. set (s1 := s <| ballots ::= _ |>) in *.
    assert (∃ m1, ballots s1 !! Ballot_ProposalID b = Some m1 ∧ m1 !! Ballot_AccountCommitment b = Some bal) as H1.
    { eexists. split; [apply (lookup_insert_eq (ballots s))|by rewrite lookup_insert_eq]. }
    clearbody s1. induction Hr as [|x y z Hxy _ IH]; [done|]. pose proof Hxy as [r' Hstep]. apply IH; [by eapply api_step_ok|].
    destruct H1 as (m1 & Hm1 & Hb1). destruct (api_step_frame _ _ Hs1 Hxy) as (_ & _ & F). by eapply F. }
  assert (store_ok s') as Hs'.
  { clear -Hs1 Hr. induction Hr as [|x y z [r' Hstep] _ IH]; [done|]. apply IH. by eapply api_step_ok. }
  split; [exists m'; split; [done|by rewrite Hbal]|]. intros now' d.
  destruct (submitBallot_run now' (Some (mkBallotRequest (Ballot_ProposalID b) (Ballot_AccountCommitment b) d)) s' Hs')
    as (r2 & s2 & E & [[Hne ->]|(b2 & p2 & m2 & [= <-] & _ & _ & _ & Em2 & Hn2 & _)]).
  - rewrite E. destruct r2; cbn in Hne; try done. eauto.
  - cbn in *. congruence.
Qed.

(** C25. An action exists exactly for a passed proposal, one per proposal, under the
    proposal's organization; and, when weights and products fit 64 bits, the ballots of
    members for it reach the quorum of its eligible weight and its approval threshold. *)
Theorem action_means_passed (s : Store) (aid : string) (a : QueuedGovernanceAction) :
  rtc api_moves (seeded orgs members) s → actions s !! aid = Some a →
  ∃ p, proposals s !! QueuedGovernanceAction_ProposalID a = Some p ∧ aid = action_id (GovernanceProposal_ID p) ∧
    GovernanceProposal_Status p = "passed" ∧
    QueuedGovernanceAction_OrganizationID a = GovernanceProposal_OrganizationID p ∧
    let mw := MemberWeightMap (allMemberships s) (GovernanceProposal_OrganizationID p) in
    let votes := map_to_list (directions s (GovernanceProposal_ID p)) in
    let yes := weight_for mw is_yes votes in let no := weight_for mw is_no votes in
    let cast := weight_for mw (λ _, true) votes in
    (map_Forall (λ _, u64_ok) mw → u64_ok (cast * 10000) →
     u64_ok (GovernanceProposal_EligibleWeight p * GovernanceProposal_QuorumBPS p) →
     0 < GovernanceProposal_EligibleWeight p ∧
     GovernanceProposal_EligibleWeight p * GovernanceProposal_QuorumBPS p ≤ cast * 10000 ∧
     GovernanceProposal_ApprovalBPS p ≤ (yes * 10000) `div` (yes + no)).
Proof.
  intros (Hp & _ & Ha)%api_reach_ok Ea. destruct (Ha _ _ Ea) as (_ & Eid & p & Ep & Hst & Ho).
  destruct (Hp _ _ Ep) as (Hid & _ & _ & Hc). exists p. split_and!; [done|by rewrite Hid|done|done|].
  intros mw votes yes no cast Hm Hcast He.
  destruct Hc as [[Hx _]|[[Hx _]|(_ & Hd & _)]]; [by rewrite Hst in Hx|by rewrite Hst in Hx|].
  unfold decided in Hd. cbv zeta in Hd. unfold computeTally in Hd. apply andb_true_iff in Hd as [Hq Happ%Z.leb_le].
  destruct (ComputeTally_exact p mw (directions s (GovernanceProposal_ID p)) Hm Hcast He) as (Hy & Hn & _ & _ & Hquo & Happx & _).
  apply Hquo in Hq as [H1 H2]. cbv zeta in Happx. rewrite Hy, Hn in Happx. split_and!; [done|done|]. unfold yes, no, votes. by rewrite <- Happx.
Qed.
End guarantees.
