(* ===== verification/GovDemo.v ===== *)
(** A governance deployment: one organization with an admin and two members, a proposal
    from its creation to the dispatch of its action; the combined chain on the deployments
    of [Demo] and [WireDemo]; a relay; and on them the instances of the theorems on
    governance, the combined chain, the configuration and the relay. *)
From S2P Require Import Prelude Modular GoStd Json Sha256 KVStore Types TxData TxValidate Identity Keys VotingState.
From S2P Require Import Persist App Demo Governance GovernanceTally WireTypes WireTx WireState WireSupply.
From S2P Require Import WireAccounts WirePersist WireApp WireTheorems WireDemo Shares SharesTheorems Config.
From S2P Require Import ConfigTheorems Http Relay RelayTheorems GovServer GovTheorems.

(** ** The API *)
Definition member (acc : string) (roles : list string) (w : Z) : MembershipSnapshot :=
  mkMembershipSnapshot "org" "snap1" acc "" (Some roles) w 0 0.
Definition demo_orgs : gmap string Organization :=
  {["org" := mkOrganization "org" "Org" "org" "" "ORG" "rail" None 0 0]}.
Definition demo_members : gmap string (list MembershipSnapshot) :=
  {["adm" := [member "adm" ["admin"] 10]; "mem" := [member "mem" ["voter"] 30]; "mom" := [member "mom" [] 20]]}.
Definition g_seeded : Store := seeded demo_orgs demo_members.
Definition no_time : string → option Z := λ _, None.
Definition no_env : string → string := λ _, "".
Definition tick (t : Z) : nat → Z := λ i, t + Z.of_nat i.
Definition demo_request : CreateRequest :=
  mkCreateRequest "org" "adm" "Fund it" "..." "treasury" 0 0 "" "byodao" None.
Definition pid : string := "prop-org-001".
Definition ballot (acc d : string) : BallotRequest := mkBallotRequest pid acc d.
Definition g_created : Store := (createProposal no_time (tick 100) (Some demo_request) g_seeded).2.
Definition g_voted : Store := (submitBallot (tick 110) (Some (ballot "mem" "yes")) g_created).2.
Definition g_closed : Store := (closeProposal (tick 120) pid "adm" g_voted).2.
Definition g_dispatched : Store := (dispatchAction no_env (tick 130) (action_id pid) "adm" "" g_closed).2.

(** A run that returns, as an equation. *)
Lemma ran {S A} (m : M S A) (s : S) : res_ok (m s).1 = true → ∃ a, m s = (Ok a, (m s).2).
Proof. destruct (m s) as [[a|e|] s']; [|done..]. intros _. by exists a. Qed.

Lemma g_created_step : api_moves g_seeded g_created.
Proof.
  destruct (ran (createProposal no_time (tick 100) (Some demo_request)) g_seeded) as [r E]; [by vm_compute|].
  exists r. by eapply api_create.
Qed.
Lemma g_voted_step : api_moves g_created g_voted.
Proof.
  destruct (ran (submitBallot (tick 110) (Some (ballot "mem" "yes"))) g_created) as [r E]; [by vm_compute|].
  exists r. by eapply api_submit.
Qed.
Lemma g_closed_step : api_moves g_voted g_closed.
Proof.
  destruct (ran (closeProposal (tick 120) pid "adm") g_voted) as [r E]; [by vm_compute|]. exists r. by eapply api_close.
Qed.
Lemma g_dispatched_step : api_moves g_closed g_dispatched.
Proof.
  destruct (ran (dispatchAction no_env (tick 130) (action_id pid) "adm" "") g_closed) as [r E]; [by vm_compute|].
  exists r. by eapply api_dispatch.
Qed.
Lemma g_created_reach : rtc api_moves g_seeded g_created.
Proof. apply rtc_once, g_created_step. Qed.
Lemma g_closed_reach : rtc api_moves g_seeded g_closed.
Proof. eapply rtc_r; [eapply rtc_r; [apply g_created_reach|apply g_voted_step]|apply g_closed_step]. Qed.
Lemma g_dispatched_reach : rtc api_moves g_seeded g_dispatched.
Proof. eapply rtc_r; [apply g_closed_reach|apply g_dispatched_step]. Qed.

Example demo_passed : GovernanceProposal_Status <$> proposals g_closed !! pid = Some "passed".
Proof. by vm_compute. Qed.
Example demo_dispatched : QueuedGovernanceAction_Status <$> actions g_dispatched !! action_id pid = Some "dispatched".
Proof. by vm_compute. Qed.

(** ** The combined chain *)
Definition cfg0 : Shares.Config := Shares.mkConfig "dao" "silo" 1 [] [].
Definition venv (t : Tx) : option json := Some (to_json (mkEnvelope ProtocolVoting (Some (EncodeTx t)))).
Definition wenv (t : Tx) : option json := Some (to_json (mkEnvelope ProtocolWire (Some (EncodeTx t)))).
Definition s_shares : Shares.State := Shares.mkState s_empty w_funded.
Definition demo_block : list (option json) := [venv create_tx; wenv transfer_tx; None].
Definition shares_now : nat → clock := λ _ _, 50.
Abbreviation s_block := (FinalizeBlock cfg0 shares_now (∅ : memdb) (∅ : memdb) demo_block s_shares).
Lemma finalized {A B} (x : res A * B) : res_ok x.1 = true → ∃ a, x = (Ok a, x.2).
Proof. destruct x as [[a|e|] y]; [|done..]. intros _. by exists a. Qed.
Lemma s_block_run : ∃ resp, s_block = (Ok resp, s_block.2).
Proof. apply finalized. by vm_compute. Qed.
(** A started node. *)
Definition s_started : Shares.State :=
  match Shares.New (∅ : memdb) (∅ : memdb) None (Some NoopVerifier) with inr s => s | inl _ => s_shares end.
(** A transfer of minus thirty. *)
Definition steal_data : TransferData := mkTransferData "silo" ann ben (-3) "nul9" "non9" (Some "p") 2.
Definition steal_tx : Tx := wtx TxTypeTransfer steal_data.

(** ** A relay *)
Definition demo_parse (text : string) : option json := if bool_decide (text = "alice") then Some (EncodeTx alice_tx) else None.
Definition demo_upstream (log : list Call) (url : string) (tx : option string) : option (option json) :=
  match log with [] => Some (Some (JObj [("error", JStr "full")])) | _ => Some (Some (JObj [])) end.

(** A computed fact. *)
Ltac gval := vm_compute; first [reflexivity | discriminate | solve [eauto]].

(** ** The API *)
Lemma api_total_witness :
  ∃ r s', submitBallot (tick 110) (Some (ballot "mem" "yes")) g_created = (Ok r, s').
Proof.
  destruct (api_total demo_orgs demo_members g_created g_created_reach) as (_ & _ & H & _).
  apply (H (tick 110) (Some (ballot "mem" "yes"))).
Defined.
Lemma closed_is_final_witness :
  (ballots g_dispatched !! pid) = (ballots g_closed !! pid) ∧ is_Some (ballots g_closed !! pid).
Proof.
  assert (∃ p, proposals g_closed !! pid = Some p ∧ GovernanceProposal_Status p ≠ "active") as (p & Hp & Hst).
  { eexists. split; [vm_compute; reflexivity|]. by vm_compute. }
  destruct (closed_is_final demo_orgs demo_members g_closed g_dispatched pid p g_closed_reach
    (rtc_once _ _ g_dispatched_step) Hp Hst) as (_ & Hb & _).
  split; [exact Hb|]. apply (bool_decide_unpack _). vm_compute. exact I.
Defined.
Lemma ballot_once_witness :
  ∃ st msg, submitBallot (tick 140) (Some (mkBallotRequest pid "mem" "no")) g_dispatched = (Ok (ReplyError st msg), g_dispatched).
Proof.
  destruct (ran (submitBallot (tick 110) (Some (ballot "mem" "yes"))) g_created) as [r E]; [by vm_compute|].
  assert (reply_status r = 200) as Hst.
  { assert (match (submitBallot (tick 110) (Some (ballot "mem" "yes")) g_created).1 with Ok r => reply_status r | _ => 0 end = 200) as H by gval.
    by rewrite E in H. }
  assert (rtc api_moves g_voted g_dispatched) as Hr by (eapply rtc_r; [apply rtc_once, g_closed_step|apply g_dispatched_step]).
  destruct (ballot_once demo_orgs demo_members g_created _ g_dispatched (tick 110) _ r g_created_reach E Hst Hr) as (_ & _ & H).
  apply (H (tick 140) "no").
Defined.
Lemma action_means_passed_witness :
  ∃ p, proposals g_dispatched !! pid = Some p ∧ GovernanceProposal_Status p = "passed".
Proof.
  assert (∃ a, actions g_dispatched !! action_id pid = Some a ∧ QueuedGovernanceAction_ProposalID a = pid) as (a & Ha & Hpid).
  { eexists. split; [vm_compute; reflexivity|]. by vm_compute. }
  destruct (action_means_passed demo_orgs demo_members g_dispatched (action_id pid) a g_dispatched_reach Ha) as (p & Hp & _ & Hst & _).
  rewrite Hpid in Hp. exists p. split; [exact Hp|exact Hst].
Defined.
(** Two members' weights beyond 64-bit products: 4000 basis points of 2^62. *)
Definition huge_proposal : GovernanceProposal :=
  mkGovernanceProposal "p" "org" "" "" "" "active" "" "" "" "" 0 0 4000 5000 (2 ^ 62) "" None None.
Lemma quorum_without_votes_witness :
  GovernanceTally_QuorumReached (ComputeTally huge_proposal ∅ {["a" := 2 ^ 62]}) = true.
Proof. apply (quorum_without_votes huge_proposal {["a" := 2 ^ 62]}); [gval|gval]. Defined.
Definition two_weights : gmap string Z := {["a" := 7; "b" := 5]}.
Definition two_ballots : gmap string string := {["a" := "yes"; "b" := "no"]}.
Lemma tally_order_independent_witness :
  GovernanceTally_YesWeight (tally_on huge_proposal (reverse (map_to_list two_ballots)) two_weights) = 7.
Proof.
  pose proof (reverse_Permutation (map_to_list two_ballots)) as Hp.
  pose proof (tally_order_independent huge_proposal two_weights two_ballots (reverse (map_to_list two_ballots)) Hp) as H.
  apply (f_equal GovernanceTally_YesWeight) in H. etrans; [exact H|].
  gval.
Defined.

Lemma Info_after_block_witness : (Info s_block.2.1).1 = 1.
Proof.
  destruct s_block_run as [resp E].
  assert (FinalizeBlock cfg0 shares_now (∅ : memdb) (∅ : memdb) demo_block s_shares = (Ok resp, (s_block.2.1, s_block.2.2))) as E2.
  { exact (eq_trans E (f_equal (pair (Ok resp)) (surjective_pairing _))). }
  destruct (Info_after_block cfg0 shares_now ∅ ∅ demo_block s_shares resp _ _ E2) as (_ & -> & _). gval.
Defined.
Lemma shares_admits_no_ballot_witness :
  match (CheckTx (at_ 150) (venv batch_tx) s_started).1 with Ok r => App.CheckTx_Code r ≠ 0 | _ => False end.
Proof.
  assert (running (DB := memdb) cfg0 s_started) as Hr by (apply (running_new cfg0 (∅ : memdb) (∅ : memdb) None (Some NoopVerifier)); gval).
  assert (DecodeEnvelope (venv batch_tx) = inr (mkEnvelope ProtocolVoting (Some (EncodeTx batch_tx)))) as He by gval.
  assert (DecodeTx (Some (EncodeTx batch_tx)) = Some batch_tx) as Hd by gval.
  destruct (ran (CheckTx (at_ 150) (venv batch_tx)) s_started) as [r E]; [gval|]. rewrite E.
  exact (shares_admits_no_ballot (DB := memdb) cfg0 s_started (at_ 150) (venv batch_tx) _ batch_tx r _ Hr He eq_refl Hd
    (or_intror (or_introl eq_refl)) E).
Defined.
Lemma negative_transfer_admitted_witness :
  CheckTx (λ _, 50) (wenv steal_tx) s_shares = (Ok (App.mkResponseCheckTx 0 None), s_shares).
Proof.
  assert (res_ok (WireApp.ValidateTx steal_tx w_funded).1 = true) as Hv by gval.
  assert (DecodeEnvelope (wenv steal_tx) = inr (mkEnvelope ProtocolWire (Some (EncodeTx steal_tx)))) as He by gval.
  assert (DecodeTx (Some (EncodeTx steal_tx)) = Some steal_tx) as Hd by gval.
  assert (UnmarshalData steal_tx = Some steal_data) as Ed by gval.
  assert (TransferData_SenderCommitment steal_data ≠ TransferData_RecipientCommitment steal_data) as Hne by gval.
  destruct (negative_transfer_admitted cfg0 (λ _, 50) s_shares (wenv steal_tx) _ steal_tx steal_data He eq_refl Hd eq_refl Ed
    eq_refl Hne (validated_transfer steal_tx w_funded eq_refl Hv)) as (_ & H & _).
  exact H.
Defined.

(** ** Configuration and relay *)
Lemma splitCSV_join_witness : splitCSV (str_join ["k1"; "k2"] ",") = ["k1"; "k2"].
Proof. apply splitCSV_join. repeat constructor; vm_compute; try reflexivity; discriminate. Defined.
Definition relay1 : Server := (Relay.submitBallot demo_parse (Some "alice") (NewServer "http://up/")).2.
Lemma relay_accounts_witness :
  ["alice"] ≡ₚ delivered (outbox relay1) ++ all_queued relay1.
Proof.
  assert (∃ r, Relay.submitBallot demo_parse (Some "alice") (NewServer "http://up/") = (Ok r, relay1) ∧ taken (Some "alice") r = ["alice"])
    as (r & E & Ht).
  { destruct (ran (Relay.submitBallot demo_parse (Some "alice")) (NewServer "http://up/")) as [r E]; [by vm_compute|].
    exists r. split; [exact E|].
    assert (match (Relay.submitBallot demo_parse (Some "alice") (NewServer "http://up/")).1 with Ok r => taken (Some "alice") r | _ => [] end = ["alice"]) as H by gval.
    by rewrite E in H. }
  destruct (relay_accounts demo_parse demo_upstream "http://up/" (mkWorld relay1 [] (taken (Some "alice") r ++ []))) as [_ H].
  - apply rtc_once. by apply step_submit.
  - specialize (H eq_refl). cbn in H. by rewrite Ht in H.
Defined.
