(* ===== verification/Reconcile.v ===== *)
(** services/reconcile: the off-chain store that links a participant of a poll to a
    submission.  The interface is a class with the laws its comments promise; the
    in-memory store is an instance that meets them. *)
From S2P Require Import Prelude GoStd Keys.

Definition ErrNoRows : error := Errorf "sql: no rows in result set" [].
(** [Store]. *)
Class Store (St : Type) := {
  RecordSubmission : string → string → string → M St unit;
  GetSubmissionID : string → string → M St string;
  RevealBallotEvidence : string → string → M St string;
  DeleteSubmission : string → string → M St unit;
}.

(** [b] is the state [a] with the link of one participant replaced, [link] being what a
    state holds; identities are free of colons, as hashes in hex are. *)
Definition relinked {St} (link : St → string → string → option string) (a b : St)
    (pollID identityHash : string) (o : option string) : Prop :=
  ∀ p i, no_colon i = true →
    link b p i = if decide (p = pollID ∧ i = identityHash) then o else link a p i.
Definition same_links {St} (link : St → string → string → option string) (a b : St) : Prop :=
  ∀ p i, link b p i = link a p i.

(** The promises: a write replaces the link of one participant (an upsert) and a failed
    one wrote it or not; a read changes nothing and answers with the link; nothing
    panics. *)
Class StoreLaws (St : Type) `{Store St} := {
  link : St → string → string → option string;
  record_law pollID identityHash submissionID s r s' :
    no_colon identityHash = true → RecordSubmission pollID identityHash submissionID s = (r, s') →
    match r with
    | Ok _ => relinked link s s' pollID identityHash (Some submissionID)
    | Fail _ => relinked link s s' pollID identityHash (Some submissionID) ∨ same_links link s s'
    | Panic => False
    end;
  get_law pollID identityHash s r s' :
    GetSubmissionID pollID identityHash s = (r, s') →
    same_links link s s' ∧ match r with Ok b => link s pollID identityHash = Some b | Fail _ => True | Panic => False end;
  reveal_law pollID identityHash s r s' :
    RevealBallotEvidence pollID identityHash s = (r, s') →
    same_links link s s' ∧ match r with Ok b => link s pollID identityHash = Some b | Fail _ => True | Panic => False end;
  delete_law pollID identityHash s r s' :
    no_colon identityHash = true → DeleteSubmission pollID identityHash s = (r, s') →
    match r with
    | Ok _ => relinked link s s' pollID identityHash None
    | Fail _ => relinked link s s' pollID identityHash None ∨ same_links link s s'
    | Panic => False
    end;
}.

(** ** memory.go *)
(** [entries] is nil until the first write. *)
Record MemoryStore := mkMemoryStore { entries : option (gmap string string) }.
Definition key (pollID identityHash : string) : string := pollID +:+ ":" +:+ identityHash.
Definition init (s : MemoryStore) : gmap string string := default ∅ (entries s).
Definition memory_get (pollID identityHash : string) (what : string) : M MemoryStore string :=
  s ← gets id;
  or_fail (entries s ≫= lookup (key pollID identityHash)) (Errorf what [FStr pollID; FErr ErrNoRows]).
#[export] Instance MemoryStore_Store : Store MemoryStore := {
  RecordSubmission pollID identityHash submissionID :=
    modify (λ s, mkMemoryStore (Some (<[key pollID identityHash := submissionID]> (init s))));
  GetSubmissionID pollID identityHash := memory_get pollID identityHash "memory reconcile store lookup poll=%s: %w";
  RevealBallotEvidence pollID identityHash :=
    memory_get pollID identityHash "memory reconcile store reveal-evidence poll=%s: %w";
  DeleteSubmission pollID identityHash := modify (λ s, mkMemoryStore (delete (key pollID identityHash) <$> entries s));
}.

(** ** The instance meets the laws *)
Lemma no_colon_app s t : no_colon (s +:+ t) = no_colon s && no_colon t.
Proof. induction s as [|c s IH]; [done|]. change (String c s +:+ t) with (String c (s +:+ t)). cbn [no_colon]. by rewrite IH, andb_assoc. Qed.
(** Keys of identities without a colon determine both components. *)
Lemma key_inj p i p' i' :
  no_colon i = true → no_colon i' = true → key p i = key p' i' → p = p' ∧ i = i'.
Proof.
  intros Hi Hi'. unfold key. revert p'. induction p as [|c p IH]; intros [|c' p'] E.
  - split; [done|]. by apply (inj (String.append ":")) in E.
  - change (String ":" i = String c' (p' +:+ String ":" i')) in E. injection E as _ ->.
    exfalso. by rewrite no_colon_app, andb_false_r in Hi.
  - change (String c (p +:+ String ":" i) = String ":" i') in E. injection E as _ <-.
    exfalso. by rewrite no_colon_app, andb_false_r in Hi'.
  - change (String c (p +:+ ":" +:+ i) = String c' (p' +:+ ":" +:+ i')) in E. injection E as <- E.
    by destruct (IH p' E) as [-> ->].
Qed.
Definition memory_link (s : MemoryStore) (p i : string) : option string := init s !! key p i.
Lemma memory_relinked s m pollID identityHash o :
  no_colon identityHash = true → (∀ k, m !! k = if decide (k = key pollID identityHash) then o else init s !! k) →
  relinked memory_link s (mkMemoryStore (Some m)) pollID identityHash o.
Proof.
  intros Hi Hm p i Hi'. unfold memory_link, init at 1. cbn. rewrite Hm. unfold memory_link.
  destruct (decide (key p i = key pollID identityHash)) as [E|E].
  - apply key_inj in E as [-> ->]; [|done..]. by rewrite decide_True.
  - rewrite decide_False; [done|]. by intros [-> ->].
Qed.
Lemma memory_get_law pollID identityHash what s r s' :
  memory_get pollID identityHash what s = (r, s') →
  same_links memory_link s s' ∧
  match r with Ok b => memory_link s pollID identityHash = Some b | Fail _ => True | Panic => False end.
Proof.
  unfold memory_get, memory_link, init. rewrite bind_run, gets_run. cbn beta iota. unfold id.
  rewrite or_fail_run. destruct s as [[m|]]; cbn; [destruct (m !! _) eqn:E|]; intros [= <- <-]; try done.
Qed.
#[export] Instance MemoryStore_laws : StoreLaws MemoryStore.
Proof.
  refine (Build_StoreLaws _ _ memory_link _ _ _ _).
  - intros p i b s r s' Hi [= <- <-]. apply memory_relinked; [done|]. intros k.
    rewrite lookup_insert. case_decide; case_decide; congruence.
  - intros p i s r s'. apply memory_get_law.
  - intros p i s r s'. apply memory_get_law.
  - intros p i s r s' Hi [= <- <-]. destruct s as [[m|]]; cbn.
    + apply memory_relinked; [done|]. intros k. rewrite lookup_delete. cbn. case_decide; case_decide; congruence.
    + intros p' i' _. unfold memory_link, init. cbn. rewrite lookup_empty. by case_decide.
Defined.
