(* ===== verification/Router.v ===== *)
(** api/server/router.go: the protocol API in front of the chain.  Ballots wait in a
    queue per poll until a flush broadcasts them as one transaction; queries, updates and
    confirmations go straight to the chain.

    The node and the store of receipts are interfaces ([Broadcaster], [Store]), [parse]
    reads JSON text, [VerifyToken] is the attestation service, [ctx_err] tells whether
    the context of a request was cancelled before an attempt.  Bytes sent to the node are
    the document they hold, [None] when they hold none. *)
From S2P Require Import Prelude GoStd Json Http TxData TxValidate Config Reconcile.

(** ** The node: api/rpc *)
Class Broadcaster (N : Type) := {
  ABCIQuery : string → M N (option json);
  BroadcastTx : option json → M N (option json);
  Status : M N (option json);
}.

(** ** Data *)
Record queuedBallot := mkQueuedBallot {
  txJSON : string;
  envelope : Tx;
  cast_data : BallotCastData;
  ballotID : string;
  identityHash : string;
  allowReceipt : bool;
}.
(** [Attester]: an error, or whether the device may only write. *)
Definition Attester : Type := string → string → error + bool.
Record Server (N St : Type) := mkServer {
  rpc : N;
  reconcileStore : option St;
  attester : option Attester;
  postureCfg : option PostureConfig;
  ballotQueue : gmap string (list queuedBallot);
}.
Arguments mkServer {N St}. Arguments rpc {N St}. Arguments reconcileStore {N St}. Arguments attester {N St}.
Arguments postureCfg {N St}. Arguments ballotQueue {N St}.
#[export] Instance Eta_Server N St : Eta (Server N St) := λ r,
  mkServer (rpc r) (reconcileStore r) (attester r) (postureCfg r) (ballotQueue r).
(** [NewServerWithBroadcaster], [WithAttester], [WithReconcileStore], [WithManifest]. *)
Definition NewServerWithBroadcaster {N St} (b : N) : Server N St := mkServer b None None None ∅.
Definition WithAttester {N St} (a : Attester) : Server N St → Server N St := λ s, s <| attester := Some a |>.
Definition WithReconcileStore {N St} (rs : St) : Server N St → Server N St := λ s, s <| reconcileStore := Some rs |>.
Definition WithManifest {N St} (manifestJSON : option json) : M (Server N St) unit :=
  cfg ← ParseManifest manifestJSON;
  modify (λ s, s <| postureCfg := Some cfg |>).

(** The body [{"tx": "..."}]. *)
Record TxBody := mkTxBody { TxBody_Tx : string }.
#[export] Instance Json_TxBody : Json TxBody := {
  jzero := mkTxBody "";
  to_json r := JObj (required "tx" (TxBody_Tx r) ++ []);
  of_json := of_object (λ ms, x0 ← jfield ["tx"] ms "tx"; Some (mkTxBody x0));
}.
(** The answer to "/voter_registered/". *)
Record Registered := mkRegistered { Registered_Registered : bool }.
#[export] Instance Json_Registered : Json Registered := {
  jzero := mkRegistered false;
  to_json r := JObj (required "registered" (Registered_Registered r) ++ []);
  of_json := of_object (λ ms, x0 ← jfield ["registered"] ms "registered"; Some (mkRegistered x0));
}.
(** The body of a reconciled update: the embedded [BallotUpdateData] and
    "identity_hash", which is the name of none of its members. *)
Record UpdateBody := mkUpdateBody { UpdateBody_IdentityHash : string; UpdateBody_BallotUpdateData : BallotUpdateData }.
#[export] Instance Eta_UpdateBody : Eta UpdateBody := λ r,
  mkUpdateBody (UpdateBody_IdentityHash r) (UpdateBody_BallotUpdateData r).
Definition UpdateBody_tags : list string := "identity_hash" :: BallotUpdateData_tags.
Definition decode_update (j : json) : option UpdateBody :=
  match j with
  | JObj ms =>
      x0 ← jfield UpdateBody_tags ms "identity_hash";
      x1 ← unmarshal (JObj ms);
      Some (mkUpdateBody x0 x1)
  | JNull => Some (mkUpdateBody "" jzero)
  | _ => None
  end.

(** ** A code in [float64]: whether it is not zero
    A literal is [-]digits[.digits][e[+-]digits].  The value is zero when it is at most
    half the smallest subnormal, and out of range from the midpoint above the largest
    float on. *)
Fixpoint digits (s : string) (acc : Z) (n : Z) : Z * Z * string :=
  match s with
  | String c s' =>
      let d := Z.of_N (N_of_ascii c) - 48 in
      if (0 <=? d) && (d <=? 9) then digits s' (acc * 10 + d) (n + 1) else (acc, n, s)
  | EmptyString => (acc, n, s)
  end.
Definition exponent (s : string) : Z :=
  match s with
  | String c r =>
      if bool_decide (c = "e"%char) || bool_decide (c = "E"%char) then
        match r with
        | String c' r' =>
            if bool_decide (c' = "-"%char) then - (digits r' 0 0).1.1
            else if bool_decide (c' = "+"%char) then (digits r' 0 0).1.1 else (digits r 0 0).1.1
        | EmptyString => 0
        end
      else 0
  | EmptyString => 0
  end.
(** [m * 10 ^ e] against [n / d], for positive [d]. *)
Definition scaled_cmp (m e n d : Z) : comparison :=
  if 0 <=? e then m * 10 ^ e * d ?= n else m * d ?= n * 10 ^ (- e).
Definition float_nonzero (literal : string) : option bool :=
  let unsigned := trim_prefix literal "-" in
  let '(m, _, rest) := digits unsigned 0 0 in
  let '(m, frac, rest) := if has_prefix rest "." then digits (trim_prefix rest ".") m 0 else (m, 0, rest) in
  let e := exponent rest - frac in
  if m =? 0 then Some false
  else match scaled_cmp m e ((2 ^ 54 - 1) * 2 ^ 970) 1 with
       | Lt => Some (match scaled_cmp m e 1 (2 ^ 1075) with Gt => true | _ => false end)
       | _ => None
       end.
Definition of_json_code (prev : bool) (j : json) : option bool :=
  match j with
  | JInt z => Some (negb (z =? 0))
  | JFrac literal => float_nonzero literal
  | JNull => Some prev
  | _ => None
  end.
(** The answer of broadcast_tx_commit, its codes by whether they are not zero. *)
Record TxCode := mkTxCode { TxCode_Code : bool }.
#[export] Instance Json_TxCode : Json TxCode := {
  jzero := mkTxCode false;
  to_json r := JObj [("code", JInt (if TxCode_Code r then 1 else 0))];
  of_json := of_object (λ ms, x0 ← jfield_with of_json_code false ["code"] ms "code"; Some (mkTxCode x0));
}.
Record TxOutcome := mkTxOutcome { TxOutcome_CheckTx : TxCode; TxOutcome_TxResult : TxCode }.
Definition TxOutcome_tags : list string := ["check_tx"; "tx_result"].
#[export] Instance Json_TxOutcome : Json TxOutcome := {
  jzero := mkTxOutcome (mkTxCode false) (mkTxCode false);
  to_json r := JObj (required "check_tx" (TxOutcome_CheckTx r) ++ required "tx_result" (TxOutcome_TxResult r) ++ []);
  of_json := of_object (λ ms,
    x0 ← jfield TxOutcome_tags ms "check_tx";
    x1 ← jfield TxOutcome_tags ms "tx_result";
    Some (mkTxOutcome x0 x1));
}.
Record TxAnswer := mkTxAnswer { TxAnswer_Result : TxOutcome }.
#[export] Instance Json_TxAnswer : Json TxAnswer := {
  jzero := mkTxAnswer jzero;
  to_json r := JObj (required "result" (TxAnswer_Result r) ++ []);
  of_json := of_object (λ ms, x0 ← jfield ["result"] ms "result"; Some (mkTxAnswer x0));
}.
(** [txFailed]; a document that does not decode has not failed. *)
Definition txFailed (raw : option json) : bool :=
  match raw ≫= unmarshal with
  | None => false
  | Some body => TxCode_Code (TxOutcome_CheckTx (TxAnswer_Result body)) || TxCode_Code (TxOutcome_TxResult (TxAnswer_Result body))
  end.

(** ** Identifiers *)
Section identifiers.
Context `{C : Crypto}.
(** [deriveBallotIdentity]: submission identifier and participant. *)
Definition deriveBallotIdentity (data : BallotCastData) : option (string * string) :=
  let ballotID :=
    if bool_decide (BallotCastData_SubmissionIdentifierDerivation data = SubmissionIdentifierDerivationNoncePlusPayload)
    then hex_EncodeToString (sha256 (BallotCastData_BallotNonce data +:+ ":" +:+ marshal (BallotCastData_Choices data)))
    else hex_EncodeToString (sha256 (BallotCastData_BallotNonce data)) in
  if negb (str_empty (BallotCastData_ZKNullifier data)) then Some (ballotID, BallotCastData_ZKNullifier data)
  else if negb (str_empty (BallotCastData_VoterPubKey data)) then
    Some (ballotID, hex_EncodeToString (sha256 (BallotCastData_VoterPubKey data +:+ BallotCastData_PollID data)))
  else None.
Definition computeServerBatchID (pollID : string) (batch : list queuedBallot) : string :=
  let ids := sort_Strings (ballotID <$> batch) in
  hex_EncodeToString (sha256 (pollID +:+ foldr (λ id s, ":" +:+ id +:+ s) "" ids)).
(** The transaction a flush broadcasts. *)
Definition flush_tx (pollID : string) (batch : list queuedBallot) : Tx :=
  mkTx TxTypeBatchFlush (Some (String (ascii_of_N 1) ""))
    (Some (to_json (mkBatchFlushData pollID (Some (envelope <$> batch))))).
(** The transaction of a reconciled update. *)
Definition update_tx (data : BallotUpdateData) : Tx :=
  mkTx TxTypeUpdateBallot (Some (String (ascii_of_N 1) "")) (Some (to_json data)).
End identifiers.

(** ** Handlers *)
Section handlers.
Context `{C : Crypto} {N St : Type} `{B : Broadcaster N} `{R : Store St} (parse : string → option json).
#[local] Abbreviation Srv := (Server N St).
#[local] Open Scope http_scope.

Definition on_rpc {A} (m : M N A) : M Srv A := λ s,
  let '(r, n) := m (rpc s) in (r, s <| rpc := n |>).
(** A call of the store; a nil store is dereferenced. *)
Definition on_store {A} (m : M St A) : M Srv A := λ s,
  match reconcileStore s with
  | None => (Panic, s)
  | Some st => let '(r, st') := m st in (r, s <| reconcileStore := Some st' |>)
  end.
Definition queued (s : Srv) (pollID : string) : list queuedBallot := default [] (ballotQueue s !! pollID).
Definition permanentWriteOnly (s : Srv) : bool := from_option PostureConfig_WriteOnly false (postureCfg s).

(** [enqueueBallot]. *)
Fixpoint check_duplicates (item : queuedBallot) (queue : list queuedBallot) : option error :=
  match queue with
  | [] => None
  | existing :: rest =>
      if bool_decide (ballotID existing = ballotID item) then
        Some (Errorf "duplicate queued submission_id %s for poll %s"
          [FStr (ballotID item); FStr (BallotCastData_PollID (cast_data item))])
      else if bool_decide (identityHash existing = identityHash item) then
        Some (Errorf "duplicate queued participant for poll %s" [FStr (BallotCastData_PollID (cast_data item))])
      else check_duplicates item rest
  end.
Definition enqueueBallot (item : queuedBallot) : M Srv unit :=
  let pollID := BallotCastData_PollID (cast_data item) in
  s ← gets id;
  match check_duplicates item (queued s pollID) with
  | Some e => failM e
  | None => modify (λ s, s <| ballotQueue ::= <[pollID := queued s pollID ++ [item]]> |>)
  end.
Definition dequeueBallotsForFlush (pollID : string) : M Srv (list queuedBallot * string) :=
  s ← gets id;
  match queued s pollID with
  | [] => mret ([], "")
  | queue =>
      modify (λ s, s <| ballotQueue ::= delete pollID |>) ;;
      mret (queue, computeServerBatchID pollID queue)
  end.
Definition restoreQueuedBallots (pollID : string) (batch : list queuedBallot) : M Srv unit :=
  match batch with
  | [] => mret tt
  | _ => modify (λ s, s <| ballotQueue ::= <[pollID := batch ++ queued s pollID]> |>)
  end.

(** The attestation check of [submitBallot]: an answer, or whether the request fell back
    to write-only. *)
Definition attest_gate (s : Srv) (platform token : string) : Response + bool :=
  match attester s with
  | None => inr false
  | Some VerifyToken =>
      let fallbacks := from_option PostureConfig_RuntimeFallbacks jzero (postureCfg s) in
      if str_empty token then
        if negb (permanentWriteOnly s) && WriteOnlyOnMissingPlayIntegrity fallbacks then inr true
        else if negb (permanentWriteOnly s) then inl (writeError 401 (Errorf "X-Attest-Token required" []))
        else inr false
      else
        match VerifyToken platform token with
        | inl e => inl (writeError 403 (Errorf "attestation verification failed: %s" [FErr e]))
        | inr writeOnly => inr (writeOnly && WriteOnlyOnUntrustedDeviceAttestation fallbacks)
        end
  end.
(** Whether the chain already has the participant; errors of the query count as no. *)
Definition already_registered (pollID identityHash : string) : M Srv bool :=
  regData ← try (on_rpc (ABCIQuery ("/voter_registered/" +:+ pollID +:+ "/" +:+ identityHash)));
  mret (match regData with
        | Ok regData => from_option Registered_Registered false (regData ≫= unmarshal)
        | _ => false
        end).
Definition queued_body (pollID ballotID : string) (writeOnlyActive : bool) : json :=
  JObj ((if writeOnlyActive then [("message", JStr "queued for canonical commit without receipt persistence")] else []) ++
    [("queued", JBool true); ("scoping_id", JStr pollID); ("submission_id", JStr ballotID)] ++
    (if writeOnlyActive then [("write_only", JBool true)] else [])).

(** [submitBallot] up to its last call: an answer, or the ballot to queue and whether the
    request is write-only. *)
Definition admitBallot (platform token : string) (body : option json) : M Srv (Response + queuedBallot * bool) :=
  s ← gets id;
  fallback ⇐ mret (match attest_gate s platform token with inl r => inl (inl r) | inr f => inr f end);
  body ⇐ need (body ≫= unmarshal) (inl (writeError 400 (Errorf "invalid request body" [])));
  _ ⇐ answer_if (str_empty (TxBody_Tx body)) (inl (writeError 400 (Errorf "missing tx field" [])));
  envelope ⇐ need (parse (TxBody_Tx body) ≫= unmarshal) (inl (writeError 400 (Errorf "invalid tx JSON: %s" [FErr json_error])));
  _ ⇐ attempt (Validate envelope) (λ e, inl (writeError 400 (Errorf "invalid tx: %s" [FErr e])));
  _ ⇐ answer_if (negb (Tx_Type envelope =? TxTypeBallotCast)) (inl (writeError 400 (Errorf "tx.type must be TxTypeBallotCast" [])));
  data ⇐ need (UnmarshalData envelope) (inl (writeError 400 (Errorf "invalid ballot cast data: %s" [FErr json_error])));
  ids ⇐ need (deriveBallotIdentity data)
    (inl (writeError 400 (Errorf "ballot queue requires derivable participant identity metadata" [])));
  let '(ballotID, identityHash) := ids in
  registered ← already_registered (BallotCastData_PollID data) identityHash;
  _ ⇐ answer_if registered (inl (writeError 409 (Errorf "participant already voted in poll %s" [FStr (BallotCastData_PollID data)])));
  let writeOnlyActive := permanentWriteOnly s || fallback in
  let allowReceipt := bool_decide (is_Some (reconcileStore s)) && negb writeOnlyActive in
  mret (inr (mkQueuedBallot (TxBody_Tx body) envelope data ballotID identityHash allowReceipt, writeOnlyActive)).
Definition submitBallot (platform token : string) (body : option json) : M Srv Response :=
  admitted ⇐ admitBallot platform token body;
  let '(item, writeOnlyActive) := admitted in
  _ ⇐ attempt (enqueueBallot item) (writeError 409);
  mret (writeJSON 200 (Some (queued_body (BallotCastData_PollID (cast_data item)) (ballotID item) writeOnlyActive))).

(** [storeReceiptForBallot]: at most three attempts, none after the first once the
    context is cancelled; the error is that of the last attempt. *)
Fixpoint record_attempts (ctx_err : nat → bool) (pollID identityHash ballotID : string)
    (left attempt : nat) (err : option error) : M Srv unit :=
  let last_error := match err with None => mret tt | Some e => failM e end in
  match left with
  | O => last_error
  | S left' =>
      if (0 <? Z.of_nat attempt) && ctx_err attempt then last_error
      else
        r ← try (on_store (RecordSubmission pollID identityHash ballotID));
        match r with
        | Ok _ => mret tt
        | Fail e => record_attempts ctx_err pollID identityHash ballotID left' (S attempt) (Some e)
        | Panic => panicM
        end
  end.
Definition maxAttempts : nat := 3.
Definition storeReceiptForBallot (ctx_err : nat → bool) (data : BallotCastData) (ballotID identityHash : string) : M Srv unit :=
  s ← gets id;
  match reconcileStore s with
  | None => mret tt
  | Some _ => record_attempts ctx_err (BallotCastData_PollID data) identityHash ballotID maxAttempts 0 None
  end.
(** The loop over a flushed batch; errors are only traced. *)
Fixpoint store_receipts (ctx_err : nat → nat → bool) (i : nat) (batch : list queuedBallot) : M Srv unit :=
  match batch with
  | [] => mret tt
  | item :: rest =>
      (if allowReceipt item
       then _ ← try (storeReceiptForBallot (ctx_err i) (cast_data item) (ballotID item) (identityHash item)); mret tt
       else mret tt) ;;
      store_receipts ctx_err (S i) rest
  end.

(** The broadcast of a flush; [None] when the node did not take the batch, with the answer. *)
Definition broadcast_batch (pollID : string) (batch : list queuedBallot) : M Srv (Response + option json) :=
  r ← try (on_rpc (BroadcastTx (Some (to_json (flush_tx pollID batch)))));
  match r with
  | Fail e => mret (inl (writeError 500 e))
  | Panic => panicM
  | Ok result => mret (if txFailed result then inl (writeJSON 409 result) else inr result)
  end.
Definition flushQueuedBallots (ctx_err : nat → nat → bool) (pollID : string) : M Srv Response :=
  d ← dequeueBallotsForFlush pollID;
  let '(batch, batchID) := d in
  match batch with
  | [] => mret (writeError 404 (Errorf "no queued submissions for poll" []))
  | _ =>
      r ← broadcast_batch pollID batch;
      match r with
      | inl refused => restoreQueuedBallots pollID batch ;; mret refused
      | inr result =>
          s ← gets id;
          (if bool_decide (is_Some (reconcileStore s)) then store_receipts ctx_err 0 batch else mret tt) ;;
          mret (writeJSON 200 (result ← result; Some (JObj
            [("batch_id", JStr batchID); ("flushed", JBool true); ("result", result); ("scoping_id", JStr pollID);
             ("submission_count", JInt (Z.of_nat (length batch)))])))
      end
  end.

(** The link of the store after an update was broadcast; its errors are dropped. *)
Definition sync_receipt (req : UpdateBody) : M Srv unit :=
  let data := UpdateBody_BallotUpdateData req in
  r ← try (on_store
    (if len (BallotUpdateData_NewChoices data) =? 0
     then DeleteSubmission (BallotUpdateData_PollID data) (UpdateBody_IdentityHash req)
     else RecordSubmission (BallotUpdateData_PollID data) (UpdateBody_IdentityHash req)
            (hex_EncodeToString (sha256 (BallotUpdateData_NewBallotNonce data)))));
  match r with Panic => panicM | _ => mret tt end.
(** The path of a signed transaction. *)
Definition update_direct (txField : option json) : M Srv Response :=
  let bad := writeError 400 (Errorf "tx must be a non-empty string" []) in
  txStr ⇐ need (txField ≫= unmarshal (A := string)) bad;
  _ ⇐ answer_if (str_empty txStr) bad;
  result ⇐ attempt (on_rpc (BroadcastTx (parse txStr))) (writeError 500);
  mret (writeJSON 200 result).
(** The reconciled path up to the store's link: the request and the submission it names. *)
Definition update_lookup (raw : gmap string (option json)) : M Srv (Response + UpdateBody * string) :=
  s ← gets id;
  _ ⇐ answer_if (bool_decide (reconcileStore s = None))
    (inl (writeError 501 (Errorf "reconcileed ballot update not configured for this deployment" [])));
  req ⇐ need (decode_update (to_json raw)) (inl (writeError 400 (Errorf "invalid ballot update fields" [])));
  let pollID := BallotUpdateData_PollID (UpdateBody_BallotUpdateData req) in
  _ ⇐ answer_if (str_empty pollID || str_empty (UpdateBody_IdentityHash req))
    (inl (writeError 400 (Errorf "poll_id and identity_hash are required for reconcileed update" [])));
  oldBallotID ⇐ attempt (on_store (GetSubmissionID pollID (UpdateBody_IdentityHash req)))
    (λ _, inl (writeError 404 (Errorf "no receipt found for this voter on poll %s" [FStr pollID])));
  mret (inr (req, oldBallotID)).
Definition broadcast_update (req : UpdateBody) (oldBallotID : string) : M Srv (option json) :=
  let data := (UpdateBody_BallotUpdateData req) <| BallotUpdateData_OldBallotID := oldBallotID |> in
  on_rpc (BroadcastTx (Some (to_json (update_tx data)))).
Definition updateBallot (body : option json) : M Srv Response :=
  raw ⇐ need (body ≫= unmarshal (A := gmap string (option json))) (writeError 400 (Errorf "invalid request body" []));
  match raw !! "tx" with
  | Some txField => update_direct txField
  | None =>
      found ⇐ update_lookup raw;
      let '(req, oldBallotID) := found in
      result ⇐ attempt (broadcast_update req oldBallotID) (writeError 500);
      sync_receipt req ;;
      mret (writeJSON 200 result)
  end.
Definition confirmReceipt (body : option json) : M Srv Response :=
  body ⇐ need (body ≫= unmarshal) (writeError 400 (Errorf "invalid request body" []));
  _ ⇐ answer_if (str_empty (TxBody_Tx body)) (writeError 400 (Errorf "missing tx field" []));
  result ⇐ attempt (on_rpc (BroadcastTx (parse (TxBody_Tx body)))) (writeError 500);
  mret (writeJSON 200 result).

(** The handlers that pass a query to the node. *)
Definition query_node (status : Z) (path : string) : M Srv Response :=
  data ⇐ attempt (on_rpc (ABCIQuery path)) (writeError status);
  mret (writeJSON 200 data).
Definition health : M Srv Response :=
  status ⇐ attempt (on_rpc Status) (λ _, writeError 503 (Errorf "node unreachable" []));
  mret (writeJSON 200 status).
Definition listPolls : M Srv Response := query_node 500 "/polls".
Definition getPoll (pollID : string) : M Srv Response := query_node 404 ("/poll/" +:+ pollID).
Definition getTally (pollID : string) : M Srv Response := query_node 404 ("/tally/" +:+ pollID).
Definition getVotes (pollID : string) : M Srv Response := query_node 404 ("/votes/" +:+ pollID).
Definition getVoterCount (pollID : string) : M Srv Response := query_node 404 ("/voter_count/" +:+ pollID).
Definition getConfirmedCount (pollID : string) : M Srv Response := query_node 404 ("/confirms/" +:+ pollID).

(** ** Concurrency
    The queue's lock is held by [enqueueBallot], by [dequeueBallotsForFlush] and by
    [restoreQueuedBallots], not across a request, and the node and the store are called
    without it: requests run concurrently, one call at a time.  Where a running request
    stands: *)
Inductive Thread :=
  | Enqueueing (item : queuedBallot)
  | Flushing (pollID : string) (batch : list queuedBallot)
  | Restoring (pollID : string) (batch : list queuedBallot)
  | Recording (batch : list queuedBallot) (attempts : nat)
  | Updating (req : UpdateBody) (oldBallotID : string)
  | Syncing (req : UpdateBody).
(** A request arrives and runs to the end of its first call; those that make one call only,
    or panic in it, are done. *)
Inductive start : Srv → Srv → list Thread → Prop :=
  | start_submit platform token body s x s' : admitBallot platform token body s = (x, s') →
      start s s' (match x with Ok (inr (item, _)) => [Enqueueing item] | _ => [] end)
  | start_flush pollID s batch batchID s' : dequeueBallotsForFlush pollID s = (Ok (batch, batchID), s') →
      start s s' (match batch with [] => [] | _ => [Flushing pollID batch] end)
  | start_direct txField s r s' : update_direct txField s = (r, s') → start s s' []
  | start_update raw s x s' : update_lookup raw s = (x, s') →
      start s s' (match x with Ok (inr (req, old)) => [Updating req old] | _ => [] end)
  | start_confirm body s r s' : confirmReceipt body s = (r, s') → start s s' []
  | start_query status path s r s' : query_node status path s = (r, s') → start s s' []
  | start_health s r s' : health s = (r, s') → start s s' [].
(** What is left of the receipts of a batch after one write: nothing after the last ballot;
    after an error another attempt, unless the attempts are used up or the request was
    cancelled. *)
Definition after_write (q : queuedBallot) (rest : list queuedBallot) (attempts : nat) (cancelled : bool) (r : res unit) : list Thread :=
  match r, attempts with
  | Panic, _ => []
  | Fail _, S (S attempts') => [if cancelled then Recording rest maxAttempts else Recording (q :: rest) (S attempts')]
  | _, _ => [Recording rest maxAttempts]
  end.
(** A running request makes its next call. *)
Inductive act : Srv → Thread → Srv → list Thread → Prop :=
  | act_enqueue item s r s' : enqueueBallot item s = (r, s') → act s (Enqueueing item) s' []
  | act_broadcast pollID batch s r s' : broadcast_batch pollID batch s = (r, s') →
      act s (Flushing pollID batch) s' (match r with
        | Ok (inl _) => [Restoring pollID batch]
        | Ok (inr _) => if bool_decide (is_Some (reconcileStore s')) then [Recording batch maxAttempts] else []
        | _ => []
        end)
  | act_restore pollID batch s r s' : restoreQueuedBallots pollID batch s = (r, s') → act s (Restoring pollID batch) s' []
  | act_recorded s attempts : act s (Recording [] attempts) s []
  | act_skip q rest s attempts : allowReceipt q = false → act s (Recording (q :: rest) attempts) s [Recording rest maxAttempts]
  | act_record q rest attempts cancelled s r s' : allowReceipt q = true →
      on_store (RecordSubmission (BallotCastData_PollID (cast_data q)) (identityHash q) (ballotID q)) s = (r, s') →
      act s (Recording (q :: rest) attempts) s' (after_write q rest attempts cancelled r)
  | act_update req old s r s' : broadcast_update req old s = (r, s') →
      act s (Updating req old) s' (match r with Ok _ => [Syncing req] | _ => [] end)
  | act_sync req s r s' : sync_receipt req s = (r, s') → act s (Syncing req) s' [].
(** The server and the running requests; [w_restored] is no state of the program, it
    records the polls to which a batch has been put back. *)
Record World := mkWorld { w_server : Srv; w_threads : list Thread; w_restored : gset string }.
Definition restored_by (t : Thread) : gset string := match t with Restoring pollID _ => {[pollID]} | _ => ∅ end.
Inductive step : World → World → Prop :=
  | step_start s s' new ts R : start s s' new → step (mkWorld s ts R) (mkWorld s' (new ++ ts) R)
  | step_act s t s' next ts1 ts2 R : act s t s' next →
      step (mkWorld s (ts1 ++ t :: ts2) R) (mkWorld s' (ts1 ++ next ++ ts2) (restored_by t ∪ R)).
Definition idle (s : Srv) : World := mkWorld s [] ∅.
End handlers.
