(* ===== verification/RouterTheorems.v ===== *)
(** What the API promises in front of the chain, however its requests interleave: a batch
    it broadcasts is well formed and passes stateless validation, a ballot the chain
    refuses comes back to its queue, a write-only deployment never links a participant to
    a submission; and how its identifiers relate to those of the chain.  With the chain behind it: a batch that holds
    a ballot with a bad device signature, which the server does not look at, is refused by
    the chain's mempool as a whole. *)
From S2P Require Import Prelude GoStd Json TxData Nonce TxValidate Identity Keys VotingState Ballots BatchFlush App.
From S2P Require Import Config Http Reconcile Router.

(** ** Decoding what was encoded *)
Definition Tx_ok (t : Tx) : Prop := uint_ok 8 (Tx_Type t) ∧ is_Some (Tx_Data t).
#[export] Instance roundtrip_Tx : JsonRoundTrip Tx Tx_ok.
Proof. struct_roundtrip Json_Tx. Qed.
Definition BatchFlushData_ok (d : BatchFlushData) : Prop := Forall Tx_ok (elems (BatchFlushData_Submissions d)).

(** ** What the handlers do to the server *)
(** What a relation that [lem] carries says of a run of a hypothesis. *)
Ltac by_move lem :=
  match goal with H : ?m ?s = (?r, ?s') |- _ => let Hm := fresh in pose proof (lem s) as Hm; rewrite H in Hm; cbn [snd] in Hm end.
Section router.
Context `{C : Crypto} {N St : Type} `{B : Broadcaster N} `{R : Store St} (parse : string → option json).
#[local] Abbreviation Srv := (Server N St).

(** Only the node moved; only the node and the store moved. *)
Definition node_moved (s s' : Srv) : Prop := ∃ n, s' = s <| rpc := n |>.
Definition store_moved (s s' : Srv) : Prop := ∃ n st,
  s' = s <| rpc := n |> <| reconcileStore := st |> ∧ (st = None ↔ reconcileStore s = None).
#[local] Instance node_moved_refl : Reflexive node_moved.
Proof. intros s. exists (rpc s). by destruct s. Qed.
#[local] Instance node_moved_trans : Transitive node_moved.
Proof. intros a b c [n ->] [n' ->]. by exists n'. Qed.
#[local] Instance store_moved_refl : Reflexive store_moved.
Proof. intros s. exists (rpc s), (reconcileStore s). split; [by destruct s|done]. Qed.
#[local] Instance store_moved_trans : Transitive store_moved.
Proof. intros a b c (n & st & -> & H) (n' & st' & -> & H'). exists n', st'. split; [done|]. by rewrite H', <- H. Qed.
Lemma node_store s s' : node_moved s s' → store_moved s s'.
Proof. intros [n ->]. exists n, (reconcileStore s). split; [by destruct s|done]. Qed.

Lemma on_rpc_moves {A} (m : M N A) : keeps node_moved (on_rpc (St := St) m).
Proof. intros s. unfold on_rpc. destruct (m (rpc s)) as [r n]. by exists n. Qed.
Lemma on_store_moves {A} (m : M St A) : keeps store_moved (on_store (N := N) m).
Proof.
  intros s. unfold on_store. destruct (reconcileStore s) as [st|] eqn:E; [|reflexivity].
  destruct (m st) as [r st']. exists (rpc s), (Some st'). split; [by destruct s|by rewrite E].
Qed.
Lemma registered_moves pollID i : keeps node_moved (already_registered (St := St) pollID i).
Proof. unfold already_registered. keeps_auto. apply on_rpc_moves. Qed.

(** *** The queue *)
Lemma queued_delete (s : Srv) p : queued (s <| ballotQueue ::= delete p |>) p = [].
Proof. unfold queued. fields. by rewrite lookup_delete_eq. Qed.
Lemma queued_insert (s : Srv) p l : queued (s <| ballotQueue ::= <[p := l]> |>) p = l.
Proof. unfold queued. fields. by rewrite lookup_insert_eq. Qed.
(** What a queued ballot is: the decoding of its text, a cast for its poll that stateless
    validation accepts, under the identifiers derived from it. *)
Definition item_ok (pollID : string) (q : queuedBallot) : Prop :=
  parse (txJSON q) ≫= unmarshal = Some (envelope q) ∧ Tx_Type (envelope q) = TxTypeBallotCast ∧
  Validate (envelope q) tt = (Ok tt, tt) ∧ UnmarshalData (envelope q) = Some (cast_data q) ∧
  BallotCastData_PollID (cast_data q) = pollID ∧ deriveBallotIdentity (cast_data q) = Some (ballotID q, identityHash q).
Lemma check_duplicates_spec item queue :
  check_duplicates item queue = None ↔ Forall (λ q, ballotID q ≠ ballotID item ∧ identityHash q ≠ identityHash item) queue.
Proof.
  induction queue as [|q queue IH]; cbn; [done|]. rewrite Forall_cons. repeat case_bool_decide; naive_solver.
Qed.
Lemma attest_gate_status (s : Srv) platform token r : attest_gate s platform token = inl r → Resp_Status r = 401 ∨ Resp_Status r = 403.
Proof.
  unfold attest_gate. destruct (attester s) as [v|]; [|done]. destruct (str_empty token).
  - destruct (negb _ && _); [done|]. destruct (negb _); [|done]. intros [= <-]. by left.
  - destruct (v _ _); [|done]. intros [= <-]. by right.
Qed.

(** An admission only asks the node; the ballot it admits is well formed. *)
Lemma admit_run platform token body s x s' :
  admitBallot parse platform token body s = (x, s') →
  node_moved s s' ∧
  match x with
  | Ok (inl r) => Resp_Status r ≠ 200
  | Ok (inr (item, writeOnly)) => ∃ b fallback, body ≫= unmarshal = Some b ∧ txJSON item = TxBody_Tx b ∧
      item_ok (BallotCastData_PollID (cast_data item)) item ∧ attest_gate s platform token = inr fallback ∧
      writeOnly = permanentWriteOnly s || fallback ∧
      allowReceipt item = bool_decide (is_Some (reconcileStore s)) && negb writeOnly
  | _ => True
  end.
Proof.
  unfold admitBallot. rewrite bind_run, gets_run. cbn beta iota. unfold id. intros H.
  rewrite answered_run in H. destruct (attest_gate s platform token) as [r0|fallback] eqn:Hg.
  { injection H as <- <-. split; [reflexivity|]. by destruct (attest_gate_status _ _ _ _ Hg) as [-> | ->]. }
  rewrite need_run in H. destruct (body ≫= unmarshal) as [b|] eqn:Hb; [|injection H as <- <-; split; [reflexivity|done]].
  rewrite answer_if_run in H. destruct (str_empty _); [injection H as <- <-; split; [reflexivity|done]|].
  rewrite need_run in H. destruct (parse _ ≫= unmarshal) as [env|] eqn:He; [|injection H as <- <-; split; [reflexivity|done]].
  rewrite attempt_run in H. destruct (Validate_benign env s) as [Hs Hp]. destruct (Validate env s) as [[[]|e|] s1] eqn:Hv;
    cbn in Hs, Hp; subst s1; [|injection H as <- <-; split; [reflexivity|done]|done].
  rewrite answer_if_run in H. destruct (Tx_Type env =? TxTypeBallotCast) eqn:Ht; cbn [negb] in H; [|injection H as <- <-; split; [reflexivity|done]].
  rewrite need_run in H. destruct (UnmarshalData env) as [data|] eqn:Hd; [|injection H as <- <-; split; [reflexivity|done]].
  rewrite need_run in H. destruct (deriveBallotIdentity data) as [[bid ih]|] eqn:Hi; [|injection H as <- <-; split; [reflexivity|done]].
  rewrite bind_run in H. pose proof (registered_moves (BallotCastData_PollID data) ih s) as Hn.
  destruct (already_registered _ ih s) as [[registered|e|] s1]; cbn in Hn; [|by injection H as <- <-..].
  rewrite answer_if_run in H. destruct registered; [by injection H as <- <-|].
  injection H as <- <-. split; [done|]. exists b, fallback. unfold item_ok. cbn.
  split_and!; try done; [by apply Z.eqb_eq|by eapply Validate_any].
Qed.
Lemma admit_moves platform token body : keeps node_moved (admitBallot (N := N) (St := St) parse platform token body).
Proof. intros s. destruct (admitBallot _ _ _ _ s) as [x s'] eqn:E. by apply admit_run in E as [? _]. Qed.
(** The three operations under the queue's lock. *)
Lemma enqueue_run item s r s' : enqueueBallot (N := N) (St := St) item s = (r, s') →
  let p := BallotCastData_PollID (cast_data item) in
  (∃ e, r = Fail e ∧ s' = s) ∨
  r = Ok tt ∧ check_duplicates item (queued s p) = None ∧ s' = s <| ballotQueue ::= <[p := queued s p ++ [item]]> |>.
Proof.
  unfold enqueueBallot. rewrite bind_run, gets_run. cbn beta iota. change (queued (id s) ?p) with (queued s p).
  destruct (check_duplicates item _); [intros [= <- <-]; left; by eexists|]. rewrite modify_run. intros [= <- <-]. by right.
Qed.
Lemma dequeue_run p s batch bid s' : dequeueBallotsForFlush (N := N) (St := St) p s = (Ok (batch, bid), s') →
  batch = queued s p ∧ (batch = [] ∧ s' = s ∨ batch ≠ [] ∧ bid = computeServerBatchID p batch ∧ s' = s <| ballotQueue ::= delete p |>).
Proof.
  unfold dequeueBallotsForFlush. rewrite bind_run, gets_run. cbn beta iota. change (queued (id s) p) with (queued s p).
  destruct (queued s p) as [|q l]; [intros [= <- <- <-]; split; [done|by left]|].
  rewrite bind_run, modify_run, mret_run. intros [= <- <- <-]. split; [done|by right].
Qed.
Lemma put_back_run p batch s r s' : restoreQueuedBallots (N := N) (St := St) p batch s = (r, s') →
  r = Ok tt ∧ queued s' p = batch ++ queued s p ∧ (∀ p', p' ≠ p → queued s' p' = queued s p') ∧
  reconcileStore s' = reconcileStore s ∧ postureCfg s' = postureCfg s.
Proof.
  unfold restoreQueuedBallots. destruct batch as [|q batch]; [by intros [= <- <-]|]. rewrite modify_run. intros [= <- <-].
  split_and!; try done; [by rewrite queued_insert|]. intros p' Hp. unfold queued. fields. by rewrite lookup_insert_ne.
Qed.
Lemma broadcast_run p batch (s : Srv) :
  broadcast_batch p batch s =
  match BroadcastTx (Some (to_json (flush_tx p batch))) (rpc s) with
  | (Fail e, n) => (Ok (inl (writeError 500 e)), s <| rpc := n |>)
  | (Panic, n) => (Panic, s <| rpc := n |>)
  | (Ok result, n) => (Ok (if txFailed result then inl (writeJSON 409 result) else inr result), s <| rpc := n |>)
  end.
Proof.
  unfold broadcast_batch. rewrite bind_run. unfold try, on_rpc. by destruct (BroadcastTx _ (rpc s)) as [[result|e|] n].
Qed.
Lemma broadcast_moves p batch : keeps node_moved (broadcast_batch (N := N) (St := St) p batch).
Proof. intros s. rewrite broadcast_run. by destruct (BroadcastTx _ (rpc s)) as [[result|e|] n]; exists n. Qed.

(** *** Receipts *)
Lemma attempts_moves ctx p i b left n err : keeps store_moved (record_attempts (N := N) ctx p i b left n err).
Proof.
  revert n err. induction left as [|left IH]; intros n err; cbn [record_attempts]; [destruct err; keeps_auto|].
  keeps_auto; [apply on_store_moves|].
  match goal with |- keeps _ (match ?x with _ => _ end) => destruct x end; keeps_auto. apply IH.
Qed.
Lemma receipts_moves ctx batch : ∀ i, keeps store_moved (store_receipts (N := N) ctx i batch).
Proof.
  induction batch as [|q batch IH]; intros i; cbn [store_receipts]; [keeps_auto|]. keeps_auto; [|apply IH].
  unfold storeReceiptForBallot. keeps_auto. destruct (reconcileStore _); [apply attempts_moves|keeps_auto].
Qed.
Lemma receipts_none ctx batch : ∀ i (s : Srv), Forall (λ q, allowReceipt q = false) batch →
  store_receipts ctx i batch s = (Ok tt, s).
Proof.
  induction batch as [|q batch IH]; intros i s H; [done|]. apply Forall_cons in H as [Hq H].
  cbn [store_receipts]. rewrite Hq, bind_run. by apply IH.
Qed.

(** A flush of a queue that is not empty: when the node did not take the batch the server
    is as it was; when it did, the queue is gone and receipts are stored. *)
Definition receipt_phase ctx (batch : list queuedBallot) : M Srv unit := λ s,
  (if bool_decide (is_Some (reconcileStore s)) then store_receipts ctx 0 batch else mret tt) s.
Lemma restore_undoes (s : Srv) pollID n :
  queued s pollID ≠ [] →
  restoreQueuedBallots pollID (queued s pollID) (s <| ballotQueue ::= delete pollID |> <| rpc := n |>) =
  (Ok tt, s <| rpc := n |>).
Proof.
  intros Hne. assert (ballotQueue s !! pollID = Some (queued s pollID)) as Hl.
  { unfold queued in *. by destruct (ballotQueue s !! pollID). }
  set (s0 := s <| ballotQueue ::= _ |> <| rpc := n |>). assert (queued s0 pollID = []) as H0.
  { unfold queued, s0. fields. by rewrite lookup_delete_eq. }
  destruct (queued s pollID) as [|q batch]; [done|]. unfold restoreQueuedBallots. rewrite modify_run, H0, app_nil_r. f_equal.
  transitivity (mkServer n (reconcileStore s) (attester s) (postureCfg s)
    (<[pollID := q :: batch]> (delete pollID (ballotQueue s)))); [done|].
  rewrite insert_delete_id by done. by destruct s.
Qed.
Lemma flush_eq ctx pollID (s : Srv) :
  queued s pollID ≠ [] →
  flushQueuedBallots ctx pollID s =
  match BroadcastTx (Some (to_json (flush_tx pollID (queued s pollID)))) (rpc s) with
  | (Fail e, n) => (Ok (writeError 500 e), s <| rpc := n |>)
  | (Panic, n) => (Panic, s <| ballotQueue ::= delete pollID |> <| rpc := n |>)
  | (Ok result, n) =>
      if txFailed result then (Ok (writeJSON 409 result), s <| rpc := n |>)
      else (receipt_phase ctx (queued s pollID) ;;
            mret (writeJSON 200 (result ← result; Some (JObj
              [("batch_id", JStr (computeServerBatchID pollID (queued s pollID))); ("flushed", JBool true); ("result", result);
               ("scoping_id", JStr pollID); ("submission_count", JInt (Z.of_nat (length (queued s pollID))))]))))
             (s <| ballotQueue ::= delete pollID |> <| rpc := n |>)
  end.
Proof.
  intros Hne. unfold flushQueuedBallots, dequeueBallotsForFlush. rewrite !bind_run, gets_run. cbn beta iota.
  change (queued (id s) pollID) with (queued s pollID). pose proof (restore_undoes s pollID) as Hr.
  destruct (queued s pollID) as [|q0 batch0] eqn:Eq; [done|].
  rewrite bind_run, modify_run, mret_run. cbn beta iota. rewrite bind_run, broadcast_run.
  change (rpc (s <| ballotQueue ::= delete pollID |>)) with (rpc s).
  destruct (BroadcastTx _ (rpc s)) as [[result|e|] n]; cbn beta iota; [|by rewrite bind_run, Hr by done|done].
  destruct (txFailed result); [by rewrite bind_run, Hr by done|].
  rewrite bind_run, gets_run. cbn beta iota. done.
Qed.
Lemma receipt_phase_moves ctx batch : keeps store_moved (receipt_phase ctx batch).
Proof. intros s. unfold receipt_phase. destruct (bool_decide _); [apply receipts_moves|reflexivity]. Qed.
(** *** The other handlers *)
Lemma update_direct_moves d : keeps node_moved (update_direct (N := N) (St := St) parse d).
Proof. unfold update_direct. http_auto. apply on_rpc_moves. Qed.
Lemma broadcast_update_moves req old : keeps node_moved (broadcast_update (N := N) (St := St) req old).
Proof. apply on_rpc_moves. Qed.
Lemma update_lookup_moves raw : keeps store_moved (update_lookup (N := N) (St := St) raw).
Proof. unfold update_lookup. http_auto. apply on_store_moves. Qed.
Lemma sync_moves req : keeps store_moved (sync_receipt (N := N) (St := St) req).
Proof.
  unfold sync_receipt. http_auto; [apply on_store_moves|].
  match goal with |- keeps _ (match ?x with _ => _ end) => destruct x end; http_auto.
Qed.
Lemma confirm_moves body : keeps node_moved (confirmReceipt (N := N) (St := St) parse body).
Proof. unfold confirmReceipt. http_auto. apply on_rpc_moves. Qed.
Lemma query_moves status path : keeps node_moved (query_node (N := N) (St := St) status path).
Proof. unfold query_node. http_auto. apply on_rpc_moves. Qed.
Lemma health_moves : keeps node_moved (health (N := N) (St := St)).
Proof. unfold health. http_auto. apply on_rpc_moves. Qed.

(** ** The queue along all interleavings *)
Lemma queued_moved (s s' : Srv) p : store_moved s s' → queued s' p = queued s p.
Proof. by intros (n & st & -> & _). Qed.
(** A batch of a poll: its ballots are well formed; while no batch of the poll was put
    back, no submission and no participant is there twice. *)
Definition batch_ok (restored : gset string) (p : string) (batch : list queuedBallot) : Prop :=
  Forall (item_ok p) batch ∧ (p ∉ restored → NoDup (ballotID <$> batch) ∧ NoDup (identityHash <$> batch)).
Definition thread_ok (restored : gset string) (t : Thread) : Prop :=
  match t with
  | Enqueueing item => item_ok (BallotCastData_PollID (cast_data item)) item
  | Flushing p batch => batch ≠ [] ∧ batch_ok restored p batch
  | Restoring p batch => Forall (item_ok p) batch
  | _ => True
  end.
Definition queue_ok (restored : gset string) (s : Srv) : Prop := ∀ p, batch_ok restored p (queued s p).
Definition world_ok (w : World) : Prop := queue_ok (w_restored w) (w_server w) ∧ Forall (thread_ok (w_restored w)) (w_threads w).
Lemma nil_batch_ok restored p : batch_ok restored p [].
Proof. split; [by apply Forall_nil|]. intros _. split; apply NoDup_nil_2. Qed.
Lemma batch_ok_mono R1 R2 p batch : R1 ⊆ R2 → batch_ok R1 p batch → batch_ok R2 p batch.
Proof. intros HR [H1 H2]. split; [done|]. intros Hp. apply H2. set_solver. Qed.
Lemma thread_ok_mono R1 R2 t : R1 ⊆ R2 → thread_ok R1 t → thread_ok R2 t.
Proof. destruct t; cbn; try done. intros HR [? ?]. split; [done|by eapply batch_ok_mono]. Qed.
Lemma moved_queue_ok restored s s' : store_moved s s' → queue_ok restored s → queue_ok restored s'.
Proof. intros Hm H p. rewrite (queued_moved _ _ _ Hm). apply H. Qed.
Lemma enqueue_ok restored p batch item : check_duplicates item batch = None → item_ok p item →
  batch_ok restored p batch → batch_ok restored p (batch ++ [item]).
Proof.
  intros Hd Hi [H1 H2]. apply check_duplicates_spec in Hd. rewrite Forall_forall in Hd.
  split; [by apply Forall_app; split; [|by apply Forall_singleton]|]. intros [H3 H4]%H2. rewrite !fmap_app, !NoDup_app.
  split_and!; try done; try (apply NoDup_singleton);
    intros x (q & -> & Hin)%list_elem_of_fmap Hx%list_elem_of_singleton; by destruct (Hd q Hin).
Qed.
Lemma start_ok s s' new restored : start parse s s' new → queue_ok restored s → queue_ok restored s' ∧ Forall (thread_ok restored) new.
Proof.
  intros H Hq. destruct H as [platform token body s x s' H|p s batch bid s' H|d s r s' H|raw s x s' H|body s r s' H|st path s r s' H|s r s' H].
  - apply admit_run in H as [Hm Hx]. split; [by eapply moved_queue_ok, Hq; apply node_store|].
    destruct x as [[r|[item wo]]| |]; try by apply Forall_nil. destruct Hx as (b & fb & _ & _ & Hi & _). by apply Forall_singleton.
  - apply dequeue_run in H as [-> [[-> ->]|(Hne & _ & ->)]]; [by split; [|apply Forall_nil]|]. split.
    + intros p'. unfold queued. fields. destruct (decide (p = p')) as [->|Hp]; [rewrite lookup_delete_eq; apply nil_batch_ok|].
      rewrite lookup_delete_ne by done. apply Hq.
    + destruct (queued s p) eqn:E; [done|]. rewrite <- E. apply Forall_singleton. split; [by rewrite E|apply Hq].
  - split; [|by apply Forall_nil]. eapply moved_queue_ok, Hq. apply node_store. by by_move (update_direct_moves d).
  - split; [eapply moved_queue_ok, Hq; by by_move (update_lookup_moves raw)|].
    destruct x as [[r|[req old]]| |]; try by apply Forall_nil. by apply Forall_singleton.
  - split; [|by apply Forall_nil]. eapply moved_queue_ok, Hq. apply node_store. by by_move (confirm_moves body).
  - split; [|by apply Forall_nil]. eapply moved_queue_ok, Hq. apply node_store. by by_move (query_moves st path).
  - split; [|by apply Forall_nil]. eapply moved_queue_ok, Hq. apply node_store. by by_move health_moves.
Qed.
Lemma after_write_ok restored q rest attempts cancelled r : Forall (thread_ok restored) (after_write q rest attempts cancelled r).
Proof. destruct r, attempts as [|[|?]]; cbn; try destruct cancelled; repeat constructor. Qed.
Lemma act_ok s t s' next restored : act s t s' next → queue_ok restored s → thread_ok restored t →
  let restored' := restored_by t ∪ restored in queue_ok restored' s' ∧ Forall (thread_ok restored') next.
Proof.
  intros H Hq Ht. destruct H as [item s r s' H|p batch s r s' H|p batch s r s' H|s k|q rest s k Ha|q rest k cancelled s r s' Ha H|req old s r s' H|req s r s' H];
    cbn [restored_by]; rewrite ?(left_id_L ∅ (∪)); cbv zeta.
  - split; [|by apply Forall_nil]. apply enqueue_run in H as [(e & _ & ->)|(_ & Hd & ->)]; [done|]. intros p.
    destruct (decide (p = BallotCastData_PollID (cast_data item))) as [->|Hp]; [rewrite queued_insert; by apply enqueue_ok|].
    unfold queued. fields. rewrite lookup_insert_ne by done. apply Hq.
  - split; [eapply moved_queue_ok, Hq; apply node_store; by by_move (broadcast_moves p batch)|].
    destruct r as [[r|r]| |]; try by apply Forall_nil.
    + apply Forall_singleton. apply Ht.
    + destruct (bool_decide _); [by apply Forall_singleton|by apply Forall_nil].
  - split; [|by apply Forall_nil]. apply put_back_run in H as (_ & He & Hne & _). intros p'. destruct (decide (p' = p)) as [->|Hp].
    + rewrite He. split; [apply Forall_app; split; [done|apply Hq]|]. set_solver.
    + rewrite Hne by done. eapply batch_ok_mono, Hq. set_solver.
  - by split; [|apply Forall_nil].
  - by split; [|apply Forall_singleton].
  - split; [eapply moved_queue_ok, Hq; by by_move (on_store_moves (RecordSubmission (BallotCastData_PollID (cast_data q)) (identityHash q) (ballotID q)))|].
    apply after_write_ok.
  - split; [eapply moved_queue_ok, Hq; apply node_store; by by_move (broadcast_update_moves req old)|].
    destruct r; try by apply Forall_nil. by apply Forall_singleton.
  - split; [|by apply Forall_nil]. eapply moved_queue_ok, Hq. by by_move (sync_moves req).
Qed.
Lemma step_ok w w' : step parse w w' → world_ok w → world_ok w'.
Proof.
  intros [s s' new ts restored H|s t s' next ts1 ts2 restored H] [Hq Ht]; cbn in Hq, Ht.
  - destruct (start_ok _ _ _ _ H Hq) as [Hq' Hn]. split; [done|]. by apply Forall_app.
  - apply Forall_app in Ht as [Ht1 [Ht Ht2]%Forall_cons]. destruct (act_ok _ _ _ _ _ H Hq Ht) as [Hq' Hn]. split; [done|]. cbn.
    rewrite !Forall_app. split_and!; [|done|]; (eapply Forall_impl; [eassumption|]); intros t'; apply thread_ok_mono; set_solver.
Qed.
Lemma idle_ok (s : Srv) : ballotQueue s = ∅ → world_ok (idle s).
Proof. intros H0. split; [|by apply Forall_nil]. intros p. unfold queued. cbn. rewrite H0, lookup_empty. apply nil_batch_ok. Qed.
Lemma steps_ok w w' : rtc (step parse) w w' → world_ok w → world_ok w'.
Proof. induction 1 as [|a b c Hab _ IH]; [done|]. intros. by eapply IH, step_ok. Qed.

(** ** A request that runs alone
    Without another request in between, a handler is a sequence of these steps. *)
Lemma act_alone s t s' next restored : act s t s' next →
  step parse (mkWorld s [t] restored) (mkWorld s' next (restored_by t ∪ restored)).
Proof. intros H. pose proof (step_act parse s t s' next [] [] restored H) as H1. by rewrite app_nil_l, app_nil_r in H1. Qed.
Lemma act_quiet s t s' next restored : act s t s' next → restored_by t = ∅ →
  step parse (mkWorld s [t] restored) (mkWorld s' next restored).
Proof. intros H Ht. pose proof (act_alone s t s' next restored H) as H1. by rewrite Ht, (left_id_L ∅ (∪)) in H1. Qed.
Lemma submit_steps platform token body (s s' : Srv) r restored :
  submitBallot parse platform token body s = (r, s') → rtc (step parse) (mkWorld s [] restored) (mkWorld s' [] restored).
Proof.
  unfold submitBallot, or_answer at 1. rewrite bind_run. destruct (admitBallot parse platform token body s) as [x s1] eqn:E. intros H.
  pose proof (step_start parse s s1 _ [] restored (start_submit parse platform token body s x s1 E)) as H1.
  destruct x as [[r1|[item wo]]|e|]; [by injection H as _ <-; apply rtc_once| |by injection H as _ <-; apply rtc_once..].
  rewrite attempt_run in H. destruct (enqueueBallot item s1) as [x s2] eqn:E2.
  pose proof (act_quiet s1 _ s2 _ restored (act_enqueue item s1 x s2 E2) eq_refl) as H2. rewrite app_nil_r in H1.
  eapply rtc_l; [exact H1|]. apply rtc_once. by destruct x; injection H as _ <-.
Qed.
Lemma attempts_eq ctx p i b left n err (s : Srv) :
  record_attempts ctx p i b (S left) n err s =
  if (0 <? Z.of_nat n) && ctx n then match err with None => (Ok tt, s) | Some e => (Fail e, s) end
  else match on_store (RecordSubmission p i b) s with
       | (Ok _, s1) => (Ok tt, s1)
       | (Fail e, s1) => record_attempts ctx p i b left (S n) (Some e) s1
       | (Panic, s1) => (Panic, s1)
       end.
Proof.
  cbn [record_attempts]. destruct (_ && _); [by destruct err|]. rewrite bind_run. unfold try at 1.
  by destruct (on_store _ s) as [[u|e|] s1].
Qed.
Lemma attempts_steps ctx q rest left : allowReceipt q = true → ∀ n err (s s' : Srv) r restored,
  record_attempts ctx (BallotCastData_PollID (cast_data q)) (identityHash q) (ballotID q) (S left) n err s = (r, s') →
  r ≠ Panic → (0 <? Z.of_nat n) && ctx n = false →
  rtc (step parse) (mkWorld s [Recording (q :: rest) (S left)] restored) (mkWorld s' [Recording rest maxAttempts] restored).
Proof.
  intros Ha. induction left as [|left IH]; intros n err s s' r restored H Hp Hc; rewrite attempts_eq, Hc in H;
    destruct (on_store _ s) as [o s1] eqn:E.
  - pose proof (act_quiet s _ s1 _ restored (act_record q rest 1 false s o s1 Ha E) eq_refl) as H1. apply rtc_once.
    destruct o as [u|e|]; [|change ((Fail e, s1) = (r, s')) in H|]; by injection H as <- <-.
  - assert (∀ cancelled, step parse (mkWorld s [Recording (q :: rest) (S (S left))] restored)
      (mkWorld s1 (after_write q rest (S (S left)) cancelled o) restored)) as H1.
    { intros cancelled. exact (act_quiet s _ s1 _ restored (act_record q rest (S (S left)) cancelled s o s1 Ha E) eq_refl). }
    destruct o as [u|e|]; [injection H as _ <-; apply rtc_once, (H1 false)| |by injection H as <- _].
    destruct ((0 <? Z.of_nat (S n)) && ctx (S n)) eqn:Ec.
    + rewrite attempts_eq, Ec in H. injection H as _ <-. apply rtc_once, (H1 true).
    + eapply rtc_l; [apply (H1 false)|]. by apply (IH (S n) (Some e) s1 s' r).
Qed.
Lemma receipts_steps ctx batch : ∀ i (s s' : Srv) u restored, reconcileStore s ≠ None →
  store_receipts ctx i batch s = (Ok u, s') →
  rtc (step parse) (mkWorld s [Recording batch maxAttempts] restored) (mkWorld s' [] restored).
Proof.
  induction batch as [|q rest IH]; intros i s s' u restored Hs H; cbn [store_receipts] in H.
  - injection H as _ <-. apply rtc_once. exact (act_quiet s _ s _ restored (act_recorded s maxAttempts) eq_refl).
  - destruct (allowReceipt q) eqn:Ha.
    + apply bind_ok in H as (u1 & s1 & H1 & H). apply bind_ok in H1 as (r & s2 & H1 & H2).
      unfold try in H1. unfold storeReceiptForBallot in H1. rewrite bind_run, gets_run in H1. cbn beta iota in H1. unfold id in H1.
      destruct (reconcileStore s) as [st|] eqn:Est; [|done].
      pose proof (attempts_moves (ctx i) (BallotCastData_PollID (cast_data q)) (identityHash q) (ballotID q) maxAttempts 0 None s) as Hm.
      destruct (record_attempts _ _ _ _ _ _ _ s) as [o s3] eqn:E.
      assert (o ≠ Panic ∧ s1 = s3) as [Hp ->] by (injection H2 as _ <-; destruct o; by simplify_eq/=).
      etrans; [by apply (attempts_steps (ctx i) q rest 2 Ha 0 None s s3 o)|]. eapply (IH (S i)); [|exact H].
      destruct Hm as (n & st' & Hm & Hst). cbn in Hm. rewrite Hm. fields. by rewrite Hst, Est.
    + rewrite bind_run, mret_run in H. eapply rtc_l; [|by eapply IH].
      exact (act_quiet s _ s _ restored (act_skip q rest s maxAttempts Ha) eq_refl).
Qed.
Lemma flush_steps ctx pollID (s s' : Srv) r restored : flushQueuedBallots ctx pollID s = (Ok r, s') →
  rtc (step parse) (mkWorld s [] restored) (mkWorld s' [] restored) ∨
  rtc (step parse) (mkWorld s [] restored) (mkWorld s' [] ({[pollID]} ∪ restored)).
Proof.
  intros H. unfold flushQueuedBallots in H. apply bind_ok in H as ([batch bid] & s1 & Hd & H).
  pose proof (step_start parse s s1 _ [] restored (start_flush parse pollID s batch bid s1 Hd)) as H1.
  destruct batch as [|q batch]; [injection H as _ <-; left; by apply rtc_once|]. rewrite app_nil_r in H1.
  apply bind_ok in H as (x & s2 & Hb & H).
  pose proof (act_quiet s1 _ s2 _ restored (act_broadcast pollID (q :: batch) s1 (Ok x) s2 Hb) eq_refl) as H2.
  destruct x as [refused|result].
  - right. apply bind_ok in H as (u & s3 & Hr & [= _ <-]).
    pose proof (act_alone s2 _ s3 _ restored (act_restore pollID (q :: batch) s2 (Ok u) s3 Hr)) as H3.
    eapply rtc_l; [exact H1|]. eapply rtc_l; [exact H2|]. by apply rtc_once.
  - left. rewrite bind_run, gets_run in H. cbn beta iota in H. unfold id in H. apply bind_ok in H as (u & s3 & Hr & [= _ <-]).
    eapply rtc_l; [exact H1|]. eapply rtc_l; [exact H2|]. case_bool_decide as Hs; [|by injection Hr as _ <-].
    eapply receipts_steps; [|exact Hr]. by apply not_eq_None_Some.
Qed.
Lemma update_steps body (s s' : Srv) r restored : updateBallot parse body s = (r, s') → r ≠ Panic →
  rtc (step parse) (mkWorld s [] restored) (mkWorld s' [] restored).
Proof.
  unfold updateBallot. rewrite need_run. destruct (body ≫= unmarshal) as [raw|]; [|by intros [= _ <-]].
  destruct (raw !! "tx") as [txField|].
  { intros H _. apply rtc_once. exact (step_start parse s s' _ [] restored (start_direct parse txField s r s' H)). }
  unfold or_answer at 1. rewrite bind_run. destruct (update_lookup raw s) as [x s1] eqn:E. intros H Hp.
  pose proof (step_start parse s s1 _ [] restored (start_update parse raw s x s1 E)) as H1.
  destruct x as [[r1|[req old]]|e|]; [by injection H as _ <-; apply rtc_once| |by injection H as _ <-; apply rtc_once..].
  eapply rtc_l; [exact H1|]. rewrite attempt_run in H. destruct (broadcast_update req old s1) as [x s2] eqn:E2.
  pose proof (act_quiet s1 _ s2 _ restored (act_update req old s1 x s2 E2) eq_refl) as H2.
  destruct x as [result|e|]; [|by injection H as _ <-; apply rtc_once..].
  eapply rtc_l; [exact H2|]. rewrite bind_run in H. destruct (sync_receipt req s2) as [x s3] eqn:E3.
  pose proof (act_quiet s2 _ s3 _ restored (act_sync req s2 x s3 E3) eq_refl) as H3. apply rtc_once. by destruct x; injection H as _ <-.
Qed.

(** A token that does not verify is refused in every posture, the permanent write-only one
    included. *)
Theorem bad_token_refused (s : Srv) VerifyToken platform token e body :
  attester s = Some VerifyToken → token ≠ "" → VerifyToken platform token = inl e →
  submitBallot parse platform token body s =
    (Ok (writeError 403 (Errorf "attestation verification failed: %s" [FErr e])), s).
Proof.
  intros Ha Ht Hv. unfold submitBallot, or_answer at 1. rewrite bind_run. unfold admitBallot. rewrite bind_run, gets_run.
  cbn beta iota. unfold id, attest_gate. rewrite Ha. unfold str_empty. by rewrite bool_decide_false, Hv by done.
Qed.

(** ** A batch as the chain reads it *)
Lemma item_tx_ok p q : item_ok p q → Tx_ok (envelope q).
Proof.
  intros (_ & Ht & _ & Hd & _). split; [by rewrite Ht|]. unfold UnmarshalData in Hd. by destruct (Tx_Data _).
Qed.
Lemma decode_flush_tx p batch :
  Forall Tx_ok (envelope <$> batch) →
  DecodeTx (Some (EncodeTx (flush_tx p batch))) = Some (flush_tx p batch) ∧
  UnmarshalData (flush_tx p batch) = Some (mkBatchFlushData p (Some (envelope <$> batch))).
Proof.
  intros Hok. split; [by apply of_to_json|]. unfold UnmarshalData, flush_tx. cbn [Tx_Data mbind option_bind].
  assert (JsonRoundTrip BatchFlushData BatchFlushData_ok) as Hr; [|by apply Hr].
  struct_roundtrip Json_BatchFlushData.
Qed.
Lemma item_poll_nonempty p q : item_ok p q → p ≠ "".
Proof.
  intros (_ & Ht & Hv & Hd & Hp & _) ->. apply Validate_ok_payload in Hv. unfold Validate_payload in Hv.
  rewrite Ht in Hv. change (Validate_BallotCast (envelope q) tt = (Ok tt, tt)) in Hv.
  unfold Validate_BallotCast in Hv. rewrite Hd in Hv. minv Hv. simplify_eq.
  select (str_empty (BallotCastData_PollID _) = false) (fun H => by rewrite Hp in H).
Qed.
Lemma range_all_ok {S A} (l : list A) (body : nat → A → M S unit) s :
  (∀ i x, x ∈ l → body i x s = (Ok tt, s)) → range l body s = (Ok tt, s).
Proof.
  unfold range. generalize 0%nat. induction l as [|x l IH]; intros i H; [done|]. cbn [range_from].
  rewrite bind_run, H by left. apply IH. intros j y Hy. apply H. by right.
Qed.
Lemma validate_flush_tx {S} p batch (x : S) :
  batch ≠ [] → Forall (item_ok p) batch → Validate (flush_tx p batch) x = (Ok tt, x).
Proof.
  intros Hne Hok. assert (p ≠ "") as Hp.
  { destruct batch as [|q batch]; [done|]. apply Forall_cons in Hok as [Hq _]. by eapply item_poll_nonempty. }
  assert (Forall Tx_ok (envelope <$> batch)) as Htx by (apply Forall_fmap; eapply Forall_impl; [exact Hok|apply item_tx_ok]).
  unfold Validate. cbn [Validate_fuel]. change (Validate_BatchFlush (Validate_fuel 1) (flush_tx p batch) x = (Ok tt, x)).
  unfold Validate_BatchFlush. rewrite (proj2 (decode_flush_tx p batch Htx)). cbn [or_fail]. rewrite bind_run, mret_run. cbn beta iota.
  assert (str_empty p = false) as Hpe by (unfold str_empty; by rewrite bool_decide_false).
  assert ((len (Some (envelope <$> batch)) =? 0) = false) as Hlen.
  { apply Z.eqb_neq. unfold len. cbn. rewrite length_fmap. destruct batch; [done|]. cbn. lia. }
  cbn [BatchFlushData_PollID BatchFlushData_Submissions].
  rewrite bind_run, fail_if_run, Hpe. cbn beta iota. rewrite bind_run, fail_if_run, Hlen. cbn beta iota.
  apply range_all_ok. intros i t (q & -> & Hq)%list_elem_of_fmap. rewrite Forall_forall in Hok.
  destruct (Hok q Hq) as (_ & Ht & Hv & _). rewrite Ht. change (negb (TxTypeBallotCast =? TxTypeBallotCast)) with false.
  rewrite bind_run, fail_if_run. cbn beta iota. unfold wrap_err.
  rewrite <- (cast_fuel 1) by done. change (Validate_fuel 2 (envelope q) x) with (Validate (envelope q) x).
  by rewrite (Validate_any _ _ _ x _ Hv).
Qed.

(** C29. From an idle server that has nothing queued, however its requests interleave: the
    transaction broadcast by a running flush decodes, on the chain, to exactly the ballots
    it took, at least one, each a cast of its poll; it passes stateless validation on
    every state; and as long as no batch of that poll has been put back, it names, under
    the server's identifiers, no submission and no participant twice. *)
Theorem flush_batch_wellformed (s0 : Srv) (w : World) (pollID : string) (batch : list queuedBallot) :
  ballotQueue s0 = ∅ → rtc (step parse) (idle s0) w → Flushing pollID batch ∈ w_threads w →
  let t := flush_tx pollID batch in
  batch ≠ [] ∧
  DecodeTx (Some (EncodeTx t)) = Some t ∧
  UnmarshalData t = Some (mkBatchFlushData pollID (Some (envelope <$> batch))) ∧
  (∀ (S : Type) (x : S), Validate t x = (Ok tt, x)) ∧
  Forall (λ q, parse (txJSON q) ≫= unmarshal = Some (envelope q) ∧ UnmarshalData (envelope q) = Some (cast_data q) ∧
    BallotCastData_PollID (cast_data q) = pollID) batch ∧
  (pollID ∉ w_restored w → NoDup (ballotID <$> batch) ∧ NoDup (identityHash <$> batch)).
Proof.
  intros H0 Hr Hin t. apply steps_ok in Hr as [_ Ht]; [|by apply idle_ok].
  rewrite Forall_forall in Ht. destruct (Ht _ Hin) as (Hne & Hok & Hnd).
  destruct (decode_flush_tx pollID batch) as [Hd Hu].
  { apply Forall_fmap. eapply Forall_impl; [exact Hok|apply item_tx_ok]. }
  split_and!; try done; [intros S x; by apply validate_flush_tx|].
  eapply Forall_impl; [exact Hok|]. by intros q (? & _ & _ & ? & ? & _).
Qed.

(** ** One ballot the chain refuses *)
(** The node takes no well-formed batch with this ballot. *)
Definition refuses (pollID : string) (bad : queuedBallot) : Prop := ∀ (n : N) batch,
  bad ∈ batch → Forall (item_ok pollID) batch →
  match (BroadcastTx (Some (to_json (flush_tx pollID batch))) n).1 with
  | Ok result => txFailed result = true
  | Fail _ => True
  | Panic => False
  end.
(** The ballot waits in the queue of its poll or sits in the batch of a running flush. *)
Definition carries (pollID : string) (bad : queuedBallot) (t : Thread) : Prop :=
  match t with Flushing p batch | Restoring p batch => p = pollID ∧ bad ∈ batch | _ => False end.
Definition holds (pollID : string) (bad : queuedBallot) (w : World (N := N) (St := St)) : Prop :=
  bad ∈ queued (w_server w) pollID ∨ ∃ t, t ∈ w_threads w ∧ carries pollID bad t.
Lemma refused_broadcast pollID bad batch (s : Srv) :
  refuses pollID bad → bad ∈ batch → Forall (item_ok pollID) batch →
  ∃ r s', broadcast_batch pollID batch s = (Ok (inl r), s') ∧ (Resp_Status r = 500 ∨ Resp_Status r = 409) ∧ node_moved s s'.
Proof.
  intros Href Hin Hok. specialize (Href (rpc s) _ Hin Hok). rewrite broadcast_run.
  destruct (BroadcastTx _ (rpc s)) as [[result|e|] n]; cbn in Href; [rewrite Href| |done].
  - exists (writeJSON 409 result), (s <| rpc := n |>). split_and!; [done|by right|by exists n].
  - exists (writeError 500 e), (s <| rpc := n |>). split_and!; [done|by left|by exists n].
Qed.
Lemma start_holds pollID bad s s' new : start parse s s' new → bad ∈ queued s pollID →
  bad ∈ queued s' pollID ∨ Flushing pollID (queued s pollID) ∈ new.
Proof.
  intros H Hin. destruct H as [platform token body s x s' H|p s batch bid s' H|d s r s' H|raw s x s' H|body s r s' H|st path s r s' H|s r s' H];
    [|apply dequeue_run in H as [-> [[-> ->]|(Hne & _ & ->)]]; [by left|]|..].
  2: { destruct (decide (p = pollID)) as [->|Hp]; [right; destruct (queued s pollID) eqn:E; [done|]; by left|].
       left. unfold queued. fields. by rewrite lookup_delete_ne. }
  all: left; erewrite queued_moved; [exact Hin|]; first
    [ by by_move (update_lookup_moves raw) | apply node_store; first
      [ by by_move (admit_moves platform token body) | by by_move (update_direct_moves d) | by by_move (confirm_moves body)
      | by by_move (query_moves st path) | by by_move health_moves ] ].
Qed.
Lemma act_holds pollID bad s t s' next restored : refuses pollID bad → thread_ok restored t → act s t s' next →
  bad ∈ queued s pollID ∨ carries pollID bad t → bad ∈ queued s' pollID ∨ ∃ t', t' ∈ next ∧ carries pollID bad t'.
Proof.
  intros Href Ht H Hh. destruct H as [item s r s' H|p batch s r s' H|p batch s r s' H|s k|q rest s k Ha|q rest k cancelled s r s' Ha H|req old s r s' H|req s r s' H];
    cbn [carries] in Hh.
  - destruct Hh as [Hin|[]]. left. apply enqueue_run in H as [(e & _ & ->)|(_ & _ & ->)]; [done|].
    destruct (decide (pollID = BallotCastData_PollID (cast_data item))) as [->|Hp]; [rewrite queued_insert; apply elem_of_app; by left|].
    unfold queued. fields. by rewrite lookup_insert_ne.
  - destruct Hh as [Hin|[-> Hin]].
    + left. erewrite queued_moved; [exact Hin|]. apply node_store. by by_move (broadcast_moves p batch).
    + right. destruct (refused_broadcast pollID bad batch s Href Hin) as (r0 & s0 & E & _); [apply Ht|].
      rewrite E in H. injection H as <- <-. exists (Restoring pollID batch). split; [by left|done].
  - left. apply put_back_run in H as (_ & He & Hne & _). destruct (decide (pollID = p)) as [->|Hp].
    + rewrite He. apply elem_of_app. destruct Hh as [?|[_ ?]]; [by right|by left].
    + rewrite Hne by done. by destruct Hh as [?|[? _]].
  - left. by destruct Hh.
  - left. by destruct Hh.
  - left. destruct Hh as [Hin|[]]. erewrite queued_moved; [exact Hin|].
    by by_move (on_store_moves (RecordSubmission (BallotCastData_PollID (cast_data q)) (identityHash q) (ballotID q))).
  - left. destruct Hh as [Hin|[]]. erewrite queued_moved; [exact Hin|]. apply node_store. by by_move (broadcast_update_moves req old).
  - left. destruct Hh as [Hin|[]]. erewrite queued_moved; [exact Hin|]. by by_move (sync_moves req).
Qed.
Lemma step_holds pollID bad w w' : refuses pollID bad → world_ok w → step parse w w' → holds pollID bad w → holds pollID bad w'.
Proof.
  intros Href [Hq Ht] H Hh. destruct H as [s s' new ts restored H|s t s' next ts1 ts2 restored H]; unfold holds in *; cbn in *.
  - destruct Hh as [Hin|(t & Hin & Hc)]; [|right; exists t; split; [apply elem_of_app; by right|done]].
    destruct (start_holds _ _ _ _ _ H Hin) as [?|Hf]; [by left|]. right. eexists. split; [apply elem_of_app; by left|done].
  - apply Forall_app in Ht as [_ [Ht _]%Forall_cons].
    assert ((bad ∈ queued s pollID ∨ carries pollID bad t) ∨ ∃ t', t' ∈ ts1 ++ ts2 ∧ carries pollID bad t') as [Hc|(t' & Hin & Hc)].
    { destruct Hh as [?|(t' & [Hin|[->|Hin]%elem_of_cons]%elem_of_app & Hc)]; [by left; left|right|by left; right|right];
        (exists t'; split; [apply elem_of_app; tauto|done]). }
    + destruct (act_holds _ _ _ _ _ _ _ Href Ht H Hc) as [?|(t' & Hin & Hc')]; [by left|]. right. exists t'.
      split; [rewrite !elem_of_app; tauto|done].
    + right. exists t'. split; [|done]. apply elem_of_app in Hin. rewrite !elem_of_app. tauto.
Qed.
(** C28. A queued ballot that the chain refuses is never delivered and never dropped: however
    requests interleave from then on, it is in the queue of its poll or in the batch of a
    running flush; every flush that holds it is answered 500 or 409 and puts its batch
    back; and a flush that runs alone while it is queued leaves queue and receipts as they
    were, the other ballots of the poll with it. *)
Theorem refused_ballot_returns (s0 : Srv) (w w' : World) (pollID : string) (bad : queuedBallot) :
  ballotQueue s0 = ∅ → rtc (step parse) (idle s0) w → bad ∈ queued (w_server w) pollID → refuses pollID bad →
  rtc (step parse) w w' →
  holds pollID bad w' ∧
  (∀ batch, Flushing pollID batch ∈ w_threads w' → bad ∈ batch →
    ∃ r s, broadcast_batch pollID batch (w_server w') = (Ok (inl r), s) ∧ (Resp_Status r = 500 ∨ Resp_Status r = 409) ∧
      act (w_server w') (Flushing pollID batch) s [Restoring pollID batch]) ∧
  (bad ∈ queued (w_server w') pollID → ∀ ctx, ∃ r s, flushQueuedBallots ctx pollID (w_server w') = (Ok r, s) ∧
    (Resp_Status r = 500 ∨ Resp_Status r = 409) ∧
    queued s pollID = queued (w_server w') pollID ∧ reconcileStore s = reconcileStore (w_server w')).
Proof.
  intros H0 Hw Hin Href Hr. apply steps_ok in Hw; [|by apply idle_ok].
  assert (world_ok w' ∧ holds pollID bad w') as [[Hq Ht] Hh].
  { assert (holds pollID bad w) as Hh by by left. clear Hin. induction Hr as [w|a b c Hab _ IH]; [done|].
    apply IH; [by eapply step_ok|by eapply step_holds]. }
  split_and!; [done| |].
  - intros batch Hf Hb. rewrite Forall_forall in Ht. destruct (Ht _ Hf) as (_ & Hok & _).
    destruct (refused_broadcast pollID bad batch (w_server w') Href Hb Hok) as (r & s & E & Hst & _).
    exists r, s. split_and!; [done|done|]. exact (act_broadcast _ _ _ _ _ E).
  - intros Hb ctx. specialize (Href (rpc (w_server w')) _ Hb (proj1 (Hq pollID))).
    rewrite flush_eq by (intros E; rewrite E in Hb; by apply elem_of_nil in Hb).
    destruct (BroadcastTx _ _) as [[result|e|] n]; cbn in Href; [rewrite Href| |done].
    + eexists _, _. split_and!; [done|by right|done|done].
    + eexists _, _. split_and!; [done|by left|done|done].
Qed.

(** ** A submission that races a flush
    The duplicate check sees the queue only: while a flush holds a batch, a participant of
    the batch can queue another ballot, and when the flush puts its batch back the queue
    names the participant twice, which the check on an idle queue excludes. *)
Theorem racing_submission_duplicates (s : Srv) (pollID : string) (q item : queuedBallot) :
  q ∈ queued s pollID → BallotCastData_PollID (cast_data item) = pollID → identityHash item = identityHash q →
  (∃ e, enqueueBallot item s = (Fail e, s)) ∧
  ∃ batchID s1 s2 s3, dequeueBallotsForFlush pollID s = (Ok (queued s pollID, batchID), s1) ∧
    enqueueBallot item s1 = (Ok tt, s2) ∧ restoreQueuedBallots pollID (queued s pollID) s2 = (Ok tt, s3) ∧
    queued s3 pollID = queued s pollID ++ [item] ∧ ¬ NoDup (identityHash <$> queued s3 pollID).
Proof.
  intros Hq Hp Hi. split.
  - unfold enqueueBallot. rewrite bind_run, gets_run. cbn beta iota. change (queued (id s) ?p) with (queued s p). rewrite Hp.
    destruct (check_duplicates item _) eqn:E; [by eexists|]. apply check_duplicates_spec in E.
    rewrite Forall_forall in E. by destruct (E q Hq).
  - unfold dequeueBallotsForFlush, enqueueBallot. rewrite bind_run, gets_run. cbn beta iota. change (queued (id s) pollID) with (queued s pollID).
    destruct (queued s pollID) as [|q0 rest] eqn:Eq; [by apply elem_of_nil in Hq|].
    exists (computeServerBatchID pollID (q0 :: rest)), (s <| ballotQueue ::= delete pollID |>).
    exists (s <| ballotQueue ::= delete pollID |> <| ballotQueue ::= <[pollID := [item]]> |>).
    exists (s <| ballotQueue ::= delete pollID |> <| ballotQueue ::= <[pollID := [item]]> |> <| ballotQueue ::= <[pollID := (q0 :: rest) ++ [item]]> |>).
    split; [done|]. split.
    { rewrite bind_run, gets_run. cbn beta iota. change (queued (id ?x) ?p) with (queued x p).
      rewrite Hp, queued_delete. cbn [check_duplicates]. by rewrite modify_run, queued_delete. }
    split; [unfold restoreQueuedBallots; by rewrite modify_run, queued_insert|]. rewrite queued_insert.
    split; [done|]. rewrite fmap_app, NoDup_app. intros (_ & Hd & _). apply (Hd (identityHash q)).
    + by apply list_elem_of_fmap_2.
    + rewrite <- Hi. by left.
Qed.
End router.

(** ** Receipts *)
Section receipts.
Context `{C : Crypto} {N St : Type} `{B : Broadcaster N} `{R : Store St} `{L : !StoreLaws St} (parse : string → option json).
#[local] Abbreviation Srv := (Server N St).

(** At most three writes: without an error the participant is linked; with one, every
    other link is as it was and that of the participant is the old one or the new one. *)
Definition links_or (st st' : St) (p i b : string) : Prop := ∀ p' i', no_colon i' = true →
  link st' p' i' = link st p' i' ∨ (p' = p ∧ i' = i ∧ link st' p' i' = Some b).
Lemma links_or_trans a c d p i b : links_or a c p i b → links_or c d p i b → links_or a d p i b.
Proof. intros H1 H2 p' i' Hi. destruct (H2 p' i' Hi) as [E|?]; [rewrite E; by apply H1|by right]. Qed.
Lemma record_links_or st st' p i b o : RecordSubmission p i b st = (o, st') → no_colon i = true →
  links_or st st' p i b ∧ (res_ok o = true → link st' p i = Some b) ∧ o ≠ Panic.
Proof.
  intros E Hi. apply record_law in E; [|done].
  assert (relinked link st st' p i (Some b) → links_or st st' p i b ∧ link st' p i = Some b) as Hl.
  { intros Hr. split; [|rewrite Hr by done; by rewrite decide_True]. intros p' i' Hi'. rewrite Hr by done.
    case_decide as Ed; [|by left]. destruct Ed as [-> ->]. by right. }
  destruct o as [u|e|]; [apply Hl in E as [? ?]; by split_and!| |done].
  destruct E as [E|E]; [apply Hl in E as [? _]; by split_and!|]. split_and!; [|done|done].
  intros p' i' _. left. apply E.
Qed.
Lemma attempts_run ctx p i b left : no_colon i = true → ∀ n err (s : Srv) st,
  reconcileStore s = Some st → (left = O ∨ (0 < n)%nat → err ≠ None) →
  ∃ r s' st', record_attempts ctx p i b left n err s = (r, s') ∧ reconcileStore s' = Some st' ∧ ballotQueue s' = ballotQueue s ∧
    links_or st st' p i b ∧ (res_ok r = true → link st' p i = Some b) ∧ r ≠ Panic.
Proof.
  intros Hi. induction left as [|left IH]; intros n err s st Hs He; cbn [record_attempts].
  { destruct err as [e|]; [|by destruct He; [left|]]. exists (Fail e), s, st. split_and!; try done. intros ???. by left. }
  destruct (_ && _) eqn:Eg.
  { apply andb_true_iff in Eg as [Hn%Z.ltb_lt _]. destruct err as [e|]; [|destruct He; [right; lia|done]].
    exists (Fail e), s, st. split_and!; try done. intros ???. by left. }
  rewrite bind_run. unfold try, on_store. rewrite Hs. destruct (RecordSubmission p i b st) as [o st1] eqn:E.
  destruct (record_links_or _ _ _ _ _ _ E Hi) as (Hl & Hok & Hp). destruct o as [[]|e|]; [| |done].
  - rewrite mret_run. eexists _, _, st1. split_and!; [done|done|done|done|by intros _; apply Hok|done].
  - destruct (IH (S n) (Some e) (s <| reconcileStore := Some st1 |>) st1) as (r & s' & st' & -> & Hs' & Hq & Hl' & Hr & Hp'); [done|done|].
    exists r, s', st'. split_and!; try done. by eapply links_or_trans.
Qed.
Theorem storeReceipt_retries ctx data b i (s : Srv) st :
  reconcileStore s = Some st → no_colon i = true →
  ∃ r s' st', storeReceiptForBallot ctx data b i s = (r, s') ∧ reconcileStore s' = Some st' ∧ ballotQueue s' = ballotQueue s ∧
    links_or st st' (BallotCastData_PollID data) i b ∧
    (res_ok r = true → link st' (BallotCastData_PollID data) i = Some b) ∧ r ≠ Panic.
Proof.
  intros Hs Hi. unfold storeReceiptForBallot. rewrite bind_run, gets_run. cbn beta iota. unfold id. rewrite Hs.
  apply attempts_run; [done..|]. intros [?|?]; [done|lia].
Qed.

(** ** A write-only deployment *)
Definition no_links (s : Srv) : Prop := ∀ st, reconcileStore s = Some st → ∀ p i, link st p i = None.
Lemma lookup_no_links raw (s s' : Srv) x : update_lookup raw s = (x, s') → no_links s →
  no_links s' ∧ match x with Ok (inr _) => False | _ => True end.
Proof.
  intros H Hs. unfold update_lookup in H. rewrite bind_run, gets_run in H. cbn beta iota in H. unfold id in H. rewrite answer_if_run in H.
  case_bool_decide; [by injection H as <- <-|].
  rewrite need_run in H. destruct (decode_update _) as [req|]; [|by injection H as <- <-]. cbv zeta in H.
  rewrite answer_if_run in H. destruct (_ || _); [by injection H as <- <-|].
  rewrite attempt_run in H. unfold on_store at 1 in H. destruct (reconcileStore s) as [st|] eqn:Est; [|by injection H as <- <-].
  destruct (GetSubmissionID _ _ st) as [r st1] eqn:E. apply get_law in E as [Hsame Hr].
  assert (no_links (s <| reconcileStore := Some st1 |>)) as H1 by (intros st2 [= <-] p i; rewrite Hsame; by apply Hs).
  destruct r as [b|e|]; [by rewrite (Hs st Est) in Hr|by injection H as <- <-..].
Qed.
Definition silent (s : Srv) : Prop :=
  permanentWriteOnly s = true ∧ no_links s ∧ ∀ p, Forall (λ q, allowReceipt q = false) (queued s p).
Definition silent_thread (t : Thread) : Prop :=
  match t with
  | Enqueueing item => allowReceipt item = false
  | Flushing _ batch | Restoring _ batch | Recording batch _ => Forall (λ q, allowReceipt q = false) batch
  | Updating _ _ | Syncing _ => False
  end.
Lemma moved_silent (s s' : Srv) : node_moved s s' → silent s → silent s'.
Proof. by intros [n ->]. Qed.
Lemma start_silent (s s' : Srv) new : start parse s s' new → silent s → silent s' ∧ Forall silent_thread new.
Proof.
  intros H Hs. destruct H as [platform token body s x s' H|p s batch bid s' H|d s r s' H|raw s x s' H|body s r s' H|st path s r s' H|s r s' H].
  - apply admit_run in H as [Hm Hx]. split; [by eapply moved_silent|]. destruct x as [[r|[item wo]]| |]; try by apply Forall_nil.
    destruct Hx as (b & fb & _ & _ & _ & _ & -> & Ha). apply Forall_singleton. cbn. by rewrite Ha, (proj1 Hs), andb_false_r.
  - destruct Hs as (Hw & Hl & Hq). apply dequeue_run in H as [-> [[-> ->]|(Hne & _ & ->)]]; [by split; [|apply Forall_nil]|]. split.
    + split_and!; [done|done|]. intros p'. unfold queued. fields. destruct (decide (p = p')) as [->|Hp].
      * rewrite lookup_delete_eq. by apply Forall_nil.
      * rewrite lookup_delete_ne by done. apply Hq.
    + specialize (Hq p). destruct (queued s p); [done|]. by apply Forall_singleton.
  - split; [|by apply Forall_nil]. eapply moved_silent, Hs. by by_move (update_direct_moves (St := St) parse d).
  - pose proof (update_lookup_moves raw s) as Hm. rewrite H in Hm. destruct Hm as (n & st & Hm & _). cbn in Hm.
    destruct Hs as (Hw & Hl & Hq). destruct (lookup_no_links _ _ _ _ H Hl) as [Hl' Hx]. split; [by subst s'|].
    destruct x as [[r|[req old]]| |]; try by apply Forall_nil. done.
  - split; [|by apply Forall_nil]. eapply moved_silent, Hs. by by_move (confirm_moves (St := St) parse body).
  - split; [|by apply Forall_nil]. eapply moved_silent, Hs. by by_move (query_moves (N := N) (St := St) st path).
  - split; [|by apply Forall_nil]. eapply moved_silent, Hs. by by_move (health_moves (N := N) (St := St)).
Qed.
Lemma act_silent (s : Srv) t s' next : act s t s' next → silent s → silent_thread t → silent s' ∧ Forall silent_thread next.
Proof.
  intros H Hs Ht. destruct H as [item s r s' H|p batch s r s' H|p batch s r s' H|s k|q rest s k Ha|q rest k cancelled s r s' Ha H|req old s r s' H|req s r s' H];
    cbn in Ht; try done.
  - split; [|by apply Forall_nil]. apply enqueue_run in H as [(e & _ & ->)|(_ & _ & ->)]; [done|]. destruct Hs as (Hw & Hl & Hq).
    split_and!; [done|done|]. intros p. destruct (decide (p = BallotCastData_PollID (cast_data item))) as [->|Hp].
    + rewrite queued_insert. apply Forall_app. split; [apply Hq|by apply Forall_singleton].
    + unfold queued. fields. rewrite lookup_insert_ne by done. apply Hq.
  - split; [eapply moved_silent, Hs; by by_move (broadcast_moves (N := N) (St := St) p batch)|].
    destruct r as [[r|r]| |]; try by apply Forall_nil.
    + by apply Forall_singleton.
    + destruct (bool_decide _); [by apply Forall_singleton|by apply Forall_nil].
  - split; [|by apply Forall_nil]. apply put_back_run in H as (_ & He & Hne & Hrs & Hp). destruct Hs as (Hw & Hl & Hq).
    split_and!; [unfold permanentWriteOnly; by rewrite Hp|intros st; rewrite Hrs; apply Hl|]. intros p'.
    destruct (decide (p' = p)) as [->|Hpp]; [rewrite He; by apply Forall_app|rewrite Hne by done; apply Hq].
  - split; [done|]. apply Forall_singleton. by apply Forall_cons in Ht as [_ ?].
  - apply Forall_cons in Ht as [? _]. congruence.
Qed.
(** C30. A write-only deployment with an empty store of receipts: however its requests
    interleave, no participant is ever linked to a submission, and no queued ballot is
    marked for a receipt. *)
Theorem write_only_keeps_no_receipt (s0 : Srv) (w : World) :
  permanentWriteOnly s0 = true → ballotQueue s0 = ∅ → no_links s0 → rtc (step parse) (idle s0) w →
  let s := w_server w in
  permanentWriteOnly s = true ∧ no_links s ∧ ∀ p, Forall (λ q, allowReceipt q = false) (queued s p).
Proof.
  intros Hw Hq Hl Hr. assert (silent (w_server (idle s0)) ∧ Forall silent_thread (w_threads (idle s0))) as Hs.
  { split; [|by apply Forall_nil]. split_and!; [done|done|]. intros p. unfold queued. cbn. rewrite Hq, lookup_empty. by apply Forall_nil. }
  clear Hw Hq Hl. enough (silent (w_server w) ∧ Forall silent_thread (w_threads w)) by tauto.
  induction Hr as [|a b c Hab _ IH]; [done|]. apply IH. clear IH. destruct Hs as [Hs Ht].
  destruct Hab as [s s' new ts restored H|s t s' next ts1 ts2 restored H]; cbn in *.
  - destruct (start_silent _ _ _ H Hs) as [Hs' Hn]. split; [done|]. by apply Forall_app.
  - apply Forall_app in Ht as [Ht1 [Ht Ht2]%Forall_cons]. destruct (act_silent _ _ _ _ H Hs Ht) as [Hs' Hn].
    split; [done|]. by rewrite !Forall_app.
Qed.
End receipts.

(** ** The server's identifiers and the chain's *)
Section identifiers.
Context `{C : Crypto}.
(** C31. For a ballot whose beacon and nonce are hex: the submission identifier of the server
    is that of the chain exactly when it commits to the payload, or the digest collides.
    Its participant is the chain's under [ZKVerifier]; under an attested identity exactly
    when the ballot carries no nullifier (or a nullifier that is the identity itself);
    under [NoopVerifier] only when the digest collides. *)
Theorem router_identity_agrees (data : BallotCastData) (bid i : string) :
  deriveBallotIdentity data = Some (bid, i) →
  let nullifier := BallotCastData_ZKNullifier data in
  let mode := BallotCastData_SubmissionIdentifierDerivation data in
  (∀ beacon nonce, BallotCastData_BeaconBlockHash data ≠ "" →
     hex_DecodeString (BallotCastData_BeaconBlockHash data) = Some beacon →
     hex_DecodeString (BallotCastData_BallotNonce data) = Some nonce →
     bid = cast_ballotID data ↔ mode = SubmissionIdentifierDerivationNoncePlusPayload ∨
       sha256 (BallotCastData_BallotNonce data) = sha256 (beacon +:+ nonce)) ∧
  (∀ key zk h, VerifyAndIdentify (ZKVerifier key zk) data = Some h → i = h) ∧
  (∀ key h, VerifyAndIdentify (DiditVerifier key) data = Some h ∨ VerifyAndIdentify (IdentusVerifier key) data = Some h →
     i = h ↔ nullifier = "" ∨ nullifier = h) ∧
  (∀ h, VerifyAndIdentify NoopVerifier data = Some h → nullifier = "" →
     i = h ↔ sha256 (BallotCastData_VoterPubKey data +:+ BallotCastData_PollID data) =
             sha256 (BallotCastData_VoterPubKey data +:+ ":" +:+ BallotCastData_PollID data)).
Proof.
  unfold deriveBallotIdentity. cbv zeta. set (id0 := if bool_decide _ then _ else _).
  intros H. assert (bid = id0 ∧ (if negb (str_empty (BallotCastData_ZKNullifier data)) then i = BallotCastData_ZKNullifier data
    else i = diditIdentityHash (BallotCastData_VoterPubKey data) (BallotCastData_PollID data))) as [-> Hi].
  { destruct (negb _); [by injection H as <- <-|]. destruct (negb _); [by injection H as <- <-|done]. }
  clear H. split_and!.
  - intros beacon nonce Hne Hb Hn. unfold id0, cast_ballotID, deriveBallotIDWithBeacon. case_bool_decide as Hm; [by split; [left|]|].
    unfold computeBallotIDWithBeacon, str_empty. rewrite bool_decide_false by done. unfold DeriveSubmissionID.
    rewrite Hb, Hn. cbn. split; [intros E%(inj hex_EncodeToString); by right|intros [?|E]; [done|by rewrite E]].
  - cbn. unfold zk_attest. intros key zk h H. destruct (str_empty (BallotCastData_ZKNullifier data)); [done|]. cbn in H, Hi.
    repeat case_match; simplify_eq. done.
  - intros key h H. assert (h = diditIdentityHash (BallotCastData_VoterPubKey data) (BallotCastData_PollID data)) as ->.
    { cbn in H. unfold attest in H. destruct H as [H|H]; repeat case_match; by simplify_eq. }
    destruct (str_empty (BallotCastData_ZKNullifier data)) eqn:He; cbn [negb] in Hi; rewrite Hi.
    + apply bool_decide_eq_true in He. split; [by left|done].
    + apply bool_decide_eq_false in He. split; [by right|by intros [?|?]].
  - intros h [= <-] He. rewrite He in Hi. cbn [negb] in Hi. rewrite Hi. unfold diditIdentityHash, noop_identity.
    split; [apply (inj hex_EncodeToString)|by intros ->].
Qed.
(** The batch identifier does not depend on the order of the queue. *)
Lemma server_batch_id_order p b1 b2 : b1 ≡ₚ b2 → computeServerBatchID p b1 = computeServerBatchID p b2.
Proof.
  intros H. unfold computeServerBatchID. by rewrite (sort_Strings_unique (ballotID <$> b1) (ballotID <$> b2)) by by rewrite H.
Qed.
End identifiers.

Section chain.
Context `{C : Crypto} (parse : string → option json).
Implicit Types n : State.

(** Every submission of a validated batch was validated as a cast. *)
Lemma check_submissions_each (now : clock) pollID subs : ∀ i sb sr n n' u,
  check_submissions now pollID i sb sr subs n = (Ok u, n') →
  ∀ sub, sub ∈ subs → ∃ j n1 n2, validateBallotCast (now j) sub n1 = (Ok tt, n2).
Proof.
  induction subs as [|t subs IH]; intros i sb sr n n' u H sub Hin; [by apply elem_of_nil in Hin|].
  cbn [check_submissions] in H. apply bind_ok in H as (? & n1 & _ & H). apply bind_ok in H as ([] & n2 & Hv & H).
  apply elem_of_cons in Hin as [->|Hin]; [apply wrap_err_ok in Hv; by exists i, n1, n2|].
  minv H. eapply IH; [|exact Hin]. eassumption.
Qed.
(** The device signature of a cast is not one of its key over nonce and poll. *)
Definition bad_signature (data : BallotCastData) : Prop := ∀ pub, hex_DecodeString (BallotCastData_VoterPubKey data) = Some pub →
  ed25519_Verify pub (BallotCastData_BallotNonce data +:+ ":" +:+ BallotCastData_PollID data)
    (bytes_of (BallotCastData_VoterSig data)) = false.
(** In every state of the chain, the batch of a flush that holds a ballot with a bad
    signature passes stateless validation and is refused by the mempool with code 3. *)
Theorem forged_ballot_batch_refused (now : clock) (n n' : State) (pollID : string) batch bad r :
  bad ∈ batch → Forall (item_ok parse pollID) batch → bad_signature (cast_data bad) →
  App.CheckTx now (Some (EncodeTx (flush_tx pollID batch))) n = (Ok r, n') →
  Validate (flush_tx pollID batch) n = (Ok tt, n) ∧ App.CheckTx_Code r = 3.
Proof.
  intros Hin Hok Hbad H. assert (batch ≠ []) as Hne by (intros ->; by apply elem_of_nil in Hin).
  pose proof (validate_flush_tx parse pollID batch n Hne Hok) as Hv. split; [done|].
  destruct (decode_flush_tx pollID batch) as [Hd Hu].
  { apply Forall_fmap. eapply Forall_impl; [exact Hok|apply item_tx_ok]. }
  unfold App.CheckTx in H. rewrite Hd in H. rewrite bind_run in H. unfold try at 1 in H. rewrite Hv in H. cbn beta iota in H.
  rewrite bind_run in H. unfold try at 1 in H.
  change (App.ValidateTx now (flush_tx pollID batch)) with (validateBatchFlush now (flush_tx pollID batch)) in H.
  destruct (validateBatchFlush now (flush_tx pollID batch) n) as [[u|e|] n1] eqn:Ev; [|by injection H as <- _|done].
  exfalso. apply validateBatchFlush_ok in Ev as (data & poll & Hdata & _ & _ & Hc). rewrite Hu in Hdata. injection Hdata as <-.
  destruct (check_submissions_each _ _ _ _ _ _ _ _ _ Hc (envelope bad)) as (j & n2 & n3 & Hb).
  { cbn. by apply list_elem_of_fmap_2. }
  apply validateBallotCast_facts in Hb as (d & _ & pub & _ & _ & Hd' & _ & _ & Hk & _ & Hsig & _).
  rewrite Forall_forall in Hok. destruct (Hok bad Hin) as (_ & _ & _ & Hd2 & _). rewrite Hd2 in Hd'. injection Hd' as <-.
  rewrite (Hbad pub Hk) in Hsig. done.
Qed.
End chain.
