(* ===== verification/RouterDemo.v ===== *)
(** The API in front of the chain of [Demo], with a store of receipts in memory: one good
    ballot, one with a bad signature, and a write-only deployment. *)
From S2P Require Import Prelude GoStd Json Sha256 Http Keys TxData TxValidate Identity VotingState Ballots App Demo.
From S2P Require Import VoteQuery Config Reconcile Router RouterTheorems.

(** ** A node that is one chain *)
Definition answer (check exec : Z) : option json :=
  Some (JObj [("result", JObj [("check_tx", JObj [("code", JInt check)]); ("tx_result", JObj [("code", JInt exec)])])]).
Definition chain_broadcast (raw : option json) : M State (option json) := λ n,
  match App.CheckTx (at_ 150) raw n with
  | (Ok r, n1) =>
      if App.CheckTx_Code r =? 0 then
        match App.exec_tx (at_ 150) raw n1 with
        | (Ok x, n2) => (Ok (answer 0 (App.Exec_Code x)), n2)
        | (_, n2) => (Fail (Errorf "EOF" []), n2)
        end
      else (Ok (answer (App.CheckTx_Code r) 0), n1)
  | (_, n1) => (Fail (Errorf "EOF" []), n1)
  end.
#[export] Instance chain_node : Broadcaster State := {
  ABCIQuery path := λ n, match VoteQuery.Query n path with inl e => (Fail e, n) | inr j => (Ok (Some j), n) end;
  BroadcastTx := chain_broadcast;
  Status := mret (Some (JObj []));
}.

(** ** Requests *)
(** A cast of bob under alice's signature. *)
Definition forged_tx : Tx :=
  tx TxTypeBallotCast (bob_cast <| BallotCastData_VoterSig := BallotCastData_VoterSig alice_cast |>).
Definition api_parse (text : string) : option json :=
  if bool_decide (text = "alice") then Some (EncodeTx alice_tx)
  else if bool_decide (text = "forged") then Some (EncodeTx forged_tx) else None.
Definition tx_body (text : string) : option json := Some (JObj [("tx", JStr text)]).
Definition api_submit (text : string) : M (Server State MemoryStore) Response := submitBallot api_parse "" "" (tx_body text).

(** ** States of the server *)
Definition v_new : Server State MemoryStore := WithReconcileStore (mkMemoryStore None) (NewServerWithBroadcaster s_created).
Definition v_alice : Server State MemoryStore := (api_submit "alice" v_new).2.
Definition v_forged : Server State MemoryStore := (api_submit "forged" v_alice).2.
Definition v_flushed : Server State MemoryStore := (flushQueuedBallots (λ _ _, false) "p1" v_alice).2.
Definition v_refused : Server State MemoryStore := (flushQueuedBallots (λ _ _, false) "p1" v_forged).2.
Definition write_only_cfg : PostureConfig :=
  mkPostureConfig "coercion_resistant" jzero (mkAttestationConfig "rolling" 100) true.
Definition v_silent : Server State MemoryStore := v_new <| postureCfg := Some write_only_cfg |>.
Definition v_silent_alice : Server State MemoryStore := (api_submit "alice" v_silent).2.
Definition v_silent_flushed : Server State MemoryStore := (flushQueuedBallots (λ _ _, false) "p1" v_silent_alice).2.
(** The forged ballot as it is queued. *)
Definition forged_item : queuedBallot := default (mkQueuedBallot "" forged_tx bob_cast "" "" false) (queued v_forged "p1" !! 1%nat).

(** Good ballots reach the chain and leave a receipt; with a forged one in the batch none
    does; a write-only deployment leaves no receipt. *)
Definition reached (s : Server State MemoryStore) : nat := size (voteDirections (rpc s)).
Definition receipts (s : Server State MemoryStore) : nat := from_option (λ st, size (init st)) 0%nat (reconcileStore s).
Example demo_flushed : (reached v_flushed, receipts v_flushed, length (queued v_flushed "p1")) = (1, 1, 0)%nat.
Proof. by vm_compute. Qed.
Example demo_refused : (reached v_refused, receipts v_refused, length (queued v_refused "p1")) = (0, 0, 2)%nat.
Proof. by vm_compute. Qed.
Example demo_silent : (reached v_silent_flushed, receipts v_silent_flushed, length (queued v_silent_flushed "p1")) = (1, 0, 0)%nat.
Proof. by vm_compute. Qed.

(** A reconciled withdrawal: the identifier the store links is not the chain's, so the
    chain refuses an update it takes under its own identifier, and the server drops the
    link all the same. *)
Definition withdrawal : option json :=
  match to_json (update []) with
  | JObj ms => Some (JObj (("identity_hash", JStr (default "" (identityHash <$> queued v_alice "p1" !! 0%nat))) :: ms))
  | _ => None
  end.
Definition v_withdrawn : res Response * Server State MemoryStore := updateBallot api_parse withdrawal v_flushed.
Example demo_withdrawal :
  (match v_withdrawn.1 with Ok r => (Resp_Status r, txFailed (Resp_Body r)) | _ => (0, false) end,
   reached v_withdrawn.2, receipts v_withdrawn.2) = ((200, true), 1%nat, 0%nat).
Proof. by vm_compute. Qed.
Example demo_withdrawal_own_id :
  (App.ValidateTx (at_ 150) withdraw_tx (rpc v_flushed)).1 = Ok tt.
Proof. by vm_compute. Qed.

(** ** The states are reached *)
#[local] Abbreviation W := (World (N := State) (St := MemoryStore)).
#[local] Abbreviation steps := (rtc (step (N := State) (St := MemoryStore) api_parse)).
Lemma submitted text s : steps (idle s) (idle (api_submit text s).2).
Proof. unfold api_submit. destruct (submitBallot _ _ _ _ s) as [r s'] eqn:E. by eapply submit_steps. Qed.
Lemma v_alice_reach : steps (idle v_new) (idle v_alice).
Proof. apply submitted. Qed.
Lemma v_forged_reach : steps (idle v_new) (idle v_forged).
Proof. etrans; [apply v_alice_reach|apply submitted]. Qed.
(** A flush of the poll has taken what was queued. *)
Definition taken (s : Server State MemoryStore) : W :=
  mkWorld (dequeueBallotsForFlush "p1" s).2 [Flushing "p1" (queued s "p1")] ∅.
Lemma taken_reach s : queued s "p1" ≠ [] → steps (idle s) (taken s).
Proof.
  intros Hne. unfold taken. destruct (dequeueBallotsForFlush "p1" s) as [[[batch bid]|e|] s'] eqn:E.
  - apply rtc_once. pose proof (step_start api_parse s s' _ [] ∅ (start_flush api_parse "p1" s batch bid s' E)) as H.
    apply dequeue_run in E as [-> _]. destruct (queued s "p1"); [done|]. exact H.
  - exfalso. revert E. unfold dequeueBallotsForFlush. rewrite bind_run, gets_run. cbn beta iota. by destruct (queued _ _).
  - exfalso. revert E. unfold dequeueBallotsForFlush. rewrite bind_run, gets_run. cbn beta iota. by destruct (queued _ _).
Qed.
Lemma v_alice_queued : queued v_alice "p1" ≠ [].
Proof. vm_compute. discriminate. Qed.
Lemma v_forged_queued : queued v_forged "p1" ≠ [].
Proof. vm_compute. discriminate. Qed.
Lemma v_silent_reach : ∃ restored, steps (idle v_silent) (mkWorld v_silent_flushed [] restored).
Proof.
  unfold v_silent_flushed. destruct (flushQueuedBallots (λ _ _, false) "p1" v_silent_alice) as [o s'] eqn:E.
  assert (res_ok o = true) as Ho by (by replace o with (flushQueuedBallots (C := demo_crypto) (λ _ _, false) "p1" v_silent_alice).1; [vm_compute|rewrite E]).
  destruct o as [r|e|]; [|done..].
  destruct (flush_steps api_parse (λ _ _, false) "p1" v_silent_alice s' r ∅ E) as [H|H]; (eexists; etrans; [apply (submitted "alice" v_silent)|exact H]).
Qed.

(** ** The chain refuses the forged ballot *)
Lemma forged_signature : bad_signature (cast_data forged_item).
Proof.
  intros pub H. assert (hex_DecodeString (BallotCastData_VoterPubKey (cast_data forged_item)) = Some bob_raw) as E by (by vm_compute).
  rewrite E in H. injection H as <-. by vm_compute.
Qed.
Lemma forged_refused : refuses (N := State) api_parse "p1" forged_item.
Proof.
  intros n batch Hin Hok. cbn [BroadcastTx chain_node]. unfold chain_broadcast.
  destruct (App.CheckTx (at_ 150) (Some (to_json (flush_tx "p1" batch))) n) as [[r|e|] n1] eqn:E; [|done..].
  apply (forged_ballot_batch_refused api_parse _ _ _ _ _ _ _ Hin Hok forged_signature) in E as [_ E].
  rewrite E. by vm_compute.
Qed.

(** ** Instances of the theorems *)
Lemma flush_batch_wellformed_witness :
  let batch := queued v_alice "p1" in
  UnmarshalData (flush_tx "p1" batch) = Some (mkBatchFlushData "p1" (Some [alice_tx])) ∧
  Validate (flush_tx "p1" batch) tt = (Ok tt, tt) ∧ NoDup (identityHash <$> batch).
Proof.
  intros batch. destruct (flush_batch_wellformed api_parse v_new (taken v_alice) "p1" batch eq_refl) as (_ & _ & Hu & Hv & _ & Hn).
  - etrans; [apply v_alice_reach|apply taken_reach, v_alice_queued].
  - by left.
  - split_and!; [|apply Hv|by apply Hn]. rewrite Hu. by vm_compute.
Defined.
(** The flush that took the forged ballot is refused and will put its batch back. *)
Lemma refused_ballot_returns_witness :
  ∃ r s, broadcast_batch "p1" (queued v_forged "p1") (w_server (taken v_forged)) = (Ok (inl r), s) ∧
    (Resp_Status r = 500 ∨ Resp_Status r = 409) ∧
    act (w_server (taken v_forged)) (Flushing "p1" (queued v_forged "p1")) s [Restoring "p1" (queued v_forged "p1")].
Proof.
  apply (refused_ballot_returns api_parse v_new (idle v_forged) (taken v_forged) "p1" forged_item eq_refl v_forged_reach).
  - apply (list_elem_of_lookup_2 _ 1). by vm_compute.
  - apply forged_refused.
  - apply taken_reach, v_forged_queued.
  - by left.
  - apply (list_elem_of_lookup_2 _ 1). by vm_compute.
Defined.
Lemma write_only_keeps_no_receipt_witness : no_links v_silent_flushed.
Proof.
  destruct v_silent_reach as [restored H].
  apply (write_only_keeps_no_receipt api_parse v_silent (mkWorld v_silent_flushed [] restored)); [done|done| |exact H].
  intros st [= <-] p i. done.
Defined.
Lemma forged_queued : forged_item ∈ queued v_forged "p1".
Proof. apply (list_elem_of_lookup_2 _ 1). by vm_compute. Qed.
Lemma forged_queue_ok : Forall (item_ok api_parse "p1") (queued v_forged "p1").
Proof. apply (steps_ok api_parse _ _ v_forged_reach (idle_ok api_parse v_new eq_refl)). Qed.
Lemma forged_ballot_batch_refused_witness :
  ∀ r n', App.CheckTx (at_ 150) (Some (EncodeTx (flush_tx "p1" (queued v_forged "p1")))) s_created = (Ok r, n') →
  App.CheckTx_Code r = 3.
Proof.
  intros r n' E.
  apply (forged_ballot_batch_refused api_parse (at_ 150) s_created n' "p1" (queued v_forged "p1") forged_item r
    forged_queued forged_queue_ok forged_signature E).
Defined.
(** Alice queues a second ballot while a flush holds her first. *)
Definition alice_again_item : queuedBallot :=
  mkQueuedBallot "alice2" alice_again (cast alice alice_raw "4" "no") "id2" (default "" (identityHash <$> queued v_alice "p1" !! 0%nat)) true.
Lemma racing_submission_duplicates_witness : ∃ e, enqueueBallot alice_again_item v_alice = (Fail e, v_alice).
Proof.
  apply (racing_submission_duplicates v_alice "p1" (default alice_again_item (queued v_alice "p1" !! 0%nat)) alice_again_item);
    [apply (list_elem_of_lookup_2 _ 0); by vm_compute|by vm_compute|by vm_compute].
Defined.
Lemma storeReceipt_retries_witness :
  ∃ r s' st', storeReceiptForBallot (λ _, false) alice_cast "b1" "aa" v_new = (r, s') ∧ reconcileStore s' = Some st' ∧
    (res_ok r = true → link st' "p1" "aa" = Some "b1").
Proof.
  destruct (storeReceipt_retries (λ _, false) alice_cast "b1" "aa" v_new (mkMemoryStore None) eq_refl eq_refl)
    as (r & s' & st' & E & Hs & _ & _ & Hr & _).
  by exists r, s', st'.
Defined.
Lemma router_identity_agrees_witness :
  ∃ bid i, deriveBallotIdentity alice_cast = Some (bid, i) ∧
    (i = noop_identity alice "p1" ↔ sha256 (alice +:+ "p1") = sha256 (alice +:+ ":" +:+ "p1")).
Proof.
  destruct (deriveBallotIdentity alice_cast) as [[bid i]|] eqn:E; [|exfalso; revert E; by vm_compute].
  exists bid, i. split; [done|]. destruct (router_identity_agrees alice_cast bid i E) as (_ & _ & _ & H). by apply H.
Defined.
