(* ===== verification/Fabric.v ===== *)
(** domain/state/fabric/shyware.go: the two-list write as a chaincode.  The stub of the
    peer is the class [Stub]: reads see the ledger as it was committed, writes are
    collected in a write set that the peer applies when the invocation succeeded.
    [parse] reads JSON text. *)
From S2P Require Import Prelude GoStd Json Http Tables.

(** ** The stub *)
Class Stub (S : Type) := {
  GetState : string → M S string;
  PutState : string → string → M S unit;
  DelState : string → M S unit;
  GetTxTimestamp : M S Z;
}.
(** What the peer's documentation promises: a read answers with the committed value, the
    empty one when there is none, whatever was written before; a write is added to the
    write set or fails; nothing panics. *)
Class StubLaws (S : Type) `{Stub S} := {
  committed : S → gmap string string;
  written : S → gmap string (option string);
  get_stub k s : ∃ s', GetState k s = (Ok (default "" (committed s !! k)), s') ∧
    committed s' = committed s ∧ written s' = written s;
  put_stub k v s : ∃ r s', PutState k v s = (r, s') ∧ committed s' = committed s ∧
    match r with Ok _ => written s' = <[k := Some v]> (written s) | Fail _ => written s' = written s | Panic => False end;
  del_stub k s : ∃ r s', DelState k s = (r, s') ∧ committed s' = committed s ∧
    match r with Ok _ => written s' = <[k := None]> (written s) | Fail _ => written s' = written s | Panic => False end;
  time_stub s : ∃ r s', GetTxTimestamp s = (r, s') ∧ committed s' = committed s ∧ written s' = written s ∧ r ≠ Panic;
}.
(** The ledger after the write set. *)
Definition apply_writes (w : gmap string (option string)) (l : gmap string string) : gmap string string :=
  merge (λ o v, match o with Some o => o | None => v end) w l.

(** ** Data *)
(** A response of the shim: a payload, or an error. *)
Inductive ShimResponse := Success (payload : json) | Error (e : error).
Record List1Record := mkList1Record { List1Record_SubmissionID : string; List1Record_PayloadCommitment : string }.
Definition List1Record_tags : list string := ["submissionId"; "payloadCommitment"].
#[export] Instance Json_List1Record : Json List1Record := {
  jzero := mkList1Record "" "";
  to_json r := JObj (required "submissionId" (List1Record_SubmissionID r) ++
    required "payloadCommitment" (List1Record_PayloadCommitment r) ++ []);
  of_json := of_object (λ ms,
    x0 ← jfield List1Record_tags ms "submissionId";
    x1 ← jfield List1Record_tags ms "payloadCommitment";
    Some (mkList1Record x0 x1));
}.
Record List2Record := mkList2Record { List2Record_IdentityHash : string }.
#[export] Instance Json_List2Record : Json List2Record := {
  jzero := mkList2Record "";
  to_json r := JObj (required "identityHash" (List2Record_IdentityHash r) ++ []);
  of_json := of_object (λ ms, x0 ← jfield ["identityHash"] ms "identityHash"; Some (mkList2Record x0));
}.
Record PeriodCloseRecord := mkPeriodCloseRecord {
  PeriodCloseRecord_ScopingID : string;
  PeriodCloseRecord_L1MerkleRoot : string;
  PeriodCloseRecord_L2MerkleRoot : string;
  PeriodCloseRecord_Attestation : string;
  PeriodCloseRecord_ClosedAt : Z;
}.
Definition PeriodCloseRecord_tags : list string :=
  ["scopingId"; "l1MerkleRoot"; "l2MerkleRoot"; "attestation"; "closedAt"].
#[export] Instance Json_PeriodCloseRecord : Json PeriodCloseRecord := {
  jzero := mkPeriodCloseRecord "" "" "" "" 0;
  to_json r := JObj (required "scopingId" (PeriodCloseRecord_ScopingID r) ++
    required "l1MerkleRoot" (PeriodCloseRecord_L1MerkleRoot r) ++
    required "l2MerkleRoot" (PeriodCloseRecord_L2MerkleRoot r) ++
    required "attestation" (PeriodCloseRecord_Attestation r) ++
    required "closedAt" (PeriodCloseRecord_ClosedAt r) ++ []);
  of_json := of_object (λ ms,
    x0 ← jfield PeriodCloseRecord_tags ms "scopingId";
    x1 ← jfield PeriodCloseRecord_tags ms "l1MerkleRoot";
    x2 ← jfield PeriodCloseRecord_tags ms "l2MerkleRoot";
    x3 ← jfield PeriodCloseRecord_tags ms "attestation";
    x4 ← jfield PeriodCloseRecord_tags ms "closedAt";
    Some (mkPeriodCloseRecord x0 x1 x2 x3 x4));
}.

(** ** The chaincode *)
Definition L1_key (scopingId submissionId : string) : string := "L1_" +:+ scopingId +:+ "_" +:+ submissionId.
Definition L2_key (scopingId identityHash : string) : string := "L2_" +:+ scopingId +:+ "_" +:+ identityHash.
Definition COUNT_key (scopingId : string) : string := "COUNT_" +:+ scopingId.
Definition ATTEST_key (scopingId : string) : string := "ATTEST_" +:+ scopingId.
Definition refuse (what : string) (args : list farg) : ShimResponse := Error (Errorf what args).
(** [count := 0; if len(b) > 0 { fmt.Sscanf(b, "%d", &count) }]. *)
Definition read_count (countBytes : string) : Z := if str_empty countBytes then 0 else default 0 (scan_d countBytes).

Section chaincode.
Context `{C : Crypto} {S : Type} `{K : Stub S} (parse : string → option json).
#[local] Open Scope http_scope.

(** [v, _ := stub.GetState(k)]: an error counts as no value. *)
Definition peek (k : string) : M S string :=
  r ← try (GetState k);
  mret (match r with Ok v => v | _ => "" end).
Definition count_result (scopingId : string) (count : Z) (more : list (string * json)) : ShimResponse :=
  Success (JObj ([("countMatch", JBool true); ("l1Count", JInt count); ("l2Count", JInt count)] ++ more ++
                 [("scopingId", JStr scopingId)])).

Definition submitTwoListWrite (args : list string) : M S ShimResponse :=
  match args with
  | [scopingId; list1Json; list2Json] =>
      l1 ⇐ need (parse list1Json ≫= unmarshal) (refuse "Invalid list1Json: %s" [FErr json_error]);
      l2 ⇐ need (parse list2Json ≫= unmarshal) (refuse "Invalid list2Json: %s" [FErr json_error]);
      _ ⇐ answer_if (str_empty (List1Record_SubmissionID l1)) (refuse "Rejection predicate: List 1 must have a submissionId" []);
      _ ⇐ answer_if (str_empty (List2Record_IdentityHash l2)) (refuse "Rejection predicate: List 2 must have an identityHash" []);
      _ ⇐ answer_if (bool_decide (fmt_x (sha256 (List1Record_SubmissionID l1)) = List2Record_IdentityHash l2))
        (refuse "Rejection predicate: join key detected between L1 and L2" []);
      existingL2 ← peek (L2_key scopingId (List2Record_IdentityHash l2));
      _ ⇐ answer_if (negb (str_empty existingL2))
        (refuse "Rejection predicate: identity already registered for this scopingId (sybil resistance)" []);
      existingL1 ← peek (L1_key scopingId (List1Record_SubmissionID l1));
      _ ⇐ answer_if (negb (str_empty existingL1))
        (refuse "Rejection predicate: submissionId already committed for this scopingId (replay protection)" []);
      countBytes ← peek (COUNT_key scopingId);
      let count := int64_inc (read_count countBytes) in
      _ ⇐ attempt (PutState (L1_key scopingId (List1Record_SubmissionID l1)) list1Json) Error;
      _ ⇐ attempt (PutState (L2_key scopingId (List2Record_IdentityHash l2)) list2Json) Error;
      _ ⇐ attempt (PutState (COUNT_key scopingId) (fmt_d count)) Error;
      mret (count_result scopingId count [])
  | _ => mret (refuse "Expected: scopingId, list1Json, list2Json" [])
  end.
Definition getCount (args : list string) : M S ShimResponse :=
  match args with
  | [scopingId] =>
      countBytes ← peek (COUNT_key scopingId);
      mret (count_result scopingId (read_count countBytes) [])
  | _ => mret (refuse "Expected: scopingId" [])
  end.
Definition commitPeriodClose (args : list string) : M S ShimResponse :=
  match args with
  | [scopingId; l1MerkleRoot; l2MerkleRoot; attestation] =>
      existing ← peek (ATTEST_key scopingId);
      _ ⇐ answer_if (negb (str_empty existing)) (refuse "Period already closed: %s" [FStr scopingId]);
      ts ← try GetTxTimestamp;
      let record := mkPeriodCloseRecord scopingId l1MerkleRoot l2MerkleRoot attestation (match ts with Ok t => t | _ => 0 end) in
      _ ⇐ attempt (PutState (ATTEST_key scopingId) (marshal record)) Error;
      mret (Success (to_json record))
  | _ => mret (refuse "Expected: scopingId, l1MerkleRoot, l2MerkleRoot, attestation" [])
  end.
Definition rescindTwoListWrite (args : list string) : M S ShimResponse :=
  match args with
  | [scopingId; submissionId; identityHash] =>
      _ ⇐ attempt (DelState (L1_key scopingId submissionId)) (λ e, refuse "Failed to delete L1: %s" [FErr e]);
      _ ⇐ attempt (DelState (L2_key scopingId identityHash)) (λ e, refuse "Failed to delete L2: %s" [FErr e]);
      countBytes ← peek (COUNT_key scopingId);
      let count := read_count countBytes in
      let count := if 0 <? count then count - 1 else count in
      _ ⇐ attempt (PutState (COUNT_key scopingId) (fmt_d count)) Error;
      mret (count_result scopingId count [("rescinded", JBool true)])
  | _ => mret (refuse "Expected: scopingId, submissionId, identityHash" [])
  end.
Definition replaceTwoListWrite (args : list string) : M S ShimResponse :=
  match args with
  | [scopingId; oldSubmissionId; newList1Json; identityHash] =>
      l1 ⇐ need (parse newList1Json ≫= unmarshal) (refuse "Invalid newList1Json: %s" [FErr json_error]);
      _ ⇐ answer_if (str_empty (List1Record_SubmissionID l1)) (refuse "Rejection predicate: new List 1 must have a submissionId" []);
      _ ⇐ answer_if (bool_decide (fmt_x (sha256 (List1Record_SubmissionID l1)) = identityHash))
        (refuse "Rejection predicate: join key detected in replacement L1" []);
      _ ⇐ attempt (DelState (L1_key scopingId oldSubmissionId)) (λ e, refuse "Failed to delete old L1: %s" [FErr e]);
      _ ⇐ attempt (PutState (L1_key scopingId (List1Record_SubmissionID l1)) newList1Json)
        (λ e, refuse "Failed to write new L1: %s" [FErr e]);
      countBytes ← peek (COUNT_key scopingId);
      mret (count_result scopingId (read_count countBytes)
        [("newSubmissionId", JStr (List1Record_SubmissionID l1)); ("replaced", JBool true)])
  | _ => mret (refuse "Expected: scopingId, oldSubmissionId, newList1Json, identityHash" [])
  end.
Definition Invoke (fn : string) (args : list string) : M S ShimResponse :=
  if bool_decide (fn = "submitTwoListWrite") then submitTwoListWrite args
  else if bool_decide (fn = "getCount") then getCount args
  else if bool_decide (fn = "commitPeriodClose") then commitPeriodClose args
  else if bool_decide (fn = "rescindTwoListWrite") then rescindTwoListWrite args
  else if bool_decide (fn = "replaceTwoListWrite") then replaceTwoListWrite args
  else mret (refuse "Unknown function: %s" [FStr fn]).
End chaincode.

(** ** The ledger under invocations
    An invocation changes the ledger by its write set when it succeeds, and not at all
    otherwise. *)
Definition invoked `{C : Crypto} {S} `{L : StubLaws S} (parse : string → option json)
    (fn : string) (args : list string) (l l' : gmap string string) : Prop :=
  ∃ s s' r, committed s = l ∧ written s = ∅ ∧ Invoke parse fn args s = (Ok r, s') ∧
    l' = match r with Success _ => apply_writes (written s') l | Error _ => l end.
