(* ===== verification/FabricTheorems.v ===== *)
(** The chaincode of domain/state/fabric: what each invocation answers and writes, when the
    counter of a scope is the number of its records in either list, and a peer in memory
    on which submissions, replacements and rescissions are run. *)
From S2P Require Import Prelude GoStd Json Sha256 Tables Keys Demo Http Fabric.

(** ** Keys *)
Definition L1_prefix (scopingId : string) : string := "L1_" +:+ scopingId +:+ "_".
Definition L2_prefix (scopingId : string) : string := "L2_" +:+ scopingId +:+ "_".
(** The number of keys of the ledger under a prefix. *)
Definition listed (prefix : string) (l : gmap string string) : nat := count_where (λ k _, has_prefix k prefix) l.
(** A scope whose name has no separator. *)
Fixpoint no_underscore (s : string) : bool :=
  match s with EmptyString => true | String a s' => negb (Ascii.eqb a "_"%char) && no_underscore s' end.

Lemma listed_insert p l k v :
  listed p (<[k := v]> l) = (listed p l + if has_prefix k p && negb (has l k) then 1 else 0)%nat.
Proof. apply count_prefix_insert. Qed.
Lemma listed_delete p l k :
  listed p (delete k l) = (listed p l - if has_prefix k p && has l k then 1 else 0)%nat.
Proof. pose proof (count_prefix_delete p l k). unfold listed. lia. Qed.
Lemma listed_le p l : (listed p l ≤ size l)%nat.
Proof.
  unfold listed. etrans; [by apply (count_where_mono _ (λ _ _, true))|].
  unfold count_where. rewrite <- length_map_to_list. apply List.filter_length_le.
Qed.
(** A key of one plain scope is under the prefix of another only when they are the same. *)
Lemma prefix_underscore p q b :
  no_underscore p = true → no_underscore q = true →
  has_prefix (p +:+ "_" +:+ b) (q +:+ "_") = bool_decide (p = q).
Proof.
  revert q. induction p as [|a p IH]; intros [|c q] Hp Hq; cbn in Hp, Hq.
  - by destruct b.
  - apply andb_true_iff in Hq as [Hc%negb_true_iff%Ascii.eqb_neq _].
    change (has_prefix (String "_" b) (String c (q +:+ "_")) = bool_decide (EmptyString = String c q)).
    cbn [has_prefix]. rewrite decide_False, bool_decide_false; congruence.
  - apply andb_true_iff in Hp as [Hc%negb_true_iff%Ascii.eqb_neq _].
    change (has_prefix (String a (p +:+ "_" +:+ b)) "_" = bool_decide (String a p = EmptyString)).
    cbn [has_prefix]. rewrite decide_False, bool_decide_false; congruence.
  - apply andb_true_iff in Hp as [_ Hp]. apply andb_true_iff in Hq as [_ Hq].
    change (has_prefix (String a (p +:+ "_" +:+ b)) (String c (q +:+ "_")) = bool_decide (String a p = String c q)).
    cbn [has_prefix]. case_decide as Hac; [subst c|symmetry; apply bool_decide_false; congruence].
    rewrite IH by done. apply bool_decide_ext. split; congruence.
Qed.
Lemma prefix_L1_key p q b :
  no_underscore p = true → no_underscore q = true → has_prefix (L1_key p b) (L1_prefix q) = bool_decide (p = q).
Proof. exact (prefix_underscore p q b). Qed.
Lemma prefix_L2_key p q b :
  no_underscore p = true → no_underscore q = true → has_prefix (L2_key p b) (L2_prefix q) = bool_decide (p = q).
Proof. exact (prefix_underscore p q b). Qed.
Lemma L1_in_L2 p q b : has_prefix (L1_key p b) (L2_prefix q) = false.
Proof. done. Qed.
Lemma L2_in_L1 p q b : has_prefix (L2_key p b) (L1_prefix q) = false.
Proof. done. Qed.
Lemma COUNT_in_L1 p q : has_prefix (COUNT_key p) (L1_prefix q) = false.
Proof. done. Qed.
Lemma COUNT_in_L2 p q : has_prefix (COUNT_key p) (L2_prefix q) = false.
Proof. done. Qed.
Lemma ATTEST_in_L1 p q : has_prefix (ATTEST_key p) (L1_prefix q) = false.
Proof. done. Qed.
Lemma ATTEST_in_L2 p q : has_prefix (ATTEST_key p) (L2_prefix q) = false.
Proof. done. Qed.
#[export] Instance COUNT_key_inj : Inj (=) (=) COUNT_key.
Proof. intros p q H. by apply (inj (String.append "COUNT_")) in H. Qed.

(** ** Write sets *)
Lemma apply_writes_empty l : apply_writes ∅ l = l.
Proof. apply map_eq. intros k. unfold apply_writes. by rewrite lookup_merge, lookup_empty; destruct (l !! k). Qed.
Lemma apply_writes_put k v w l : apply_writes (<[k := Some v]> w) l = <[k := v]> (apply_writes w l).
Proof.
  apply map_eq. intros k'. unfold apply_writes. rewrite lookup_merge, !lookup_insert, lookup_merge.
  case_decide; [by destruct (l !! k')|done].
Qed.
Lemma apply_writes_del k w l : apply_writes (<[k := None]> w) l = delete k (apply_writes w l).
Proof.
  apply map_eq. intros k'. unfold apply_writes. rewrite lookup_merge, lookup_insert, lookup_delete, lookup_merge.
  case_decide; [by destruct (l !! k')|done].
Qed.
Create Rewrite HintDb writes.
#[export] Hint Rewrite apply_writes_empty apply_writes_put apply_writes_del : writes.

(** ** Invocations from a committed ledger *)
Section invocations.
Context `{C : Crypto} {S : Type} `{L : StubLaws S} (parse : string → option json).
#[local] Open Scope http_scope.

(** From a ledger [l] and a write set [w] the handler answers without panicking, leaves the
    committed ledger alone, and unless it answers an error [Q] holds of the answer and the
    write set. *)
Definition answers (m : M S ShimResponse) l w (Q : ShimResponse → gmap string (option string) → Prop) : Prop :=
  ∀ s, committed s = l → written s = w → ∃ r s', m s = (Ok r, s') ∧ committed s' = l ∧
    match r with Error _ => True | Success _ => Q r (written s') end.
Implicit Types (l : gmap string string) (w : gmap string (option string)).

Lemma answers_ret r l w Q : Q r w → answers (mret r) l w Q.
Proof. intros HK s <- <-. exists r, s. by destruct r. Qed.
Lemma answers_error e l w Q : answers (mret (Error e)) l w Q.
Proof. intros s <- <-. by exists (Error e), s. Qed.
Lemma answers_if b e k l w Q : (b = false → answers (k tt) l w Q) → answers (or_answer (answer_if b (Error e)) k) l w Q.
Proof. intros HK s Hl Hw. rewrite answer_if_run. destruct b; [by exists (Error e), s|by apply HK]. Qed.
Lemma answers_need {A} (o : option A) e k l w Q :
  (∀ a, o = Some a → answers (k a) l w Q) → answers (or_answer (need o (Error e)) k) l w Q.
Proof. intros HK s Hl Hw. rewrite need_run. destruct o; [by apply HK|by exists (Error e), s]. Qed.
Lemma answers_peek key k l w Q : answers (k (default "" (l !! key))) l w Q → answers (peek key ≫= k) l w Q.
Proof.
  intros HK s Hl Hw. destruct (get_stub key s) as (s' & E & Hl' & Hw').
  unfold peek. rewrite !bind_run. unfold try. rewrite E, mret_run. rewrite Hl in *. apply HK; congruence.
Qed.
Lemma answers_put key v h k l w Q :
  answers (k tt) l (<[key := Some v]> w) Q → answers (or_answer (attempt (PutState key v) (λ e, Error (h e))) k) l w Q.
Proof.
  intros HK s Hl Hw. rewrite attempt_run. destruct (put_stub key v s) as (r & s' & -> & Hl' & Hr).
  destruct r as [[]|e|]; [apply HK; congruence|exists (Error (h e)), s'; split_and!; [done|congruence|done]|done].
Qed.
Lemma answers_del key h k l w Q :
  answers (k tt) l (<[key := None]> w) Q → answers (or_answer (attempt (DelState key) (λ e, Error (h e))) k) l w Q.
Proof.
  intros HK s Hl Hw. rewrite attempt_run. destruct (del_stub key s) as (r & s' & -> & Hl' & Hr).
  destruct r as [[]|e|]; [apply HK; congruence|exists (Error (h e)), s'; split_and!; [done|congruence|done]|done].
Qed.
Lemma answers_time k l w Q : (∀ r, answers (k r) l w Q) → answers (try GetTxTimestamp ≫= k) l w Q.
Proof.
  intros HK s Hl Hw. rewrite bind_run. unfold try. destruct (time_stub s) as (r & s' & -> & Hl' & Hw' & Hp).
  destruct r; [apply HK; congruence..|done].
Qed.
Lemma answers_mono m l w (Q Q' : ShimResponse → gmap string (option string) → Prop) :
  answers m l w Q → (∀ j w', Q (Success j) w' → Q' (Success j) w') → answers m l w Q'.
Proof. intros HK HQ s Hl Hw. destruct (HK s Hl Hw) as (r & s' & ? & ? & Hr). exists r, s'. destruct r; eauto. Qed.
End invocations.

(** Runs a handler; what is left is its answer. *)
Ltac run_handler :=
  repeat lazymatch goal with
  | |- answers (mret (Error _)) _ _ _ => apply answers_error
  | |- answers (mret (refuse _ _)) _ _ _ => apply answers_error
  | |- answers (mret _) _ _ _ => apply answers_ret
  | |- answers (or_answer (answer_if _ _) _) _ _ _ => apply answers_if; intros ?
  | |- answers (or_answer (need _ _) _) _ _ _ => apply answers_need; intros ? ?
  | |- answers (peek _ ≫= _) _ _ _ => apply answers_peek
  | |- answers (or_answer (attempt (PutState _ _) _) _) _ _ _ => apply answers_put
  | |- answers (or_answer (attempt (DelState _) _) _) _ _ _ => apply answers_del
  | |- answers (try GetTxTimestamp ≫= _) _ _ _ => apply answers_time; intros ?
  | |- _ => progress cbv zeta beta
  end.

Section handlers.
Context `{C : Crypto} {S : Type} `{L : StubLaws S} (parse : string → option json).
Implicit Types (l : gmap string string) (w : gmap string (option string)).

(** The counter of a scope. *)
Definition count_of (scopingId : string) l : Z := read_count (default "" (l !! COUNT_key scopingId)).

(** A submission that is accepted carries both identifiers, unlinked, is the first of its
    identity and of its submission, and writes both records and the counter. *)
Definition submitted p list1Json list2Json l (r : ShimResponse) w : Prop :=
  ∃ (l1 : List1Record) (l2 : List2Record), parse list1Json ≫= unmarshal = Some l1 ∧ parse list2Json ≫= unmarshal = Some l2 ∧
    List1Record_SubmissionID l1 ≠ "" ∧ List2Record_IdentityHash l2 ≠ "" ∧
    fmt_x (sha256 (List1Record_SubmissionID l1)) ≠ List2Record_IdentityHash l2 ∧
    default "" (l !! L2_key p (List2Record_IdentityHash l2)) = "" ∧
    default "" (l !! L1_key p (List1Record_SubmissionID l1)) = "" ∧
    r = count_result p (int64_inc (count_of p l)) [] ∧
    w = <[COUNT_key p := Some (fmt_d (int64_inc (count_of p l)))]> (<[L2_key p (List2Record_IdentityHash l2) := Some list2Json]>
          (<[L1_key p (List1Record_SubmissionID l1) := Some list1Json]> ∅)).
Lemma str_empty_negb s : negb (str_empty s) = false → s = "".
Proof. by destruct s. Qed.
Lemma str_empty_nonempty s : str_empty s = false → s ≠ "".
Proof. by destruct s. Qed.
Lemma submit_answers p a b l : answers (submitTwoListWrite (S := S) parse [p; a; b]) l ∅ (submitted p a b l).
Proof.
  unfold submitTwoListWrite. run_handler. eexists _, _.
  split_and!; eauto using str_empty_negb, str_empty_nonempty, bool_decide_eq_false_1.
Qed.
(** Closing a period writes its record once. *)
Lemma close_answers p m1 m2 att l :
  answers (commitPeriodClose (S := S) [p; m1; m2; att]) l ∅ (λ r w,
    default "" (l !! ATTEST_key p) = "" ∧
    ∃ t, let record := mkPeriodCloseRecord p m1 m2 att t in r = Success (to_json record) ∧
      w = <[ATTEST_key p := Some (marshal record)]> ∅).
Proof. unfold commitPeriodClose. run_handler. split; [by apply str_empty_negb|]. by eexists. Qed.
(** A rescission deletes what it is told to, whatever is there. *)
Definition decreased (n : Z) : Z := if 0 <? n then n - 1 else n.
Lemma rescind_answers p sub i l :
  answers (rescindTwoListWrite (S := S) [p; sub; i]) l ∅ (λ r w,
    r = count_result p (decreased (count_of p l)) [("rescinded", JBool true)] ∧
    w = <[COUNT_key p := Some (fmt_d (decreased (count_of p l)))]> (<[L2_key p i := None]> (<[L1_key p sub := None]> ∅))).
Proof. unfold rescindTwoListWrite. run_handler. done. Qed.
Lemma replace_answers p old new i l :
  answers (replaceTwoListWrite (S := S) parse [p; old; new; i]) l ∅ (λ r w,
    ∃ l1 : List1Record, parse new ≫= unmarshal = Some l1 ∧ List1Record_SubmissionID l1 ≠ "" ∧
      fmt_x (sha256 (List1Record_SubmissionID l1)) ≠ i ∧
      r = count_result p (count_of p l) [("newSubmissionId", JStr (List1Record_SubmissionID l1)); ("replaced", JBool true)] ∧
      w = <[L1_key p (List1Record_SubmissionID l1) := Some new]> (<[L1_key p old := None]> ∅)).
Proof.
  unfold replaceTwoListWrite. run_handler. eexists.
  split_and!; eauto using str_empty_nonempty, bool_decide_eq_false_1.
Qed.
Lemma count_answers p l : answers (getCount (S := S) [p]) l ∅ (λ r w, r = count_result p (count_of p l) [] ∧ w = ∅).
Proof. unfold getCount. run_handler. done. Qed.
End handlers.

(** ** The counter and the lists *)
Section counts.
Context `{C : Crypto} {S : Type} `{L : StubLaws S} (parse : string → option json).
Context (parse_empty : parse "" = None).
Implicit Types (l : gmap string string).

Lemma invoked_answers fn args l l' Q :
  answers (Invoke parse fn args) l ∅ Q → invoked parse fn args l l' →
  l' = l ∨ ∃ r w, Q r w ∧ l' = apply_writes w l.
Proof.
  intros HQ (s & s' & r & Hl & Hw & E & ->). destruct (HQ s Hl Hw) as (r0 & s0 & E0 & Hs & Hr).
  rewrite E in E0. injection E0 as <- <-. destruct r; [right; by eexists _, _|by left].
Qed.
(** The invocations under which the lists stay equal, none of which the chaincode checks
    (see [fabric_rescind_unknown], [fabric_replace_unknown], [fabric_scopes_collide]):
    scopes without separator, a rescission of a submission that is there with its
    identity, a replacement of a submission that is there by an identifier that is not. *)
Inductive orderly l : string → list string → Prop :=
  | orderly_submit p a b : no_underscore p = true → orderly l "submitTwoListWrite" [p; a; b]
  | orderly_count p : orderly l "getCount" [p]
  | orderly_close p m1 m2 att : orderly l "commitPeriodClose" [p; m1; m2; att]
  | orderly_rescind p sub i : no_underscore p = true → has l (L1_key p sub) = true → has l (L2_key p i) = true →
      orderly l "rescindTwoListWrite" [p; sub; i]
  | orderly_replace p old new i : no_underscore p = true → has l (L1_key p old) = true →
      (∀ l1 : List1Record, parse new ≫= unmarshal = Some l1 → has (delete (L1_key p old) l) (L1_key p (List1Record_SubmissionID l1)) = false) →
      orderly l "replaceTwoListWrite" [p; old; new; i].
(** Ledgers reached by such invocations while the counters fit. *)
Inductive orderly_ledger : gmap string string → Prop :=
  | orderly_start : orderly_ledger ∅
  | orderly_step l fn args l' : orderly_ledger l → orderly l fn args → Z.of_nat (size l) < 2 ^ 63 - 1 →
      invoked parse fn args l l' → orderly_ledger l'.

(** No value is empty. *)
Definition no_blank l : Prop := map_Forall (λ _ v, v ≠ "") l.
Lemma no_blank_put k v l : v ≠ "" → no_blank l → no_blank (<[k := v]> l).
Proof. intros Hv Hl. by apply map_Forall_insert_2. Qed.
Lemma no_blank_del k l : no_blank l → no_blank (delete k l).
Proof. intros Hl. by apply map_Forall_delete. Qed.
(** No value is empty, and for a plain scope the counter is the length of either list. *)
Record balanced l : Prop := {
  balanced_stored : no_blank l;
  balanced_count p : no_underscore p = true →
    count_of p l = Z.of_nat (listed (L1_prefix p) l) ∧ listed (L2_prefix p) l = listed (L1_prefix p) l;
}.
Lemma parsed_nonempty {A} `{Json A} (text : string) (a : A) : parse text ≫= unmarshal = Some a → text ≠ "".
Proof using parse_empty. intros E ->. by rewrite parse_empty in E. Qed.
Lemma fmt_d_nonempty n : int64_ok n → fmt_d n ≠ "".
Proof. intros Hn E. pose proof (scan_fmt_d n Hn) as Hs. by rewrite E in Hs. Qed.
Lemma read_count_fmt n : int64_ok n → read_count (fmt_d n) = n.
Proof.
  intros Hn. unfold read_count. rewrite scan_fmt_d by done.
  destruct (fmt_d n) eqn:E; [by apply fmt_d_nonempty in E|done].
Qed.
Lemma fresh_key l k : balanced l → default "" (l !! k) = "" → has l k = false.
Proof.
  intros Hb H0. apply has_false. destruct (l !! k) as [v|] eqn:E; [|done].
  by destruct (balanced_stored _ Hb _ _ E).
Qed.
Lemma count_of_put p q n l : int64_ok n →
  count_of q (<[COUNT_key p := fmt_d n]> l) = if bool_decide (p = q) then n else count_of q l.
Proof.
  intros Hn. unfold count_of. case_bool_decide as E; [subst; rewrite lookup_insert_eq; by apply read_count_fmt|].
  rewrite lookup_insert_ne; [done|]. by intros ?%(inj COUNT_key).
Qed.
Lemma count_of_other q k v l : (∀ q, COUNT_key q ≠ k) → count_of q (<[k := v]> l) = count_of q l.
Proof. intros Hk. unfold count_of. by rewrite lookup_insert_ne. Qed.
Lemma count_of_delete q k l : (∀ q, COUNT_key q ≠ k) → count_of q (delete k l) = count_of q l.
Proof. intros Hk. unfold count_of. by rewrite lookup_delete_ne. Qed.

(** *** Each operation keeps the balance *)
Lemma balanced_submit p a b l r w : no_underscore p = true → Z.of_nat (size l) < 2 ^ 63 - 1 →
  balanced l → submitted parse p a b l r w → balanced (apply_writes w l).
Proof using parse_empty.
  intros Hp Hsize Hb (l1 & l2 & Ha & Hc & _ & _ & _ & H2%fresh_key & H1%fresh_key & _ & ->); [|done..].
  destruct (balanced_count _ Hb p Hp) as [Hn _]. pose proof (listed_le (L1_prefix p) l).
  assert (int64_inc (count_of p l) = count_of p l + 1) as ->
    by (unfold int64_inc, int64_add; apply wrap64_id; unfold int64_ok; lia).
  assert (int64_ok (count_of p l + 1)) by (unfold int64_ok; lia).
  autorewrite with writes. constructor.
  - apply no_blank_put; [by apply fmt_d_nonempty|].
    apply no_blank_put; [exact (parsed_nonempty _ _ Hc)|].
    by apply no_blank_put; [exact (parsed_nonempty _ _ Ha)|apply balanced_stored].
  - intros q Hq. destruct (balanced_count _ Hb q Hq) as [Hq1 Hq2].
    rewrite count_of_put, !count_of_other by done.
    rewrite !listed_insert, COUNT_in_L1, COUNT_in_L2, L1_in_L2, L2_in_L1, prefix_L1_key, prefix_L2_key by done.
    rewrite !has_insert, H1, H2, (bool_decide_false (L1_key _ _ = L2_key _ _)) by done.
    case_bool_decide; subst; cbn; lia.
Qed.
Lemma balanced_rescind p sub i l : no_underscore p = true → Z.of_nat (size l) < 2 ^ 63 - 1 →
  has l (L1_key p sub) = true → has l (L2_key p i) = true → balanced l →
  balanced (<[COUNT_key p := fmt_d (decreased (count_of p l))]> (delete (L2_key p i) (delete (L1_key p sub) l))).
Proof.
  intros Hp Hsize H1 H2 Hb. destruct (balanced_count _ Hb p Hp) as [Hn Hm].
  pose proof (listed_le (L1_prefix p) l) as Hle.
  pose proof (count_prefix_delete (L1_prefix p) l (L1_key p sub)) as Hpos.
  rewrite prefix_L1_key, bool_decide_true, H1 in Hpos by done. cbn in Hpos. fold (listed (L1_prefix p) l) in Hpos.
  assert (decreased (count_of p l) = count_of p l - 1) as ->
    by (unfold decreased; destruct (Z.ltb_spec 0 (count_of p l)); lia).
  assert (int64_ok (count_of p l - 1)) by (unfold int64_ok; lia).
  constructor.
  - apply no_blank_put; [by apply fmt_d_nonempty|]. by do 2 apply no_blank_del; apply balanced_stored.
  - intros q Hq. destruct (balanced_count _ Hb q Hq) as [Hq1 Hq2].
    rewrite count_of_put, !count_of_delete by done.
    rewrite !listed_insert, COUNT_in_L1, COUNT_in_L2, !listed_delete, L1_in_L2, L2_in_L1, prefix_L1_key, prefix_L2_key by done.
    rewrite !has_delete, H1, H2, (bool_decide_false (L1_key _ _ = L2_key _ _)) by done.
    case_bool_decide; subst; cbn; lia.
Qed.
Lemma balanced_replace p old sub new l : no_underscore p = true → new ≠ "" →
  has l (L1_key p old) = true → has (delete (L1_key p old) l) (L1_key p sub) = false → balanced l →
  balanced (<[L1_key p sub := new]> (delete (L1_key p old) l)).
Proof.
  intros Hp Hv H1 H2 Hb. constructor.
  - apply no_blank_put; [done|]. by apply no_blank_del, balanced_stored.
  - intros q Hq. destruct (balanced_count _ Hb q Hq) as [Hq1 Hq2].
    pose proof (count_prefix_delete (L1_prefix q) l (L1_key p old)) as Hpos. fold (listed (L1_prefix q) l) in Hpos.
    rewrite count_of_other, count_of_delete by done.
    rewrite !listed_insert, !listed_delete, !L1_in_L2, !prefix_L1_key, H1, H2 in * by done.
    case_bool_decide; cbn in *; lia.
Qed.
Lemma balanced_close p t m1 m2 att l :
  balanced l → balanced (<[ATTEST_key p := marshal (mkPeriodCloseRecord p m1 m2 att t)]> l).
Proof.
  intros Hb. constructor.
  - by apply no_blank_put; [|apply balanced_stored].
  - intros q Hq. destruct (balanced_count _ Hb q Hq) as [Hq1 Hq2]. rewrite count_of_other by done.
    by rewrite !listed_insert, ATTEST_in_L1, ATTEST_in_L2, !Nat.add_0_r.
Qed.
Lemma balanced_step l fn args l' : balanced l → orderly l fn args → Z.of_nat (size l) < 2 ^ 63 - 1 →
  invoked parse fn args l l' → balanced l'.
Proof using parse_empty.
  intros Hb Ho Hsize Hi. destruct Ho as [p a b Hp|p|p m1 m2 att|p sub i Hp H1 H2|p old new i Hp H1 H2].
  - destruct (invoked_answers "submitTwoListWrite" _ _ _ _ (submit_answers parse p a b l) Hi) as [->|(r & w & HQ & ->)]; [done|].
    by eapply balanced_submit.
  - destruct (invoked_answers "getCount" _ _ _ _ (count_answers p l) Hi) as [->|(r & w & [_ ->] & ->)]; [done|].
    by rewrite apply_writes_empty.
  - destruct (invoked_answers "commitPeriodClose" _ _ _ _ (close_answers p m1 m2 att l) Hi) as [->|(r & w & (_ & t & _ & ->) & ->)]; [done|].
    autorewrite with writes. by apply balanced_close.
  - destruct (invoked_answers "rescindTwoListWrite" _ _ _ _ (rescind_answers p sub i l) Hi) as [->|(r & w & [_ ->] & ->)]; [done|].
    autorewrite with writes. by apply balanced_rescind.
  - destruct (invoked_answers "replaceTwoListWrite" _ _ _ _ (replace_answers parse p old new i l) Hi)
      as [->|(r & w & (l1 & Hn & _ & _ & _ & ->) & ->)]; [done|].
    autorewrite with writes. apply balanced_replace; [done|exact (parsed_nonempty _ _ Hn)|done|by apply H2|done].
Qed.
Lemma balanced_ledger l : orderly_ledger l → balanced l.
Proof using parse_empty.
  induction 1 as [|l fn args l' _ IH Ho Hs Hi]; [|by eapply balanced_step]. by constructor.
Qed.
End counts.

(** * Theorems *)
Section theorems.
Context `{C : Crypto} {S : Type} `{L : StubLaws S} (parse : string → option json).

(** C34. Along invocations in scopes without separator, in which a rescission names a
    submission that is there and its identity and a replacement a submission that is there
    and, as its successor, an identifier that is not, the counter of every scope is the number of its records in the
    first list and in the second; the [countMatch] of every answer is then true. *)
Theorem chaincode_counts_match (parse_empty : parse "" = None) (l : gmap string string) (p : string) :
  orderly_ledger parse l → no_underscore p = true →
  count_of p l = Z.of_nat (listed (L1_prefix p) l) ∧ count_of p l = Z.of_nat (listed (L2_prefix p) l).
Proof. intros Hl Hp. destruct (balanced_count _ (balanced_ledger parse parse_empty _ Hl) p Hp) as [H1 ->]. done. Qed.

(** The second submission of an identity in a scope is refused: an accepted one finds no
    record of the identity and leaves one, so the ledger does not change. *)
Theorem chaincode_one_per_identity (l l' : gmap string string) (p a b : string) (r2 : List2Record) (rest : string) :
  parse b ≫= unmarshal = Some r2 → l !! L2_key p (List2Record_IdentityHash r2) = Some rest → rest ≠ "" →
  invoked parse "submitTwoListWrite" [p; a; b] l l' → l' = l.
Proof.
  intros Hb Hr Hne Hi.
  destruct (invoked_answers parse "submitTwoListWrite" _ _ _ _ (submit_answers parse p a b l) Hi) as [->|(r & w & HQ & _)]; [done|].
  destruct HQ as (l1 & l2 & _ & Hb' & _ & _ & _ & H0 & _). rewrite Hb in Hb'. injection Hb' as <-.
  by rewrite Hr in H0.
Qed.

(** A rescission checks nothing: whatever ledger it finds, if it succeeds it lowers a positive
    counter, also when neither record was there. *)
Theorem rescission_unchecked (l l' : gmap string string) (p sub i : string) :
  l !! L1_key p sub = None → l !! L2_key p i = None →
  invoked parse "rescindTwoListWrite" [p; sub; i] l l' →
  l' = l ∨ l' = <[COUNT_key p := fmt_d (decreased (count_of p l))]> l.
Proof.
  intros H1 H2 Hi.
  destruct (invoked_answers parse "rescindTwoListWrite" _ _ _ _ (rescind_answers p sub i l) Hi) as [->|(r & w & [_ ->] & ->)]; [by left|right].
  autorewrite with writes. by rewrite !delete_id by (rewrite ?delete_id; done).
Qed.
End theorems.

(** ** A peer in memory *)
Record Sim := mkSim { sim_ledger : gmap string string; sim_writes : gmap string (option string) }.
#[export] Instance sim_stub : Stub Sim := {
  GetState k := λ s, (Ok (default "" (sim_ledger s !! k)), s);
  PutState k v := λ s, (Ok tt, mkSim (sim_ledger s) (<[k := Some v]> (sim_writes s)));
  DelState k := λ s, (Ok tt, mkSim (sim_ledger s) (<[k := None]> (sim_writes s)));
  GetTxTimestamp := λ s, (Ok 1700000000, s);
}.
#[export, refine] Instance sim_laws : StubLaws Sim := { committed := sim_ledger; written := sim_writes }.
Proof. all: intros; repeat eexists; by eauto. Defined.

(** ** Calls *)
Definition record1 (sub : string) : json := to_json (mkList1Record sub "c").
Definition record2 (i : string) : json := to_json (mkList2Record i).
Definition fabric_parse (text : string) : option json :=
  if bool_decide (text = "r1") then Some (record1 "s1") else if bool_decide (text = "r2") then Some (record1 "s2")
  else if bool_decide (text = "i1") then Some (record2 "h1") else if bool_decide (text = "i2") then Some (record2 "h2")
  else None.
(** The answer of a call, and the ledger after it. *)
Definition call (fn : string) (args : list string) (l : gmap string string) : option ShimResponse * gmap string string :=
  match Invoke fabric_parse fn args (mkSim l ∅) with
  | (Ok (Success j), s) => (Some (Success j), apply_writes (sim_writes s) l)
  | (Ok r, _) => (Some r, l)
  | (_, _) => (None, l)
  end.
Lemma call_invoked fn args l : (call fn args l).1 ≠ None → invoked fabric_parse fn args l (call fn args l).2.
Proof.
  unfold call, invoked. intros H. destruct (Invoke _ fn args (mkSim l ∅)) as [r s] eqn:E.
  exists (mkSim l ∅), s. destruct r as [r|e|]; [exists r|done..]. by destruct r.
Qed.
Definition f1 : gmap string string := (call "submitTwoListWrite" ["a"; "r1"; "i1"] ∅).2.
Definition f2 : gmap string string := (call "rescindTwoListWrite" ["a"; "s1"; "h1"] f1).2.
Definition lists (p : string) (l : gmap string string) : Z * nat * nat :=
  (count_of p l, listed (L1_prefix p) l, listed (L2_prefix p) l).

(** A submission, the same identity again, and a rescission. *)
Example fabric_submit : lists "a" f1 = (1, 1%nat, 1%nat).
Proof. by vm_compute. Qed.
Example fabric_sybil : (call "submitTwoListWrite" ["a"; "r2"; "i1"] f1).2 = f1.
Proof. by vm_compute. Qed.
Example fabric_rescind : lists "a" f2 = (0, 0%nat, 0%nat).
Proof. by vm_compute. Qed.
(** A rescission of a submission and of an identity that are not there lowers the counter;
    the answer still says that the counts match. *)
Example fabric_rescind_unknown :
  lists "a" (call "rescindTwoListWrite" ["a"; "s9"; "h9"] f1).2 = (0, 1%nat, 1%nat) ∧
  (call "rescindTwoListWrite" ["a"; "s9"; "h9"] f1).1 = Some (count_result "a" 0 [("rescinded", JBool true)]).
Proof. by vm_compute. Qed.
(** A replacement of a submission that is not there adds a record to the first list. *)
Example fabric_replace_unknown :
  lists "a" (call "replaceTwoListWrite" ["a"; "s9"; "r2"; "h1"] f1).2 = (1, 2%nat, 1%nat).
Proof. by vm_compute. Qed.
(** Two scopes share their keys when one has a separator. *)
Example fabric_scopes_collide sub : L1_key "a" ("b_" +:+ sub) = L1_key "a_b" sub.
Proof. done. Qed.
(** A closed period takes submissions. *)
Example fabric_closed_open :
  lists "a" (call "submitTwoListWrite" ["a"; "r1"; "i1"] (call "commitPeriodClose" ["a"; "m1"; "m2"; "sig"] ∅).2).2 =
  (1, 1%nat, 1%nat).
Proof. by vm_compute. Qed.

(** ** Witnesses *)
Lemma chaincode_counts_match_witness : count_of "a" f2 = Z.of_nat (listed (L1_prefix "a") f2) ∧
  count_of "a" f2 = Z.of_nat (listed (L2_prefix "a") f2).
Proof.
  apply (chaincode_counts_match fabric_parse); [done| |done].
  apply (orderly_step _ f1 "rescindTwoListWrite" ["a"; "s1"; "h1"]).
  - apply (orderly_step _ ∅ "submitTwoListWrite" ["a"; "r1"; "i1"]); [constructor|by constructor|by vm_compute|].
    by apply (call_invoked "submitTwoListWrite" ["a"; "r1"; "i1"] ∅); vm_compute.
  - by constructor; vm_compute.
  - by vm_compute.
  - by apply (call_invoked "rescindTwoListWrite" ["a"; "s1"; "h1"] f1); vm_compute.
Defined.
Lemma chaincode_one_per_identity_witness : (call "submitTwoListWrite" ["a"; "r2"; "i1"] f1).2 = f1.
Proof.
  apply (chaincode_one_per_identity fabric_parse f1 _ "a" "r2" "i1" (mkList2Record "h1") "i1"); [by vm_compute..|].
  by apply (call_invoked "submitTwoListWrite" ["a"; "r2"; "i1"] f1); vm_compute.
Defined.
Lemma rescission_unchecked_witness : (call "rescindTwoListWrite" ["a"; "s9"; "h9"] f1).2 = f1 ∨
  (call "rescindTwoListWrite" ["a"; "s9"; "h9"] f1).2 = <[COUNT_key "a" := fmt_d (decreased (count_of "a" f1))]> f1.
Proof.
  apply (rescission_unchecked fabric_parse f1 _ "a" "s9" "h9"); [by vm_compute..|].
  by apply (call_invoked "rescindTwoListWrite" ["a"; "s9"; "h9"] f1); vm_compute.
Defined.
