(* ===== verification/Cam.v ===== *)
(** embodiments/shycam: signed liveness proofs of warehouse cameras, the feed of a
    warehouse, and the summary of reserves that reads the lots of the transfer protocol. *)
From S2P Require Import Prelude GoStd Json WireTypes.

(** ** Data (types.go) *)
Record LivenessProof := mkLivenessProof {
  LivenessProof_WarehouseID : string;
  LivenessProof_OperatorID : string;
  LivenessProof_FrameHash : string;
  LivenessProof_StreamRef : string;
  LivenessProof_Timestamp : Z;
  LivenessProof_Signature : gobytes;
}.
#[export] Instance Eta_LivenessProof : Eta LivenessProof := λ p,
  mkLivenessProof (LivenessProof_WarehouseID p) (LivenessProof_OperatorID p) (LivenessProof_FrameHash p)
    (LivenessProof_StreamRef p) (LivenessProof_Timestamp p) (LivenessProof_Signature p).
Definition LivenessProof_tags : list string :=
  ["warehouse_id"; "operator_id"; "frame_hash"; "stream_ref"; "timestamp"; "signature"].
#[export] Instance Json_LivenessProof : Json LivenessProof := {
  jzero := mkLivenessProof "" "" "" "" 0 None;
  to_json p := JObj (required "warehouse_id" (LivenessProof_WarehouseID p) ++
    required "operator_id" (LivenessProof_OperatorID p) ++ required "frame_hash" (LivenessProof_FrameHash p) ++
    required "stream_ref" (LivenessProof_StreamRef p) ++ required "timestamp" (LivenessProof_Timestamp p) ++
    required "signature" (LivenessProof_Signature p) ++ []);
  of_json := of_object (λ ms,
    x0 ← jfield LivenessProof_tags ms "warehouse_id";
    x1 ← jfield LivenessProof_tags ms "operator_id";
    x2 ← jfield LivenessProof_tags ms "frame_hash";
    x3 ← jfield LivenessProof_tags ms "stream_ref";
    x4 ← jfield LivenessProof_tags ms "timestamp";
    x5 ← jfield LivenessProof_tags ms "signature";
    Some (mkLivenessProof x0 x1 x2 x3 x4 x5));
}.
Record LivenessFeed := mkLivenessFeed { LivenessFeed_WarehouseID : string; LivenessFeed_Proofs : list LivenessProof }.
#[export] Instance Eta_LivenessFeed : Eta LivenessFeed := λ f,
  mkLivenessFeed (LivenessFeed_WarehouseID f) (LivenessFeed_Proofs f).
(** A verdict; no reason is the empty one. *)
Record LivenessVerdict := mkLivenessVerdict {
  LivenessVerdict_OK : bool;
  LivenessVerdict_SigValid : bool;
  LivenessVerdict_GapSec : Z;
  LivenessVerdict_Reason : option error;
}.
#[export] Instance Eta_LivenessVerdict : Eta LivenessVerdict := λ v,
  mkLivenessVerdict (LivenessVerdict_OK v) (LivenessVerdict_SigValid v) (LivenessVerdict_GapSec v) (LivenessVerdict_Reason v).
Record ReserveSummary := mkReserveSummary {
  ReserveSummary_AssetID : string;
  ReserveSummary_TotalOnChainQty : Z;
  ReserveSummary_LivenessCurrent : bool;
  ReserveSummary_MaxFeedGapSec : Z;
  ReserveSummary_Underbacked : bool;
}.
#[export] Instance Eta_ReserveSummary : Eta ReserveSummary := λ r,
  mkReserveSummary (ReserveSummary_AssetID r) (ReserveSummary_TotalOnChainQty r) (ReserveSummary_LivenessCurrent r)
    (ReserveSummary_MaxFeedGapSec r) (ReserveSummary_Underbacked r).

(** ** Proofs (attest.go) *)
Definition canonicalProof (p : LivenessProof) : string := marshal (p <| LivenessProof_Signature := None |>).
Section attest.
(** [ed25519.Sign] of the standard library, which panics on a key of another length. *)
Context `{C : Crypto} (ed25519_Sign : string → string → option string).
Definition signProof (p : LivenessProof) (key : string) : option string := ed25519_Sign key (canonicalProof p).
Definition NewLivenessProof (now : Z) (warehouseID operatorID streamRef frameHash privateKey : string) : res LivenessProof :=
  if str_empty warehouseID || str_empty operatorID || str_empty streamRef
  then Fail (Errorf "warehouseID, operatorID, streamRef are required" [])
  else if str_empty frameHash then Fail (Errorf "frameHash required" [])
  else
    let p := mkLivenessProof warehouseID operatorID (hex_EncodeToString frameHash) streamRef now None in
    match signProof p privateKey with
    | None => Panic
    | Some sig => Ok (p <| LivenessProof_Signature := Some sig |>)
    end.
Definition HashFrame (frameBytes : string) : string := sha256 frameBytes.
Definition HashIntakeRecording (recordingBytes : string) : string := hex_EncodeToString (sha256 recordingBytes).
End attest.

(** ** Feeds (feed.go) *)
(** [sort.Slice]: some permutation in which nothing comes before what is less than it;
    the order of equals is left to the library. *)
Class SortSlice := sort_slice : ∀ {A}, (A → A → bool) → list A → list A.
Definition ordered {A} (less : A → A → bool) (l : list A) : Prop :=
  ∀ i j x y, l !! i = Some x → l !! j = Some y → (i < j)%nat → less y x = false.
Class SortSliceLaws `(SortSlice) : Prop := {
  sort_slice_perm {A} (less : A → A → bool) l : sort_slice less l ≡ₚ l;
  sort_slice_ordered {A} (key : A → Z) l : ordered (λ a b, key b <? key a) (sort_slice (λ a b, key b <? key a) l);
}.

Definition NewFeed (warehouseID : string) : LivenessFeed := mkLivenessFeed warehouseID [].
Definition Append `{SortSlice} (p : LivenessProof) : M LivenessFeed unit :=
  wid ← gets LivenessFeed_WarehouseID;
  fail_if (negb (bool_decide (LivenessProof_WarehouseID p = wid)))
    (Errorf "proof warehouse_id %s does not match feed warehouse_id %s" [FStr (LivenessProof_WarehouseID p); FStr wid]) ;;
  modify (λ f, f <| LivenessFeed_Proofs ::= λ ps, ps ++ [p] |>) ;;
  modify (λ f, f <| LivenessFeed_Proofs ::= sort_slice (λ a b, LivenessProof_Timestamp b <? LivenessProof_Timestamp a) |>).
Definition Latest (f : LivenessFeed) : option LivenessProof := head (LivenessFeed_Proofs f).
Definition Since (f : LivenessFeed) (unixSec : Z) : list LivenessProof :=
  List.filter (λ p, unixSec <? LivenessProof_Timestamp p) (LivenessFeed_Proofs f).
Definition GapSeconds (f : LivenessFeed) (nowUnix : Z) : Z :=
  match Latest f with None => -1 | Some latest => int64_sub nowUnix (LivenessProof_Timestamp latest) end.

(** ** Verification (verify.go); [None] is the panic of [ed25519.Verify] *)
Section verify.
Context `{C : Crypto}.
Definition VerifyLiveness (p : LivenessProof) (operatorPubKey : string) : option LivenessVerdict :=
  sigValid ← ed25519_try operatorPubKey (canonicalProof p) (default "" (LivenessProof_Signature p));
  Some (if (sigValid : bool) then mkLivenessVerdict true true 0 None
        else mkLivenessVerdict false false 0 (Some (Errorf "signature invalid — proof not signed by registered operator key" []))).
Definition VerifyFeedFreshness (feed : LivenessFeed) (nowUnix staleSec : Z) (operatorPubKey : string) : option LivenessVerdict :=
  match LivenessFeed_Proofs feed with
  | [] => Some (mkLivenessVerdict false false 0
      (Some (Errorf "no liveness proofs published for warehouse %s" [FStr (LivenessFeed_WarehouseID feed)])))
  | latest :: _ =>
      let gap := int64_sub nowUnix (LivenessProof_Timestamp latest) in
      v ← VerifyLiveness latest operatorPubKey;
      let v := v <| LivenessVerdict_GapSec := gap |> in
      Some (if LivenessVerdict_OK v && (staleSec <? gap)
            then v <| LivenessVerdict_OK := false |>
                   <| LivenessVerdict_Reason := Some (Errorf "liveness feed stale: last proof %ds ago, threshold %ds" [FInt gap; FInt staleSec]) |>
            else v)
  end.

Context (assetID : string) (feeds : gmap string LivenessFeed) (operatorKeys : gmap string string) (nowUnix staleSec : Z).
(** A lot that counts. *)
Definition counted_lot (lot : IntakeLotRecord) : bool :=
  negb (negb (bool_decide (IntakeLotRecord_AssetID lot = assetID)) || bool_decide (IntakeLotRecord_Status lot = "exhausted")).
Definition not_live (s : ReserveSummary) : ReserveSummary :=
  s <| ReserveSummary_LivenessCurrent := false |> <| ReserveSummary_Underbacked := true |>.
(** The feed of a lot's warehouse, under the key of the lot's operator. *)
Definition check_feed (lot : IntakeLotRecord) (s : ReserveSummary) : option ReserveSummary :=
  match feeds !! IntakeLotRecord_WarehouseID lot with
  | None => Some (not_live s)
  | Some feed =>
      match operatorKeys !! IntakeLotRecord_OperatorID lot with
      | None => Some (not_live s)
      | Some pubKey =>
          v ← VerifyFeedFreshness feed nowUnix staleSec pubKey;
          let s := if ReserveSummary_MaxFeedGapSec s <? LivenessVerdict_GapSec v
                   then s <| ReserveSummary_MaxFeedGapSec := LivenessVerdict_GapSec v |> else s in
          Some (if LivenessVerdict_OK v then s else not_live s)
      end
  end.
Fixpoint summarise_on (lots : list IntakeLotRecord) (seen : gset string) (s : ReserveSummary) : option ReserveSummary :=
  match lots with
  | [] => Some s
  | lot :: lots =>
      if negb (counted_lot lot) then summarise_on lots seen s
      else
        let s := s <| ReserveSummary_TotalOnChainQty ::= λ q, int64_add q (IntakeLotRecord_RemainingQuantity lot) |> in
        if bool_decide (IntakeLotRecord_WarehouseID lot ∈ seen) then summarise_on lots seen s
        else s ← check_feed lot s; summarise_on lots ({[IntakeLotRecord_WarehouseID lot]} ∪ seen) s
  end.
Definition SummariseLots (lots : list IntakeLotRecord) : option ReserveSummary :=
  summarise_on lots ∅ (mkReserveSummary assetID 0 true 0 false).
End verify.
