(* ===== verification/CamTheorems.v ===== *)
(** What a customer of embodiments/shycam can rely on: a proof verifies under the key that
    made it, a feed is newest first, and the summary is current exactly when the first lot
    of every warehouse is watched; and what the summary does not look at. *)
From S2P Require Import Prelude GoStd Json Sha256 WireTypes Cam.

(** ** Proofs *)
Lemma canonicalProof_signature p sig : canonicalProof (p <| LivenessProof_Signature := sig |>) = canonicalProof p.
Proof. by destruct p. Qed.
Section proofs.
Context `{C : Crypto} (ed25519_Sign : string → string → option string).

(** A proof that was made verifies under the public key of its private key. *)
Theorem liveness_roundtrip now wid oid stream frame (priv pub : string) p :
  (∀ m sig, ed25519_Sign priv m = Some sig → ed25519_Verify pub m sig = true) → String.length pub = 32%nat →
  NewLivenessProof ed25519_Sign now wid oid stream frame priv = Ok p →
  VerifyLiveness p pub = Some (mkLivenessVerdict true true 0 None).
Proof.
  intros Hsig Hlen H. unfold NewLivenessProof, signProof in H.
  destruct (_ || _); [done|]. destruct (str_empty frame); [done|].
  destruct (ed25519_Sign priv _) as [sig|] eqn:Es; [|done]. injection H as <-.
  unfold VerifyLiveness, ed25519_try. rewrite canonicalProof_signature, Hlen. cbn [LivenessProof_Signature].
  fields. change (default "" (Some sig)) with sig. apply Hsig in Es. by rewrite Es.
Qed.
End proofs.

(** ** Feeds *)
Section feeds.
Context `{L : SortSliceLaws}.
(** Feeds as [NewFeed] and [Append] make them. *)
Inductive feed_of (wid : string) : LivenessFeed → Prop :=
  | feed_new : feed_of wid (NewFeed wid)
  | feed_append f p r f' : feed_of wid f → Append p f = (r, f') → feed_of wid f'.
Definition newest_first (f : LivenessFeed) : Prop :=
  ∀ i j p q, LivenessFeed_Proofs f !! i = Some p → LivenessFeed_Proofs f !! j = Some q → (i < j)%nat →
  LivenessProof_Timestamp q ≤ LivenessProof_Timestamp p.
Lemma Append_run p f : Append p f =
  if bool_decide (LivenessProof_WarehouseID p = LivenessFeed_WarehouseID f)
  then (Ok tt, mkLivenessFeed (LivenessFeed_WarehouseID f)
    (sort_slice (λ a b, LivenessProof_Timestamp b <? LivenessProof_Timestamp a) (LivenessFeed_Proofs f ++ [p])))
  else (Fail (Errorf "proof warehouse_id %s does not match feed warehouse_id %s"
    [FStr (LivenessProof_WarehouseID p); FStr (LivenessFeed_WarehouseID f)]), f).
Proof. unfold Append. mrun. by case_bool_decide. Qed.

(** A feed holds proofs of its warehouse only and keeps them newest first. *)
Lemma feed_sound wid f : feed_of wid f →
  LivenessFeed_WarehouseID f = wid ∧ newest_first f ∧
  Forall (λ p, LivenessProof_WarehouseID p = wid) (LivenessFeed_Proofs f).
Proof.
  induction 1 as [|f p r f' _ (Hw & Hs & Hf) E].
  { split_and!; [done| |by constructor]. by intros [|i] j p q Hi. }
  rewrite Append_run in E. case_bool_decide as Hp; injection E as <- <-; [|by split_and!].
  cbn. split_and!; [done| |].
  - intros i j x y Hi Hj Hij. pose proof (sort_slice_ordered LivenessProof_Timestamp _ i j x y Hi Hj Hij) as Ho.
    cbn in Ho. lia.
  - rewrite (sort_slice_perm _). apply Forall_app. split; [done|]. constructor; [congruence|done].
Qed.
(** Nothing that was appended is lost. *)
Lemma Append_keeps p f f' : Append p f = (Ok tt, f') → LivenessFeed_Proofs f' ≡ₚ p :: LivenessFeed_Proofs f.
Proof.
  rewrite Append_run. case_bool_decide; [|done]. intros [= <-]. cbn.
  by rewrite (sort_slice_perm _), (Permutation_app_comm _ [p]).
Qed.
(** The latest proof of a feed is as new as any, and [Since] answers every newer proof. *)
Theorem feed_latest wid f p : feed_of wid f → Latest f = Some p →
  Forall (λ q, LivenessProof_Timestamp q ≤ LivenessProof_Timestamp p) (LivenessFeed_Proofs f) ∧
  (∀ t, LivenessProof_Timestamp p ≤ t → Since f t = []).
Proof.
  intros (_ & Hs & _)%feed_sound Hp.
  assert (Forall (λ q, LivenessProof_Timestamp q ≤ LivenessProof_Timestamp p) (LivenessFeed_Proofs f)) as Hall.
  { apply Forall_lookup. intros [|i] q Hq; unfold Latest in Hp; rewrite head_lookup in Hp.
    - rewrite Hp in Hq. injection Hq as <-. done.
    - apply (Hs 0%nat (Datatypes.S i) p q Hp Hq). lia. }
  split; [done|]. intros t Ht. unfold Since. clear Hp Hs. induction Hall as [|q l Hq _ IH]; [done|]. cbn.
  destruct (Z.ltb_spec t (LivenessProof_Timestamp q)); [lia|done].
Qed.
End feeds.

(** ** Freshness *)
Section summary.
Context `{C : Crypto}.

(** What a feed needs to be current: a newest proof with a valid signature over itself that
    is not older than the threshold, in 64-bit arithmetic. *)
Definition watched (feed : LivenessFeed) (now stale : Z) (pub : string) : Prop :=
  ∃ p ps, LivenessFeed_Proofs feed = p :: ps ∧
    ed25519_Verify pub (canonicalProof p) (default "" (LivenessProof_Signature p)) = true ∧
    int64_sub now (LivenessProof_Timestamp p) ≤ stale.
Lemma VerifyFeedFreshness_spec feed now stale pub v :
  VerifyFeedFreshness feed now stale pub = Some v → (LivenessVerdict_OK v = true ↔ watched feed now stale pub).
Proof.
  unfold VerifyFeedFreshness, watched. destruct (LivenessFeed_Proofs feed) as [|p ps].
  { intros [= <-]. cbn. split; [done|by intros (?&?&?&_)]. }
  unfold VerifyLiveness. destruct (ed25519_try _ _ _) as [b|] eqn:E; [|done].
  apply ed25519_try_Some in E. cbn. intros [= <-]. destruct b; cbn.
  - destruct (Z.ltb_spec stale (int64_sub now (LivenessProof_Timestamp p))); cbn; split; [done| |by eauto 10|done].
    intros (p' & ps' & [= <- <-] & _ & ?). lia.
  - split; [done|]. intros (p' & ps' & [= <- <-] & Hv & _). exact (eq_trans E Hv).
Qed.
(** A panic needs a key of the wrong length. *)
Lemma VerifyFeedFreshness_total feed now stale pub :
  String.length pub = 32%nat → is_Some (VerifyFeedFreshness feed now stale pub).
Proof.
  intros Hl. unfold VerifyFeedFreshness. destruct (LivenessFeed_Proofs feed) as [|p ps]; [by eexists|].
  unfold VerifyLiveness, ed25519_try. rewrite Hl. by eexists.
Qed.

(** ** The summary *)
Context (assetID : string) (feeds : gmap string LivenessFeed) (operatorKeys : gmap string string) (now stale : Z).
#[local] Abbreviation check_feed := (check_feed feeds operatorKeys now stale).
#[local] Abbreviation summarise_on := (summarise_on assetID feeds operatorKeys now stale).

Definition lot_watched (lot : IntakeLotRecord) : Prop :=
  ∃ feed pub, feeds !! IntakeLotRecord_WarehouseID lot = Some feed ∧
    operatorKeys !! IntakeLotRecord_OperatorID lot = Some pub ∧ watched feed now stale pub.
(** The first lot of each warehouse that was not seen. *)
Fixpoint firsts (lots : list IntakeLotRecord) (seen : gset string) : list IntakeLotRecord :=
  match lots with
  | [] => []
  | lot :: lots =>
      if negb (counted_lot assetID lot) then firsts lots seen
      else if bool_decide (IntakeLotRecord_WarehouseID lot ∈ seen) then firsts lots seen
      else lot :: firsts lots ({[IntakeLotRecord_WarehouseID lot]} ∪ seen)
  end.
Definition consistent (s : ReserveSummary) : Prop :=
  ReserveSummary_Underbacked s = negb (ReserveSummary_LivenessCurrent s).

Lemma check_feed_spec lot s s' : check_feed lot s = Some s' → consistent s →
  consistent s' ∧ ReserveSummary_TotalOnChainQty s' = ReserveSummary_TotalOnChainQty s ∧
  (ReserveSummary_LivenessCurrent s' = true ↔ ReserveSummary_LivenessCurrent s = true ∧ lot_watched lot).
Proof.
  unfold Cam.check_feed, lot_watched, consistent. intros H Hc.
  destruct (feeds !! _) as [feed|]; [|injection H as <-; split_and!; [done..|]; naive_solver].
  destruct (operatorKeys !! _) as [pub|]; [|injection H as <-; split_and!; [done..|]; naive_solver].
  destruct (VerifyFeedFreshness _ _ _ _) as [v|] eqn:E; [|done]. apply VerifyFeedFreshness_spec in E.
  cbn [mbind option_bind] in H. injection H as <-.
  destruct (LivenessVerdict_OK v); case_match; cbn; (split_and!; [done..|]); naive_solver.
Qed.
Lemma summarise_on_spec lots seen s s' : summarise_on lots seen s = Some s' → consistent s →
  consistent s' ∧
  ReserveSummary_TotalOnChainQty s' = foldl (λ q lot, int64_add q (IntakeLotRecord_RemainingQuantity lot))
    (ReserveSummary_TotalOnChainQty s) (List.filter (counted_lot assetID) lots) ∧
  (ReserveSummary_LivenessCurrent s' = true ↔ ReserveSummary_LivenessCurrent s = true ∧ Forall lot_watched (firsts lots seen)).
Proof.
  revert seen s. induction lots as [|lot lots IH]; intros seen s H Hc; cbn in H |- *.
  { injection H as <-. do 2 (split; [done|]). rewrite Forall_nil. tauto. }
  destruct (counted_lot assetID lot); cbn in H |- *; [|by apply IH].
  case_bool_decide; [by apply IH in H|].
  destruct (check_feed lot _) as [s1|] eqn:E; [|done]. cbn in H.
  apply check_feed_spec in E as (Hc1 & Ht & Hl); [|done]. apply IH in H as (Hc2 & Ht2 & Hl2); [|done].
  rewrite Ht2, Ht, Hl2, Hl, Forall_cons. do 2 (split; [done|]). cbn. tauto.
Qed.
Lemma firsts_elem lots seen lot : lot ∈ firsts lots seen ↔
  ∃ l1 l2, lots = l1 ++ lot :: l2 ∧ counted_lot assetID lot = true ∧ IntakeLotRecord_WarehouseID lot ∉ seen ∧
    Forall (λ l, counted_lot assetID l = true → IntakeLotRecord_WarehouseID l ≠ IntakeLotRecord_WarehouseID lot) l1.
Proof.
  revert seen. induction lots as [|x lots IH]; intros seen; cbn.
  { split; [by intros ?%elem_of_nil|by intros ([|] & ? & ? & _)]. }
  assert (∀ l2, x :: lots = [] ++ lot :: l2 ↔ lot = x ∧ l2 = lots) as Hnil by naive_solver.
  destruct (counted_lot assetID x) eqn:Ex; cbn; [case_bool_decide as Hs|].
  - rewrite IH. split.
    + intros (l1 & l2 & -> & Hc & Hn & Hf). exists (x :: l1), l2. split_and!; [done..|].
      constructor; [|done]. congruence.
    + intros ([|y l1] & l2 & [= <- ->] & Hc & Hn & Hf); [done|]. apply Forall_cons in Hf as [_ Hf]. eauto 10.
  - rewrite elem_of_cons, IH. split.
    + intros [->|(l1 & l2 & -> & Hc & Hn & Hf)]; [by exists [], lots|].
      exists (x :: l1), l2. split_and!; [done..|set_solver|]. constructor; [|done]. set_solver.
    + intros ([|y l1] & l2 & [= <- ->] & Hc & Hn & Hf); [by left|right].
      apply Forall_cons in Hf as [Hx Hf]. exists l1, l2. specialize (Hx Ex). set_solver.
  - rewrite IH. split.
    + intros (l1 & l2 & -> & Hc & Hn & Hf). exists (x :: l1), l2. split_and!; [done..|].
      constructor; [|done]. congruence.
    + intros ([|y l1] & l2 & [= <- ->] & Hc & Hn & Hf); [congruence|]. apply Forall_cons in Hf as [_ Hf]. eauto 10.
Qed.
End summary.

Section theorems.
Context `{C : Crypto}.
(** C39. The summary of an asset adds up what is left of its lots that are not exhausted, as a
    64-bit integer; it is current, and then not underbacked, exactly when for the first such
    lot of every warehouse there is a feed whose newest proof verifies under the key of that
    lot's operator and is not older than the threshold. *)
Theorem SummariseLots_spec assetID feeds operatorKeys now stale lots r :
  SummariseLots assetID feeds operatorKeys now stale lots = Some r →
  ReserveSummary_TotalOnChainQty r =
    foldl (λ q lot, int64_add q (IntakeLotRecord_RemainingQuantity lot)) 0 (List.filter (counted_lot assetID) lots) ∧
  ReserveSummary_Underbacked r = negb (ReserveSummary_LivenessCurrent r) ∧
  (ReserveSummary_LivenessCurrent r = true ↔
    ∀ l1 lot l2, lots = l1 ++ lot :: l2 → counted_lot assetID lot = true →
      Forall (λ l, counted_lot assetID l = true → IntakeLotRecord_WarehouseID l ≠ IntakeLotRecord_WarehouseID lot) l1 →
      lot_watched feeds operatorKeys now stale lot).
Proof.
  intros (Hc & Ht & Hl)%summarise_on_spec; [|done]. split_and!; [done..|]. rewrite Hl, Forall_forall.
  split; [intros [_ H] l1 lot l2 -> ? ?; apply H, firsts_elem; set_solver|].
  intros H. split; [done|]. intros lot (l1 & l2 & ? & ? & _ & ?)%firsts_elem. eauto.
Qed.
(** The verdict on a feed depends on its newest proof and the key alone: not on the
    warehouse of the feed, nor does it compare it with the one in the proof. *)
Theorem freshness_ignores_warehouse (wid : string) feed now stale pub :
  LivenessFeed_Proofs feed ≠ [] →
  VerifyFeedFreshness (feed <| LivenessFeed_WarehouseID := wid |>) now stale pub = VerifyFeedFreshness feed now stale pub.
Proof. unfold VerifyFeedFreshness. destruct feed as [w [|p ps]]; by cbn. Qed.
(** A proof dated in the future is never stale. *)
Theorem future_proof_fresh feed p ps now stale pub v :
  LivenessFeed_Proofs feed = p :: ps → 0 ≤ now ≤ LivenessProof_Timestamp p → LivenessProof_Timestamp p < 2 ^ 63 → 0 ≤ stale →
  VerifyFeedFreshness feed now stale pub = Some v → LivenessVerdict_OK v = LivenessVerdict_SigValid v.
Proof.
  intros Hp Hn Ht Hs. unfold VerifyFeedFreshness. rewrite Hp. unfold int64_sub. rewrite wrap64_id by (unfold int64_ok; lia).
  destruct (VerifyLiveness p pub) as [w|] eqn:E; [|done]. cbn [mbind option_bind]. intros [= <-].
  assert (LivenessVerdict_OK w = LivenessVerdict_SigValid w) as Hw.
  { unfold VerifyLiveness in E. destruct (ed25519_try _ _ _) as [[]|]; [by injection E as <-..|done]. }
  fields. destruct (Z.ltb_spec stale (now - LivenessProof_Timestamp p)); [lia|]. rewrite andb_false_r. fields. done.
Qed.
End theorems.

(** ** A warehouse *)
#[local] Existing Instance demo_crypto.
Definition cam_key : string := "0123456789abcdef0123456789abcdef".
Definition cam_sign (key m : string) : option string := Some (demo_sign key m).
Definition cam_proof (t : Z) (wid : string) : LivenessProof :=
  match NewLivenessProof cam_sign t wid "op" "stream" "frame" cam_key with Ok p => p | _ => jzero end.
Definition cam_feed (wid : string) (p : LivenessProof) : LivenessFeed := mkLivenessFeed wid [p].
Definition cam_lot (wid op : string) (q : Z) : IntakeLotRecord :=
  jzero <| IntakeLotRecord_AssetID := "silo" |> <| IntakeLotRecord_WarehouseID := wid |>
        <| IntakeLotRecord_OperatorID := op |> <| IntakeLotRecord_RemainingQuantity := q |>.
Definition summary_of (p : LivenessProof) (now : Z) (lots : list IntakeLotRecord) : option (Z * bool * Z) :=
  (λ r, (ReserveSummary_TotalOnChainQty r, ReserveSummary_LivenessCurrent r, ReserveSummary_MaxFeedGapSec r)) <$>
  SummariseLots "silo" {["w" := cam_feed "w" p]} {["op" := cam_key]} now 60 lots.
Example cam_fresh : summary_of (cam_proof 100 "w") 130 [cam_lot "w" "op" 5; cam_lot "w" "op" 7] = Some (12, true, 30).
Proof. by vm_compute. Qed.
Example cam_stale : summary_of (cam_proof 100 "w") 161 [cam_lot "w" "op" 5] = Some (5, false, 61).
Proof. by vm_compute. Qed.
(** A proof of another warehouse, a second operator without a key in the same warehouse,
    and a timestamp so far in the past that the gap wraps around all pass as current. *)
Example cam_other_warehouse : summary_of (cam_proof 100 "elsewhere") 130 [cam_lot "w" "op" 5] = Some (5, true, 30).
Proof. by vm_compute. Qed.
Example cam_second_operator : summary_of (cam_proof 100 "w") 130 [cam_lot "w" "op" 5; cam_lot "w" "nobody" 7] = Some (12, true, 30).
Proof. by vm_compute. Qed.
Example cam_gap_wraps : summary_of (cam_proof (- 2 ^ 63) "w") 130 [cam_lot "w" "op" 5] = Some (5, true, 0).
Proof. by vm_compute. Qed.

(** A sort that keeps the laws. *)
Definition not_after {A} (less : A → A → bool) (a b : A) : Prop := less b a = false.
#[export] Instance not_after_dec {A} (less : A → A → bool) : RelDecision (not_after less).
Proof. intros a b. unfold not_after. apply _. Defined.
#[export] Instance merge_sort_slice : SortSlice := λ A less l, merge_sort (not_after less) l.
#[export] Instance merge_sort_slice_laws : SortSliceLaws merge_sort_slice.
Proof.
  constructor; [intros; apply merge_sort_Permutation|]. intros A key l.
  set (R := not_after (λ a b : A, key b <? key a)).
  assert (Hrefl : ∀ a b, R a b ↔ key b ≤ key a) by (intros a b; unfold R, not_after; lia).
  assert (Total R) by (intros a b; rewrite !Hrefl; lia).
  assert (Transitive R) by (intros a b c; rewrite !Hrefl; lia).
  assert (StronglySorted R (merge_sort R l)) as Hs by (apply StronglySorted_merge_sort; apply _).
  change (ordered (λ a b, key b <? key a) (merge_sort R l)).
  revert Hs. generalize (merge_sort R l). intros k Hs. induction Hs as [|x k Hs IH Hx]; intros [|i] [|j] a b Ha Hb Hij; try done; try lia.
  - injection Ha as <-. rewrite Forall_lookup in Hx. apply (Hx j b) in Hb. exact Hb.
  - apply (IH i j a b Ha Hb). lia.
Qed.
Example cam_feed_sorted :
  LivenessProof_Timestamp <$> LivenessFeed_Proofs (Append (cam_proof 5 "w") (Append (cam_proof 9 "w") (Append (cam_proof 7 "w") (NewFeed "w")).2).2).2 =
  [9; 7; 5].
Proof. by vm_compute. Qed.

(** *** Witnesses *)
Lemma liveness_roundtrip_witness : VerifyLiveness (cam_proof 100 "w") cam_key = Some (mkLivenessVerdict true true 0 None).
Proof.
  apply (liveness_roundtrip cam_sign 100 "w" "op" "stream" "frame" cam_key cam_key); [|done|by vm_compute].
  intros m sig [= <-]. by apply bool_decide_eq_true.
Defined.
Lemma SummariseLots_spec_witness :
  lot_watched {["w" := cam_feed "w" (cam_proof 100 "w")]} {["op" := cam_key]} 130 60 (cam_lot "w" "op" 5).
Proof.
  eapply (SummariseLots_spec "silo" {["w" := cam_feed "w" (cam_proof 100 "w")]} {["op" := cam_key]} 130 60
    [cam_lot "w" "op" 5; cam_lot "w" "op" 7]) with (l1 := []); [by vm_compute|by vm_compute|done|by vm_compute|done].
Defined.
