(* ===== verification/WireApi.v ===== *)
(** The HTTP client of a CometBFT node (api/rpc/client.go and its copy in
    embodiments/shywire/api/rpc) and the API in front of the transfer protocol
    (embodiments/shywire/api/server/router.go).  [Transport] is [http.Client]: a request
    that yields a response, whose body is then read. *)
From S2P Require Import Prelude GoStd Json WireTypes WireTx WireState WireApp WireTheorems Http Router.
From S2P Require WireDemo.

(** ** net/url *)
Definition unreserved (n : N) : bool :=
  ((48 <=? n) && (n <=? 57) || (65 <=? n) && (n <=? 90) || (97 <=? n) && (n <=? 122) ||
   (n =? 45) || (n =? 46) || (n =? 95) || (n =? 126))%N.
(** An upper-case hex digit. *)
Definition HEX_digit (n : N) : ascii := if (n <? 10)%N then ascii_of_N (48 + n) else ascii_of_N (55 + n).
(** [url.QueryEscape]: unreserved bytes as they are, a blank as a plus, others in hex. *)
Fixpoint QueryEscape (s : string) : string :=
  match s with
  | EmptyString => EmptyString
  | String c s' =>
      let n := N_of_ascii c in
      if unreserved n then String c (QueryEscape s')
      else if (n =? 32)%N then String "+" (QueryEscape s')
      else String "%" (String (HEX_digit (n / 16)) (String (HEX_digit (n mod 16)) (QueryEscape s')))
  end.
(** [url.QueryUnescape], as the node reads a query. *)
Fixpoint QueryUnescape (s : string) : option string :=
  match s with
  | EmptyString => Some EmptyString
  | String "%" (String a (String b s')) =>
      x ← hex_value a; y ← hex_value b; r ← QueryUnescape s'; Some (String (ascii_of_N (16 * x + y)) r)
  | String "%" _ => None
  | String c s' => r ← QueryUnescape s'; Some (String (if Ascii.eqb c "+"%char then " "%char else c) r)
  end.
(** [strings.TrimRight(s, "/")]. *)
Fixpoint TrimRight_slash (s : string) : string :=
  match s with
  | EmptyString => EmptyString
  | String a s' =>
      match TrimRight_slash s' with
      | EmptyString => if Ascii.eqb a "/"%char then EmptyString else String a EmptyString
      | t => String a t
      end
  end.

(** ** The client *)
Class Transport (N Body : Type) := { Get : string → M N Body; ReadAll : Body → M N string }.
Record AbciResponse := mkAbciResponse { AbciResponse_Code : Z; AbciResponse_Log : string; AbciResponse_Value : string }.
Definition AbciResponse_tags : list string := ["code"; "log"; "value"].
#[export] Instance Json_AbciResponse : Json AbciResponse := {
  jzero := mkAbciResponse 0 "" "";
  to_json r := JObj (required "code" (AbciResponse_Code r) ++ required "log" (AbciResponse_Log r) ++
    required "value" (AbciResponse_Value r) ++ []);
  of_json := of_object (λ ms,
    x0 ← jfield AbciResponse_tags ms "code";
    x1 ← jfield AbciResponse_tags ms "log";
    x2 ← jfield AbciResponse_tags ms "value";
    Some (mkAbciResponse x0 x1 x2));
}.
Record AbciResult := mkAbciResult { AbciResult_Response : AbciResponse }.
#[export] Instance Json_AbciResult : Json AbciResult := {
  jzero := mkAbciResult jzero;
  to_json r := JObj (required "response" (AbciResult_Response r) ++ []);
  of_json := of_object (λ ms, x0 ← jfield ["response"] ms "response"; Some (mkAbciResult x0));
}.
Record AbciAnswer := mkAbciAnswer { AbciAnswer_Result : AbciResult }.
#[export] Instance Json_AbciAnswer : Json AbciAnswer := {
  jzero := mkAbciAnswer jzero;
  to_json r := JObj (required "result" (AbciAnswer_Result r) ++ []);
  of_json := of_object (λ ms, x0 ← jfield ["result"] ms "result"; Some (mkAbciAnswer x0));
}.

Record Client := mkClient { baseURL : string }.
Definition NewClient (url : string) : Client := mkClient (TrimRight_slash url).
(** A text between double quotes. *)
Definition quoted (s : string) : string := String dquote (s +:+ String dquote "").
Definition query_url (c : Client) (path : string) : string :=
  baseURL c +:+ "/abci_query?path=" +:+ QueryEscape (quoted path).
Definition broadcast_url (c : Client) (txBytes : string) : string :=
  baseURL c +:+ "/broadcast_tx_commit?tx=" +:+ QueryEscape (quoted (b64_encode txBytes)).

Section client.
Context {N Body : Type} `{T : Transport N Body} (parse : string → option json) (c : Client).
Definition Client_ABCIQuery (path : string) : M N string :=
  resp ← wrap_err (λ e, Errorf "abci_query failed: %w" [FErr e]) (Get (query_url c path));
  body ← ReadAll resp;
  result ← or_fail (parse body ≫= unmarshal) (Errorf "failed to parse abci_query response: %w" [FErr json_error]);
  let r := AbciResult_Response (AbciAnswer_Result result) in
  fail_if (negb (AbciResponse_Code r =? 0)) (Errorf "abci_query error (code %d): %s" [FInt (AbciResponse_Code r); FStr (AbciResponse_Log r)]) ;;
  or_fail (base64_DecodeString (AbciResponse_Value r)) (Errorf "failed to decode response value: %w" [FErr base64_error]).
Definition Client_BroadcastTx (txBytes : string) : M N string :=
  resp ← wrap_err (λ e, Errorf "broadcast_tx_commit failed: %w" [FErr e]) (Get (broadcast_url c txBytes));
  ReadAll resp.
Definition Client_Status : M N string :=
  resp ← Get (baseURL c +:+ "/status"); ReadAll resp.
(** The client is a node for the voting API, which looks at the documents it answers. *)
Definition Client_Broadcaster : Broadcaster N := {|
  ABCIQuery path := d ← Client_ABCIQuery path; mret (parse d);
  BroadcastTx tx := d ← Client_BroadcastTx (from_option json_text "" tx); mret (parse d);
  Status := d ← Client_Status; mret (parse d);
|}.

(** ** The API of the transfer protocol *)
(** The bytes of a [writeJSON] or the error of a [writeError]. *)
Inductive Answer := AnswerJSON (data : string) | AnswerError (code : Z) (e : error).
#[local] Open Scope http_scope.
Definition health : M N Answer :=
  status ⇐ attempt Client_Status (λ _, AnswerError 503 (Errorf "node unreachable" []));
  mret (AnswerJSON status).
(** What every read handler does with its path. *)
Definition get (path : string) : M N Answer :=
  data ⇐ attempt (Client_ABCIQuery path) (AnswerError 404);
  mret (AnswerJSON data).
Definition getAsset (assetID : string) : M N Answer := get ("/asset/" +:+ assetID).
Definition getSupply (assetID : string) : M N Answer := get ("/supply/" +:+ assetID).
Definition getBalance (assetID commitment : string) : M N Answer := get ("/balance/" +:+ assetID +:+ "/" +:+ commitment).
Definition getTransfer (transferID : string) : M N Answer := get ("/transfer/" +:+ transferID).
Definition getContract (contractID : string) : M N Answer := get ("/contract/" +:+ contractID).
Definition getContractExecution (executionID : string) : M N Answer := get ("/contract/execution/" +:+ executionID).
Definition listCustodyPolicies : M N Answer := get "/custody/policies".
Definition getCurrentCustodyPolicy : M N Answer := get "/custody/policies/current".
Definition getCustodyPolicy (policyID : string) : M N Answer := get ("/custody/policies/" +:+ policyID).
Definition listCustodyOperators : M N Answer := get "/custody/operators".
Definition getCustodyOperator (operatorID : string) : M N Answer := get ("/custody/operators/" +:+ operatorID).
Definition listCustodySkuClasses : M N Answer := get "/custody/skus".
Definition getCustodySkuClass (skuClassID : string) : M N Answer := get ("/custody/skus/" +:+ skuClassID).
Definition listCustodyLots : M N Answer := get "/custody/lots".
Definition getCustodyLot (lotID : string) : M N Answer := get ("/custody/lots/" +:+ lotID).
Definition listCustodyRedemptions : M N Answer := get "/custody/redemptions".
Definition getCustodyRedemption (requestID : string) : M N Answer := get ("/custody/redemptions/" +:+ requestID).
Definition listCustodySettlements : M N Answer := get "/custody/settlements".
Definition getCustodySettlement (settlementID : string) : M N Answer := get ("/custody/settlements/" +:+ settlementID).
Definition listCustodyDemurrage : M N Answer := get "/custody/demurrage".
Definition getCustodyDemurrage (assessmentID : string) : M N Answer := get ("/custody/demurrage/" +:+ assessmentID).

(** Every write handler: the [tx] of the body goes to the node as it is. *)
Definition broadcastTx (body : option json) : M N Answer :=
  b ⇐ need (body ≫= unmarshal) (AnswerError 400 (Errorf "invalid request body" []));
  _ ⇐ answer_if (str_empty (TxBody_Tx b)) (AnswerError 400 (Errorf "missing tx field" []));
  result ⇐ attempt (Client_BroadcastTx (TxBody_Tx b)) (AnswerError 500);
  mret (AnswerJSON result).
End client.

(** * Theorems *)
(** ** Paths in URLs *)
Lemma QueryEscape_byte c t : ∃ u, QueryEscape (String c t) = u +:+ QueryEscape t ∧
  ∀ r, QueryUnescape (u +:+ r) = (λ x, String c x) <$> QueryUnescape r.
Proof.
  destruct (unreserved (N_of_ascii c)) eqn:Eu; [|destruct (N_of_ascii c =? 32)%N eqn:Eb].
  - exists (String c ""). cbn [QueryEscape]. rewrite Eu. split; [done|]. intros r.
    destruct c as [[] [] [] [] [] [] [] []]; try discriminate Eu; cbv [String.append]; cbn; by destruct (QueryUnescape r).
  - exists "+". cbn [QueryEscape]. rewrite Eu, Eb. split; [done|]. intros r.
    destruct c as [[] [] [] [] [] [] [] []]; try discriminate Eb; cbv [String.append]; cbn; by destruct (QueryUnescape r).
  - exists (String "%" (String (HEX_digit (N_of_ascii c / 16)) (String (HEX_digit (N_of_ascii c mod 16)) ""))).
    cbn [QueryEscape]. rewrite Eu, Eb. split; [done|]. intros r.
    destruct c as [[] [] [] [] [] [] [] []]; cbv [String.append]; cbn; by destruct (QueryUnescape r).
Qed.
(** What the client puts into a URL is what the node reads out of it. *)
Lemma query_escape_roundtrip (s : string) : QueryUnescape (QueryEscape s) = Some s.
Proof.
  induction s as [|c s IH]; [done|]. destruct (QueryEscape_byte c s) as (u & -> & Hu). by rewrite Hu, IH.
Qed.
#[export] Instance QueryEscape_inj : Inj (=) (=) QueryEscape.
Proof. intros s t H. apply (f_equal QueryUnescape) in H. rewrite !query_escape_roundtrip in H. by injection H. Qed.
(** Two paths never share a URL. *)
Lemma query_url_inj c p q : query_url c p = query_url c q → p = q.
Proof.
  unfold query_url, quoted. intros H. apply (inj (String.append _)), (inj (String.append _)), (inj QueryEscape) in H.
  injection H as H. apply str_app_inj_len in H as [H _]; [done|]. apply (f_equal String.length) in H. rewrite !str_app_length in H. lia.
Qed.

(** ** The node's answers *)
Definition AbciResponse_ok (r : AbciResponse) : Prop := int64_ok (AbciResponse_Code r).
#[export] Instance roundtrip_AbciResponse : JsonRoundTrip AbciResponse AbciResponse_ok.
Proof. struct_roundtrip Json_AbciResponse. Qed.
Definition AbciResult_ok (r : AbciResult) : Prop := AbciResponse_ok (AbciResult_Response r).
#[export] Instance roundtrip_AbciResult : JsonRoundTrip AbciResult AbciResult_ok.
Proof. struct_roundtrip Json_AbciResult. Qed.
Definition AbciAnswer_ok (r : AbciAnswer) : Prop := AbciResult_ok (AbciAnswer_Result r).
#[export] Instance roundtrip_AbciAnswer : JsonRoundTrip AbciAnswer AbciAnswer_ok.
Proof. struct_roundtrip Json_AbciAnswer. Qed.

(** ** The API over the chain *)
Section api.
Context {N Body : Type} `{T : Transport N Body} (parse : string → option json) (render : error → string) (c : Client).

(** The document of a node that answers a query with [q]; the value is its text in base64. *)
Definition rpc_document (q : ResponseQuery) : json :=
  to_json (mkAbciAnswer (mkAbciResult (mkAbciResponse (Query_Code q)
    (from_option render "" (Query_Log q)) (from_option (λ v, b64_encode (json_text v)) "" (Query_Value q))))).
(** The node, in state [n], answers the URL of a path with what a ledger in state [s] says. *)
Definition serves (s : State) (path : string) (n : N) : Prop :=
  ∃ b t, Get (query_url c path) n = (Ok b, n) ∧ ReadAll b n = (Ok t, n) ∧ parse t = Some (rpc_document (QueryResponse s path)).
Lemma ABCIQuery_served s path n : serves s path n →
  Client_ABCIQuery parse c path n =
  match Query s path with
  | inr v => (Ok (json_text v), n)
  | inl e => (Fail (Errorf "abci_query error (code %d): %s" [FInt 5; FStr (from_option render "" (wrap_log "query failed: %v" e))]), n)
  end.
Proof.
  intros (b & t & Hg & Hr & Hp). unfold Client_ABCIQuery. rewrite bind_run. unfold wrap_err. rewrite Hg, bind_run, Hr, bind_run, Hp.
  cbn [mbind option_bind]. unfold rpc_document, unmarshal, QueryResponse.
  destruct (Query s path) as [e|v]; (rewrite of_to_json by done); [done|].
  mrun. cbn [AbciAnswer_Result AbciResult_Response AbciResponse_Value AbciResponse_Code Query_Value from_option].
  by rewrite base64_decode_encode.
Qed.
(** A read of the API answers the record of the ledger, or 404 with the ledger's reason. *)
Theorem api_reads_ledger (s : State) (path : string) (n : N) : serves s path n →
  get parse c path n = (Ok match Query s path with
    | inr v => AnswerJSON (json_text v)
    | inl e => AnswerError 404 (Errorf "abci_query error (code %d): %s" [FInt 5; FStr (from_option render "" (wrap_log "query failed: %v" e))])
    end, n).
Proof. intros Hs. unfold get. rewrite attempt_run, (ABCIQuery_served _ _ _ Hs). by destruct (Query s path). Qed.
(** A contract execution is never found, whatever executions the ledger holds: the path of
    the API is read as that of a contract. *)
Theorem api_never_finds_execution (s : State) (id : string) (n : N) :
  contracts s !! ("execution/" +:+ id) = None → serves s ("/contract/execution/" +:+ id) n →
  ∃ e, getContractExecution parse c id n = (Ok (AnswerError 404 e), n).
Proof.
  intros Hc Hs. unfold getContractExecution, get. rewrite attempt_run, (ABCIQuery_served _ _ _ Hs).
  rewrite contract_execution_unreachable by done. by eexists.
Qed.
(** A node that cannot be reached is answered as a record that does not exist. *)
Theorem api_unreachable_not_found (path : string) (n n' : N) e :
  Get (Body := Body) (query_url c path) n = (Fail e, n') →
  get parse c path n = (Ok (AnswerError 404 (Errorf "abci_query failed: %w" [FErr e])), n').
Proof. intros Hg. unfold get. rewrite attempt_run. unfold Client_ABCIQuery. rewrite bind_run. unfold wrap_err. by rewrite Hg. Qed.
(** A write hands the text of the body to the node, encoded once more and not looked at. *)
Lemma broadcastTx_forwards body (b : TxBody) n : body ≫= unmarshal = Some b → TxBody_Tx b ≠ "" →
  broadcastTx c body n =
  or_answer (attempt (Client_BroadcastTx c (TxBody_Tx b)) (AnswerError 500)) (λ r, mret (AnswerJSON r)) n.
Proof.
  intros Hb Hne. unfold broadcastTx. rewrite need_run, Hb, answer_if_run. unfold str_empty. by rewrite bool_decide_false.
Qed.
End api.

(** ** A node over the deployment of [WireDemo] *)
Import WireDemo.
Definition node_client : Client := NewClient "http://node:26657/".
Definition demo_render (e : error) : string := "refused".
(** The path in a query URL. *)
Definition queried (url : string) : option string :=
  path ← QueryUnescape (trim_prefix url (baseURL node_client +:+ "/abci_query?path="));
  Some (str_take (String.length path - 2) (str_drop 1 path)).
#[export] Instance demo_transport : Transport State string := {
  Get url := λ n, (Ok url, n);
  ReadAll url := λ n, match queried url with
    | Some path => (Ok (json_text (rpc_document demo_render (QueryResponse n path))), n)
    | None => (Fail (Errorf "EOF" []), n)
    end;
}.
(** A parser of the documents at hand. *)
Definition node_parse (paths : list string) (t : string) : option json :=
  List.find (λ j, bool_decide (json_text j = t)) ((λ path, rpc_document demo_render (QueryResponse w_custody path)) <$> paths).
Example demo_reads :
  (getSupply (node_parse ["/supply/silo"]) node_client "silo" w_custody).1 =
  Ok (match Query w_custody "/supply/silo" with inr v => AnswerJSON (json_text v) | inl e => AnswerError 500 e end).
Proof. by vm_compute. Qed.
Lemma demo_serves path paths : queried (query_url node_client path) = Some path →
  node_parse paths (json_text (rpc_document demo_render (QueryResponse w_custody path))) =
    Some (rpc_document demo_render (QueryResponse w_custody path)) →
  serves (node_parse paths) demo_render node_client w_custody path w_custody.
Proof. intros Hq Hp. eexists _, _. split; [reflexivity|]. split; [|exact Hp]. unfold ReadAll, demo_transport. by rewrite Hq. Qed.

Lemma api_reads_ledger_witness : ∃ v, Query w_custody "/supply/silo" = inr v ∧
  get (node_parse ["/supply/silo"]) node_client "/supply/silo" w_custody = (Ok (AnswerJSON (json_text v)), w_custody).
Proof.
  destruct (Query w_custody "/supply/silo") as [e|v] eqn:E; [by vm_compute in E|]. exists v. split; [done|].
  rewrite (api_reads_ledger (node_parse ["/supply/silo"]) demo_render node_client w_custody "/supply/silo" w_custody); [by rewrite E|].
  apply demo_serves; by vm_compute.
Defined.
Lemma api_never_finds_execution_witness : ∃ e,
  getContractExecution (node_parse ["/contract/execution/e1"]) node_client "e1" w_custody = (Ok (AnswerError 404 e), w_custody).
Proof.
  apply (api_never_finds_execution (node_parse ["/contract/execution/e1"]) demo_render node_client w_custody "e1" w_custody); [by vm_compute|].
  apply demo_serves; by vm_compute.
Defined.
